(* ===== verification/_CoqProject ===== *)
-Q . S2P
Prelude.v
Num.v
Random.v
Linalg.v
Detectors.v
Alerts.v
Json.v
PcaModel.v
Strconv.v
Trainer.v
BatchIterator.v
Hpo.v
JobState.v
JobManager.v
ModelCache.v
DbPool.v
Generator.v
Scorer.v
SqlText.v
Sql.v
DbClient.v
DbFacts.v
Workers.v
ScoreJob.v
ScoreStore.v
Queries.v
QueryFacts.v
Analytics.v
AnalyticsFacts.v
TimeRange.v
Http.v
Handlers.v
HandlerFacts.v
Inference.v
TrainJob.v
Tuning.v
Requests.v
RequestFacts.v
ModelDetail.v
DetailFacts.v
Reconciler.v
Obs.v
Metrics.v
Routes.v
Retention.v
Schema.v
SqlExec.v
Prepared.v
PreparedReads.v
QueryText.v
QueryExec.v
JoinReads.v
ScoreRun.v
Pipeline.v
Server.v
Programs.v
