(* ===== verification/Prelude.v ===== *)
(** Telemetry systems lab: a verification library of the C++ services.

    The program (src/src/) generates synthetic telemetry, stores it in
    PostgreSQL, trains PCA models on it, scores records with a statistical and
    a PCA detector, fuses the two into alerts, and runs all of this as
    background jobs behind an HTTP API.  This library translates its core into
    executable definitions and proves what makes each part correct.  Names
    follow the code; a method [C::m] is the definition [m] of the file that
    models class [C].

    Conventions.  An exception is a value of [res]; an execution that C++ leaves
    undefined is [undefined] ([Exn Undefined]), which no [catch] sees.  Machine
    integers are [Z], wrapped ([to_size_t], 32-bit casts) where the code can
    wrap them.  Numbers ([double]) are the operations of class [Num]; theorems
    that hold for any arithmetic quantify over it, those that need the order of
    doubles use [NumOrder] or the instance for IEEE binary64 ([Num.binary64]).
    A loop that is not structural takes fuel; each such loop has a theorem that
    a stated amount of fuel is enough.  Threads are interleavings of the
    critical sections of the code, as a step relation or a list of operations.
    Code outside the repository is a parameter: the mathematical library
    ([Libm]), random engines ([Rng], [RealRng]), number and JSON printing and
    parsing ([FloatFmt], [JsonText]), the database server ([Postgres],
    [PgInput], [PositionalScan]), the quoting of its client library ([Quoting])
    and the faults that hit a call to it ([Call], [ApiEnv]); each class has a
    concrete instance with which the witnesses evaluate.

    The files, each requiring those it calls:
    - Prelude (this file): results, loops that throw, sorting and order
      statistics, integer widths, list lemmas; Num: numbers; Random: engines;
      Strconv: [std::stoi] and friends; Json: nlohmann::json values and typed
      access.
    - Linalg (linalg/matrix.cpp): matrices, the Jacobi eigen-solver, [argsort].
      Products equal dot products, transposition is an involution, the sort
      orders and is stable.
    - Detectors (types.h, contract.h, detector_config.h, preprocessing.cpp,
      detectors/detector_a.cpp): records, features and the sliding-window
      detector.  The window is the accepted recent history; an anomaly is
      reported exactly for an outlying warm feature; the robust statistics are
      order statistics.
    - Alerts (alert_manager.cpp): fusion, hysteresis, cooldown.  The state
      machine implements a specification on histories of evaluations.
    - PcaModel (detectors/pca_model.cpp): loading and scoring; Trainer
      (training/pca_trainer.cpp): training and artifacts.  A trained model flags
      only the tail of its training data; write and load round-trip.
    - BatchIterator (training/telemetry_iterator.cpp): the keyset pagination
      training reads through, with its swallowed errors.
    - Hpo (training/pca_trainer.cpp): hyperparameter spaces, validation,
      candidates and fingerprints.
    - JobState (job_state_machine.cpp); JobManager (job_manager.cpp): job threads
      as a transition relation, with the invariants of slots, statuses and
      shutdown.
    - ModelCache (pca_model_cache.cpp): the LRU cache, equal to loading
      directly, within its limits under any interleaving.
    - DbPool (db_connection_manager.cpp): the connection pool with its condition
      variable.
    - Generator (generator.cpp): records, the run and its writer queue.
    - Scorer (scorer_main.cpp): gating, sharding and the scoring of one record.
    - Sql (statements, constraints, transactions), DbClient (db_client.cpp: the
      calls, each one transaction on a store of tables) and DbFacts: deletion
      of a dataset, compare-and-swap transitions, heartbeats and sweeps.
    - Workers: computations of client calls that may each fail; ScoreJob: the
      scoring job (api_server.cpp), proved against the interface [ScoreDb] with
      its laws; ScoreStore: the store of DbClient satisfies the laws.
    - Queries and Analytics: the reading half of db_client.cpp, SELECT by SELECT,
      on a server ([Server], [Aggregates]) that may return rows that compare equal
      in any order.  QueryFacts: pages are slices of one ranking; AnalyticsFacts:
      top-k, histogram and evaluation curves.  TimeRange (time_resolution.h,
      db_client.cpp): windows, buckets, time stamps.
    - Http (requests, responses, error classes of api_server.cpp) and Handlers
      (its reading handlers); HandlerFacts: they always answer and never write.
    - Inference: POST /inference.  TrainJob: the job of RunPcaTraining, with its
      outcome in the database.  Tuning: OrchestrateTuning, a job that launches
      trials through the job manager and polls their ends; the other threads act
      during its pauses.  Requests and RequestFacts: the routes that start,
      cancel or repeat jobs, over the store and the job manager.  ModelDetail and
      DetailFacts: GET /models/:id and the selection of the best trial.
    - Reconciler (job_reconciler.cpp): the sweeper thread and [Stop], interleaved
      at their atomic accesses.
    - Obs (obs/): the context of a thread, log lines and the log scope of a
      request.  A request logs its start and one outcome; text that is not
      UTF-8 ends the process.  Metrics (metrics.h, obs/metrics.h): the registry
      holds, series by series, what was recorded.
    - Routes (api_server.cpp, route_registry.cpp): the registered patterns and
      their dispatch, equal to matching regular expressions in any order.
    - Retention (db_client.cpp with the procedure of src/db/migrations/): the
      cleanup, refused by the server, and the monthly partitions.
    - Schema (src/db/init.sql): the types of the columns and the keys.  Every
      call of DbClient that writes keeps the store well formed, so no read of a
      reachable store fails to convert.
    - SqlText (the texts of DbClient::PrepareStatements, with a lexer and a
      parser) and SqlExec (their execution, with every check of the server);
      Prepared and PreparedReads (db_client.cpp): each call as the statements it
      executes, with its arguments in order and the rows it streams, and each
      getter as positions in the rows of its SELECT.  The texts implement the
      calls of DbClient, run by run, and the getters of DbClient and Queries.
      QueryText (the queries db_client.cpp builds at run time): whatever texts the
      caller gives, the server reads the same statement.  QueryExec and JoinReads:
      executing the texts of the lists, of the search and of the two queries that
      join tables answers what Queries and Analytics say.
    - ScoreRun: the score job when no call fails: it completes, and its row says
      so.  Pipeline: the training job, its artifact file, the cache and the score
      job composed: a dataset is scored with exactly the model trained on it.
    - Server (set-up of api_server.cpp and its own routes): what a process
      reads, builds and recovers before its first request.  Programs: the
      command-line trainer, the benchmark and the scorer from their arguments
      to their exit codes and printed counters, and what the two servers read.

    Bounds and fuel.  [score_loop] needs one unit per record plus one;
    [for_each] one per batch plus one, so a training pass gets the number of
    rows plus two; [time_loop] one per tick plus one; [tune_loop] polls until its
    trials have ended, so its fuel is the number of pauses until then plus one
    per trial plus two; the Jacobi loop uses the iteration cap of the code (200);
    sorting and eviction recurse on their data.

    Not modelled.  The HTTP and gRPC libraries with their listening loops and
    the encoding of messages, which the sources only call.  The queries that
    aggregate (analytics, trial summaries), GetScores and the list of distinct
    values are translated by hand in Queries and Analytics; their texts are
    not executed.  Whether a text is UTF-8 is decided where it is
    logged ([Obs.utf8]); in the bodies of answers it is taken to be.  That a
    text is the syntax of a uuid, where a column has that type, is not
    checked.  [std::stod], uuids, the clock and thread creation are
    parameters.  Nothing is said about the numerical convergence of the Jacobi
    method or the distribution of random draws, about which the code promises
    nothing that can be stated exactly. *)
From stdpp Require Import base gmap strings list fin_maps numbers pretty.
From Stdlib Require Import ZArith Lia Ascii Sorting.Sorted.

(** ** C++ exceptions

    The source tells exceptions apart by their class (the [catch] clauses of
    src/src/api_server.cpp) and by their [what()] text.  [Undefined] is no
    exception: it marks an execution that the language leaves undefined (an
    out-of-range [operator[]], say), which no [catch] clause handles. *)
Inductive exn_kind :=
  | RuntimeError | InvalidArgument | StdOutOfRange
  | JsonParseError | JsonOutOfRange | JsonTypeError
  | PqBrokenConnection | PqSqlError | OtherException | Undefined.

Record exn := Exn { exn_class : exn_kind; exn_what : string }.

#[global] Instance exn_kind_eq_dec : EqDecision exn_kind.
Proof. solve_decision. Defined.
#[global] Instance exn_eq_dec : EqDecision exn.
Proof. solve_decision. Defined.

(** Decidable facts on concrete values, by computation. *)
Ltac by_deciding := apply (bool_decide_unpack _); vm_compute; exact I.

(** An element of a list that is written out. *)
Ltac among := repeat first [apply list_elem_of_here | apply list_elem_of_further].

(** A fallible computation: a value or a thrown exception. *)
Inductive res (A : Type) := Ok (a : A) | Throw (e : exn).
Arguments Ok {A} a.
Arguments Throw {A} e.

#[global] Instance res_ret : MRet res := fun A a => Ok a.
#[global] Instance res_bind : MBind res := fun A B f m =>
  match m with Ok a => f a | Throw e => Throw e end.
#[global] Instance res_fmap : FMap res := fun A B f m =>
  match m with Ok a => Ok (f a) | Throw e => Throw e end.

Definition runtime_error {A} (msg : string) : res A := Throw (Exn RuntimeError msg).
Definition invalid_argument {A} (msg : string) : res A := Throw (Exn InvalidArgument msg).
Definition undefined {A} (what : string) : res A := Throw (Exn Undefined what).
(** Does a [catch (const std::exception&)] clause see it? *)
Definition catchable (e : exn) : bool := negb (bool_decide (exn_class e = Undefined)).
Arguments runtime_error {A} msg%_string.
Arguments undefined {A} what%_string.
Arguments invalid_argument {A} msg%_string.
Arguments Exn exn_class exn_what%_string.

Definition is_ok {A} (m : res A) : bool := match m with Ok _ => true | Throw _ => false end.

Lemma bind_ok {A B} (m : res A) (f : A -> res B) (b : B) :
  m ≫= f = Ok b -> exists a, m = Ok a /\ f a = Ok b.
Proof. destruct m; cbn; [eauto | discriminate]. Qed.

(** A loop over a range whose body may throw, with its state, and its special
    case that collects one value per element. *)
Fixpoint fold_res {A S} (f : S -> A -> res S) (s : S) (l : list A) : res S :=
  match l with
  | [] => Ok s
  | x :: l' => s' ← f s x; fold_res f s' l'
  end.
Fixpoint mapR {A B} (f : A -> res B) (l : list A) : res (list B) :=
  match l with
  | [] => Ok []
  | x :: l' => y ← f x; ys ← mapR f l'; Ok (y :: ys)
  end.

Lemma mapR_length {A B} (f : A -> res B) xs ys : mapR f xs = Ok ys -> length ys = length xs.
Proof.
  revert ys. induction xs as [|x xs IH]; cbn; intros ys Hys; [by simplify_eq|].
  apply bind_ok in Hys as (y & _ & Hys). apply bind_ok in Hys as (ys' & Hys' & Hys). simplify_eq. cbn.
  f_equal. auto.
Qed.
Lemma mapR_fmap {A B C} (f : B -> res C) (g : A -> B) (h : A -> C) (xs : list A) :
  (forall x, x ∈ xs -> f (g x) = Ok (h x)) -> mapR f (g <$> xs) = Ok (h <$> xs).
Proof.
  induction xs as [|x xs IH]; intros Hx; [done|]. cbn. rewrite Hx by left.
  cbn. rewrite IH; [done|]. intros; apply Hx. by right.
Qed.
Lemma mapR_lookup {A B} (f : A -> res B) xs ys i x :
  mapR f xs = Ok ys -> xs !! i = Some x -> exists y, ys !! i = Some y /\ f x = Ok y.
Proof.
  revert ys i. induction xs as [|x' xs IH]; cbn; intros ys i Hys Hi; [done|].
  apply bind_ok in Hys as (y & Hy & Hys). apply bind_ok in Hys as (ys' & Hys' & Hys). simplify_eq.
  destruct i as [|i]; cbn in *; [simplify_eq; eauto|eauto].
Qed.
Lemma mapR_is_ok {A B} (f : A -> res B) (xs : list A) ys : mapR f xs = Ok ys -> forall x, x ∈ xs -> is_ok (f x) = true.
Proof.
  intros Hm x [i Hi]%list_elem_of_lookup. destruct (mapR_lookup f xs ys i x Hm Hi) as (y & _ & Hy). by rewrite Hy.
Qed.
Lemma mapR_total {A B} (f : A -> res B) (xs : list A) :
  (forall x, x ∈ xs -> is_ok (f x) = true) -> exists ys, mapR f xs = Ok ys.
Proof.
  induction xs as [|x xs IH]; intros Hx; [by exists []|]. cbn [mapR].
  pose proof (Hx x (list_elem_of_here x xs)) as Hf. destruct (f x) as [y|]; [|done]. cbn [mbind res_bind].
  destruct IH as [ys ->]; [intros; apply Hx; by right|]. by exists (y :: ys).
Qed.
(** Pushing one result per element is collecting them. *)
Lemma fold_res_push {A B} (f : A -> res B) acc xs :
  fold_res (fun acc x => y ← f x; Ok (acc ++ [y])) acc xs = (ys ← mapR f xs; Ok (acc ++ ys)).
Proof.
  revert acc. induction xs as [|x xs IH]; intros acc; cbn; [by rewrite app_nil_r|].
  destruct (f x) as [y|]; cbn; [|done]. rewrite IH. destruct (mapR f xs); cbn; [|done].
  by rewrite <- app_assoc.
Qed.
(** The loop rule: what holds of the processed prefix. *)
Lemma fold_res_ind {A S} (P : list A -> S -> Prop) (f : S -> A -> res S) s s' xs :
  P [] s ->
  (forall l x s s', P l s -> f s x = Ok s' -> P (l ++ [x]) s') ->
  fold_res f s xs = Ok s' -> P xs s'.
Proof.
  intros H0 Hstep. change xs with ([] ++ xs) at 2. revert s H0. generalize (@nil A) as l.
  induction xs as [|x xs IH]; intros l s Hl; cbn.
  - intros [= ->]. by rewrite app_nil_r.
  - intros (s1 & Hs1 & Hf)%bind_ok. rewrite cons_middle, app_assoc. eauto.
Qed.

(** ** Counted loops

    [for_ lo hi body s] is [for (i = lo; i < hi; ++i) s = body(i, s)]. *)
Definition for_ {S : Type} (lo hi : nat) (body : nat -> S -> S) (s : S) : S :=
  fold_left (fun s i => body i s) (seq lo (hi - lo)) s.

Lemma for_nil {S} lo hi (body : nat -> S -> S) s : hi <= lo -> for_ lo hi body s = s.
Proof. intros H. unfold for_. replace (hi - lo) with 0 by lia. done. Qed.

Lemma for_last {S} lo hi (body : nat -> S -> S) s :
  lo <= hi -> for_ lo (Datatypes.S hi) body s = body hi (for_ lo hi body s).
Proof.
  intros H. unfold for_. replace (Datatypes.S hi - lo) with (hi - lo + 1) by lia.
  rewrite seq_app, fold_left_app. cbn. by replace (lo + (hi - lo)) with hi by lia.
Qed.

(** The loop rule: an invariant indexed by the counter. *)
Lemma for_ind {S} (P : nat -> S -> Prop) lo hi (body : nat -> S -> S) s :
  lo <= hi ->
  P lo s ->
  (forall i s, lo <= i < hi -> P i s -> P (Datatypes.S i) (body i s)) ->
  P hi (for_ lo hi body s).
Proof.
  intros Hle H0 Hstep. induction hi as [|hi IH].
  - assert (lo = 0) as -> by lia. by rewrite for_nil.
  - destruct (decide (lo = Datatypes.S hi)) as [->|Hne]; [by rewrite for_nil|].
    rewrite for_last by lia. apply Hstep; [lia|]. apply IH; [lia|].
    intros i s' Hi. apply Hstep. lia.
Qed.

Lemma for_ext {S} lo hi (b1 b2 : nat -> S -> S) s :
  (forall i s, lo <= i < hi -> b1 i s = b2 i s) -> for_ lo hi b1 s = for_ lo hi b2 s.
Proof.
  intros H. destruct (decide (lo <= hi)) as [Hle|Hgt]; [|by rewrite !for_nil by lia].
  induction hi as [|hi IH].
  - by rewrite !for_nil by lia.
  - destruct (decide (lo = Datatypes.S hi)) as [->|Hne]; [by rewrite !for_nil|].
    rewrite !for_last by lia. rewrite H by lia. f_equal. apply IH; [|lia].
    intros i s' Hi. apply H. lia.
Qed.

(** ** std::sort and std::nth_element

    [std_sort lt] is the sorting of a range by the comparator [lt] (the source
    passes strict weak orders): a stable insertion sort.  Where the standard
    leaves the order of equivalent elements open, the theorems only use what
    any implementation guarantees: the result is a permutation with no
    adjacent inversion.  [std::nth_element(b, b+k, e)] leaves at [k] the
    element a full sort would put there. *)
Section sorting.
Context {A : Type} (lt : A -> A -> bool).

Fixpoint sort_insert (x : A) (l : list A) : list A :=
  match l with
  | [] => [x]
  | y :: l' => if lt y x then y :: sort_insert x l' else x :: l
  end.
Definition std_sort (l : list A) : list A := foldr sort_insert [] l.
Definition nth_element (l : list A) (k : nat) : option A := std_sort l !! k.

Definition ordered (x y : A) : Prop := lt y x = false.

Lemma sort_insert_perm x l : sort_insert x l ≡ₚ x :: l.
Proof.
  induction l as [|y l IH]; cbn; [done|]. destruct (lt y x); [|done].
  rewrite IH. apply Permutation_swap.
Qed.
Lemma std_sort_perm l : std_sort l ≡ₚ l.
Proof. induction l as [|x l IH]; cbn; [done|]. by rewrite sort_insert_perm, IH. Qed.
Lemma length_std_sort l : length (std_sort l) = length l.
Proof. by rewrite std_sort_perm. Qed.
Lemma Forall_sort_insert (Q : A -> Prop) x l : Q x -> Forall Q l -> Forall Q (sort_insert x l).
Proof. intros. rewrite sort_insert_perm. by constructor. Qed.
Lemma Forall_std_sort (Q : A -> Prop) l : Forall Q l -> Forall Q (std_sort l).
Proof. intros. by rewrite std_sort_perm. Qed.

(** Sortedness, for elements of a class [Q] on which [lt] is a strict weak order. *)
Context (Q : A -> Prop).
Context (lt_asym : forall x y, Q x -> Q y -> lt x y = true -> lt y x = false).
Context (lt_ntrans : forall x y z, Q x -> Q y -> Q z -> lt y x = false -> lt z y = false -> lt z x = false).

Lemma sort_insert_sorted x l :
  Q x -> Forall Q l -> StronglySorted ordered l -> StronglySorted ordered (sort_insert x l).
Proof.
  intros Hx Hl Hs. induction l as [|y l IH]; cbn; [repeat constructor|].
  apply Forall_cons in Hl as [Hy Hl]. apply StronglySorted_inv in Hs as [Hs Hall].
  destruct (lt y x) eqn:E.
  - constructor; [auto|]. rewrite sort_insert_perm. constructor; [|done]. by apply lt_asym.
  - constructor; [by constructor|]. constructor; [done|].
    rewrite Forall_forall in *. intros z Hz. apply (lt_ntrans x y z); auto. by apply Hall.
Qed.

Lemma std_sort_sorted l : Forall Q l -> StronglySorted ordered (std_sort l).
Proof.
  induction l as [|x l IH]; cbn; [constructor|]. intros [Hx Hl]%Forall_cons.
  apply sort_insert_sorted; auto using Forall_std_sort.
Qed.
End sorting.

Lemma StronglySorted_weaken {A} (R R' : A -> A -> Prop) l :
  (forall a b, R a b -> R' a b) -> StronglySorted R l -> StronglySorted R' l.
Proof. intros HR. induction 1; constructor; [done|]. eapply Forall_impl; [done|]. intros b. apply HR. Qed.
Lemma StronglySorted_lookup {A} (R : A -> A -> Prop) l i j x y :
  StronglySorted R l -> i < j -> l !! i = Some x -> l !! j = Some y -> R x y.
Proof.
  intros Hs. revert i j. induction Hs as [|z l Hs IH Hall]; [done|].
  intros [|i] [|j] ? Hi Hj; cbn in *; try lia.
  - simplify_eq. rewrite Forall_forall in Hall. eapply Hall, list_elem_of_lookup_2, Hj.
  - eapply (IH i j); eauto with lia.
Qed.

(** ** Machine integers

    [to_size_t] is the conversion of a signed integer to the 64-bit [size_t]. *)
Definition to_size_t (z : Z) : Z := (z mod 2 ^ 64)%Z.
(** The conversion to a 32-bit [int]. *)
Definition to_int (z : Z) : Z := ((z + 2 ^ 31) mod 2 ^ 32 - 2 ^ 31)%Z.
Definition int_min : Z := (- 2 ^ 31)%Z.
Definition int_max : Z := (2 ^ 31 - 1)%Z.
Lemma to_int_id z : (int_min <= z <= int_max)%Z -> to_int z = z.
Proof. unfold int_min, int_max, to_int. intros. rewrite Z.mod_small; lia. Qed.
Definition zlen {A} (l : list A) : Z := Z.of_nat (length l).

Lemma to_size_t_id z : (0 <= z < 2 ^ 64)%Z -> to_size_t z = z.
Proof. apply Z.mod_small. Qed.
Lemma to_size_t_nonneg z : (0 <= to_size_t z)%Z.
Proof. apply Z.mod_pos_bound. lia. Qed.

(** The last [n] elements of a list. *)
Definition lastn {A} (n : nat) (l : list A) : list A := drop (length l - n) l.

Lemma length_lastn {A} n (l : list A) : length (lastn n l) = Nat.min n (length l).
Proof. unfold lastn. rewrite length_drop. lia. Qed.
Lemma lastn_all {A} n (l : list A) : length l <= n -> lastn n l = l.
Proof. intros. unfold lastn. by replace (length l - n) with 0 by lia. Qed.
Lemma lastn_snoc {A} n (l : list A) x : lastn (S n) (l ++ [x]) = lastn n l ++ [x].
Proof.
  unfold lastn. rewrite length_app. cbn.
  destruct (decide (n <= length l)).
  - replace (length l + 1 - S n) with (length l - n) by lia. by rewrite drop_app_le by lia.
  - replace (length l + 1 - S n) with 0 by lia. by replace (length l - n) with 0 by lia.
Qed.
(** Push at the back, then drop the front when the window overflows. *)
Lemma lastn_push {A} n (l : list A) x :
  (if n <? length (lastn n l ++ [x]) then tail (lastn n l ++ [x]) else lastn n l ++ [x])
  = lastn n (l ++ [x]).
Proof.
  destruct (Nat.ltb_spec n (length (lastn n l ++ [x]))) as [Hlt|Hge];
    rewrite length_app, length_lastn in *; cbn in *.
  - destruct n as [|n].
    + unfold lastn. rewrite !drop_ge by (rewrite ?length_app; cbn; lia). done.
    + rewrite lastn_snoc. assert (S n <= length l) by lia.
      unfold lastn at 1. destruct (drop (length l - S n) l) as [|y t] eqn:E.
      { apply (f_equal length) in E. rewrite length_drop in E. cbn in E. lia. }
      cbn. f_equal. unfold lastn.
      assert (drop (length l - n) l = drop 1 (drop (length l - S n) l)) as ->
        by (rewrite drop_drop; f_equal; lia).
      by rewrite E.
  - rewrite !lastn_all; [done|rewrite length_app; cbn; lia|lia].
Qed.

Lemma filter_all {A} (P : A -> Prop) `{!forall x, Decision (P x)} l : Forall P l -> filter P l = l.
Proof. induction 1 as [|x l Hx _ IH]; [done|]. rewrite filter_cons_True by done. by rewrite IH. Qed.
Lemma filter_none {A} (P : A -> Prop) `{!forall x, Decision (P x)} l :
  Forall (fun x => ~ P x) l -> filter P l = [].
Proof. induction 1 as [|x l Hx _ IH]; [done|]. by rewrite filter_cons_False. Qed.

(** ** Order statistics

    [countb p l] is the number of elements of [l] that satisfy [p]. *)
Definition countb {A} (p : A -> bool) (l : list A) : nat := length (filter (fun x => p x = true) l).
Arguments countb : simpl never.

#[global] Instance countb_perm {A} (p : A -> bool) : Proper ((≡ₚ) ==> eq) (countb p).
Proof. intros l1 l2 Hl. unfold countb. by rewrite Hl. Qed.
Lemma filter_ext_on {A} (p q : A -> bool) (l : list A) : (forall x, x ∈ l -> p x = q x) ->
  filter (fun x => p x = true) l = filter (fun x => q x = true) l.
Proof.
  induction l as [|x l IH]; intros Hpq; [done|]. rewrite !filter_cons, (Hpq x) by left.
  rewrite IH by (intros; apply Hpq; by right). done.
Qed.
Lemma countb_app {A} (p : A -> bool) l1 l2 : countb p (l1 ++ l2) = countb p l1 + countb p l2.
Proof. unfold countb. by rewrite filter_app, length_app. Qed.
Lemma countb_le {A} (p : A -> bool) l : countb p l <= length l.
Proof. apply length_filter. Qed.
Lemma countb_none {A} (p : A -> bool) l : Forall (fun x => p x = false) l -> countb p l = 0.
Proof.
  unfold countb. induction 1 as [|x l Hx Hl IH]; [done|]. rewrite filter_cons_False; [done|congruence].
Qed.
Lemma countb_cons {A} (p : A -> bool) x l : countb p (x :: l) = (if p x then 1 else 0) + countb p l.
Proof.
  unfold countb. destruct (p x) eqn:E;
    [by rewrite filter_cons_True|rewrite filter_cons_False; [done|congruence]].
Qed.

Lemma countb_fmap {A B} (f : A -> B) (p : B -> bool) l : countb p (f <$> l) = countb (fun x => p (f x)) l.
Proof. induction l as [|x l IH]; [done|]. cbn [fmap list_fmap]. rewrite !countb_cons. by rewrite IH. Qed.
Lemma countb_ext {A} (p q : A -> bool) l : Forall (fun x => p x = q x) l -> countb p l = countb q l.
Proof. induction 1 as [|x l Hx _ IH]; [done|]. rewrite !countb_cons. by rewrite Hx, IH. Qed.

(** Changing one element. *)
Lemma countb_alter {A} (p : A -> bool) (f : A -> A) l i x : l !! i = Some x ->
  countb p (alter f i l) + (if p x then 1 else 0) = countb p l + (if p (f x) then 1 else 0).
Proof.
  revert i. induction l as [|y l IH]; intros i Hi; [done|]. destruct i as [|i]; cbn in Hi.
  - simplify_eq. change (alter f 0 (x :: l)) with (f x :: l). rewrite !countb_cons. lia.
  - change (alter f (S i) (y :: l)) with (y :: alter f i l). rewrite !countb_cons. specialize (IH i Hi). lia.
Qed.
Lemma countb_pos {A} (p : A -> bool) l i x : l !! i = Some x -> p x = true -> 0 < countb p l.
Proof.
  intros Hi Hp. rewrite <- (take_drop_middle l i x Hi), countb_app, countb_cons, Hp. lia.
Qed.
Lemma countb_disjoint {A} (p q : A -> bool) l : (forall x, p x = true -> q x = false) ->
  countb p l + countb q l <= length l.
Proof.
  intros Hpq. induction l as [|x l IH]; [done|]. rewrite !countb_cons. cbn [length].
  pose proof (Hpq x) as Hx. destruct (p x), (q x); [by discriminate (Hx eq_refl)|..]; lia.
Qed.
Lemma countb_snoc {A} (p : A -> bool) l x : countb p (l ++ [x]) = countb p l + (if p x then 1 else 0).
Proof. by rewrite countb_app, countb_cons, Nat.add_0_r. Qed.

(** In a sorted list the element at [k] has at most [k] smaller elements and
    at most [length l - k - 1] larger ones. *)
Lemma sorted_rank {A} (lt : A -> A -> bool) l k x :
  lt x x = false -> StronglySorted (ordered lt) l -> l !! k = Some x ->
  countb (fun y => lt y x) l <= k /\ countb (fun y => lt x y) l <= length l - S k.
Proof.
  intros Hirr Hs Hk. pose proof (lookup_lt_Some _ _ _ Hk).
  rewrite <- (take_drop_middle l k x Hk) at 1 2. rewrite !countb_app, !countb_cons, Hirr.
  rewrite (countb_none (fun y => lt y x) (drop (S k) l)).
  - rewrite (countb_none (fun y => lt x y) (take k l)).
    + pose proof (countb_le (fun y => lt y x) (take k l)).
      pose proof (countb_le (fun y => lt x y) (drop (S k) l)).
      rewrite length_take, length_drop in *. lia.
    + apply Forall_forall. intros y Hy.
      apply list_elem_of_lookup in Hy as [i Hi]. apply lookup_take_Some in Hi as [Hi ?].
      by apply (StronglySorted_lookup (ordered lt) l i k y x).
  - apply Forall_forall. intros y Hy.
    apply list_elem_of_lookup in Hy as [i Hi]. rewrite lookup_drop in Hi.
    apply (StronglySorted_lookup (ordered lt) l k (S k + i) x y); [done|lia|done|done].
Qed.

Lemma mapR_cat {A B} (f : A -> res B) l1 l2 :
  mapR f (l1 ++ l2) = (xs ← mapR f l1; ys ← mapR f l2; Ok (xs ++ ys)).
Proof.
  induction l1 as [|x l1 IH]; cbn; [by destruct (mapR f l2)|].
  destruct (f x); [|done]. cbn. rewrite IH. destruct (mapR f l1); [|done]. cbn. by destruct (mapR f l2).
Qed.
Lemma mapR_app {A B} (f : A -> res B) l1 l2 ys1 ys2 :
  mapR f l1 = Ok ys1 -> mapR f l2 = Ok ys2 -> mapR f (l1 ++ l2) = Ok (ys1 ++ ys2).
Proof. intros E1 E2. by rewrite mapR_cat, E1, E2. Qed.

(** Two loops whose bodies agree, element by element. *)
Lemma fold_res_zip {A B S} (R : A -> B -> Prop) (f : S -> A -> res S) (g : S -> B -> res S) xs ys s :
  (forall x y s, R x y -> f s x = g s y) -> Forall2 R xs ys -> fold_res f s xs = fold_res g s ys.
Proof.
  intros Hfg Hxy. revert s. induction Hxy as [|x y xs ys HR _ IH]; intros s; [done|]. cbn. rewrite (Hfg x y s HR).
  destruct (g s y); [apply IH|done].
Qed.

(** ** Texts *)

(** A text without a given character. *)
Fixpoint without (c : ascii) (s : string) : bool :=
  match s with ""%string => true | String a s' => negb (Ascii.eqb a c) && without c s' end.

Lemma without_app c s1 s2 : without c (s1 +:+ s2)%string = without c s1 && without c s2.
Proof.
  induction s1 as [|a s1 IH]; [done|]. change (String a s1 +:+ s2)%string with (String a (s1 +:+ s2)%string).
  cbn [without]. by rewrite IH, andb_assoc.
Qed.
Lemma string_app_assoc (s1 s2 s3 : string) : ((s1 +:+ s2) +:+ s3 = s1 +:+ (s2 +:+ s3))%string.
Proof. induction s1 as [|a s1 IH]; [done|]. change (String a ((s1 +:+ s2) +:+ s3) = String a (s1 +:+ (s2 +:+ s3)))%string. by rewrite IH. Qed.
Lemma string_app_nil (s : string) : (s +:+ "")%string = s.
Proof. induction s as [|c s IH]; [done|]. change (String c (s +:+ "")%string = String c s). by rewrite IH. Qed.
