(* ===== verification/Num.v ===== *)
(** The numbers of the program: C++ [double].

    Numeric code is written once over the class [Num] of the operations the
    source uses, in the order the source applies them.  [binary64] is the
    program's instance: Rocq's primitive IEEE-754 binary64 floats, so every
    definition evaluates to the value the C++ code computes (round to nearest
    even, NaN compares false, signed zeros).  [NumOrder] states the laws of its
    comparisons; a value is [nonnan] when it equals itself. *)
From stdpp Require Import base numbers list sorting.
From Stdlib Require Import ZArith Lia Sorting.Sorted.
From Stdlib Require Import Floats.
From S2P Require Import Prelude.

Declare Scope num_scope.
Delimit Scope num_scope with num.

(** [nofZ] is [static_cast<double>] of an integer; [nceil] and [ntrunc] are
    [static_cast<size_t>] of [std::ceil(x)] and of [x] itself. *)
Class Num (F : Type) := {
  nadd : F -> F -> F; nsub : F -> F -> F; nmul : F -> F -> F; ndiv : F -> F -> F;
  nopp : F -> F; nabs : F -> F; nsqrt : F -> F;
  nltb : F -> F -> bool; nleb : F -> F -> bool; neqb : F -> F -> bool;
  nofZ : Z -> F; nceil : F -> Z; ntrunc : F -> Z }.

Infix "+" := nadd : num_scope.
Infix "-" := nsub : num_scope.
Infix "*" := nmul : num_scope.
Infix "/" := ndiv : num_scope.
Infix "<?" := nltb : num_scope.
Infix "<=?" := nleb : num_scope.
Infix "=?" := neqb : num_scope.
Notation "0" := (nofZ 0) : num_scope.
Notation "1" := (nofZ 1) : num_scope.

(** A decimal literal [n/d] with [n], [d] below [2^53]: both are exact in
    binary64 and IEEE division rounds correctly, so the quotient is the double
    the C++ literal denotes. *)
Definition nlit {F} `{Num F} (n d : Z) : F := (nofZ n / nofZ d)%num.

(** [std::max(a, b)] is [(a < b) ? b : a] and [std::min(a, b)] is [(b < a) ? b : a]. *)
Definition std_max {F} `{Num F} (a b : F) : F := if (a <? b)%num then b else a.
Definition std_min {F} `{Num F} (a b : F) : F := if (b <? a)%num then b else a.

Definition nonnan {F} `{Num F} (x : F) : Prop := (x =? x)%num = true.

Class NumOrder (F : Type) `{Num F} := {
  nltb_irrefl (x : F) : (x <? x)%num = false;
  nltb_trans (x y z : F) : (x <? y)%num = true -> (y <? z)%num = true -> (x <? z)%num = true;
  neqb_sym (x y : F) : (x =? y)%num = true -> (y =? x)%num = true;
  neqb_trans (x y z : F) : (x =? y)%num = true -> (y =? z)%num = true -> (x =? z)%num = true;
  neqb_nltb (x y z : F) : (x =? y)%num = true -> (y <? z)%num = true -> (x <? z)%num = true;
  nltb_neqb (x y z : F) : (x <? y)%num = true -> (y =? z)%num = true -> (x <? z)%num = true;
  nltb_nonnan (x y : F) : (x <? y)%num = true -> nonnan x /\ nonnan y;
  nleb_spec (x y : F) : (x <=? y)%num = (x <? y)%num || (x =? y)%num;
  num_total (x y : F) : nonnan x -> nonnan y ->
    (x <? y)%num = true \/ (x =? y)%num = true \/ (y <? x)%num = true;
  nofZ_nonnan0 : nonnan (0%num : F) }.

Section order.
Context {F : Type} `{NumOrder F}.
Implicit Types x y z : F.

Lemma neqb_nonnan x y : (x =? y)%num = true -> nonnan x /\ nonnan y.
Proof.
  intros Hxy. pose proof (neqb_sym _ _ Hxy). split; unfold nonnan; eauto using neqb_trans.
Qed.

Lemma nltb_asym x y : (x <? y)%num = true -> (y <? x)%num = false.
Proof.
  intros Hxy. destruct (y <? x)%num eqn:E; [|done].
  pose proof (nltb_trans _ _ _ Hxy E) as Hxx. by rewrite nltb_irrefl in Hxx.
Qed.

Lemma neqb_not_nltb x y : (x =? y)%num = true -> (x <? y)%num = false.
Proof.
  intros Hxy. destruct (x <? y)%num eqn:E; [|done].
  pose proof (neqb_nltb _ _ _ (neqb_sym _ _ Hxy) E) as Hyy. by rewrite nltb_irrefl in Hyy.
Qed.

Lemma nltb_false_nleb x y : nonnan x -> nonnan y -> (x <? y)%num = false -> (y <=? x)%num = true.
Proof.
  intros Hx Hy Hf. rewrite nleb_spec. destruct (num_total x y Hx Hy) as [E|[E|E]].
  - congruence.
  - rewrite (neqb_sym _ _ E). apply orb_true_r.
  - by rewrite E.
Qed.

Lemma nleb_nltb_false x y : (x <=? y)%num = true -> (y <? x)%num = false.
Proof.
  rewrite nleb_spec. intros [E|E]%orb_true_iff; [by apply nltb_asym|].
  apply neqb_not_nltb, neqb_sym, E.
Qed.

Lemma nleb_trans x y z : (x <=? y)%num = true -> (y <=? z)%num = true -> (x <=? z)%num = true.
Proof.
  rewrite !nleb_spec, !orb_true_iff.
  intros [E1|E1] [E2|E2]; eauto using nltb_trans, neqb_nltb, nltb_neqb, neqb_trans.
Qed.

Lemma nltb_nleb x y : (x <? y)%num = true -> (x <=? y)%num = true.
Proof. rewrite nleb_spec. by intros ->. Qed.

Lemma nleb_nltb_trans x y z : (x <=? y)%num = true -> (y <? z)%num = true -> (x <? z)%num = true.
Proof. rewrite nleb_spec, orb_true_iff. intros [E1|E1]; eauto using nltb_trans, neqb_nltb. Qed.

Lemma nltb_nleb_trans x y z : (x <? y)%num = true -> (y <=? z)%num = true -> (x <? z)%num = true.
Proof. rewrite (nleb_spec y), orb_true_iff. intros ? [E1|E1]; eauto using nltb_trans, nltb_neqb. Qed.

Lemma nleb_nonnan x y : (x <=? y)%num = true -> nonnan x /\ nonnan y.
Proof. rewrite nleb_spec, orb_true_iff. intros [E|E]; eauto using nltb_nonnan, neqb_nonnan. Qed.

Lemma nleb_refl x : nonnan x -> (x <=? x)%num = true.
Proof. unfold nonnan. rewrite nleb_spec. intros ->. apply orb_true_r. Qed.

Lemma nleb_total x y : nonnan x -> nonnan y -> (x <=? y)%num = true \/ (y <=? x)%num = true.
Proof.
  intros Hx Hy. destruct (x <? y)%num eqn:E; [left; by apply nltb_nleb|].
  right. by apply nltb_false_nleb.
Qed.
End order.

Create HintDb num.
#[export] Hint Resolve nltb_trans neqb_sym neqb_trans neqb_nltb nltb_neqb nleb_trans
  nltb_nleb nleb_refl : num.

(** ** binary64 *)
Module binary64.
(** The value of a finite float rounded towards zero, and up. *)
Definition sf_trunc (f : spec_float) : Z :=
  match f with
  | S754_finite s m e =>
      let a := if (0 <=? e)%Z then (Zpos m * 2 ^ e)%Z else (Zpos m / 2 ^ (- e))%Z in
      if s then (- a)%Z else a
  | _ => 0%Z
  end.
Definition sf_ceil (f : spec_float) : Z :=
  match f with
  | S754_finite s m e =>
      let v := if s then Zneg m else Zpos m in
      if (0 <=? e)%Z then (v * 2 ^ e)%Z else (- ((- v) / 2 ^ (- e)))%Z
  | _ => 0%Z
  end.
Definition of_Z (z : Z) : float := SF2Prim (binary_normalize prec emax z 0 false).

(** The comparison of two spec floats as a comparison of triples. *)
Definition key (f : spec_float) : option (Z * Z * Z) :=
  match f with
  | S754_nan => None
  | S754_infinity true => Some (-2, 0, 0)%Z
  | S754_infinity false => Some (2, 0, 0)%Z
  | S754_zero _ => Some (0, 0, 0)%Z
  | S754_finite true m e => Some (-1, - e, Zneg m)%Z
  | S754_finite false m e => Some (1, e, Zpos m)%Z
  end.
Definition lex (a b : Z * Z * Z) : comparison :=
  let '(a1, a2, a3) := a in let '(b1, b2, b3) := b in
  match (a1 ?= b1)%Z with
  | Eq => match (a2 ?= b2)%Z with Eq => (a3 ?= b3)%Z | c => c end
  | c => c
  end.

Lemma SFcompare_key f g :
  SFcompare f g = match key f, key g with Some a, Some b => Some (lex a b) | _, _ => None end.
Proof.
  destruct f as [[]|[]| |[] m1 e1], g as [[]|[]| |[] m2 e2]; cbn; try done.
  rewrite Z.compare_opp, (Z.compare_antisym e2 e1). by destruct (e2 ?= e1)%Z.
Qed.

Lemma lex_spec a b c :
  lex a b = c ->
  match c with
  | Eq => a = b
  | Lt => a.1.1 < b.1.1 \/ a.1.1 = b.1.1 /\ (a.1.2 < b.1.2 \/ a.1.2 = b.1.2 /\ a.2 < b.2)
  | Gt => b.1.1 < a.1.1 \/ b.1.1 = a.1.1 /\ (b.1.2 < a.1.2 \/ b.1.2 = a.1.2 /\ b.2 < a.2)
  end%Z.
Proof.
  destruct a as [[a1 a2] a3], b as [[b1 b2] b3]; cbn. intros <-.
  destruct (Z.compare_spec a1 b1), (Z.compare_spec a2 b2), (Z.compare_spec a3 b3);
    subst; cbn; try lia; done.
Qed.
End binary64.

#[global] Instance binary64_num : Num float := {
  nadd := PrimFloat.add; nsub := PrimFloat.sub; nmul := PrimFloat.mul; ndiv := PrimFloat.div;
  nopp := PrimFloat.opp; nabs := PrimFloat.abs; nsqrt := PrimFloat.sqrt;
  nltb := PrimFloat.ltb; nleb := PrimFloat.leb; neqb := PrimFloat.eqb;
  nofZ := binary64.of_Z;
  nceil x := binary64.sf_ceil (Prim2SF x); ntrunc x := binary64.sf_trunc (Prim2SF x) }.

Lemma lex_Eq_refl a : binary64.lex a a = Eq.
Proof. destruct a as [[a1 a2] a3]. cbn. by rewrite !Z.compare_refl. Qed.

Lemma float_ltb_key (x y : float) :
  PrimFloat.ltb x y = true <->
  exists a b, binary64.key (Prim2SF x) = Some a /\ binary64.key (Prim2SF y) = Some b /\ binary64.lex a b = Lt.
Proof.
  rewrite ltb_spec. unfold SFltb. rewrite binary64.SFcompare_key.
  destruct (binary64.key (Prim2SF x)) as [a|], (binary64.key (Prim2SF y)) as [b|].
  2-4: split; [discriminate|intros (?&?&?&?&?); discriminate].
  split.
  - destruct (binary64.lex a b) eqn:E; [discriminate| |discriminate].
    intros _. by exists a, b.
  - intros (c&d&[= ->]&[= ->]&->). reflexivity.
Qed.

Lemma float_eqb_key (x y : float) :
  PrimFloat.eqb x y = true <->
  exists a, binary64.key (Prim2SF x) = Some a /\ binary64.key (Prim2SF y) = Some a.
Proof.
  rewrite eqb_spec. unfold SFeqb. rewrite binary64.SFcompare_key.
  destruct (binary64.key (Prim2SF x)) as [a|], (binary64.key (Prim2SF y)) as [b|].
  2-4: split; [discriminate|intros (?&?&?); discriminate].
  split.
  - destruct (binary64.lex a b) eqn:E; [|discriminate..]. apply binary64.lex_spec in E; cbn in E. subst. eauto.
  - intros (c&[= ->]&[= ->]). by rewrite lex_Eq_refl.
Qed.

Lemma lex_Lt_iff a b :
  binary64.lex a b = Lt <->
  (a.1.1 < b.1.1 \/ a.1.1 = b.1.1 /\ (a.1.2 < b.1.2 \/ a.1.2 = b.1.2 /\ a.2 < b.2))%Z.
Proof.
  destruct (binary64.lex a b) eqn:E; pose proof (binary64.lex_spec _ _ _ E) as Hs; cbn in Hs;
    split; try done; subst; lia.
Qed.

(** Turns comparisons of floats into comparisons of keys. *)
Ltac float_keys :=
  unfold nonnan in *; cbn [nltb nleb neqb binary64_num] in *;
  rewrite ?float_ltb_key, ?float_eqb_key in *;
  repeat match goal with
    | H : exists _, _ |- _ => destruct H
    | H : _ /\ _ |- _ => destruct H
    end;
  repeat match goal with
    | H : ?k = Some ?a, H' : ?k = Some ?b |- _ =>
        assert (b = a) by congruence; subst b; clear H'
    end;
  rewrite ?lex_Lt_iff in *.

#[global] Instance binary64_order : NumOrder float.
Proof.
  split.
  - intros x. destruct (x <? x)%num eqn:E; [|done]. float_keys. lia.
  - intros x y z ??. float_keys. do 2 eexists. split; [eassumption|]. split; [eassumption|]. apply lex_Lt_iff. lia.
  - intros x y ?. float_keys. eauto.
  - intros x y z ??. float_keys. eauto.
  - intros x y z ??. float_keys. do 2 eexists. split; [eassumption|]. split; [eassumption|]. by apply lex_Lt_iff.
  - intros x y z ??. float_keys. do 2 eexists. split; [eassumption|]. split; [eassumption|]. by apply lex_Lt_iff.
  - intros x y ?. float_keys. split; eexists; split; eassumption.
  - intros x y. cbn. rewrite leb_spec, ltb_spec, eqb_spec. unfold SFleb, SFltb, SFeqb.
    by destruct (SFcompare _ _) as [[]|].
  - intros x y Hx Hy. float_keys. rewrite ?float_ltb_key, ?float_eqb_key.
    destruct (binary64.lex x1 x0) eqn:E; pose proof (binary64.lex_spec _ _ _ E) as Hs; cbn in Hs.
    + subst. right; left. eexists. split; eassumption.
    + left. do 2 eexists. split; [eassumption|]. split; eassumption.
    + right; right. do 2 eexists. split; [eassumption|]. split; [eassumption|]. apply lex_Lt_iff. lia.
  - reflexivity.
Qed.

(** Equal floats are the same float, but for the two zeros. *)
Lemma float_eqb_eq (x y : float) : (0 <? x)%num = true -> (x =? y)%num = true -> x = y.
Proof.
  intros H0 Hxy. float_keys. apply Prim2SF_inj.
  match goal with H : binary64.key (Prim2SF 0%num) = Some ?a |- _ => vm_compute in H; injection H as <- end.
  destruct (Prim2SF x) as [|[]| |[]], (Prim2SF y) as [|[]| |[]]; cbn in *; simplify_eq; cbn in *; try lia; try done.
Qed.

#[global] Instance float_inhabited : Inhabited float := populate PrimFloat.zero.

(** ** Order statistics of numbers *)
Lemma num_sorted {F} `{NumOrder F} (l : list F) :
  Forall nonnan l -> StronglySorted (ordered nltb) (std_sort nltb l).
Proof.
  apply (std_sort_sorted _ nonnan).
  - intros x y _ _. apply nltb_asym.
  - intros x y z Hx Hy Hz H1 H2. apply nleb_nltb_false.
    apply (nleb_trans x y z); by apply nltb_false_nleb.
Qed.

(** Sorting two permutations of a list gives the same list when equivalent
    elements of the list are equal. *)
Lemma num_sort_unique {F} `{NumOrder F} (l1 l2 : list F) :
  Forall nonnan l1 -> (forall x y, x ∈ l1 -> y ∈ l1 -> (x =? y)%num = true -> x = y) ->
  l1 ≡ₚ l2 -> std_sort nltb l1 = std_sort nltb l2.
Proof.
  intros Hl Heq Hp. apply (StronglySorted_unique_strong (ordered nltb)).
  - intros x y Hx Hy Hxy Hyx. rewrite std_sort_perm in Hx. rewrite std_sort_perm, <- Hp in Hy.
    apply Heq; [done..|]. rewrite Forall_forall in Hl.
    destruct (num_total x y (Hl x Hx) (Hl y Hy)) as [E|[E|E]]; [|done|]; unfold ordered in *; congruence.
  - by apply num_sorted.
  - apply num_sorted. by rewrite <- Hp.
  - by rewrite !std_sort_perm.
Qed.

(** The element a sort puts at [k]: at most [k] elements are smaller and at
    most [length l - k - 1] are larger. *)
Lemma nth_element_rank {F} `{NumOrder F} (l : list F) k :
  Forall nonnan l -> k < length l ->
  exists x, nth_element nltb l k = Some x /\ x ∈ l /\
    countb (fun y => y <? x)%num l <= k /\ countb (fun y => x <? y)%num l <= length l - S k.
Proof.
  intros Hl Hk. unfold nth_element.
  destruct (lookup_lt_is_Some_2 (std_sort nltb l) k) as [x Hx]; [by rewrite length_std_sort|].
  exists x. split; [done|]. split.
  - rewrite <- (std_sort_perm nltb l). by eapply list_elem_of_lookup_2.
  - destruct (sorted_rank nltb _ _ _ (nltb_irrefl x) (num_sorted l Hl) Hx) as [H1' H2'].
    rewrite length_std_sort in H2'.
    split; [by rewrite <- (std_sort_perm nltb l) | by rewrite <- (std_sort_perm nltb l) at 1].
Qed.
