(* ===== verification/Random.v ===== *)
(** Pseudo-random engines and the distributions the program draws from.  The
    source relies on the results lying in the requested interval; which value
    is drawn is up to the engine. *)
From stdpp Require Import base list.
From Stdlib Require Import ZArith Lia Floats.
From S2P Require Import Prelude Num.

Local Open Scope Z_scope.

(** [std::mt19937] (or [_64]) seeded with a number, and
    [std::uniform_int_distribution]. *)
Class Rng (G : Type) := {
  mt19937 : Z -> G;
  uniform_int : Z -> Z -> G -> Z * G;
  uniform_int_range lo hi g : lo <= hi -> lo <= (uniform_int lo hi g).1 <= hi }.

(** [std::uniform_real_distribution]. *)
Class RealRng (F G : Type) `{Num F} := {
  uniform_real : F -> F -> G -> F * G;
  uniform_real_range lo hi g : (lo <? hi)%num = true ->
    (lo <=? (uniform_real lo hi g).1)%num = true /\ ((uniform_real lo hi g).1 <=? hi)%num = true }.

(** A linear congruential engine. *)
Definition lcg_next (g : Z) : Z := (1103515245 * g + 12345) mod 2 ^ 31.
Definition lcg_rng : Rng Z.
Proof.
  refine {| mt19937 s := s;
    uniform_int lo hi g := (lo + (lcg_next g / 65536) mod (Z.max 1 (hi - lo + 1)), lcg_next g) |}.
  intros lo hi g Hle. cbn [fst].
  pose proof (Z.mod_pos_bound (lcg_next g / 65536) (Z.max 1 (hi - lo + 1))). lia.
Defined.

(** A distribution over the two ends of the interval, driven by that engine. *)
Definition ends_rng : RealRng float Z.
Proof.
  refine {| uniform_real lo hi g := (if Z.even (lcg_next g / 65536) then lo else hi, lcg_next g) |}.
  intros lo hi g Hlt. destruct (nltb_nonnan (F:=float) _ _ Hlt).
  destruct (Z.even (lcg_next g / 65536)); cbn [fst]; split;
    first [by apply (nleb_refl (F:=float)) | by apply (nltb_nleb (F:=float))].
Defined.
