(* ===== verification/Linalg.v ===== *)
(** Dense linear algebra: src/src/linalg/matrix.{h,cpp}.

    [Matrix] is the row-major [struct Matrix]; [mget] and [mset] are its two
    [operator()]s, which index [data] without a bounds check ([wf] matrices are
    the ones whose accesses are in range).  Each routine is the source's loop
    nest, written with [for_]; the lemmas give the value of every entry. *)
From stdpp Require Import base list strings.
From Stdlib Require Import ZArith Lia Sorting.Sorted Floats.
From S2P Require Import Prelude Num.

Local Open Scope num_scope.
Local Open Scope nat_scope.

Record Matrix (F : Type) := MkMatrix { rows : nat; cols : nat; data : list F }.
Arguments MkMatrix {F} rows cols data.
Arguments rows {F} m.
Arguments cols {F} m.
Arguments data {F} m.

Record EigenSymResult (F : Type) := MkEigen { eigenvalues : list F; eigenvectors : Matrix F }.
Arguments MkEigen {F} eigenvalues eigenvectors.
Arguments eigenvalues {F} e.
Arguments eigenvectors {F} e.

(** The C math library functions the program calls. *)
Class Libm (F : Type) := { ncos : F -> F; nsin : F -> F; natan2 : F -> F -> F; nlog1p : F -> F }.

(** A crude library: the values at an angle of 0. *)
Definition libm_example : Libm float :=
  {| ncos _ := 1%float; nsin _ := 0%float; natan2 _ _ := 0%float; nlog1p x := x |}.

Section ops.
Context {F : Type} `{Num F}.
Implicit Types (m a b : Matrix F) (v x y : list F).

(** [Matrix(r, c)]: zero-filled. *)
Definition mat_new (r c : nat) : Matrix F := MkMatrix r c (replicate (r * c) 0%num).
(** [operator()(r, c) const] and the assignment [m(r, c) = x]. *)
Definition mget (m : Matrix F) (r c : nat) : F := nth (r * cols m + c) (data m) 0%num.
Definition mset (m : Matrix F) (r c : nat) (x : F) : Matrix F :=
  MkMatrix (rows m) (cols m) (<[r * cols m + c := x]> (data m)).

(** Unchecked [v[i]] of a [std::vector<double>]. *)
Definition vget (v : list F) (i : nat) : F := nth i v 0%num.

Definition identity (n : nat) : Matrix F :=
  for_ 0 n (fun i m => mset m i i 1%num) (mat_new n n).

Definition transpose (m : Matrix F) : Matrix F :=
  for_ 0 (rows m) (fun r t =>
    for_ 0 (cols m) (fun c t => mset t c r (mget m r c)) t) (mat_new (cols m) (rows m)).

Definition matmul (a b : Matrix F) : res (Matrix F) :=
  if negb (cols a =? rows b) then runtime_error "matmul dimension mismatch"
  else Ok (for_ 0 (rows a) (fun i out =>
         for_ 0 (cols a) (fun k out =>
           let av := mget a i k in
           for_ 0 (cols b) (fun j out => mset out i j (mget out i j + av * mget b k j)%num) out) out)
         (mat_new (rows a) (cols b))).

Definition matvec (a : Matrix F) (x : list F) : res (list F) :=
  if negb (cols a =? length x) then runtime_error "matvec dimension mismatch"
  else Ok (for_ 0 (rows a) (fun i out =>
         let sum := for_ 0 (cols a) (fun j sum => (sum + mget a i j * vget x j)%num) 0%num in
         <[i := sum]> out) (replicate (rows a) 0%num)).

Definition dot (a b : list F) : res F :=
  if negb (length a =? length b) then runtime_error "dot dimension mismatch"
  else Ok (for_ 0 (length a) (fun i sum => (sum + vget a i * vget b i)%num) 0%num).

Definition l2_norm (v : list F) : res F := nsqrt <$> dot v v.

(** The comparator of [argsort_desc]: larger value first, then lower index. *)
Definition argsort_lt (v : list F) (a b : nat) : bool :=
  if (vget v a =? vget v b)%num then a <? b else (vget v b <? vget v a)%num.
Definition argsort_desc (v : list F) : list nat := std_sort (argsort_lt v) (seq 0 (length v)).

(** [max_offdiag(a, p, q)]: the returned maximum with the two out-parameters. *)
Definition max_offdiag (a : Matrix F) : F * nat * nat :=
  for_ 0 (rows a) (fun i acc =>
    for_ (S i) (cols a) (fun j '(max_val, p, q) =>
      let val := nabs (mget a i j) in
      if (max_val <? val)%num then (val, i, j) else (max_val, p, q)) acc) (0%num, 0, 0).

(** One Jacobi rotation of the loop of [eigen_sym_jacobi]: [d] and [v] after
    zeroing the pivot [(p, q)] with the cosine [c] and sine [s] of the angle. *)
Definition rotate_rows (p q : nat) (c s : F) (n : nat) (d : Matrix F) : Matrix F :=
  for_ 0 n (fun k d =>
    let dpk := mget d p k in let dqk := mget d q k in
    mset (mset d p k (c * dpk - s * dqk)%num) q k (s * dpk + c * dqk)%num) d.
Definition rotate_cols (p q : nat) (c s : F) (n : nat) (d : Matrix F) : Matrix F :=
  for_ 0 n (fun k d =>
    let dkp := mget d k p in let dkq := mget d k q in
    mset (mset d k p (c * dkp - s * dkq)%num) k q (s * dkp + c * dkq)%num) d.
Definition set_pivot (p q : nat) (c s app aqq apq : F) (d : Matrix F) : Matrix F :=
  let two := nofZ 2 in
  let d := mset d p p (c * c * app - two * s * c * apq + s * s * aqq)%num in
  let d := mset d q q (s * s * app + two * s * c * apq + c * c * aqq)%num in
  mset (mset d p q 0%num) q p 0%num.

Context `{Libm F}.

Definition jacobi_step (n : nat) (p q : nat) (dv : Matrix F * Matrix F) : Matrix F * Matrix F :=
  let '(d, v) := dv in
  let app := mget d p p in let aqq := mget d q q in let apq := mget d p q in
  let phi := (nlit 1 2 * natan2 (nofZ 2 * apq) (aqq - app))%num in
  let c := ncos phi in let s := nsin phi in
  (set_pivot p q c s app aqq apq (rotate_cols p q c s n (rotate_rows p q c s n d)),
   rotate_cols p q c s n v).

(** The loop [for (iter = 0; iter < max_iter; ++iter)] with its [break]. *)
Fixpoint jacobi_loop (iters n : nat) (eps : F) (dv : Matrix F * Matrix F) : Matrix F * Matrix F :=
  match iters with
  | 0 => dv
  | S iters' =>
      let '(off, p, q) := max_offdiag dv.1 in
      if (off <? eps)%num then dv
      else jacobi_loop iters' n eps (jacobi_step n p q dv)
  end.

Definition eigen_sym_jacobi (a : Matrix F) (max_iter : Z) (eps : F) : res (EigenSymResult F) :=
  if negb (rows a =? cols a) then runtime_error "eigen_sym_jacobi requires square matrix"
  else
    let n := rows a in
    let '(d, v) := jacobi_loop (Z.to_nat max_iter) n eps (a, identity n) in
    Ok (MkEigen (for_ 0 n (fun i ev => <[i := mget d i i]> ev) (replicate n 0%num)) v).

(** A matrix whose storage has the declared shape. *)
Definition wf (m : Matrix F) : Prop := length (data m) = rows m * cols m.
End ops.

Create HintDb linalg.

(** ** Element access *)
Section access.
Context {F : Type} `{Num F}.
Implicit Types (m a b t : Matrix F) (v x : list F).

Lemma index_inj C r c r' c' : c < C -> c' < C -> r * C + c = r' * C + c' -> r = r' /\ c = c'.
Proof. intros. assert (r = r') by nia. nia. Qed.
Lemma index_bound R C r c : r < R -> c < C -> r * C + c < R * C.
Proof. nia. Qed.

Lemma mset_wf m r c e : wf m -> wf (mset m r c e).
Proof. unfold wf; cbn. by rewrite length_insert. Qed.
Lemma mat_new_wf r c : wf (mat_new r c).
Proof. unfold wf; cbn. apply length_replicate. Qed.

Lemma vget_insert v i j e :
  i < length v -> vget (<[i:=e]> v) j = if decide (i = j) then e else vget v j.
Proof.
  intros Hi. unfold vget. rewrite !nth_lookup. case_decide as Heq.
  - subst. by rewrite list_lookup_insert_eq.
  - by rewrite list_lookup_insert_ne.
Qed.

Lemma mget_mset m r c r' c' e :
  wf m -> r < rows m -> c < cols m -> c' < cols m ->
  mget (mset m r c e) r' c' = if decide (r = r' /\ c = c') then e else mget m r' c'.
Proof.
  intros Hwf Hr Hc Hc'. unfold mget, mset; cbn.
  pose proof (vget_insert (data m) (r * cols m + c) (r' * cols m + c') e) as Hv.
  unfold vget in Hv. rewrite Hv by (rewrite Hwf; by apply index_bound).
  destruct (decide (r = r' /\ c = c')) as [[-> ->]|Hne]; [by rewrite decide_True|].
  rewrite decide_False; [done|]. intros Heq. apply Hne. by apply (index_inj (cols m)).
Qed.

Lemma vget_replicate n i e : i < n -> vget (replicate n e) i = e.
Proof. intros. unfold vget. rewrite nth_lookup. by rewrite lookup_replicate_2. Qed.

Lemma mget_new r c i j : i < r -> j < c -> mget (mat_new r c) i j = 0%num.
Proof.
  intros. unfold mget, mat_new; cbn. apply (vget_replicate (r * c) (i * c + j) 0%num).
  by apply index_bound.
Qed.

(** Two well-formed matrices of the same shape with the same entries are equal. *)
Lemma matrix_ext a b :
  wf a -> wf b -> rows a = rows b -> cols a = cols b ->
  (forall i j, i < rows a -> j < cols a -> mget a i j = mget b i j) -> a = b.
Proof.
  destruct a as [r c da], b as [r' c' db]; unfold wf, mget; cbn.
  intros Ha Hb -> -> He. f_equal. apply list_eq_same_length with (n := r' * c'); [done..|].
  intros k x y Hk Hx Hy.
  assert (c' <> 0) by nia.
  specialize (He (k / c') (k mod c')).
  rewrite (Nat.mul_comm (k / c') c'), <- Nat.div_mod_eq in He.
  rewrite !nth_lookup, Hx, Hy in He. cbn in He. apply He.
  - apply Nat.Div0.div_lt_upper_bound. lia.
  - by apply Nat.mod_upper_bound.
Qed.

(** The shape invariant of a loop that only assigns entries. *)
Definition shaped (r c : nat) (m : Matrix F) : Prop := wf m /\ rows m = r /\ cols m = c.

Lemma shaped_new r c : shaped r c (mat_new r c).
Proof. split; [apply mat_new_wf|done]. Qed.
Lemma shaped_mset r c m i j e : shaped r c m -> shaped r c (mset m i j e).
Proof. intros (?&?&?). split; [by apply mset_wf|done]. Qed.
Lemma for_shaped r c lo hi (body : nat -> Matrix F -> Matrix F) m :
  (forall i m, lo <= i < hi -> shaped r c m -> shaped r c (body i m)) ->
  shaped r c m -> shaped r c (for_ lo hi body m).
Proof.
  intros Hb Hm. destruct (decide (lo <= hi)); [|by rewrite for_nil by lia].
  by apply (for_ind (fun _ => shaped r c)).
Qed.
Lemma shaped_mget_mset r c m i j i' j' e :
  shaped r c m -> i < r -> j < c -> j' < c ->
  mget (mset m i j e) i' j' = if decide (i = i' /\ j = j') then e else mget m i' j'.
Proof. intros (?&<-&<-) ???. by apply mget_mset. Qed.
End access.

#[export] Hint Resolve shaped_mset shaped_new for_shaped mset_wf mat_new_wf : linalg.

(** Case split on the position a [mset] writes. *)
Ltac mset_cases := repeat (case_decide; try (destruct_and?; subst; try lia)).

(** ** The value of each routine *)
Section spec.
Context {F : Type} `{Num F}.
Implicit Types (m a b t : Matrix F) (v x : list F).

Lemma transpose_shaped m : shaped (cols m) (rows m) (transpose m).
Proof. unfold transpose. eauto 6 with linalg. Qed.

Lemma transpose_entry m i j :
  i < cols m -> j < rows m -> mget (transpose m) i j = mget m j i.
Proof.
  intros Hi Hj. set (P := fun r t => shaped (cols m) (rows m) t /\
    forall i j, i < cols m -> j < r -> mget t i j = mget m j i).
  enough (P (rows m) (transpose m)) as [_ HP] by (apply HP; done).
  unfold transpose. apply (for_ind P); [lia|split; [apply shaped_new|lia]|].
  intros r t Hr [Ht HP].
  set (Q := fun c t => shaped (cols m) (rows m) t /\
    (forall i j, i < cols m -> j < r -> mget t i j = mget m j i) /\
    (forall i, i < c -> mget t i r = mget m r i)).
  assert (Q (cols m) (for_ 0 (cols m) (fun c t => mset t c r (mget m r c)) t)) as (HQ1&HQ2&HQ3).
  { apply (for_ind Q); [lia|split_and!; [done|done|lia]|].
    intros c t' Hc (HQ1&HQ2&HQ3). split_and!; [by apply shaped_mset|..]; intros.
    - rewrite (shaped_mget_mset (cols m) (rows m)) by (done || lia). mset_cases. auto.
    - rewrite (shaped_mget_mset (cols m) (rows m)) by (done || lia). mset_cases; [done|].
      apply HQ3. lia. }
  split; [done|]. intros i' j' Hi' Hj'.
  destruct (decide (j' = r)) as [->|]; [by apply HQ3|]. apply HQ2; lia.
Qed.

Lemma transpose_involutive_aux m : wf m -> transpose (transpose m) = m.
Proof.
  intros Hm. destruct (transpose_shaped m) as (Hw&Hr&Hc).
  destruct (transpose_shaped (transpose m)) as (Hw'&Hr'&Hc').
  rewrite Hr, Hc in *.
  apply matrix_ext; [done..|]. rewrite Hr', Hc'. intros i j Hi Hj.
  rewrite transpose_entry by lia. apply transpose_entry; lia.
Qed.

(** The sum the source accumulates: left to right, from 0. *)
Definition row_sum (n : nat) (f : nat -> F) : F := for_ 0 n (fun k s => (s + f k)%num) 0%num.

Definition mat_row (m : Matrix F) (i : nat) : list F := (fun j => mget m i j) <$> seq 0 (cols m).
Definition mat_col (m : Matrix F) (j : nat) : list F := (fun i => mget m i j) <$> seq 0 (rows m).

Lemma vget_fmap_seq (f : nat -> F) n i : i < n -> vget (f <$> seq 0 n) i = f i.
Proof.
  intros. unfold vget. rewrite nth_lookup, list_lookup_fmap, lookup_seq_lt by done. done.
Qed.

Lemma row_sum_ext n f g : (forall k, k < n -> f k = g k) -> row_sum n f = row_sum n g.
Proof. intros Hfg. apply for_ext. intros k s Hk. by rewrite Hfg by lia. Qed.

Lemma dot_row_sum v x : length v = length x ->
  dot v x = Ok (row_sum (length v) (fun i => vget v i * vget x i)%num).
Proof. intros Hl. unfold dot. by rewrite Hl, Nat.eqb_refl. Qed.

(** A loop that assigns [out[i] = g i] for every [i]. *)
Lemma for_fill n (g : nat -> F) (out : list F) k :
  length out = n -> k <= n ->
  length (for_ 0 k (fun i out => <[i := g i]> out) out) = n /\
  forall i, i < k -> vget (for_ 0 k (fun i out => <[i := g i]> out) out) i = g i.
Proof.
  intros Hl Hk. apply (for_ind (fun k out => length out = n /\ forall i, i < k -> vget out i = g i));
    [lia|split; [done|lia]|].
  intros i o Hi [Hlo HP]. split; [by rewrite length_insert|].
  intros j Hj. rewrite vget_insert by lia. case_decide; [by subst|]. apply HP. lia.
Qed.

Lemma list_eq_vget v x : length v = length x -> (forall i, i < length v -> vget v i = vget x i) -> v = x.
Proof.
  intros Hl He. apply list_eq_same_length with (n := length x); [done..|].
  intros i a b Hi Ha Hb. specialize (He i). unfold vget in He.
  rewrite !nth_lookup, Ha, Hb in He. apply He. lia.
Qed.

Lemma for_fill_eq n (g : nat -> F) :
  for_ 0 n (fun i out => <[i := g i]> out) (replicate n 0%num) = g <$> seq 0 n.
Proof.
  destruct (for_fill n g (replicate n 0%num) n) as [Hl Hg]; [apply length_replicate|lia|].
  apply list_eq_vget; rewrite ?Hl, ?length_fmap, ?length_seq; [done|].
  intros i Hi. by rewrite Hg, vget_fmap_seq.
Qed.

(** A loop nest that assigns [m(i, j) = g i j] for every entry. *)
Lemma for_fill_matrix R C (g : nat -> nat -> F) (m0 : Matrix F) : shaped R C m0 ->
  let out := for_ 0 R (fun i m => for_ 0 C (fun j m => mset m i j (g i j)) m) m0 in
  shaped R C out /\ forall i j, i < R -> j < C -> mget out i j = g i j.
Proof.
  intros H0 out.
  apply (for_ind (fun k m => shaped R C m /\ forall i j, i < k -> j < C -> mget m i j = g i j));
    [lia|split; [done|lia]|].
  intros i m Hi [Hm HP].
  assert (shaped R C (for_ 0 C (fun j m => mset m i j (g i j)) m) /\
    (forall i' j, i' < i -> j < C -> mget (for_ 0 C (fun j m => mset m i j (g i j)) m) i' j = g i' j) /\
    forall j, j < C -> mget (for_ 0 C (fun j m => mset m i j (g i j)) m) i j = g i j) as (Q1&Q2&Q3).
  { apply (for_ind (fun c m => shaped R C m /\ (forall i' j, i' < i -> j < C -> mget m i' j = g i' j) /\
      forall j, j < c -> mget m i j = g i j)); [lia|split_and!; [done|done|lia]|].
    intros c m' Hc (Q1&Q2&Q3). split_and!; [by apply shaped_mset|..]; intros;
      rewrite (shaped_mget_mset R C) by (done || lia); mset_cases; [by apply Q2|done|apply Q3; lia]. }
  split; [done|]. intros i' j Hi' Hj. destruct (decide (i' = i)) as [->|]; [by apply Q3|apply Q2; lia].
Qed.

Lemma matvec_eq a x : cols a = length x ->
  matvec a x = Ok ((fun i => row_sum (cols a) (fun j => mget a i j * vget x j)%num) <$> seq 0 (rows a)).
Proof. intros Hc. unfold matvec. rewrite Hc, Nat.eqb_refl. cbn. by rewrite for_fill_eq. Qed.

(** After [k] rounds of the inner two loops, row [i] of the output holds the
    partial sums; the other rows are untouched. *)
Lemma matmul_row a b i n out :
  shaped (rows a) (cols b) out -> i < rows a -> n <= cols a ->
  (forall j, j < cols b -> mget out i j = 0%num) ->
  let out' := for_ 0 n (fun k out =>
    let av := mget a i k in
    for_ 0 (cols b) (fun j out => mset out i j (mget out i j + av * mget b k j)%num) out) out in
  shaped (rows a) (cols b) out' /\
  (forall j, j < cols b -> mget out' i j = row_sum n (fun k => mget a i k * mget b k j)%num) /\
  (forall i' j, i' <> i -> j < cols b -> mget out' i' j = mget out i' j).
Proof.
  intros Hs Hi Hn Hz out'. unfold out'.
  apply (for_ind (fun k o => shaped (rows a) (cols b) o /\
    (forall j, j < cols b -> mget o i j = row_sum k (fun k => mget a i k * mget b k j)%num) /\
    (forall i' j, i' <> i -> j < cols b -> mget o i' j = mget out i' j))); [lia|done|].
  intros k o Hk (Ho&Hrow&Hoth). cbn zeta.
  set (o' := for_ 0 (cols b) _ o).
  assert (shaped (rows a) (cols b) o' /\
    (forall j, j < cols b -> mget o' i j = (mget o i j + mget a i k * mget b k j)%num) /\
    (forall i' j, i' <> i -> j < cols b -> mget o' i' j = mget o i' j)) as (H1&H2&H3).
  { pose (P := fun c o'' => shaped (rows a) (cols b) o'' /\
      (forall j, j < c -> mget o'' i j = (mget o i j + mget a i k * mget b k j)%num) /\
      (forall j, c <= j -> j < cols b -> mget o'' i j = mget o i j) /\
      (forall i' j, i' <> i -> j < cols b -> mget o'' i' j = mget o i' j)).
    enough (P (cols b) o') as (?&?&?&?) by done.
    apply (for_ind P); [lia|split_and!; done || lia|].
    intros c o'' Hc (P1&P2&P3&P4). split_and!; [by apply shaped_mset|..];
      intros; rewrite (shaped_mget_mset (rows a) (cols b)) by (done || lia); mset_cases.
    - rewrite P3 by lia. done.
    - apply P2. lia.
    - apply P3; lia.
    - by apply P4. }
  split_and!; [done|..].
  - intros j Hj. rewrite H2 by done. unfold row_sum. rewrite for_last by lia. f_equal. by apply Hrow.
  - intros i' j ??. rewrite H3 by done. by apply Hoth.
Qed.

Lemma matmul_eq a b : cols a = rows b -> exists out,
  matmul a b = Ok out /\ shaped (rows a) (cols b) out /\
  forall i j, i < rows a -> j < cols b ->
    mget out i j = row_sum (cols a) (fun k => mget a i k * mget b k j)%num.
Proof.
  intros Hab. unfold matmul. rewrite Hab, Nat.eqb_refl. rewrite <- Hab. cbn [negb].
  eexists; split; [reflexivity|]. set (out := for_ 0 (rows a) _ _).
  pose (P := fun n o => shaped (rows a) (cols b) o /\
    (forall i j, i < n -> j < cols b -> mget o i j = row_sum (cols a) (fun k => mget a i k * mget b k j)%num) /\
    (forall i j, n <= i -> i < rows a -> j < cols b -> mget o i j = 0%num)).
  enough (P (rows a) out) as (?&?&?) by done.
  apply (for_ind P); [lia|split_and!; [apply shaped_new|lia|intros; by apply mget_new]|].
  intros i o Hi (P1&P2&P3).
  destruct (matmul_row a b i (cols a) o) as (R1&R2&R3); [done|lia..|intros; apply P3; lia|].
  split_and!; [done|..].
  - intros i' j Hi' Hj. destruct (decide (i' = i)) as [->|]; [by apply R2|].
    rewrite R3 by done. apply P2; lia.
  - intros i' j ???. rewrite R3 by lia. apply P3; lia.
Qed.
End spec.

(** ** Ordering *)
Section argsort.
Context {F : Type} `{NumOrder F}.
Implicit Types v : list F.

Lemma argsort_lt_spec v a b : nonnan (vget v a) -> nonnan (vget v b) ->
  argsort_lt v b a = false <->
  (vget v b <? vget v a)%num = true \/ ((vget v a =? vget v b)%num = true /\ a <= b).
Proof.
  intros Ha Hb. unfold argsort_lt. destruct (vget v b =? vget v a)%num eqn:E.
  - rewrite Nat.ltb_ge. pose proof (neqb_sym _ _ E). pose proof (neqb_not_nltb _ _ E).
    split; [by right|intros [?|[_ ?]]; [congruence|done]].
  - destruct (vget v a =? vget v b)%num eqn:E'; [apply neqb_sym in E'; congruence|].
    destruct (num_total (vget v a) (vget v b) Ha Hb) as [E2|[E2|E2]]; [|congruence|];
      pose proof (nltb_asym _ _ E2) as E3; rewrite E2, E3.
    + split; [discriminate|intros [?|[? _]]; congruence].
    + split; [by left|done].
Qed.

Lemma argsort_lt_asym v a b : nonnan (vget v a) -> nonnan (vget v b) ->
  argsort_lt v a b = true -> argsort_lt v b a = false.
Proof.
  intros Ha Hb Hlt. apply argsort_lt_spec; [done..|]. unfold argsort_lt in Hlt.
  destruct (vget v a =? vget v b)%num eqn:E; [right|by left].
  apply Nat.ltb_lt in Hlt. split; [done|lia].
Qed.

Lemma argsort_lt_ntrans v a b c :
  nonnan (vget v a) -> nonnan (vget v b) -> nonnan (vget v c) ->
  argsort_lt v b a = false -> argsort_lt v c b = false -> argsort_lt v c a = false.
Proof.
  intros ???. rewrite !argsort_lt_spec by done.
  intros [E1|[E1 ?]] [E2|[E2 ?]]; eauto using nltb_trans, neqb_nltb, nltb_neqb, neqb_trans, neqb_sym.
  right. split; [eauto using neqb_trans|lia].
Qed.
End argsort.

(** [argsort_desc] returns a permutation of the indices of [v] in which
    values never increase and equal values keep the order of their indices, for
    any values without a NaN. *)
Theorem argsort_desc_sorts {F} `{NumOrder F} (v : list F) (Hv : Forall nonnan v) :
  argsort_desc v ≡ₚ seq 0 (length v) /\
  forall i j a b, i < j -> argsort_desc v !! i = Some a -> argsort_desc v !! j = Some b ->
    (vget v b <? vget v a)%num = true \/ ((vget v a =? vget v b)%num = true /\ a < b).
Proof.
  assert (Hp : argsort_desc v ≡ₚ seq 0 (length v)) by apply std_sort_perm.
  split; [done|]. intros i j a b Hij Ha Hb.
  assert (Hin : forall k, k ∈ seq 0 (length v) -> nonnan (vget v k)).
  { intros k Hk%elem_of_seq. unfold vget. rewrite nth_lookup.
    destruct (lookup_lt_is_Some_2 v k) as [x Hx]; [lia|]. rewrite Hx.
    rewrite Forall_lookup in Hv. by apply (Hv k). }
  assert (Hq : forall k c, argsort_desc v !! k = Some c -> nonnan (vget v c)).
  { intros k c Hk. apply Hin. rewrite <- Hp. by eapply list_elem_of_lookup_2. }
  assert (Hs : StronglySorted (ordered (argsort_lt v)) (argsort_desc v)).
  { apply (std_sort_sorted _ (fun k => nonnan (vget v k))).
    - intros; by apply argsort_lt_asym.
    - intros x y z ???; by apply (argsort_lt_ntrans v x y z).
    - by apply Forall_forall. }
  pose proof (StronglySorted_lookup _ _ _ _ _ _ Hs Hij Ha Hb) as Ho.
  apply argsort_lt_spec in Ho as [?|[? ?]]; [by left|right|by eapply Hq..].
  split; [done|]. destruct (decide (a = b)) as [->|]; [|lia]. exfalso.
  assert (NoDup (argsort_desc v)) as Hnd by (rewrite Hp; apply NoDup_seq).
  pose proof (proj1 (NoDup_alt _) Hnd i j b Ha Hb). lia.
Qed.

Lemma argsort_desc_sorts_witness :
  argsort_desc [1; 3; 2; 3]%float = [1; 3; 2; 0] /\
  forall i j a b, i < j ->
    argsort_desc [1; 3; 2; 3]%float !! i = Some a -> argsort_desc [1; 3; 2; 3]%float !! j = Some b ->
    (vget [1; 3; 2; 3]%float b <? vget [1; 3; 2; 3]%float a)%num = true \/
    ((vget [1; 3; 2; 3]%float a =? vget [1; 3; 2; 3]%float b)%num = true /\ a < b).
Proof.
  split; [vm_compute; reflexivity|].
  apply (argsort_desc_sorts [1; 3; 2; 3]%float). by repeat constructor.
Defined.

(** ** Products against their reference *)

(** [matmul], whose loops accumulate into the output in row/inner/column
    order, computes in every entry exactly the dot product of a row of [a] with
    a column of [b] (the same roundings in the same order), and throws exactly
    when the inner dimensions differ. *)
Theorem matmul_is_dot {F} `{Num F} (a b : Matrix F) :
  match matmul a b with
  | Ok out => cols a = rows b /\ shaped (rows a) (cols b) out /\
      forall i j, i < rows a -> j < cols b -> dot (mat_row a i) (mat_col b j) = Ok (mget out i j)
  | Throw e => cols a <> rows b /\ e = Exn RuntimeError "matmul dimension mismatch"
  end.
Proof.
  destruct (decide (cols a = rows b)) as [Hab|Hab].
  - destruct (matmul_eq a b Hab) as (out & -> & Hs & He). split_and!; [done..|].
    intros i j Hi Hj. rewrite He by done.
    assert (length (mat_row a i) = cols a) as Hl by (unfold mat_row; by rewrite length_fmap, length_seq).
    rewrite dot_row_sum.
    + rewrite Hl. f_equal. apply row_sum_ext. intros k Hk.
      unfold mat_row, mat_col. by rewrite !vget_fmap_seq by lia.
    + unfold mat_row, mat_col. by rewrite !length_fmap, !length_seq.
  - unfold matmul. apply Nat.eqb_neq in Hab as Hab'. by rewrite Hab'.
Qed.

(** [transpose] has the transposed shape, reads [m] with the indices
    swapped, and is its own inverse on every matrix whose storage has its shape. *)
Theorem transpose_involutive {F} `{Num F} (m : Matrix F) (Hm : wf m) :
  shaped (cols m) (rows m) (transpose m) /\
  (forall i j, i < cols m -> j < rows m -> mget (transpose m) i j = mget m j i) /\
  transpose (transpose m) = m.
Proof.
  split_and!; [apply transpose_shaped|apply transpose_entry|by apply transpose_involutive_aux].
Qed.

Lemma transpose_involutive_witness :
  let m := MkMatrix 2 3 [1; 2; 3; 4; 5; 6]%float in
  transpose m = MkMatrix 3 2 [1; 4; 2; 5; 3; 6]%float /\ transpose (transpose m) = m.
Proof.
  intros m. split; [vm_compute; reflexivity|]. apply (transpose_involutive m). reflexivity.
Defined.
