(* ===== verification/Detectors.v ===== *)
(** The detectors: feature vectors (src/src/contract.h, src/src/types.h),
    preprocessing, the windowed statistical detector A
    (src/src/detectors/detector_a.{h,cpp}) with its configuration
    (src/src/detector_config.h).  The PCA detector B is in file PcaModel. *)
From stdpp Require Import base list strings.
From Stdlib Require Import ZArith Lia Sorting.Sorted Floats.
From S2P Require Import Prelude Num Linalg.

Local Open Scope nat_scope.

(** A [system_clock::time_point]: nanoseconds since the epoch. *)
Abbreviation time_point := Z.

(** ** Records: src/src/types.h *)
Section types.
Context {F : Type}.

Record HostProfile := MkHost {
  hp_host_id : string; hp_project_id : string; hp_region : string; hp_labels_json : string;
  cpu_base : F; mem_base : F; phase_shift : F;
  burst_remaining : Z; correlation_broken : bool; correlation_break_remaining : Z }.

Record TelemetryRecord := MkRecord {
  metric_timestamp : time_point; ingestion_time : time_point;
  r_host_id : string; r_project_id : string; r_region : string;
  r_cpu_usage : F; r_memory_usage : F; r_disk_utilization : F;
  r_network_rx_rate : F; r_network_tx_rate : F;
  r_labels_json : string; r_run_id : string;
  r_is_anomaly : bool; r_anomaly_type : string }.

Record Alert := MkAlert {
  a_host_id : string; a_run_id : string; a_timestamp : time_point;
  a_severity : string; a_source : string; a_score : F; a_details_json : string }.
End types.
Arguments HostProfile F : clear implicits.
Arguments TelemetryRecord F : clear implicits.
Arguments Alert F : clear implicits.

(** ** Feature vectors: src/src/contract.h *)
Definition kSize : nat := 5.

Definition GetFeatureNames : list string :=
  ["cpu_usage"; "memory_usage"; "disk_utilization"; "network_rx_rate"; "network_tx_rate"]%string.

(** A [FeatureVector] is its array [data] of [kSize] doubles. *)
Definition FromRecord {F} (r : TelemetryRecord F) : list F :=
  [r_cpu_usage r; r_memory_usage r; r_disk_utilization r; r_network_rx_rate r; r_network_tx_rate r].

(** ** Configuration: src/src/detector_config.h *)
Record PreprocessingConfig := MkPreprocessing { log1p_network : bool }.
Record WindowConfig := MkWindow { w_size : Z; recompute_interval : Z; min_history : Z }.
Record OutlierConfig (F : Type) := MkOutlier {
  z_score_threshold : F; robust_z_threshold : F;
  enable_poison_mitigation : bool; poison_skip_threshold : F }.
Arguments MkOutlier {F}.
Arguments z_score_threshold {F}.
Arguments robust_z_threshold {F}.
Arguments enable_poison_mitigation {F}.
Arguments poison_skip_threshold {F}.
Record GatingConfig (F : Type) := MkGating {
  enable_gating : bool; z_trigger_threshold : F; period_ms : Z }.
Arguments MkGating {F}.
Arguments enable_gating {F}.
Arguments z_trigger_threshold {F}.
Arguments period_ms {F}.
Record DetectorConfig (F : Type) := MkDetectorConfig {
  preprocessing : PreprocessingConfig; window : WindowConfig;
  outliers : OutlierConfig F; gating : GatingConfig F }.
Arguments MkDetectorConfig {F}.
Arguments preprocessing {F}.
Arguments window {F}.
Arguments outliers {F}.
Arguments gating {F}.

Section defaults.
Context {F : Type} `{Num F}.
Definition default_preprocessing : PreprocessingConfig := MkPreprocessing false.
Definition default_window : WindowConfig := MkWindow 60 10 10.
Definition default_outliers : OutlierConfig F := MkOutlier (nofZ 3) (nlit 35 10) false (nofZ 7).
Definition default_gating : GatingConfig F := MkGating false (nofZ 3) 60000.
Definition default_config : DetectorConfig F :=
  MkDetectorConfig default_preprocessing default_window default_outliers default_gating.
End defaults.

(** ** Preprocessing: src/src/preprocessing.cpp *)
Section preprocess.
Context {F : Type} `{Num F} `{Libm F}.
Definition clamp_nonneg (vec : list F) : list F :=
  for_ 0 kSize (fun i vec => if (vget vec i <? 0)%num then <[i := 0%num]> vec else vec) vec.
Definition Preprocessor_Apply (config : PreprocessingConfig) (vec : list F) : list F :=
  let vec := clamp_nonneg vec in
  if log1p_network config
  then let vec := <[3 := nlog1p (vget vec 3)]> vec in <[4 := nlog1p (vget vec 4)]> vec
  else vec.
End preprocess.

(** How iostreams print a double: with one decimal, and by default. *)
Class FloatFmt (F : Type) := { fmt_fixed1 : F -> string; fmt_default : F -> string }.

(** ** Detector A *)
Module DetectorA.
Section detector.
Context {F : Type} `{Num F} `{FloatFmt F}.

Record MetricState := MkMetric {
  buffer : list F; sum : F; sum_sq : F; median : F; mad : F }.
Definition metric_init : MetricState := MkMetric [] 0%num 0%num 0%num 0%num.

Definition Mean (st : MetricState) (n : Z) : F :=
  if (0 <? n)%Z then (sum st / nofZ n)%num else 0%num.
Definition Std (st : MetricState) (n : Z) : F :=
  if (n <? 2)%Z then 0%num else
  let mean := Mean st n in
  let variance := (sum_sq st / nofZ n - mean * mean)%num in
  if (0 <? variance)%num then nsqrt variance else 0%num.

Record AnomalyScore := MkScore { is_anomaly : bool; max_z_score : F; details : string }.

(** [update_count_] and one [MetricState] per feature. *)
Record State := MkState { states : list MetricState; update_count : Z }.
Definition init : State := MkState (replicate kSize metric_init) 0.

Definition UpdateRobustStats (st : MetricState) : MetricState :=
  match buffer st with
  | [] => st
  | _ =>
      let mid := length (buffer st) / 2 in
      let data := std_sort nltb (buffer st) in
      let median := vget data mid in
      let abs_diffs := (fun val => nabs (val - median)%num) <$> data in
      let mad := vget (std_sort nltb abs_diffs) mid in
      let mad := if (mad =? 0)%num then nlit 1 1000000 else mad in
      MkMetric (buffer st) (sum st) (sum_sq st) median mad
  end.

Context (win_config : WindowConfig) (outlier_config : OutlierConfig F).

(** Step 4: push the value and pop the oldest one when the window overflows. *)
Definition push_value (val : F) (st : MetricState) : MetricState :=
  let buf := buffer st ++ [val] in
  let s := (sum st + val)%num in
  let sq := (sum_sq st + val * val)%num in
  if (to_size_t (w_size win_config) <? zlen buf)%Z
  then let old := vget buf 0 in
       MkMetric (tail buf) (s - old)%num (sq - old * old)%num (median st) (mad st)
  else MkMetric buf s sq (median st) (mad st).

Definition is_warm (st : MetricState) : bool :=
  (to_size_t (min_history win_config) <=? zlen (buffer st))%Z.

Definition robust_z (val : F) (st : MetricState) : F :=
  let current_mad := if (0 <? mad st)%num then mad st else nlit 1 1000000 in
  (nabs (val - median st) / current_mad)%num.

(** One iteration of the loop of [Update] for a feature with value [val]:
    the new state, [warm], [robust_z] and [skip_update]. *)
Definition update_metric (needs_recompute : bool) (val : F) (st : MetricState)
    : MetricState * bool * F * bool :=
  let warm := is_warm st in
  let st := if needs_recompute && warm then UpdateRobustStats st else st in
  let rz := if warm then robust_z val st else 0%num in
  let skip := enable_poison_mitigation outlier_config && warm &&
              (poison_skip_threshold outlier_config <? rz)%num in
  (if skip then st else push_value val st, warm, rz, skip).

Definition describe (i : nat) (rz : F) (skip : bool) : string :=
  ((nth i GetFeatureNames "") +:+ ":rz=" +:+ fmt_fixed1 rz +:+ (if skip then "(skipped)" else "") +:+ " ")%string.

(** [update_count_ % recompute_interval == 0]; the interval is not 0 (the
    remainder would be undefined). *)
Definition needs_recompute (d : State) : bool :=
  (Z.rem (update_count d) (recompute_interval win_config) =? 0)%Z.

Definition Update (d : State) (vec : list F) : State * AnomalyScore :=
  let nr := needs_recompute d in
  let '(sts, flagged, max_z, ss) :=
    for_ 0 kSize (fun i '(sts, flagged, max_z, ss) =>
      let '(st, warm, rz, skip) := update_metric nr (vget vec i) (nth i sts metric_init) in
      let sts := <[i := st]> sts in
      if warm && (robust_z_threshold outlier_config <? rz)%num
      then (sts, true, if (max_z <? rz)%num then rz else max_z, (ss +:+ describe i rz skip)%string)
      else (sts, flagged, max_z, ss)) (states d, false, 0%num, EmptyString) in
  (MkState sts (update_count d + 1),
   if flagged then MkScore true max_z ss else MkScore false max_z EmptyString).
End detector.
Arguments MetricState F : clear implicits.
Arguments AnomalyScore F : clear implicits.
Arguments State F : clear implicits.
End DetectorA.

(** ** Detector A: the behaviour of one update *)
Lemma nth_insert {A} (l : list A) i j (x dflt : A) :
  i < length l -> nth j (<[i:=x]> l) dflt = if decide (i = j) then x else nth j l dflt.
Proof.
  intros Hi. rewrite !nth_lookup. case_decide; [subst; by rewrite list_lookup_insert_eq|].
  by rewrite list_lookup_insert_ne.
Qed.

Section detector_spec.
Import DetectorA.
Context {F : Type} `{NumOrder F} `{FloatFmt F}.
Context (wc : WindowConfig) (oc : OutlierConfig F).
Implicit Types (d : State F) (vec : list F) (i k : nat).

(** What one [Update] does to feature [i]. *)
Definition metric_at d i : MetricState F := nth i (states d) metric_init.
Definition metric_step d vec i : MetricState F * bool * F * bool :=
  update_metric wc oc (needs_recompute wc d) (vget vec i) (metric_at d i).
Definition step_state d vec i : MetricState F := (metric_step d vec i).1.1.1.
Definition step_rz d vec i : F := (metric_step d vec i).1.2.
Definition step_skip d vec i : bool := (metric_step d vec i).2.
(** The feature is warm and its robust z-score is above the threshold. *)
Definition exceeds d vec i : bool :=
  (metric_step d vec i).1.1.2 && (robust_z_threshold oc <? step_rz d vec i)%num.

(** The loop of [Update] treats each feature once, independently of the others. *)
Definition loop_inv d vec k (acc : list (MetricState F) * bool * F * string) : Prop :=
  let '(sts, flagged, max_z, ss) := acc in
  length sts = kSize /\
  (forall i, i < k -> nth i sts metric_init = step_state d vec i) /\
  (forall i, k <= i -> nth i sts metric_init = metric_at d i) /\
  (flagged = true <-> exists i, i < k /\ exceeds d vec i = true) /\
  (flagged = false -> max_z = 0%num) /\
  (max_z = 0%num \/ exists i, i < k /\ exceeds d vec i = true /\ max_z = step_rz d vec i) /\
  (forall i, i < k -> exceeds d vec i = true -> (max_z <? step_rz d vec i)%num = false).

Lemma loop_inv_step d vec k sts fl mz ss ss' :
  k < kSize -> loop_inv d vec k (sts, fl, mz, ss) ->
  let sts' := <[k := step_state d vec k]> sts in
  loop_inv d vec (S k)
    (if exceeds d vec k
     then (sts', true, if (mz <? step_rz d vec k)%num then step_rz d vec k else mz, ss')
     else (sts', fl, mz, ss)).
Proof.
  intros Hk (I1&I2&I3&I4&I5&I6&I7) sts'.
  assert (Hsts : forall i, nth i sts' metric_init =
            if decide (k = i) then step_state d vec k else nth i sts metric_init)
    by (intros i; apply nth_insert; lia).
  assert (Hl : length sts' = kSize) by (unfold sts'; by rewrite length_insert).
  assert (Hlt : forall i, i < S k -> nth i sts' metric_init = step_state d vec i)
    by (intros i Hi; rewrite Hsts; case_decide; [by subst|apply I2; lia]).
  assert (Hge : forall i, S k <= i -> nth i sts' metric_init = metric_at d i)
    by (intros i Hi; rewrite Hsts, decide_False by lia; apply I3; lia).
  destruct (exceeds d vec k) eqn:Ek; unfold loop_inv; split_and!; try done.
  - split; [intros _; exists k; split; [lia|done]|done].
  - destruct (mz <? step_rz d vec k)%num; [right; exists k; split_and!; [lia|done..]|].
    destruct I6 as [->|(i&?&?&?)]; [by left|right]. exists i. split_and!; [lia|done..].
  - intros i Hi Hex. destruct (decide (i = k)) as [->|Hne].
    + destruct (mz <? step_rz d vec k)%num eqn:E; [apply nltb_irrefl|done].
    + assert ((mz <? step_rz d vec i)%num = false) as Hi' by (apply I7; [lia|done]).
      destruct (mz <? step_rz d vec k)%num eqn:E; [|done].
      destruct (step_rz d vec k <? step_rz d vec i)%num eqn:E'; [|done].
      by rewrite (nltb_trans _ _ _ E E') in Hi'.
  - rewrite I4. split; intros (i&Hi&Hex); exists i; split; [lia|done| |done].
    destruct (decide (i = k)) as [->|]; [congruence|lia].
  - destruct I6 as [->|(i&?&?&?)]; [by left|right]. exists i. split_and!; [lia|done..].
  - intros i Hi Hex. apply I7; [|done]. destruct (decide (i = k)) as [->|]; [congruence|lia].
Qed.

Lemma Update_spec d vec :
  length (states d) = kSize ->
  let (d', score) := Update wc oc d vec in
  length (states d') = kSize /\ update_count d' = (update_count d + 1)%Z /\
  (forall i, i < kSize -> metric_at d' i = step_state d vec i) /\
  (is_anomaly score = true <-> exists i, i < kSize /\ exceeds d vec i = true) /\
  (is_anomaly score = false -> max_z_score score = 0%num /\ details score = EmptyString) /\
  (max_z_score score = 0%num \/
   exists i, i < kSize /\ exceeds d vec i = true /\ max_z_score score = step_rz d vec i) /\
  (forall i, i < kSize -> exceeds d vec i = true -> (max_z_score score <? step_rz d vec i)%num = false).
Proof.
  intros Hlen. unfold Update.
  set (acc := for_ 0 kSize _ _).
  assert (loop_inv d vec kSize acc) as Hinv.
  { apply (for_ind (loop_inv d vec)); [lia|..].
    - split_and!; try done; try lia; [split; [done|intros (?&?&?); lia]|by left].
    - intros k [[[sts fl] mz] ss] Hk Hi. pose proof Hi as (I1&_&I3&_). rewrite (I3 k) by lia.
      fold (metric_step d vec k).
      pose proof (fun ss' => loop_inv_step d vec k sts fl mz ss ss' (proj2 Hk) Hi) as Hstep.
      unfold exceeds, step_rz, step_state in Hstep.
      destruct (metric_step d vec k) as [[[st warm] rz] skip]. cbn in Hstep. apply Hstep. }
  destruct acc as [[[sts fl] mz] ss]. destruct Hinv as (I1&I2&I3&I4&I5&I6&I7). cbn.
  destruct fl; cbn; split_and!; try done. intros _. split; [by apply I5|done].
Qed.
End detector_spec.

(** ** Detector A: runs *)
Section detector_runs.
Import DetectorA.
Context {F : Type} `{NumOrder F} `{FloatFmt F}.
Context (wc : WindowConfig) (oc : OutlierConfig F).

(** The detector after a sequence of updates, and the values of feature [i]
    that the sequence pushed into its window (those not skipped as poison). *)
Definition run_from (d : State F) (vecs : list (list F)) : State F :=
  foldl (fun d vec => (Update wc oc d vec).1) d vecs.
Definition run (vecs : list (list F)) : State F := run_from init vecs.
Fixpoint accepted (i : nat) (d : State F) (vecs : list (list F)) : list F :=
  match vecs with
  | [] => []
  | vec :: vecs' =>
      (if step_skip wc oc d vec i then [] else [vget vec i]) ++ accepted i (Update wc oc d vec).1 vecs'
  end.
Definition window_size : nat := Z.to_nat (to_size_t (w_size wc)).

Lemma run_from_shape d vecs : length (states d) = kSize -> length (states (run_from d vecs)) = kSize.
Proof.
  revert d. induction vecs as [|vec vecs IH]; intros d Hd; [done|]. apply IH.
  pose proof (Update_spec wc oc d vec Hd) as Hs. destruct (Update wc oc d vec). apply Hs.
Qed.
Lemma run_shape vecs : length (states (run vecs)) = kSize.
Proof. by apply run_from_shape. Qed.

Lemma UpdateRobustStats_buffer (st : MetricState F) : buffer (UpdateRobustStats st) = buffer st.
Proof. unfold UpdateRobustStats. by destruct (buffer st) eqn:E. Qed.

Lemma push_value_buffer val (st : MetricState F) hist :
  buffer st = lastn window_size hist ->
  buffer (push_value wc val st) = lastn window_size (hist ++ [val]).
Proof.
  intros Hb. rewrite <- lastn_push, <- Hb. unfold push_value, window_size, zlen.
  pose proof (to_size_t_nonneg (w_size wc)).
  destruct (Z.ltb_spec (to_size_t (w_size wc)) (Z.of_nat (length (buffer st ++ [val])))).
  - by rewrite (proj2 (Nat.ltb_lt _ _)) by lia.
  - by rewrite (proj2 (Nat.ltb_ge _ _)) by lia.
Qed.

Lemma step_state_buffer d vec i hist :
  buffer (metric_at d i) = lastn window_size hist ->
  buffer (step_state wc oc d vec i) =
  lastn window_size (hist ++ (if step_skip wc oc d vec i then [] else [vget vec i])).
Proof.
  intros Hb. unfold step_state, step_skip, metric_step, update_metric. cbn.
  set (st' := if _ && _ then UpdateRobustStats _ else _).
  assert (buffer st' = lastn window_size hist) as Hb'
    by (unfold st'; case_match; by rewrite ?UpdateRobustStats_buffer).
  case_match; [by rewrite app_nil_r|by apply push_value_buffer].
Qed.

Lemma run_from_buffer d vecs i hist :
  length (states d) = kSize -> i < kSize ->
  buffer (metric_at d i) = lastn window_size hist ->
  buffer (metric_at (run_from d vecs) i) = lastn window_size (hist ++ accepted i d vecs).
Proof.
  revert d hist. induction vecs as [|vec vecs IH]; intros d hist Hd Hi Hb; cbn [accepted].
  - by rewrite app_nil_r.
  - pose proof (Update_spec wc oc d vec Hd) as Hs.
    rewrite app_assoc. apply IH; [|done|].
    + destruct (Update wc oc d vec). apply Hs.
    + destruct (Update wc oc d vec) as [d' sc]. destruct Hs as (_&_&Hm&_). cbn.
      rewrite Hm by done. by apply step_state_buffer.
Qed.
End detector_runs.

(** C29: after any sequence of updates, the window of every feature is exactly
    the last [size] values of that feature that the detector accepted, oldest
    first; a value skipped as poison never enters it, and the window never
    exceeds [size]. *)
Theorem window_is_recent_history {F} `{NumOrder F} `{FloatFmt F}
    (wc : WindowConfig) (oc : OutlierConfig F) (vecs : list (list F)) (i : nat) (Hi : i < kSize) :
  DetectorA.buffer (metric_at (run wc oc vecs) i) =
    lastn (window_size wc) (accepted wc oc i DetectorA.init vecs) /\
  length (DetectorA.buffer (metric_at (run wc oc vecs) i)) <= window_size wc.
Proof.
  assert (DetectorA.buffer (metric_at (run wc oc vecs) i) =
    lastn (window_size wc) (accepted wc oc i DetectorA.init vecs)) as Hb.
  { apply (run_from_buffer wc oc DetectorA.init vecs i []); [done..|].
    unfold metric_at, DetectorA.init, lastn; cbn. destruct i as [|[|[|[|[|]]]]]; [done..|unfold kSize in Hi; lia]. }
  split; [done|]. rewrite Hb, length_lastn. lia.
Qed.

Definition fmt_example : FloatFmt float := {| fmt_fixed1 _ := "x"%string; fmt_default _ := "x"%string |}.

Lemma window_is_recent_history_witness :
  let wc := MkWindow 2 1 2 in
  let oc := MkOutlier 3%float 3%float true 7%float in
  let vecs := (fun x => [x; 0; 0; 0; 0]%float) <$> [1; 2; 3; 1000; 4]%float in
  0 < kSize /\ DetectorA.buffer (metric_at (@run _ _ fmt_example wc oc vecs) 0) = [3; 4]%float /\
  length (DetectorA.buffer (metric_at (@run _ _ fmt_example wc oc vecs) 0)) <= window_size wc.
Proof.
  intros wc oc vecs. split; [unfold kSize; lia|].
  pose proof (@window_is_recent_history float _ _ fmt_example wc oc vecs 0 ltac:(unfold kSize; lia)) as [H1 H2].
  split; [rewrite H1; vm_compute; reflexivity|exact H2].
Defined.

(** Whatever its history, a detector reports an anomaly exactly when some
    warm feature has a robust z-score above the threshold; the reported score
    is then one of the offending scores or 0, no offending score exceeds it,
    and without an anomaly the score is 0 with no details. *)
Theorem detector_flags_outliers {F} `{NumOrder F} `{FloatFmt F}
    (wc : WindowConfig) (oc : OutlierConfig F) (vecs : list (list F)) (vec : list F) :
  let d := run wc oc vecs in
  let score := (DetectorA.Update wc oc d vec).2 in
  (DetectorA.is_anomaly score = true <-> exists i, i < kSize /\ exceeds wc oc d vec i = true) /\
  (DetectorA.is_anomaly score = false ->
     DetectorA.max_z_score score = 0%num /\ DetectorA.details score = EmptyString) /\
  (DetectorA.max_z_score score = 0%num \/
   exists i, i < kSize /\ exceeds wc oc d vec i = true /\
     DetectorA.max_z_score score = step_rz wc oc d vec i) /\
  (forall i, i < kSize -> exceeds wc oc d vec i = true ->
     (DetectorA.max_z_score score <? step_rz wc oc d vec i)%num = false).
Proof.
  intros d score. pose proof (Update_spec wc oc d vec (run_shape wc oc vecs)) as Hs.
  unfold score. destruct (DetectorA.Update wc oc d vec). by destruct Hs as (_&_&_&?&?&?&?).
Qed.

Lemma detector_flags_outliers_witness :
  let wc := MkWindow 60 1 3 in
  let oc := MkOutlier 3%float 3%float false 7%float in
  let vecs := (fun x => [x; 0; 0; 0; 0]%float) <$> [10; 11; 12; 11; 10]%float in
  let d := @run _ _ fmt_example wc oc vecs in
  let score := (@DetectorA.Update _ _ fmt_example wc oc d [30; 0; 0; 0; 0]%float).2 in
  exceeds wc oc d [30; 0; 0; 0; 0]%float 0 = true /\ DetectorA.is_anomaly score = true.
Proof.
  intros wc oc vecs d score. split; [vm_compute; reflexivity|].
  apply (proj1 (@detector_flags_outliers float _ _ fmt_example wc oc vecs [30; 0; 0; 0; 0]%float)).
  exists 0. split; [unfold kSize; lia|vm_compute; reflexivity].
Defined.

(** Recomputing the robust statistics of a non-empty window without NaNs
    sets [median] to the window element of rank [n/2] (at most [n/2] elements
    are smaller, at most [n - n/2 - 1] larger) and never leaves [mad] equal to
    0, the divisor of the robust z-score. *)
Theorem robust_stats_are_order_statistics {F} `{NumOrder F}
    (Hlit : (nlit (F:=F) 1 1000000 =? 0)%num = false)
    (st : DetectorA.MetricState F) (Hne : DetectorA.buffer st <> [])
    (Hnn : Forall nonnan (DetectorA.buffer st)) :
  let st' := DetectorA.UpdateRobustStats st in
  let w := DetectorA.buffer st in let n := length w in let m := DetectorA.median st' in
  m ∈ w /\ countb (fun y => y <? m)%num w <= n / 2 /\ countb (fun y => m <? y)%num w <= n - S (n / 2) /\
  (DetectorA.mad st' =? 0)%num = false /\ DetectorA.buffer st' = w.
Proof.
  cbn zeta. unfold DetectorA.UpdateRobustStats.
  destruct (DetectorA.buffer st) as [|x l] eqn:Hb; [done|]. cbn [DetectorA.median DetectorA.mad DetectorA.buffer].
  rewrite <- Hb in *. set (w := DetectorA.buffer st) in *.
  assert (length w / 2 < length w) as Hlt by (apply Nat.div_lt; [destruct w; [done|cbn; lia]|lia]).
  destruct (nth_element_rank w (length w / 2) Hnn Hlt) as (m & Hm & Hin & Hlo & Hhi).
  assert (vget (std_sort nltb w) (length w / 2) = m) as ->.
  { unfold nth_element in Hm. unfold vget. by rewrite nth_lookup, Hm. }
  split_and!; try done. match goal with |- context [if ?b then _ else _] => destruct b eqn:E end; done.
Qed.

Lemma robust_stats_are_order_statistics_witness :
  let st := DetectorA.MkMetric [5; 1; 3; 3; 9]%float 0%float 0%float 0%float 0%float in
  DetectorA.median (DetectorA.UpdateRobustStats st) = 3%float /\
  DetectorA.mad (DetectorA.UpdateRobustStats st) = 2%float /\
  (DetectorA.mad (DetectorA.UpdateRobustStats st) =? 0)%num = false.
Proof.
  intros st. split; [vm_compute; reflexivity|]. split; [vm_compute; reflexivity|].
  apply (robust_stats_are_order_statistics (F:=float)); [vm_compute; reflexivity|done|by repeat constructor].
Defined.
