(* ===== verification/Alerts.v ===== *)
(** Alert fusion: src/src/alert_manager.{h,cpp}.

    [Evaluate] is the whole handler: per-host hysteresis, cooldown, severity.
    The theorems relate it to the history of a host: [streak] and [last_alert]
    are read off the past evaluations, not off the manager's state. *)
From stdpp Require Import base list strings gmap.
From Stdlib Require Import ZArith Lia Floats Sorting.Sorted.
From S2P Require Import Prelude Num Linalg Detectors.

Local Open Scope Z_scope.

Section alerts.
Context {F : Type} `{Num F}.

Record FusionState := MkFusion { consecutive_anomalies : Z; last_alert_time : time_point }.
(** A default-constructed [FusionState]: no anomaly, the epoch. *)
Definition fusion_init : FusionState := MkFusion 0 0.

Record AlertManager := MkAlertManager {
  hysteresis_threshold_ : Z; cooldown_s_ : Z; states_ : gmap string FusionState }.
Definition new_manager (hysteresis_threshold cooldown_seconds : Z) : AlertManager :=
  MkAlertManager hysteresis_threshold cooldown_seconds ∅.
Definition default_manager : AlertManager := new_manager 2 600.

(** The arguments of one call of [Evaluate]. *)
Record Evaluation := MkEvaluation {
  ev_host_id : string; ev_run_id : string; ev_ts : time_point;
  detector_a_flag : bool; scores_a : F; detector_b_flag : bool; scores_b : F;
  ev_details : string }.

Definition any_flag (e : Evaluation) : bool := detector_a_flag e || detector_b_flag e.

(** Severity, source and score of an alert. *)
Definition fuse (e : Evaluation) : string * string * F :=
  if detector_a_flag e && detector_b_flag e then
    ("CRITICAL", "FUSION_A_B", std_max (scores_a e) (scores_b e))%string
  else if detector_b_flag e then ("HIGH", "DETECTOR_B_PCA", scores_b e)%string
  else ((if (nofZ 10 <? scores_a e)%num then "HIGH" else "MEDIUM"), "DETECTOR_A_STATS", scores_a e)%string.

Definition make_alert (e : Evaluation) : Alert F :=
  let '(severity, source, score) := fuse e in
  MkAlert (ev_host_id e) (ev_run_id e) (ev_ts e) severity source score (ev_details e).

(** [states_[host_id]], default-inserted. *)
Definition fusion_at (m : AlertManager) (h : string) : FusionState := default fusion_init (states_ m !! h).
Definition set_fusion (m : AlertManager) (h : string) (s : FusionState) : AlertManager :=
  MkAlertManager (hysteresis_threshold_ m) (cooldown_s_ m) (<[h := s]> (states_ m)).

(** A [seconds] duration in clock ticks (nanoseconds). *)
Definition ticks (s : Z) : Z := s * 1000000000.

Definition Evaluate (m : AlertManager) (e : Evaluation) : AlertManager * list (Alert F) :=
  let state := fusion_at m (ev_host_id e) in
  let put := set_fusion m (ev_host_id e) in
  if negb (any_flag e) then (put (MkFusion 0 (last_alert_time state)), [])
  else
    let n := consecutive_anomalies state + 1 in
    let counted := put (MkFusion n (last_alert_time state)) in
    if n <? hysteresis_threshold_ m then (counted, [])
    else if (0 <? last_alert_time state) && (ev_ts e - last_alert_time state <? ticks (cooldown_s_ m))
    then (counted, [])
    else (put (MkFusion 0 (ev_ts e)), [make_alert e]).

(** ** Histories

    A history pairs each past evaluation with the alerts it returned. *)
Abbreviation history := (list (Evaluation * list (Alert F))).

Fixpoint evaluate_all (m : AlertManager) (evs : list Evaluation) : AlertManager * history :=
  match evs with
  | [] => (m, [])
  | e :: evs' =>
      let '(m1, out) := Evaluate m e in
      let '(m2, tr) := evaluate_all m1 evs' in (m2, (e, out) :: tr)
  end.

Definition of_host (h : string) (tr : history) : history := filter (fun x => ev_host_id x.1 = h) tr.
Definition emitted (x : Evaluation * list (Alert F)) : bool := negb (bool_decide (x.2 = [])).
(** How many of the latest evaluations were flagged and raised no alert. *)
Fixpoint leading (p : Evaluation * list (Alert F) -> bool) (tr : history) : Z :=
  match tr with x :: tr' => if p x then 1 + leading p tr' else 0 | [] => 0 end.
Definition streak (tr : history) : Z :=
  leading (fun x => any_flag x.1 && negb (emitted x)) (reverse tr).
(** The time of the latest alert. *)
Definition last_alert (tr : history) : option time_point :=
  (fun x => ev_ts x.1) <$> last (filter (fun x => emitted x = true) tr).

(** The decision as a function of the host's history alone. *)
Definition cooling (cooldown : Z) (tr : history) (ts : time_point) : bool :=
  match last_alert tr with
  | Some t => (0 <? t) && (ts - t <? ticks cooldown)
  | None => false
  end.
Definition should_alert (threshold cooldown : Z) (tr : history) (e : Evaluation) : bool :=
  any_flag e && (threshold <=? streak tr + 1) && negb (cooling cooldown tr (ev_ts e)).

(** The manager's state represents the history of every host. *)
Definition represents (thr cd : Z) (m : AlertManager) (tr : history) : Prop :=
  hysteresis_threshold_ m = thr /\ cooldown_s_ m = cd /\
  forall h, consecutive_anomalies (fusion_at m h) = streak (of_host h tr) /\
            last_alert_time (fusion_at m h) = default 0 (last_alert (of_host h tr)).

Lemma streak_snoc tr x :
  streak (tr ++ [x]) = if any_flag x.1 && negb (emitted x) then streak tr + 1 else 0.
Proof. unfold streak. rewrite reverse_snoc. cbn. case_match; lia. Qed.
Lemma last_alert_snoc tr x :
  last_alert (tr ++ [x]) = if emitted x then Some (ev_ts x.1) else last_alert tr.
Proof.
  unfold last_alert. rewrite filter_app. destruct (emitted x) eqn:E.
  - by rewrite filter_cons_True, filter_nil, last_snoc.
  - rewrite filter_cons_False, filter_nil, app_nil_r by congruence. done.
Qed.
Lemma of_host_snoc h tr x :
  of_host h (tr ++ [x]) = if decide (ev_host_id x.1 = h) then of_host h tr ++ [x] else of_host h tr.
Proof.
  unfold of_host. rewrite filter_app. case_decide.
  - by rewrite filter_cons_True, filter_nil.
  - by rewrite filter_cons_False, filter_nil, app_nil_r.
Qed.

Lemma fusion_at_set m h s h' :
  fusion_at (set_fusion m h s) h' = if decide (h = h') then s else fusion_at m h'.
Proof.
  unfold fusion_at, set_fusion; cbn. case_decide; simplify_map_eq; done.
Qed.

Lemma represents_put thr cd m tr e s out :
  represents thr cd m tr ->
  let tr' := of_host (ev_host_id e) tr ++ [(e, out)] in
  consecutive_anomalies s = streak tr' -> last_alert_time s = default 0 (last_alert tr') ->
  represents thr cd (set_fusion m (ev_host_id e) s) (tr ++ [(e, out)]).
Proof.
  intros (H1&H2&H3) tr' Hc Hl. split_and!; [done..|]. intros h.
  rewrite fusion_at_set, of_host_snoc. cbn. case_decide; subst; [done|apply H3].
Qed.

(** One call decides as the history says, and the new state represents the
    extended history. *)
Lemma Evaluate_spec thr cd m tr e :
  represents thr cd m tr ->
  let '(m', out) := Evaluate m e in
  represents thr cd m' (tr ++ [(e, out)]) /\
  out = if should_alert thr cd (of_host (ev_host_id e) tr) e then [make_alert e] else [].
Proof.
  intros Hrep. pose proof Hrep as (<-&<-&Hst). destruct (Hst (ev_host_id e)) as [Hc Hl].
  unfold Evaluate, should_alert.
  destruct (any_flag e) eqn:Ef; cbn [negb andb].
  2:{ split; [|done]. apply represents_put; [done|..]; cbn.
      - rewrite streak_snoc. cbn. by rewrite Ef.
      - by rewrite last_alert_snoc. }
  rewrite <- Hc. rewrite Z.leb_antisym.
  destruct (Z.ltb_spec (consecutive_anomalies (fusion_at m (ev_host_id e)) + 1) (hysteresis_threshold_ m)) as [Hlt|Hge];
    cbn [negb andb].
  { split; [|done]. apply represents_put; [done|..]; cbn.
    - rewrite streak_snoc, <- Hc. cbn. by rewrite Ef.
    - by rewrite last_alert_snoc. }
  assert ((0 <? last_alert_time (fusion_at m (ev_host_id e)))
    && (ev_ts e - last_alert_time (fusion_at m (ev_host_id e)) <? ticks (cooldown_s_ m))
    = cooling (cooldown_s_ m) (of_host (ev_host_id e) tr) (ev_ts e)) as ->.
  { unfold cooling. rewrite Hl. by destruct (last_alert _). }
  destruct (cooling _ _ _); cbn [negb]; (split; [|done]); (apply represents_put; [done|..]; cbn).
  - rewrite streak_snoc, <- Hc. cbn. by rewrite Ef.
  - by rewrite last_alert_snoc.
  - rewrite streak_snoc. cbn. by rewrite Ef.
  - by rewrite last_alert_snoc.
Qed.

Lemma represents_new thr cd : represents thr cd (new_manager thr cd) [].
Proof. by split_and!. Qed.

Lemma evaluate_all_spec thr cd m tr0 evs :
  represents thr cd m tr0 ->
  let '(m', tr) := evaluate_all m evs in
  represents thr cd m' (tr0 ++ tr) /\ tr.*1 = evs /\
  forall i e out, tr !! i = Some (e, out) ->
    out = if should_alert thr cd (of_host (ev_host_id e) (tr0 ++ take i tr)) e then [make_alert e] else [].
Proof.
  revert m tr0. induction evs as [|e evs IH]; intros m tr0 Hrep; cbn.
  - rewrite app_nil_r. split_and!; done.
  - pose proof (Evaluate_spec thr cd m tr0 e Hrep) as Hs. destruct (Evaluate m e) as [m1 out].
    destruct Hs as [Hrep1 Hout]. specialize (IH m1 _ Hrep1). destruct (evaluate_all m1 evs) as [m2 tr].
    destruct IH as (H1&H2&H3). split_and!.
    + by rewrite <- app_assoc in H1.
    + cbn. by rewrite H2.
    + intros [|i] e' out' Hi; cbn in Hi |- *.
      * simplify_eq. by rewrite app_nil_r.
      * specialize (H3 i e' out' Hi). by rewrite <- app_assoc in H3.
Qed.
End alerts.
Arguments Evaluation F : clear implicits.

(** C6: in any sequence of evaluations, interleaving any hosts, the [i]-th one
    returns an alert exactly when it is flagged, it completes a streak of
    [hysteresis_threshold] flagged evaluations of the same host since the
    host's last alert or unflagged evaluation, and the host's last alert is at
    least the cooldown away; the alert it returns is the fused one. *)
Theorem alert_iff_confirmed_and_cooled {F} `{Num F} (thr cd : Z) (evs : list (Evaluation F))
    (i : nat) (e : Evaluation F) (out : list (Alert F)) :
  let tr := (evaluate_all (new_manager thr cd) evs).2 in
  tr !! i = Some (e, out) ->
  out = if should_alert thr cd (of_host (ev_host_id e) (take i tr)) e then [make_alert e] else [].
Proof.
  intros tr Hi. unfold tr in *.
  pose proof (evaluate_all_spec thr cd (new_manager thr cd) [] evs (represents_new thr cd)) as Hs.
  destruct (evaluate_all _ evs) as [m' tr']. destruct Hs as (_&_&Hs). by apply Hs.
Qed.

(** The times of the alerts of host [h], in order. *)
Definition alert_times {F} (h : string) (tr : list (Evaluation F * list (Alert F))) : list time_point :=
  (fun x => ev_ts x.1) <$> filter (fun x => emitted x = true) (of_host h tr).

Lemma StronglySorted_snoc {A} (R : A -> A -> Prop) (l : list A) x :
  (forall y z, last l = Some y -> R z y -> R z x) ->
  (forall y, last l = Some y -> R y x) ->
  StronglySorted R l -> StronglySorted R (l ++ [x]).
Proof.
  intros Htr Hlast Hs. induction Hs as [|y l Hs IH Hall]; [repeat constructor|]. cbn.
  assert (Forall (fun z => R y z) (l ++ [x])) as Hf.
  { apply Forall_app. split; [done|]. constructor; [|done]. destruct (last l) as [z|] eqn:E.
    - apply (Htr z); [by rewrite last_cons, E|]. rewrite Forall_forall in Hall. apply Hall.
      rewrite last_lookup in E. by eapply list_elem_of_lookup_2.
    - apply Hlast. by rewrite last_cons, E. }
  constructor; [|done]. apply IH; intros z; intros; [eapply Htr|eapply Hlast]; rewrite ?last_cons; try done;
    by match goal with H : last l = _ |- _ => rewrite H end.
Qed.

Lemma alert_times_snoc {F} h (tr : list (Evaluation F * list (Alert F))) x :
  alert_times h (tr ++ [x]) =
  alert_times h tr ++ (if bool_decide (ev_host_id x.1 = h) && emitted x then [ev_ts x.1] else []).
Proof.
  unfold alert_times. rewrite of_host_snoc. case_decide; [rewrite bool_decide_eq_true_2 by done|].
  - rewrite filter_app, fmap_app. f_equal. cbn [andb]. destruct (emitted x) eqn:E.
    + by rewrite filter_cons_True, filter_nil.
    + by rewrite filter_cons_False, filter_nil by congruence.
  - rewrite bool_decide_eq_false_2 by done. by rewrite app_nil_r.
Qed.

(** Whatever the evaluations are, the alerts of one host are pairwise at
    least the cooldown apart (for clocks after the epoch: the code reads a
    last alert at the epoch as "none"). *)
Theorem alerts_respect_cooldown {F} `{Num F} (thr cd : Z) (evs : list (Evaluation F)) (h : string)
    (Hcd : 0 <= cd) (Hts : Forall (fun e => 0 < ev_ts e) evs) :
  StronglySorted (fun t1 t2 => t1 + ticks cd <= t2)
    (alert_times h (evaluate_all (new_manager thr cd) evs).2).
Proof.
  pose proof (evaluate_all_spec thr cd (new_manager thr cd) [] evs (represents_new thr cd)) as Hs.
  destruct (evaluate_all _ evs) as [m' tr]. destruct Hs as (_&Hev&Hs). cbn [snd].
  assert (forall k, StronglySorted (fun t1 t2 => t1 + ticks cd <= t2) (alert_times h (take k tr)) /\
     Forall (fun t => 0 < t) (alert_times h (take k tr))) as Hk.
  2:{ specialize (Hk (length tr)). rewrite firstn_all in Hk. apply Hk. }
  induction k as [|k [IH IHp]]; [change (alert_times h (take 0 tr)) with (@nil Z); by repeat constructor|].
  destruct (tr !! k) as [[e out]|] eqn:Hx.
  2:{ rewrite take_ge by (apply lookup_ge_None in Hx; lia).
      by rewrite <- (take_ge tr k) by (apply lookup_ge_None in Hx; lia). }
  rewrite (take_S_r _ _ _ Hx), alert_times_snoc. cbn [fst].
  case_bool_decide as Hh; cbn [andb]; [|by rewrite app_nil_r].
  destruct (emitted (e, out)) eqn:Hem; [|by rewrite app_nil_r].
  assert (0 < ev_ts e) as Hpos.
  { rewrite Forall_forall in Hts. apply Hts. rewrite <- Hev.
    apply list_elem_of_fmap. exists (e, out). split; [done|]. by eapply list_elem_of_lookup_2. }
  split; [|by apply Forall_app; split; [|repeat constructor]].
  specialize (Hs k e out Hx). rewrite Hh, app_nil_l in Hs.
  assert (forall t, last (alert_times h (take k tr)) = Some t -> t + ticks cd <= ev_ts e) as Hlast.
  { intros t Ht. destruct (should_alert _ _ _ _) eqn:Hsa; [|by subst out].
    unfold should_alert, cooling, last_alert, of_host in Hsa. unfold alert_times, of_host in Ht.
    rewrite fmap_last in Ht. rewrite Ht in Hsa.
    assert (0 < t) as Htp.
    { rewrite Forall_forall in IHp. apply IHp. unfold alert_times.
      rewrite <- fmap_last, last_lookup in Ht. by eapply list_elem_of_lookup_2. }
    rewrite (proj2 (Z.ltb_lt 0 t) Htp) in Hsa. cbn in Hsa.
    apply andb_true_iff in Hsa as [_ Hlt%negb_true_iff%Z.ltb_ge]. lia. }
  apply StronglySorted_snoc; [|done..]. intros y z Hy Hz. specialize (Hlast y Hy). unfold ticks in *. lia.
Qed.

Definition eval_example (host : string) (ts : Z) (a b : bool) : Evaluation float :=
  MkEvaluation host "run" ts a 5%float b 7%float "d".

Lemma alert_iff_confirmed_and_cooled_witness :
  let evs := [eval_example "h" 5 true false; eval_example "g" 6 true true;
              eval_example "h" 7 true true; eval_example "h" 8 false true] in
  let tr := (evaluate_all (new_manager 2 600) evs).2 in
  exists out, tr !! 2%nat = Some (eval_example "h" 7 true true, out) /\
    out = [make_alert (eval_example "h" 7 true true)] /\ (a_severity <$> out) = ["CRITICAL"%string].
Proof.
  intros evs tr. eexists. split; [vm_compute; reflexivity|]. split; [|vm_compute; reflexivity].
  refine (eq_trans (alert_iff_confirmed_and_cooled 2 600 evs 2 (eval_example "h" 7 true true) _ _) _);
    vm_compute; reflexivity.
Defined.

Lemma alerts_respect_cooldown_witness :
  let evs := [eval_example "h" 1 true false; eval_example "h" 2 true false;
              eval_example "h" 3 true false; eval_example "h" 2000000002 true true] in
  (alert_times "h" (evaluate_all (new_manager 1 2) evs).2 = [1; 2000000002]) /\
  StronglySorted (fun t1 t2 => t1 + ticks 2 <= t2) (alert_times "h" (evaluate_all (new_manager 1 2) evs).2).
Proof.
  intros evs. split; [vm_compute; reflexivity|].
  apply alerts_respect_cooldown; [lia|]. repeat constructor.
Defined.
