(* ===== verification/Json.v ===== *)
(** JSON values as the nlohmann library represents them, and the operations on
    them that the source uses (request bodies, database columns, artifacts).

    An object is a [std::map] from keys to values: an association list kept
    sorted by key.  A number is an integer or a double, as it was written.
    [get<T>] throws a type error when the value has another type. *)
From stdpp Require Import base list strings.
From Stdlib Require Import ZArith Lia.
From S2P Require Import Prelude Num.

Local Open Scope string_scope.

Inductive json (F : Type) :=
  | JNull | JBool (b : bool) | JInt (z : Z) | JNum (x : F) | JStr (s : string)
  | JArr (l : list (json F)) | JObj (l : list (string * json F)).
Arguments JNull {F}.
Arguments JBool {F} b.
Arguments JInt {F} z.
Arguments JNum {F} x.
Arguments JStr {F} s.
Arguments JArr {F} l.
Arguments JObj {F} l.

Definition json_type_error {A} (msg : string) : res A := Throw (Exn JsonTypeError msg).

Section json.
Context {F : Type} `{Num F}.
Implicit Types j v : json F.

Fixpoint obj_lookup (k : string) (l : list (string * json F)) : option (json F) :=
  match l with
  | [] => None
  | (k', v) :: l' => if (k =? k')%string then Some v else obj_lookup k l'
  end.
Fixpoint obj_insert (k : string) (v : json F) (l : list (string * json F)) : list (string * json F) :=
  match l with
  | [] => [(k, v)]
  | (k', v') :: l' =>
      if (k =? k')%string then (k, v) :: l'
      else if String.ltb k k' then (k, v) :: l else (k', v') :: obj_insert k v l'
  end.

(** [j[key]] as an expression that is only read: a missing key reads null,
    and null itself becomes an object. *)
Definition jget j (k : string) : res (json F) :=
  match j with
  | JNull => Ok JNull
  | JObj l => Ok (default JNull (obj_lookup k l))
  | _ => json_type_error "cannot use operator[] with a string argument"
  end.
(** [j[key] = f(j[key])]. *)
Definition jupdate (k : string) (f : json F -> res (json F)) j : res (json F) :=
  match j with
  | JNull => v ← f JNull; Ok (JObj [(k, v)])
  | JObj l => v ← f (default JNull (obj_lookup k l)); Ok (JObj (obj_insert k v l))
  | _ => json_type_error "cannot use operator[] with a string argument"
  end.
Definition jset (k : string) (v : json F) : json F -> res (json F) := jupdate k (fun _ => Ok v).
(** [j[k1][k2] = v]. *)
Definition jset2 (k1 k2 : string) (v : json F) : json F -> res (json F) := jupdate k1 (jset k2 v).

Definition jcontains j (k : string) : bool :=
  match j with JObj l => bool_decide (is_Some (obj_lookup k l)) | _ => false end.
Definition jis_null j : bool := match j with JNull => true | _ => false end.
Definition jis_array j : bool := match j with JArr _ => true | _ => false end.
Definition jis_string j : bool := match j with JStr _ => true | _ => false end.
Definition jis_integer j : bool := match j with JInt _ => true | _ => false end.

Definition type_must_be {A} (what : string) : res A := json_type_error ("type must be " +:+ what).
Definition get_string j : res string :=
  match j with JStr s => Ok s | _ => type_must_be "string" end.
Definition get_double j : res F :=
  match j with JNum x => Ok x | JInt z => Ok (nofZ z) | _ => type_must_be "number" end.
(** [get<long>]: a double is truncated. *)
Definition get_long j : res Z :=
  match j with JInt z => Ok z | JNum x => Ok (ntrunc x) | _ => type_must_be "number" end.
(** [get<int>] keeps 32 bits, and also accepts a boolean. *)
Definition get_int j : res Z :=
  match j with
  | JInt z => Ok (to_int z) | JNum x => Ok (to_int (ntrunc x)) | JBool b => Ok (if b then 1 else 0)%Z
  | _ => type_must_be "number" end.
Definition get_list {A} (get : json F -> res A) j : res (list A) :=
  match j with JArr l => mapR get l | _ => type_must_be "array" end.

(** [j.value(key, dflt)]. *)
Definition jvalue {A} (get : json F -> res A) (k : string) (dflt : A) j : res A :=
  match j with
  | JObj l => match obj_lookup k l with Some v => get v | None => Ok dflt end
  | _ => json_type_error "cannot use value()"
  end.

Definition jdoubles (v : list F) : json F := JArr (JNum <$> v).

(** A double that JSON text can hold; NaN and the infinities are written as null. *)
Definition nfinite (x : F) : bool := (x - x =? 0)%num.
Fixpoint as_written (j : json F) : json F :=
  match j with
  | JNum x => if nfinite x then JNum x else JNull
  | JArr l => JArr (as_written <$> l)
  | JObj l => JObj ((fun kv => (kv.1, as_written kv.2)) <$> l)
  | _ => j
  end.
End json.

(** JSON text: [dump] and the parser are the library's.  What the source relies
    on: parsing a dump gives the value back, up to the numbers JSON cannot
    write; a text that is no JSON does not parse. *)
Class JsonText (F : Type) `{Num F} (text : Type) := {
  dump : json F -> text;
  parse : text -> option (json F);
  parse_dump j : parse (dump j) = Some (as_written j) }.
Arguments dump {F _ text _} j.
Arguments parse {F _ text _} t.

(** A concrete text: the tree itself, with null for the numbers JSON cannot write. *)
Definition tree_text (F : Type) `{Num F} : JsonText F (option (json F)) :=
  {| dump j := Some (as_written j); parse t := t; parse_dump _ := eq_refl |}.

Section json_lemmas.
Context {F : Type} `{Num F}.
Implicit Types (j v : json F) (l : list (string * json F)).

Lemma obj_lookup_insert_eq k v l : obj_lookup k (obj_insert k v l) = Some v.
Proof.
  induction l as [|[k' v'] l IH]; cbn; [by rewrite String.eqb_refl|].
  destruct (k =? k')%string eqn:E; cbn; [by rewrite String.eqb_refl|].
  destruct (String.ltb k k'); cbn; [by rewrite String.eqb_refl|]. by rewrite E.
Qed.
Lemma obj_lookup_insert_ne k k2 v l : k2 <> k -> obj_lookup k2 (obj_insert k v l) = obj_lookup k2 l.
Proof.
  intros Hne%String.eqb_neq. induction l as [|[k' v'] l IH]; cbn; [by rewrite Hne|].
  destruct (k =? k')%string eqn:E; cbn.
  - apply String.eqb_eq in E as ->. by rewrite Hne.
  - destruct (String.ltb k k'); cbn; [by rewrite Hne|]. by rewrite IH.
Qed.

(** Reading back a written vector: it comes back when every entry is finite. *)
Lemma get_doubles_written (v : list F) :
  get_list get_double (as_written (jdoubles v)) =
  if forallb nfinite v then Ok v else type_must_be "number".
Proof.
  cbn. induction v as [|x v IH]; [done|]. cbn [fmap list_fmap mapR forallb as_written].
  destruct (nfinite x); cbn [andb mbind res_bind get_double]; [|done]. rewrite IH. by destruct (forallb _ v).
Qed.
Lemma get_rows_written (rows : list (list F)) :
  get_list (get_list get_double) (as_written (JArr (jdoubles <$> rows))) =
  if forallb (forallb nfinite) rows then Ok rows else type_must_be "number".
Proof.
  cbn. induction rows as [|v rows IH]; [done|]. cbn [fmap list_fmap mapR forallb].
  rewrite get_doubles_written. destruct (forallb nfinite v); cbn [andb mbind res_bind]; [|done].
  rewrite IH. by destruct (forallb _ rows).
Qed.
End json_lemmas.
