(* ===== verification/PcaModel.v ===== *)
(** Detector B, the PCA model: src/src/detectors/pca_model.{h,cpp}.

    [Load] reads an artifact into a model object (state passing: a load that
    throws leaves the fields it had already assigned); [Score] standardizes,
    projects, reconstructs and compares the residual with the threshold. *)
From stdpp Require Import base list strings.
From Stdlib Require Import ZArith Lia Floats.
From S2P Require Import Prelude Num Linalg Detectors Json.

Local Open Scope nat_scope.

(** ** Vector arithmetic *)
Section vec.
Context {F : Type} `{Num F}.
Implicit Types a b x : list F.

Definition vec_op (op : F -> F -> F) (msg : string) a b : res (list F) :=
  if negb (length a =? length b) then runtime_error msg else Ok (zip_with op a b).
Definition vec_sub := vec_op nsub "vec_sub dimension mismatch".
Definition vec_add := vec_op nadd "vec_add dimension mismatch".
Definition vec_div := vec_op ndiv "vec_div dimension mismatch".

Lemma vec_op_ok op msg a b : length a = length b -> vec_op op msg a b = Ok (zip_with op a b).
Proof. intros Hl. unfold vec_op. by rewrite Hl, Nat.eqb_refl. Qed.
Lemma vec_op_mismatch op msg a b : length a <> length b -> vec_op op msg a b = runtime_error msg.
Proof. intros Hl%Nat.eqb_neq. unfold vec_op. by rewrite Hl. Qed.
Lemma vec_op_length op msg a b c : vec_op op msg a b = Ok c -> length c = length a /\ length b = length a.
Proof.
  unfold vec_op. destruct (Nat.eqb_spec (length a) (length b)); cbn; [|discriminate].
  intros [= <-]. rewrite length_zip_with. lia.
Qed.

(** The projection of [x_scaled] on the components and back, subtracted from
    [x_scaled]: the common code of [PcaModel::Score] and of the error pass of
    [TrainPcaFromStream]. *)
Definition pca_residual (components : Matrix F) (pca_mean x_scaled : list F) : res (list F) :=
  x_centered ← vec_sub x_scaled pca_mean;
  x_proj ← matvec components x_centered;
  x_recon_centered ← matvec (transpose components) x_proj;
  x_recon_scaled ← vec_add x_recon_centered pca_mean;
  vec_sub x_scaled x_recon_scaled.

Lemma matvec_ok (m : Matrix F) x : cols m = length x -> exists y, matvec m x = Ok y /\ length y = rows m.
Proof. intros Hl. eexists. split; [by apply matvec_eq|]. by rewrite length_fmap, length_seq. Qed.

Lemma pca_residual_ok components pca_mean x :
  cols components = length x -> length pca_mean = length x ->
  exists d, pca_residual components pca_mean x = Ok d /\ length d = length x.
Proof.
  intros Hc Hm. unfold pca_residual, vec_sub, vec_add. rewrite vec_op_ok by done. cbn.
  destruct (transpose_shaped components) as (_&Hr'&Hc').
  destruct (matvec_ok components (zip_with nsub x pca_mean)) as (y & -> & Hy);
    [rewrite length_zip_with; lia|]. cbn.
  destruct (matvec_ok (transpose components) y) as (z & -> & Hz); [lia|]. cbn.
  rewrite vec_op_ok by lia. cbn. rewrite vec_op_ok by (rewrite length_zip_with; lia).
  eexists. split; [done|]. rewrite !length_zip_with. lia.
Qed.

Lemma l2_norm_ok x : exists e, l2_norm x = Ok e.
Proof. unfold l2_norm, dot. rewrite Nat.eqb_refl. cbn. eauto. Qed.
End vec.

(** ** The model *)
Section model.
Context {F : Type} `{Num F} {text : Type} `{!JsonText F text} `{!FloatFmt F}.

Record PcaScore := MkPcaScore {
  ps_is_anomaly : bool; reconstruction_error : F; residuals : list F; ps_details : string }.
Definition score_init : PcaScore := MkPcaScore false 0%num [] EmptyString.

Record PcaModel := MkModel {
  loaded_ : bool; cur_mean_ : list F; cur_scale_ : list F;
  components_ : Matrix F; pca_mean_ : list F; threshold_ : F }.
Definition new_model : PcaModel := MkModel false [] [] (MkMatrix 0 0 []) [] 0%num.

(** [j["a"]["b"]]. *)
Definition jget2 (j : json F) (a b : string) : res (json F) := v ← jget j a; jget v b.

Definition read_preprocessing (j : json F) : res (list F * list F) :=
  jm ← jget2 j "preprocessing" "mean"; raw_mean ← get_list get_double jm;
  js ← jget2 j "preprocessing" "scale"; raw_scale ← get_list get_double js;
  if negb (length raw_mean =? kSize) || negb (length raw_scale =? kSize)
  then runtime_error "Dimension mismatch in artifact preprocessing"
  else Ok (raw_mean, raw_scale).

(** The copy loop reads [raw_components[i][c]] for every [c < d], where [d]
    is the width of the first row: a shorter row is read out of range. *)
Definition read_components (j : json F) : res (Matrix F) :=
  jc ← jget2 j "model" "components";
  raw ← get_list (get_list get_double) jc;
  match raw with
  | [] => runtime_error "No PCA components found"
  | row0 :: _ =>
      let k := length raw in let d := length row0 in
      if negb (d =? kSize) then runtime_error "Dimension mismatch in PCA components"
      else if forallb (fun row => d <=? length row) raw then
        Ok (for_ 0 k (fun i m =>
          for_ 0 d (fun c m => mset m i c (vget (nth i raw []) c)) m) (mat_new k d))
      else undefined "raw_components[i][c] out of range"
  end.

Definition Load (m : PcaModel) (artifact_path : string) (file : option text) : PcaModel * res unit :=
  match file with
  | None => (m, runtime_error ("Failed to open artifact: " +:+ artifact_path))
  | Some t =>
  match parse t with
  | None => (m, Throw (Exn JsonParseError "parse error"))
  | Some j =>
  match read_preprocessing j with
  | Throw e => (m, Throw e)
  | Ok (mean, scale) =>
  let m := MkModel (loaded_ m) mean scale (components_ m) (pca_mean_ m) (threshold_ m) in
  match read_components j with
  | Throw e => (m, Throw e)
  | Ok comps =>
  let m := MkModel (loaded_ m) mean scale comps (pca_mean_ m) (threshold_ m) in
  match (jp ← jget2 j "model" "mean"; get_list get_double jp) with
  | Throw e => (m, Throw e)
  | Ok pmean =>
  let m := MkModel (loaded_ m) mean scale comps pmean (threshold_ m) in
  match (jt ← jget2 j "thresholds" "reconstruction_error"; get_double jt) with
  | Throw e => (m, Throw e)
  | Ok thr => (MkModel true mean scale comps pmean thr, Ok tt)
  end end end end end end.

Definition Score (m : PcaModel) (vec : list F) : res PcaScore :=
  if negb (loaded_ m) then Ok score_init else
  x ← vec_sub vec (cur_mean_ m);
  x_scaled ← vec_div x (cur_scale_ m);
  diff ← pca_residual (components_ m) (pca_mean_ m) x_scaled;
  err ← l2_norm diff;
  Ok (if (threshold_ m <? err)%num
      then MkPcaScore true err diff
             ("PCA_RECON_ERR=" +:+ fmt_default err +:+ " > " +:+ fmt_default (threshold_ m))
      else MkPcaScore false err diff EmptyString).

(** Bytes: [sizeof(PcaModel)] is 128 on the LP64 targets the project builds for. *)
Definition sizeof_PcaModel : Z := 128.
Definition EstimateMemoryUsage (m : PcaModel) : Z :=
  (sizeof_PcaModel + zlen (cur_mean_ m) * 8 + zlen (cur_scale_ m) * 8
   + zlen (data (components_ m)) * 8 + zlen (pca_mean_ m) * 8)%Z.

(** What a successful load establishes. *)
Record loaded_ok (m : PcaModel) : Prop := {
  lo_loaded : loaded_ m = true;
  lo_mean : length (cur_mean_ m) = kSize;
  lo_scale : length (cur_scale_ m) = kSize;
  lo_comps : shaped (rows (components_ m)) kSize (components_ m);
  lo_rows : 0 < rows (components_ m) }.

Lemma read_preprocessing_ok j mean scale :
  read_preprocessing j = Ok (mean, scale) -> length mean = kSize /\ length scale = kSize.
Proof.
  unfold read_preprocessing. intros (?&_&H1)%bind_ok. apply bind_ok in H1 as (m&_&H1).
  apply bind_ok in H1 as (?&_&H1). apply bind_ok in H1 as (s&_&H1).
  destruct (Nat.eqb_spec (length m) kSize), (Nat.eqb_spec (length s) kSize); cbn in H1; simplify_eq; done.
Qed.

Lemma read_components_ok j m :
  read_components j = Ok m -> 0 < rows m /\ shaped (rows m) kSize m.
Proof.
  unfold read_components. intros (?&_&H1)%bind_ok. apply bind_ok in H1 as ([|row0 raw]&_&H1); [done|].
  destruct (Nat.eqb_spec (length row0) kSize) as [Hd|]; [|done]. cbn [negb] in H1.
  case_match; [|done]. injection H1 as <-. set (k := length (row0 :: raw)).
  match goal with |- context [rows ?r] => assert (shaped k (length row0) r) as Hs by eauto 6 with linalg end.
  pose proof Hs as (_&Hr&_). rewrite Hr, <- Hd. split; [unfold k; cbn; lia|done].
Qed.

Lemma Load_ok m path file m' : Load m path file = (m', Ok tt) -> loaded_ok m'.
Proof.
  unfold Load. destruct file as [t|]; [|done]. destruct (parse t) as [j|]; [|done].
  destruct (read_preprocessing j) as [[mean scale]|] eqn:E1; [|done].
  destruct (read_components j) as [comps|] eqn:E2; [|done].
  do 2 (case_match; [|done]). intros [= <-].
  apply read_preprocessing_ok in E1 as [??]. apply read_components_ok in E2 as [??].
  split; done.
Qed.

(** The score of a model with consistent widths: the standardized input, its
    residual and the comparison with the threshold. *)
Definition scaled (m : PcaModel) (vec : list F) : list F :=
  zip_with ndiv (zip_with nsub vec (cur_mean_ m)) (cur_scale_ m).

Lemma Score_eq m vec : loaded_ok m -> length vec = kSize ->
  Score m vec =
  (diff ← pca_residual (components_ m) (pca_mean_ m) (scaled m vec);
   err ← l2_norm diff;
   Ok (if (threshold_ m <? err)%num
       then MkPcaScore true err diff
             ("PCA_RECON_ERR=" +:+ fmt_default err +:+ " > " +:+ fmt_default (threshold_ m))
       else MkPcaScore false err diff EmptyString)).
Proof.
  intros [Hl Hm Hs _ _] Hv. unfold Score. rewrite Hl. cbn [negb]. unfold vec_sub, vec_div.
  rewrite vec_op_ok by lia. cbn. rewrite vec_op_ok by (rewrite length_zip_with; lia). done.
Qed.
End model.
Arguments PcaModel F : clear implicits.
Arguments PcaScore F : clear implicits.

(** C35: a model that loaded successfully scores every feature vector: when the
    artifact's PCA mean has [kSize] entries the score has one residual per
    feature, its error is the norm of the residuals and it is an anomaly
    exactly when the error is above the threshold; when the PCA mean has any
    other length (which [Load] does not check) every score throws. *)
Theorem loaded_model_scores {F} `{Num F} {text} `{!JsonText F text} `{!FloatFmt F}
    (m0 m : PcaModel F) (path : string) (file : option text) (vec : list F)
    (Hload : Load m0 path file = (m, Ok tt)) (Hvec : length vec = kSize) :
  if decide (length (pca_mean_ m) = kSize) then
    exists s, Score m vec = Ok s /\ length (residuals s) = kSize /\
      l2_norm (residuals s) = Ok (reconstruction_error s) /\
      ps_is_anomaly s = (threshold_ m <? reconstruction_error s)%num /\
      (ps_is_anomaly s = false <-> ps_details s = EmptyString)
  else Score m vec = runtime_error "vec_sub dimension mismatch".
Proof.
  apply Load_ok in Hload as Hok. rewrite Score_eq by done. destruct Hok as [_ Hm Hs (_&_&Hc) _].
  assert (length (scaled m vec) = kSize) as Hx by (unfold scaled; rewrite !length_zip_with; lia).
  case_decide as Hp.
  - destruct (pca_residual_ok (components_ m) (pca_mean_ m) (scaled m vec)) as (d & -> & Hd); [lia..|].
    destruct (l2_norm_ok d) as (err & Herr). cbn. rewrite Herr. cbn.
    eexists. split; [done|]. destruct (threshold_ m <? err)%num eqn:E; cbn;
      split_and!; try done; lia.
  - unfold pca_residual.
    assert (vec_sub (scaled m vec) (pca_mean_ m) = runtime_error "vec_sub dimension mismatch") as ->
      by (apply vec_op_mismatch; lia).
    done.
Qed.

Definition artifact_example (pm : list float) : json float :=
  JObj [("model", JObj [("components", JArr [jdoubles [1; 0; 0; 0; 0]%float]); ("mean", jdoubles pm)]);
        ("preprocessing", JObj [("mean", jdoubles [0; 0; 0; 0; 0]%float); ("scale", jdoubles [1; 1; 1; 1; 1]%float)]);
        ("thresholds", JObj [("reconstruction_error", JNum 4%float)])]%string.

Lemma loaded_model_scores_witness :
  let ld pm := @Load float _ _ (tree_text float) new_model "model.json" (Some (Some (artifact_example pm))) in
  let m := (ld [0; 0; 0; 0; 0]%float).1 in let m' := (ld [0; 0]%float).1 in
  (exists s, @Score float _ fmt_example m [7; 3; 4; 0; 0]%float = Ok s /\ length (residuals s) = kSize) /\
  @Score float _ fmt_example m' [7; 3; 4; 0; 0]%float = runtime_error "vec_sub dimension mismatch".
Proof.
  intros ld m m'. split.
  - pose proof (@loaded_model_scores float _ _ (tree_text float) fmt_example new_model m "model.json"
      (Some (Some (artifact_example [0; 0; 0; 0; 0]%float))) [7; 3; 4; 0; 0]%float
      ltac:(vm_compute; reflexivity) eq_refl) as Hs.
    rewrite decide_True in Hs by (vm_compute; reflexivity). destruct Hs as (s&?&?&_). by exists s.
  - pose proof (@loaded_model_scores float _ _ (tree_text float) fmt_example new_model m' "model.json"
      (Some (Some (artifact_example [0; 0]%float))) [7; 3; 4; 0; 0]%float
      ltac:(vm_compute; reflexivity) eq_refl) as Hs.
    rewrite decide_False in Hs by (vm_compute; discriminate). exact Hs.
Defined.
