(* ===== verification/Strconv.v ===== *)
(** String to integer conversions of the C++ standard library: [std::stoi],
    [std::stol] and [std::stoul].  Leading white space and a sign are skipped,
    the longest run of digits is read and the rest ignored; no digit throws
    [invalid_argument], a value outside the type throws [out_of_range]
    ([stoul] wraps a negated value). *)
From stdpp Require Import base strings pretty list.
From Stdlib Require Import ZArith Lia Ascii.
From S2P Require Import Prelude.

Local Open Scope Z_scope.

Definition is_digit (c : ascii) : bool :=
  let n := N_of_ascii c in (48 <=? n)%N && (n <=? 57)%N.
Definition is_ws (c : ascii) : bool :=
  let n := N_of_ascii c in (n =? 32)%N || ((9 <=? n)%N && (n <=? 13)%N).
Definition digit_val (c : ascii) : Z := Z.of_N (N_of_ascii c) - 48.

(** [std::transform(..., ::tolower)]. *)
Definition lower_ascii (a : ascii) : ascii :=
  let n := nat_of_ascii a in if (65 <=? n)%nat && (n <=? 90)%nat then ascii_of_nat (n + 32) else a.
Fixpoint lower (s : string) : string :=
  match s with "" => "" | String a s' => String (lower_ascii a) (lower s') end.

Fixpoint skip_ws (s : string) : string :=
  match s with
  | String c s' => if is_ws c then skip_ws s' else s
  | EmptyString => s
  end.
Definition read_sign (s : string) : bool * string :=
  match s with
  | String c s' =>
      if Ascii.eqb c "-"%char then (true, s') else if Ascii.eqb c "+"%char then (false, s') else (false, s)
  | EmptyString => (false, s)
  end.
(** The value of the leading digits; [None] when there is none. *)
Fixpoint read_digits (acc : option Z) (s : string) : option Z :=
  match s with
  | String c s' => if is_digit c then read_digits (Some (default 0 acc * 10 + digit_val c)) s' else acc
  | EmptyString => acc
  end.

Definition out_of_range {A} (msg : string) : res A := Throw (Exn StdOutOfRange msg).
Arguments out_of_range {A} msg%_string.

Definition sto_signed (name : string) (bits : Z) (s : string) : res Z :=
  let '(neg, s) := read_sign (skip_ws s) in
  match read_digits None s with
  | None => invalid_argument name
  | Some n =>
      let v := if neg then - n else n in
      if (- 2 ^ (bits - 1) <=? v) && (v <? 2 ^ (bits - 1)) then Ok v else out_of_range name
  end.
Definition stoi : string -> res Z := sto_signed "stoi" 32.
Definition stol : string -> res Z := sto_signed "stol" 64.
Definition stoul (s : string) : res Z :=
  let '(neg, s) := read_sign (skip_ws s) in
  match read_digits None s with
  | None => invalid_argument "stoul"
  | Some n => if n <? 2 ^ 64 then Ok (to_size_t (if neg then - n else n)) else out_of_range "stoul"
  end.

(** The result fits the type. *)
Lemma stoi_range s v : stoi s = Ok v -> int_min <= v <= int_max.
Proof.
  unfold stoi, sto_signed, int_min, int_max. destruct (read_sign _) as [neg s'].
  destruct (read_digits None s') as [n|]; [|discriminate]. cbn zeta.
  destruct (Z.leb_spec (- 2 ^ (32 - 1)) (if neg then - n else n)); [|discriminate].
  destruct (Z.ltb_spec (if neg then - n else n) (2 ^ (32 - 1))); [|discriminate]. cbn. intros [= <-]. lia.
Qed.
Lemma stoul_range s v : stoul s = Ok v -> 0 <= v < 2 ^ 64.
Proof.
  unfold stoul. destruct (read_sign _) as [neg s']. destruct (read_digits None s') as [n|]; [|discriminate].
  destruct (n <? 2 ^ 64); [|discriminate]. intros [= <-]. apply Z.mod_pos_bound. lia.
Qed.

(** Reading what [std::to_string] printed. *)
Lemma digit_char n : (n < 10)%N -> is_digit (pretty_N_char n) = true /\ digit_val (pretty_N_char n) = Z.of_N n.
Proof.
  intros Hn. pose (ok (k : nat) := let c := pretty_N_char (N.of_nat k) in is_digit c && (digit_val c =? Z.of_nat k)).
  assert (forallb ok (seq 0 10) = true) as Hall by (vm_compute; reflexivity). rewrite forallb_forall in Hall.
  specialize (Hall (N.to_nat n)). unfold ok in Hall. rewrite N2Nat.id in Hall.
  apply andb_true_iff in Hall as [Hd Hv%Z.eqb_eq]; [split; [done|lia]|]. apply in_seq. lia.
Qed.
Lemma pretty_go_app x s t : (pretty_N_go x s +:+ t = pretty_N_go x (s +:+ t))%string.
Proof.
  revert s. induction (N.lt_wf_0 x) as [x _ IH]; intros s. destruct (decide (x = 0)%N) as [->|Hx]; [done|].
  rewrite !(pretty_N_go_step x) by lia. rewrite IH by (apply N.div_lt; lia). done.
Qed.
Lemma read_go x s : read_digits None (pretty_N_go x s) = read_digits (if (x =? 0)%N then None else Some (Z.of_N x)) s.
Proof.
  revert s. induction (N.lt_wf_0 x) as [x _ IH]; intros s. destruct (N.eqb_spec x 0) as [->|Hx]; [done|].
  rewrite pretty_N_go_step by lia. rewrite IH by (apply N.div_lt; lia).
  destruct (digit_char (x mod 10)) as [Hd Hv]; [apply N.mod_lt; lia|]. cbn [read_digits]. rewrite Hd, Hv.
  f_equal. f_equal. pose proof (N.div_mod x 10 ltac:(lia)).
  destruct (N.eqb_spec (x / 10) 0); cbn [from_option]; unfold id; lia.
Qed.
Lemma read_pretty (n : N) s : read_digits None (pretty n +:+ s)%string = read_digits (Some (Z.of_N n)) s.
Proof.
  unfold pretty, pretty_N. case_decide; [by subst|]. rewrite pretty_go_app, read_go.
  by destruct (N.eqb_spec n 0).
Qed.
(** A text that begins with a digit has no sign. *)
Lemma read_sign_digits s n : read_digits None s = Some n -> read_sign s = (false, s).
Proof.
  destruct s as [|c s]; [done|]. cbn [read_digits read_sign].
  destruct (Ascii.eqb_spec c "-"%char) as [->|]; [done|]. by destruct (Ascii.eqb_spec c "+"%char) as [->|].
Qed.
(** A printed number has no character but digits and its sign. *)
Lemma without_go c x s : is_digit c = false -> without c (pretty_N_go x s) = without c s.
Proof.
  intros Hc. revert s. induction (N.lt_wf_0 x) as [x _ IH]; intros s. destruct (N.eqb_spec x 0) as [->|Hx]; [done|].
  rewrite pretty_N_go_step by lia. rewrite IH by (apply N.div_lt; lia). cbn [without].
  destruct (digit_char (x mod 10)) as [Hd _]; [apply N.mod_lt; lia|].
  destruct (Ascii.eqb_spec (pretty_N_char (x mod 10)) c) as [E|]; [|done]. rewrite E in Hd. congruence.
Qed.
Lemma without_pretty c (z : Z) : is_digit c = false -> c <> "-"%char -> without c (pretty z) = true.
Proof.
  intros Hc Hm. assert (forall n : N, without c (pretty n) = true) as Hn.
  { intros n. unfold pretty, pretty_N. case_decide; [|by rewrite without_go].
    change (negb (Ascii.eqb "0" c) && true = true). by destruct (Ascii.eqb_spec "0"%char c) as [<-|]. }
  destruct z as [|p|p]; [apply (Hn 0%N)|apply (Hn (Npos p))|].
  change (negb (Ascii.eqb "-" c) && without c (pretty (Npos p)) = true). rewrite Hn.
  by destruct (Ascii.eqb_spec "-"%char c) as [<-|].
Qed.
(** The printed number, with its sign, before a text that does not begin with a digit. *)
Lemma read_pretty_Z z s : read_digits (Some (Z.abs z)) s = Some (Z.abs z) ->
  exists neg digits, read_sign (pretty z +:+ s)%string = (neg, digits) /\ read_digits None digits = Some (Z.abs z) /\
    (if neg then - Z.abs z else Z.abs z) = z.
Proof.
  intros Hs. destruct z as [|p|p].
  - exists false. eexists. split; [done|]. split; [|done]. apply Hs.
  - exists false. eexists. assert (read_digits None (pretty (Npos p) +:+ s)%string = Some (Z.pos p)) as E by by rewrite read_pretty.
    split; [by apply (read_sign_digits _ (Z.pos p))|]. by split.
  - exists true, (pretty (Npos p) +:+ s)%string. split; [done|]. split; [by rewrite read_pretty|done].
Qed.

Example stoi_prefix : stoi " -12abc" = Ok (-12). Proof. reflexivity. Qed.
Example stoul_wraps : stoul "-1" = Ok (2 ^ 64 - 1). Proof. reflexivity. Qed.
