(* ===== verification/Trainer.v ===== *)
(** Training the PCA model: src/src/training/pca_trainer.{h,cpp} (the
    hyperparameter search of that file is in Hpo).

    [TrainPcaFromStream] calls its [for_each] three times; [pass 0], [pass 1]
    and [pass 2] are the vectors the three calls feed to the callback. *)
From stdpp Require Import base list strings pretty.
From Stdlib Require Import ZArith Lia Floats Sorting.Sorted.
From S2P Require Import Prelude Num Linalg Detectors Json PcaModel.

Local Open Scope nat_scope.

Section trainer.
Context {F : Type} `{Num F} `{!Libm F}.

Record PcaArtifact := MkArtifact {
  scaler_mean : list F; scaler_scale : list F; components : Matrix F;
  explained_variance : list F; pca_mean : list F; threshold : F; n_components : Z }.

(** ** Running mean and scatter (Welford) *)
Record RunningStats := MkStats { rs_n : Z; rs_mean : list F; rs_m2 : Matrix F }.
Definition stats_init (dim : nat) : RunningStats := MkStats 0 (replicate dim 0%num) (mat_new dim dim).

Definition stats_mean_loop (n : Z) (x : list F) (mean : list F) : list F * list F :=
  for_ 0 (length x) (fun i '(delta, mean) =>
    let di := (vget x i - vget mean i)%num in
    (<[i := di]> delta, <[i := (vget mean i + di / nofZ n)%num]> mean)) (replicate (length x) 0%num, mean).
Definition stats_delta2 (x mean : list F) : list F :=
  for_ 0 (length x) (fun i d2 => <[i := (vget x i - vget mean i)%num]> d2) (replicate (length x) 0%num).
Definition stats_update (st : RunningStats) (x : list F) : res RunningStats :=
  if negb (length x =? length (rs_mean st)) then runtime_error "RunningStats dimension mismatch" else
  let n := (rs_n st + 1)%Z in
  let '(delta, mean) := stats_mean_loop n x (rs_mean st) in
  let delta2 := stats_delta2 x mean in
  let m2 := for_ 0 (length x) (fun i m2 =>
    for_ 0 (length x) (fun j m2 =>
      mset m2 i j (mget m2 i j + vget delta i * vget delta2 j)%num) m2) (rs_m2 st) in
  Ok (MkStats n mean m2).

(** ** Helpers *)
Definition vec_scale (a : list F) (s : F) : list F := (fun x => x * s)%num <$> a.

Definition percentile_idx (n : Z) (percentile : F) : Z :=
  let rank := (percentile / nofZ 100 * nofZ n)%num in
  if (rank <=? 1)%num then 0
  else let idx := to_size_t (nceil rank - 1) in
       if (n <=? idx)%Z then n - 1 else idx.
Definition percentile_value (values : list F) (percentile : F) : res F :=
  match values with
  | [] => runtime_error "percentile_value requires non-empty input"
  | _ => let idx := percentile_idx (zlen values) percentile in
         Ok (vget (std_sort nltb values) (Z.to_nat idx))
  end.

Definition largest_abs (v : list F) : nat * F :=
  for_ 0 (length v) (fun i '(idx, max_abs) =>
    let abs_val := nabs (vget v i) in
    if (max_abs <? abs_val)%num then (i, abs_val) else (idx, max_abs)) (0, 0%num).
Definition enforce_component_sign (v : list F) : list F :=
  let idx := (largest_abs v).1 in
  if (vget v idx <? 0)%num then (fun val => val * nofZ (-1))%num <$> v else v.

(** ** Training *)
Definition compute_scale (stats : RunningStats) (dim : nat) : list F :=
  for_ 0 dim (fun i scale =>
    let s := nsqrt (mget (rs_m2 stats) i i / nofZ (rs_n stats - 1))%num in
    <[i := if (s =? 0)%num then 1%num else s]> scale) (replicate dim 0%num).

Definition correlation (stats : RunningStats) (scale : list F) (dim : nat) : Matrix F :=
  let denom := nofZ (rs_n stats - 1) in
  for_ 0 dim (fun i cov =>
    for_ 0 dim (fun j cov =>
      mset cov i j (mget (rs_m2 stats) i j / denom / (vget scale i * vget scale j))%num) cov) (mat_new dim dim).

(** The [k] leading components, sign-normalized, and their eigenvalues. *)
Definition eigen_column (eig : EigenSymResult F) (dim idx : nat) : list F :=
  for_ 0 dim (fun r comp => <[r := mget (eigenvectors eig) r idx]> comp) (replicate dim 0%num).
Definition set_row (dim i : nat) (comp : list F) (m : Matrix F) : Matrix F :=
  for_ 0 dim (fun c m => mset m i c (vget comp c)) m.
Definition select_components (eig : EigenSymResult F) (dim k : nat) : Matrix F * list F :=
  let order := argsort_desc (eigenvalues eig) in
  for_ 0 k (fun i '(comps, ev) =>
    let idx := nth i order 0 in
    (set_row dim i (enforce_component_sign (eigen_column eig dim idx)) comps,
     <[i := vget (eigenvalues eig) idx]> ev)) (mat_new k dim, replicate k 0%num).

Definition scale_sample (mean scale x : list F) : res (list F) := y ← vec_sub x mean; vec_div y scale.

Definition mean_pass (mean scale : list F) (dim : nat) (xs : list (list F)) : res (list F * Z) :=
  fold_res (fun '(pca_mean, count) x =>
    x_scaled ← scale_sample mean scale x;
    pca_mean ← vec_add pca_mean x_scaled;
    Ok (pca_mean, (count + 1)%Z)) (replicate dim 0%num, 0%Z) xs.

Definition sample_error (mean scale : list F) (comps : Matrix F) (pmean x : list F) : res F :=
  x_scaled ← scale_sample mean scale x;
  diff ← pca_residual comps pmean x_scaled;
  l2_norm diff.
Definition error_pass (mean scale : list F) (comps : Matrix F) (pmean : list F) (xs : list (list F)) : res (list F) :=
  fold_res (fun errors x => e ← sample_error mean scale comps pmean x; Ok (errors ++ [e])) [] xs.

Definition TrainPcaFromStream (pass : nat -> list (list F)) (dim : nat) (n_comp : Z) (percentile : F)
    : res PcaArtifact :=
  if ((n_comp <? 1) || (Z.of_nat dim <? n_comp))%Z
  then invalid_argument ("n_components must be between 1 and " +:+ pretty (N.of_nat dim)) else
  stats ← fold_res stats_update (stats_init dim) (pass 0);
  if (rs_n stats <? 2)%Z then runtime_error "Not enough samples to train PCA" else
  let scale := compute_scale stats dim in
  let cov := correlation stats scale dim in
  eig ← eigen_sym_jacobi cov 200 (nlit 1 1000000000000);
  let k := Z.min n_comp (Z.of_nat dim) in
  let '(comps, ev) := select_components eig dim (Z.to_nat k) in
  '(pmean, count) ← mean_pass (rs_mean stats) scale dim (pass 1);
  if (count =? 0)%Z then runtime_error "No samples found for PCA mean computation" else
  let pmean := vec_scale pmean (1 / nofZ count)%num in
  errors ← error_pass (rs_mean stats) scale comps pmean (pass 2);
  thr ← percentile_value errors percentile;
  Ok (MkArtifact (rs_mean stats) scale comps ev pmean thr k).

Definition TrainPcaFromSamples (samples : list (list F)) (n_comp : Z) (percentile : F) : res PcaArtifact :=
  TrainPcaFromStream (fun _ => samples) kSize n_comp percentile.
End trainer.
Arguments PcaArtifact F : clear implicits.
Arguments RunningStats F : clear implicits.

(** ** Writing the artifact *)
Section write.
Context {F : Type} `{Num F} {text : Type} `{!JsonText F text}.
Definition component_rows (m : Matrix F) : list (list F) :=
  (fun r => (fun c => mget m r c) <$> seq 0 (cols m)) <$> seq 0 (rows m).

Definition artifact_json (a : PcaArtifact F) : res (json F) :=
  j ← jset2 "meta" "version" (JStr "v1") JNull;
  j ← jset2 "meta" "type" (JStr "pca_reconstruction") j;
  j ← jset2 "meta" "features" (JArr (JStr <$> GetFeatureNames)) j;
  j ← jset2 "preprocessing" "mean" (jdoubles (scaler_mean a)) j;
  j ← jset2 "preprocessing" "scale" (jdoubles (scaler_scale a)) j;
  j ← jset2 "model" "components" (JArr (jdoubles <$> component_rows (components a))) j;
  j ← jset2 "model" "explained_variance" (jdoubles (explained_variance a)) j;
  j ← jset2 "model" "mean" (jdoubles (pca_mean a)) j;
  j ← jset2 "model" "n_components" (JInt (n_components a)) j;
  jset2 "thresholds" "reconstruction_error" (JNum (threshold a)) j.

(** [is_open]: could the output path be opened; the result is the file's text. *)
Definition WriteArtifactJson (a : PcaArtifact F) (output_path : string) (is_open : bool) : res text :=
  j ← artifact_json a;
  if negb is_open then runtime_error ("Failed to open output path: " +:+ output_path) else Ok (dump j).
End write.

(** ** What training establishes *)
Section trained.
Context {F : Type} `{Num F} `{!Libm F}.

Definition stats_ok (dim : nat) (st : RunningStats F) : Prop :=
  length (rs_mean st) = dim /\ shaped dim dim (rs_m2 st).

Lemma stats_mean_loop_length n (x mean : list F) :
  length (stats_mean_loop n x mean).1 = length x /\ length (stats_mean_loop n x mean).2 = length mean.
Proof.
  unfold stats_mean_loop.
  apply (for_ind (fun _ p => length p.1 = length x /\ length p.2 = length mean)); [lia|..].
  - cbn. by rewrite length_replicate.
  - intros i [d m] _ [Hd Hm]. cbn. by rewrite !length_insert.
Qed.

Lemma stats_update_ok dim st st' (x : list F) :
  stats_ok dim st -> stats_update st x = Ok st' ->
  stats_ok dim st' /\ rs_n st' = (rs_n st + 1)%Z /\ length x = dim.
Proof.
  intros [Hm H2] Hu. unfold stats_update in Hu.
  destruct (Nat.eqb_spec (length x) (length (rs_mean st))) as [Hx|]; [|done]. cbn [negb] in Hu.
  pose proof (stats_mean_loop_length (rs_n st + 1) x (rs_mean st)) as [_ Hl].
  destruct (stats_mean_loop _ _ _) as [delta mean]. injection Hu as <-. cbn.
  split_and!; [split; cbn in *; [lia|]|done|lia]. eauto 6 with linalg.
Qed.

Lemma stats_fold_ok dim st (xs : list (list F)) :
  fold_res stats_update (stats_init dim) xs = Ok st ->
  stats_ok dim st /\ rs_n st = zlen xs /\ Forall (fun x => length x = dim) xs.
Proof.
  apply (fold_res_ind (fun xs st => stats_ok dim st /\ rs_n st = zlen xs /\ Forall (fun x => length x = dim) xs)).
  - split_and!; [split; [apply length_replicate|apply shaped_new]|done|done].
  - intros l x s s' (Hs&Hn&Hl) Hu. apply (stats_update_ok dim) in Hu as (?&Hn'&?); [|done].
    split_and!; [done|unfold zlen in *; rewrite length_app; cbn; lia|]. apply Forall_app. by repeat constructor.
Qed.

Lemma compute_scale_length stats dim : length (compute_scale stats dim) = dim.
Proof. unfold compute_scale. rewrite for_fill_eq. by rewrite length_fmap, length_seq. Qed.

Lemma set_row_shaped r dim i comp m : shaped r dim m -> shaped r dim (set_row dim i comp m).
Proof. unfold set_row. eauto with linalg. Qed.

Lemma select_components_shaped eig dim k : shaped k dim (select_components eig dim k).1.
Proof.
  unfold select_components. apply (for_ind (fun _ p => shaped k dim p.1)); [lia|apply shaped_new|].
  intros i [m ev] _ Hm. cbn. by apply set_row_shaped.
Qed.

Lemma scale_sample_length mean scale (x y : list F) :
  scale_sample mean scale x = Ok y -> length y = length x /\ length mean = length x /\ length scale = length x.
Proof.
  unfold scale_sample. intros (z & Hz & Hy)%bind_ok.
  apply vec_op_length in Hz as [??]. apply vec_op_length in Hy as [??]. lia.
Qed.

Lemma mean_pass_ok mean scale dim (xs : list (list F)) pm count :
  mean_pass mean scale dim xs = Ok (pm, count) -> length pm = dim /\ count = zlen xs.
Proof.
  intros Hf. apply (fold_res_ind (fun xs s => length s.1 = dim /\ s.2 = zlen xs)) in Hf; [done|..].
  - split; [apply length_replicate|done].
  - intros l x [pm' c] s' [Hl Hc] Hs. cbn in *.
    apply bind_ok in Hs as (y & _ & Hs). apply bind_ok in Hs as (z & Hz & [= <-]). cbn.
    apply vec_op_length in Hz as [??]. unfold zlen in *. rewrite length_app. cbn. lia.
Qed.

(** The facts a caller may use about the result of training. *)
Lemma TrainPcaFromStream_ok pass dim n_comp percentile a :
  TrainPcaFromStream pass dim n_comp percentile = Ok a ->
  (1 <= n_comp <= Z.of_nat dim)%Z /\ n_components a = n_comp /\
  length (scaler_mean a) = dim /\ length (scaler_scale a) = dim /\ length (pca_mean a) = dim /\
  shaped (Z.to_nat n_comp) dim (components a) /\
  2 <= length (pass 0) /\ Forall (fun x => length x = dim) (pass 0) /\ pass 1 <> [] /\
  exists errors,
    mapR (sample_error (scaler_mean a) (scaler_scale a) (components a) (pca_mean a)) (pass 2) = Ok errors /\
    percentile_value errors percentile = Ok (threshold a).
Proof.
  unfold TrainPcaFromStream. destruct (Z.ltb_spec n_comp 1), (Z.ltb_spec (Z.of_nat dim) n_comp);
    cbn [orb]; try discriminate. rewrite Z.min_l by done.
  intros (stats & Hst & Ha)%bind_ok. apply stats_fold_ok in Hst as ([Hm _]&Hn&Hall).
  destruct (Z.ltb_spec (rs_n stats) 2) as [|Hn2]; [discriminate|].
  apply bind_ok in Ha as (eig & _ & Ha).
  pose proof (select_components_shaped eig dim (Z.to_nat n_comp)) as Hs.
  destruct (select_components _ _ _) as [comps ev]. cbn in Hs.
  apply bind_ok in Ha as ([pm count] & Hpm & Ha). apply mean_pass_ok in Hpm as [Hpm Hc].
  destruct (Z.eqb_spec count 0) as [|Hc0]; [discriminate|].
  apply bind_ok in Ha as (errors & He & Ha). apply bind_ok in Ha as (thr & Hthr & [= <-]).
  unfold error_pass in He. rewrite fold_res_push in He. apply bind_ok in He as (es & Hes & [= <-]). cbn.
  unfold zlen in *. split_and!; try done; try lia; [apply compute_scale_length|..].
  - unfold vec_scale. by rewrite length_fmap.
  - by destruct (pass 1).
  - eauto.
Qed.

Lemma percentile_idx_bound n p : (0 < n)%Z -> (0 <= percentile_idx n p < n)%Z.
Proof.
  intros Hn. unfold percentile_idx. destruct (_ <=? 1)%num; [lia|].
  pose proof (to_size_t_nonneg (nceil (p / nofZ 100 * nofZ n)%num - 1)). cbn zeta.
  destruct (Z.leb_spec n (to_size_t (nceil (p / nofZ 100 * nofZ n)%num - 1))); lia.
Qed.

(** The model object a written artifact describes. *)
Definition model_of (a : PcaArtifact F) : PcaModel F :=
  MkModel true (scaler_mean a) (scaler_scale a) (components a) (pca_mean a) (threshold a).

Context `{!FloatFmt F}.
(** Scoring with the trained model repeats the computation of the error pass. *)
Lemma Score_sample_error a x e :
  length (scaler_mean a) = length x ->
  sample_error (scaler_mean a) (scaler_scale a) (components a) (pca_mean a) x = Ok e ->
  exists s, Score (model_of a) x = Ok s /\ reconstruction_error s = e /\
    ps_is_anomaly s = (threshold a <? e)%num.
Proof.
  intros Hl (xs & Hxs & He)%bind_ok. apply bind_ok in Hxs as (y & Hy & Hxs).
  apply bind_ok in He as (d & Hd & He).
  unfold Score, model_of; cbn. rewrite Hy; cbn. rewrite Hxs; cbn. rewrite Hd; cbn. rewrite He; cbn.
  destruct (threshold a <? e)%num eqn:E; eauto.
Qed.

Lemma Score_sample_errors a (xs : list (list F)) errors :
  Forall (fun x => length x = length (scaler_mean a)) xs ->
  mapR (sample_error (scaler_mean a) (scaler_scale a) (components a) (pca_mean a)) xs = Ok errors ->
  exists scores, mapR (Score (model_of a)) xs = Ok scores /\
    errors = reconstruction_error <$> scores /\
    Forall (fun s => ps_is_anomaly s = (threshold a <? reconstruction_error s)%num) scores.
Proof.
  intros Hall. revert errors. induction Hall as [|x xs Hx _ IH]; cbn [mapR]; intros errors Herr.
  - simplify_eq. by exists [].
  - apply bind_ok in Herr as (e & He & Herr). apply bind_ok in Herr as (es & Hes & [= <-]).
    destruct (Score_sample_error a x e) as (s & Hsc & <- & Hf); [lia|done|].
    destruct (IH es Hes) as (scores & Hs & -> & Hfl).
    exists (s :: scores). rewrite Hsc. cbn [mbind res_bind]. rewrite Hs. split_and!; [done..|by constructor].
Qed.

Lemma percentile_value_nth values p v :
  percentile_value values p = Ok v ->
  let idx := Z.to_nat (percentile_idx (zlen values) p) in
  idx < length values /\ nth_element nltb values idx = Some v.
Proof.
  intros Hv idx. destruct values as [|v0 values]; [done|]. unfold percentile_value in Hv.
  change (Ok (vget (std_sort nltb (v0 :: values)) idx) = Ok v) in Hv. pose proof (percentile_idx_bound (zlen (v0 :: values)) p ltac:(unfold zlen; cbn; lia)).
  assert (idx < length (v0 :: values)) as Hidx by (unfold idx, zlen in *; lia). split; [done|].
  unfold nth_element. destruct (lookup_lt_is_Some_2 (std_sort nltb (v0 :: values)) idx) as [w Hw];
    [by rewrite length_std_sort|].
  unfold vget in Hv. rewrite nth_lookup, Hw in Hv. cbn [default from_option id] in Hv. congruence.
Qed.
End trained.

(** The pass that measures the errors sets the threshold: what it says of the
    scores of the samples it read. *)
Lemma trained_tail {F} `{NumOrder F} `{!Libm F} `{!FloatFmt F} pass n_comp percentile (a : PcaArtifact F) :
  TrainPcaFromStream pass kSize n_comp percentile = Ok a -> Forall (fun x => length x = kSize) (pass 2) ->
  (forall x s, x ∈ pass 2 -> Score (model_of a) x = Ok s -> nonnan (reconstruction_error s)) ->
  exists scores, mapR (Score (model_of a)) (pass 2) = Ok scores /\
    Forall (fun s => ps_is_anomaly s = (threshold a <? reconstruction_error s)%num) scores /\
    let idx := Z.to_nat (percentile_idx (zlen (pass 2)) percentile) in
    idx < length (pass 2) /\
    threshold a ∈ reconstruction_error <$> scores /\
    countb ps_is_anomaly scores <= length (pass 2) - S idx /\
    countb (fun s => reconstruction_error s <? threshold a)%num scores <= idx.
Proof.
  intros Htrain Hall Hnan. destruct (TrainPcaFromStream_ok _ _ _ _ _ Htrain) as (_&_&Hm&_&_&_&_&_&_&errors&Herr&Hthr).
  destruct (Score_sample_errors a (pass 2) errors) as (scores & Hs & -> & Hfl); [by rewrite Hm|done|].
  exists scores. split_and!; [done|done|]. cbn zeta. pose proof (mapR_length _ _ _ Hs) as Hlen.
  apply percentile_value_nth in Hthr. unfold zlen in *. rewrite length_fmap, Hlen in Hthr.
  destruct Hthr as [Hidx Hnth]. split; [done|]. set (idx := Z.to_nat _) in *.
  assert (Forall nonnan (reconstruction_error <$> scores)) as Hnn.
  { apply Forall_fmap, Forall_lookup. intros i s Hi.
    destruct (lookup_lt_is_Some_2 (pass 2) i) as [x Hx]; [apply lookup_lt_Some in Hi; lia|].
    destruct (mapR_lookup _ _ _ _ _ Hs Hx) as (s' & Hs' & Hsc). simplify_eq.
    apply (Hnan x); [by eapply list_elem_of_lookup_2|done]. }
  destruct (nth_element_rank _ idx Hnn) as (m & Hm' & Hin & Hlo & Hhi); [by rewrite length_fmap, Hlen|].
  simplify_eq. rewrite length_fmap, Hlen in Hhi. rewrite countb_fmap in Hlo, Hhi.
  split_and!; [done| |done]. by rewrite (countb_ext _ _ _ Hfl).
Qed.


Definition samples_example : list (list float) :=
  [[3; 0; 1; 1; 1]; [-3; 0; 1; 1; 1]; [0; 1; 1; 1; 1]; [0; -1; 1; 1; 1]; [0; 0; 1; 1; 1]]%float.
Definition artifact_of_example : PcaArtifact float :=
  match @TrainPcaFromSamples float _ libm_example samples_example 1 50%float with
  | Ok a => a
  | Throw _ => MkArtifact [] [] (MkMatrix 0 0 []) [] [] 0%float 0
  end.


(** ** The written artifact, read back *)
Section roundtrip.
Context {F : Type} `{Num F} {text : Type} `{!JsonText F text}.

Lemma artifact_json_eq (a : PcaArtifact F) :
  artifact_json a = Ok (JObj
    [("meta", JObj [("features", JArr (JStr <$> GetFeatureNames)); ("type", JStr "pca_reconstruction"); ("version", JStr "v1")]);
     ("model", JObj [("components", JArr (jdoubles <$> component_rows (components a)));
                     ("explained_variance", jdoubles (explained_variance a));
                     ("mean", jdoubles (pca_mean a)); ("n_components", JInt (n_components a))]);
     ("preprocessing", JObj [("mean", jdoubles (scaler_mean a)); ("scale", jdoubles (scaler_scale a))]);
     ("thresholds", JObj [("reconstruction_error", JNum (threshold a))])])%string.
Proof. reflexivity. Qed.

(** The numbers the loader reads are all finite. *)
Definition finite_artifact (a : PcaArtifact F) : bool :=
  forallb nfinite (scaler_mean a) && forallb nfinite (scaler_scale a) &&
  forallb (forallb nfinite) (component_rows (components a)) &&
  forallb nfinite (pca_mean a) && nfinite (threshold a).

Lemma component_rows_matrix (m : Matrix F) k :
  shaped k kSize m -> 0 < k ->
  exists row0 rest, component_rows m = row0 :: rest /\ length row0 = kSize /\
    forallb (fun row => length row0 <=? length row) (component_rows m) = true /\
    for_ 0 (length (component_rows m)) (fun i m' =>
      for_ 0 (length row0) (fun c m' => mset m' i c (vget (nth i (component_rows m) []) c)) m')
      (mat_new (length (component_rows m)) (length row0)) = m.
Proof.
  intros (Hwf&Hr&Hc) Hk.
  assert (length (component_rows m) = k) as Hl by (unfold component_rows; by rewrite length_fmap, length_seq).
  assert (Forall (fun row => length row = kSize) (component_rows m)) as Hrows.
  { apply Forall_fmap, Forall_forall. intros r _. cbn. by rewrite length_fmap, length_seq. }
  destruct (component_rows m) as [|row0 rest] eqn:E; [cbn in Hl; lia|]. rewrite <- E in *.
  exists row0, rest. pose proof Hrows as Hrows'. rewrite E in Hrows'. apply Forall_cons in Hrows' as [H0 _].
  split_and!; [done|done|..].
  - rewrite H0. apply forallb_forall. intros row Hin%list_elem_of_In. rewrite Forall_forall in Hrows.
    rewrite (Hrows row Hin). by apply Nat.leb_refl.
  - rewrite Hl, H0.
    destruct (for_fill_matrix k kSize (fun i c => vget (nth i (component_rows m) []) c) (mat_new k kSize)
      (shaped_new k kSize)) as [(Hw&Hr'&Hc') Hg].
    apply matrix_ext; [done..|congruence|congruence|]. rewrite Hr', Hc'. intros i j Hi Hj. rewrite Hg by done.
    unfold component_rows. rewrite nth_lookup, list_lookup_fmap, lookup_seq_lt by lia. cbn [fmap option_fmap option_map default from_option id].
    by rewrite vget_fmap_seq by lia.
Qed.
(** What the loader makes of a written artifact. *)
Lemma Load_written (a : PcaArtifact F) k path t :
  length (scaler_mean a) = kSize -> length (scaler_scale a) = kSize -> shaped k kSize (components a) -> 0 < k ->
  WriteArtifactJson a path true = Ok t ->
  let '(m, r) := Load new_model path (Some t) in
  if finite_artifact a then r = Ok tt /\ m = model_of a else r = type_must_be "number" /\ loaded_ m = false.
Proof.
  intros Hmean Hscale Hcomp Hk Hwrite.
  unfold WriteArtifactJson in Hwrite. rewrite artifact_json_eq in Hwrite. cbn [mbind res_bind negb] in Hwrite.
  injection Hwrite as <-. unfold Load. rewrite parse_dump. unfold finite_artifact.
  destruct (component_rows_matrix (components a) k Hcomp Hk) as (row0 & rest & Hrows & Hr0 & Hall & Hm).
  set (j := as_written _).
  assert (jget2 j "preprocessing" "mean" = Ok (as_written (jdoubles (scaler_mean a)))) as E1 by reflexivity.
  assert (jget2 j "preprocessing" "scale" = Ok (as_written (jdoubles (scaler_scale a)))) as E2 by reflexivity.
  assert (jget2 j "model" "components" = Ok (as_written (JArr (jdoubles <$> component_rows (components a))))) as E3
    by reflexivity.
  assert (jget2 j "model" "mean" = Ok (as_written (jdoubles (pca_mean a)))) as E4 by reflexivity.
  assert (jget2 j "thresholds" "reconstruction_error" = Ok (as_written (JNum (threshold a)))) as E5 by reflexivity.
  clearbody j. unfold read_preprocessing, read_components.
  rewrite E1, E2, E3, E4, E5. cbn [mbind res_bind]. rewrite !get_doubles_written, get_rows_written.
  destruct (forallb nfinite (scaler_mean a)); cbn [mbind res_bind andb]; [|done].
  destruct (forallb nfinite (scaler_scale a)); cbn [mbind res_bind andb]; [|done].
  rewrite Hmean, Hscale. cbn [negb orb Nat.eqb kSize].
  destruct (forallb (forallb nfinite) _); cbn [mbind res_bind andb]; [|done].
  rewrite Hrows. cbv zeta. rewrite <- Hrows, Hall, Hr0, Nat.eqb_refl. cbn [negb]. rewrite Hr0 in Hm. rewrite Hm.
  destruct (forallb nfinite (pca_mean a)); cbn [mbind res_bind andb as_written]; [|done].
  destruct (nfinite (threshold a)); cbn; done.
Qed.
End roundtrip.

(** C34: an artifact of the shape training produces, written to a file and
    loaded, gives back the very same model when all its numbers are finite;
    when one is NaN or infinite (JSON holds null in its place) the load throws
    a type error and never yields a usable model. *)
Theorem write_load_roundtrip {F} `{Num F} {text} `{!JsonText F text}
    (a : PcaArtifact F) (k : nat) (path : string) (t : text)
    (Hmean : length (scaler_mean a) = kSize) (Hscale : length (scaler_scale a) = kSize)
    (Hcomp : shaped k kSize (components a)) (Hk : 0 < k)
    (Hwrite : WriteArtifactJson a path true = Ok t) :
  let '(m, r) := Load new_model path (Some t) in
  if finite_artifact a then r = Ok tt /\ m = model_of a
  else r = type_must_be "number" /\ loaded_ m = false.
Proof. by apply (Load_written a k). Qed.

Lemma write_load_roundtrip_witness :
  let a := artifact_of_example in
  exists t, @WriteArtifactJson float _ _ (tree_text float) a "m.json" true = Ok t /\ finite_artifact a = true /\
    @Load float _ _ (tree_text float) new_model "m.json" (Some t) = (model_of a, Ok tt).
Proof.
  intros a. eexists. split; [reflexivity|]. split; [vm_compute; reflexivity|].
  pose proof (@write_load_roundtrip float _ _ (tree_text float) a 1 "m.json" _ ltac:(vm_compute; reflexivity)
    ltac:(vm_compute; reflexivity) ltac:(split_and!; vm_compute; reflexivity) ltac:(lia) eq_refl) as Hr.
  destruct (Load new_model _ _) as [m r].
  replace (finite_artifact a) with true in Hr by (vm_compute; reflexivity). by destruct Hr as [-> ->].
Defined.
