(* ===== verification/BatchIterator.v ===== *)
(** Streaming a dataset from the database: src/src/training/telemetry_iterator.{h,cpp}
    and the batched training of src/src/training/pca_trainer.cpp.

    [table] holds the dataset's rows by ascending [record_id]; the statement
    [get_telemetry_batch] (prepared in src/src/db_client.cpp) is [batch_query].
    Calls to the database are numbered; [fault n] is the exception the [n]-th
    call throws, if any. *)
From stdpp Require Import base list strings.
From Stdlib Require Import ZArith Lia Sorting.Sorted Floats.
From S2P Require Import Prelude Strconv Num Linalg Detectors Json PcaModel Trainer.

Local Open Scope Z_scope.

Section iterator.
Context {F : Type} `{Num F} `{!Libm F}.
Abbreviation row := (Z * list F)%type.
Context (table : list row) (fault : nat -> option exn).

(** [WHERE record_id > last ORDER BY record_id LIMIT n]. *)
Definition batch_query (last : Z) (n : Z) : list row :=
  take (Z.to_nat n) (filter (fun r => last < r.1) table).

Record BatchIter := MkIter { dataset_batch_size : Z; last_record_id : Z; total_processed : Z }.
Definition new_iter (batch_size : Z) : BatchIter := MkIter batch_size 0 0.
Definition Reset (it : BatchIter) : BatchIter := MkIter (dataset_batch_size it) 0 0.
Definition TotalRowsProcessed (it : BatchIter) : Z := total_processed it.

(** The [call]-th database call; every exception is logged and reported as
    the end of the data. *)
Definition NextBatch (call : nat) (it : BatchIter) : BatchIter * bool * list (list F) :=
  match fault call with
  | Some _ => (it, false, [])
  | None =>
      match batch_query (last_record_id it) (dataset_batch_size it) with
      | [] => (it, false, [])
      | rows =>
          let '(lst, out) := foldl (fun '(_, out) r => (r.1, out ++ [r.2])) (last_record_id it, []) rows in
          (MkIter (dataset_batch_size it) lst (total_processed it + zlen out), true, out)
      end
  end.

(** The loop of [for_each] from database call [call] on, with the heartbeat
    after every tenth batch: the final iterator, the vectors passed to the
    callback, the number of batches and of heartbeats, the next call. *)
Fixpoint drain (fuel : nat) (call : nat) (it : BatchIter) (batch_count beats : Z)
    : BatchIter * list (list F) * Z * Z * nat :=
  match fuel with
  | O => (it, [], batch_count, beats, call)
  | S fuel' =>
      let '(it', more, batch) := NextBatch call it in
      if more then
        let batch_count := batch_count + 1 in
        let beats := if batch_count mod 10 =? 0 then beats + 1 else beats in
        let '(it'', rest, bc, hb, c) := drain fuel' (S call) it' batch_count beats in
        (it'', batch ++ rest, bc, hb, c)
      else (it', [], batch_count, beats, S call)
  end.
Definition for_each (fuel call : nat) (it : BatchIter) := drain fuel call (Reset it) 0 0.
Definition vectors_of (r : BatchIter * list (list F) * Z * Z * nat) : list (list F) := r.1.1.1.2.

(** One pass per call of [for_each], the database calls numbered on. *)
Definition TrainPcaFromDbBatched (fuel : nat) (n_comp : Z) (percentile : F) (batch_size : Z)
    : res (PcaArtifact F) :=
  let it := new_iter batch_size in
  let p0 := for_each fuel 0 it in
  let p1 := for_each fuel p0.2 p0.1.1.1.1 in
  let p2 := for_each fuel p1.2 p1.1.1.1.1 in
  TrainPcaFromStream (fun i => nth i [vectors_of p0; vectors_of p1; vectors_of p2] [])
    kSize n_comp percentile.

Definition env_batch_size (env : option string) : Z :=
  match env with
  | None => 10000
  | Some s => match stoul s with Ok n => n | Throw _ => 10000 end
  end.
Definition TrainPcaFromDb (fuel : nat) (env : option string) (n_comp : Z) (percentile : F) : res (PcaArtifact F) :=
  TrainPcaFromDbBatched fuel n_comp percentile (env_batch_size env).

(** ** Reading a frozen dataset *)
Context (Hsorted : StronglySorted (fun a b : row => a.1 < b.1) table).
Context (Hpos : Forall (fun r : row => 0 < r.1) table).

(** The iterator stands just after the first [n] rows. *)
Definition at_row (b : Z) (n : nat) (it : BatchIter) : Prop :=
  dataset_batch_size it = b /\ total_processed it = Z.of_nat n /\ (n <= length table)%nat /\
  Forall (fun r : row => r.1 <= last_record_id it) (take n table) /\
  Forall (fun r : row => last_record_id it < r.1) (drop n table).

Lemma batch_query_at b n it : at_row b n it ->
  batch_query (last_record_id it) b = take (Z.to_nat b) (drop n table).
Proof.
  intros (_&_&_&Hlo&Hhi). unfold batch_query. f_equal.
  rewrite <- (take_drop n table) at 1. rewrite filter_app.
  rewrite (filter_none _ (take n table)) by (eapply Forall_impl; [exact Hlo|]; cbn; intros; lia).
  by rewrite (filter_all _ (drop n table)).
Qed.

Lemma collect_rows lst (out : list (list F)) (rows : list row) :
  foldl (fun '(_, out) r => (r.1, out ++ [r.2])) (lst, out) rows =
  (default lst (fst <$> last rows), out ++ rows.*2).
Proof.
  revert lst out. induction rows as [|r rows IH]; intros lst out; [by rewrite app_nil_r|]. cbn [foldl].
  rewrite IH, last_cons. rewrite <- app_assoc. by destruct (last rows).
Qed.

Lemma at_row_new b it : dataset_batch_size it = b -> at_row b 0 (Reset it).
Proof. intros <-. split_and!; [done|done|lia|constructor|done]. Qed.

(** One batch: the next [b] rows, and the iterator after them. *)
Lemma NextBatch_ok b n it call : 1 <= b -> at_row b n it -> fault call = None ->
  let m := Nat.min (n + Z.to_nat b) (length table) in
  let '(it', more, batch) := NextBatch call it in
  at_row b m it' /\ more = bool_decide (n < length table)%nat /\
  batch = (drop n (take m table)).*2.
Proof.
  intros Hb Hat Hf m. unfold NextBatch. rewrite Hf.
  pose proof Hat as (Hbs&Htot&Hn&Hlo&Hhi). rewrite Hbs, (batch_query_at b n it Hat).
  assert (take (Z.to_nat b) (drop n table) = drop n (take m table)) as ->.
  { unfold m. rewrite take_drop_commute.
    destruct (decide (n + Z.to_nat b <= length table)%nat); [by rewrite Nat.min_l by lia|].
    rewrite Nat.min_r by lia. by rewrite !take_ge by lia. }
  assert (length (drop n (take m table)) = m - n)%nat as Hlen.
  { rewrite length_drop, length_take. unfold m. lia. }
  destruct (drop n (take m table)) as [|r0 rows] eqn:E.
  - cbn in Hlen. assert (n = m) as Hnm by (unfold m in *; lia).
    rewrite bool_decide_eq_false_2 by (unfold m in Hnm; lia). by rewrite <- Hnm.
  - cbn in Hlen. assert (exists rl, last (r0 :: rows) = Some rl) as [rl Hrl]
      by (destruct (last (r0 :: rows)) as [rl|] eqn:El; [by exists rl|by apply last_None in El]).
    rewrite collect_rows, Hrl, app_nil_l. cbn [default from_option fst fmap option_fmap option_map].
    assert (n < m)%nat as Hnm by lia. rewrite bool_decide_eq_true_2 by (unfold m in Hnm; lia).
    split_and!; [|done|done].
    assert (table !! (m - 1)%nat = Some rl) as Hm1.
    { rewrite <- E, last_lookup, lookup_drop in Hrl. rewrite E in Hrl. cbn in Hrl.
      apply lookup_take_Some in Hrl as [Hrl _]. rewrite <- Hrl. f_equal. lia. }
    assert (m <= length table)%nat as Hml by (unfold m; lia).
    split_and!; cbn; [done| |done| |].
    + unfold zlen. rewrite Htot. cbn. rewrite length_fmap. lia.
    + apply Forall_lookup. intros i r Hi. apply lookup_take_Some in Hi as [Hi ?].
      destruct (decide (i = m - 1)%nat) as [->|]; [simplify_eq; lia|].
      enough (r.1 < rl.1) by lia.
      apply (StronglySorted_lookup _ _ _ _ _ _ Hsorted) with (2 := Hi) (3 := Hm1). lia.
    + apply Forall_lookup. intros i r Hi. rewrite lookup_drop in Hi.
      apply (StronglySorted_lookup _ _ _ _ _ _ Hsorted) with (2 := Hm1) (3 := Hi). lia.
Qed.

Lemma take_min {A} (l : list A) n : take (Nat.min n (length l)) l = take n l.
Proof.
  destruct (decide (n <= length l)%nat); [by rewrite Nat.min_l|].
  rewrite Nat.min_r by lia. by rewrite !take_ge by lia.
Qed.
Lemma drop_take_app {A} (l : list A) n m k : (n <= m <= k)%nat ->
  drop n (take m l) ++ drop m (take k l) = drop n (take k l).
Proof.
  intros Hm.
  assert (forall a c, (a <= c)%nat -> drop a (take c l) = take (c - a) (drop a l)) as Hdt
    by (intros a c ?; rewrite take_drop_commute; do 2 f_equal; lia).
  rewrite !Hdt by lia. replace (drop m l) with (drop (m - n) (drop n l)) by (rewrite drop_drop; f_equal; lia).
  rewrite take_take_drop. f_equal. lia.
Qed.

Lemma drain_ok b k fuel call it n bc hb :
  1 <= b -> at_row b n it -> (forall i, (i < k)%nat -> fault (call + i) = None) ->
  is_Some (fault (call + k)) \/ (length table <= n + k * Z.to_nat b)%nat ->
  (k < fuel)%nat ->
  let r := drain fuel call it bc hb in
  let stop := Nat.min (n + k * Z.to_nat b) (length table) in
  at_row b stop r.1.1.1.1 /\ vectors_of r = (drop n (take stop table)).*2.
Proof.
  intros Hb. revert fuel call it n bc hb. induction k as [|k IH]; intros fuel call it n bc hb Hat Hok Hstop Hfuel;
    (destruct fuel as [|fuel]; [lia|]); cbn [drain]; pose proof Hat as (_&_&Hn&_).
  - rewrite Nat.add_0_r in *.
    assert (exists it', NextBatch call it = (it', false, []) /\ at_row b n it') as (it' & -> & Hat').
    { destruct (fault call) as [e|] eqn:Ef; [exists it; unfold NextBatch; by rewrite Ef|].
      destruct Hstop as [[]|Hlen]; [done|]. pose proof (NextBatch_ok b n it call Hb Hat Ef) as Hnb.
      assert (n = length table) as Hnl by lia.
      cbn zeta in Hnb. rewrite Nat.min_r, (bool_decide_eq_false_2 (n < length table)%nat), <- Hnl in Hnb by lia.
      destruct (NextBatch call it) as [[it' more] batch]. destruct Hnb as (?&->&->).
      exists it'. split; [|done]. f_equal. rewrite drop_ge; [done|]. rewrite length_take. lia. }
    cbn. rewrite Nat.min_l by lia. split; [done|]. unfold vectors_of; cbn.
    rewrite drop_ge; [done|]. rewrite length_take. lia.
  - assert (fault call = None) as Ef by (rewrite <- (Nat.add_0_r call); apply Hok; lia).
    pose proof (NextBatch_ok b n it call Hb Hat Ef) as Hnb. cbn zeta in Hnb.
    destruct (NextBatch call it) as [[it' more] batch]. destruct Hnb as (Hat'&->&->).
    set (m := Nat.min (n + Z.to_nat b) (length table)) in *.
    case_bool_decide as Hlt.
    + specialize (IH fuel (S call) it' m (bc + 1) (if (bc + 1) mod 10 =? 0 then hb + 1 else hb) Hat').
      destruct (drain fuel (S call) it' _ _) as [[[[it2 rest] bc2] hb2] c2].
      destruct IH as [Hat2 Hrest].
      * intros i Hi. replace (S call + i)%nat with (call + S i)%nat by lia. apply Hok. lia.
      * replace (S call + k)%nat with (call + S k)%nat by lia.
        destruct Hstop as [|Hs]; [by left|right]. unfold m. lia.
      * lia.
      * unfold vectors_of in *; cbn in *.
        replace (Nat.min (m + k * Z.to_nat b) (length table))
          with (Nat.min (n + (Z.to_nat b + k * Z.to_nat b)) (length table)) in * by (unfold m; lia).
        split; [done|]. rewrite Hrest, <- fmap_app. f_equal. apply drop_take_app. unfold m. lia.
    + cbn. unfold vectors_of; cbn. assert (m = n) as Hmn by (unfold m; lia).
      replace (Nat.min (n + (Z.to_nat b + k * Z.to_nat b)) (length table)) with n by lia.
      rewrite Hmn in Hat'. split; [done|]. rewrite drop_ge; [done|]. rewrite length_take. lia.
Qed.
End iterator.


