(* ===== verification/Hpo.v ===== *)
(** Hyperparameter search: the [HpoConfig] part of
    src/src/training/pca_trainer.{h,cpp}: validation, preflight estimate,
    trial generation and the candidate fingerprint. *)
From stdpp Require Import base list strings sorting.
From Stdlib Require Import ZArith Lia Floats Sorting.Sorted HexadecimalString.
From S2P Require Import Prelude Num Random Linalg Detectors Json.

Local Open Scope Z_scope.

Section hpo.
Context {F : Type} `{Num F}.

Record TrainingConfig := MkTraining {
  tc_dataset_id : string; tc_n_components : Z; tc_percentile : F; tc_feature_set : list string }.
Definition default_features : list string :=
  ["cpu_usage"; "memory_usage"; "disk_utilization"; "network_rx_rate"; "network_tx_rate"]%string.

Record SearchSpace := MkSpace { ss_n_components : list Z; ss_percentile : list F }.
Record HpoConfig := MkHpo {
  algorithm : string; max_trials : Z; max_concurrency : Z; seed : option Z; search_space : SearchSpace }.
Definition default_hpo : HpoConfig := MkHpo "grid" 10 2 None (MkSpace [] []).

Record HpoValidationError := MkHpoError { field : string; message : string }.
Inductive HpoCapReason := NONE | MAX_TRIALS | GRID_CAP.
Record HpoPreflight := MkPreflight {
  estimated_candidates : Z; effective_trials : Z; capped_by : HpoCapReason }.

(** An unset dimension of the space searches its default value only. *)
Definition n_space (h : HpoConfig) : list Z :=
  match ss_n_components (search_space h) with [] => [3] | l => l end.
Definition p_space (h : HpoConfig) : list F :=
  match ss_percentile (search_space h) with [] => [nlit 995 10] | l => l end.

Definition PreflightHpoConfig (h : HpoConfig) : HpoPreflight :=
  if (algorithm h =? "grid")%string then
    let total := zlen (n_space h) * zlen (p_space h) in
    if 100 <? total then MkPreflight total 100 GRID_CAP
    else if max_trials h <? total then MkPreflight total (max_trials h) MAX_TRIALS
    else MkPreflight total total NONE
  else if (algorithm h =? "random")%string then MkPreflight (max_trials h) (max_trials h) NONE
  else MkPreflight 0 0 NONE.

Definition n_in_range (n : Z) : bool := negb ((n <=? 0) || (5 <? n)).
Definition p_in_range (p : F) : bool := negb ((p <? nofZ 50) || (nofZ 100 <=? p))%num.

Definition ValidateHpoConfig (h : HpoConfig) : list HpoValidationError :=
  let ns := ss_n_components (search_space h) in let ps := ss_percentile (search_space h) in
  (if negb (algorithm h =? "grid")%string && negb (algorithm h =? "random")%string
   then [MkHpoError "algorithm" "Algorithm must be 'grid' or 'random'"] else []) ++
  (if (max_trials h <=? 0) || (50 <? max_trials h)
   then [MkHpoError "max_trials" "max_trials must be between 1 and 50"] else []) ++
  (if (max_concurrency h <=? 0) || (10 <? max_concurrency h)
   then [MkHpoError "max_concurrency" "max_concurrency must be between 1 and 10"] else []) ++
  (match ns, ps with [], [] => [MkHpoError "search_space" "Search space cannot be empty"] | _, _ => [] end) ++
  (if existsb (fun n => negb (n_in_range n)) ns
   then [MkHpoError "search_space.n_components" "n_components must be between 1 and 5"] else []) ++
  (if existsb (fun p => negb (p_in_range p)) ps
   then [MkHpoError "search_space.percentile" "percentile must be between 50.0 and 99.99"] else []) ++
  (if (algorithm h =? "grid")%string then
     let total := 1 in
     let total := match ns with [] => total | _ => total * zlen ns end in
     let total := match ps with [] => total | _ => total * zlen ps end in
     if 100 <? total then [MkHpoError "search_space" "Grid search space too large (max 100 combinations)"] else []
   else []).

Definition trial (dataset_id : string) (n : Z) (p : F) : TrainingConfig :=
  MkTraining dataset_id n p default_features.

(** The two nested loops of the grid search with their [break]s. *)
Fixpoint grid_inner (limit : Z) (dataset_id : string) (n : Z) (ps : list F) (trials : list TrainingConfig)
    : list TrainingConfig :=
  match ps with
  | [] => trials
  | p :: ps' =>
      if limit <=? zlen trials then trials
      else grid_inner limit dataset_id n ps' (trials ++ [trial dataset_id n p])
  end.
Fixpoint grid_outer (limit : Z) (dataset_id : string) (ns : list Z) (ps : list F) (trials : list TrainingConfig)
    : list TrainingConfig :=
  match ns with
  | [] => trials
  | n :: ns' =>
      let trials := grid_inner limit dataset_id n ps trials in
      if limit <=? zlen trials then trials else grid_outer limit dataset_id ns' ps trials
  end.

Context {G : Type} `{!Rng G}.
Definition unsigned_int (z : Z) : Z := z mod 2 ^ 32.

Fixpoint random_trials (count : nat) (dataset_id : string) (ns : list Z) (ps : list F) (gen : G)
    : list TrainingConfig :=
  match count with
  | O => []
  | S count' =>
      let '(i, gen) := uniform_int 0 (zlen ns - 1) gen in
      let '(j, gen) := uniform_int 0 (zlen ps - 1) gen in
      trial dataset_id (nth (Z.to_nat i) ns 0) (nth (Z.to_nat j) ps 0%num)
        :: random_trials count' dataset_id ns ps gen
  end.

(** [now]: the ticks of the system clock, the seed of an unseeded search. *)
Definition GenerateTrials (now : Z) (h : HpoConfig) (dataset_id : string) : list TrainingConfig :=
  if (algorithm h =? "grid")%string then
    grid_outer (max_trials h) dataset_id (n_space h) (p_space h) []
  else if (algorithm h =? "random")%string then
    random_trials (Z.to_nat (max_trials h)) dataset_id (n_space h) (p_space h)
      (mt19937 (unsigned_int (default now (seed h))))
  else [].
End hpo.
Arguments HpoConfig F : clear implicits.
Arguments TrainingConfig F : clear implicits.
Arguments SearchSpace F : clear implicits.

(** ** The fingerprint *)
Section fingerprint.
Context {F : Type} `{Num F} {text : Type} `{!JsonText F text} (hash : text -> N).
Definition kHpoGeneratorVersion : string := "hpo_generator_v1".
Definition clamp (v lo hi : Z) : Z := if v <? lo then lo else if hi <? v then hi else v.

Definition normalized_json (h : HpoConfig F) : res (json F) :=
  j ← jset "algorithm" (JStr (algorithm h)) JNull;
  j ← jset "max_trials" (JInt (max_trials h)) j;
  j ← jset "max_concurrency" (JInt (clamp (max_concurrency h) 1 10)) j;
  j ← jset "seed" (match seed h with Some s => JInt s | None => JNull end) j;
  j ← jset2 "search_space" "n_components" (JArr (JInt <$> std_sort Z.ltb (ss_n_components (search_space h)))) j;
  j ← jset2 "search_space" "percentile" (jdoubles (std_sort nltb (ss_percentile (search_space h)))) j;
  jset "generator_version" (JStr kHpoGeneratorVersion) j.

(** [snprintf("%zx")] of the hash of the serialized object. *)
Definition hex (n : N) : string := NilZero.string_of_uint (N.to_hex_uint n).
Definition ComputeCandidateFingerprint (h : HpoConfig F) : res string :=
  j ← normalized_json h; Ok (hex (hash (dump j))).
End fingerprint.

(** ** Trials *)
Section trials.
Context {F : Type} `{Num F}.
(** The whole grid, in the order of the loops. *)
Definition grid (ds : string) (ns : list Z) (ps : list F) : list (TrainingConfig F) :=
  ns ≫= fun n => trial ds n <$> ps.

Lemma length_grid ds ns ps : zlen (grid ds ns ps) = zlen ns * zlen ps.
Proof.
  unfold zlen, grid. induction ns as [|n ns IH]; [done|]. cbn. rewrite length_app, length_fmap. lia.
Qed.

Lemma grid_inner_eq limit ds n (ps : list F) acc : zlen acc <= limit ->
  grid_inner limit ds n ps acc = take (Z.to_nat limit) (acc ++ (trial ds n <$> ps)).
Proof.
  unfold zlen. revert acc. induction ps as [|p ps IH]; intros acc Hacc; cbn [grid_inner].
  - rewrite app_nil_r, take_ge by lia. done.
  - unfold zlen. destruct (Z.leb_spec limit (Z.of_nat (length acc))).
    + rewrite take_app_le by lia. by rewrite take_ge by lia.
    + rewrite IH by (rewrite length_app; cbn; lia). by rewrite <- app_assoc.
Qed.

Lemma grid_outer_eq limit ds ns (ps : list F) acc : zlen acc <= limit ->
  grid_outer limit ds ns ps acc = take (Z.to_nat limit) (acc ++ grid ds ns ps).
Proof.
  unfold zlen. revert acc. induction ns as [|n ns IH]; intros acc Hacc; cbn [grid_outer].
  - rewrite app_nil_r, take_ge by lia. done.
  - rewrite grid_inner_eq by done. unfold grid. cbn [mbind list_bind]. fold (grid ds ns ps).
    rewrite app_assoc. set (row := acc ++ (trial ds n <$> ps)).
    unfold zlen. rewrite length_take.
    destruct (Z.leb_spec limit (Z.of_nat (Nat.min (Z.to_nat limit) (length row)))).
    + by rewrite take_app_le by lia.
    + rewrite (take_ge row) by lia. apply IH. lia.
Qed.

Context {G : Type} `{!Rng G}.
Lemma random_trials_ok count ds ns (ps : list F) (g : G) : ns <> [] -> ps <> [] ->
  length (random_trials count ds ns ps g) = count /\
  Forall (fun t => exists n p, n ∈ ns /\ p ∈ ps /\ t = trial ds n p) (random_trials count ds ns ps g).
Proof.
  intros Hns Hps. revert g. induction count as [|count IH]; intros g; [done|]. cbn.
  assert (forall {A} (l : list A) dflt i, l <> [] -> 0 <= i <= zlen l - 1 -> nth (Z.to_nat i) l dflt ∈ l) as Hnth.
  { intros A l dflt i Hl Hi. unfold zlen in Hi.
    destruct (lookup_lt_is_Some_2 l (Z.to_nat i)) as [x Hx]; [lia|].
    rewrite nth_lookup, Hx. by eapply list_elem_of_lookup_2. }
  assert (forall {A} (l : list A), l <> [] -> 0 <= zlen l - 1) as Hlen
    by (intros A [|]; unfold zlen; cbn; [done|lia]).
  pose proof (uniform_int_range 0 (zlen ns - 1) g (Hlen _ ns Hns)) as Hi.
  destruct (uniform_int 0 (zlen ns - 1) g) as [i g1].
  pose proof (uniform_int_range 0 (zlen ps - 1) g1 (Hlen _ ps Hps)) as Hj.
  destruct (uniform_int 0 (zlen ps - 1) g1) as [j g2]. cbn in *.
  destruct (IH g2) as [Hl Hf]. split; [by rewrite Hl|]. constructor; [|done].
  exists (nth (Z.to_nat i) ns 0), (nth (Z.to_nat j) ps 0%num). auto.
Qed.

Lemma Validate_ok (h : HpoConfig F) : ValidateHpoConfig h = [] ->
  (algorithm h = "grid"%string \/ algorithm h = "random"%string) /\
  1 <= max_trials h <= 50 /\ 1 <= max_concurrency h <= 10 /\
  Forall (fun n => 1 <= n <= 5) (ss_n_components (search_space h)) /\
  Forall (fun p => p_in_range p = true) (ss_percentile (search_space h)) /\
  (algorithm h = "grid"%string -> zlen (n_space h) * zlen (p_space h) <= 100).
Proof.
  unfold ValidateHpoConfig. intros Hv.
  apply app_nil in Hv as [H1 Hv]. apply app_nil in Hv as [H2 Hv]. apply app_nil in Hv as [H3 Hv].
  apply app_nil in Hv as [_ Hv]. apply app_nil in Hv as [H5 Hv]. apply app_nil in Hv as [H6 H7].
  split_and!.
  - destruct (String.eqb_spec (algorithm h) "grid"); [by left|].
    destruct (String.eqb_spec (algorithm h) "random"); [by right|done].
  - destruct (Z.leb_spec (max_trials h) 0); [done|lia].
  - destruct (Z.leb_spec (max_trials h) 0), (Z.ltb_spec 50 (max_trials h)); try done.
  - destruct (Z.leb_spec (max_concurrency h) 0); [done|lia].
  - destruct (Z.leb_spec (max_concurrency h) 0), (Z.ltb_spec 10 (max_concurrency h)); try done.
  - destruct (existsb _ (ss_n_components _)) eqn:E; [done|]. clear -E.
    induction (ss_n_components _) as [|n l IH]; [done|]. cbn in E. apply orb_false_iff in E as [E1 E2].
    constructor; [|by apply IH]. unfold n_in_range in E1.
    destruct (Z.leb_spec n 0), (Z.ltb_spec 5 n); cbn in E1; try done; lia.
  - destruct (existsb _ (ss_percentile _)) eqn:E; [done|]. clear -E.
    induction (ss_percentile _) as [|n l IH]; [done|]. cbn in E. apply orb_false_iff in E as [E1 E2].
    constructor; [|by apply IH]. by apply negb_false_iff in E1.
  - intros Hg. rewrite Hg in H7. cbn [String.eqb] in H7. unfold n_space, p_space.
    destruct (ss_n_components _), (ss_percentile _); cbn -[Z.mul Z.ltb zlen] in H7;
      match type of H7 with (if ?b then _ else _) = _ => destruct b eqn:E; [done|] end;
      apply Z.ltb_ge in E; unfold zlen in *; cbn -[Z.mul] in *; lia.
Qed.
End trials.

(** C27: a configuration that validates (an empty error list) generates exactly
    the number of trials the preflight announced, between 1 and 50, whatever
    the algorithm, the random engine and the clock; every trial is for the
    requested dataset, with a component count PCA accepts and a percentile in
    range, both taken from the (defaulted) search space; a grid search runs the
    first [max_trials] points of the grid in loop order. *)
Theorem validated_search_is_as_announced {G} `{!Rng G} (h : HpoConfig float) (now : Z) (ds : string)
    (Hvalid : ValidateHpoConfig h = []) :
  let ts := GenerateTrials now h ds in
  zlen ts = effective_trials (PreflightHpoConfig h) /\ 1 <= zlen ts <= 50 /\
  Forall (fun t => exists n p, n ∈ n_space h /\ p ∈ p_space h /\ t = trial ds n p /\
                     1 <= n <= Z.of_nat kSize /\ p_in_range p = true) ts /\
  (algorithm h = "grid"%string -> ts = take (Z.to_nat (max_trials h)) (grid ds (n_space h) (p_space h))).
Proof.
  destruct (Validate_ok h Hvalid) as (Halg&Hmax&_&Hns&Hps&H100).
  assert (Forall (fun n => 1 <= n <= 5) (n_space h)) as Hn.
  { unfold n_space. destruct (ss_n_components _); [by repeat constructor; lia|done]. }
  assert (Forall (fun p => p_in_range p = true) (p_space h)) as Hp.
  { unfold p_space. destruct (ss_percentile _); [by repeat constructor|done]. }
  rewrite Forall_forall in Hn. rewrite Forall_forall in Hp.
  assert (n_space h <> []) as Hn0 by (unfold n_space; by destruct (ss_n_components _)).
  assert (p_space h <> []) as Hp0 by (unfold p_space; by destruct (ss_percentile _)).
  assert (1 <= zlen (n_space h) /\ 1 <= zlen (p_space h)) as [Hln Hlp].
  { unfold zlen. destruct (n_space h), (p_space h); cbn; try done; lia. }
  cbn zeta. unfold GenerateTrials, PreflightHpoConfig. destruct Halg as [Hg|Hg]; rewrite Hg; cbn [String.eqb Ascii.eqb Bool.eqb].
  - rewrite grid_outer_eq by (unfold zlen; cbn; lia). rewrite app_nil_l.
    specialize (H100 Hg). rewrite (proj2 (Z.ltb_ge 100 _)) by done.
    pose proof (length_grid ds (n_space h) (p_space h)) as Hl.
    assert (zlen (take (Z.to_nat (max_trials h)) (grid ds (n_space h) (p_space h))) =
      Z.min (max_trials h) (zlen (n_space h) * zlen (p_space h))) as Hlt.
    { unfold zlen in *. rewrite length_take. lia. }
    rewrite Hlt. assert (1 <= zlen (n_space h) * zlen (p_space h)) by nia. split_and!.
    + destruct (Z.ltb_spec (max_trials h) (zlen (n_space h) * zlen (p_space h))); cbn; lia.
    + lia.
    + lia.
    + apply Forall_take, Forall_forall. intros t Ht. unfold grid in Ht.
      apply list_elem_of_bind in Ht as (n & Ht & Hin). apply list_elem_of_fmap in Ht as (p & -> & Hip).
      exists n, p. pose proof (Hn n Hin). pose proof (Hp p Hip). unfold kSize. split_and!; done || lia.
    + done.
  - destruct (random_trials_ok (Z.to_nat (max_trials h)) ds (n_space h) (p_space h)
      (mt19937 (unsigned_int (default now (seed h)))) Hn0 Hp0) as [Hl Hf].
    unfold zlen. rewrite Hl. cbn [effective_trials]. split_and!; [lia|lia|lia| |done].
    eapply Forall_impl; [exact Hf|]. cbn. intros t (n&p&Hin&Hip&->). exists n, p.
    pose proof (Hn n Hin). pose proof (Hp p Hip). unfold kSize. split_and!; done || lia.
Qed.

Definition hpo_example : HpoConfig float :=
  MkHpo "grid" 4 2 (Some 7) (MkSpace [2; 3] [90; 95; 99]%float).

Lemma validated_search_is_as_announced_witness :
  ValidateHpoConfig hpo_example = [] /\
  zlen (@GenerateTrials _ _ _ lcg_rng 0 hpo_example "ds") = 4 /\
  @GenerateTrials _ _ _ lcg_rng 0 hpo_example "ds" =
    take (Z.to_nat (max_trials hpo_example)) (grid "ds" (n_space hpo_example) (p_space hpo_example)).
Proof.
  split; [vm_compute; reflexivity|].
  destruct (@validated_search_is_as_announced _ lcg_rng hpo_example 0 "ds" ltac:(vm_compute; reflexivity))
    as (Hl & _ & _ & Hg).
  split; [rewrite Hl; vm_compute; reflexivity|apply Hg; reflexivity].
Defined.

(** ** Fingerprints *)
Lemma Z_sort_unique (l1 l2 : list Z) : l1 ≡ₚ l2 -> std_sort Z.ltb l1 = std_sort Z.ltb l2.
Proof.
  intros Hp. apply (StronglySorted_unique_strong (ordered Z.ltb)).
  - intros x y _ _. unfold ordered. rewrite !Z.ltb_ge. lia.
  - apply (std_sort_sorted _ (fun _ => True)); [..|by apply Forall_true]; intros *; rewrite ?Z.ltb_lt, !Z.ltb_ge; lia.
  - apply (std_sort_sorted _ (fun _ => True)); [..|by apply Forall_true]; intros *; rewrite ?Z.ltb_lt, !Z.ltb_ge; lia.
  - by rewrite !std_sort_perm.
Qed.

Lemma normalized_json_eq {F} `{Num F} (h : HpoConfig F) :
  normalized_json h = Ok (JObj
    [("algorithm", JStr (algorithm h)); ("generator_version", JStr kHpoGeneratorVersion);
     ("max_concurrency", JInt (clamp (max_concurrency h) 1 10)); ("max_trials", JInt (max_trials h));
     ("search_space", JObj
        [("n_components", JArr (JInt <$> std_sort Z.ltb (ss_n_components (search_space h))));
         ("percentile", jdoubles (std_sort nltb (ss_percentile (search_space h))))]);
     ("seed", match seed h with Some s => JInt s | None => JNull end)])%string.
Proof. reflexivity. Qed.

(** Two configurations that describe the same search. *)
Definition same_search (h1 h2 : HpoConfig float) : Prop :=
  algorithm h1 = algorithm h2 /\ max_trials h1 = max_trials h2 /\
  clamp (max_concurrency h1) 1 10 = clamp (max_concurrency h2) 1 10 /\ seed h1 = seed h2 /\
  ss_n_components (search_space h1) ≡ₚ ss_n_components (search_space h2) /\
  ss_percentile (search_space h1) ≡ₚ ss_percentile (search_space h2).

(** For positive percentiles (any validated space) and finite numbers, two
    configurations that describe the same search (spaces up to order,
    concurrency up to clamping) always get the same fingerprint, and the texts
    that are hashed are equal only for such configurations, so only a collision
    of the hash can identify two different searches. *)
Theorem fingerprint_identifies_search {text} `{!JsonText float text} (hash : text -> N) (h1 h2 : HpoConfig float)
    (Hp1 : Forall (fun p => (0 <? p)%num = true) (ss_percentile (search_space h1)))
    (Hfin1 : forallb nfinite (ss_percentile (search_space h1)) = true)
    (Hfin2 : forallb nfinite (ss_percentile (search_space h2)) = true) :
  (same_search h1 h2 -> ComputeCandidateFingerprint hash h1 = ComputeCandidateFingerprint hash h2) /\
  ((dump <$> normalized_json h1) = (dump <$> normalized_json h2) <-> same_search h1 h2).
Proof.
  assert (same_search h1 h2 -> normalized_json h1 = normalized_json h2) as Hsame.
  { intros (Ha&Hm&Hc&Hs&Hn&Hp). rewrite !normalized_json_eq. rewrite Ha, Hm, Hc, Hs.
    rewrite (Z_sort_unique _ _ Hn). rewrite (num_sort_unique _ _ ) with (3 := Hp); [done|..].
    - eapply Forall_impl; [exact Hp1|]. intros p Hpp. exact (proj2 (nltb_nonnan (F:=float) _ _ Hpp)).
    - intros x y Hx _. rewrite Forall_forall in Hp1. by apply float_eqb_eq, Hp1. }
  split; [intros Hss; unfold ComputeCandidateFingerprint; by rewrite Hsame|].
  split; [|intros Hss; by rewrite Hsame].
  rewrite !normalized_json_eq. cbn [fmap res_fmap]. intros [= Hd].
  apply (f_equal parse) in Hd. rewrite !parse_dump in Hd. cbn in Hd.
  assert (forall l : list float, forallb nfinite l = true -> as_written <$> (JNum <$> std_sort nltb l) = JNum <$> std_sort nltb l) as Hw.
  { intros l Hl. assert (Forall (fun x => nfinite x = true) (std_sort nltb l)) as Hf.
    { rewrite std_sort_perm. apply Forall_forall. intros x Hx. rewrite forallb_forall in Hl. by apply Hl, list_elem_of_In. }
    induction Hf as [|x l' Hx _ IH]; [done|]. cbn [fmap list_fmap as_written] in *. by rewrite Hx, IH. }
  unfold jdoubles in Hd. rewrite !Hw in Hd by done.
  injection Hd as Ha Hc Hm Hn Hp Hs.
  assert (forall l : list Z, as_written <$> (@JInt float <$> l) = JInt <$> l) as Hz.
  { intros l. rewrite <- list_fmap_compose. done. }
  rewrite !Hz in Hn.
  assert (forall A (f : A -> json float) (l1 l2 : list A), Inj (=) (=) f -> f <$> l1 = f <$> l2 -> l1 = l2) as Hinj
    by (intros A f l1 l2 ? He; by apply (inj (fmap f)) in He).
  apply Hinj in Hn; [|by intros ?? [=]]. apply Hinj in Hp; [|by intros ?? [=]].
  split_and!; try done.
  - by destruct (seed h1), (seed h2); simplify_eq.
  - rewrite <- (std_sort_perm Z.ltb (ss_n_components _)), Hn. apply std_sort_perm.
  - etrans; [symmetry; apply (std_sort_perm nltb)|]. etrans; [|apply (std_sort_perm nltb)]. by apply reflexive_eq.
Qed.

Lemma fingerprint_identifies_search_witness :
  let h2 := MkHpo "grid" 4 2 (Some 7) (MkSpace [3; 2] [99; 90; 95]%float) in
  let hash (t : option (json float)) := 255%N in
  @ComputeCandidateFingerprint float _ _ (tree_text float) hash hpo_example = Ok "ff"%string /\
  @ComputeCandidateFingerprint float _ _ (tree_text float) hash hpo_example =
  @ComputeCandidateFingerprint float _ _ (tree_text float) hash h2.
Proof.
  intros h2 hash. split; [vm_compute; reflexivity|].
  apply (@fingerprint_identifies_search _ (tree_text float) hash hpo_example h2).
  - repeat constructor.
  - vm_compute; reflexivity.
  - vm_compute; reflexivity.
  - split_and!; [done..|apply Permutation_swap|]. cbn.
    etrans; [|apply Permutation_swap]. constructor. apply Permutation_swap.
Defined.

(** Without validation the preflight can announce trials that are never run:
    the cap of 100 hides a smaller [max_trials]. *)
Example preflight_overestimates :
  let h := MkHpo "grid" 10 2 None (MkSpace (replicate 11 3) (replicate 10 90%float)) in
  effective_trials (PreflightHpoConfig h) = 100 /\
  zlen (@GenerateTrials _ _ _ lcg_rng 0 h "ds") = 10.
Proof. vm_compute. done. Qed.
