(* ===== verification/JobState.v ===== *)
(** The job lifecycle: src/src/job_state_machine.{h,cpp}. *)
From stdpp Require Import base list strings gmap relations.
From Stdlib Require Import ZArith Lia.
From S2P Require Import Prelude.

Inductive JobState := PENDING | RUNNING | COMPLETED | FAILED | CANCELLED.

#[global] Instance JobState_eq_dec : EqDecision JobState.
Proof. solve_decision. Defined.

(** The enumerators by their integer value; [static_cast<JobState>(i)]. *)
Definition state_index (s : JobState) : nat :=
  match s with PENDING => 0 | RUNNING => 1 | COMPLETED => 2 | FAILED => 3 | CANCELLED => 4 end.
Definition state_of_index (i : nat) : option JobState :=
  match i with 0 => Some PENDING | 1 => Some RUNNING | 2 => Some COMPLETED | 3 => Some FAILED | 4 => Some CANCELLED
  | _ => None end.

#[global] Instance JobState_countable : Countable JobState.
Proof. refine (inj_countable state_index state_of_index _). by intros []. Defined.

Definition StateToString (s : JobState) : string :=
  match s with
  | PENDING => "PENDING" | RUNNING => "RUNNING" | COMPLETED => "COMPLETED"
  | FAILED => "FAILED" | CANCELLED => "CANCELLED"
  end.
Definition StringToState (s : string) : res JobState :=
  if (s =? "PENDING")%string then Ok PENDING
  else if (s =? "RUNNING")%string then Ok RUNNING
  else if (s =? "COMPLETED")%string then Ok COMPLETED
  else if (s =? "FAILED")%string then Ok FAILED
  else if (s =? "CANCELLED")%string then Ok CANCELLED
  else runtime_error ("Invalid job state string: " +:+ s).

Definition IsTransitionAllowed (current next : JobState) : bool :=
  if bool_decide (current = next) then true
  else match current with
       | PENDING => match next with RUNNING | CANCELLED | FAILED => true | _ => false end
       | RUNNING => match next with COMPLETED | FAILED | CANCELLED => true | _ => false end
       | COMPLETED | FAILED | CANCELLED => false
       end.

(** The loop over the integers [0 .. CANCELLED], inserting into a set. *)
Definition GetValidNextStates (current : JobState) : gset JobState :=
  for_ 0 (S (state_index CANCELLED)) (fun i next =>
    match state_of_index i with
    | Some s => if IsTransitionAllowed current s then {[s]} ∪ next else next
    | None => next
    end) {[current]}.

Definition IsTerminal (s : JobState) : bool :=
  match s with COMPLETED | FAILED | CANCELLED => true | _ => false end.

(** One allowed transition, as a relation. *)
Definition allowed (s s' : JobState) : Prop := IsTransitionAllowed s s' = true.

Lemma elem_of_GetValidNextStates s s' : s' ∈ GetValidNextStates s <-> allowed s s'.
Proof. destruct s, s'; unfold GetValidNextStates, allowed; vm_compute; split; done. Qed.

(** The names of the states round-trip, and a name that is no state is
    rejected. *)
Theorem state_names_roundtrip (s : JobState) (str : string) :
  StringToState (StateToString s) = Ok s /\
  (forall s', StringToState str = Ok s' -> StateToString s' = str).
Proof.
  split; [by destruct s|]. intros s'. unfold StringToState.
  do 5 (match goal with |- context [(str =? ?n)%string] => destruct (String.eqb_spec str n) as [->|] end;
    [by intros [= <-]|]). discriminate.
Qed.

(** A recorded history: each state is allowed after the one before. *)
Fixpoint valid_history (h : list JobState) : Prop :=
  match h with
  | s :: (s' :: _) as h' => allowed s s' /\ valid_history h'
  | _ => True
  end.

Lemma history_path h i j s s' :
  valid_history h -> i <= j -> h !! i = Some s -> h !! j = Some s' -> rtc allowed s s'.
Proof.
  revert i j s s'. induction h as [|s0 h IH]; intros i j s s' Hv Hij Hi Hj; [done|].
  assert (valid_history h) as Hv' by (destruct h; [done|apply Hv]).
  destruct i as [|i]; [|destruct j as [|j]; [lia|]; apply (IH i j); [done|lia|done|done]].
  cbn in Hi. simplify_eq. destruct j as [|j]; [cbn in Hj; simplify_eq; apply rtc_refl|].
  destruct h as [|s1 h]; [done|]. cbn in Hj. apply (rtc_l _ _ s1); [apply Hv|].
  apply (IH 0 j); [done|lia|done|done].
Qed.

Lemma terminal_path s s' : rtc allowed s s' -> IsTerminal s = true -> s' = s.
Proof.
  induction 1 as [|s s1 s2 Hs _ IH]; [done|]. intros Ht.
  assert (s1 = s) as -> by (by destruct s, s1). auto.
Qed.
Lemma pending_path s s' : rtc allowed s s' -> s' = PENDING -> s = PENDING.
Proof. induction 1 as [|s s1 s2 Hs _ IH]; [done|]. intros Ht. specialize (IH Ht) as ->. by destruct s. Qed.

(** In any history of allowed transitions a terminal state never changes
    again (and [GetValidNextStates] offers nothing else), no state but PENDING
    precedes PENDING, and a history that starts PENDING and completes was
    RUNNING in between. *)
Theorem lifecycle_is_one_way (h : list JobState) (i j : nat) (s s' : JobState)
    (Hvalid : valid_history h) (Hij : i <= j) (Hi : h !! i = Some s) (Hj : h !! j = Some s') :
  (IsTerminal s = true -> s' = s /\ GetValidNextStates s = {[s]}) /\
  (s' = PENDING -> s = PENDING) /\
  (s = PENDING -> s' = COMPLETED -> exists k, i < k < j /\ h !! k = Some RUNNING).
Proof.
  pose proof (history_path h i j s s' Hvalid Hij Hi Hj) as Hpath. split_and!.
  - intros Ht. split; [by apply terminal_path|]. apply set_eq. intros x.
    rewrite elem_of_GetValidNextStates, elem_of_singleton. unfold allowed. by destruct s, x.
  - by apply pending_path.
  - intros -> ->. clear Hpath. revert i j Hij Hi Hj. induction h as [|s0 h IH]; intros i j Hij Hi Hj; [done|].
    assert (valid_history h) as Hv' by (destruct h; [done|apply Hvalid]).
    destruct j as [|j]; [destruct i; [|lia]; cbn in *; simplify_eq|].
    destruct i as [|i].
    + cbn in Hi. simplify_eq. destruct h as [|s1 h]; [done|]. destruct Hvalid as [Ha _].
      destruct s1; try done.
      * destruct (IH Hv' 0 j) as (k&Hk&Hr); [lia|done|done|]. exists (S k). split; [lia|done].
      * exists 1. split; [|done]. destruct j; [cbn in Hj; simplify_eq|lia].
      * assert (FAILED = COMPLETED) by (symmetry; apply (terminal_path FAILED); [|done];
          apply (history_path (FAILED :: h) 0 j); (lia || done)). done.
      * assert (CANCELLED = COMPLETED) by (symmetry; apply (terminal_path CANCELLED); [|done];
          apply (history_path (CANCELLED :: h) 0 j); (lia || done)). done.
    + destruct (IH Hv' i j) as (k&Hk&Hr); [lia|done|done|]. exists (S k). split; [lia|done].
Qed.

Lemma lifecycle_is_one_way_witness :
  let h := [PENDING; RUNNING; RUNNING; COMPLETED] in
  valid_history h /\ exists k, 0 < k < 3 /\ h !! k = Some RUNNING.
Proof.
  intros h. assert (valid_history h) as Hv by (vm_compute; by split_and!). split; [exact Hv|].
  apply (lifecycle_is_one_way h 0 3 PENDING COMPLETED); (exact Hv || lia || reflexivity).
Defined.
