(* ===== verification/JobManager.v ===== *)
(** Background jobs: src/src/job_manager.{h,cpp}.

    Each critical section of the source is one executable operation on the
    state: [StartJob] (with [CleanupFinishedThreads]), [CancelJob], [finish]
    (the locked tail of the thread body), [Stop]'s two halves, and the queries.
    [step] interleaves them with the work of the threads.

    A thread is an entry of [pool]; its index stands for the [std::thread] and
    for the [shared_ptr] to its stop flag. *)
From stdpp Require Import base list strings gmap relations.
From Stdlib Require Import ZArith Lia.
From S2P Require Import Prelude JobState.

Local Open Scope Z_scope.

Record JobInfo := MkJobInfo { ji_job_id : string; ji_request_id : string; ji_status : JobState; ji_error : string }.

(** The life of a thread: the work runs; it returned or threw ([None] is an
    exception that is no [std::exception]) and the thread waits for the lock;
    it finished; or the [std::thread] could not be created. *)
Inductive phase := Working | Returned | Threw (what : option string) | Finished | NotSpawned.
Record Thread := MkThread { t_job : string; t_request : string; t_stop : bool; t_phase : phase }.

Inductive stop_phase := NotStopped | Stopping | Collected.

#[global] Instance stop_phase_eq_dec : EqDecision stop_phase.
Proof. solve_decision. Defined.
#[global] Instance phase_eq_dec : EqDecision phase.
Proof. solve_decision. Defined.

Record JobManager := MkJM {
  jobs_ : gmap string JobInfo;
  stop_flags_ : gmap string nat;
  threads_ : gmap string nat;
  stopping_ : stop_phase;
  max_jobs_ : Z;
  current_jobs_ : Z;
  pool : list Thread;
  to_join : list nat;
  terminated : bool }.

Definition jm_init : JobManager := MkJM ∅ ∅ ∅ NotStopped 4 0 [] [] false.

Definition set_phase (p : phase) (t : Thread) : Thread := MkThread (t_job t) (t_request t) (t_stop t) p.
Definition set_stop (t : Thread) : Thread := MkThread (t_job t) (t_request t) true (t_phase t).

(** The thread body has not released its slot yet. *)
Definition live (t : Thread) : bool :=
  match t_phase t with Working | Returned | Threw _ => true | Finished | NotSpawned => false end.
(** It counts in [current_jobs_]: a thread that could not be created keeps its
    slot, since only the thread body gives it back. *)
Definition holds_slot (t : Thread) : bool := negb (bool_decide (t_phase t = Finished)).

Definition SetMaxConcurrentJobs (n : Z) (m : JobManager) : JobManager :=
  MkJM (jobs_ m) (stop_flags_ m) (threads_ m) (stopping_ m) (to_size_t n) (current_jobs_ m)
    (pool m) (to_join m) (terminated m).

(** The entries whose job is known and no longer RUNNING are joined and erased. *)
Definition reapable (m : JobManager) (id : string) : bool :=
  match jobs_ m !! id with Some i => negb (bool_decide (ji_status i = RUNNING)) | None => false end.
Definition reaped (m : JobManager) : gmap string nat :=
  filter (fun kv : string * nat => reapable m kv.1 = true) (threads_ m).
(** [None]: a join that blocks, because the thread has not finished. *)
Definition CleanupFinishedThreads (m : JobManager) : option JobManager :=
  if decide (map_Forall (fun _ tid => t_phase <$> pool m !! tid = Some Finished) (reaped m))
  then Some (MkJM (jobs_ m) (stop_flags_ m ∖ reaped m) (threads_ m ∖ reaped m) (stopping_ m)
               (max_jobs_ m) (current_jobs_ m) (pool m) (to_join m) (terminated m))
  else None.

Definition queue_full : string := "Job queue full: max concurrent jobs reached".
Definition is_stopping : string := "JobManager is stopping".

(** [spawn_ok]: whether the system could create the thread.  The new thread is
    moved onto [threads_[job_id]]; if that entry still holds a joinable thread
    (every entry does), [std::terminate] is called. *)
Definition StartJob (m : JobManager) (job_id request_id : string) (spawn_ok : bool)
    : option (JobManager * res unit) :=
  if negb (bool_decide (stopping_ m = NotStopped)) then Some (m, runtime_error is_stopping) else
  match CleanupFinishedThreads m with
  | None => None
  | Some m =>
      if max_jobs_ m <=? current_jobs_ m then Some (m, runtime_error queue_full) else
      let tid := length (pool m) in
      let t := MkThread job_id request_id false (if spawn_ok then Working else NotSpawned) in
      let info := MkJobInfo job_id request_id RUNNING EmptyString in
      let started threads terminated :=
        MkJM (<[job_id := info]> (jobs_ m)) (<[job_id := tid]> (stop_flags_ m)) threads
          (stopping_ m) (max_jobs_ m) (to_size_t (current_jobs_ m + 1)) (pool m ++ [t]) (to_join m) terminated in
      if negb spawn_ok then Some (started (threads_ m) false, Throw (Exn OtherException "thread creation failed"))
      else match threads_ m !! job_id with
           | Some _ => Some (started (threads_ m) true, Ok tt)
           | None => Some (started (<[job_id := tid]> (threads_ m)) false, Ok tt)
           end
  end.

Definition CancelJob (job_id : string) (m : JobManager) : JobManager :=
  match stop_flags_ m !! job_id with
  | Some tid => MkJM (jobs_ m) (stop_flags_ m) (threads_ m) (stopping_ m) (max_jobs_ m) (current_jobs_ m)
                  (alter set_stop tid (pool m)) (to_join m) (terminated m)
  | None => m
  end.

Definition GetStatus (job_id : string) (m : JobManager) : JobState :=
  match jobs_ m !! job_id with Some i => ji_status i | None => CANCELLED end.

Definition ListJobs (m : JobManager) : list JobInfo := snd <$> map_to_list (jobs_ m).

(** The outcome the locked tail of the thread body records for its job. *)
Definition outcome (t : Thread) : option (JobState * option string) :=
  match t_phase t with
  | Returned => Some (if t_stop t then CANCELLED else COMPLETED, None)
  | Threw (Some what) => Some (FAILED, Some what)
  | Threw None => Some (FAILED, Some "Unknown exception"%string)
  | _ => None
  end.
Definition record_outcome (o : JobState * option string) (i : JobInfo) : JobInfo :=
  MkJobInfo (ji_job_id i) (ji_request_id i) o.1 (default (ji_error i) o.2).
Definition finish (tid : nat) (m : JobManager) : option JobManager :=
  t ← pool m !! tid;
  o ← outcome t;
  Some (MkJM (alter (record_outcome o) (t_job t) (jobs_ m)) (stop_flags_ m) (threads_ m) (stopping_ m)
    (max_jobs_ m) (to_size_t (current_jobs_ m - 1)) (alter (set_phase Finished) tid (pool m))
    (to_join m) (terminated m)).

(** [Stop]: [stopping_.exchange(true)]; then, under the lock, every flag is
    set and the threads are moved out to be joined. *)
Definition stop_exchange (m : JobManager) : JobManager :=
  match stopping_ m with
  | NotStopped => MkJM (jobs_ m) (stop_flags_ m) (threads_ m) Stopping (max_jobs_ m) (current_jobs_ m)
                    (pool m) (to_join m) (terminated m)
  | _ => m
  end.
Definition stop_collect (m : JobManager) : JobManager :=
  MkJM (jobs_ m) ∅ ∅ Collected (max_jobs_ m) (current_jobs_ m)
    (map_fold (fun _ tid p => alter set_stop tid p) (pool m) (stop_flags_ m))
    (snd <$> map_to_list (threads_ m)) (terminated m).
(** [Stop] returns when every collected thread is joined. *)
Definition stop_returns (m : JobManager) : bool :=
  bool_decide (stopping_ m = Collected) &&
  bool_decide (Forall (fun tid => t_phase <$> pool m !! tid = Some Finished) (to_join m)).

(** ** Interleavings *)
Inductive step : JobManager -> JobManager -> Prop :=
  | step_start m id req ok m' r : terminated m = false ->
      StartJob m id req ok = Some (m', r) -> step m m'
  | step_cancel m id : terminated m = false -> step m (CancelJob id m)
  | step_return m tid t : terminated m = false -> pool m !! tid = Some t -> t_phase t = Working ->
      step m (MkJM (jobs_ m) (stop_flags_ m) (threads_ m) (stopping_ m) (max_jobs_ m) (current_jobs_ m)
                (alter (set_phase Returned) tid (pool m)) (to_join m) false)
  | step_throw m tid t what : terminated m = false -> pool m !! tid = Some t -> t_phase t = Working ->
      step m (MkJM (jobs_ m) (stop_flags_ m) (threads_ m) (stopping_ m) (max_jobs_ m) (current_jobs_ m)
                (alter (set_phase (Threw what)) tid (pool m)) (to_join m) false)
  | step_finish m tid m' : terminated m = false -> finish tid m = Some m' -> step m m'
  | step_stop m : terminated m = false -> step m (stop_exchange m)
  | step_collect m : terminated m = false -> stopping_ m = Stopping -> step m (stop_collect m).

(** The manager is configured once, before it is used. *)
Definition configured (n : Z) : JobManager := SetMaxConcurrentJobs n jm_init.
Definition reachable (n : Z) (m : JobManager) : Prop := rtc step (configured n) m.

(** ** The invariant *)
Record inv (n : Z) (m : JobManager) : Prop := {
  i_max : max_jobs_ m = to_size_t n;
  (** the counter counts the slots, and respects the limit *)
  i_cur : current_jobs_ m = Z.of_nat (countb holds_slot (pool m));
  i_le : current_jobs_ m <= max_jobs_ m;
  (** every registered thread runs its job, and is live exactly while the job is RUNNING *)
  i_thr id tid : threads_ m !! id = Some tid -> exists t i,
    pool m !! tid = Some t /\ t_job t = id /\ t_phase t <> NotSpawned /\
    jobs_ m !! id = Some i /\ (ji_status i = RUNNING <-> live t = true);
  (** every live thread is registered or collected, and its job is RUNNING *)
  i_live tid t : pool m !! tid = Some t -> live t = true ->
    (threads_ m !! t_job t = Some tid \/ tid ∈ to_join m) /\
    exists i, jobs_ m !! t_job t = Some i /\ ji_status i = RUNNING;
  i_uniq tid1 tid2 t1 t2 : pool m !! tid1 = Some t1 -> pool m !! tid2 = Some t2 ->
    live t1 = true -> live t2 = true -> t_job t1 = t_job t2 -> tid1 = tid2;
  i_run id i : jobs_ m !! id = Some i -> ji_status i = RUNNING ->
    exists tid t, pool m !! tid = Some t /\ t_job t = id /\ holds_slot t = true;
  i_stop : (stopping_ m = Collected -> threads_ m = ∅ /\ stop_flags_ m = ∅) /\ (stopping_ m <> Collected -> to_join m = []) }.

Lemma live_slot t : live t = true -> holds_slot t = true.
Proof. unfold live, holds_slot. by destruct (t_phase t). Qed.
Lemma slot_live t : holds_slot t = true -> t_phase t <> NotSpawned -> live t = true.
Proof. unfold live, holds_slot. by destruct (t_phase t). Qed.

Lemma inv_configured n : inv n (configured n).
Proof.
  split; cbn; try done. - apply to_size_t_nonneg. Qed.

Lemma reaped_lookup m id tid :
  reaped m !! id = Some tid <-> threads_ m !! id = Some tid /\ reapable m id = true.
Proof. unfold reaped. by rewrite map_lookup_filter_Some. Qed.
Lemma unreaped_lookup m id tid :
  (threads_ m ∖ reaped m) !! id = Some tid <-> threads_ m !! id = Some tid /\ reapable m id = false.
Proof.
  rewrite lookup_difference_Some, eq_None_not_Some. unfold is_Some.
  split; intros [Ht Hr]; (split; [done|]).
  - destruct (reapable m id) eqn:E; [|done]. exfalso. apply Hr. exists tid. by apply reaped_lookup.
  - intros [x Hx]. apply reaped_lookup in Hx as [_ Hx]. congruence.
Qed.
Lemma reapable_finished n m id tid : inv n m -> threads_ m !! id = Some tid -> reapable m id = true ->
  t_phase <$> pool m !! tid = Some Finished.
Proof.
  intros Hi Ht Hr. destruct (i_thr _ _ Hi id tid Ht) as (t & i & Hp & _ & Hns & Hj & Hiff).
  unfold reapable in Hr. rewrite Hj in Hr. apply negb_true_iff, bool_decide_eq_false in Hr.
  rewrite Hp. cbn. f_equal. destruct (t_phase t) eqn:Ep; try done;
    exfalso; apply Hr, Hiff; unfold live; by rewrite Ep.
Qed.

(** Cleaning up never blocks, keeps the invariant, and leaves only live threads registered. *)
Lemma cleanup_ok n m : inv n m -> exists m', CleanupFinishedThreads m = Some m' /\ inv n m' /\
  pool m' = pool m /\ jobs_ m' = jobs_ m /\ stopping_ m' = stopping_ m /\ terminated m' = terminated m /\
  max_jobs_ m' = max_jobs_ m /\
  forall id tid, threads_ m' !! id = Some tid -> exists t, pool m' !! tid = Some t /\ t_job t = id /\ live t = true.
Proof.
  intros Hi. unfold CleanupFinishedThreads. rewrite decide_True.
  2:{ intros id tid [Ht Hr]%reaped_lookup. by apply (reapable_finished n m id). }
  eexists. split; [done|]. split; [|split_and!; try done; cbn].
  - destruct Hi as [H1 H2 H3 H4 H5 H6 H7 [H8 H9]]. split; cbn; try done.
    + intros id tid [Ht _]%unreaped_lookup. by apply H4.
    + intros tid t Hp Hl. destruct (H5 tid t Hp Hl) as [[Ht|Ht] (i & Hj & Hs)]; (split; [|by exists i]); [|by right].
      left. apply unreaped_lookup. split; [done|]. unfold reapable. by rewrite Hj, Hs.
    + split; [|done]. intros Hc. destruct (H8 Hc) as [-> ->].
      split; apply map_empty; intros id; rewrite lookup_difference; by case_match.
  - intros id tid [Ht Hr]%unreaped_lookup. destruct (i_thr _ _ Hi id tid Ht) as (t & i & Hp & Hj & _ & Hjob & Hiff).
    exists t. split_and!; [done..|]. apply Hiff. unfold reapable in Hr. rewrite Hjob in Hr.
    by apply negb_false_iff, bool_decide_eq_true in Hr.
Qed.

(** Replacing threads by ones of the same job and liveness. *)
Definition same_thread (t t' : Thread) : Prop :=
  t_job t' = t_job t /\ live t' = live t /\ holds_slot t' = holds_slot t.

Lemma not_spawned_iff t : t_phase t <> NotSpawned <-> live t = holds_slot t.
Proof. unfold live, holds_slot. by destruct (t_phase t). Qed.

Lemma same_alter (f : Thread -> Thread) tid (p : list Thread) :
  (forall t, p !! tid = Some t -> same_thread t (f t)) -> Forall2 same_thread p (alter f tid p).
Proof.
  intros Hf. apply Forall2_lookup. intros i. destruct (decide (i = tid)) as [->|Hne].
  - rewrite list_lookup_alter_eq. destruct (p !! tid) as [t|] eqn:E; [|constructor]. constructor. by apply Hf.
  - rewrite list_lookup_alter_ne by done. destruct (p !! i); constructor. by split_and!.
Qed.

Lemma same_countb p p' : Forall2 same_thread p p' -> countb holds_slot p' = countb holds_slot p.
Proof. induction 1 as [|t t' p p' (_&_&Hs) _ IH]; [done|]. rewrite !countb_cons. by rewrite Hs, IH. Qed.

Lemma inv_same n m p' flags term : inv n m -> Forall2 same_thread (pool m) p' ->
  (stopping_ m = Collected -> flags = ∅) ->
  inv n (MkJM (jobs_ m) flags (threads_ m) (stopping_ m) (max_jobs_ m) (current_jobs_ m) p' (to_join m) term).
Proof.
  intros [H1 H2 H3 H4 H5 H6 H7 H8] Hp Hflags.
  assert (forall tid t', p' !! tid = Some t' -> exists t, pool m !! tid = Some t /\ same_thread t t') as Hback
    by (intros tid t' Ht; apply (Forall2_lookup_r _ _ _ _ _ Hp Ht)).
  assert (forall tid t, pool m !! tid = Some t -> exists t', p' !! tid = Some t' /\ same_thread t t') as Hfwd
    by (intros tid t Ht; apply (Forall2_lookup_l _ _ _ _ _ Hp Ht)).
  split; cbn; try done.
  - by rewrite H2, (same_countb _ _ Hp).
  - intros id tid Ht. destruct (H4 id tid Ht) as (t&i&Hpt&Hj&Hns&Hi&Hiff).
    destruct (Hfwd tid t Hpt) as (t'&Ht'&Hjob&Hlive&Hslot). exists t', i.
    rewrite Hjob, Hlive. rewrite not_spawned_iff, Hlive, Hslot, <- not_spawned_iff. done.
  - intros tid t' Ht' Hl. destruct (Hback tid t' Ht') as (t&Ht&Hjob&Hlive&_). rewrite Hjob.
    apply H5; congruence.
  - intros tid1 tid2 t1' t2' Ht1 Ht2 Hl1 Hl2 He.
    destruct (Hback _ _ Ht1) as (t1&?&Hj1&Hv1&_), (Hback _ _ Ht2) as (t2&?&Hj2&Hv2&_).
    apply (H6 tid1 tid2 t1 t2); congruence.
  - intros id i Hi Hs. destruct (H7 id i Hi Hs) as (tid&t&Ht&Hj&Hslot).
    destruct (Hfwd tid t Ht) as (t'&Ht'&Hjob&_&Hs'). exists tid, t'. split_and!; congruence.
  - destruct H8 as [H8 H8']. split; [|done]. intros Hc. split; [by apply H8|by apply Hflags].
Qed.

(** What [StartJob] does when it gets past the checks. *)
Lemma inv_started n m id req spawn_ok term :
  inv n m -> stopping_ m = NotStopped -> current_jobs_ m < max_jobs_ m ->
  (forall id tid, threads_ m !! id = Some tid -> exists t, pool m !! tid = Some t /\ t_job t = id /\ live t = true) ->
  threads_ m !! id = None \/ spawn_ok = false ->
  let tid := length (pool m) in
  inv n (MkJM (<[id := MkJobInfo id req RUNNING EmptyString]> (jobs_ m)) (<[id := tid]> (stop_flags_ m))
    (if spawn_ok then <[id := tid]> (threads_ m) else threads_ m) (stopping_ m) (max_jobs_ m)
    (to_size_t (current_jobs_ m + 1))
    (pool m ++ [MkThread id req false (if spawn_ok then Working else NotSpawned)]) (to_join m) term).
Proof.
  intros [H1 H2 H3 H4 H5 H6 H7 H8] Hns Hlt Hlive Hnone tid. set (new := MkThread id req false _).
  assert (holds_slot new = true) as Hslot by (unfold new, holds_slot; by destruct spawn_ok).
  assert (current_jobs_ m + 1 < 2 ^ 64) as Hsz.
  { rewrite H1 in Hlt. pose proof (Z.mod_pos_bound n (2 ^ 64)). unfold to_size_t in Hlt. lia. }
  assert (to_join m = []) as Htj by (apply H8; by rewrite Hns).
  assert (forall k t, (pool m ++ [new]) !! k = Some t -> pool m !! k = Some t \/ (k = tid /\ t = new)) as Hsnoc.
  { intros k t [Hk|[Hk Ht]]%lookup_app_Some; [by left|right].
    apply list_lookup_singleton_Some in Ht as [Ht ->]. split; [unfold tid; lia|done]. }
  assert ((pool m ++ [new]) !! tid = Some new) as Hnew.
  { rewrite lookup_app_r by done. unfold tid. by rewrite Nat.sub_diag. }
  split; cbn; try done.
  - rewrite countb_snoc, Hslot, to_size_t_id by lia. lia.
  - rewrite to_size_t_id by lia. lia.
  - intros id' k Hk.
    assert ((threads_ m !! id' = Some k) \/ (spawn_ok = true /\ id' = id /\ k = tid)) as [Hold|(->&->&->)].
    { destruct spawn_ok; [|by left]. destruct (decide (id = id')) as [->|]; simplify_map_eq; [by right|by left]. }
    + destruct (Hlive id' k Hold) as (t&Hp&Hj&Hl). destruct (H4 id' k Hold) as (t'&i&Hp'&_&Hph&Hji&Hiff).
      simplify_eq. destruct (decide (id = t_job t)) as [->|Hne].
      * exists t, (MkJobInfo (t_job t) req RUNNING EmptyString). rewrite lookup_insert_eq.
        split_and!; try done; by apply lookup_app_l_Some.
      * exists t, i. rewrite lookup_insert_ne by done. split_and!; try done; by apply lookup_app_l_Some.
    + exists new. eexists. rewrite lookup_insert_eq. split_and!; try done.
  - intros k t Hk Hl. destruct (Hsnoc k t Hk) as [Hold|[-> ->]].
    + destruct (H5 k t Hold Hl) as [[Ht|Ht] (i&Hi&Hs)]; [|rewrite Htj in Ht; by apply not_elem_of_nil in Ht].
      assert (spawn_ok = true -> t_job t <> id) as Hne.
      { intros -> Heq. destruct Hnone as [Hno|]; [|done]. rewrite Heq in Ht. congruence. }
      split.
      * left. destruct spawn_ok; [|done]. rewrite lookup_insert_ne; [done|]. intros Heq. by apply (Hne eq_refl).
      * destruct (decide (id = t_job t)) as [->|?]; [rewrite lookup_insert_eq; eauto|rewrite lookup_insert_ne by done; eauto].
    + unfold live, new in Hl. destruct spawn_ok; [|done]. cbn. split; [left; by rewrite lookup_insert_eq|].
      rewrite lookup_insert_eq. eauto.
  - assert (forall k t, pool m !! k = Some t -> live t = true -> live new = true -> t_job t <> id) as Hfresh.
    { intros k t Hk Hl Hn Heq. destruct spawn_ok; [|done]. destruct Hnone as [Hno|]; [|done].
      destruct (H5 k t Hk Hl) as [[Ht|Ht] _]; [congruence|rewrite Htj in Ht; by apply not_elem_of_nil in Ht]. }
    intros k1 k2 t1 t2 Hk1 Hk2 Hl1 Hl2 Heq.
    destruct (Hsnoc _ _ Hk1) as [Ho1|[-> ->]], (Hsnoc _ _ Hk2) as [Ho2|[-> ->]]; [by apply (H6 k1 k2 t1 t2)| | |done].
    + by destruct (Hfresh k1 t1 Ho1 Hl1 Hl2).
    + by destruct (Hfresh k2 t2 Ho2 Hl2 Hl1).
  - intros id' i Hi Hs. destruct (decide (id = id')) as [->|Hne].
    + exists tid, new. by split_and!.
    + rewrite lookup_insert_ne in Hi by done. destruct (H7 id' i Hi Hs) as (k&t&Hk&?&?).
      exists k, t. split_and!; [by apply lookup_app_l_Some|done..].
  - by rewrite Hns.
Qed.

Lemma StartJob_inv n m id req ok m' r :
  inv n m -> StartJob m id req ok = Some (m', r) -> terminated m' = false -> inv n m'.
Proof.
  intros Hi Hs Ht. unfold StartJob in Hs. destruct (decide (stopping_ m = NotStopped)) as [Hns|Hns].
  2:{ rewrite bool_decide_eq_false_2 in Hs by done. cbn in Hs. by simplify_eq. }
  rewrite bool_decide_eq_true_2 in Hs by done. cbn [negb] in Hs.
  destruct (cleanup_ok n m Hi) as (m1 & Hc & Hi1 & _ & _ & Hst & _ & _ & Hlive). rewrite Hc in Hs. cbn zeta in Hs.
  destruct (Z.leb_spec (max_jobs_ m1) (current_jobs_ m1)) as [|Hlt]; [by simplify_eq|].
  assert (stopping_ m1 = NotStopped) as Hns1 by congruence.
  destruct ok; cbn [negb] in Hs.
  - destruct (threads_ m1 !! id) eqn:E; [by simplify_eq|simplify_eq].
    apply (inv_started n m1 id req true false Hi1 Hns1 Hlt Hlive). by left.
  - simplify_eq. apply (inv_started n m1 id req false false Hi1 Hns1 Hlt Hlive). by right.
Qed.

Lemma finish_inv n m tid m' : inv n m -> finish tid m = Some m' -> inv n m'.
Proof.
  intros Hinv Hf. unfold finish in Hf.
  destruct (pool m !! tid) as [t|] eqn:Hp; [|done]. cbn in Hf.
  destruct (outcome t) as [o|] eqn:Ho; [|done]. cbn in Hf. simplify_eq.
  assert (live t = true /\ o.1 <> RUNNING) as [Hl Hor].
  { unfold outcome in Ho. unfold live. destruct (t_phase t) as [| |[w|]| |]; simplify_eq; split; try done.
    by destruct (t_stop t). }
  destruct Hinv as [H1 H2 H3 H4 H5 H6 H7 H8].
  pose proof (countb_alter holds_slot (set_phase Finished) _ _ _ Hp) as Hcount.
  rewrite (live_slot t Hl) in Hcount. cbn [holds_slot set_phase t_phase] in Hcount.
  assert (forall k t', alter (set_phase Finished) tid (pool m) !! k = Some t' -> live t' = true ->
    k <> tid /\ pool m !! k = Some t' /\ t_job t' <> t_job t) as Hother.
  { intros k t' Hk Hl'. destruct (decide (k = tid)) as [->|Hne].
    - rewrite list_lookup_alter_eq, Hp in Hk. cbn in Hk. by simplify_eq.
    - rewrite list_lookup_alter_ne in Hk by done. split_and!; [done..|]. intros Heq. by apply Hne, (H6 k tid t' t). }
  assert (holds_slot (set_phase Finished t) = false) as Hfs by done. rewrite Hfs in Hcount.
  assert (0 <= current_jobs_ m - 1 < 2 ^ 64) as Hsz.
  { pose proof (Z.mod_pos_bound n (2 ^ 64)). unfold to_size_t in H1. lia. }
  split; cbn; try done; rewrite ?to_size_t_id by done; try lia.
  - intros id k Hk. destruct (H4 id k Hk) as (t'&i&Hpk&Hj&Hns&Hi&Hiff).
    destruct (decide (id = t_job t)) as [->|Hne].
    + assert (k = tid) as ->.
      { destruct (H5 tid t Hp Hl) as [_ (i'&Hi'&Hrun)]. simplify_eq.
        apply (H6 k tid t' t); try done. by apply Hiff. }
      simplify_eq. exists (set_phase Finished t), (record_outcome o i).
      rewrite list_lookup_alter_eq, Hp, lookup_alter_eq, Hi. split_and!; done.
    + exists t', i. assert (k <> tid) by congruence.
      rewrite list_lookup_alter_ne, lookup_alter_ne by done. done.
  - intros k t' Hk Hl'. destruct (Hother k t' Hk Hl') as (?&Hk'&Hne).
    rewrite lookup_alter_ne by done. by apply H5.
  - intros k1 k2 t1 t2 Hk1 Hk2 Hl1 Hl2. destruct (Hother _ _ Hk1 Hl1) as (_&?&_), (Hother _ _ Hk2 Hl2) as (_&?&_).
    by apply H6.
  - intros id i Hi Hrun. destruct (decide (id = t_job t)) as [->|Hne].
    + rewrite lookup_alter_eq in Hi. destruct (jobs_ m !! t_job t); [|done]. cbn in Hi. by simplify_eq.
    + rewrite lookup_alter_ne in Hi by done. destruct (H7 id i Hi Hrun) as (k&t'&Hk&Hj&Hs).
      exists k, t'. rewrite list_lookup_alter_ne by congruence. done.
Qed.

#[global] Instance same_thread_preorder : PreOrder same_thread.
Proof.
  split; [intros t; by split_and!|]. intros t1 t2 t3 (?&?&?) (?&?&?). split_and!; congruence.
Qed.

Lemma collect_inv n m : inv n m -> stopping_ m = Stopping -> inv n (stop_collect m).
Proof.
  intros Hinv Hst. unfold stop_collect. set (p' := map_fold _ _ _).
  assert (Forall2 same_thread (pool m) p') as Hp.
  { unfold p'. apply (map_fold_weak_ind (fun p _ => Forall2 same_thread (pool m) p)); [done|].
    intros i k mm p _ IH. etrans; [exact IH|]. apply same_alter. intros t _. by split_and!. }
  pose proof (inv_same n m p' ∅ (terminated m) Hinv Hp (fun _ => eq_refl)) as [H1 H2 H3 H4 H5 H6 H7 H8]. cbn in *.
  split; cbn; try done.
  - intros tid t Ht Hl. destruct (H5 tid t Ht Hl) as [[Hk|Hk] Hj]; (split; [right|done]).
    + apply list_elem_of_fmap. exists (t_job t, tid). split; [done|]. by apply elem_of_map_to_list.
    + destruct H8 as [_ H8]. rewrite H8 in Hk by (by rewrite Hst). by apply not_elem_of_nil in Hk.
Qed.

Lemma step_inv n m m' : inv n m -> step m m' -> terminated m' = false -> inv n m'.
Proof.
  intros Hinv Hs Ht. destruct Hs as [m id req ok m' r _ Hs|m id _|m tid t _ Hp Hph|m tid t what _ Hp Hph|m tid m' _ Hs|m _|m _ Hst].
  - by eapply StartJob_inv.
  - unfold CancelJob in *. destruct (stop_flags_ m !! id); [|done]. apply inv_same; [done| |apply Hinv].
    apply same_alter. intros t _. by split_and!.
  - apply inv_same; [done| |apply Hinv]. apply same_alter. intros t' Ht'. simplify_eq.
    unfold same_thread, live, holds_slot; cbn. by rewrite Hph.
  - apply inv_same; [done| |apply Hinv]. apply same_alter. intros t' Ht'. simplify_eq.
    unfold same_thread, live, holds_slot; cbn. by rewrite Hph.
  - by eapply finish_inv.
  - unfold stop_exchange in *. destruct (stopping_ m) eqn:E; [|done..].
    destruct Hinv as [H1 H2 H3 H4 H5 H6 H7 H8]. split; try done. rewrite E in H8. split; [done|]. intros _. by apply H8.
  - by apply collect_inv.
Qed.

Lemma step_source m m' : step m m' -> terminated m = false.
Proof. by destruct 1. Qed.

Lemma reachable_inv n m : reachable n m -> terminated m = false -> inv n m.
Proof.
  intros Hr. refine (rtc_ind_r (fun m => terminated m = false -> inv n m) (configured n) _ _ m Hr).
  - intros _. apply inv_configured.
  - intros m1 m2 _ Hs IH. apply (step_inv n m1 m2); [|done]. apply IH. by eapply step_source.
Qed.

(** ** Executable schedules *)
Inductive op :=
  | OStart (id req : string) (spawn_ok : bool) | OCancel (id : string)
  | OReturn (tid : nat) | OThrow (tid : nat) (what : option string)
  | OFinish (tid : nat) | OStop | OCollect.

Definition exec (o : op) (m : JobManager) : option JobManager :=
  if terminated m then None else
  match o with
  | OStart id req ok => fst <$> StartJob m id req ok
  | OCancel id => Some (CancelJob id m)
  | OReturn tid | OThrow tid _ =>
      t ← pool m !! tid;
      if bool_decide (t_phase t = Working) then
        let p := match o with OThrow _ what => Threw what | _ => Returned end in
        Some (MkJM (jobs_ m) (stop_flags_ m) (threads_ m) (stopping_ m) (max_jobs_ m) (current_jobs_ m)
                (alter (set_phase p) tid (pool m)) (to_join m) false)
      else None
  | OFinish tid => finish tid m
  | OStop => Some (stop_exchange m)
  | OCollect => if bool_decide (stopping_ m = Stopping) then Some (stop_collect m) else None
  end.
Fixpoint schedule (os : list op) (m : JobManager) : option JobManager :=
  match os with [] => Some m | o :: os' => m' ← exec o m; schedule os' m' end.

Lemma exec_step o m m' : exec o m = Some m' -> step m m'.
Proof.
  unfold exec. destruct (terminated m) eqn:Ht; [done|]. destruct o; intros He.
  - destruct (StartJob m id req spawn_ok) as [[m1 r]|] eqn:E; cbn in He; simplify_eq. by eapply step_start.
  - simplify_eq. by apply step_cancel.
  - destruct (pool m !! tid) as [t|] eqn:E; cbn in He; [|done]. case_bool_decide; simplify_eq. by eapply step_return.
  - destruct (pool m !! tid) as [t|] eqn:E; cbn in He; [|done]. case_bool_decide; simplify_eq. by eapply step_throw.
  - by eapply step_finish.
  - simplify_eq. by apply step_stop.
  - case_bool_decide; simplify_eq. by apply step_collect.
Qed.
Lemma schedule_steps os m m' : schedule os m = Some m' -> rtc step m m'.
Proof.
  revert m. induction os as [|o os IH]; intros m Hs; cbn in Hs; [by simplify_eq|].
  destruct (exec o m) as [m1|] eqn:E; cbn in Hs; [|done]. eapply rtc_l; [by eapply exec_step|auto].
Qed.

(** C1: in every reachable state, under any interleaving of requests and job
    threads, the slot counter equals the number of threads that hold a slot and
    never exceeds the configured maximum; a job has at most one live thread and
    reports RUNNING while it has one; if no thread creation ever failed, it
    reports RUNNING only then; and reaping finished threads inside [StartJob]
    never blocks on a join. *)
Theorem slots_match_running_jobs (n : Z) (m : JobManager)
    (Hreach : reachable n m) (Hrun : terminated m = false) :
  current_jobs_ m = Z.of_nat (countb holds_slot (pool m)) /\ current_jobs_ m <= to_size_t n /\
  (forall tid t, pool m !! tid = Some t -> live t = true -> GetStatus (t_job t) m = RUNNING /\
     forall tid' t', pool m !! tid' = Some t' -> live t' = true -> t_job t' = t_job t -> tid' = tid) /\
  (Forall (fun t => t_phase t <> NotSpawned) (pool m) ->
     forall id, GetStatus id m = RUNNING -> exists tid t, pool m !! tid = Some t /\ t_job t = id /\ live t = true) /\
  (forall id req ok, is_Some (StartJob m id req ok)).
Proof.
  pose proof (reachable_inv n m Hreach Hrun) as Hi. pose proof Hi as [H1 H2 H3 H4 H5 H6 H7 H8].
  split_and!; [done|congruence|..].
  - intros tid t Hp Hl. split.
    + destruct (H5 tid t Hp Hl) as [_ (i & Hj & Hs)]. unfold GetStatus. by rewrite Hj.
    + intros tid' t' Hp' Hl' Hj. by apply (H6 tid' tid t' t).
  - intros Hns id Hs. unfold GetStatus in Hs. destruct (jobs_ m !! id) as [i|] eqn:E; [|done].
    destruct (H7 id i E Hs) as (tid & t & Hp & Hj & Hslot). exists tid, t. split_and!; [done..|].
    apply slot_live; [done|]. rewrite Forall_lookup in Hns. by eapply Hns.
  - intros id req ok. unfold StartJob. destruct (negb _); [by eexists|].
    destruct (cleanup_ok n m Hi) as (m1 & -> & _). destruct (_ <=? _); [by eexists|].
    destruct ok; cbn; [|by eexists]. destruct (threads_ m1 !! id); by eexists.
Qed.


(** Starting a job whose id still has a live thread, when a slot is free,
    replaces a joinable [std::thread] and terminates the process; with a free
    slot [StartJob] terminates the process in no other case. *)
Theorem restarting_a_live_job_terminates (n : Z) (m : JobManager) (id req : string)
    (Hreach : reachable n m) (Hrun : terminated m = false)
    (Hactive : stopping_ m = NotStopped) (Hfree : current_jobs_ m < to_size_t n) :
  exists m', StartJob m id req true = Some (m', Ok tt) /\
    (terminated m' = true <-> exists tid t, pool m !! tid = Some t /\ t_job t = id /\ live t = true).
Proof.
  pose proof (reachable_inv n m Hreach Hrun) as Hi.
  unfold StartJob. rewrite bool_decide_eq_true_2 by done. cbn [negb].
  destruct (cleanup_ok n m Hi) as (m1 & Hc & Hi1 & Hp & _ & Hst & _ & Hmax & Hlive). rewrite Hc.
  assert (current_jobs_ m1 = current_jobs_ m) as Hcur by (by rewrite (i_cur _ _ Hi1), (i_cur _ _ Hi), Hp).
  rewrite (proj2 (Z.leb_gt _ _)) by (rewrite (i_max _ _ Hi1); lia). cbn [negb].
  assert (to_join m1 = []) as Htj by (apply (i_stop _ _ Hi1); by rewrite Hst, Hactive).
  destruct (threads_ m1 !! id) as [k|] eqn:E; (eexists; split; [done|]); cbn; (split; [|]); try done.
  - intros _. destruct (Hlive id k E) as (t & Ht & Hj & Hl). exists k, t. by rewrite <- Hp.
  - intros (tid & t & Ht & <- & Hl). rewrite <- Hp in Ht.
    destruct (i_live _ _ Hi1 tid t Ht Hl) as [[Hk|Hk] _]; [congruence|].
    rewrite Htj in Hk. by apply not_elem_of_nil in Hk.
Qed.

(** When [Stop] has returned no job thread is left, and nothing can happen
    any more: every later call leaves the manager unchanged ([StartJob] is
    rejected). *)
Theorem stop_is_final (n : Z) (m m' : JobManager)
    (Hreach : reachable n m) (Hrun : terminated m = false) (Hstopped : stop_returns m = true)
    (Hlater : rtc step m m') :
  Forall (fun t => live t = false) (pool m) /\ m' = m /\
  forall id req ok, StartJob m id req ok = Some (m, runtime_error is_stopping).
Proof.
  pose proof (reachable_inv n m Hreach Hrun) as Hi.
  apply andb_true_iff in Hstopped as [Hc%bool_decide_eq_true Hj%bool_decide_eq_true].
  assert (Forall (fun t => live t = false) (pool m)) as Hdead.
  { apply Forall_lookup. intros tid t Hp. destruct (live t) eqn:Hl; [|done].
    destruct (i_live _ _ Hi tid t Hp Hl) as [[Ht|Ht] _].
    - destruct (i_stop _ _ Hi) as [Hemp _]. destruct (Hemp Hc) as [He _]. by rewrite He, lookup_empty in Ht.
    - rewrite Forall_forall in Hj. specialize (Hj tid Ht). rewrite Hp in Hj. cbn in Hj. injection Hj as Hj.
      unfold live in Hl. by rewrite Hj in Hl. }
  assert (forall id req ok, StartJob m id req ok = Some (m, runtime_error is_stopping)) as Hrej
    by (intros; unfold StartJob; by rewrite Hc).
  split_and!; [done| |done].
  assert (forall m1, step m m1 -> m1 = m) as Hstuck.
  { intros m1 Hs. destruct (i_stop _ _ Hi) as [Hemp _]. destruct (Hemp Hc) as [_ Hfl].
    rewrite Forall_lookup in Hdead.
    destruct Hs as [m id req ok m1 r _ Hs|m id _|m tid t _ Hp Hph|m tid t what _ Hp Hph|m tid m1 _ Hs|m _|m _ Hst].
    - rewrite Hrej in Hs. by simplify_eq.
    - unfold CancelJob. by rewrite Hfl.
    - specialize (Hdead tid t Hp). unfold live in Hdead. by rewrite Hph in Hdead.
    - specialize (Hdead tid t Hp). unfold live in Hdead. by rewrite Hph in Hdead.
    - unfold finish in Hs. destruct (pool m !! tid) as [t|] eqn:Hp; [|done]. cbn in Hs.
      specialize (Hdead tid t Hp). unfold live in Hdead. unfold outcome in Hs. by destruct (t_phase t).
    - unfold stop_exchange. by rewrite Hc.
    - congruence. }
  clear -Hlater Hstuck. induction Hlater as [m|m m1 m2 Hs _ IH]; [done|].
  assert (m1 = m) as -> by by apply Hstuck. by apply IH.
Qed.

(** A schedule: a job completes, a second one fails, a third is cancelled and
    a fourth still runs; the manager allows two at a time. *)
Definition busy_schedule : list op :=
  [OStart "a" "r1" true; OStart "b" "r2" true; OReturn 0; OThrow 1 (Some "boom"); OFinish 0; OFinish 1;
   OStart "c" "r3" true; OCancel "c"; OReturn 2]%string.
Definition busy : JobManager := default jm_init (schedule busy_schedule (configured 2)).

Lemma slots_match_running_jobs_witness :
  reachable 2 busy /\ current_jobs_ busy = 1 /\ current_jobs_ busy <= to_size_t 2 /\
  GetStatus "c" busy = RUNNING /\ GetStatus "a" busy = COMPLETED /\ GetStatus "b" busy = FAILED.
Proof.
  assert (reachable 2 busy) as Hr by (apply (schedule_steps busy_schedule); vm_compute; reflexivity).
  split; [exact Hr|]. split; [vm_compute; reflexivity|].
  split; [apply (slots_match_running_jobs 2 busy Hr); vm_compute; reflexivity|].
  split_and!; vm_compute; reflexivity.
Defined.


Lemma restarting_a_live_job_terminates_witness :
  reachable 2 busy /\ exists m', StartJob busy "c" "r4" true = Some (m', Ok tt) /\ terminated m' = true.
Proof.
  assert (reachable 2 busy) as Hr by (apply (schedule_steps busy_schedule); vm_compute; reflexivity).
  split; [exact Hr|].
  destruct (restarting_a_live_job_terminates 2 busy "c" "r4" Hr) as (m' & Hs & Ht);
    [vm_compute; reflexivity|vm_compute; reflexivity|vm_compute; reflexivity|].
  exists m'. split; [exact Hs|]. apply Ht. exists 2%nat. eexists. split_and!; vm_compute; reflexivity.
Defined.

Definition stopped_schedule : list op := busy_schedule ++ [OStop; OCollect; OFinish 2].
Definition stopped : JobManager := default jm_init (schedule stopped_schedule (configured 2)).

Lemma stop_is_final_witness :
  reachable 2 stopped /\ stop_returns stopped = true /\
  StartJob stopped "d" "r" true = Some (stopped, runtime_error is_stopping).
Proof.
  assert (reachable 2 stopped) as Hr by (apply (schedule_steps stopped_schedule); vm_compute; reflexivity).
  split; [exact Hr|]. split; [vm_compute; reflexivity|].
  apply (stop_is_final 2 stopped stopped Hr); [vm_compute; reflexivity|vm_compute; reflexivity|apply rtc_refl].
Defined.
