(* ===== verification/ModelCache.v ===== *)
(** The model cache: src/src/pca_model_cache.{h,cpp}.

    [GetOrCreate] holds the lock for the lookup and again for the insertion,
    but not while it loads the artifact.  [cache_lookup] and [cache_insert] are
    its two critical sections; [GetOrCreate] is their composition with the load,
    and [cstep] interleaves the sections of concurrent callers. *)
From stdpp Require Import base list strings gmap relations.
From Stdlib Require Import ZArith Lia Floats.
From S2P Require Import Prelude Num Linalg Detectors Alerts Json PcaModel.

Local Open Scope Z_scope.

Section cache.
Context {F : Type} `{Num F} {text : Type} `{!JsonText F text}.

Record CacheEntry := MkEntry {
  ce_model : PcaModel F; last_access : time_point; ce_path : string; memory_usage : Z }.
Record PcaModelCache := MkCache {
  max_entries_ : Z; max_bytes_ : Z; current_bytes_ : Z; ttl_ : Z;
  cache_ : gmap string CacheEntry; hits_ : Z; misses_ : Z; evictions_ : Z }.

Definition new_cache (max_entries max_bytes ttl_seconds : Z) : PcaModelCache :=
  MkCache (to_size_t max_entries) (to_size_t max_bytes) 0 ttl_seconds ∅ 0 0 0.
Definition default_cache : PcaModelCache := new_cache 100 (512 * 1024 * 1024) 3600.

(** [current_bytes_ -= usage; cache_.erase(id)]. *)
Definition erase (id : string) (e : CacheEntry) (c : PcaModelCache) : PcaModelCache :=
  MkCache (max_entries_ c) (max_bytes_ c) (to_size_t (current_bytes_ c - memory_usage e)) (ttl_ c)
    (delete id (cache_ c)) (hits_ c) (misses_ c) (evictions_ c).

(** The scan for the oldest entry, in the map's iteration order. *)
Definition oldest (first : string * CacheEntry) (l : list (string * CacheEntry)) : string * CacheEntry :=
  foldl (fun o kv => if last_access kv.2 <? last_access o.2 then kv else o) first l.
Definition EvictLru (c : PcaModelCache) : PcaModelCache :=
  match map_to_list (cache_ c) with
  | [] => c
  | kv :: l =>
      let '(id, e) := oldest kv (kv :: l) in
      let c := erase id e c in
      MkCache (max_entries_ c) (max_bytes_ c) (current_bytes_ c) (ttl_ c) (cache_ c)
        (hits_ c) (misses_ c) (evictions_ c + 1)
  end.

Definition over_capacity (additional : Z) (c : PcaModelCache) : bool :=
  negb (bool_decide (cache_ c = ∅)) && (max_bytes_ c <? to_size_t (current_bytes_ c + additional)).
(** The eviction loop; every round erases an entry, so the size is fuel enough. *)
Fixpoint ensure_loop (fuel : nat) (additional : Z) (c : PcaModelCache) : PcaModelCache :=
  match fuel with
  | O => c
  | S fuel' => if over_capacity additional c then ensure_loop fuel' additional (EvictLru c) else c
  end.
Definition EnsureCapacity (additional : Z) (c : PcaModelCache) : PcaModelCache :=
  ensure_loop (size (cache_ c)) additional c.

Definition count_hit (id : string) (e : CacheEntry) (now : time_point) (c : PcaModelCache) : PcaModelCache :=
  MkCache (max_entries_ c) (max_bytes_ c) (current_bytes_ c) (ttl_ c)
    (<[id := MkEntry (ce_model e) now (ce_path e) (memory_usage e)]> (cache_ c))
    (hits_ c + 1) (misses_ c) (evictions_ c).
Definition count_miss (c : PcaModelCache) : PcaModelCache :=
  MkCache (max_entries_ c) (max_bytes_ c) (current_bytes_ c) (ttl_ c) (cache_ c)
    (hits_ c) (misses_ c + 1) (evictions_ c).

Definition cache_lookup (now : time_point) (id path : string) (c : PcaModelCache)
    : PcaModelCache * option (PcaModel F) :=
  match cache_ c !! id with
  | Some e =>
      if ticks (ttl_ c) <? now - last_access e then (count_miss (erase id e c), None)
      else if (ce_path e =? path)%string then (count_hit id e now c, Some (ce_model e))
      else (count_miss (erase id e c), None)
  | None => (count_miss c, None)
  end.

Definition cache_insert (now : time_point) (id path : string) (model : PcaModel F) (c : PcaModelCache)
    : PcaModelCache :=
  let usage := EstimateMemoryUsage model in
  if max_bytes_ c <? usage then c
  else
    let c := EnsureCapacity usage c in
    let c := if max_entries_ c <=? Z.of_nat (size (cache_ c)) then EvictLru c else c in
    MkCache (max_entries_ c) (max_bytes_ c) (to_size_t (current_bytes_ c + usage)) (ttl_ c)
      (<[id := MkEntry model now path usage]> (cache_ c)) (hits_ c) (misses_ c) (evictions_ c).

Definition GetOrCreate (files : string -> option text) (now : time_point) (id path : string) (c : PcaModelCache)
    : PcaModelCache * res (PcaModel F) :=
  match cache_lookup now id path c with
  | (c, Some m) => (c, Ok m)
  | (c, None) =>
      match Load new_model path (files path) with
      | (m, Ok _) => (cache_insert now id path m c, Ok m)
      | (_, Throw e) => (c, Throw e)
      end
  end.

Definition Invalidate (id : string) (c : PcaModelCache) : PcaModelCache :=
  match cache_ c !! id with Some e => erase id e c | None => c end.
Definition Clear (c : PcaModelCache) : PcaModelCache :=
  MkCache (max_entries_ c) (max_bytes_ c) 0 (ttl_ c) ∅ (hits_ c) (misses_ c) (evictions_ c).

Record CacheStats := MkStats {
  cs_size : Z; cs_bytes_used : Z; cs_max_bytes : Z; cs_hits : Z; cs_misses : Z; cs_evictions : Z }.
Definition GetStats (c : PcaModelCache) : CacheStats :=
  MkStats (Z.of_nat (size (cache_ c))) (current_bytes_ c) (max_bytes_ c) (hits_ c) (misses_ c) (evictions_ c).

(** ** Accounting *)
Definition bytes (m : gmap string CacheEntry) : Z := map_fold (fun _ e acc => memory_usage e + acc) 0 m.

Lemma bytes_insert m id e : m !! id = None -> bytes (<[id := e]> m) = memory_usage e + bytes m.
Proof. intros Hm. unfold bytes. rewrite map_fold_insert_L; [done|intros; lia|done]. Qed.
Lemma bytes_delete m id e : m !! id = Some e -> bytes m = memory_usage e + bytes (delete id m).
Proof. intros Hm. unfold bytes. rewrite (map_fold_delete_L _ _ id e m); [done|intros; lia|done]. Qed.
Lemma bytes_update m id e e' : m !! id = Some e ->
  bytes (<[id := e']> m) = bytes m - memory_usage e + memory_usage e'.
Proof.
  intros Hm. rewrite <- insert_delete_eq, bytes_insert by apply lookup_delete_eq.
  rewrite (bytes_delete m id e Hm). lia.
Qed.

Definition usages_ok (m : gmap string CacheEntry) : Prop := map_Forall (fun _ e => 0 <= memory_usage e) m.
Lemma bytes_nonneg m : usages_ok m -> 0 <= bytes m.
Proof.
  induction m as [|id e m Hm IH] using map_ind; intros Hok; [done|].
  apply map_Forall_insert in Hok as [He Hok]; [|done]. rewrite bytes_insert by done. specialize (IH Hok). lia.
Qed.
Lemma entry_le_bytes m id e : usages_ok m -> m !! id = Some e -> 0 <= memory_usage e <= bytes m.
Proof.
  intros Hok Hm. rewrite (bytes_delete m id e Hm).
  pose proof (bytes_nonneg (delete id m) (map_Forall_delete _ _ _ Hok)). pose proof (Hok id e Hm). cbn in *. lia.
Qed.

Lemma lookup_weaken_size (m : gmap string CacheEntry) id : (size (delete id m) <= size m)%nat.
Proof. apply map_subseteq_size, delete_subseteq. Qed.

(** The counter is the bytes of the entries plus a [slack] of at most [s]
    bytes that no entry accounts for. *)
Record accounted (s : Z) (c : PcaModelCache) : Prop := {
  ac_usages : usages_ok (cache_ c);
  ac_counter : bytes (cache_ c) <= current_bytes_ c <= bytes (cache_ c) + s;
  ac_bytes : bytes (cache_ c) <= max_bytes_ c;
  ac_size : Z.of_nat (size (cache_ c)) <= Z.max 1 (max_entries_ c) }.
Definition same_limits (c c' : PcaModelCache) : Prop :=
  max_bytes_ c' = max_bytes_ c /\ max_entries_ c' = max_entries_ c /\ ttl_ c' = ttl_ c.

#[local] Instance same_limits_preorder : PreOrder same_limits.
Proof. split; [by intros c|]. intros c1 c2 c3 (?&?&?) (?&?&?). split_and!; congruence. Qed.

Lemma erase_accounted s id e c : accounted s c -> s + max_bytes_ c < 2 ^ 64 -> cache_ c !! id = Some e ->
  accounted s (erase id e c) /\ current_bytes_ (erase id e c) = current_bytes_ c - memory_usage e.
Proof.
  intros [H1 H2 H3 H4] Hs He. pose proof (entry_le_bytes _ _ _ H1 He). pose proof (bytes_delete _ _ _ He).
  assert (current_bytes_ (erase id e c) = current_bytes_ c - memory_usage e) as Hc
    by (cbn; rewrite to_size_t_id; lia).
  split; [|done]. split; rewrite ?Hc; cbn; try lia.
  - by apply map_Forall_delete.
  - pose proof (lookup_weaken_size (cache_ c) id). lia.
Qed.

Lemma oldest_spec kv l : oldest kv l ∈ kv :: l /\
  forall kv', kv' ∈ kv :: l -> last_access (oldest kv l).2 <= last_access kv'.2.
Proof.
  unfold oldest. revert kv. induction l as [|kv1 l IH]; intros kv; cbn [foldl].
  - split; [left|]. intros kv' Hk. apply list_elem_of_singleton in Hk as ->. lia.
  - destruct (Z.ltb_spec (last_access kv1.2) (last_access kv.2)) as [Hlt|Hge].
    + destruct (IH kv1) as [Hin Hle]. split; [by right|]. intros kv' [->|Hk]%elem_of_cons; [|by apply Hle].
      specialize (Hle kv1 (list_elem_of_here _ _)). lia.
    + destruct (IH kv) as [Hin Hle]. split.
      * apply elem_of_cons in Hin as [->|Hin]; [left|by do 2 right].
      * intros kv' [->|[->|Hk]%elem_of_cons]%elem_of_cons; [apply Hle; left| |apply Hle; by right].
        specialize (Hle kv (list_elem_of_here _ _)). lia.
Qed.

(** Eviction removes an entry that was least recently used. *)
Lemma EvictLru_spec c : cache_ c <> ∅ -> exists id e, cache_ c !! id = Some e /\
  (forall id' e', cache_ c !! id' = Some e' -> last_access e <= last_access e') /\
  cache_ (EvictLru c) = delete id (cache_ c) /\
  current_bytes_ (EvictLru c) = current_bytes_ (erase id e c) /\ same_limits c (EvictLru c) /\
  evictions_ (EvictLru c) = evictions_ c + 1.
Proof.
  intros Hne. unfold EvictLru. destruct (map_to_list (cache_ c)) as [|kv l] eqn:E.
  { by apply map_to_list_empty_iff in E. }
  destruct (oldest_spec kv (kv :: l)) as [Hin Hle]. destruct (oldest kv (kv :: l)) as [id e]. cbn in *.
  assert (forall kv', kv' ∈ kv :: kv :: l -> kv' ∈ map_to_list (cache_ c)) as Hin'.
  { intros kv' [->|Hk]%elem_of_cons; rewrite E; [left|done]. }
  exists id, e. split_and!; try done.
  - by apply elem_of_map_to_list, Hin'.
  - intros id' e' He'. apply (Hle (id', e')). right. rewrite <- E. by apply elem_of_map_to_list.
Qed.
Lemma EvictLru_empty c : cache_ c = ∅ -> EvictLru c = c.
Proof. intros He. unfold EvictLru. by rewrite He, map_to_list_empty. Qed.

Lemma EvictLru_accounted s c : accounted s c -> s + max_bytes_ c < 2 ^ 64 ->
  accounted s (EvictLru c) /\ same_limits c (EvictLru c) /\ cache_ (EvictLru c) ⊆ cache_ c /\
  current_bytes_ (EvictLru c) <= current_bytes_ c /\
  (cache_ c <> ∅ -> S (size (cache_ (EvictLru c))) = size (cache_ c)).
Proof.
  intros Ha Hs. destruct (decide (cache_ c = ∅)) as [He|Hne]; [by rewrite EvictLru_empty|].
  destruct (EvictLru_spec c Hne) as (id & e & He & _ & Hcache & Hcur & Hlim & _).
  destruct (erase_accounted s id e c Ha Hs He) as [[A1 A2 A3 A4] Hc].
  destruct Ha as [B1 B2 B3 B4]. pose proof (entry_le_bytes _ _ _ B1 He). destruct Hlim as (L1&L2&L3).
  split_and!.
  - split; rewrite ?Hcache, ?Hcur, ?L1, ?L2; done.
  - done.
  - rewrite Hcache. apply delete_subseteq.
  - lia.
  - intros _. rewrite Hcache. rewrite map_size_delete_Some by done.
    pose proof (map_size_ne_0_lookup_2 (cache_ c) id). rewrite Nat.succ_pred; [done|].
    by apply (map_size_ne_0_lookup_2 (cache_ c) id).
Qed.

Lemma over_capacity_false additional c : over_capacity additional c = false ->
  cache_ c = ∅ \/ to_size_t (current_bytes_ c + additional) <= max_bytes_ c.
Proof.
  unfold over_capacity. destruct (decide (cache_ c = ∅)); [by left|].
  rewrite bool_decide_eq_false_2 by done. cbn. intros ?%Z.ltb_ge. by right.
Qed.

(** The eviction loop ends with room for the new bytes or an empty cache. *)
Lemma ensure_loop_ok s additional fuel c :
  accounted s c -> s + max_bytes_ c < 2 ^ 64 -> (size (cache_ c) <= fuel)%nat ->
  let c' := ensure_loop fuel additional c in
  accounted s c' /\ same_limits c c' /\ cache_ c' ⊆ cache_ c /\ current_bytes_ c' <= current_bytes_ c /\
  over_capacity additional c' = false.
Proof.
  revert c. induction fuel as [|fuel IH]; intros c Ha Hs Hsize; cbn [ensure_loop].
  - assert (cache_ c = ∅) as He by (apply map_size_empty_iff; lia).
    split_and!; try done. unfold over_capacity. by rewrite bool_decide_eq_true_2.
  - destruct (over_capacity additional c) eqn:Eo; [|by split_and!].
    destruct (EvictLru_accounted s c Ha Hs) as (Ha1&Hl1&Hsub&Hcur&Hsz).
    assert (cache_ c <> ∅) as Hne.
    { intros He. unfold over_capacity in Eo. by rewrite bool_decide_eq_true_2 in Eo. }
    specialize (Hsz Hne). destruct (IH (EvictLru c)) as (Ha2&Hl2&Hsub2&Hcur2&Ho); [done| |lia|].
    { destruct Hl1 as (->&_). done. }
    split_and!; [done|by etrans|by etrans|lia|done].
Qed.

Lemma usage_nonneg (model : PcaModel F) : 0 <= EstimateMemoryUsage model.
Proof. unfold EstimateMemoryUsage, sizeof_PcaModel, zlen. lia. Qed.

(** Insertion: the slack grows by the usage of the entry it overwrites, if any. *)
Lemma cache_insert_ok s now id path model c :
  accounted s c -> s + 2 * max_bytes_ c < 2 ^ 64 -> 0 <= s ->
  let c' := cache_insert now id path model c in
  accounted (s + match cache_ c !! id with Some _ => max_bytes_ c | None => 0 end) c' /\ same_limits c c' /\
  (forall id' e, cache_ c' !! id' = Some e -> cache_ c !! id' = Some e \/
     id' = id /\ e = MkEntry model now path (EstimateMemoryUsage model)).
Proof.
  intros Ha Hs Hs0. unfold cache_insert. pose proof (usage_nonneg model) as Hu0.
  set (u := EstimateMemoryUsage model) in *. set (extra := match cache_ c !! id with Some _ => _ | None => _ end).
  pose proof (bytes_nonneg _ (ac_usages _ _ Ha)). pose proof (ac_bytes _ _ Ha).
  assert (0 <= extra) by (unfold extra; case_match; lia).
  destruct (Z.ltb_spec (max_bytes_ c) u) as [|Hu].
  { cbn zeta. split_and!; [|done..|by left]. destruct Ha as [A1 A2 A3 A4]. split; try done. lia. }
  destruct (ensure_loop_ok s u (size (cache_ c)) c) as (Ha1&Hl1&Hsub1&Hcur1&Ho); [done|lia|done|].
  fold (EnsureCapacity u c) in *. set (c1 := EnsureCapacity u c) in *.
  set (c2 := if max_entries_ c1 <=? _ then EvictLru c1 else c1).
  assert (accounted s c2 /\ same_limits c1 c2 /\ cache_ c2 ⊆ cache_ c1 /\
    (cache_ c2 = ∅ \/ current_bytes_ c2 + u <= max_bytes_ c) /\
    Z.of_nat (size (cache_ c2)) + 1 <= Z.max 1 (max_entries_ c)) as (Ha2&Hl2&Hsub2&Hroom&Hsize).
  { destruct Hl1 as (L1&L2&_). apply over_capacity_false in Ho.
    assert (cache_ c1 = ∅ \/ current_bytes_ c1 + u <= max_bytes_ c) as Hroom.
    { destruct Ho as [?|Ho]; [by left|right]. rewrite to_size_t_id in Ho; [lia|].
      pose proof (ac_counter _ _ Ha1). pose proof (ac_bytes _ _ Ha1).
      pose proof (bytes_nonneg _ (ac_usages _ _ Ha1)). lia. }
    unfold c2. destruct (Z.leb_spec (max_entries_ c1) (Z.of_nat (size (cache_ c1)))).
    - destruct (EvictLru_accounted s c1 Ha1) as (Ha2&Hl2&Hsub2&Hcur2&Hsz); [lia|].
      destruct (decide (cache_ c1 = ∅)) as [He|Hne].
      + rewrite EvictLru_empty in * by done. split_and!; [done..|by left|]. rewrite He, map_size_empty. lia.
      + specialize (Hsz Hne). pose proof (ac_size _ _ Ha1). split_and!; try done; [|lia].
        destruct Hroom as [?|?]; [done|right; lia].
    - split_and!; try done. lia. }
  assert (same_limits c c2) as Hl by (by etrans). clearbody c2 c1.
  pose proof Ha2 as [A1 A2 A3 A4]. destruct Hl as (L1&L2&L3). rewrite L1, L2 in *.
  pose proof (bytes_nonneg _ A1).
  assert (0 <= current_bytes_ c2 + u < 2 ^ 64) as Hw by lia.
  assert (current_bytes_ c2 + u <= bytes (cache_ c2) + s + u) by lia.
  assert (bytes (<[id := MkEntry model now path u]> (cache_ c2)) <= bytes (cache_ c2) + u /\
          bytes (cache_ c2) + u <= bytes (<[id := MkEntry model now path u]> (cache_ c2)) + extra) as [Hb1 Hb2].
  { destruct (cache_ c2 !! id) as [e|] eqn:E.
    - rewrite (bytes_update _ _ e) by done. pose proof (entry_le_bytes _ _ _ A1 E). cbn [memory_usage].
      assert (extra = max_bytes_ c) as ->; [|lia]. unfold extra.
      by rewrite (lookup_weaken _ _ _ _ (lookup_weaken _ _ _ _ E Hsub2) Hsub1).
    - rewrite bytes_insert by done. cbn [memory_usage]. lia. }
  cbn zeta. split; [|split].
  - split; cbn; rewrite ?to_size_t_id by done.
    + by apply map_Forall_insert_2.
    + lia.
    + destruct Hroom as [He|]; [|lia].
      rewrite He in *. rewrite bytes_insert in * by apply lookup_empty. cbn in *. unfold bytes in *. rewrite map_fold_empty in *. lia.
    + rewrite map_size_insert. destruct (cache_ c2 !! id); cbn; lia.
  - by split_and!.
  - cbn. intros id' e He. destruct (decide (id = id')) as [->|Hne].
    + rewrite lookup_insert_eq in He. simplify_eq. by right.
    + rewrite lookup_insert_ne in He by done. left.
      by apply (lookup_weaken _ _ _ _ (lookup_weaken _ _ _ _ He Hsub2) Hsub1).
Qed.

Lemma accounted_weaken s s' c : accounted s c -> s <= s' -> accounted s' c.
Proof. intros [H1 H2 H3 H4] ?. split; try done. lia. Qed.

Lemma count_miss_accounted s c : accounted s c -> accounted s (count_miss c).
Proof. intros [H1 H2 H3 H4]. by split. Qed.
Lemma count_hit_accounted s id e now c : accounted s c -> cache_ c !! id = Some e ->
  accounted s (count_hit id e now c).
Proof.
  intros [H1 H2 H3 H4] He. split; cbn; rewrite ?(bytes_update _ _ e) by done; cbn; try lia.
  - apply map_Forall_insert_2; [|done]. by apply (H1 id e).
  - rewrite map_size_insert, He. done.
Qed.

Lemma cache_lookup_ok s now id path c : accounted s c -> s + max_bytes_ c < 2 ^ 64 ->
  let '(c', r) := cache_lookup now id path c in
  accounted s c' /\ same_limits c c' /\
  match r with
  | Some m => exists e, cache_ c !! id = Some e /\ ce_path e = path /\ ce_model e = m /\
                now - last_access e <= ticks (ttl_ c) /\ hits_ c' = hits_ c + 1 /\ misses_ c' = misses_ c
  | None => cache_ c' !! id = None /\ hits_ c' = hits_ c /\ misses_ c' = misses_ c + 1
  end /\
  (forall id' e', cache_ c' !! id' = Some e' -> exists e, cache_ c !! id' = Some e /\
     ce_model e' = ce_model e /\ ce_path e' = ce_path e).
Proof.
  intros Ha Hs. unfold cache_lookup. destruct (cache_ c !! id) as [e|] eqn:E.
  2:{ split_and!; [by apply count_miss_accounted|done..|]. intros id' e' He'. eauto. }
  destruct (erase_accounted s id e c Ha Hs E) as [He _].
  assert (forall id' e', delete id (cache_ c) !! id' = Some e' -> exists e, cache_ c !! id' = Some e /\
     ce_model e' = ce_model e /\ ce_path e' = ce_path e) as Hdel.
  { intros id' e' [_ He']%lookup_delete_Some. eauto. }
  destruct (Z.ltb_spec (ticks (ttl_ c)) (now - last_access e)) as [|Hfresh].
  { split_and!; [by apply count_miss_accounted|done..| |done|done|done]. apply lookup_delete_eq. }
  destruct (String.eqb_spec (ce_path e) path) as [Hp|].
  - split_and!; [by apply count_hit_accounted|done..|by exists e|].
    cbn. intros id' e' [[<- <-]|[_ He']]%lookup_insert_Some; [by exists e|eauto].
  - split_and!; [by apply count_miss_accounted|done..| |done|done|done]. apply lookup_delete_eq.
Qed.

Lemma Invalidate_accounted s id c : accounted s c -> s + max_bytes_ c < 2 ^ 64 -> accounted s (Invalidate id c).
Proof.
  intros Ha Hs. unfold Invalidate. destruct (cache_ c !! id) as [e|] eqn:E; [|done]. by apply erase_accounted.
Qed.
Lemma Clear_accounted s c : 0 <= s -> 0 <= max_bytes_ c -> accounted s (Clear c).
Proof. intros ??. split; cbn; try done; unfold bytes; rewrite ?map_fold_empty, ?map_size_empty; lia. Qed.
Lemma new_cache_accounted me mb ttl : accounted 0 (new_cache me mb ttl).
Proof.
  pose proof (to_size_t_nonneg mb). split; cbn; try done; unfold bytes; rewrite ?map_fold_empty, ?map_size_empty; lia.
Qed.

(** The critical sections that concurrent callers execute, in any order. *)
Inductive section :=
  | SLookup (now : time_point) (id path : string)
  | SInsert (now : time_point) (id path : string) (model : PcaModel F)
  | SInvalidate (id : string) | SClear.
Definition do_section (c : PcaModelCache) (o : section) : PcaModelCache :=
  match o with
  | SLookup now id path => (cache_lookup now id path c).1
  | SInsert now id path model => cache_insert now id path model c
  | SInvalidate id => Invalidate id c
  | SClear => Clear c
  end.

Lemma do_section_ok s c o : accounted s c -> 0 <= s -> s + 2 * max_bytes_ c < 2 ^ 64 ->
  accounted (s + max_bytes_ c) (do_section c o) /\ same_limits c (do_section c o).
Proof.
  intros Ha Hs Hw. pose proof (bytes_nonneg _ (ac_usages _ _ Ha)). pose proof (ac_bytes _ _ Ha).
  destruct o as [now id path|now id path model|id|]; cbn [do_section].
  - pose proof (cache_lookup_ok s now id path c Ha) as Hl. destruct (cache_lookup now id path c) as [c' r].
    destruct Hl as (?&?&_); [lia|]. split; [|done]. by apply (accounted_weaken s); [|lia].
  - destruct (cache_insert_ok s now id path model c Ha Hw Hs) as (Hi&?&_). split; [|done].
    eapply accounted_weaken; [exact Hi|]. case_match; lia.
  - split; [|unfold Invalidate; case_match; done].
    apply (accounted_weaken s); [|lia]. apply Invalidate_accounted; [done|lia].
  - split; [|done]. apply Clear_accounted; lia.
Qed.

Lemma sections_ok os s c : accounted s c -> 0 <= s ->
  s + (zlen os + 2) * max_bytes_ c < 2 ^ 64 ->
  accounted (s + zlen os * max_bytes_ c) (foldl do_section c os) /\ same_limits c (foldl do_section c os).
Proof.
  unfold zlen. revert s c. induction os as [|o os IH]; intros s c Ha Hs Hw; cbn [foldl length].
  - split; [|done]. by apply (accounted_weaken s); [|lia].
  - pose proof (bytes_nonneg _ (ac_usages _ _ Ha)). pose proof (ac_bytes _ _ Ha). cbn [length] in Hw.
    destruct (do_section_ok s c o Ha Hs) as [Ha1 Hl1]; [nia|].
    pose proof Hl1 as (L1&_). destruct (IH (s + max_bytes_ c) (do_section c o) Ha1) as [Ha2 Hl2]; [lia|rewrite L1; lia|].
    split; [|by etrans]. rewrite L1 in Ha2. eapply accounted_weaken; [exact Ha2|]. lia.
Qed.

(** ** Sequential use *)
Context (files : string -> option text).
(** Every cached model is what loading its path gives. *)
Definition coherent (c : PcaModelCache) : Prop :=
  map_Forall (fun _ e => Load new_model (ce_path e) (files (ce_path e)) = (ce_model e, Ok tt)) (cache_ c).
Definition direct_load (path : string) : res (PcaModel F) :=
  match Load new_model path (files path) with (m, Ok _) => Ok m | (_, Throw e) => Throw e end.

Inductive request := RGet (now : time_point) (id path : string) | RInvalidate (id : string) | RClear.
Definition serve (c : PcaModelCache) (r : request) : PcaModelCache :=
  match r with
  | RGet now id path => (GetOrCreate files now id path c).1
  | RInvalidate id => Invalidate id c
  | RClear => Clear c
  end.

Record good (c : PcaModelCache) : Prop := {
  g_acc : accounted 0 c; g_coh : coherent c; g_max : 0 <= max_bytes_ c < 2 ^ 63 }.

Lemma GetOrCreate_ok now id path c : good c ->
  let '(c', r) := GetOrCreate files now id path c in
  good c' /\ same_limits c c' /\ r = direct_load path /\ hits_ c' + misses_ c' = hits_ c + misses_ c + 1.
Proof.
  intros [Ha Hc Hm]. unfold GetOrCreate, direct_load.
  pose proof (cache_lookup_ok 0 now id path c Ha ltac:(lia)) as Hl.
  destruct (cache_lookup now id path c) as [c1 [m|]]; destruct Hl as (Ha1&Hl1&Hr&Hsub).
  - destruct Hr as (e&He&<-&<-&_&->&->). rewrite (Hc id e He).
    split_and!; try done; [|lia]. split; [done| |destruct Hl1 as (->&_); done].
    intros id' e' He'. destruct (Hsub id' e' He') as (e0&He0&->&->). by apply (Hc id').
  - destruct Hr as (Hnone&Hh&Hmi).
    assert (good c1) as Hg1.
    { split; [done| |destruct Hl1 as (->&_); done].
      intros id' e' He'. destruct (Hsub id' e' He') as (e0&He0&->&->). by apply (Hc id'). }
    destruct (Load new_model path (files path)) as [m [[]|e]] eqn:EL; [|split_and!; try done; lia].
    pose proof Hl1 as (L1&_).
    destruct (cache_insert_ok 0 now id path m c1 Ha1) as (Ha2&Hl2&Hin); [lia|lia|].
    rewrite Hnone, Z.add_0_r in Ha2. split_and!.
    + split; [done| |destruct Hl2 as (->&_); lia]. intros id' e' He'.
      destruct (Hin id' e' He') as [Hold|[-> ->]]; [by apply (g_coh _ Hg1 id')|done].
    + by etrans.
    + done.
    + assert (forall c, hits_ (EvictLru c) = hits_ c /\ misses_ (EvictLru c) = misses_ c) as Hev.
      { intros c0. unfold EvictLru. destruct (map_to_list _); [done|]. by destruct (oldest _ _). }
      assert (forall fuel u c, hits_ (ensure_loop fuel u c) = hits_ c /\ misses_ (ensure_loop fuel u c) = misses_ c) as Hen.
      { intros fuel u. induction fuel as [|fuel IH]; intros c0; [done|]. cbn [ensure_loop].
        destruct (over_capacity u c0); [|done]. destruct (IH (EvictLru c0)) as [-> ->]. apply Hev. }
      unfold cache_insert, EnsureCapacity. case_match; [lia|]. cbn.
      set (c2 := ensure_loop _ _ c1). assert (hits_ c2 = hits_ c1 /\ misses_ c2 = misses_ c1) as [Hh2 Hm2] by apply Hen.
      case_match; [destruct (Hev c2) as [-> ->]|]; lia.
Qed.

Lemma serve_good c r : good c -> good (serve c r).
Proof.
  intros Hg. pose proof Hg as [Ha Hc Hm]. destruct r as [now id path|id|]; cbn.
  - pose proof (GetOrCreate_ok now id path c Hg) as Hok. destruct (GetOrCreate _ _ _ _ _). apply Hok.
  - split; [apply Invalidate_accounted; [done|lia]| |unfold Invalidate; case_match; done].
    unfold Invalidate. case_match; [|done]. by apply map_Forall_delete.
  - split; [apply Clear_accounted; lia| |done]. apply map_Forall_empty.
Qed.
Lemma serve_limits c r : good c -> same_limits c (serve c r).
Proof.
  intros Hg. destruct r as [now id path|id|]; cbn; [|unfold Invalidate; by case_match|done].
  pose proof (GetOrCreate_ok now id path c Hg) as Hok. destruct (GetOrCreate _ _ _ _ _). apply Hok.
Qed.
(** What any sequence of requests leaves. *)
Lemma served_good max_entries max_bytes ttl requests : 0 <= max_bytes < 2 ^ 63 ->
  let c := new_cache max_entries max_bytes ttl in
  good (foldl serve c requests) /\ same_limits c (foldl serve c requests).
Proof.
  intros Hmax c. assert (good c) as Hg.
  { split; [apply new_cache_accounted|apply map_Forall_empty|]. cbn. rewrite to_size_t_id; lia. }
  clearbody c. revert c Hg. induction requests as [|r rs IH]; intros c Hg; [done|]. cbn [foldl].
  destruct (IH (serve c r)) as [Hg' Hl]; [by apply serve_good|]. split; [done|].
  etrans; [by apply serve_limits|done].
Qed.
End cache.
Arguments PcaModelCache F : clear implicits.
Arguments request : clear implicits.

(** C7: with fixed artifact files the cache is transparent: after any sequence
    of requests, [GetOrCreate] returns exactly what loading the artifact
    directly returns (a model or the load's exception), whether it hits or
    misses; the byte counter is exactly the total usage of the cached models,
    which stays within [max_bytes], the entries within [max_entries] (at least
    one), and every request is counted as one hit or one miss. *)
Theorem cache_is_transparent {F} `{Num F} {text} `{!JsonText F text} (files : string -> option text)
    (max_entries max_bytes ttl : Z) (requests : list request) (now : time_point) (id path : string)
    (Hmax : 0 <= max_bytes < 2 ^ 63) :
  let c := foldl (serve files) (new_cache max_entries max_bytes ttl) requests in
  let '(c', r) := GetOrCreate files now id path c in
  r = direct_load files path /\
  current_bytes_ c' = bytes (cache_ c') /\ bytes (cache_ c') <= max_bytes /\
  Z.of_nat (size (cache_ c')) <= Z.max 1 (to_size_t max_entries) /\
  hits_ c' + misses_ c' = hits_ c + misses_ c + 1.
Proof.
  destruct (served_good files max_entries max_bytes ttl requests Hmax) as [Hg Hl].
  cbn zeta. pose proof (GetOrCreate_ok files now id path _ Hg) as Hok.
  destruct (GetOrCreate files now id path _) as [c' r]. destruct Hok as ([[_ Hb Hm Hs] _ _]&Hl'&Hr&Hcount).
  destruct Hl as (L1&L2&_), Hl' as (L1'&L2'&_). rewrite L1', L1 in Hm. rewrite L2', L2 in Hs. cbn in Hm, Hs.
  rewrite to_size_t_id in Hm by lia. split_and!; [done|lia|done..].
Qed.

(** Under every interleaving of the critical sections of concurrent
    callers, whichever models they insert, the cached models never use more
    than [max_bytes], there are never more than [max_entries] of them (at
    least one is allowed) and the byte counter never undercounts them, as long
    as the counter cannot wrap. *)
Theorem cache_stays_within_limits {F}
    (max_entries max_bytes ttl : Z) (sections : list (@section F))
    (Hmax : 0 <= max_bytes) (Hwrap : (zlen sections + 2) * max_bytes < 2 ^ 64) :
  let c := foldl do_section (new_cache max_entries max_bytes ttl) sections in
  bytes (cache_ c) <= max_bytes /\ Z.of_nat (size (cache_ c)) <= Z.max 1 (to_size_t max_entries) /\
  bytes (cache_ c) <= current_bytes_ c.
Proof.
  assert (to_size_t max_bytes = max_bytes) as Hid by (apply to_size_t_id; unfold zlen in *; nia).
  destruct (sections_ok sections 0 (new_cache max_entries max_bytes ttl)) as [[_ Hb Hm Hs] (L1&L2&_)];
    [apply new_cache_accounted|lia|cbn; rewrite Hid; lia|].
  rewrite L1 in Hm. rewrite L2 in Hs. cbn in Hm, Hs. rewrite Hid in Hm. cbn zeta. lia.
Qed.

(** Two callers that miss on the same model and then both insert it leave
    its bytes counted twice: after the entry is invalidated the cache is as it
    was, but the counter has grown by the model's usage for good. *)
Theorem concurrent_loads_leak_bytes {F} (c : PcaModelCache F) (id path : string)
    (model : PcaModel F) (now1 now2 : time_point)
    (Hcount : current_bytes_ c = bytes (cache_ c)) (Husages : usages_ok (cache_ c))
    (Habsent : cache_ c !! id = None)
    (Hroom : bytes (cache_ c) + 2 * EstimateMemoryUsage model <= max_bytes_ c < 2 ^ 64)
    (Hentries : Z.of_nat (size (cache_ c)) + 2 <= max_entries_ c) :
  let race := [SLookup now1 id path; SLookup now2 id path;
               SInsert now1 id path model; SInsert now2 id path model; SInvalidate id] in
  let c' := foldl do_section c race in
  cache_ c' = cache_ c /\ current_bytes_ c' = bytes (cache_ c') + EstimateMemoryUsage model.
Proof.
  set (u := EstimateMemoryUsage model) in *. pose proof (usage_nonneg model) as Hu. fold u in Hu.
  pose proof (bytes_nonneg _ Husages) as Hb0.
  assert (forall c1 now, max_bytes_ c1 = max_bytes_ c -> max_entries_ c1 = max_entries_ c ->
    0 <= current_bytes_ c1 -> current_bytes_ c1 + u <= max_bytes_ c ->
    Z.of_nat (size (cache_ c1)) < max_entries_ c ->
    cache_insert now id path model c1 =
      MkCache (max_entries_ c1) (max_bytes_ c1) (current_bytes_ c1 + u) (ttl_ c1)
        (<[id := MkEntry model now path u]> (cache_ c1)) (hits_ c1) (misses_ c1) (evictions_ c1)) as Hins.
  { intros c1 now E1 E2 H0 Hle Hsz. unfold cache_insert. fold u. rewrite (proj2 (Z.ltb_ge _ _)) by lia.
    assert (EnsureCapacity u c1 = c1) as ->.
    { unfold EnsureCapacity. destruct (size (cache_ c1)) eqn:Es; [done|]. cbn [ensure_loop].
      unfold over_capacity. rewrite to_size_t_id by lia. rewrite (proj2 (Z.ltb_ge _ _)) by lia. by rewrite andb_false_r. }
    rewrite (proj2 (Z.leb_gt _ _)) by lia. by rewrite to_size_t_id by lia. }
  cbn [foldl do_section]. unfold cache_lookup. rewrite Habsent. cbn [fst count_miss cache_]. rewrite Habsent. cbn [fst].
  rewrite (Hins (count_miss (count_miss c)) now1) by (cbn; lia || done).
  rewrite Hins; cbn; try done; try lia; [|rewrite map_size_insert, Habsent; cbn; lia].
  unfold Invalidate; cbn. rewrite lookup_insert_eq; cbn.
  rewrite !insert_insert_eq, delete_insert_id by done. split; [done|].
  rewrite to_size_t_id by lia. lia.
Qed.

Definition files_example (path : string) : option (option (json float)) :=
  if (path =? "a.json")%string then Some (Some (artifact_example [0; 0; 0; 0; 0]%float)) else None.
Definition model_example : PcaModel float :=
  (@Load float _ _ (tree_text float) new_model "a.json" (files_example "a.json")).1.

Lemma cache_is_transparent_witness :
  let requests := [RGet 1 "m" "a.json"; RGet 2 "m" "a.json"; RGet 3 "n" "gone.json"] in
  let go := @GetOrCreate float _ _ (tree_text float) files_example in
  let c := foldl (@serve float _ _ (tree_text float) files_example) (new_cache 2 1000 60) requests in
  hits_ c = 1 /\ misses_ c = 2 /\
  (go 4 "m" "a.json" c).2 = @direct_load float _ _ (tree_text float) files_example "a.json".
Proof.
  intros requests go c. split; [vm_compute; reflexivity|]. split; [vm_compute; reflexivity|].
  pose proof (@cache_is_transparent float _ _ (tree_text float) files_example 2 1000 60 requests 4 "m" "a.json"
    ltac:(lia)) as Ht.
  cbv zeta in Ht. unfold go, c. destruct (GetOrCreate _ _ _ _ _) as [c' r]. exact (proj1 Ht).
Defined.

Lemma cache_stays_within_limits_witness :
  let sections := [SLookup 1 "m" "a.json"; SLookup 1 "m" "a.json"; SInsert 1 "m" "a.json" model_example;
                   SInsert 1 "m" "a.json" model_example; SInsert 2 "n" "b.json" model_example] in
  let c := foldl do_section (new_cache 1 1000 60) sections in
  size (cache_ c) = 1%nat /\ bytes (cache_ c) <= 1000.
Proof.
  intros sections c. split; [vm_compute; reflexivity|].
  apply (cache_stays_within_limits 1 1000 60 sections); [lia|vm_compute; reflexivity].
Defined.

Lemma concurrent_loads_leak_bytes_witness :
  let c := @new_cache float 10 10000 60 in
  let race := [SLookup 1 "m" "a.json"; SLookup 2 "m" "a.json";
               SInsert 1 "m" "a.json" model_example; SInsert 2 "m" "a.json" model_example; SInvalidate "m"] in
  cache_ (foldl do_section c race) = ∅ /\ current_bytes_ (foldl do_section c race) = 288.
Proof.
  intros c race.
  destruct (concurrent_loads_leak_bytes c "m" "a.json" model_example 1 2) as [H1 H2];
    [reflexivity|apply map_Forall_empty|reflexivity|vm_compute; split; [discriminate|reflexivity]|vm_compute; discriminate|].
  split; [exact H1|]. rewrite (H2 : current_bytes_ (foldl do_section c race) = _). vm_compute. reflexivity.
Defined.
