(* ===== verification/DbPool.v ===== *)
(** The connection pool: PooledDbConnectionManager of
    src/src/db_connection_manager.{h,cpp}.

    The operations are the critical sections of [GetConnection] and
    [ReleaseConnection].  A client whose wait predicate is false joins
    [waiters] (the condition variable's queue); [notify_one] moves one of them,
    any one, to [woken], from where it re-evaluates the predicate.  The client
    that times out evaluates it once more, as [wait_for] does. *)
From stdpp Require Import base list strings relations.
From Stdlib Require Import ZArith Lia.
From S2P Require Import Prelude.

Local Open Scope Z_scope.

(** Connections and clients are numbered. *)
Record Pool := MkPool {
  pool_size_ : Z;
  pool_ : list nat;        (** the queue of idle connections *)
  in_use_count_ : Z;
  total_acquires_ : Z;
  total_timeouts_ : Z;
  shutdown_ : bool;
  handed_out : list nat;   (** the connections clients hold *)
  next_conn : nat;
  waiters : list nat;
  woken : list nat }.

Definition new_pool (size : Z) : Pool := MkPool (to_size_t size) [] 0 0 0 false [] 0 [] [].

(** The predicate of [cv_.wait_for]. *)
Definition may_proceed (p : Pool) : bool :=
  negb (bool_decide (pool_ p = [])) || (in_use_count_ p <? pool_size_ p) || shutdown_ p.

Definition with_waiters (ws wk : list nat) (p : Pool) : Pool :=
  MkPool (pool_size_ p) (pool_ p) (in_use_count_ p) (total_acquires_ p) (total_timeouts_ p) (shutdown_ p)
    (handed_out p) (next_conn p) ws wk.
(** [notify_one]: [pick] is the scheduler's choice among the waiters. *)
Definition notify_one (pick : nat) (p : Pool) : Pool :=
  match waiters p !! (pick mod length (waiters p))%nat with
  | Some c => with_waiters (delete (pick mod length (waiters p))%nat (waiters p)) (woken p ++ [c]) p
  | None => p
  end.

Definition timeout_error {A} : res A := runtime_error "DB connection acquisition timeout".
Definition shutting_down {A} : res A := runtime_error "DB Connection Manager is shutting down".

(** The part of [GetConnection] after the wait; [created] is the outcome of
    opening a connection, if one has to be opened. *)
Definition acquire (created : res unit) (pick : nat) (p : Pool) : Pool * res nat :=
  if shutdown_ p then (p, shutting_down) else
  let take idle conn next :=
    (MkPool (pool_size_ p) idle (to_size_t (in_use_count_ p + 1)) (total_acquires_ p + 1) (total_timeouts_ p)
       (shutdown_ p) (conn :: handed_out p) next (waiters p) (woken p), Ok conn) in
  match pool_ p with
  | conn :: idle => take idle conn (next_conn p)
  | [] => match created with
          | Ok _ => take [] (next_conn p) (S (next_conn p))
          | Throw e => (notify_one pick p, Throw e)
          end
  end.

(** [None]: the client goes to sleep on the condition variable. *)
Definition GetConnection (client : nat) (created : res unit) (pick : nat) (p : Pool) : Pool * option (res nat) :=
  if may_proceed p then let '(p, r) := acquire created pick p in (p, Some r)
  else (with_waiters (waiters p ++ [client]) (woken p) p, None).

(** A sleeping client whose time is over. *)
Definition wait_timeout (created : res unit) (pick : nat) (p : Pool) : Pool * res nat :=
  if may_proceed p then acquire created pick p
  else (MkPool (pool_size_ p) (pool_ p) (in_use_count_ p) (total_acquires_ p) (total_timeouts_ p + 1)
          (shutdown_ p) (handed_out p) (next_conn p) (waiters p) (woken p), timeout_error).

(** The deleter of the returned pointer; a broken connection is not kept. *)
Definition ReleaseConnection (conn : nat) (is_open : bool) (pick : nat) (p : Pool) : Pool :=
  let back idle :=
    MkPool (pool_size_ p) idle (to_size_t (in_use_count_ p - 1)) (total_acquires_ p) (total_timeouts_ p)
      (shutdown_ p) (list_difference (handed_out p) [conn]) (next_conn p) (waiters p) (woken p) in
  if shutdown_ p || negb is_open then back (pool_ p)
  else notify_one pick (back (pool_ p ++ [conn])).

Definition shutdown (p : Pool) : Pool :=
  MkPool (pool_size_ p) [] (in_use_count_ p) (total_acquires_ p) (total_timeouts_ p) true
    (handed_out p) (next_conn p) (waiters p) (woken p).

Record PoolStats := MkPoolStats {
  st_size : Z; st_in_use : Z; st_available : Z; st_acquires : Z; st_timeouts : Z }.
Definition GetStats (p : Pool) : PoolStats :=
  MkPoolStats (pool_size_ p) (in_use_count_ p) (zlen (pool_ p)) (total_acquires_ p) (total_timeouts_ p).

(** ** Interleavings *)
Inductive pool_op :=
  | PRequest (client : nat) (created : res unit) (pick : nat)
  | PWake (i : nat) (created : res unit) (pick : nat)      (** the [i]-th woken client runs *)
  | PSpurious (i : nat)                                    (** the [i]-th waiter wakes by itself *)
  | PTimeout (i : nat) (created : res unit) (pick : nat)   (** the [i]-th waiter times out *)
  | PRelease (conn : nat) (is_open : bool) (pick : nat).

Definition pool_exec (o : pool_op) (p : Pool) : option Pool :=
  match o with
  | PRequest client created pick => Some (GetConnection client created pick p).1
  | PWake i created pick =>
      client ← woken p !! i;
      Some (GetConnection client created pick (with_waiters (waiters p) (delete i (woken p)) p)).1
  | PSpurious i =>
      client ← waiters p !! i;
      Some (with_waiters (delete i (waiters p)) (woken p ++ [client]) p)
  | PTimeout i created pick =>
      _ ← waiters p !! i;
      Some (wait_timeout created pick (with_waiters (delete i (waiters p)) (woken p) p)).1
  | PRelease conn is_open pick =>
      if decide (conn ∈ handed_out p) then Some (ReleaseConnection conn is_open pick p) else None
  end.
Fixpoint pool_run (os : list pool_op) (p : Pool) : option Pool :=
  match os with [] => Some p | o :: os' => p' ← pool_exec o p; pool_run os' p' end.

(** ** The bound on open connections *)
Record pool_inv (n : Z) (p : Pool) : Prop := {
  pi_size : pool_size_ p = to_size_t n;
  pi_count : in_use_count_ p = zlen (handed_out p);
  pi_bound : zlen (handed_out p) + zlen (pool_ p) <= pool_size_ p;
  pi_nodup : NoDup (handed_out p ++ pool_ p);
  pi_fresh : Forall (fun c => (c < next_conn p)%nat) (handed_out p ++ pool_ p);
  pi_running : shutdown_ p = false }.

Lemma notify_one_empty pick p : waiters p = [] -> notify_one pick p = p.
Proof. intros He. unfold notify_one. by rewrite He. Qed.
Lemma notify_one_wakes pick p : waiters p <> [] -> exists ws c,
  notify_one pick p = with_waiters ws (woken p ++ [c]) p /\ waiters p ≡ₚ c :: ws.
Proof.
  intros Hne. unfold notify_one. set (i := (pick mod length (waiters p))%nat).
  assert (i < length (waiters p))%nat as Hi.
  { apply Nat.mod_upper_bound. by destruct (waiters p). }
  destruct (lookup_lt_is_Some_2 _ _ Hi) as [c Hc]. rewrite Hc. exists (delete i (waiters p)), c.
  split; [done|]. by apply delete_Permutation.
Qed.

Lemma pool_inv_waiters n p ws wk : pool_inv n p -> pool_inv n (with_waiters ws wk p).
Proof. intros [H1 H2 H3 H4 H5 H6]. by split. Qed.
Lemma pool_inv_notify n p pick : pool_inv n p -> pool_inv n (notify_one pick p).
Proof.
  intros Hi. destruct (decide (waiters p = [])) as [He|Hne]; [by rewrite notify_one_empty|].
  destruct (notify_one_wakes pick p Hne) as (ws & c & -> & _). by apply pool_inv_waiters.
Qed.

Lemma pool_inv_acquire n p created pick : pool_inv n p -> may_proceed p = true ->
  pool_inv n (acquire created pick p).1.
Proof.
  intros Hi Hp. pose proof Hi as [H1 H2 H3 H4 H5 H6]. unfold may_proceed in Hp. unfold acquire. rewrite H6 in *.
  pose proof (Z.mod_pos_bound n (2 ^ 64) ltac:(lia)) as Hn. fold (to_size_t n) in Hn.
  destruct (pool_ p) as [|conn idle] eqn:E; [|].
  - cbn in Hp. rewrite orb_false_r in Hp. apply Z.ltb_lt in Hp.
    destruct created; cbn [fst]; [|by apply pool_inv_notify].
    split; cbn; try done; unfold zlen in *; cbn in *.
    + rewrite to_size_t_id by lia. lia.
    + lia.
    + rewrite app_nil_r in *. constructor; [|done]. intros Hin. rewrite Forall_forall in H5.
      specialize (H5 _ Hin). lia.
    + rewrite app_nil_r in *. constructor; [lia|]. eapply Forall_impl; [exact H5|]. cbn. lia.
  - assert (handed_out p ++ conn :: idle ≡ₚ (conn :: handed_out p) ++ idle) as Hperm
      by (symmetry; apply Permutation_middle).
    split; cbn [fst acquire]; cbn; try done; unfold zlen in *; cbn in *.
    + rewrite to_size_t_id by lia. lia.
    + lia.
    + by rewrite Hperm in H4.
    + by rewrite Hperm in H5.
Qed.

Lemma length_list_difference_singleton (l : list nat) x : NoDup l -> x ∈ l ->
  x :: list_difference l [x] ≡ₚ l.
Proof.
  intros Hnd Hx. apply NoDup_Permutation; [|done|].
  - constructor; [|by apply NoDup_list_difference].
    rewrite list_elem_of_difference, list_elem_of_singleton. by intros [_ []].
  - intros y. rewrite elem_of_cons, list_elem_of_difference, list_elem_of_singleton.
    destruct (decide (y = x)) as [->|]; [by split; [|left]|]. split; [intros [|[? _]]; done|by right].
Qed.

Lemma pool_inv_release n p conn is_open pick : pool_inv n p -> conn ∈ handed_out p ->
  pool_inv n (ReleaseConnection conn is_open pick p).
Proof.
  intros Hi Hc. pose proof Hi as [H1 H2 H3 H4 H5 H6]. unfold ReleaseConnection. rewrite H6. cbn [orb].
  pose proof (Z.mod_pos_bound n (2 ^ 64) ltac:(lia)) as Hn. fold (to_size_t n) in Hn.
  assert (NoDup (handed_out p)) as Hnd by (by apply NoDup_app in H4 as (?&_)).
  pose proof (length_list_difference_singleton _ _ Hnd Hc) as Hperm.
  set (rest := list_difference (handed_out p) [conn]) in *.
  assert (zlen (handed_out p) = zlen rest + 1) as Hlen by (unfold zlen; rewrite <- Hperm; cbn; lia).
  assert (rest ++ pool_ p ++ [conn] ≡ₚ conn :: rest ++ pool_ p) as Hback
    by (rewrite app_assoc; symmetry; apply Permutation_cons_append).
  assert (0 <= zlen rest) by (unfold zlen; lia).
  assert (to_size_t (in_use_count_ p - 1) = zlen rest) as Hcnt
    by (rewrite to_size_t_id; unfold zlen in *; lia).
  destruct is_open; cbn [negb]; [apply pool_inv_notify|]; (split; cbn; rewrite ?Hcnt; try done; unfold zlen in *).
  - rewrite length_app; cbn; lia.
  - rewrite <- Hperm in H4. cbn in H4. by rewrite Hback.
  - rewrite <- Hperm in H5. cbn in H5. by rewrite Hback.
  - lia.
  - rewrite <- Hperm in H4. cbn in H4. by apply NoDup_cons in H4 as [_ H4].
  - rewrite <- Hperm in H5. cbn in H5. by apply Forall_cons in H5 as [_ H5].
Qed.

Lemma pool_inv_exec n o p p' : pool_inv n p -> pool_exec o p = Some p' -> pool_inv n p'.
Proof.
  intros Hi He. assert (forall client created pick p, pool_inv n p -> pool_inv n (GetConnection client created pick p).1) as Hget.
  { intros client created pick q Hq. unfold GetConnection. destruct (may_proceed q) eqn:E; [|by apply pool_inv_waiters].
    pose proof (pool_inv_acquire n q created pick Hq E). by destruct (acquire created pick q). }
  destruct o as [client created pick|i created pick|i|i created pick|conn is_open pick]; cbn in He.
  - simplify_eq. by apply Hget.
  - destruct (woken p !! i); cbn in He; simplify_eq. by apply Hget, pool_inv_waiters.
  - destruct (waiters p !! i); cbn in He; simplify_eq. by apply pool_inv_waiters.
  - destruct (waiters p !! i); cbn in He; simplify_eq. unfold wait_timeout.
    pose proof (pool_inv_waiters n p (delete i (waiters p)) (woken p) Hi) as Hq.
    destruct (may_proceed _) eqn:E; [by apply pool_inv_acquire|]. destruct Hq as [H1 H2 H3 H4 H5 H6]. by split.
  - case_decide; simplify_eq. by apply pool_inv_release.
Qed.

Lemma pool_run_inv n os p p' : pool_inv n p -> pool_run os p = Some p' -> pool_inv n p'.
Proof.
  revert p. induction os as [|o os IH]; intros p Hi Hr; cbn in Hr; [by simplify_eq|].
  destruct (pool_exec o p) as [p1|] eqn:E; cbn in Hr; [|done]. by eapply IH, Hr; eapply pool_inv_exec.
Qed.
Lemma new_pool_inv n : pool_inv n (new_pool n).
Proof. split; cbn; try done; [|constructor]. apply to_size_t_nonneg. Qed.

(** C8: under every interleaving of requests, wake-ups, timeouts, failed
    connection attempts and releases, no connection is ever given to two
    clients or kept idle while a client holds it, the in-use counter is the
    number of connections handed out, and idle and used connections together
    never exceed the pool size. *)
Theorem pool_bounds_connections (size : Z) (os : list pool_op) (p : Pool)
    (Hrun : pool_run os (new_pool size) = Some p) :
  NoDup (handed_out p ++ pool_ p) /\ in_use_count_ p = zlen (handed_out p) /\
  in_use_count_ p + zlen (pool_ p) <= to_size_t size /\
  (st_in_use (GetStats p) + st_available (GetStats p) <= st_size (GetStats p)).
Proof.
  destruct (pool_run_inv size os _ p (new_pool_inv size) Hrun) as [H1 H2 H3 H4 H5 H6].
  unfold GetStats; cbn. split_and!; [done|done|lia|lia].
Qed.

(** ** Wake-ups *)
Definition free_slots (p : Pool) : Z := pool_size_ p - in_use_count_ p.
(** Every free slot is on offer, up to [k]: as long as clients wait, there are
    as many woken clients as free slots. *)
Definition offered_by (k : Z) (p : Pool) : Prop := waiters p <> [] -> free_slots p <= zlen (woken p) + k.
Definition offered : Pool -> Prop := offered_by 0.

(** The releases of a run all give back working connections. *)
Definition healthy (o : pool_op) : Prop := match o with PRelease _ is_open _ => is_open = true | _ => True end.

Lemma offered_by_notify k p pick : offered_by (k + 1) p -> offered_by k (notify_one pick p).
Proof.
  intros Ho. destruct (decide (waiters p = [])) as [He|Hne].
  { rewrite notify_one_empty by done. by intros Hw. }
  destruct (notify_one_wakes pick p Hne) as (ws & c & -> & _). specialize (Ho Hne).
  unfold offered_by, free_slots, zlen in *; cbn. intros _. rewrite length_app. cbn. lia.
Qed.

Lemma offered_acquire n p created pick : pool_inv n p -> may_proceed p = true ->
  offered_by 1 p -> offered (acquire created pick p).1.
Proof.
  intros Hi Hp Ho. pose proof (pool_inv_acquire n p created pick Hi Hp) as Hi'.
  pose proof (pi_running _ _ Hi) as Hrun. unfold acquire in *. rewrite Hrun in *.
  destruct (pool_ p); [destruct created|]; cbn [fst] in *.
  2: by apply offered_by_notify.
  all: pose proof (pi_count _ _ Hi') as Hc; pose proof (pi_count _ _ Hi) as Hc0;
    unfold offered, offered_by, free_slots, zlen in *; cbn in *; intros Hw; specialize (Ho Hw); lia.
Qed.

Lemma stuck_free p : may_proceed p = false -> free_slots p <= 0.
Proof.
  unfold may_proceed, free_slots. intros [[_ Hc]%orb_false_iff _]%orb_false_iff. apply Z.ltb_ge in Hc. lia.
Qed.

Lemma offered_get n p client created pick : pool_inv n p -> offered_by 1 p ->
  offered (GetConnection client created pick p).1.
Proof.
  intros Hi Ho. unfold GetConnection. destruct (may_proceed p) eqn:E.
  - pose proof (offered_acquire n p created pick Hi E Ho) as Ha. destruct (acquire created pick p). exact Ha.
  - intros _. apply stuck_free in E. unfold free_slots, zlen in *; cbn in *. lia.
Qed.

Lemma offered_weaken k k' p : offered_by k p -> k <= k' -> offered_by k' p.
Proof. intros Ho ? Hw. specialize (Ho Hw). lia. Qed.

Lemma offered_exec n o p p' : pool_inv n p -> healthy o -> offered p -> pool_exec o p = Some p' -> offered p'.
Proof.
  intros Hi Hh Ho He. destruct o as [client created pick|i created pick|i|i created pick|conn is_open pick]; cbn in He.
  - simplify_eq. apply (offered_get n); [done|]. by apply (offered_weaken 0); [|lia].
  - destruct (woken p !! i) eqn:E; cbn in He; simplify_eq. apply (offered_get n); [by apply pool_inv_waiters|].
    intros Hw. specialize (Ho Hw). unfold free_slots, zlen in *; cbn in *.
    rewrite length_delete by (by eexists). lia.
  - destruct (waiters p !! i) eqn:E; cbn in He; simplify_eq. intros _.
    assert (waiters p <> []) as Hne by (intros Hn; by rewrite Hn in E). specialize (Ho Hne).
    unfold free_slots, zlen in *; cbn in *. rewrite length_app; cbn. lia.
  - destruct (waiters p !! i) eqn:E; cbn in He; simplify_eq. unfold wait_timeout.
    assert (waiters p <> []) as Hne by (intros Hn; by rewrite Hn in E). specialize (Ho Hne).
    pose proof (pool_inv_waiters n p (delete i (waiters p)) (woken p) Hi) as Hq.
    destruct (may_proceed _) eqn:Em.
    + apply (offered_acquire n); [done|done|]. intros _. unfold free_slots, zlen in *; cbn in *. lia.
    + intros _. unfold free_slots, zlen in *; cbn in *. lia.
  - case_decide as Hc; simplify_eq. cbn in Hh. subst is_open.
    unfold ReleaseConnection. rewrite (pi_running _ _ Hi). cbn [orb negb]. apply offered_by_notify.
    pose proof (pool_inv_release n p conn true pick Hi Hc) as Hi'.
    intros Hw; cbn in Hw. specialize (Ho Hw). unfold free_slots, zlen in *; cbn.
    assert (0 < in_use_count_ p < 2 ^ 64) as Hpos.
    { pose proof (pi_count _ _ Hi). pose proof (pi_bound _ _ Hi). pose proof (pi_size _ _ Hi).
      pose proof (Z.mod_pos_bound n (2 ^ 64) ltac:(lia)). unfold to_size_t, zlen in *.
      destruct (handed_out p); [by apply not_elem_of_nil in Hc|]. cbn in *. lia. }
    rewrite to_size_t_id by lia. lia.
Qed.

(** As long as clients give back working connections, no wake-up is lost:
    while clients wait, every free slot has a woken client on its way to take
    it.  But dropping a broken connection wakes nobody: with clients waiting
    and none woken, it leaves a free slot and all of them asleep until their
    timeouts. *)
Theorem wakeups_follow_healthy_releases (size : Z) (os : list pool_op) (p : Pool)
    (Hrun : pool_run os (new_pool size) = Some p) :
  (Forall healthy os -> offered p) /\
  (forall conn pick, conn ∈ handed_out p -> waiters p <> [] -> woken p = [] ->
     let p' := ReleaseConnection conn false pick p in
     waiters p' = waiters p /\ woken p' = [] /\ 0 < free_slots p' /\ ~ offered p').
Proof.
  pose proof (pool_run_inv size os _ p (new_pool_inv size) Hrun) as Hi. split.
  - clear Hi. assert (offered (new_pool size)) as Ho by by intros ?.
    pose proof (new_pool_inv size) as Hi. revert Hrun Ho Hi. generalize (new_pool size) as q.
    induction os as [|o os IH]; intros q Hr Ho Hi Hh; cbn in Hr; [by simplify_eq|].
    destruct (pool_exec o q) as [q1|] eqn:E; cbn in Hr; [|done]. apply Forall_cons in Hh as [Hh1 Hh2].
    apply (IH q1 Hr); [by eapply offered_exec|by eapply pool_inv_exec|done].
  - intros conn pick Hc Hw Hk p'. pose proof (pool_inv_release size p conn false pick Hi Hc) as Hi'. fold p' in Hi'.
    assert (waiters p' = waiters p /\ woken p' = []) as [Hw' Hk'].
    { unfold p', ReleaseConnection. rewrite (pi_running _ _ Hi). by cbn. }
    assert (0 < free_slots p') as Hf.
    { assert (in_use_count_ p' = in_use_count_ p - 1 /\ pool_size_ p' = pool_size_ p) as [E1 E2].
      { unfold p', ReleaseConnection. rewrite (pi_running _ _ Hi). cbn. split; [|done]. apply to_size_t_id.
        pose proof (pi_count _ _ Hi). pose proof (pi_bound _ _ Hi). pose proof (pi_size _ _ Hi).
        pose proof (Z.mod_pos_bound size (2 ^ 64) ltac:(lia)). unfold to_size_t, zlen in *.
        destruct (handed_out p); [by apply not_elem_of_nil in Hc|]. cbn in *. lia. }
      unfold free_slots. rewrite E1, E2. pose proof (pi_bound _ _ Hi). rewrite (pi_count _ _ Hi). unfold zlen in *. lia. }
    split_and!; [done..|]. intros Ho. unfold offered, offered_by in Ho. rewrite Hw', Hk' in Ho.
    specialize (Ho Hw). unfold zlen in Ho; cbn in Ho. lia.
Qed.

Definition pool_example : list pool_op :=
  [PRequest 1 (Ok tt) 0; PRequest 2 (Ok tt) 0; PRequest 3 (Ok tt) 0; PRequest 4 (Ok tt) 0; PRelease 0 true 1; PWake 0 (Ok tt) 0].
Definition pool_after : Pool := default (new_pool 2) (pool_run pool_example (new_pool 2)).

Lemma pool_bounds_connections_witness :
  pool_run pool_example (new_pool 2) = Some pool_after /\
  handed_out pool_after = [0; 1]%nat /\ in_use_count_ pool_after + zlen (pool_ pool_after) <= to_size_t 2.
Proof.
  assert (pool_run pool_example (new_pool 2) = Some pool_after) as Hr by (vm_compute; reflexivity).
  split; [exact Hr|]. split; [vm_compute; reflexivity|].
  apply (pool_bounds_connections 2 pool_example pool_after Hr).
Defined.

Lemma wakeups_follow_healthy_releases_witness :
  pool_run pool_example (new_pool 2) = Some pool_after /\ waiters pool_after = [3]%nat /\
  offered pool_after /\ ~ offered (ReleaseConnection 0 false 0 pool_after).
Proof.
  assert (pool_run pool_example (new_pool 2) = Some pool_after) as Hr by (vm_compute; reflexivity).
  split; [exact Hr|]. split; [vm_compute; reflexivity|].
  destruct (wakeups_follow_healthy_releases 2 pool_example pool_after Hr) as [Hh Hb].
  split; [apply Hh; by repeat constructor|].
  apply (Hb 0%nat 0%nat); [left|vm_compute; discriminate|vm_compute; reflexivity].
Defined.
