(* ===== verification/Generator.v ===== *)
(** Synthetic telemetry: src/src/generator.{h,cpp}.

    The record model threads the random engine and the hosts' state through
    [InitializeHosts] and [GenerateRecord].  [run_actions] is what the [Run]
    thread does (database calls and enqueued batches, in order); the bounded
    queue between it and the writer thread is [gen_event] and [queue_exec]. *)
From stdpp Require Import base list strings pretty.
From Stdlib Require Import ZArith Lia Floats Ascii.
From S2P Require Import Prelude Strconv Num Random Linalg Detectors.

Local Open Scope Z_scope.

(** ** ParseTime

    [std::get_time] with "%Y-%m-%dT%H:%M:%SZ": each field reads up to its
    number of digits and must lie in its range; the first mismatch stops the
    parse and leaves the remaining fields at 0. *)
Record tm := MkTm { tm_year : Z; tm_mon : Z; tm_mday : Z; tm_hour : Z; tm_min : Z; tm_sec : Z }.
Definition tm_zero : tm := MkTm 0 0 0 0 0 0.

Fixpoint read_field (digits : nat) (acc : option Z) (s : string) : option (Z * string) :=
  match digits, s with
  | S digits', String c s' =>
      if is_digit c then read_field digits' (Some (default 0 acc * 10 + digit_val c)) s'
      else (fun v => (v, s)) <$> acc
  | _, _ => (fun v => (v, s)) <$> acc
  end.
Definition field_in (digits : nat) (lo hi : Z) (s : string) : option (Z * string) :=
  '(v, s) ← read_field digits None s; if (lo <=? v) && (v <=? hi) then Some (v, s) else None.
Definition expect (c : Ascii.ascii) (s : string) : option string :=
  match s with String c' s' => if Ascii.eqb c c' then Some s' else None | EmptyString => None end.

Definition get_time (s : string) : tm :=
  match field_in 4 0 9999 s with
  | None => tm_zero
  | Some (y, s) => let t := MkTm (y - 1900) 0 0 0 0 0 in
  match (s ← expect "-"%char s; field_in 2 1 12 s) with
  | None => t
  | Some (mo, s) => let t := MkTm (y - 1900) (mo - 1) 0 0 0 0 in
  match (s ← expect "-"%char s; field_in 2 1 31 s) with
  | None => t
  | Some (d, s) => let t := MkTm (y - 1900) (mo - 1) d 0 0 0 in
  match (s ← expect "T"%char s; field_in 2 0 23 s) with
  | None => t
  | Some (h, s) => let t := MkTm (y - 1900) (mo - 1) d h 0 0 in
  match (s ← expect ":"%char s; field_in 2 0 59 s) with
  | None => t
  | Some (mi, s) => let t := MkTm (y - 1900) (mo - 1) d h mi 0 in
  match (s ← expect ":"%char s; field_in 2 0 60 s) with
  | None => t
  | Some (sec, s) => MkTm (y - 1900) (mo - 1) d h mi sec
  end end end end end end.

(** [timegm]: seconds since the epoch in the proleptic Gregorian calendar. *)
Definition days_from_civil (y m d : Z) : Z :=
  let y := if m <=? 2 then y - 1 else y in
  let era := y / 400 in
  let yoe := y - era * 400 in
  let doy := (153 * (m + (if 2 <? m then -3 else 9)) + 2) / 5 + d - 1 in
  era * 146097 + (yoe * 365 + yoe / 4 - yoe / 100 + doy) - 719468.
Definition timegm (t : tm) : Z :=
  days_from_civil (tm_year t + 1900) (tm_mon t + 1) (tm_mday t) * 86400
  + tm_hour t * 3600 + tm_min t * 60 + tm_sec t.
Definition ParseTime (iso : string) : time_point := timegm (get_time (skip_ws iso)) * 1000000000.

Example ParseTime_epoch : ParseTime "1970-01-01T00:00:10Z" = 10 * 1000000000. Proof. reflexivity. Qed.
Example ParseTime_2024 : ParseTime "2024-03-01T12:30:00Z" = 1709296200 * 1000000000. Proof. reflexivity. Qed.

(** ** The request (src/proto/telemetry.proto) *)
Section generator.
Context {F : Type} `{Num F} `{!Libm F} {G : Type} `{!Rng G} `{!RealRng F G}.

Record AnomalyConfig := MkAnomaly {
  point_rate : F; contextual_rate : F; collective_rate : F; correlation_break_rate : F;
  burst_duration_points : Z }.
Record GenerateRequest := MkRequest {
  tier : string; host_count : Z; start_time_iso : string; end_time_iso : string; interval_seconds : Z;
  regions : list string; anomaly_config : option AnomalyConfig; fixed_lag_ms : Z; rq_seed : Z; rq_request_id : string }.

(** ** Hosts *)
Definition default_regions : list string := ["us-east1"; "us-west1"; "eu-west1"]%string.
Definition region_list (rq : GenerateRequest) : list string :=
  match regions rq with [] => default_regions | l => l end.
Definition host_name (t : string) (i : nat) : string := "host-" +:+ t +:+ "-" +:+ pretty (N.of_nat i).
Definition labels (t : string) : string :=
  String "{" (String (Ascii.ascii_of_nat 34) ("service" +:+ String (Ascii.ascii_of_nat 34) (": " +:+
    String (Ascii.ascii_of_nat 34) ("backend" +:+ String (Ascii.ascii_of_nat 34) (", " +:+
    String (Ascii.ascii_of_nat 34) ("tier" +:+ String (Ascii.ascii_of_nat 34) (": " +:+
    String (Ascii.ascii_of_nat 34) (t +:+ String (Ascii.ascii_of_nat 34) "}")))))))).

Definition init_host (rq : GenerateRequest) (i : nat) (g : G) : HostProfile F * G :=
  let rs := region_list rq in
  let '(cpu_base, g) := uniform_real (nofZ 10) (nofZ 60) g in
  let mem_base := (cpu_base * nlit 8 10 + nofZ 10)%num in
  let '(phase, g) := uniform_real 0%num (nlit 628 100) g in
  (MkHost (host_name (tier rq) i) ("proj-" +:+ tier rq) (nth (i mod length rs) rs EmptyString)
     (labels (tier rq)) cpu_base mem_base phase 0 false 0, g).
Definition InitializeHosts (rq : GenerateRequest) (g : G) : list (HostProfile F) * G :=
  for_ 0 (Z.to_nat (host_count rq)) (fun i '(hosts, g) =>
    let '(h, g) := init_host rq i g in (hosts ++ [h], g)) ([], g).

(** ** One record *)
Definition M_PI : F := nlit 884279719003555 281474976710656.
Definition clamp01 (x : F) : F := std_max 0%num (std_min (nofZ 100) x).
Definition has_rate (rq : GenerateRequest) (rate : AnomalyConfig -> F) (p : F) : bool :=
  match anomaly_config rq with Some a => (p <? rate a)%num | None => false end.
Definition append_type (ty tag : string) : string := if (ty =? "")%string then tag else ty +:+ "," +:+ tag.

(** Step 1: the burst state machine, with the extra load and its label. *)
Definition burst_step (rq : GenerateRequest) (p : F) (burst : Z) : Z * bool :=
  if 0 <? burst then (burst - 1, true)
  else if has_rate rq collective_rate p then
    let d := match anomaly_config rq with Some a => burst_duration_points a | None => 0 end in
    (if d =? 0 then 5 else d, true)
  else (burst, false).
(** Step 2: the correlation break state machine. *)
Definition corr_step (rq : GenerateRequest) (p : F) (remaining : Z) : Z * bool :=
  if 0 <? remaining then (remaining - 1, true)
  else if has_rate rq correlation_break_rate p then (5, true) else (remaining, false).
(** Step 3: the contextual anomaly; it draws only when the rate is positive. *)
Definition contextual_step (rq : GenerateRequest) (hours cpu : F) (g : G) : F * bool * G :=
  match anomaly_config rq with
  | Some a =>
      if (0 <? contextual_rate a)%num then
        let '(p_ctx, g) := uniform_real 0%num 1%num g in
        let hour := Z.rem (ntrunc hours) 24 in
        if (1 <=? hour) && (hour <=? 5) && (p_ctx <? contextual_rate a)%num then
          let '(spike, g) := uniform_real 0%num (nofZ 10) g in ((nofZ 90 + spike)%num, true, g)
        else (cpu, false, g)
      else (cpu, false, g)
  | None => (cpu, false, g)
  end.

Definition GenerateRecord (rq : GenerateRequest) (run_id : string) (host : HostProfile F) (timestamp : time_point) (g : G)
    : TelemetryRecord F * HostProfile F * G :=
  let hours := (nofZ (Z.quot timestamp 1000000000) / nofZ 3600)%num in
  let daily := (nofZ 10 * nsin (nofZ 2 * M_PI * hours / nofZ 24 + phase_shift host))%num in
  let weekly := (nofZ 5 * nsin (nofZ 2 * M_PI * hours / nofZ 168))%num in
  let '(noise, g) := uniform_real (nofZ (-10)) (nofZ 10) g in
  let cpu := (cpu_base host + daily + weekly + noise)%num in
  let '(p, g) := uniform_real 0%num 1%num g in
  let '(burst, bursting) := burst_step rq p (burst_remaining host) in
  let cpu := if bursting then (cpu + nofZ 40)%num else cpu in
  let '(corr, broken) := corr_step rq p (correlation_break_remaining host) in
  let ty := (if broken then "CORRELATION_BREAK" else if bursting then "COLLECTIVE_BURST" else "")%string in
  let '(cpu, contextual, g) := contextual_step rq hours cpu g in
  let ty := if contextual then append_type ty "CONTEXTUAL" else ty in
  let spike := has_rate rq point_rate p in
  let cpu := if spike then (cpu + nofZ 50)%num else cpu in
  let ty := if spike then append_type ty "POINT_SPIKE" else ty in
  let cpu_usage := clamp01 cpu in
  let '(memory_usage, g) :=
    if broken then (clamp01 (nofZ 100 - cpu_usage + noise)%num, g)
    else let '(mn, g) := uniform_real (nlit (-25) 10) (nlit 25 10) g in
         (clamp01 (cpu_usage * nlit 7 10 + nofZ 20 + mn)%num, g) in
  let '(dn, g) := uniform_real (nofZ (-5)) (nofZ 5) g in
  let disk := (nofZ 30 + dn)%num in
  let '(nn, g) := uniform_real 0%num (nofZ 10) g in
  let rx := std_max 0%num (nofZ 10 + daily / nofZ 2 + nn)%num in
  let '(rx, tx, g) :=
    if broken then ((rx + nofZ 50)%num, 1%num, g)
    else let '(j, g) := uniform_real 0%num (nofZ 5) g in (rx, (rx * nlit 8 10 + j)%num, g) in
  let lag := if fixed_lag_ms rq =? 0 then 2000 else fixed_lag_ms rq in
  let '(jitter, g) := uniform_int 0 500 g in
  (MkRecord timestamp (timestamp + (lag + jitter) * 1000000) (hp_host_id host) (hp_project_id host) (hp_region host)
     cpu_usage memory_usage disk rx tx (hp_labels_json host) run_id (bursting || broken || contextual || spike) ty,
   MkHost (hp_host_id host) (hp_project_id host) (hp_region host) (hp_labels_json host)
     (cpu_base host) (mem_base host) (phase_shift host) burst broken corr, g).

(** ** The run *)
Inductive action :=
  | ACreateRun (status : string)
  | AHeartbeat
  | AEnqueue (batch : list (TelemetryRecord F))
  | AUpdateRunStatus (status : string) (rows : Z) (error : string)
  | AWaitQueueEmpty.

Definition BATCH_SIZE : Z := 5000.

(** The state of the loops of [Run]: the hosts done in this tick, the batch
    being filled, the rows counted, the engine, and how often the stop flag
    was read; [stop n] is what its [n]-th read returns. *)
Context (stop : nat -> bool).
Record loop_state := MkLoop {
  ls_batch : list (TelemetryRecord F); ls_total : Z; ls_rng : G; ls_checks : nat }.

(** The loop over the hosts of one tick: the new hosts, the actions, and
    whether the run was cancelled. *)
Fixpoint host_loop (rq : GenerateRequest) (run_id : string) (t : time_point) (hosts : list (HostProfile F)) (st : loop_state)
    : list (HostProfile F) * loop_state * list action * bool :=
  match hosts with
  | [] => ([], st, [], false)
  | host :: rest =>
      let '(r, host, g) := GenerateRecord rq run_id host t (ls_rng st) in
      let batch := ls_batch st ++ [r] in
      if BATCH_SIZE <=? zlen batch then
        let total := ls_total st + BATCH_SIZE in
        let acts := [AEnqueue batch; AUpdateRunStatus "RUNNING" total EmptyString] in
        if stop (ls_checks st) then
          (host :: rest, MkLoop [] total g (S (ls_checks st)),
           acts ++ [AUpdateRunStatus "CANCELLED" total EmptyString], true)
        else
          let '(hosts', st', acts', cancelled) :=
            host_loop rq run_id t rest (MkLoop [] total g (S (ls_checks st))) in
          (host :: hosts', st', acts ++ acts', cancelled)
      else
        let '(hosts', st', acts', cancelled) :=
          host_loop rq run_id t rest (MkLoop batch (ls_total st) g (ls_checks st)) in
        (host :: hosts', st', acts', cancelled)
  end.

(** The loop over the ticks; [None] when the fuel runs out. *)
Fixpoint time_loop (fuel : nat) (rq : GenerateRequest) (run_id : string) (t finish duration : time_point)
    (hosts : list (HostProfile F)) (st : loop_state) : option (loop_state * list action * bool) :=
  match fuel with
  | O => None
  | S fuel' =>
      if t <? finish then
        if stop (ls_checks st) then
          Some (st, [AHeartbeat; AUpdateRunStatus "CANCELLED" (ls_total st) EmptyString], true)
        else
          let '(hosts, st, acts, cancelled) :=
            host_loop rq run_id t hosts (MkLoop (ls_batch st) (ls_total st) (ls_rng st) (S (ls_checks st))) in
          if cancelled then Some (st, AHeartbeat :: acts, true)
          else '(st', acts', cancelled) ← time_loop fuel' rq run_id (t + duration) finish duration hosts st;
               Some (st', AHeartbeat :: acts ++ acts', cancelled)
      else Some (st, [], false)
  end.

Definition duration_ns (rq : GenerateRequest) : time_point :=
  (if interval_seconds rq =? 0 then 600 else interval_seconds rq) * 1000000000.

(** [Run], for an engine seeded as the constructor does; [fuel] bounds the ticks. *)
Definition run_actions (fuel : nat) (rq : GenerateRequest) (run_id : string) : option (list action) :=
  let '(hosts, g) := InitializeHosts rq (mt19937 (rq_seed rq mod 2 ^ 64)) in
  match time_loop fuel rq run_id (ParseTime (start_time_iso rq)) (ParseTime (end_time_iso rq))
          (duration_ns rq) hosts (MkLoop [] 0 g 0) with
  | None => None
  | Some (st, acts, cancelled) =>
      let acts := ACreateRun "RUNNING" :: acts in
      if cancelled then Some acts
      else
        let '(total, final) := match ls_batch st with
          | [] => (ls_total st, [])
          | b => (ls_total st + zlen b, [AEnqueue b]) end in
        Some (acts ++ final ++ [AWaitQueueEmpty; AUpdateRunStatus "SUCCEEDED" total EmptyString])
  end.

(** The [try] block of [Run]: the first call that throws ends it, and the
    handler records the failure; [throws i] is the exception of the [i]-th
    action, if any. *)
Fixpoint run_guarded (throws : nat -> option exn) (i : nat) (acts : list action) : list action :=
  match acts with
  | [] => []
  | a :: acts' =>
      match throws i with
      | Some e => [a; AUpdateRunStatus "FAILED" 0 (exn_what e)]
      | None => a :: run_guarded throws (S i) acts'
      end
  end.
End generator.
Arguments GenerateRequest F : clear implicits.
Arguments AnomalyConfig F : clear implicits.
Arguments action F : clear implicits.

(** ** Records *)
Section records.
Context {G : Type} `{!Rng G} `{!Libm float} `{!RealRng float G}.
Implicit Types (rq : GenerateRequest float) (h : HostProfile float).

Definition percent (x : float) : Prop := (0 <=? x)%num = true /\ (x <=? nofZ 100)%num = true.

Lemma clamp01_percent (x : float) : percent (clamp01 x).
Proof.
  unfold percent, clamp01, std_max, std_min.
  assert (H0 : (0 <? (nofZ 100 : float))%num = true) by reflexivity.
  destruct (x <? nofZ 100)%num eqn:E1.
  - destruct (0 <? x)%num eqn:E2; [split; by apply nltb_nleb|].
    split; [by apply nleb_refl|by apply nltb_nleb].
  - rewrite H0. split; [by apply nltb_nleb|by apply nleb_refl].
Qed.

(** The records of one host at the given times. *)
Fixpoint record_run rq (run_id : string) h (ts : list time_point) (g : G)
    : list (TelemetryRecord float) * HostProfile float * G :=
  match ts with
  | [] => ([], h, g)
  | t :: ts' =>
      let '(r, h, g) := GenerateRecord rq run_id h t g in
      let '(rs, h, g) := record_run rq run_id h ts' g in (r :: rs, h, g)
  end.
Definition host_after rq run_id h t g := (GenerateRecord rq run_id h t g).1.2.
Definition record_of rq run_id h t g := (GenerateRecord rq run_id h t g).1.1.

Lemma append_type_nonempty ty tag : tag <> EmptyString -> append_type ty tag <> EmptyString.
Proof. unfold append_type. destruct ty; cbn; [done|discriminate]. Qed.

Lemma contextual_step_none rq hours cpu g : anomaly_config rq = None ->
  contextual_step rq hours cpu g = (cpu, false, g).
Proof. intros Hn. unfold contextual_step. by rewrite Hn. Qed.

(** What holds of every record and of the host it leaves behind. *)
Record record_ok rq (run_id : string) h (t : time_point) (r : TelemetryRecord float) h' : Prop := {
  ro_cpu : percent (r_cpu_usage r);
  ro_memory : percent (r_memory_usage r);
  ro_label : r_is_anomaly r = true <-> r_anomaly_type r <> EmptyString;
  ro_ids : r_host_id r = hp_host_id h /\ r_region r = hp_region h /\ r_run_id r = run_id /\ metric_timestamp r = t;
  ro_lag : exists jitter, 0 <= jitter <= 500 /\
    ingestion_time r = t + ((if fixed_lag_ms rq =? 0 then 2000 else fixed_lag_ms rq) + jitter) * 1000000;
  ro_host : hp_host_id h' = hp_host_id h /\ cpu_base h' = cpu_base h /\ phase_shift h' = phase_shift h;
  ro_burst : 0 < burst_remaining h -> r_is_anomaly r = true /\ burst_remaining h' = burst_remaining h - 1;
  ro_broken : 0 < correlation_break_remaining h -> r_is_anomaly r = true /\
    correlation_broken h' = true /\ correlation_break_remaining h' = correlation_break_remaining h - 1 }.

Lemma label_iff (broken bursting contextual spike : bool) :
  let ty := (if broken then "CORRELATION_BREAK" else if bursting then "COLLECTIVE_BURST" else "")%string in
  let ty := if contextual then append_type ty "CONTEXTUAL" else ty in
  let ty := if spike then append_type ty "POINT_SPIKE" else ty in
  bursting || broken || contextual || spike = true <-> ty <> EmptyString.
Proof. destruct broken, bursting, contextual, spike; cbn; split; done. Qed.

Lemma GenerateRecord_ok rq run_id h t g :
  let '(r, h', g') := GenerateRecord rq run_id h t g in record_ok rq run_id h t r h'.
Proof.
  unfold GenerateRecord. cbv zeta.
  destruct (uniform_real (nofZ (-10)) (nofZ 10) g) as [noise g1].
  destruct (uniform_real 0%num 1%num g1) as [p g2].
  destruct (burst_step rq p (burst_remaining h)) as [burst bursting] eqn:Eb.
  destruct (corr_step rq p (correlation_break_remaining h)) as [corr broken] eqn:Ec.
  destruct (contextual_step rq _ _ g2) as [[cpu contextual] g3].
  pose proof (label_iff broken bursting contextual (has_rate rq point_rate p)) as Hlabel. cbv zeta in Hlabel.
  set (cpu' := if has_rate rq point_rate p then _ else cpu).
  destruct (if broken then _ else let '(_, _) := uniform_real (nlit (-25) 10) _ g3 in _) as [mem g4] eqn:Em.
  destruct (uniform_real (nofZ (-5)) (nofZ 5) g4) as [dn g5].
  destruct (uniform_real 0%num (nofZ 10) g5) as [nn g6].
  destruct (if broken then _ else let '(_, _) := uniform_real 0%num (nofZ 5) g6 in _) as [[rx tx] g7].
  pose proof (uniform_int_range 0 500 g7 ltac:(lia)) as Hj.
  destruct (uniform_int 0 500 g7) as [jitter g8]. cbn [fst] in Hj.
  split; cbn [r_cpu_usage r_memory_usage r_is_anomaly r_anomaly_type r_host_id r_region r_run_id
    metric_timestamp ingestion_time hp_host_id cpu_base phase_shift burst_remaining correlation_broken
    correlation_break_remaining].
  - apply clamp01_percent.
  - destruct broken; [|destruct (uniform_real _ _ g3)]; simplify_eq; apply clamp01_percent.
  - exact Hlabel.
  - done.
  - by exists jitter.
  - done.
  - intros Hb. unfold burst_step in Eb. rewrite (proj2 (Z.ltb_lt _ _) Hb) in Eb. by simplify_eq.
  - intros Hb. unfold corr_step in Ec. rewrite (proj2 (Z.ltb_lt _ _) Hb) in Ec. simplify_eq.
    split; [|done]. by destruct bursting.
Qed.
End records.

(** Every generated record keeps CPU and memory within [0, 100] and never
    NaN, whatever the random draws and the host's state; it carries an anomaly
    label exactly when it is flagged; it names its host, run and time; and its
    ingestion lags by the configured delay (2 s if unset) plus 0 to 500 ms. *)
Theorem generated_records_are_well_formed {G} `{!Rng G} `{!Libm float} `{!RealRng float G}
    (rq : GenerateRequest float) (run_id : string) (h : HostProfile float) (t : time_point) (g : G) :
  let r := record_of rq run_id h t g in
  percent (r_cpu_usage r) /\ percent (r_memory_usage r) /\
  (r_is_anomaly r = true <-> r_anomaly_type r <> EmptyString) /\
  r_host_id r = hp_host_id h /\ r_run_id r = run_id /\ metric_timestamp r = t /\
  exists jitter, 0 <= jitter <= 500 /\
    ingestion_time r = t + ((if fixed_lag_ms rq =? 0 then 2000 else fixed_lag_ms rq) + jitter) * 1000000.
Proof.
  pose proof (GenerateRecord_ok rq run_id h t g) as Hok. unfold record_of.
  destruct (GenerateRecord rq run_id h t g) as [[r h'] g']. destruct Hok as [H1 H2 H3 (?&?&?&?) H5 _ _ _].
  cbn. by split_and!.
Qed.

(** A burst lasts: once a host has [n] burst points left, its next [n]
    records are anomalies, whatever the draws and the times, and after them
    the burst is over. *)
Theorem bursts_run_their_course {G} `{!Rng G} `{!Libm float} `{!RealRng float G}
    (rq : GenerateRequest float) (run_id : string) (h : HostProfile float) (ts : list time_point) (g : G)
    (Hlen : zlen ts = burst_remaining h) :
  let '(rs, h', g') := record_run rq run_id h ts g in
  length rs = length ts /\ Forall (fun r => r_is_anomaly r = true /\ r_anomaly_type r <> EmptyString) rs /\
  burst_remaining h' = 0.
Proof.
  revert h g Hlen. induction ts as [|t ts IH]; intros h g Hlen; [by unfold zlen in Hlen|].
  cbn [record_run]. pose proof (GenerateRecord_ok rq run_id h t g) as Hok.
  destruct (GenerateRecord rq run_id h t g) as [[r h'] g'].
  unfold zlen in *; cbn [length] in Hlen.
  destruct (ro_burst _ _ _ _ _ _ Hok) as [Ha Hb]; [lia|].
  specialize (IH h' g' ltac:(lia)). destruct (record_run rq run_id h' ts g') as [[rs h2] g2].
  destruct IH as (Hl & Hall & Hz). split_and!; [cbn; by rewrite Hl| |done].
  constructor; [|done]. split; [done|]. by apply (ro_label _ _ _ _ _ _ Hok).
Qed.


(** ** What a run enqueues *)
Section run.
Context {F : Type} `{Num F} `{!Libm F} {G : Type} `{!Rng G} `{!RealRng F G}.
Context (stop : nat -> bool).
Implicit Types (acts : list (action F)) (st : @loop_state F G).

Definition batches acts : list (list (TelemetryRecord F)) :=
  acts ≫= fun a => match a with AEnqueue b => [b] | _ => [] end.
Definition rows_of (bs : list (list (TelemetryRecord F))) : Z := zlen (mjoin bs).
Definition is_heartbeat (a : action F) : bool := match a with AHeartbeat => true | _ => false end.
Definition heartbeats acts : Z := Z.of_nat (countb is_heartbeat acts).

Lemma batches_app a1 a2 : batches (a1 ++ a2) = batches a1 ++ batches a2.
Proof. unfold batches. apply bind_app. Qed.
Lemma rows_of_app b1 b2 : rows_of (b1 ++ b2) = rows_of b1 + rows_of b2.
Proof. unfold rows_of, zlen. rewrite join_app, length_app. lia. Qed.
Lemma rows_of_cons b bs : rows_of (b :: bs) = zlen b + rows_of bs.
Proof. unfold rows_of, zlen. change (mjoin (b :: bs)) with (b ++ mjoin bs). rewrite length_app. lia. Qed.

Lemma heartbeats_cons acts : heartbeats (AHeartbeat :: acts) = 1 + heartbeats acts.
Proof. unfold heartbeats. rewrite countb_cons. cbn [is_heartbeat]. cbv iota. lia. Qed.
Lemma heartbeats_app a1 a2 : heartbeats (a1 ++ a2) = heartbeats a1 + heartbeats a2.
Proof. unfold heartbeats. rewrite countb_app. lia. Qed.
Lemma heartbeats_skip a acts : is_heartbeat a = false -> heartbeats (a :: acts) = heartbeats acts.
Proof. intros Ha. unfold heartbeats. by rewrite countb_cons, Ha. Qed.

Definition full (b : list (TelemetryRecord F)) : Prop := zlen b = BATCH_SIZE.

(** One tick: every host contributes one record; full batches are enqueued. *)
Lemma host_loop_ok rq run_id t hosts st : zlen (ls_batch st) < BATCH_SIZE ->
  let '(hosts', st', acts, cancelled) := host_loop stop rq run_id t hosts st in
  length hosts' = length hosts /\ Forall full (batches acts) /\ zlen (ls_batch st') < BATCH_SIZE /\
  ls_total st' = ls_total st + rows_of (batches acts) /\ heartbeats acts = 0 /\
  (cancelled = false ->
     rows_of (batches acts) + zlen (ls_batch st') = zlen (ls_batch st) + zlen hosts) /\
  ((forall n, stop n = false) -> cancelled = false).
Proof.
  revert st. induction hosts as [|h hosts IH]; intros st Hb; cbn [host_loop].
  { unfold rows_of, zlen in *; cbn. split_and!; try done; intros; lia. }
  destruct (GenerateRecord rq run_id h t (ls_rng st)) as [[r h'] g].
  assert (zlen (ls_batch st ++ [r]) = zlen (ls_batch st) + 1) as Hl by (unfold zlen; rewrite length_app; cbn; lia).
  destruct (Z.leb_spec BATCH_SIZE (zlen (ls_batch st ++ [r]))) as [Hfull|Hpart].
  - assert (full (ls_batch st ++ [r])) as Hfb by (unfold full; lia).
    destruct (stop (ls_checks st)) eqn:Es.
    + cbn. unfold full in Hfb. unfold rows_of, zlen in *; cbn. rewrite app_nil_r.
      split_and!; try done; try lia; [by repeat constructor|].
      intros Hs. by rewrite Hs in Es.
    + specialize (IH (MkLoop [] (ls_total st + BATCH_SIZE) g (S (ls_checks st)))).
      destruct (host_loop _ _ _ _ _ _) as [[[hosts' st'] acts'] c]. cbn [ls_batch ls_total] in IH.
      destruct IH as (H1&H2&H3&H4&H5&H6&H7); [done|].
      cbn [app]. change (batches (AEnqueue (ls_batch st ++ [r]) :: AUpdateRunStatus "RUNNING" (ls_total st + BATCH_SIZE) EmptyString :: acts'))
        with ((ls_batch st ++ [r]) :: batches acts').
      rewrite rows_of_cons. unfold full in Hfb. unfold zlen in *; cbn [length] in *.
      rewrite !heartbeats_skip by done.
    split_and!; [lia|by constructor|done|lia|done|intros Hc; specialize (H6 Hc); lia|done].
  - specialize (IH (MkLoop (ls_batch st ++ [r]) (ls_total st) g (ls_checks st))).
    destruct (host_loop _ _ _ _ _ _) as [[[hosts' st'] acts'] c]. cbn [ls_batch ls_total] in IH.
    destruct IH as (H1&H2&H3&H4&H5&H6&H7); [lia|]. unfold zlen in *; cbn [length] in *.
    split_and!; [lia|done|done|lia|done|intros Hc; specialize (H6 Hc); lia|done].
Qed.

(** The number of ticks of [for (t = start; t < finish; t += duration)]. *)
Definition ticks_between (start finish duration : Z) : Z := Z.max 0 ((finish - start + duration - 1) / duration).

Lemma ticks_step t finish d : 0 < d -> t < finish ->
  ticks_between t finish d = 1 + ticks_between (t + d) finish d.
Proof.
  intros Hd Ht. unfold ticks_between.
  assert ((finish - t + d - 1) / d = (finish - (t + d) + d - 1) / d + 1) as ->.
  { replace (finish - t + d - 1) with (finish - (t + d) + d - 1 + 1 * d) by lia. rewrite Z.div_add by lia. lia. }
  assert (0 <= (finish - (t + d) + d - 1) / d + 1).
  { assert (-1 <= (finish - (t + d) + d - 1) / d); [|lia]. apply Z.div_le_lower_bound; lia. }
  assert (0 <= (finish - (t + d) + d - 1) / d); [apply Z.div_pos; lia|lia].
Qed.
Lemma ticks_done t finish d : 0 < d -> finish <= t -> ticks_between t finish d = 0.
Proof. intros Hd Ht. unfold ticks_between. assert ((finish - t + d - 1) / d < 1); [apply Z.div_lt_upper_bound; lia|lia]. Qed.

Lemma time_loop_ok fuel rq run_id t finish d hosts st :
  (forall n, stop n = false) -> 0 < d -> zlen (ls_batch st) < BATCH_SIZE ->
  ticks_between t finish d < Z.of_nat fuel ->
  exists st' acts, time_loop stop fuel rq run_id t finish d hosts st = Some (st', acts, false) /\
    Forall full (batches acts) /\ zlen (ls_batch st') < BATCH_SIZE /\
    ls_total st' = ls_total st + rows_of (batches acts) /\
    rows_of (batches acts) + zlen (ls_batch st') = zlen (ls_batch st) + zlen hosts * ticks_between t finish d /\
    heartbeats acts = ticks_between t finish d.
Proof.
  intros Hstop Hd. revert t hosts st. induction fuel as [|fuel IH]; intros t hosts st Hb Hf; cbn [time_loop].
  { unfold ticks_between in Hf. lia. }
  destruct (Z.ltb_spec t finish) as [Ht|Ht].
  2:{ rewrite ticks_done by lia. exists st, []. unfold rows_of, zlen in *; cbn. split_and!; try done; lia. }
  rewrite Hstop. rewrite (ticks_step t finish d Hd Ht) in *.
  pose proof (host_loop_ok rq run_id t hosts (MkLoop (ls_batch st) (ls_total st) (ls_rng st) (S (ls_checks st))) Hb) as Hh.
  destruct (host_loop _ _ _ _ _ _) as [[[hosts' st'] acts'] c]. cbn [ls_batch ls_total] in Hh.
  destruct Hh as (H1&H2&H3&H4&H5&H6&H7). rewrite (H7 Hstop) in *. specialize (H6 eq_refl).
  destruct (IH (t + d) hosts' st' H3) as (st2 & acts2 & -> & J1 & J2 & J3 & J4 & J5); [lia|].
  cbn [mbind option_bind]. eexists _, _. split; [done|].
  assert (batches (AHeartbeat :: acts' ++ acts2) = batches acts' ++ batches acts2) as Hba by apply batches_app.
  rewrite Hba, rows_of_app, heartbeats_cons, heartbeats_app.
  assert (zlen hosts' = zlen hosts) as Hz by (unfold zlen; lia). rewrite Hz in *.
  split_and!; [by apply Forall_app|done|lia|nia|lia].
Qed.

Lemma InitializeHosts_length rq (g : G) : length (InitializeHosts rq g).1 = Z.to_nat (host_count rq).
Proof.
  unfold InitializeHosts. apply (for_ind (fun i p => length p.1 = i)); [lia|done|].
  intros i [hosts g'] _ Hl. cbn in *. destruct (init_host rq i g'). cbn. rewrite length_app. cbn. lia.
Qed.

Lemma time_loop_diverges fuel rq run_id t finish d hosts st :
  (forall n, stop n = false) -> d < 0 -> t < finish -> zlen (ls_batch st) < BATCH_SIZE ->
  time_loop stop fuel rq run_id t finish d hosts st = None.
Proof.
  intros Hstop Hd. revert t hosts st. induction fuel as [|fuel IH]; intros t hosts st Ht Hb; [done|].
  cbn [time_loop]. rewrite (proj2 (Z.ltb_lt _ _) Ht), Hstop.
  pose proof (host_loop_ok rq run_id t hosts (MkLoop (ls_batch st) (ls_total st) (ls_rng st) (S (ls_checks st))) Hb) as Hh.
  destruct (host_loop _ _ _ _ _ _) as [[[hosts' st'] acts'] c].
  destruct Hh as (_&_&H3&_&_&_&H7). rewrite (H7 Hstop). rewrite IH; [done|lia|done].
Qed.
End run.


(** ** The queue and the writer thread *)
Section queue.
Context {batch : Type}.

(** [written] and [failed] list the batches whose insert returned or threw. *)
Record QueueState := MkQueue {
  max_queue_size_ : Z; write_queue_ : list batch; in_flight : option batch;
  written : list batch; failed : list batch; dropped : list batch }.
Definition queue_init (max : Z) : QueueState := MkQueue (to_size_t max) [] None [] [] [].
Definition env_queue_size (env : option string) : Z :=
  match env with Some s => match stoul s with Ok n => n | Throw _ => 100 end | None => 100 end.

Definition EnqueueBatch (b : batch) (s : QueueState) : QueueState :=
  if max_queue_size_ s <=? zlen (write_queue_ s)
  then MkQueue (max_queue_size_ s) (write_queue_ s) (in_flight s) (written s) (failed s) (dropped s ++ [b])
  else MkQueue (max_queue_size_ s) (write_queue_ s ++ [b]) (in_flight s) (written s) (failed s) (dropped s).

(** The two halves of an iteration of [WriterLoop]: taking the front of the
    queue, and the insert outside the lock. *)
Definition writer_pop (s : QueueState) : option QueueState :=
  match in_flight s, write_queue_ s with
  | None, b :: q => Some (MkQueue (max_queue_size_ s) q (Some b) (written s) (failed s) (dropped s))
  | _, _ => None
  end.
Definition writer_insert (inserted : bool) (s : QueueState) : option QueueState :=
  match in_flight s with
  | Some b => Some (MkQueue (max_queue_size_ s) (write_queue_ s) None
                (if inserted then written s ++ [b] else written s)
                (if inserted then failed s else failed s ++ [b]) (dropped s))
  | None => None
  end.

Inductive queue_event := QEnqueue (b : batch) | QPop | QInsert (inserted : bool).
Definition queue_exec (e : queue_event) (s : QueueState) : option QueueState :=
  match e with
  | QEnqueue b => Some (EnqueueBatch b s)
  | QPop => writer_pop s
  | QInsert inserted => writer_insert inserted s
  end.
Fixpoint queue_run (es : list queue_event) (s : QueueState) : option QueueState :=
  match es with [] => Some s | e :: es' => s' ← queue_exec e s; queue_run es' s' end.

(** The batches [Run] handed over (and counted in its total), in order. *)
Definition handed_over (es : list queue_event) : list batch :=
  es ≫= fun e => match e with QEnqueue b => [b] | _ => [] end.
(** [Run] may report SUCCEEDED: its wait for the queue is over. *)
Definition wait_over (s : QueueState) : bool := bool_decide (write_queue_ s = []).

Definition pending (s : QueueState) : list batch := option_list (in_flight s) ++ write_queue_ s.

(** Accounting: every batch handed over is in exactly one place; what has been
    written, is being written or is queued keeps the order of the run. *)
Record queue_inv (hs : list batch) (s : QueueState) : Prop := {
  qi_all : hs ≡ₚ written s ++ failed s ++ dropped s ++ pending s;
  qi_order : sublist (written s ++ pending s) hs;
  qi_bound : zlen (write_queue_ s) <= max_queue_size_ s }.

Lemma queue_inv_exec hs e s s' : queue_inv hs s -> queue_exec e s = Some s' ->
  queue_inv (hs ++ match e with QEnqueue b => [b] | _ => [] end) s' /\ max_queue_size_ s' = max_queue_size_ s.
Proof.
  intros [H1 H2 H3] He. destruct e as [b| |ok]; cbn in He.
  - simplify_eq. unfold EnqueueBatch. destruct (Z.leb_spec (max_queue_size_ s) (zlen (write_queue_ s))).
    + split; [|done]. split; cbn; [|by apply sublist_inserts_r|done]. rewrite H1. solve_Permutation.
    + split; [|done]. split; unfold pending in *; cbn.
      * rewrite H1. solve_Permutation.
      * rewrite !app_assoc. rewrite app_assoc in H2. by apply sublist_app.
      * unfold zlen in *. rewrite length_app. cbn. lia.
  - unfold writer_pop in He. destruct (in_flight s) eqn:Ef; [done|]. destruct (write_queue_ s) as [|b q] eqn:Eq; [done|].
    simplify_eq. split; [|done]. rewrite app_nil_r. unfold pending, zlen in *; rewrite Ef, Eq in *; cbn in *.
    split; cbn; [done|done|]. unfold zlen. lia.
  - unfold writer_insert in He. destruct (in_flight s) as [b|] eqn:Ef; [|done]. simplify_eq. split; [|done].
    rewrite app_nil_r. unfold pending in *; rewrite Ef in *; cbn in *. destruct ok; split; unfold pending; cbn; try done.
    + rewrite H1. solve_Permutation.
    + by rewrite <- app_assoc.
    + rewrite H1. solve_Permutation.
    + etrans; [|exact H2]. apply sublist_app; [done|]. by apply sublist_cons.
Qed.

Lemma queue_run_inv es hs s s' : queue_inv hs s -> queue_run es s = Some s' ->
  queue_inv (hs ++ handed_over es) s' /\ max_queue_size_ s' = max_queue_size_ s.
Proof.
  revert hs s. induction es as [|e es IH]; intros hs s Hi Hr; cbn in Hr.
  - simplify_eq. by rewrite app_nil_r.
  - destruct (queue_exec e s) as [s1|] eqn:E; cbn in Hr; [|done].
    destruct (queue_inv_exec hs e s s1 Hi E) as [Hi1 Hm1]. destruct (IH _ s1 Hi1 Hr) as [Hi2 Hm2].
    split; [|congruence]. unfold handed_over in *. cbn. by rewrite <- app_assoc in Hi2.
Qed.
End queue.
Arguments QueueState batch : clear implicits.
Arguments queue_event batch : clear implicits.

(** Whatever the interleaving of the run with its writer thread, the queue
    never exceeds its limit, the batches written are in the order of the run,
    and each batch the run counted was written, failed, was dropped, is being
    written or is queued.  When the run's final wait is over the queue is
    empty: its reported total then exceeds the batches written by exactly the
    dropped and failed ones and the one still in flight. *)
Theorem reported_rows_are_not_all_written {batch} (max : Z) (es : list (queue_event batch)) (s : QueueState batch)
    (Hrun : queue_run es (queue_init max) = Some s) :
  zlen (write_queue_ s) <= to_size_t max /\
  sublist (written s) (handed_over es) /\
  handed_over es ≡ₚ written s ++ failed s ++ dropped s ++ pending s /\
  (wait_over s = true ->
     zlen (handed_over es) = zlen (written s) + zlen (failed s) + zlen (dropped s) + zlen (option_list (in_flight s))).
Proof.
  assert (queue_inv (@nil batch) (queue_init max)) as Hi.
  { split; cbn; [done|done|apply to_size_t_nonneg]. }
  destruct (queue_run_inv es [] _ s Hi Hrun) as [[H1 H2 H3] Hm]. rewrite Hm in H3. cbn [app] in *. split_and!.
  - done.
  - etrans; [|exact H2]. by apply sublist_inserts_r.
  - done.
  - intros Hw%bool_decide_eq_true. unfold pending in H1. rewrite Hw, app_nil_r in H1.
    unfold zlen. rewrite H1, !length_app. lia.
Qed.

(** A run that reports all four of its batches while one was dropped, one
    failed and one is still being written. *)
Lemma reported_rows_are_not_all_written_witness :
  let es := [QEnqueue 1; QPop; QEnqueue 2; QEnqueue 3; QEnqueue 4; QInsert true; QPop; QInsert false; QPop]%nat in
  exists s, queue_run es (queue_init 2) = Some s /\ wait_over s = true /\ written s = [1]%nat /\
    zlen (handed_over es) = zlen (written s) + zlen (failed s) + zlen (dropped s) + zlen (option_list (in_flight s)).
Proof.
  intros es. eexists. split; [vm_compute; reflexivity|]. split; [reflexivity|]. split; [reflexivity|].
  apply (reported_rows_are_not_all_written 2 es _ ltac:(vm_compute; reflexivity)). reflexivity.
Defined.

Definition request_example (interval : Z) : GenerateRequest float :=
  MkRequest "T" 3 "2024-01-01T00:00:00Z" "2024-01-01T00:25:00Z" interval [] (Some (MkAnomaly 0 0 1 0 3)%float) 0 7 "r".
Definition host_example : HostProfile float := MkHost "h" "p" "r" "l" 30%float 34%float 0%float 2 false 0.

Lemma bursts_run_their_course_witness :
  let rq := request_example 600 in
  exists rs h' g', @record_run _ lcg_rng libm_example ends_rng rq "run" host_example [0; 600000000000] 5 = (rs, h', g') /\
    length rs = 2%nat /\ Forall (fun r => r_is_anomaly r = true /\ r_anomaly_type r <> EmptyString) rs.
Proof.
  intros rq. pose proof (@bursts_run_their_course _ lcg_rng libm_example ends_rng rq "run" host_example [0; 600000000000] 5
    eq_refl) as Hb.
  destruct (record_run _ _ _ _ _) as [[rs h'] g'] eqn:E. exists rs, h', g'. split; [reflexivity|].
  destruct Hb as (Hl & Hall & _). split; [exact Hl|exact Hall].
Defined.

