(* ===== verification/Scorer.v ===== *)
(** The scoring loop: src/src/scorer_main.cpp.

    [score_record] is the body of the host loop after the record is built:
    preprocess, detector A, the gated detector B, fusion and alerting.
    [sim_step] is one host of one tick of the simulation, sharding included. *)
From stdpp Require Import base list strings gmap.
From Stdlib Require Import ZArith Lia Floats.
From S2P Require Import Prelude Num Linalg Detectors Alerts Json PcaModel.

Local Open Scope Z_scope.

Section scorer.
Context {F : Type} `{Num F} `{!Libm F} `{!FloatFmt F}.

Record ScorerState := MkScorer {
  detectors_a : gmap string (DetectorA.State F);
  last_b_run : gmap string time_point;
  alert_manager : AlertManager }.

(** The scorer's configuration: the defaults with its overrides. *)
Definition scorer_config : DetectorConfig F :=
  MkDetectorConfig (MkPreprocessing false) default_window
    (MkOutlier (nofZ 3) (nofZ 3) true (nofZ 7)) (MkGating true (nofZ 3) 10000).

Context (config : DetectorConfig F) (pca_model : PcaModel F).

(** Whether detector B runs for a record of [host] at [now]. *)
Definition gate (s : ScorerState) (host : string) (now : time_point) (flag_a : bool) : bool :=
  if enable_gating (gating config) then
    let ms_since := Z.quot (now - default 0 (last_b_run s !! host)) 1000000 in
    flag_a || (period_ms (gating config) <=? ms_since)
  else true.

Record Scored := MkScored {
  sc_flag_a : bool; sc_run_b : bool; sc_flag_b : bool; sc_details : string; sc_alerts : list (Alert F) }.

Definition combined_details (flag_a : bool) (details_a : string) (run_b flag_b : bool) (details_b : string) : string :=
  ((if flag_a then "[A:" +:+ details_a +:+ "] " else "") +:+
   (if run_b && flag_b then "[B:" +:+ details_b +:+ "] " else "") +:+
   (if run_b then "" else "[B:SKIPPED] "))%string.

Definition score_record (r : TelemetryRecord F) (now : time_point) (s : ScorerState) : res (ScorerState * Scored) :=
  let host := r_host_id r in
  let vec := Preprocessor_Apply (preprocessing config) (FromRecord r) in
  let det := default DetectorA.init (detectors_a s !! host) in
  let '(det, score) := DetectorA.Update (window config) (outliers config) det vec in
  let flag_a := DetectorA.is_anomaly score in
  let score_a := if flag_a then DetectorA.max_z_score score else 0%num in
  let details_a := if flag_a then DetectorA.details score else EmptyString in
  let run_b := gate s host now flag_a in
  let last_b := if enable_gating (gating config)
                then <[host := if run_b then now else default 0 (last_b_run s !! host)]> (last_b_run s)
                else last_b_run s in
  let fuse_with flag_b score_b details_b :=
    let details := combined_details flag_a details_a run_b flag_b details_b in
    let '(mgr, alerts) := Evaluate (alert_manager s)
      (MkEvaluation host (r_run_id r) (metric_timestamp r) flag_a score_a flag_b score_b details) in
    Ok (MkScorer (<[host := det]> (detectors_a s)) last_b mgr, MkScored flag_a run_b flag_b details alerts) in
  if run_b then
    pca_res ← Score pca_model vec;
    if ps_is_anomaly pca_res then fuse_with true (reconstruction_error pca_res) (ps_details pca_res)
    else fuse_with false 0%num EmptyString
  else fuse_with false (nofZ (-1)) EmptyString.

(** ** The simulation *)
Context (hash : string -> Z).

Definition my_shard (shard_id num_shards : Z) (host : string) : bool :=
  to_size_t (hash host) mod to_size_t num_shards =? to_size_t shard_id.

Definition sim_record (i : Z) (host : string) (now : time_point) : TelemetryRecord F :=
  let cpu := (nofZ 50 + nofZ (Z.rem i 10))%num in
  let cpu := if (host =? "host-2")%string then (cpu + nofZ 20)%num else cpu in
  let cpu := if (host =? "host-1")%string && (i =? 50) then nofZ 200 else cpu in
  let cpu := if (host =? "host-2")%string && (i =? 60) then nofZ 220 else cpu in
  let corr := (host =? "host-1")%string && (i =? 70) in
  let cpu := if corr then nofZ 80 else cpu in
  let rx := if corr then 0%num else nofZ 100 in
  MkRecord now 0 host "" "" cpu (nofZ 60) (nofZ 30) rx (nofZ 50) "" "sim-run-001" false "".

Definition sim_step (shard_id num_shards : Z) (start : time_point) (i : Z) (host : string)
    (s : ScorerState * list Scored) : res (ScorerState * list Scored) :=
  if my_shard shard_id num_shards host then
    let now := start + ticks i in
    '(st, sc) ← score_record (sim_record i host now) now s.1;
    Ok (st, s.2 ++ [sc])
  else Ok s.
Definition sim_init : ScorerState :=
  MkScorer {[ "host-1"%string := DetectorA.init; "host-2"%string := DetectorA.init ]} ∅ (new_manager 1 10).
Definition simulate (shard_id num_shards : Z) (start : time_point) (steps : nat) : res (ScorerState * list Scored) :=
  fold_res (fun s i =>
    fold_res (fun s host => sim_step shard_id num_shards start (Z.of_nat i) host s) s ["host-1"; "host-2"]%string)
    (sim_init, []) (seq 0 steps).
End scorer.
Arguments ScorerState F : clear implicits.
Arguments Scored F : clear implicits.

Section gating.
Context {F : Type} `{Num F} `{!Libm F} `{!FloatFmt F}.
Context (config : DetectorConfig F) (pca_model : PcaModel F).

Lemma score_record_ok r now s s' sc :
  score_record config pca_model r now s = Ok (s', sc) ->
  sc_run_b sc = gate config s (r_host_id r) now (sc_flag_a sc) /\
  (sc_run_b sc = false -> sc_flag_b sc = false) /\
  (forall h, h <> r_host_id r -> detectors_a s' !! h = detectors_a s !! h /\ last_b_run s' !! h = last_b_run s !! h /\
     fusion_at (alert_manager s') h = fusion_at (alert_manager s) h) /\
  (enable_gating (gating config) = true ->
     default 0 (last_b_run s' !! r_host_id r) = if sc_run_b sc then now else default 0 (last_b_run s !! r_host_id r)) /\
  (exists e, ev_host_id e = r_host_id r /\ ev_ts e = metric_timestamp r /\
     detector_a_flag e = sc_flag_a sc /\ detector_b_flag e = sc_flag_b sc /\
     Evaluate (alert_manager s) e = (alert_manager s', sc_alerts sc)).
Proof.
  unfold score_record. set (vec := Preprocessor_Apply _ _).
  destruct (DetectorA.Update _ _ _ vec) as [det score]. set (run_b := gate _ _ _ _ _).
  set (last_b := if enable_gating _ then _ else _).
  assert (forall flag_b score_b details_b,
    (let details := combined_details (DetectorA.is_anomaly score)
        (if DetectorA.is_anomaly score then DetectorA.details score else EmptyString) run_b flag_b details_b in
     let '(mgr, alerts) := Evaluate (alert_manager s)
       (MkEvaluation (r_host_id r) (r_run_id r) (metric_timestamp r) (DetectorA.is_anomaly score)
          (if DetectorA.is_anomaly score then DetectorA.max_z_score score else 0%num) flag_b score_b details) in
     Ok (MkScorer (<[r_host_id r := det]> (detectors_a s)) last_b mgr,
         MkScored (DetectorA.is_anomaly score) run_b flag_b details alerts)) = Ok (s', sc) ->
    (run_b = false -> flag_b = false) ->
    sc_run_b sc = gate config s (r_host_id r) now (sc_flag_a sc) /\
    (sc_run_b sc = false -> sc_flag_b sc = false) /\
    (forall h, h <> r_host_id r -> detectors_a s' !! h = detectors_a s !! h /\ last_b_run s' !! h = last_b_run s !! h /\
       fusion_at (alert_manager s') h = fusion_at (alert_manager s) h) /\
    (enable_gating (gating config) = true ->
       default 0 (last_b_run s' !! r_host_id r) = if sc_run_b sc then now else default 0 (last_b_run s !! r_host_id r)) /\
    (exists e, ev_host_id e = r_host_id r /\ ev_ts e = metric_timestamp r /\
       detector_a_flag e = sc_flag_a sc /\ detector_b_flag e = sc_flag_b sc /\
       Evaluate (alert_manager s) e = (alert_manager s', sc_alerts sc))) as Hfuse.
  { intros flag_b score_b details_b. cbv zeta.
    match goal with |- context [Evaluate _ ?ev] => set (e := ev) end.
    destruct (Evaluate (alert_manager s) e) as [mgr alerts] eqn:Ee. intros [= <- <-] Hrb. cbn [sc_run_b sc_flag_a sc_flag_b
      detectors_a last_b_run alert_manager sc_alerts].
    split_and!; [done|exact Hrb| | |by exists e].
    - intros h Hh. split_and!; [by rewrite lookup_insert_ne| |].
      + unfold last_b. case_match; [by rewrite lookup_insert_ne|done].
      + unfold Evaluate in Ee. cbn [e ev_host_id] in Ee.
        repeat (case_match; [by simplify_eq; rewrite fusion_at_set, decide_False|]).
        simplify_eq. by rewrite fusion_at_set, decide_False.
    - intros Hg. unfold last_b. rewrite Hg, lookup_insert_eq. done. }
  destruct run_b eqn:Erb.
  - destruct (Score pca_model vec) as [p|]; [|done]. cbn [mbind res_bind].
    destruct (ps_is_anomaly p); intros Hf; by eapply Hfuse in Hf.
  - intros Hf. by eapply Hfuse in Hf.
Qed.
End gating.

(** With gating, scoring a record skips detector B exactly when detector A
    saw nothing and B ran for that host less than the period ago (in whole
    milliseconds); a skipped record raises no alert and breaks the host's
    streak of anomalies; scoring touches the state of no other host. *)
Theorem gating_skips_only_quiet_records {F} `{Num F} `{!Libm F} `{!FloatFmt F}
    (config : DetectorConfig F) (pca_model : PcaModel F) (r : TelemetryRecord F) (now : time_point)
    (s s' : ScorerState F) (sc : Scored F)
    (Hgating : enable_gating (gating config) = true)
    (Hscore : score_record config pca_model r now s = Ok (s', sc)) :
  (sc_run_b sc = false <->
     sc_flag_a sc = false /\
     Z.quot (now - default 0 (last_b_run s !! r_host_id r)) 1000000 < period_ms (gating config)) /\
  (sc_run_b sc = true -> default 0 (last_b_run s' !! r_host_id r) = now) /\
  (sc_run_b sc = false -> sc_alerts sc = [] /\
     consecutive_anomalies (fusion_at (alert_manager s') (r_host_id r)) = 0 /\
     default 0 (last_b_run s' !! r_host_id r) = default 0 (last_b_run s !! r_host_id r)) /\
  (forall h, h <> r_host_id r -> detectors_a s' !! h = detectors_a s !! h /\
     last_b_run s' !! h = last_b_run s !! h /\ fusion_at (alert_manager s') h = fusion_at (alert_manager s) h).
Proof.
  destruct (score_record_ok _ _ _ _ _ _ _ Hscore) as (Hrun & Hb & Hoth & Hlast & e & He & Hts & Ha & Hfb & Hev).
  split_and!; [| | |done].
  - rewrite Hrun. unfold gate. rewrite Hgating. rewrite orb_false_iff, Z.leb_gt. done.
  - intros Hr. rewrite Hlast, Hr by done. done.
  - intros Hr. specialize (Hb Hr).
    assert (sc_flag_a sc = false) as Hfa.
    { rewrite Hrun in Hr. unfold gate in Hr. rewrite Hgating in Hr. by apply orb_false_iff in Hr as [-> _]. }
    unfold Evaluate in Hev. unfold any_flag in Hev. rewrite Ha, Hfb, Hfa, Hb in Hev. cbn [orb negb] in Hev.
    injection Hev as <- <-. rewrite He, fusion_at_set, decide_True by done. split_and!; [done|done|].
    rewrite Hlast, Hr by done. done.
Qed.

Lemma gating_skips_only_quiet_records_witness :
  let step r now s := @score_record float _ libm_example fmt_example scorer_config new_model r now s in
  let r := @sim_record float _ 1 "host-1" 20000000000 in
  exists s1 sc1, step r 20000000000 sim_init = Ok (s1, sc1) /\ sc_run_b sc1 = true /\
  exists s2 sc2, step r 21000000000 s1 = Ok (s2, sc2) /\ sc_run_b sc2 = false /\ sc_alerts sc2 = [].
Proof.
  intros step r. destruct (step r 20000000000 sim_init) as [[s1 sc1]|] eqn:E1; [|by vm_compute in E1].
  exists s1, sc1. split; [reflexivity|]. split; [vm_compute in E1; by injection E1 as <- <-|].
  destruct (step r 21000000000 s1) as [[s2 sc2]|] eqn:E2.
  2:{ vm_compute in E1. injection E1 as <- <-. by vm_compute in E2. }
  exists s2, sc2. split; [reflexivity|].
  assert (sc_run_b sc2 = false) as Hr.
  { vm_compute in E1. injection E1 as <- <-. vm_compute in E2. by injection E2 as <- <-. }
  split; [exact Hr|].
  destruct (@gating_skips_only_quiet_records float _ libm_example fmt_example scorer_config new_model r 21000000000 s1 s2 sc2
    eq_refl E2) as (_ & _ & Hq & _). apply (Hq Hr).
Defined.

(** Sharding partitions the hosts: with a positive number of shards every
    host is scored by exactly one shard, and a simulation step of any other
    shard leaves its state alone. *)
Theorem shards_partition_hosts {F} `{Num F} `{!Libm F} `{!FloatFmt F}
    (config : DetectorConfig F) (pca_model : PcaModel F) (hash : string -> Z) (num_shards : Z) (host : string)
    (Hn : 0 < num_shards < 2 ^ 31) :
  exists shard, 0 <= shard < num_shards /\ my_shard hash shard num_shards host = true /\
    forall shard', 0 <= shard' < num_shards -> shard' <> shard ->
      my_shard hash shard' num_shards host = false /\
      forall start i s, sim_step config pca_model hash shard' num_shards start i host s = Ok s.
Proof.
  exists (to_size_t (hash host) mod num_shards). pose proof (Z.mod_pos_bound (to_size_t (hash host)) num_shards ltac:(lia)) as Hm.
  set (sh := to_size_t (hash host) mod num_shards) in *.
  unfold sim_step, my_shard. rewrite (to_size_t_id num_shards) by lia. fold sh. split_and!; [lia|lia| |].
  - rewrite (to_size_t_id sh) by lia. apply Z.eqb_refl.
  - intros shard' Hs Hne. assert ((sh =? to_size_t shard') = false) as Hf.
    { rewrite (to_size_t_id shard') by lia. apply Z.eqb_neq. lia. }
    split; [done|]. intros start i s. by rewrite Hf.
Qed.

Lemma shards_partition_hosts_witness :
  exists shard, 0 <= shard < 3 /\ my_shard (fun s => Z.of_nat (String.length s)) shard 3 "host-1" = true.
Proof.
  destruct (@shards_partition_hosts float _ libm_example fmt_example scorer_config new_model
    (fun s => Z.of_nat (String.length s)) 3 "host-1" ltac:(lia)) as (shard & H1 & H2 & _).
  exists shard. split; [exact H1|exact H2].
Defined.
