(* ===== verification/SqlText.v ===== *)
(** The SQL the client writes, as text: the prepared statements of
    DbClient::PrepareStatements (src/src/db_client.cpp), character by character,
    and a lexer and a parser for the part of SQL they use: INSERT, UPDATE,
    DELETE, SELECT from one table or from two joined, and CALL. *)
From stdpp Require Import base strings list pretty.
From Stdlib Require Import ZArith Lia Ascii.
From S2P Require Import Prelude Strconv.

Local Open Scope string_scope.
Local Open Scope list_scope.

(** ** Tokens *)
Inductive token := TWord (w : string) | TParam (n : nat) | TText (s : string) | TSym (c : ascii).

Definition is_space (a : ascii) : bool := (a =? " ")%char.
Definition in_word (a : ascii) : bool :=
  let n := N_of_ascii a in
  is_digit a || ((65 <=? n)%N && (n <=? 90)%N) || ((97 <=? n)%N && (n <=? 122)%N) || (a =? "_")%char.
Definition chr (a : ascii) : string := String a "".

(** A quote inside a text is written twice: [AfterQuote] is behind a quote that
    ends the text, unless another one follows. *)
Inductive lex_state := Between | InWord (w : string) | InParam (n : nat) | InText (s : string) | AfterQuote (s : string).
(** The token that ends where the next one begins. *)
Definition flush (st : lex_state) : list token :=
  match st with InWord w => [TWord w] | InParam n => [TParam n] | AfterQuote s => [TText s] | Between | InText _ => [] end.
(** A character that continues the current token. *)
Definition joined (st : lex_state) (a : ascii) : option lex_state :=
  match st with
  | InWord w => if in_word a then Some (InWord (w +:+ chr a)) else None
  | InParam n => if is_digit a then Some (InParam (10 * n + Z.to_nat (digit_val a))) else None
  | InText t => Some (if (a =? "'")%char then AfterQuote t else InText (t +:+ chr a))
  | AfterQuote t => if (a =? "'")%char then Some (InText (t +:+ "'")) else None
  | Between => None
  end.
(** A character between tokens: a token of its own, or the start of one. *)
Definition opened (a : ascii) : list token * lex_state :=
  if is_space a then ([], Between) else if (a =? "'")%char then ([], InText "")
  else if (a =? "$")%char then ([], InParam 0) else if in_word a then ([], InWord (chr a))
  else ([TSym a], Between).
(** Lexing a text in pieces: the tokens of the first and the state it ends in. *)
Fixpoint lex_prefix (st : lex_state) (s : string) : list token * lex_state :=
  match s with
  | "" => ([], st)
  | String a s' =>
      match joined st a with
      | Some st' => lex_prefix st' s'
      | None =>
          let '(own, next) := opened a in
          let '(ts, st') := lex_prefix next s' in (flush st ++ own ++ ts, st')
      end
  end.
Definition lex (st : lex_state) (s : string) : option (list token) :=
  match lex_prefix st s with (_, InText _) => None | (ts, st') => Some (ts ++ flush st') end.

Example lex_update : lex Between "UPDATE t SET a=$12 WHERE b = 'x''y'" =
  Some [TWord "UPDATE"; TWord "t"; TWord "SET"; TWord "a"; TSym "="; TParam 12; TWord "WHERE"; TWord "b"; TSym "=";
        TText "x'y"].
Proof. reflexivity. Qed.

Lemma lex_prefix_app st s t :
  lex_prefix st (s +:+ t) =
  let '(ts, st') := lex_prefix st s in let '(ts', st'') := lex_prefix st' t in (ts ++ ts', st'').
Proof.
  revert st. induction s as [|a s IH]; intros st; [cbn [lex_prefix]; change ("" +:+ t) with t; by destruct (lex_prefix st t)|].
  change (String a s +:+ t) with (String a (s +:+ t)). cbn [lex_prefix].
  destruct (joined st a) as [st'|]; [apply IH|]. destruct (opened a) as [own next]. rewrite IH.
  destruct (lex_prefix next s) as [ts st']. destruct (lex_prefix st' t) as [ts' st'']. by rewrite <- !app_assoc.
Qed.
Lemma lex_app st s t : lex st (s +:+ t) = let '(ts, st') := lex_prefix st s in app ts <$> lex st' t.
Proof.
  unfold lex. rewrite lex_prefix_app. destruct (lex_prefix st s) as [ts st']. destruct (lex_prefix st' t) as [ts' []];
    cbn; by rewrite <- ?app_assoc.
Qed.
(** Inside a quoted text, up to its closing quote. *)
Lemma lex_quoted acc s : without "'" s = true -> lex_prefix (InText acc) s = ([], InText (acc +:+ s)).
Proof.
  revert acc. induction s as [|a s IH]; intros acc; cbn [without lex_prefix joined]; [by rewrite string_app_nil|].
  intros [Ha Hs]%andb_true_iff. apply negb_true_iff in Ha. rewrite Ha, IH by done. by rewrite string_app_assoc.
Qed.

(** ** Statements *)
Inductive expr := Param (n : nat) | Now | Ago (interval : string) | Text (s : string) | Bool (b : bool).
Inductive cond :=
  | Equals (c : string) (e : expr) | OneOf (c : string) (es : list expr)
  | Less (c : string) (e : expr) | Greater (c : string) (e : expr)
  | AtMost (c : string) (e : expr) | AtLeast (c : string) (e : expr).
Inductive direction := Asc | Desc.
Inductive statement :=
  | Insert (table : string) (columns : list string) (values : list expr) (returning : option string)
  | Update (table : string) (sets : list (string * expr)) (where_ : list cond)
  | Delete (table : string) (where_ : list cond)
  | Select (columns : list string) (table : string) (where_ : list cond) (order : option (string * direction))
      (limit offset : option expr)
  | SelectJoin (columns : list string) (table alias table' alias' : string) (on : string * string) (where_ : list cond)
      (order : option (string * direction)) (limit offset : option expr)
  | SelectCount (table : string) (where_ : list cond)
  | CallProcedure (procedure : string) (arguments : list expr).

(** ** Parsing

    A parser takes tokens from the front of a list. *)
Definition parser (A : Type) : Type := list token -> option (A * list token).
#[local] Instance parser_ret : MRet parser := fun A a ts => Some (a, ts).
#[local] Instance parser_bind : MBind parser := fun A B f p ts =>
  match p ts with Some (a, ts') => f a ts' | None => None end.

Lemma bind_reads {A B} (p : parser A) (f : A -> parser B) ts a ts' : p ts = Some (a, ts') -> (p ≫= f) ts = f a ts'.
Proof. intros E. unfold mbind, parser_bind. by rewrite E. Qed.
Lemma bind_fails {A B} (p : parser A) (f : A -> parser B) ts : p ts = None -> (p ≫= f) ts = None.
Proof. intros E. unfold mbind, parser_bind. by rewrite E. Qed.

(** Keywords are read in either case. *)
Definition keyword (w : string) : parser unit := fun ts =>
  match ts with TWord v :: ts' => if (lower v =? lower w)%string then Some (tt, ts') else None | _ => None end.
Definition sym (a : ascii) : parser unit := fun ts =>
  match ts with TSym b :: ts' => if (a =? b)%char then Some (tt, ts') else None | _ => None end.
Lemma keyword_reads w ts : keyword w (TWord w :: ts) = Some (tt, ts).
Proof. cbn. by rewrite String.eqb_refl. Qed.
Lemma keyword_fails w v ts : (lower v =? lower w)%string = false -> keyword w (TWord v :: ts) = None.
Proof. intros E. cbn. by rewrite E. Qed.
Definition name : parser string := fun ts => match ts with TWord w :: ts' => Some (w, ts') | _ => None end.
Lemma name_reads w ts : name (TWord w :: ts) = Some (w, ts).
Proof. done. Qed.
Lemma sym_reads a ts : sym a (TSym a :: ts) = Some (tt, ts).
Proof. unfold sym. by rewrite Ascii.eqb_refl. Qed.
Definition text : parser string := fun ts => match ts with TText s :: ts' => Some (s, ts') | _ => None end.
Definition param : parser nat := fun ts => match ts with TParam n :: ts' => Some (n, ts') | _ => None end.
Definition orelse {A} (p q : parser A) : parser A := fun ts => match p ts with Some r => Some r | None => q ts end.
Lemma orelse_first {A} (p q : parser A) ts r : p ts = Some r -> orelse p q ts = Some r.
Proof. intros E. unfold orelse. by rewrite E. Qed.
Lemma orelse_second {A} (p q : parser A) ts : p ts = None -> orelse p q ts = q ts.
Proof. intros E. unfold orelse. by rewrite E. Qed.
Definition optional {A} (p : parser A) : parser (option A) := orelse (a ← p; mret (Some a)) (mret None).
(** One or more, with a separator: no more than there are tokens. *)
Fixpoint separated {A} (n : nat) (sep : parser unit) (p : parser A) : parser (list A) :=
  match n with
  | O => fun _ => None
  | S n' => a ← p; orelse (_ ← sep; rest ← separated n' sep p; mret (a :: rest)) (mret [a])
  end.
Definition listed {A} (sep : parser unit) (p : parser A) : parser (list A) := fun ts => separated (length ts) sep p ts.
(** What [separated] reads: items with a separator between them, and then
    something that is no separator. *)
Fixpoint joined_by {B} (t : token) (f : B -> list token) (l : list B) : list token :=
  match l with [] => [] | [b] => f b | b :: l' => f b ++ t :: joined_by t f l' end.
Lemma listed_reads {A B} (sep : parser unit) (p : parser A) (t : token) (f : B -> list token) (g : B -> A)
    (follows : list token -> Prop) (l : list B) (ts : list token) :
  (forall b us, follows us \/ (exists us', us = t :: us') -> p (f b ++ us) = Some (g b, us)) ->
  (forall us, sep (t :: us) = Some (tt, us)) -> (forall us, follows us -> sep us = None) ->
  (forall b, f b <> []) -> l <> [] -> follows ts -> listed sep p (joined_by t f l ++ ts) = Some (g <$> l, ts).
Proof.
  intros Hp Hsep Hno Hf Hne Hts. unfold listed.
  assert (forall n, length l <= n -> separated n sep p (joined_by t f l ++ ts) = Some (g <$> l, ts)) as Hn.
  { induction l as [|b l IH]; [done|]. intros [|n] Hn; [cbn in Hn; lia|]. cbn [separated]. destruct l as [|b' l].
    - erewrite bind_reads by (apply Hp; by left). rewrite orelse_second; [done|]. by apply bind_fails, Hno.
    - assert (joined_by t f (b :: b' :: l) = f b ++ t :: joined_by t f (b' :: l)) as -> by done.
      rewrite <- app_assoc. erewrite bind_reads by (apply Hp; right; by eexists).
      apply orelse_first. erewrite bind_reads by apply Hsep. erewrite bind_reads; [done|].
      apply IH; [done|cbn in *; lia]. }
  apply Hn. rewrite length_app.
  assert (length l <= length (joined_by t f l)); [|lia]. clear - Hf. induction l as [|b [|b' l] IH]; [done|..].
  - cbn. destruct (f b) eqn:E; [by destruct (Hf b)|cbn; lia].
  - assert (joined_by t f (b :: b' :: l) = f b ++ t :: joined_by t f (b' :: l)) as -> by done.
    rewrite length_app. cbn [length] in *. lia.
Qed.
Definition parens {A} (p : parser A) : parser A := _ ← sym "("; a ← p; _ ← sym ")"; mret a.
Definition commas {A} (p : parser A) : parser (list A) := listed (sym ",") p.

(** [value::type]: a value has the type of the column it goes to, so the cast
    says nothing more. *)
Definition cast : parser (option unit) := optional (_ ← sym ":"; _ ← sym ":"; _ ← name; mret tt).
Definition now_expr : parser expr :=
  _ ← keyword "NOW"; _ ← sym "("; _ ← sym ")";
  ago ← optional (_ ← sym "-"; _ ← keyword "INTERVAL"; text);
  mret (match ago with Some i => Ago i | None => Now end).
Definition an_expr : parser expr :=
  orelse (n ← param; _ ← cast; mret (Param n))
  (orelse (s ← text; _ ← cast; mret (Text s))
  (orelse now_expr
  (orelse (_ ← keyword "true"; mret (Bool true))
          (_ ← keyword "false"; mret (Bool false))))).
(** A column, perhaps of a table with an alias. *)
Definition column_name : parser string :=
  c ← name; d ← optional (_ ← sym "."; name); mret (match d with Some d => c +:+ "." +:+ d | None => c end).
Definition a_cond : parser cond :=
  c ← column_name;
  orelse (_ ← sym "="; e ← an_expr; mret (Equals c e))
  (orelse (_ ← sym "<"; orelse (_ ← sym "="; e ← an_expr; mret (AtMost c e)) (e ← an_expr; mret (Less c e)))
  (orelse (_ ← sym ">"; orelse (_ ← sym "="; e ← an_expr; mret (AtLeast c e)) (e ← an_expr; mret (Greater c e)))
          (_ ← keyword "IN"; es ← parens (commas an_expr); mret (OneOf c es)))).
Definition where_clause : parser (list cond) :=
  w ← optional (_ ← keyword "WHERE"; listed (keyword "AND") a_cond); mret (default [] w).
Definition an_assignment : parser (string * expr) := c ← name; _ ← sym "="; e ← an_expr; mret (c, e).
Definition order_clause : parser (option (string * direction)) :=
  optional (_ ← keyword "ORDER"; _ ← keyword "BY"; c ← column_name;
            d ← optional (orelse (_ ← keyword "ASC"; mret Asc) (_ ← keyword "DESC"; mret Desc));
            mret (c, default Asc d)).
Definition after_keyword (w : string) : parser (option expr) := optional (_ ← keyword w; an_expr).

Definition an_insert : parser statement :=
  _ ← keyword "INSERT"; _ ← keyword "INTO"; t ← name; cols ← parens (commas name);
  _ ← keyword "VALUES"; values ← parens (commas an_expr);
  r ← optional (_ ← keyword "RETURNING"; name);
  mret (Insert t cols values r).
Definition an_update : parser statement :=
  _ ← keyword "UPDATE"; t ← name; _ ← keyword "SET"; sets ← commas an_assignment; w ← where_clause;
  mret (Update t sets w).
Definition a_delete : parser statement :=
  _ ← keyword "DELETE"; _ ← keyword "FROM"; t ← name; w ← where_clause; mret (Delete t w).
Definition a_select : parser statement :=
  _ ← keyword "SELECT"; cols ← commas column_name; _ ← keyword "FROM"; t ← name; w ← where_clause;
  o ← order_clause; l ← after_keyword "LIMIT"; f ← after_keyword "OFFSET"; mret (Select cols t w o l f).
(** The name of a table in a query: no keyword that may follow the table. *)
Definition reserved (w : string) : bool := existsb (String.eqb (lower w)) ["where"; "order"; "group"; "limit"; "offset"; "join"; "left"; "on"].
Definition alias : parser string := fun ts =>
  match ts with TWord w :: ts' => if reserved w then None else Some (w, ts') | _ => None end.
Definition a_join : parser statement :=
  _ ← keyword "SELECT"; cols ← commas column_name; _ ← keyword "FROM"; t ← name; a ← alias; _ ← keyword "JOIN"; u ← name; b ← alias;
  _ ← keyword "ON"; x ← column_name; _ ← sym "="; y ← column_name; w ← where_clause;
  o ← order_clause; l ← after_keyword "LIMIT"; f ← after_keyword "OFFSET"; mret (SelectJoin cols t a u b (x, y) w o l f).
Definition a_count : parser statement :=
  _ ← keyword "SELECT"; _ ← keyword "COUNT"; _ ← parens (sym "*"); _ ← keyword "FROM"; t ← name; w ← where_clause;
  mret (SelectCount t w).
Definition a_call : parser statement :=
  _ ← keyword "CALL"; p ← name; args ← parens (commas an_expr); mret (CallProcedure p args).
Definition a_statement : parser statement :=
  orelse an_insert (orelse an_update (orelse a_delete (orelse a_count (orelse a_join (orelse a_select a_call))))).
Definition parse (s : string) : option statement :=
  ts ← lex Between s; match a_statement ts with Some (st, []) => Some st | _ => None end.

(** The number of parameters a statement takes: the largest [$n]. *)
Definition params_of_expr (e : expr) : nat := match e with Param n => n | _ => O end.
Definition params_of_cond (c : cond) : list expr :=
  match c with Equals _ e | Less _ e | Greater _ e | AtMost _ e | AtLeast _ e => [e] | OneOf _ es => es end.
Definition exprs_of (st : statement) : list expr :=
  match st with
  | Insert _ _ vs _ => vs
  | Update _ sets w => sets.*2 ++ concat (params_of_cond <$> w)
  | Delete _ w | SelectCount _ w => concat (params_of_cond <$> w)
  | Select _ _ w _ l o | SelectJoin _ _ _ _ _ _ w _ l o => concat (params_of_cond <$> w) ++ option_list l ++ option_list o
  | CallProcedure _ args => args
  end.
Definition params_of (st : statement) : nat := foldr (fun e n => Nat.max (params_of_expr e) n) O (exprs_of st).

(** ** The prepared statements *)
Definition PrepareStatements : list (string * string) :=
  [("insert_generation_run",
     "INSERT INTO generation_runs (run_id, tier, host_count, start_time, end_time, interval_seconds, seed, status, config, request_id) " +:+
     "VALUES ($1, $2, $3, $4, $5, $6, $7, $8, $9, $10)");
   ("update_generation_run",
     "UPDATE generation_runs SET status = $1, inserted_rows = $2, updated_at = NOW() WHERE run_id = $3");
   ("update_generation_run_error",
     "UPDATE generation_runs SET status = $1, inserted_rows = $2, error = $3, updated_at = NOW() WHERE run_id = $4");
   ("get_run_status",
     "SELECT status, inserted_rows, error, request_id FROM generation_runs WHERE run_id = $1");
   ("heartbeat_generation",
     "UPDATE generation_runs SET updated_at = NOW() WHERE run_id = $1");
   ("heartbeat_model_run",
     "UPDATE model_runs SET updated_at = NOW() WHERE model_run_id = $1");
   ("heartbeat_score_job",
     "UPDATE dataset_score_jobs SET updated_at = NOW() WHERE job_id = $1");
   ("insert_alert",
     "INSERT INTO alerts (host_id, run_id, timestamp, severity, detector_source, score, details) " +:+
     "VALUES ($1, $2, $3::timestamptz, $4, $5, $6, $7::jsonb)");
   ("insert_model_run",
     "INSERT INTO model_runs (dataset_id, name, status, request_id, training_config, hpo_config, candidate_fingerprint, generator_version, seed_used) " +:+
     "VALUES ($1, $2, 'PENDING', $3, $4, $5, $6, $7, $8) RETURNING model_run_id");
   ("insert_hpo_trial",
     "INSERT INTO model_runs (dataset_id, name, status, request_id, training_config, parent_run_id, trial_index, trial_params) " +:+
     "VALUES ($1, $2, 'PENDING', $3, $4, $5, $6, $7) RETURNING model_run_id");
   ("update_model_run_completed",
     "UPDATE model_runs SET status=$1, artifact_path=$2, completed_at=NOW(), updated_at=NOW() WHERE model_run_id=$3");
   ("update_model_run_failed",
     "UPDATE model_runs SET status=$1, error=$2, error_summary=$3, completed_at=NOW(), updated_at=NOW() WHERE model_run_id=$4");
   ("update_model_run_status",
     "UPDATE model_runs SET status=$1, updated_at=NOW() WHERE model_run_id=$2");
   ("get_model_run",
     "SELECT model_run_id, dataset_id, name, status, artifact_path, error, created_at, completed_at, request_id, training_config, " +:+
     "hpo_config, parent_run_id, trial_index, trial_params, " +:+
     "best_trial_run_id, best_metric_value, best_metric_name, " +:+
     "selection_metric_direction, tie_break_basis, is_eligible, eligibility_reason, selection_metric_value, " +:+
     "candidate_fingerprint, generator_version, seed_used, " +:+
     "error_summary, error_aggregates, " +:+
     "selection_metric_source, selection_metric_computed_at " +:+
     "FROM model_runs WHERE model_run_id = $1");
   ("update_best_trial",
     "UPDATE model_runs SET best_trial_run_id=$1, best_metric_value=$2, best_metric_name=$3, " +:+
     "selection_metric_direction=$4, tie_break_basis=$5 WHERE model_run_id=$6");
   ("update_trial_eligibility",
     "UPDATE model_runs SET is_eligible=$1, eligibility_reason=$2, selection_metric_value=$3, " +:+
     "selection_metric_source=$4, selection_metric_computed_at=NOW() " +:+
     "WHERE model_run_id=$5");
   ("update_error_aggregates",
     "UPDATE model_runs SET error_aggregates=$1 WHERE model_run_id=$2");
   ("get_hpo_trials_paginated",
     "SELECT model_run_id, status, trial_index, trial_params, created_at, completed_at, error, " +:+
     "is_eligible, eligibility_reason, selection_metric_value, selection_metric_source, error_summary, dataset_id, name, training_config " +:+
     "FROM model_runs WHERE parent_run_id = $1 ORDER BY trial_index ASC LIMIT $2 OFFSET $3");
   ("insert_inference_run",
     "INSERT INTO inference_runs (model_run_id, status) VALUES ($1, 'RUNNING') RETURNING inference_id");
   ("update_inference_run",
     "UPDATE inference_runs SET status=$1, anomaly_count=$2, details=$3::jsonb, latency_ms=$4 WHERE inference_id=$5");
   ("get_inference_run",
     "SELECT inference_id, model_run_id, status, anomaly_count, latency_ms, details, created_at " +:+
     "FROM inference_runs WHERE inference_id = $1");
   ("get_models_for_dataset",
     "SELECT model_run_id, name, status, created_at FROM model_runs WHERE dataset_id = $1 ORDER BY created_at DESC");
   ("get_scored_datasets_for_model",
     "SELECT DISTINCT ds.dataset_id, gr.created_at, ds.scored_at " +:+
     "FROM dataset_scores ds JOIN generation_runs gr ON ds.dataset_id = gr.run_id " +:+
     "WHERE ds.model_run_id = $1 ORDER BY ds.scored_at DESC");
   ("get_dataset_detail",
     "SELECT run_id, status, inserted_rows, created_at, start_time, end_time, interval_seconds, host_count, tier, error, request_id " +:+
     "FROM generation_runs WHERE run_id = $1");
   ("get_dataset_samples",
     "SELECT cpu_usage, memory_usage, disk_utilization, network_rx_rate, network_tx_rate, metric_timestamp, host_id " +:+
     "FROM host_telemetry_archival WHERE run_id = $1 ORDER BY metric_timestamp DESC LIMIT $2");
   ("get_dataset_record",
     "SELECT cpu_usage, memory_usage, disk_utilization, network_rx_rate, network_tx_rate, metric_timestamp, host_id, labels " +:+
     "FROM host_telemetry_archival WHERE run_id = $1 AND record_id = $2");
   ("check_score_job_exists",
     "SELECT job_id FROM dataset_score_jobs WHERE dataset_id = $1 AND model_run_id = $2 " +:+
     "AND status IN ('PENDING', 'RUNNING')");
   ("insert_score_job",
     "INSERT INTO dataset_score_jobs (dataset_id, model_run_id, status, request_id) " +:+
     "VALUES ($1, $2, 'PENDING', $3) RETURNING job_id");
   ("update_score_job_completed",
     "UPDATE dataset_score_jobs SET status=$1, total_rows=$2, processed_rows=$3, last_record_id=$4, updated_at=NOW(), completed_at=NOW() " +:+
     "WHERE job_id=$5");
   ("update_score_job_error",
     "UPDATE dataset_score_jobs SET status=$1, total_rows=$2, processed_rows=$3, last_record_id=$4, error=$5, updated_at=NOW() " +:+
     "WHERE job_id=$6");
   ("update_score_job_status",
     "UPDATE dataset_score_jobs SET status=$1, total_rows=$2, processed_rows=$3, last_record_id=$4, updated_at=NOW() " +:+
     "WHERE job_id=$5");
   ("get_score_job",
     "SELECT job_id, dataset_id, model_run_id, status, total_rows, processed_rows, last_record_id, error, created_at, updated_at, completed_at, request_id " +:+
     "FROM dataset_score_jobs WHERE job_id = $1");
   ("fetch_scoring_rows",
     "SELECT record_id, is_anomaly, cpu_usage, memory_usage, disk_utilization, network_rx_rate, network_tx_rate " +:+
     "FROM host_telemetry_archival WHERE run_id = $1 AND record_id > $2 ORDER BY record_id ASC LIMIT $3");
   ("transition_model_run_status",
     "UPDATE model_runs SET status = $1 WHERE model_run_id = $2 AND status = $3");
   ("transition_score_job_status",
     "UPDATE dataset_score_jobs SET status = $1, updated_at = NOW() WHERE job_id = $2 AND status = $3");
   ("get_eval_metrics",
     "SELECT s.reconstruction_error, s.predicted_is_anomaly, h.is_anomaly " +:+
     "FROM dataset_scores s JOIN host_telemetry_archival h ON s.record_id = h.record_id " +:+
     "WHERE s.dataset_id = $1 AND s.model_run_id = $2");
   ("delete_dataset_scores",
     "DELETE FROM dataset_scores WHERE dataset_id = $1");
   ("delete_dataset_score_jobs",
     "DELETE FROM dataset_score_jobs WHERE dataset_id = $1");
   ("delete_host_telemetry",
     "DELETE FROM host_telemetry_archival WHERE run_id = $1");
   ("delete_alerts",
     "DELETE FROM alerts WHERE run_id = $1");
   ("delete_model_runs",
     "DELETE FROM model_runs WHERE dataset_id = $1");
   ("delete_generation_run",
     "DELETE FROM generation_runs WHERE run_id = $1");
   ("get_dataset_record_count",
     "SELECT COUNT(*) FROM host_telemetry_archival WHERE run_id = $1");
   ("get_non_anomaly_count",
     "SELECT COUNT(*) FROM host_telemetry_archival WHERE run_id = $1 AND is_anomaly = false");
   ("get_telemetry_batch",
     "SELECT record_id, cpu_usage, memory_usage, disk_utilization, network_rx_rate, network_tx_rate " +:+
     "FROM host_telemetry_archival " +:+
     "WHERE run_id = $1 AND record_id > $2 " +:+
     "ORDER BY record_id " +:+
     "LIMIT $3");
   ("call_cleanup",
     "CALL cleanup_old_telemetry($1::INT)")].
