(* ===== verification/Sql.v ===== *)
(** The relational store the services share, at the level of the SQL statements
    of src/src/db_client.cpp and the schema of src/db/init.sql: tables of
    rows, WHERE clauses, INSERT, UPDATE and DELETE with their constraints, a
    transaction that takes effect as a whole or not at all, and the conversion
    of columns to JSON fields.

    A row maps column names to values.  The database server itself is not part
    of the repository: the ids it generates and the way it prints a timestamp
    are the parameters of class [Postgres], and every call takes the fault, if
    any, that the server or the connection raises during it. *)
From stdpp Require Import base gmap strings list fin_maps numbers pretty.
From Stdlib Require Import ZArith Lia.
From S2P Require Import Prelude Num Json.

Local Open Scope string_scope.
Local Open Scope list_scope.

Inductive sql (F : Type) :=
  | SNull | SText (s : string) | SInt (z : Z) | SBool (b : bool)
  | SDouble (x : F) | SJson (j : json F) | STime (t : Z).
Arguments SNull {F}.
Arguments SText {F} s.
Arguments SInt {F} z.
Arguments SBool {F} b.
Arguments SDouble {F} x.
Arguments SJson {F} j.
Arguments STime {F} t.

(** What the source needs of the server: [uuid_generate_v4()] never repeats an
    id and never returns the empty string; timestamps are printed as text. *)
Class Postgres := {
  uuid : nat -> string;
  uuid_inj : Inj (=) (=) uuid;
  uuid_nonempty n : uuid n <> "";
  time_text : Z -> string }.
#[global] Existing Instance uuid_inj.

(** A concrete server: numbered ids, timestamps in decimal. *)
Definition pg_uuid (n : nat) : string := "id-" +:+ pretty n.
#[global] Instance pg_uuid_inj : Inj (=) (=) pg_uuid.
Proof.
  intros n m Heq. apply (inj pretty). by apply (inj (String.append "id-")) in Heq.
Qed.
Definition pg_example : Postgres :=
  {| uuid := pg_uuid; uuid_inj := pg_uuid_inj;
     uuid_nonempty n := fun Heq => ltac:(discriminate Heq); time_text := pretty |}.

Section store.
Context {F : Type} `{Num F}.

Definition Row : Type := gmap string (sql F).
Definition column (r : Row) (c : string) : sql F := default SNull (r !! c).
Definition set_columns (l : list (string * sql F)) (r : Row) : Row :=
  foldr (fun kv r' => <[kv.1 := kv.2]> r') r l.
Definition new_row (l : list (string * sql F)) : Row := set_columns l ∅.

(** [c = 's'] in a WHERE clause. *)
Definition text_is (c s : string) (r : Row) : bool :=
  match column r c with SText t => (t =? s)%string | _ => false end.
Definition text_in (c : string) (ss : list string) (r : Row) : bool :=
  existsb (fun s => text_is c s r) ss.
Definition int_of (c : string) (r : Row) : Z := match column r c with SInt z => z | _ => 0 end.
Definition bool_of (c : string) (r : Row) : bool := match column r c with SBool b => b | _ => false end.
Definition double_of (c : string) (r : Row) : F := match column r c with SDouble x => x | _ => 0%num end.
Definition time_of (c : string) (r : Row) : Z := match column r c with STime t => t | _ => 0 end.
Definition text_of (c : string) (r : Row) : string := match column r c with SText s => s | _ => "" end.

(** [NULL] when the source binds a null pointer. *)
Definition text_or_null (s : string) : sql F := if (s =? "")%string then SNull else SText s.
Definition opt_value {A} (f : A -> sql F) (o : option A) : sql F := match o with Some a => f a | None => SNull end.

Record Store := MkStore {
  tables : gmap string (list Row); next_uuid : nat; next_record_id : Z; next_score_id : Z }.
Definition rows (s : Store) (t : string) : list Row := default [] (tables s !! t).
Definition put (t : string) (rs : list Row) (s : Store) : Store :=
  MkStore (<[t := rs]> (tables s)) (next_uuid s) (next_record_id s) (next_score_id s).
Definition empty_store : Store := MkStore ∅ 0 1 1.

(** [REFERENCES] clauses of the schema: table, column, referenced table, key. *)
Definition foreign_keys : list (string * string * string * string) :=
  [("host_telemetry_archival", "run_id", "generation_runs", "run_id");
   ("model_runs", "dataset_id", "generation_runs", "run_id");
   ("model_runs", "parent_run_id", "model_runs", "model_run_id");
   ("model_runs", "best_trial_run_id", "model_runs", "model_run_id");
   ("inference_runs", "model_run_id", "model_runs", "model_run_id");
   ("dataset_score_jobs", "dataset_id", "generation_runs", "run_id");
   ("dataset_score_jobs", "model_run_id", "model_runs", "model_run_id");
   ("dataset_scores", "dataset_id", "generation_runs", "run_id");
   ("dataset_scores", "model_run_id", "model_runs", "model_run_id")].

Definition reference_ok (s : Store) (fk : string * string * string * string) (r : Row) : bool :=
  let '(_, c, target, key) := fk in
  match column r c with
  | SNull => true
  | SText v => existsb (text_is key v) (rows s target)
  | _ => false
  end.
Definition references_of (t : string) : list (string * string * string * string) :=
  filter (fun fk => fk.1.1.1 = t) foreign_keys.
Definition references_to (t : string) : list (string * string * string * string) :=
  filter (fun fk => fk.1.2 = t) foreign_keys.
Definition all_references_ok (s : Store) (fks : list (string * string * string * string)) : bool :=
  forallb (fun fk => forallb (reference_ok s fk) (rows s fk.1.1.1)) fks.
(** Referential integrity. *)
Definition intact (s : Store) : Prop := all_references_ok s foreign_keys = true.

Definition sql_error {A} (msg : string) : res A := Throw (Exn PqSqlError msg).

(** One SQL statement each: the effect, and the constraint check at its end. *)
Definition insert_row (t : string) (r : Row) (s : Store) : res Store :=
  if forallb (fun fk => reference_ok s fk r) (references_of t)
  then Ok (put t (rows s t ++ [r]) s)
  else sql_error "insert violates foreign key constraint".
Definition update_rows (t : string) (where_ : Row -> bool) (set_ : Row -> Row) (s : Store) : Store * Z :=
  (put t ((fun r => if where_ r then set_ r else r) <$> rows s t) s,
   Z.of_nat (countb where_ (rows s t))).
Definition delete_rows (t : string) (where_ : Row -> bool) (s : Store) : res Store :=
  let s' := put t (filter (fun r => where_ r = false) (rows s t)) s in
  if all_references_ok s' (references_to t) then Ok s'
  else sql_error "delete violates foreign key constraint".

(** [uuid_generate_v4()] and the serial columns. *)
Definition draw_uuid `{Postgres} (s : Store) : string * Store :=
  (uuid (next_uuid s), MkStore (tables s) (S (next_uuid s)) (next_record_id s) (next_score_id s)).
Definition draw_record_id (s : Store) : Z * Store :=
  (next_record_id s, MkStore (tables s) (next_uuid s) (next_record_id s + 1) (next_score_id s)).
Definition draw_score_id (s : Store) : Z * Store :=
  (next_score_id s, MkStore (tables s) (next_uuid s) (next_record_id s) (next_score_id s + 1)).

(** A call of the client: the fault that hits it, and the server's clock in
    microseconds ([NOW()]). *)
Record Call := MkCall { c_fault : option exn; c_now : Z }.

(** [pqxx::work W(C); ...; W.commit();]: an exception at any point rolls back. *)
Definition work {A} (c : Call) (body : Store -> res (Store * A)) (s : Store) : Store * res A :=
  match c_fault c with
  | Some e => (s, Throw e)
  | None => match body s with
            | Ok (s', a) => (s', Ok a)
            | Throw e => (s, Throw e)
            end
  end.
(** [catch (const std::exception& e) { spdlog::error(...); }]: the call
    returns, and what it did not do goes unnoticed. *)
Definition swallowed {A} (r : Store * res A) : Store := r.1.
(** [pqxx::nontransaction N(C); ...]: a read. *)
Definition query {A} (c : Call) (s : Store) (body : Store -> res A) : res A :=
  match c_fault c with Some e => Throw e | None => body s end.
End store.
Arguments Row : clear implicits.
Arguments Store : clear implicits.
Arguments MkStore {F}.
Arguments empty_store {F}.

Create Rewrite HintDb sql.

(** ** Columns to JSON fields *)
Section fields.
Context {F : Type} `{Num F} `{Postgres}.

(** The conversions the source applies to a column. *)
Inductive conv :=
  | AsText | AsTextOrEmpty | AsTextOrNull
  | AsInt | AsIntOrNull
  | AsDouble | AsDoubleOrNull | AsDoubleOrZero
  | AsBool
  | AsJson | AsJsonOrNull | AsJsonOrObject | AsJsonOrArray.

Definition conversion_error {A} : res A := Throw (Exn OtherException "conversion error").

(** [as<std::string>()] of a TEXT, UUID or TIMESTAMPTZ column. *)
Definition as_text (v : sql F) : res (json F) :=
  match v with
  | SText s => Ok (JStr s) | STime t => Ok (JStr (time_text t)) | _ => conversion_error end.
Definition as_int (v : sql F) : res (json F) :=
  match v with SInt z => Ok (JInt z) | _ => conversion_error end.
Definition as_double (v : sql F) : res (json F) :=
  match v with SDouble x => Ok (JNum x) | _ => conversion_error end.
(** [nlohmann::json::parse(as<std::string>())] of a JSONB column. *)
Definition as_json (v : sql F) : res (json F) :=
  match v with SJson j => Ok j | _ => conversion_error end.

Definition if_null (dflt : json F) (f : sql F -> res (json F)) (v : sql F) : res (json F) :=
  match v with SNull => Ok dflt | _ => f v end.

Definition convert (k : conv) : sql F -> res (json F) :=
  match k with
  | AsText => as_text
  | AsTextOrEmpty => if_null (JStr "") as_text
  | AsTextOrNull => if_null JNull as_text
  | AsInt => as_int
  | AsIntOrNull => if_null JNull as_int
  | AsDouble => as_double
  | AsDoubleOrNull => if_null JNull as_double
  | AsDoubleOrZero => if_null (JNum 0%num) as_double
  | AsBool => fun v => match v with SBool b => Ok (JBool b) | _ => conversion_error end
  | AsJson => as_json
  | AsJsonOrNull => if_null JNull as_json
  | AsJsonOrObject => if_null (JObj []) as_json
  | AsJsonOrArray => if_null (JArr []) as_json
  end.

(** A field of the answer: its key, the column it comes from, the conversion. *)
Definition field : Type := string * string * conv.
Definition same (k : conv) (c : string) : field := (c, c, k).

(** [j["k1"] = row[0].as<T1>(); j["k2"] = ...]: on an exception the object
    keeps the fields assigned before it. *)
Fixpoint read_fields (fs : list field) (r : Row F) (acc : list (string * json F))
  : list (string * json F) * option exn :=
  match fs with
  | [] => (acc, None)
  | (key, c, k) :: fs' =>
      match convert k (column r c) with
      | Ok v => read_fields fs' r (obj_insert key v acc)
      | Throw e => (acc, Some e)
      end
  end.
(** An object that never got a field is still null. *)
Definition built (l : list (string * json F)) : json F := match l with [] => JNull | _ => JObj l end.
Definition read_row (fs : list field) (r : Row F) : json F * option exn :=
  let '(l, e) := read_fields fs r [] in (built l, e).

(** [for (const auto& row : res) { ...; out.push_back(j); }]. *)
Fixpoint read_rows (fs : list field) (rs : list (Row F)) : list (json F) * option exn :=
  match rs with
  | [] => ([], None)
  | r :: rs' =>
      match read_row fs r with
      | (j, None) => let '(js, e) := read_rows fs rs' in (j :: js, e)
      | (_, Some e) => ([], Some e)
      end
  end.

(** A getter of one object by key that swallows every exception. *)
Definition get_one (c : Call) (fs : list field) (found : list (Row F)) : json F :=
  match c_fault c with
  | Some _ => JNull
  | None => match found with [] => JNull | r :: _ => (read_row fs r).1 end
  end.
(** The same, rethrowing. *)
Definition get_one_or_throw (c : Call) (fs : list field) (found : list (Row F)) : res (json F) :=
  match c_fault c with
  | Some e => Throw e
  | None => match found with
            | [] => Ok JNull
            | r :: _ => match read_row fs r with (j, None) => Ok j | (_, Some e) => Throw e end
            end
  end.
Definition get_many (c : Call) (fs : list field) (found : list (Row F)) : json F :=
  match c_fault c with Some _ => JArr [] | None => JArr (read_rows fs found).1 end.
Definition get_many_or_throw (c : Call) (fs : list field) (found : list (Row F)) : res (json F) :=
  match c_fault c with
  | Some e => Throw e
  | None => match read_rows fs found with (js, None) => Ok (JArr js) | (_, Some e) => Throw e end
  end.

(** [LIMIT l OFFSET o]: the server refuses negative values. *)
Definition limit_offset {A} (limit offset : Z) (l : list A) : res (list A) :=
  if ((limit <? 0) || (offset <? 0))%Z%bool then sql_error "LIMIT or OFFSET must not be negative"
  else Ok (take (Z.to_nat limit) (drop (Z.to_nat offset) l)).
End fields.

Section store_lemmas.
Context {F : Type} `{Num F}.
Implicit Types (s : Store F) (r : Row F) (t c : string).

Lemma rows_put_eq t rs s : rows (put t rs s) t = rs.
Proof. unfold rows, put. cbn [tables]. by rewrite lookup_insert_eq. Qed.
Lemma rows_put_ne t t' rs s : t <> t' -> rows (put t rs s) t' = rows s t'.
Proof. intros Hne. unfold rows, put. cbn [tables]. by rewrite lookup_insert_ne. Qed.

Lemma column_insert_eq c v r : column (<[c := v]> r) c = v.
Proof. unfold column, Row. by rewrite lookup_insert_eq. Qed.
Lemma column_insert_ne c c' v r : c <> c' -> column (<[c := v]> r) c' = column r c'.
Proof. intros. unfold column, Row. by rewrite lookup_insert_ne. Qed.

Lemma column_set_columns_other l r c : c ∉ l.*1 -> column (set_columns l r) c = column r c.
Proof.
  induction l as [|[k v] l IH]; cbn; [done|]. intros [Hne Hn]%not_elem_of_cons.
  rewrite column_insert_ne by done. by apply IH.
Qed.

Lemma text_is_true c v r : text_is c v r = true <-> column r c = SText v.
Proof.
  unfold text_is. destruct (column r c); split; intros E; try discriminate.
  - by apply String.eqb_eq in E as ->.
  - injection E as ->. by apply String.eqb_eq.
Qed.
Lemma text_is_unique c v w r : text_is c v r = true -> text_is c w r = true -> v = w.
Proof. rewrite !text_is_true. congruence. Qed.

Lemma fmap_id_on {A} (f : A -> A) (l : list A) : (forall x, x ∈ l -> f x = x) -> f <$> l = l.
Proof.
  induction l as [|x l IH]; intros Hf; [done|]. cbn. rewrite Hf by (by left).
  f_equal. apply IH. intros y Hy. apply Hf. by right.
Qed.

(** The rows an UPDATE leaves in the other tables and the columns it keeps. *)
Lemma update_rows_other t t' p f s : t <> t' -> rows (update_rows t p f s).1 t' = rows s t'.
Proof. apply rows_put_ne. Qed.
Lemma update_rows_eq t p f s :
  rows (update_rows t p f s).1 t = (fun r => if p r then f r else r) <$> rows s t.
Proof. apply rows_put_eq. Qed.

Lemma forallb_filter {A} (p : A -> bool) (P : A -> Prop) `{!forall x, Decision (P x)} l :
  forallb p l = true -> forallb p (filter P l) = true.
Proof.
  rewrite !forallb_forall. intros Hall x Hx. apply Hall.
  apply list_elem_of_In, list_elem_of_filter in Hx as [_ Hx]. by apply list_elem_of_In.
Qed.

(** A transaction that throws leaves no trace. *)
Lemma work_throw {A} (c : Call) (body : Store F -> res (Store F * A)) s s' (e : exn) :
  work c body s = (s', Throw e) -> s' = s.
Proof.
  unfold work. destruct (c_fault c); [congruence|]. destruct (body s) as [[s1 a]|e']; congruence.
Qed.
Lemma work_ok {A} (c : Call) (body : Store F -> res (Store F * A)) s s' a :
  work c body s = (s', Ok a) -> c_fault c = None /\ body s = Ok (s', a).
Proof.
  unfold work. destruct (c_fault c); [discriminate|]. destruct (body s) as [[s1 a']|e']; [|discriminate].
  intros [= -> ->]. done.
Qed.
(** A call that executes one UPDATE and swallows exceptions. *)
Lemma swallowed_update (c : Call) t p f s :
  swallowed (work c (fun s => Ok (update_rows t p f s)) s) =
  match c_fault c with Some _ => s | None => (update_rows t p f s).1 end.
Proof. unfold work. by destruct (c_fault c). Qed.
End store_lemmas.
#[export] Hint Rewrite @rows_put_eq @column_insert_eq : sql.
#[export] Hint Rewrite @rows_put_ne @column_insert_ne using done : sql.

Ltac sql_simpl := autorewrite with sql.

(** ** What an object read from a row holds *)
Section field_lemmas.
Context {F : Type} `{Num F} `{Postgres}.
Implicit Types (r : Row F) (fs : list field).

Lemma read_fields_keep fs r acc key : key ∉ (fun f : field => f.1.1) <$> fs ->
  obj_lookup key (read_fields fs r acc).1 = obj_lookup key acc.
Proof.
  revert acc. induction fs as [|[[k c] conv] fs IH]; intros acc Hk; [done|]. cbn in *.
  apply not_elem_of_cons in Hk as [Hne Hk]. destruct (convert conv (column r c)) as [v|e]; [|done].
  rewrite IH by done. by apply obj_lookup_insert_ne.
Qed.
Lemma read_fields_lookup fs r acc key c k : NoDup ((fun f : field => f.1.1) <$> fs) ->
  (read_fields fs r acc).2 = None -> (key, c, k) ∈ fs ->
  exists v, convert k (column r c) = Ok v /\ obj_lookup key (read_fields fs r acc).1 = Some v.
Proof.
  revert acc. induction fs as [|[[key' c'] k'] fs IH]; intros acc Hnd Hok Hin; [by apply not_elem_of_nil in Hin|].
  cbn [fmap list_fmap fst read_fields] in *. apply NoDup_cons in Hnd as [Hnin Hnd].
  destruct (convert k' (column r c')) as [v|e] eqn:E; [|done].
  apply elem_of_cons in Hin as [[= -> -> ->]|Hin].
  - exists v. split; [done|]. rewrite read_fields_keep by done. apply obj_lookup_insert_eq.
  - by apply IH.
Qed.
(** A row that is read completely: each field is there, converted. *)
Lemma row_field fs r key c k : NoDup ((fun f : field => f.1.1) <$> fs) ->
  (read_row fs r).2 = None -> (key, c, k) ∈ fs ->
  exists v l, convert k (column r c) = Ok v /\ (read_row fs r).1 = JObj l /\ obj_lookup key l = Some v.
Proof.
  unfold read_row. intros Hnd Hok Hin. pose proof (read_fields_lookup fs r [] key c k Hnd) as Hl.
  destruct (read_fields fs r []) as [l e]. cbn [fst snd] in *. destruct (Hl Hok Hin) as (v & Hv & Hk).
  exists v, l. split_and!; [done| |done]. by destruct l.
Qed.
(** However far the reading of a row got, what a field holds was converted from
    one of its columns. *)
Lemma read_fields_source fs r acc key v : obj_lookup key (read_fields fs r acc).1 = Some v ->
  (exists c k, (key, c, k) ∈ fs /\ convert k (column r c) = Ok v) \/ obj_lookup key acc = Some v.
Proof.
  revert acc. induction fs as [|[[key' c'] k'] fs IH]; intros acc; cbn [read_fields]; [by right|].
  destruct (convert k' (column r c')) as [v'|e] eqn:E; [|by right]. intros [(c & k & Hin & Hk)|Hacc]%IH.
  - left. exists c, k. split; [by right|done].
  - destruct (decide (key = key')) as [->|Hne]; [|right; by rewrite obj_lookup_insert_ne in Hacc].
    rewrite obj_lookup_insert_eq in Hacc. injection Hacc as <-. left. exists c', k'. split; [by left|done].
Qed.
Lemma value_source c fs (rs : list (Row F)) key dflt (p : string) :
  jvalue get_string key dflt (get_one c fs rs) = Ok p ->
  p = dflt \/ exists r rs' col k, rs = r :: rs' /\ (key, col, k) ∈ fs /\ convert k (column r col) = Ok (JStr p).
Proof.
  unfold get_one, read_row. destruct (c_fault c); [done|]. destruct rs as [|r rs]; [done|].
  pose proof (read_fields_source fs r [] key) as Hs. destruct (read_fields fs r []) as [l e]. cbn [fst] in *.
  unfold built. destruct l as [|kv l]; [done|]. cbn [jvalue]. destruct (obj_lookup key (kv :: l)) as [v|]; [|intros [= <-]; by left].
  destruct (Hs v eq_refl) as [(col & k & Hin & Hk)|?]; [|done]. destruct v; try discriminate. intros [= <-]. right. by exists r, rs, col, k.
Qed.
End field_lemmas.
