(* ===== verification/DbClient.v ===== *)
(** The calls of class DbClient (src/src/db_client.cpp) that change the store,
    and the reads the workers depend on: each is one transaction on [Store],
    with the statement it executes, its constraint checks, and whether an
    exception reaches the caller or is logged and dropped.

    A [void] call that swallows exceptions is a function to the new store; a
    call that rethrows, or returns a value, also gives its result. *)
From stdpp Require Import base gmap strings list fin_maps.
From Stdlib Require Import ZArith Lia.
From S2P Require Import Prelude Num Detectors Alerts Json Generator Sql.

Local Open Scope string_scope.
Local Open Scope list_scope.

(** How the server reads the text of a JSONB and of a TIMESTAMPTZ value; [None]
    when it rejects it. *)
Class PgInput (F : Type) := {
  jsonb_in : string -> option (json F);
  timestamptz_in : string -> option Z }.
Definition pg_input_example (F : Type) : PgInput F :=
  {| jsonb_in _ := Some (JObj []); timestamptz_in s := Some (ParseTime s / 1000)%Z |}.

Inductive JobType := Generation | ModelRun | ScoreJob.

Definition IsValidMetric (metric : string) : bool :=
  existsb (String.eqb metric)
    ["cpu_usage"; "memory_usage"; "disk_utilization"; "network_rx_rate"; "network_tx_rate"].
Definition IsValidDimension (dim : string) : bool :=
  existsb (String.eqb dim)
    ["region"; "project_id"; "host_id"; "anomaly_type";
     "h.region"; "h.project_id"; "h.host_id"; "h.anomaly_type"].
Definition IsValidAggregation (agg : string) : bool :=
  existsb (String.eqb agg) ["mean"; "min"; "max"; "p50"; "p95"].

Section client.
Context {F : Type} `{Num F} `{Postgres} `{PgInput F}.

(** A JSONB value bound from [dump()]. *)
Definition jsonb (j : json F) : sql F := SJson (as_written j).
(** [!j.is_null() && !j.empty()]: null and the empty containers are empty. *)
Definition json_empty (j : json F) : bool :=
  match j with JNull | JArr [] | JObj [] => true | _ => false end.
Definition jsonb_or_null (j : json F) : sql F := if json_empty j then SNull else jsonb j.

Definition or_sql_error {A} (o : option A) : res A :=
  match o with Some a => Ok a | None => sql_error "invalid input syntax" end.

(** ** Generation runs *)
Definition CreateRun (c : Call) (run_id : string) (config : GenerateRequest F) (config_json : json F)
    (status request_id : string) (s : Store F) : Store F :=
  swallowed (work c (fun s =>
    start ← or_sql_error (timestamptz_in (start_time_iso config));
    finish ← or_sql_error (timestamptz_in (end_time_iso config));
    if existsb (text_is "run_id" run_id) (rows s "generation_runs")
    then sql_error "duplicate key value violates unique constraint"
    else
      s' ← insert_row "generation_runs" (new_row
        [("run_id", SText run_id); ("tier", SText (tier config)); ("host_count", SInt (host_count config));
         ("start_time", STime start); ("end_time", STime finish);
         ("interval_seconds", SInt (interval_seconds config)); ("seed", SInt (rq_seed config));
         ("status", SText status); ("config", jsonb config_json); ("request_id", SText request_id);
         ("inserted_rows", SInt 0); ("created_at", STime (c_now c)); ("updated_at", STime (c_now c))]) s;
      Ok (s', tt)) s).

Definition UpdateRunStatus (c : Call) (run_id status : string) (inserted_rows : Z) (error : string)
    (s : Store F) : Store F :=
  swallowed (work c (fun s =>
    Ok (update_rows "generation_runs" (text_is "run_id" run_id)
          (set_columns ([("status", SText status); ("inserted_rows", SInt inserted_rows);
                         ("updated_at", STime (c_now c))]
                        ++ if (error =? "")%string then [] else [("error", SText error)])) s)) s).

Record RunStatus := MkRunStatus {
  rs_run_id : string; rs_status : string; rs_inserted_rows : Z; rs_error : string; rs_request_id : string }.
Definition GetRunStatus (c : Call) (run_id : string) (s : Store F) : RunStatus :=
  match c_fault c with
  | Some e => MkRunStatus run_id "ERROR" 0 (exn_what e) ""
  | None =>
      match filter (fun r => text_is "run_id" run_id r = true) (rows s "generation_runs") with
      | [] => MkRunStatus run_id "" 0 "" ""
      | r :: _ => MkRunStatus run_id (text_of "status" r) (int_of "inserted_rows" r)
                    (text_of "error" r) (text_of "request_id" r)
      end
  end.

(** ** Telemetry *)
Definition telemetry_row (id : Z) (labels : json F) (r : TelemetryRecord F) : Row F :=
  new_row
    [("record_id", SInt id); ("ingestion_time", STime (ingestion_time r / 1000)%Z);
     ("metric_timestamp", STime (metric_timestamp r / 1000)%Z);
     ("host_id", SText (r_host_id r)); ("project_id", SText (r_project_id r)); ("region", SText (r_region r));
     ("cpu_usage", SDouble (r_cpu_usage r)); ("memory_usage", SDouble (r_memory_usage r));
     ("disk_utilization", SDouble (r_disk_utilization r));
     ("network_rx_rate", SDouble (r_network_rx_rate r)); ("network_tx_rate", SDouble (r_network_tx_rate r));
     ("labels", SJson labels); ("run_id", SText (r_run_id r)); ("is_anomaly", SBool (r_is_anomaly r));
     ("anomaly_type", text_or_null (r_anomaly_type r))].
Definition insert_record (s : Store F) (r : TelemetryRecord F) : res (Store F) :=
  labels ← or_sql_error (jsonb_in (r_labels_json r));
  let '(id, s) := draw_record_id s in
  insert_row "host_telemetry_archival" (telemetry_row id labels r) s.
Definition BatchInsertTelemetry (c : Call) (records : list (TelemetryRecord F)) (s : Store F)
    : Store F * res unit :=
  match records with
  | [] => (s, Ok tt)
  | _ => work c (fun s => s' ← fold_res insert_record s records; Ok (s', tt)) s
  end.

(** ** Heartbeats and recovery *)
Definition heartbeat_target (type : JobType) : string * string :=
  match type with
  | Generation => ("generation_runs", "run_id")
  | ModelRun => ("model_runs", "model_run_id")
  | ScoreJob => ("dataset_score_jobs", "job_id")
  end.
Definition Heartbeat (c : Call) (type : JobType) (job_id : string) (s : Store F) : Store F :=
  let '(t, key) := heartbeat_target type in
  swallowed (work c (fun s =>
    Ok (update_rows t (text_is key job_id) (set_columns [("updated_at", STime (c_now c))]) s)) s).

(** The sweep's WHERE condition; the TTL is in seconds, the clock in microseconds. *)
Definition is_stale (now : Z) (stale_ttl : option Z) (r : Row F) : bool :=
  text_in "status" ["RUNNING"; "PENDING"] r &&
  match stale_ttl with None => true | Some ttl => (time_of "updated_at" r <? now - ttl * 1000000)%Z end.
Definition stale_error (stale_ttl : option Z) : string :=
  match stale_ttl with
  | Some _ => "Stale job detected (heartbeat timeout)" | None => "System restart/recovery" end.
Definition fail_row (now : Z) (stale_ttl : option Z) : Row F -> Row F :=
  set_columns [("status", SText "FAILED"); ("error", SText (stale_error stale_ttl)); ("updated_at", STime now)].
Definition sweep_table (now : Z) (ttl : option Z) (t : string) (s : Store F) : Store F :=
  (update_rows t (is_stale now ttl) (fail_row now ttl) s).1.
Definition ReconcileStaleJobs (c : Call) (stale_ttl : option Z) (s : Store F) : Store F :=
  swallowed (work c (fun s =>
    Ok (sweep_table (c_now c) stale_ttl "generation_runs"
          (sweep_table (c_now c) stale_ttl "model_runs"
             (sweep_table (c_now c) stale_ttl "dataset_score_jobs" s)), tt)) s).

Definition InsertAlert (c : Call) (alert : Alert F) (s : Store F) : Store F :=
  swallowed (work c (fun s =>
    details ← or_sql_error (jsonb_in (a_details_json alert));
    let '(id, s) := draw_uuid s in
    s' ← insert_row "alerts" (new_row
      [("alert_id", SText id); ("host_id", SText (a_host_id alert)); ("run_id", SText (a_run_id alert));
       ("timestamp", STime (a_timestamp alert / 1000)%Z); ("severity", SText (a_severity alert));
       ("detector_source", SText (a_source alert)); ("score", SDouble (a_score alert));
       ("details", SJson details); ("created_at", STime (c_now c))]) s;
    Ok (s', tt)) s).

(** ** Model runs *)
Definition model_run_defaults (c : Call) (id : string) : list (string * sql F) :=
  [("model_run_id", SText id); ("status", SText "PENDING"); ("is_eligible", SBool true);
   ("created_at", STime (c_now c)); ("updated_at", STime (c_now c))].
Definition CreateModelRun (c : Call) (dataset_id name : string) (training_config : json F) (request_id : string)
    (hpo_config : json F) (candidate_fingerprint generator_version : string) (seed_used : option Z)
    (s : Store F) : Store F * res string :=
  work c (fun s =>
    let '(id, s) := draw_uuid s in
    s' ← insert_row "model_runs" (new_row
      ([("dataset_id", SText dataset_id); ("name", SText name); ("request_id", SText request_id);
        ("training_config", jsonb training_config); ("hpo_config", jsonb_or_null hpo_config);
        ("candidate_fingerprint", text_or_null candidate_fingerprint);
        ("generator_version", text_or_null generator_version);
        ("seed_used", opt_value SInt seed_used)] ++ model_run_defaults c id)) s;
    Ok (s', id)) s.
Definition CreateHpoTrialRun (c : Call) (dataset_id name : string) (training_config : json F)
    (request_id parent_run_id : string) (trial_index : Z) (trial_params : json F)
    (s : Store F) : Store F * res string :=
  work c (fun s =>
    let '(id, s) := draw_uuid s in
    s' ← insert_row "model_runs" (new_row
      ([("dataset_id", SText dataset_id); ("name", SText name); ("request_id", SText request_id);
        ("training_config", jsonb training_config); ("parent_run_id", SText parent_run_id);
        ("trial_index", SInt trial_index); ("trial_params", jsonb trial_params)]
       ++ model_run_defaults c id)) s;
    Ok (s', id)) s.

Definition UpdateModelRunStatus (c : Call) (model_run_id status artifact_path error : string)
    (error_summary : json F) (s : Store F) : Store F :=
  swallowed (work c (fun s =>
    Ok (update_rows "model_runs" (text_is "model_run_id" model_run_id)
          (set_columns
            (if (status =? "COMPLETED")%string then
               [("status", SText status); ("artifact_path", SText artifact_path);
                ("completed_at", STime (c_now c)); ("updated_at", STime (c_now c))]
             else if existsb (String.eqb status) ["FAILED"; "CANCELLED"; "CANCELED"] then
               [("status", SText status); ("error", SText error); ("error_summary", jsonb_or_null error_summary);
                ("completed_at", STime (c_now c)); ("updated_at", STime (c_now c))]
             else [("status", SText status); ("updated_at", STime (c_now c))])) s)) s).

Definition model_run_fields : list field :=
  [same AsText "model_run_id"; same AsText "dataset_id"; same AsText "name"; same AsText "status";
   same AsTextOrEmpty "artifact_path"; same AsTextOrEmpty "error"; same AsText "created_at";
   same AsTextOrEmpty "completed_at"; same AsTextOrEmpty "request_id";
   same AsJsonOrObject "training_config"; same AsJsonOrNull "hpo_config";
   same AsTextOrNull "parent_run_id"; same AsIntOrNull "trial_index"; same AsJsonOrNull "trial_params";
   same AsTextOrNull "best_trial_run_id"; same AsDoubleOrNull "best_metric_value";
   same AsTextOrNull "best_metric_name"; same AsTextOrNull "selection_metric_direction";
   same AsTextOrNull "tie_break_basis"; same AsBool "is_eligible"; same AsTextOrNull "eligibility_reason";
   same AsDoubleOrNull "selection_metric_value"; same AsTextOrNull "candidate_fingerprint";
   same AsTextOrNull "generator_version"; same AsIntOrNull "seed_used"; same AsJsonOrNull "error_summary";
   same AsJsonOrNull "error_aggregates"; same AsTextOrNull "selection_metric_source";
   same AsTextOrNull "selection_metric_computed_at"].
Definition where_is (t key v : string) (s : Store F) : list (Row F) :=
  filter (fun r => text_is key v r = true) (rows s t).
Definition GetModelRun (c : Call) (model_run_id : string) (s : Store F) : json F :=
  get_one c model_run_fields (where_is "model_runs" "model_run_id" model_run_id s).

(** The foreign key on [best_trial_run_id] is checked. *)
Definition UpdateBestTrial (c : Call) (parent_run_id best_trial_run_id : string) (best_metric_value : F)
    (best_metric_name best_metric_direction tie_break_basis : string) (s : Store F) : Store F :=
  swallowed (work c (fun s =>
    let '(s', n) := update_rows "model_runs" (text_is "model_run_id" parent_run_id)
      (set_columns [("best_trial_run_id", SText best_trial_run_id);
                    ("best_metric_value", SDouble best_metric_value); ("best_metric_name", SText best_metric_name);
                    ("selection_metric_direction", SText best_metric_direction);
                    ("tie_break_basis", SText tie_break_basis)]) s in
    if all_references_ok s' (references_of "model_runs") then Ok (s', n)
    else sql_error "update violates foreign key constraint") s).
Definition UpdateTrialEligibility (c : Call) (model_run_id : string) (is_eligible : bool) (reason : string)
    (metric_value : F) (source : string) (s : Store F) : Store F :=
  swallowed (work c (fun s =>
    Ok (update_rows "model_runs" (text_is "model_run_id" model_run_id)
          (set_columns [("is_eligible", SBool is_eligible); ("eligibility_reason", SText reason);
                        ("selection_metric_value", SDouble metric_value);
                        ("selection_metric_source", text_or_null source);
                        ("selection_metric_computed_at", STime (c_now c))]) s)) s).
Definition UpdateParentErrorAggregates (c : Call) (parent_run_id : string) (error_aggregates : json F)
    (s : Store F) : Store F :=
  swallowed (work c (fun s =>
    Ok (update_rows "model_runs" (text_is "model_run_id" parent_run_id)
          (set_columns [("error_aggregates", jsonb error_aggregates)]) s)) s).

(** Compare and swap on the status column. *)
Definition TryTransitionModelRunStatus (c : Call) (model_run_id expected_current next_status : string)
    (s : Store F) : Store F * bool :=
  let '(s', r) := work c (fun s =>
    Ok (update_rows "model_runs"
          (fun r => text_is "model_run_id" model_run_id r && text_is "status" expected_current r)
          (set_columns [("status", SText next_status)]) s)) s in
  (s', match r with Ok n => (0 <? n)%Z | Throw _ => false end).
Definition TryTransitionScoreJobStatus (c : Call) (job_id expected_current next_status : string)
    (s : Store F) : Store F * bool :=
  let '(s', r) := work c (fun s =>
    Ok (update_rows "dataset_score_jobs"
          (fun r => text_is "job_id" job_id r && text_is "status" expected_current r)
          (set_columns [("status", SText next_status); ("updated_at", STime (c_now c))]) s)) s in
  (s', match r with Ok n => (0 <? n)%Z | Throw _ => false end).

(** ** Inference runs *)
Definition CreateInferenceRun (c : Call) (model_run_id : string) (s : Store F) : Store F * res string :=
  work c (fun s =>
    let '(id, s) := draw_uuid s in
    s' ← insert_row "inference_runs" (new_row
      [("inference_id", SText id); ("model_run_id", SText model_run_id); ("status", SText "RUNNING");
       ("anomaly_count", SInt 0); ("created_at", STime (c_now c))]) s;
    Ok (s', id)) s.
Definition UpdateInferenceRunStatus (c : Call) (inference_id status : string) (anomaly_count : Z)
    (details : json F) (latency_ms : F) (s : Store F) : Store F :=
  swallowed (work c (fun s =>
    Ok (update_rows "inference_runs" (text_is "inference_id" inference_id)
          (set_columns [("status", SText status); ("anomaly_count", SInt anomaly_count);
                        ("details", jsonb details); ("latency_ms", SDouble latency_ms)]) s)) s).
Definition inference_fields : list field :=
  [same AsText "inference_id"; same AsText "model_run_id"; same AsText "status"; same AsInt "anomaly_count";
   same AsDoubleOrZero "latency_ms"; same AsJsonOrArray "details"; same AsText "created_at"].
Definition GetInferenceRun (c : Call) (inference_id : string) (s : Store F) : json F :=
  get_one c inference_fields (where_is "inference_runs" "inference_id" inference_id s).

(** ** Score jobs *)
Definition open_score_jobs (dataset_id model_run_id : string) (s : Store F) : list (Row F) :=
  filter (fun r => text_is "dataset_id" dataset_id r && text_is "model_run_id" model_run_id r
                   && text_in "status" ["PENDING"; "RUNNING"] r = true) (rows s "dataset_score_jobs").
Definition insert_score_job (c : Call) (dataset_id model_run_id request_id : string) (s : Store F)
    : res (Store F * string) :=
  let '(id, s) := draw_uuid s in
  s' ← insert_row "dataset_score_jobs" (new_row
    [("job_id", SText id); ("dataset_id", SText dataset_id); ("model_run_id", SText model_run_id);
     ("status", SText "PENDING"); ("total_rows", SInt 0); ("processed_rows", SInt 0);
     ("last_record_id", SInt 0); ("request_id", SText request_id);
     ("created_at", STime (c_now c)); ("updated_at", STime (c_now c))]) s;
  Ok (s', id).
Definition CreateScoreJob (c : Call) (dataset_id model_run_id request_id : string) (s : Store F)
    : Store F * res string :=
  work c (fun s =>
    match open_score_jobs dataset_id model_run_id s with
    | r :: _ => Ok (s, text_of "job_id" r)
    | [] => insert_score_job c dataset_id model_run_id request_id s
    end) s.
Definition UpdateScoreJob (c : Call) (job_id status : string) (total_rows processed_rows last_record_id : Z)
    (error : string) (s : Store F) : Store F :=
  swallowed (work c (fun s =>
    Ok (update_rows "dataset_score_jobs" (text_is "job_id" job_id)
          (set_columns ([("status", SText status); ("total_rows", SInt total_rows);
                         ("processed_rows", SInt processed_rows); ("last_record_id", SInt last_record_id);
                         ("updated_at", STime (c_now c))]
            ++ if (status =? "COMPLETED")%string then [("completed_at", STime (c_now c))]
               else if (error =? "")%string then [] else [("error", SText error)])) s)) s).
Definition score_job_fields : list field :=
  [same AsText "job_id"; same AsText "dataset_id"; same AsText "model_run_id"; same AsText "status";
   same AsInt "total_rows"; same AsInt "processed_rows"; same AsInt "last_record_id";
   same AsTextOrEmpty "error"; same AsText "created_at"; same AsText "updated_at";
   same AsTextOrEmpty "completed_at"; same AsTextOrEmpty "request_id"].
Definition GetScoreJob (c : Call) (job_id : string) (s : Store F) : json F :=
  get_one c score_job_fields (where_is "dataset_score_jobs" "job_id" job_id s).

(** ** Scores *)
Record ScoringRow := MkScoringRow {
  sr_record_id : Z; sr_is_anomaly : bool; sr_cpu : F; sr_mem : F; sr_disk : F; sr_rx : F; sr_tx : F }.
Definition scoring_row (r : Row F) : ScoringRow :=
  MkScoringRow (int_of "record_id" r) (bool_of "is_anomaly" r) (double_of "cpu_usage" r)
    (double_of "memory_usage" r) (double_of "disk_utilization" r)
    (double_of "network_rx_rate" r) (double_of "network_tx_rate" r).
Definition by_record_id (a b : Row F) : bool := (int_of "record_id" a <? int_of "record_id" b)%Z.
Definition dataset_rows (dataset_id : string) (s : Store F) : list (Row F) :=
  where_is "host_telemetry_archival" "run_id" dataset_id s.
Definition FetchScoringRowsAfterRecord (c : Call) (dataset_id : string) (last_record_id limit : Z) (s : Store F)
    : res (list ScoringRow) :=
  query c s (fun s =>
    rs ← limit_offset limit 0 (std_sort by_record_id
           (filter (fun r => (last_record_id <? int_of "record_id" r)%Z = true) (dataset_rows dataset_id s)));
    Ok (map scoring_row rs)).
Definition GetDatasetRecordCount (c : Call) (dataset_id : string) (s : Store F) : res Z :=
  query c s (fun s => Ok (zlen (dataset_rows dataset_id s))).

Definition score_row (c : Call) (dataset_id model_run_id : string) (id : Z) (entry : Z * (F * bool)) : Row F :=
  new_row [("score_id", SInt id); ("dataset_id", SText dataset_id); ("model_run_id", SText model_run_id);
           ("record_id", SInt entry.1); ("reconstruction_error", SDouble entry.2.1);
           ("predicted_is_anomaly", SBool entry.2.2); ("scored_at", STime (c_now c))].
Definition insert_score (c : Call) (dataset_id model_run_id : string) (s : Store F) (entry : Z * (F * bool))
    : res (Store F) :=
  let '(id, s) := draw_score_id s in
  insert_row "dataset_scores" (score_row c dataset_id model_run_id id entry) s.
Definition InsertDatasetScores (c : Call) (dataset_id model_run_id : string) (scores : list (Z * (F * bool)))
    (s : Store F) : Store F * res unit :=
  match scores with
  | [] => (s, Ok tt)
  | _ => work c (fun s => s' ← fold_res (insert_score c dataset_id model_run_id) s scores; Ok (s', tt)) s
  end.

(** ** Deletion of a dataset with everything derived from it *)
Definition dataset_columns : list (string * string) :=
  [("dataset_scores", "dataset_id"); ("dataset_score_jobs", "dataset_id");
   ("host_telemetry_archival", "run_id"); ("alerts", "run_id");
   ("model_runs", "dataset_id"); ("generation_runs", "run_id")].
Definition DeleteDatasetWithScores (c : Call) (dataset_id : string) (s : Store F) : Store F * res unit :=
  work c (fun s =>
    s' ← fold_res (fun s tc => delete_rows tc.1 (text_is tc.2 dataset_id) s) s dataset_columns;
    Ok (s', tt)) s.
End client.
Arguments ScoringRow F : clear implicits.

(** ** Transitions: compare and swap *)
Section transitions.
Context {F : Type} `{Num F}.
Implicit Types (s : Store F).

(** The two transition calls, and the table each works on. *)
Definition try_transition (type : JobType) (c : Call) (id expected next : string) s : Store F * bool :=
  match type with
  | ScoreJob => TryTransitionScoreJobStatus c id expected next s
  | _ => TryTransitionModelRunStatus c id expected next s
  end.
Definition job_target (type : JobType) : string * string :=
  match type with ScoreJob => ("dataset_score_jobs", "job_id") | _ => ("model_runs", "model_run_id") end.
(** The rows of a job, by its id, and those of them in a given status. *)
Definition job_rows (type : JobType) (id : string) s : list (Row F) :=
  where_is (job_target type).1 (job_target type).2 id s.
Definition in_status (type : JobType) (id status : string) s : nat :=
  countb (text_is "status" status) (job_rows type id s).

(** Several clients that try the same transition, in the order the server
    serialises them. *)
Fixpoint race (type : JobType) (id expected next : string) (cs : list Call) s : Store F * list bool :=
  match cs with
  | [] => (s, [])
  | c :: cs' =>
      let '(s1, won) := try_transition type c id expected next s in
      let '(s2, wons) := race type id expected next cs' s1 in (s2, won :: wons)
  end.

Definition transition_columns (type : JobType) (c : Call) (next : string) : list (string * sql F) :=
  match type with
  | ScoreJob => [("status", SText next); ("updated_at", STime (c_now c))]
  | _ => [("status", SText next)]
  end.

Lemma try_transition_eq type c id expected next s :
  try_transition type c id expected next s =
  match c_fault c with
  | Some _ => (s, false)
  | None =>
      let '(s', n) := update_rows (job_target type).1
        (fun r => text_is (job_target type).2 id r && text_is "status" expected r)
        (set_columns (transition_columns type c next)) s in (s', (0 <? n)%Z)
  end.
Proof.
  destruct type; cbn [try_transition]; unfold TryTransitionModelRunStatus, TryTransitionScoreJobStatus, work;
    by destruct (c_fault c).
Qed.

Lemma where_is_update_where t key id p (f : Row F -> Row F) s :
  (forall r, text_is key id (f r) = text_is key id r) ->
  where_is t key id (update_rows t p f s).1 =
  (fun r => if p r then f r else r) <$> where_is t key id s.
Proof.
  intros Hkey. unfold where_is. rewrite update_rows_eq.
  induction (rows s t) as [|r l IH]; [done|]. cbn [fmap list_fmap].
  rewrite !filter_cons. assert (text_is key id (if p r then f r else r) = text_is key id r) as ->
    by (by destruct (p r)).
  destruct (decide (text_is key id r = true)); [|done]. cbn [fmap list_fmap]. by f_equal.
Qed.

Lemma text_is_set_columns_other l (r : Row F) c v : c ∉ l.*1 -> text_is c v (set_columns l r) = text_is c v r.
Proof. intros Hc. unfold text_is. by rewrite column_set_columns_other. Qed.

Lemma job_rows_try type c id expected next s : c_fault c = None ->
  job_rows type id (try_transition type c id expected next s).1 =
  (fun r => if text_is "status" expected r then set_columns (transition_columns type c next) r else r)
    <$> job_rows type id s.
Proof.
  intros Hc. rewrite try_transition_eq, Hc. cbn [update_rows fst].
  unfold job_rows.
  change (put _ _ _) with (update_rows (job_target type).1
    (fun r => text_is (job_target type).2 id r && text_is "status" expected r)
    (set_columns (transition_columns type c next)) s).1.
  rewrite where_is_update_where.
  - apply list_fmap_ext. intros i r Hi.
    apply list_elem_of_lookup_2 in Hi. unfold where_is in Hi. apply list_elem_of_filter in Hi as [-> _]. done.
  - intros r. apply text_is_set_columns_other. destruct type; by_deciding.
Qed.

Lemma countb_where t key id p s :
  countb (fun r => text_is key id r && p r) (rows s t) = countb p (where_is t key id s).
Proof.
  unfold where_is. induction (rows s t) as [|r l IH]; [done|]. rewrite countb_cons, filter_cons, IH.
  destruct (decide (text_is key id r = true)) as [E|E].
  - by rewrite E, countb_cons.
  - apply not_true_is_false in E. by rewrite E.
Qed.

Lemma won_iff type c id expected next s : c_fault c = None ->
  (try_transition type c id expected next s).2 = (0 <? Z.of_nat (in_status type id expected s))%Z.
Proof.
  intros Hc. rewrite try_transition_eq, Hc. cbn [update_rows snd]. by rewrite countb_where.
Qed.

Lemma in_status_after type c id expected next s : c_fault c = None -> expected <> next ->
  let s' := (try_transition type c id expected next s).1 in
  in_status type id expected s' = 0%nat /\
  in_status type id next s' = (in_status type id expected s + in_status type id next s)%nat /\
  length (job_rows type id s') = length (job_rows type id s).
Proof.
  intros Hc Hne s'. subst s'. unfold in_status. rewrite job_rows_try by done.
  assert (Hset : forall v (r : Row F), text_is "status" v (set_columns (transition_columns type c next) r)
                        = (next =? v)%string).
  { intros v r. unfold text_is. destruct type; cbn; sql_simpl; done. }
  split; [|split; [|by rewrite length_fmap]].
  - rewrite countb_fmap. apply countb_none, Forall_forall. intros r _. cbn beta.
    destruct (text_is "status" expected r) eqn:E; [|done]. rewrite Hset. by apply String.eqb_neq.
  - rewrite countb_fmap. induction (job_rows type id s) as [|r l IH]; [done|].
    rewrite !countb_cons. cbn beta. rewrite IH.
    destruct (text_is "status" expected r) eqn:E.
    + rewrite Hset, String.eqb_refl.
      destruct (text_is "status" next r) eqn:E2; [|lia].
      by pose proof (text_is_unique _ _ _ _ E E2).
    + destruct (text_is "status" next r); lia.
Qed.

Lemma race_nobody type id expected next cs s : expected <> next -> in_status type id expected s = 0%nat ->
  let '(s', wons) := race type id expected next cs s in
  countb Datatypes.id wons = 0%nat /\ in_status type id expected s' = 0%nat /\
  in_status type id next s' = in_status type id next s.
Proof.
  intros Hne. revert s. induction cs as [|c cs IH]; intros s Hs; cbn [race]; [done|].
  destruct (try_transition type c id expected next s) as [s1 won] eqn:Et.
  destruct (race type id expected next cs s1) as [s2 wons] eqn:Er.
  assert (won = false /\ in_status type id expected s1 = 0%nat /\
          in_status type id next s1 = in_status type id next s) as (-> & H1 & H2).
  { destruct (c_fault c) eqn:Hc.
    - rewrite try_transition_eq, Hc in Et. injection Et as <- <-. done.
    - pose proof (won_iff type c id expected next s Hc) as Hw.
      pose proof (in_status_after type c id expected next s Hc Hne) as (Ha & Hb & _).
      rewrite Et in *. cbn [fst snd] in *. rewrite Hw, Hs. split; [done|]. split; [done|]. lia. }
  specialize (IH s1 H1). rewrite Er in IH. rewrite countb_cons. cbn. destruct IH as (IH1 & IH2 & IH3). repeat split; [done|done|lia].
Qed.
End transitions.

(** C11: status transitions are compare-and-swap operations.  However many
    clients try to move a job out of the same status, and whatever calls the
    database fails, at most one of them is told that it succeeded; exactly one
    is as soon as one call reaches the database and the job was in that status,
    and the job is then in the new status.  If the job was not in the expected
    status, nobody wins. *)
Theorem transitions_have_one_winner {F} `{Num F} (type : JobType) (id expected next : string)
  (cs : list Call) (s : Store F)
  (Hne : expected <> next) (Hkey : (length (job_rows type id s) <= 1)%nat) :
  let '(s', wons) := race type id expected next cs s in
  (countb Datatypes.id wons <= in_status type id expected s)%nat /\
  (in_status type id expected s = 1%nat -> Exists (fun c => c_fault c = None) cs ->
   countb Datatypes.id wons = 1%nat /\
   in_status type id expected s' = 0%nat /\ in_status type id next s' = 1%nat).
Proof.
  revert s Hkey. induction cs as [|c cs IH]; intros s Hkey; cbn [race].
  - split; [unfold countb; cbn; lia|]. intros _ Hex. inversion Hex.
  - destruct (try_transition type c id expected next s) as [s1 won] eqn:Et.
    destruct (race type id expected next cs s1) as [s2 wons] eqn:Er.
    destruct (c_fault c) eqn:Hc.
    + rewrite try_transition_eq, Hc in Et. injection Et as <- <-.
      specialize (IH s Hkey). rewrite Er in IH. destruct IH as [IH1 IH2]. rewrite countb_cons. cbn.
      split; [done|]. intros Hs Hex. apply IH2; [done|]. inversion Hex; subst; congruence.
    + pose proof (won_iff type c id expected next s Hc) as Hw.
      pose proof (in_status_after type c id expected next s Hc Hne) as (Ha & Hb & Hl).
      pose proof (race_nobody type id expected next cs s1 Hne) as Hr.
      rewrite Et in *. cbn [fst snd] in *. specialize (Hr Ha). rewrite Er in Hr. destruct Hr as (Hr1 & Hr2 & Hr3).
      assert (in_status type id expected s <= 1)%nat as Hle by (etrans; [apply countb_le|done]).
      assert (in_status type id next s <= length (job_rows type id s) - in_status type id expected s)%nat.
      { unfold in_status in *. pose proof (countb_disjoint (text_is "status" expected) (text_is "status" next)
          (job_rows type id s)) as Hd. enough (forall r, text_is "status" expected r = true -> text_is "status" next r = false)
          as Hx by (specialize (Hd Hx); lia).
        intros r E. apply not_true_is_false. intros E2. by destruct (text_is_unique _ _ _ _ E E2). }
      rewrite countb_cons. cbn. rewrite Hw, Hr1.
      destruct (in_status type id expected s) as [|[|]] eqn:Es; cbn; [|split; [done|]|]; [split; [done|lia]| |lia].
      intros _ _. repeat split; [done|]. lia.
Qed.
