(* ===== verification/DbFacts.v ===== *)
(** What the calls of [DbClient] guarantee about the whole store: a dataset is
    deleted completely or not at all, and the recovery sweep never fails a job
    whose heartbeats arrive. *)
From stdpp Require Import base gmap strings list fin_maps.
From Stdlib Require Import ZArith Lia Floats.
From S2P Require Import Prelude Num Detectors Alerts Json Generator Sql DbClient.

Local Open Scope string_scope.
Local Open Scope list_scope.

(** ** Deletion *)
Section deletion.
Context {F : Type} `{Num F}.
Implicit Types (s : Store F) (r : Row F).

(** The tables that hold data of a dataset, with the column that names it,
    from the schema (src/db/init.sql), parents first. *)
Definition owner_columns : list (string * string) :=
  [("generation_runs", "run_id"); ("host_telemetry_archival", "run_id"); ("alerts", "run_id");
   ("model_runs", "dataset_id"); ("dataset_score_jobs", "dataset_id"); ("dataset_scores", "dataset_id")].
(** Does a row of table [t] belong to dataset [d]? *)
Definition belongs (d t : string) r : bool :=
  existsb (fun tc => (tc.1 =? t)%string && text_is tc.2 d r) owner_columns.
Lemma owner_columns_deleted tc : tc ∈ dataset_columns <-> tc ∈ owner_columns.
Proof. unfold dataset_columns, owner_columns. rewrite !elem_of_cons, elem_of_nil. tauto. Qed.
Lemma owner_tables_deleted t : t ∈ dataset_columns.*1 <-> t ∈ owner_columns.*1.
Proof. rewrite !list_elem_of_fmap. by setoid_rewrite owner_columns_deleted. Qed.
(** The store without the dataset. *)
Definition purge (d : string) s : Store F :=
  foldl (fun s tc => put tc.1 (filter (fun r => text_is tc.2 d r = false) (rows s tc.1)) s) s dataset_columns.
Arguments purge : simpl never.

Lemma rows_purge_member d t c s : (t, c) ∈ dataset_columns ->
  rows (purge d s) t = filter (fun r => text_is c d r = false) (rows s t).
Proof.
  unfold purge, dataset_columns. cbn [foldl fst snd].
  rewrite !elem_of_cons, elem_of_nil. intros Hin.
  repeat destruct Hin as [[= -> ->]|Hin]; [..|done]; by sql_simpl.
Qed.
Lemma rows_purge_other d t s : t ∉ dataset_columns.*1 -> rows (purge d s) t = rows s t.
Proof.
  unfold purge, dataset_columns. cbn [foldl fst snd fmap list_fmap].
  rewrite !not_elem_of_cons. intros (?&?&?&?&?&?&_).
  by rewrite !rows_put_ne by congruence.
Qed.
Lemma belongs_member d t c r : (t, c) ∈ dataset_columns -> belongs d t r = text_is c d r.
Proof.
  rewrite owner_columns_deleted. unfold belongs, owner_columns. rewrite !elem_of_cons, elem_of_nil. intros Hin.
  repeat destruct Hin as [[= -> ->]|Hin]; [..|done]; cbn; by rewrite ?orb_false_r.
Qed.
Lemma belongs_other d t r : t ∉ dataset_columns.*1 -> belongs d t r = false.
Proof.
  rewrite owner_tables_deleted. intros Hn. apply not_true_is_false. unfold belongs. intros [[t' c] [Hin E]]%existsb_exists.
  apply andb_true_iff in E as [E%String.eqb_eq _]. cbn in E. subst. apply Hn.
  apply list_elem_of_fmap. exists (t, c). split; [done|]. by apply list_elem_of_In.
Qed.
Lemma rows_purge d t s : rows (purge d s) t = filter (fun r => belongs d t r = false) (rows s t).
Proof.
  destruct (decide (t ∈ dataset_columns.*1)) as [Hin|Hn].
  - apply list_elem_of_fmap in Hin as [[t' c] [-> Hin]]. rewrite (rows_purge_member d t' c) by done.
    cbn [fst]. apply list_filter_iff. intros r. by rewrite (belongs_member d t' c).
  - rewrite rows_purge_other, filter_all by done || by apply Forall_forall; intros; apply belongs_other.
    done.
Qed.

Lemma all_references_iff s fks :
  all_references_ok s fks = true <->
  forall fk r, fk ∈ fks -> r ∈ rows s fk.1.1.1 -> reference_ok s fk r = true.
Proof.
  unfold all_references_ok. rewrite forallb_forall. setoid_rewrite forallb_forall.
  setoid_rewrite <- list_elem_of_In. naive_solver.
Qed.
Lemma reference_ok_ext s1 s2 fk r : rows s1 fk.1.2 = rows s2 fk.1.2 -> reference_ok s1 fk r = reference_ok s2 fk r.
Proof. destruct fk as [[[t c] u] k]. cbn. by intros ->. Qed.
Lemma all_references_ext s1 s2 fks :
  (forall fk, fk ∈ fks -> rows s1 fk.1.1.1 = rows s2 fk.1.1.1 /\ rows s1 fk.1.2 = rows s2 fk.1.2) ->
  all_references_ok s1 fks = all_references_ok s2 fks.
Proof.
  intros Heq. apply eq_true_iff_eq. rewrite !all_references_iff.
  split; intros Hok fk r Hfk Hr; destruct (Heq fk Hfk) as [H1 H2].
  - rewrite <- (reference_ok_ext s1) by done. apply Hok; [done|]. by rewrite H1.
  - rewrite (reference_ok_ext s1 s2) by done. apply Hok; [done|]. by rewrite <- H1.
Qed.

Lemma delete_unreferenced t p s : references_to t = [] ->
  delete_rows t p s = Ok (put t (filter (fun r => p r = false) (rows s t)) s).
Proof. intros E. unfold delete_rows. by rewrite E. Qed.

(** The six DELETE statements: only the one on [model_runs] can be refused
    while the store is intact. *)
Lemma delete_statements d s :
  fold_res (fun s tc => delete_rows tc.1 (text_is tc.2 d) s) s dataset_columns =
  if all_references_ok (purge d s) (references_to "model_runs") then
    if all_references_ok (purge d s) (references_to "generation_runs") then Ok (purge d s)
    else sql_error "delete violates foreign key constraint"
  else sql_error "delete violates foreign key constraint".
Proof.
  unfold dataset_columns, purge, dataset_columns. cbn [fold_res foldl fst snd].
  do 4 (rewrite delete_unreferenced by done; cbn [mbind res_bind]).
  set (s4 := put "alerts" _ _). unfold delete_rows.
  set (s5 := put "model_runs" _ s4). set (s6 := put "generation_runs" _ s5).
  enough (all_references_ok s6 (references_to "model_runs") = all_references_ok s5 (references_to "model_runs"))
    as -> by (destruct (all_references_ok s5 _); [|done]; cbn [mbind res_bind];
              fold s6; by destruct (all_references_ok s6 _)).
  apply all_references_ext.
  intros fk Hfk. unfold s6.
  assert (fk.1.1.1 <> "generation_runs" /\ fk.1.2 <> "generation_runs") as [H1 H2].
  { revert fk Hfk. apply Forall_forall. by_deciding. }
  by rewrite !rows_put_ne by congruence.
Qed.

Lemma purge_keeps_runs d s : intact s -> all_references_ok (purge d s) (references_to "generation_runs") = true.
Proof.
  intros Hs. apply all_references_iff. intros [[[t c] u] k] r Hfk Hr. cbn [fst snd] in *.
  assert ((t, c) ∈ dataset_columns /\ u = "generation_runs" /\ k = "run_id"
          /\ (t, c, u, k) ∈ foreign_keys) as (Htc & -> & -> & Hall).
  { split; [|split; [|split]];
      [change ((fun fk : string * string * string * string => fk.1.1 ∈ dataset_columns) (t, c, u, k))
      |change ((fun fk : string * string * string * string => fk.1.2 = "generation_runs") (t, c, u, k))
      |change ((fun fk : string * string * string * string => fk.2 = "run_id") (t, c, u, k))
      |by apply list_elem_of_filter in Hfk as [_ ?]];
      revert Hfk; generalize (t, c, u, k); apply Forall_forall; by_deciding. }
  rewrite rows_purge in Hr. apply list_elem_of_filter in Hr as [Hb Hr].
  apply all_references_iff with (fk := (t, c, "generation_runs", "run_id")) (r := r) in Hs; [|done|done].
  cbn in Hs |- *. destruct (column r c) as [|v| | | | |] eqn:Ec; try done.
  apply existsb_exists in Hs as [g [Hg Hv]]. apply existsb_exists. exists g. split; [|done].
  apply list_elem_of_In. rewrite rows_purge. apply list_elem_of_filter.
  split; [|by apply list_elem_of_In].
  rewrite (belongs_member d "generation_runs" "run_id") by (by_deciding).
  apply not_true_is_false. intros Hd. rewrite (text_is_unique _ _ _ _ Hv Hd) in Ec.
  rewrite (belongs_member d t c) in Hb by done. apply text_is_true in Ec. congruence.
Qed.

(** Something outside the dataset refers to one of its models. *)
Definition model_in_use (d : string) s : Prop :=
  exists t c r m, (t, c, "model_runs", "model_run_id") ∈ foreign_keys /\
    r ∈ rows s t /\ belongs d t r = false /\
    m ∈ rows s "model_runs" /\ belongs d "model_runs" m = true /\
    exists id, column r c = SText id /\ column m "model_run_id" = SText id.

(** Primary keys: a model id names one row. *)
Definition unique_models s : Prop :=
  forall m1 m2 id, m1 ∈ rows s "model_runs" -> m2 ∈ rows s "model_runs" ->
    column m1 "model_run_id" = SText id -> column m2 "model_run_id" = SText id -> m1 = m2.

Lemma references_to_models fk : fk ∈ references_to "model_runs" <->
  exists t c, fk = (t, c, "model_runs", "model_run_id") /\ fk ∈ foreign_keys.
Proof.
  split.
  - intros Hfk. assert (fk.1.2 = "model_runs" /\ fk.2 = "model_run_id") as [E1 E2].
    { revert fk Hfk. apply Forall_forall. by_deciding. }
    apply list_elem_of_filter in Hfk as [_ Hfk]. destruct fk as [[[t c] u] k]. cbn in *. subst. eauto.
  - intros (t & c & -> & Hfk). by apply list_elem_of_filter.
Qed.

Lemma purge_refused d s : intact s -> unique_models s ->
  all_references_ok (purge d s) (references_to "model_runs") = false <-> model_in_use d s.
Proof.
  intros Hs Hu. rewrite <- not_true_iff_false, all_references_iff. split.
  - intros Hn. destruct (decide (Forall (fun fk => Forall (fun r => reference_ok (purge d s) fk r = true)
        (rows (purge d s) fk.1.1.1)) (references_to "model_runs"))) as [Hall|Hnot].
    { exfalso. apply Hn. intros fk r Hfk Hr. rewrite Forall_forall in Hall.
      specialize (Hall fk Hfk). rewrite Forall_forall in Hall. by apply Hall. }
    apply not_Forall_Exists, Exists_exists in Hnot as (fk & Hfk & Hnot); [|apply _].
    apply not_Forall_Exists, Exists_exists in Hnot as (r & Hr & Hnot); [|apply _].
    apply references_to_models in Hfk as (t & c & -> & Hfk). cbn [fst snd] in *.
    rewrite rows_purge in Hr. apply list_elem_of_filter in Hr as [Hb Hr].
    pose proof (proj1 (all_references_iff s foreign_keys) Hs _ r Hfk Hr) as Hok. cbn in Hok, Hnot.
    destruct (column r c) as [|id| | | | |] eqn:Ec; try done.
    apply existsb_exists in Hok as [m [Hm%list_elem_of_In Hid]].
    exists t, c, r, m. do 4 (split; [done|]). split.
    + apply not_false_is_true. intros Hbm. apply Hnot, existsb_exists. exists m. split; [|done].
      apply list_elem_of_In. rewrite rows_purge. by apply list_elem_of_filter.
    + exists id. split; [done|]. by apply text_is_true.
  - intros (t & c & r & m & Hfk & Hr & Hb & Hm & Hbm & id & Ec & Em) Hall.
    specialize (Hall (t, c, "model_runs", "model_run_id") r). cbn [fst snd reference_ok] in Hall.
    rewrite Ec in Hall. assert (Hex : existsb (text_is "model_run_id" id) (rows (purge d s) "model_runs") = true).
    { apply Hall; [apply references_to_models; eauto|]. rewrite rows_purge. by apply list_elem_of_filter. }
    apply existsb_exists in Hex as [m' [Hm' Hid%text_is_true]].
    apply list_elem_of_In in Hm'. rewrite rows_purge in Hm'. apply list_elem_of_filter in Hm' as [Hbm' Hm'].
    rewrite (Hu m m' id) in Hbm by done. congruence.
Qed.

Lemma purge_intact d s : intact s ->
  all_references_ok (purge d s) (references_to "model_runs") = true -> intact (purge d s).
Proof.
  intros Hs Hm. apply all_references_iff. intros fk r Hfk Hr.
  assert (fk ∈ references_to "model_runs" \/ fk ∈ references_to "generation_runs") as [Hin|Hin].
  { clear r Hr. revert fk Hfk. apply Forall_forall. by_deciding. }
  - by apply (proj1 (all_references_iff _ _) Hm).
  - by apply (proj1 (all_references_iff _ _) (purge_keeps_runs d s Hs)).
Qed.
End deletion.

(** C10: deleting a dataset is all or nothing.  In a store whose references
    hold, [DeleteDatasetWithScores] either removes exactly the rows of that
    dataset, in all six tables, keeps every other row, and leaves the
    references intact; or it throws and changes nothing.  Besides a database
    fault it throws exactly when something that is not part of the dataset
    refers to one of its models: an inference run always does (inference runs
    are never deleted), so a dataset whose model was once used for inference
    can no longer be deleted. *)
Theorem delete_dataset_is_all_or_nothing {F} `{Num F} (c : Call) (d : string) (s : Store F)
  (Hintact : intact s) (Hunique : unique_models s) :
  match DeleteDatasetWithScores c d s with
  | (s', Ok _) =>
      (forall t, rows s' t = filter (fun r => belongs d t r = false) (rows s t)) /\ intact s' /\
      ~ model_in_use d s
  | (s', Throw e) => s' = s /\ (c_fault c = Some e \/ (exn_class e = PqSqlError /\ model_in_use d s))
  end.
Proof.
  unfold DeleteDatasetWithScores, work. destruct (c_fault c) as [e|]; [by auto|].
  rewrite delete_statements, purge_keeps_runs by done.
  destruct (all_references_ok (purge d s) (references_to "model_runs")) eqn:E; cbn.
  - split; [intros t; apply rows_purge|]. split; [by apply purge_intact|].
    rewrite <- (purge_refused d s) by done. congruence.
  - split; [done|]. right. split; [done|]. by apply purge_refused.
Qed.

(** ** Heartbeats and sweeps *)
Section liveness.
Context {F : Type} `{Num F}.
Implicit Types (s : Store F) (r : Row F).

(** What happens to the job tables while nobody changes a status: heartbeats of
    any job, and the reconciler's periodic sweeps. *)
Inductive upkeep := Beat (c : Call) (type : JobType) (id : string) | Sweep (c : Call) (stale_ttl : Z).
Definition do_upkeep (o : upkeep) s : Store F :=
  match o with
  | Beat c type id => Heartbeat c type id s
  | Sweep c ttl => ReconcileStaleJobs c (Some ttl) s
  end.

#[local] Instance JobType_eq_dec : EqDecision JobType.
Proof. solve_decision. Defined.

(** Did a heartbeat of the job arrive within the TTL before every sweep that
    reached the database?  [last] is the time of the latest one. *)
Fixpoint beaten (type : JobType) (id : string) (last : Z) (os : list upkeep) : bool :=
  match os with
  | [] => true
  | Beat c type' id' :: os' =>
      let mine := bool_decide (type' = type) && (id' =? id)%string && bool_decide (c_fault c = None) in
      beaten type id (if mine then c_now c else last) os'
  | Sweep c ttl :: os' =>
      (bool_decide (c_fault c <> None) || (c_now c - ttl * 1000000 <=? last)%Z) && beaten type id last os'
  end.

Definition job_of (type : JobType) (id : string) s : list (Row F) :=
  where_is (heartbeat_target type).1 (heartbeat_target type).2 id s.
Definition beat_row (c : Call) : Row F -> Row F := set_columns [("updated_at", STime (c_now c))].
Definition sweep_row (c : Call) (ttl : Z) r : Row F :=
  if is_stale (c_now c) (Some ttl) r then fail_row (c_now c) (Some ttl) r else r.

Lemma job_of_beat c type' id' type id s :
  job_of type id (Heartbeat c type' id' s) =
  (if bool_decide (type' = type) && (id' =? id)%string && bool_decide (c_fault c = None)
   then beat_row c <$> job_of type id s else job_of type id s).
Proof.
  unfold Heartbeat, job_of. destruct (heartbeat_target type') as [t' k'] eqn:Et.
  rewrite swallowed_update. destruct (c_fault c) eqn:Ec.
  { rewrite (bool_decide_eq_false_2 (Some e = None)), andb_false_r by done. done. }
  rewrite (bool_decide_eq_true_2 (None = None)), andb_true_r by done.
  destruct (decide (type' = type)) as [->|Hne].
  - rewrite bool_decide_eq_true_2 by done. rewrite Et. cbn [fst snd andb].
    rewrite where_is_update_where.
    + destruct (id' =? id)%string eqn:E.
      * apply String.eqb_eq in E as ->. apply list_fmap_ext. intros i r Hi.
        apply list_elem_of_lookup_2, list_elem_of_filter in Hi as [-> _]. done.
      * apply fmap_id_on. intros r Hr. apply list_elem_of_filter in Hr as [Hr _].
        destruct (text_is k' id' r) eqn:E2; [|done].
        apply String.eqb_neq in E. by destruct E; apply (text_is_unique k' _ _ r).
    + intros r. apply text_is_set_columns_other. destruct type; injection Et as <- <-; by_deciding.
  - rewrite bool_decide_eq_false_2 by done. cbn [andb]. unfold where_is. rewrite update_rows_other; [done|].
    destruct type, type'; injection Et as <- <-; try done; by_deciding.
Qed.

Lemma job_of_sweep c ttl type id s :
  job_of type id (ReconcileStaleJobs c (Some ttl) s) =
  (if bool_decide (c_fault c <> None) then job_of type id s else sweep_row c ttl <$> job_of type id s).
Proof.
  unfold ReconcileStaleJobs, work, job_of. destruct (c_fault c).
  { by rewrite bool_decide_eq_true_2. }
  rewrite bool_decide_eq_false_2 by auto. cbn [swallowed fst]. unfold sweep_table.
  assert (Hkey : forall r, text_is (heartbeat_target type).2 id (fail_row (c_now c) (Some ttl) r)
                 = text_is (heartbeat_target type).2 id r).
  { intros r. apply text_is_set_columns_other. destruct type; by_deciding. }
  assert (Hother : forall t p f s', t <> (heartbeat_target type).1 ->
    where_is (heartbeat_target type).1 (heartbeat_target type).2 id (update_rows t p f s').1 =
    where_is (heartbeat_target type).1 (heartbeat_target type).2 id s').
  { intros t p f s' Hne. unfold where_is. by rewrite update_rows_other. }
  destruct type; cbn [heartbeat_target fst snd] in *.
  all: set (st := is_stale _ _); set (fl := fail_row _ _).
  - rewrite (where_is_update_where _ _ _ st fl) by done. by rewrite !Hother.
  - rewrite Hother by done. rewrite (where_is_update_where _ _ _ st fl) by done. by rewrite Hother.
  - rewrite !Hother by done. by rewrite (where_is_update_where _ _ _ st fl).
Qed.

(** The columns the trace acts on. *)
Definition row_at (status : string) (last : Z) r : Prop :=
  column r "status" = SText status /\ column r "updated_at" = STime last.
Lemma beat_row_at c status last r : row_at status last r -> row_at status (c_now c) (beat_row c r).
Proof. intros [H1 _]. unfold row_at, beat_row. cbn. by sql_simpl. Qed.
Lemma sweep_row_at c ttl status last r : row_at status last r -> status = "RUNNING" \/ status = "PENDING" ->
  if (c_now c - ttl * 1000000 <=? last)%Z then row_at status last (sweep_row c ttl r)
  else exists last', row_at "FAILED" last' (sweep_row c ttl r).
Proof.
  intros [H1 H2] Hopen. unfold sweep_row, is_stale.
  assert (text_in "status" ["RUNNING"; "PENDING"] r = true) as ->.
  { unfold text_in, text_is. cbn. rewrite H1. by destruct Hopen as [-> | ->]. }
  unfold time_of. rewrite H2. cbn [andb]. destruct (c_now c - ttl * 1000000 <=? last)%Z eqn:E.
  - apply Z.leb_le in E. assert ((last <? c_now c - ttl * 1000000)%Z = false) as -> by lia. done.
  - apply Z.leb_gt in E. assert ((last <? c_now c - ttl * 1000000)%Z = true) as -> by lia.
    exists (c_now c). unfold row_at, fail_row. cbn. by sql_simpl.
Qed.
Lemma failed_row_stays c ttl last r : row_at "FAILED" last r -> sweep_row c ttl r = r.
Proof.
  intros [H1 _]. unfold sweep_row, is_stale, text_in, text_is. cbn. by rewrite H1.
Qed.

(** A failed job stays failed. *)
Lemma upkeep_failed type id os s :
  Forall (fun r => exists last, row_at "FAILED" last r) (job_of type id s) ->
  Forall (fun r => exists last, row_at "FAILED" last r) (job_of type id (foldl (flip do_upkeep) s os)).
Proof.
  revert s. induction os as [|o os IH]; intros s Hs; [done|]. cbn [foldl]. apply IH. unfold flip.
  destruct o as [c type' id'|c ttl]; cbn [do_upkeep].
  - rewrite job_of_beat. destruct (bool_decide (type' = type) && _ && _); [|done].
    apply Forall_fmap. apply (Forall_impl _ _ _ Hs). intros r [last Hr]. exists (c_now c). cbn.
    by apply (beat_row_at c _ last).
  - rewrite job_of_sweep. destruct (bool_decide _); [done|]. apply Forall_fmap, (Forall_impl _ _ _ Hs).
    intros r [last Hr]. cbn. rewrite (failed_row_stays c ttl last) by done. eauto.
Qed.

Lemma upkeep_open type id os s status last :
  status = "RUNNING" \/ status = "PENDING" -> Forall (row_at status last) (job_of type id s) ->
  Forall (fun r => column r "status" = SText (if beaten type id last os then status else "FAILED"))
    (job_of type id (foldl (flip do_upkeep) s os)).
Proof.
  intros Hopen. revert s last. induction os as [|o os IH]; intros s last Hs.
  - apply (Forall_impl _ _ _ Hs). by intros r [].
  - cbn [foldl]. unfold flip at 2. destruct o as [c type' id'|c ttl]; cbn [do_upkeep beaten].
    + apply IH. rewrite job_of_beat. destruct (bool_decide (type' = type) && _ && _); [|done].
      apply Forall_fmap, (Forall_impl _ _ _ Hs). intros r Hr. by apply (beat_row_at c _ last).
    + pose proof (job_of_sweep c ttl type id s) as Hsw. destruct (bool_decide (c_fault c <> None)).
      { apply IH. by rewrite Hsw. }
      cbn [orb]. destruct (c_now c - ttl * 1000000 <=? last)%Z eqn:E; cbn [andb].
      * apply IH. rewrite Hsw. apply Forall_fmap, (Forall_impl _ _ _ Hs). intros r Hr.
        pose proof (sweep_row_at c ttl status last r Hr Hopen) as Hx. by rewrite E in Hx.
      * eapply Forall_impl; [apply upkeep_failed|by intros r (? & ? & _)].
        rewrite Hsw. apply Forall_fmap, (Forall_impl _ _ _ Hs). intros r Hr.
        pose proof (sweep_row_at c ttl status last r Hr Hopen) as Hx. by rewrite E in Hx.
Qed.
End liveness.

(** C3: the reconciler fails exactly the jobs that fall silent.  While nobody
    changes the status of an open job (generation run, model run or score job),
    any sequence of heartbeats and sweeps leaves it in its status if a
    heartbeat arrived within the TTL before every sweep that reached the
    database; otherwise the job ends FAILED, whether it was running or, like a
    tuning trial that waits for its turn, still pending. *)
Theorem sweeps_fail_exactly_silent_jobs {F} `{Num F} (type : JobType) (id status : string) (last : Z)
  (os : list upkeep) (s : Store F)
  (Hopen : status = "RUNNING" \/ status = "PENDING")
  (Hrows : Forall (row_at status last) (job_of type id s)) :
  let s' := foldl (flip do_upkeep) s os in
  length (job_of type id s') = length (job_of type id s) /\
  Forall (fun r => column r "status" = SText (if beaten type id last os then status else "FAILED"))
    (job_of type id s').
Proof.
  split; [|by apply upkeep_open]. clear Hrows. revert s.
  induction os as [|o os IH]; intros s; [done|]. cbn [foldl]. rewrite IH. unfold flip.
  destruct o; cbn [do_upkeep]; [rewrite job_of_beat|rewrite job_of_sweep];
    match goal with |- context [if ?b then _ else _] => destruct b end; by rewrite ?length_fmap.
Qed.

(** ** Witnesses *)
Lemma unique_models_NoDup {F} (s : Store F) :
  NoDup (text_of "model_run_id" <$> rows s "model_runs") -> unique_models s.
Proof.
  intros Hnd m1 m2 id H1 H2 E1 E2.
  apply list_elem_of_lookup in H1 as [i Hi]. apply list_elem_of_lookup in H2 as [j Hj].
  assert (i = j) as <-; [|congruence].
  apply (NoDup_lookup (text_of "model_run_id" <$> rows s "model_runs") i j id Hnd);
    rewrite list_lookup_fmap; [rewrite Hi|rewrite Hj]; cbn; unfold text_of; by rewrite ?E1, ?E2.
Qed.

Lemma rows_at_check {F} status last (l : list (Row F)) :
  forallb (fun r => text_is "status" status r &&
    match column r "updated_at" with STime t => (t =? last)%Z | _ => false end) l = true ->
  Forall (row_at status last) l.
Proof.
  rewrite forallb_forall. intros Hall. apply Forall_forall. intros r Hr%list_elem_of_In.
  specialize (Hall r Hr). apply andb_true_iff in Hall as [H1 H2]. split; [by apply text_is_true|].
  destruct (column r "updated_at"); try discriminate. by apply Z.eqb_eq in H2 as ->.
Qed.

#[local] Existing Instance pg_example.
#[local] Instance pg_input_float : PgInput float := pg_input_example float.

Definition call_example (now : Z) : Call := MkCall None now.
Definition run_request_example : GenerateRequest float :=
  MkRequest "USER_UI" 1 "2026-01-01T00:00:00Z" "2026-01-02T00:00:00Z" 600 [] None 0 7 "req".
(** A dataset with a pending model run and a score job. *)
Definition store_example : Store float :=
  let s := CreateRun (call_example 1) "ds" run_request_example (JObj []) "RUNNING" "req" empty_store in
  let '(s, _) := CreateModelRun (call_example 2) "ds" "pca_default" (JObj []) "req" (JObj []) "" "" None s in
  (CreateScoreJob (call_example 3) "ds" "id-0" "req" s).1.
(** The same after an inference request used the model. *)
Definition store_used_example : Store float := (CreateInferenceRun (call_example 4) "id-0" store_example).1.

Lemma transitions_have_one_winner_witness :
  "PENDING" <> "RUNNING" /\ (length (job_rows ScoreJob "id-1" store_example) <= 1)%nat /\
  in_status ScoreJob "id-1" "PENDING" store_example = 1%nat /\
  let '(s', wons) := race ScoreJob "id-1" "PENDING" "RUNNING"
    [MkCall (Some (Exn PqBrokenConnection "lost")) 5; call_example 6; call_example 7] store_example in
  countb Datatypes.id wons = 1%nat /\ in_status ScoreJob "id-1" "RUNNING" s' = 1%nat.
Proof.
  assert (Hk : (length (job_rows ScoreJob "id-1" store_example) <= 1)%nat) by (vm_compute; lia).
  assert (Hs : in_status ScoreJob "id-1" "PENDING" store_example = 1%nat) by (vm_compute; reflexivity).
  pose proof (transitions_have_one_winner ScoreJob "id-1" "PENDING" "RUNNING"
    [MkCall (Some (Exn PqBrokenConnection "lost")) 5; call_example 6; call_example 7] store_example
    ltac:(discriminate) Hk) as Hw.
  split; [discriminate|]. split; [done|]. split; [done|].
  destruct (race _ _ _ _ _ _) as [s' wons]. destruct Hw as [_ Hw].
  destruct (Hw Hs) as (H1 & _ & H2); [|by split]. right. left. reflexivity.
Defined.

Lemma delete_dataset_is_all_or_nothing_witness :
  intact store_example /\ unique_models store_example /\
  (let '(s', r) := DeleteDatasetWithScores (call_example 5) "ds" store_example in
   r = Ok tt /\ rows s' "model_runs" = [] /\ rows s' "generation_runs" = []) /\
  (let '(s', r) := DeleteDatasetWithScores (call_example 5) "ds" store_used_example in
   is_ok r = false /\ s' = store_used_example).
Proof.
  assert (Hi : intact store_example) by (vm_compute; reflexivity).
  assert (Hu : unique_models store_example) by (apply unique_models_NoDup; by_deciding).
  assert (Hi2 : intact store_used_example) by (vm_compute; reflexivity).
  assert (Hu2 : unique_models store_used_example) by (apply unique_models_NoDup; by_deciding).
  split; [done|]. split; [done|]. split.
  - pose proof (delete_dataset_is_all_or_nothing (call_example 5) "ds" store_example Hi Hu) as Hd.
    destruct (DeleteDatasetWithScores (call_example 5) "ds" store_example) as [s' r] eqn:E.
    assert (Hok : is_ok r = true) by (change r with (s', r).2; rewrite <- E; vm_compute; reflexivity).
    clear E. destruct r as [[]|e]; [|discriminate Hok]. destruct Hd as (Hrows & _). rewrite !Hrows.
    split; [done|]. split; vm_compute; reflexivity.
  - pose proof (delete_dataset_is_all_or_nothing (call_example 5) "ds" store_used_example Hi2 Hu2) as Hd.
    destruct (DeleteDatasetWithScores (call_example 5) "ds" store_used_example) as [s' r] eqn:E.
    assert (Hno : is_ok r = false) by (change r with (s', r).2; rewrite <- E; vm_compute; reflexivity).
    clear E. destruct r as [[]|e]; [discriminate Hno|]. split; [done|]. apply Hd.
Defined.

Lemma sweeps_fail_exactly_silent_jobs_witness :
  (("PENDING" = "RUNNING" \/ "PENDING" = "PENDING") /\
   Forall (row_at "PENDING" 2) (job_of ModelRun "id-0" store_example)) /\
  let trace := [Beat (call_example 300000000) ModelRun "id-0"; Sweep (call_example 600000000) 600;
                Sweep (call_example 1000000000) 600] in
  let s' := foldl (flip do_upkeep) store_example trace in
  length (job_of ModelRun "id-0" s') = 1%nat /\
  Forall (fun r => column r "status" = SText "FAILED") (job_of ModelRun "id-0" s').
Proof.
  assert (Hr : Forall (row_at "PENDING" 2) (job_of ModelRun "id-0" store_example)).
  { apply rows_at_check. vm_compute. reflexivity. }
  split; [split; [by right|done]|]. cbv zeta.
  pose proof (sweeps_fail_exactly_silent_jobs ModelRun "id-0" "PENDING" 2
    [Beat (call_example 300000000) ModelRun "id-0"; Sweep (call_example 600000000) 600;
     Sweep (call_example 1000000000) 600] store_example (or_intror eq_refl) Hr) as [H1 H2].
  rewrite H1. split; [vm_compute; reflexivity|exact H2].
Defined.
