(* ===== verification/Workers.v ===== *)
(** How the job bodies and handlers of src/src/api_server.cpp run: a sequence of
    calls to the database client, each of which may be hit by a fault of its
    own, and of reads of the job's stop flag.

    [api A] is a computation that returns an [A] or throws, on a state that
    counts the calls and the reads and holds the shared world [W] (the store).
    The environment of a run says what happens to the n-th call and what the
    n-th read of the flag returns. *)
From stdpp Require Import base list strings.
From Stdlib Require Import ZArith Lia.
From S2P Require Import Prelude Sql.

Record ApiEnv := MkEnv { db_env : nat -> Call; stop_at : nat -> bool }.
(** The flag is never lowered again. *)
Definition stop_stays (env : ApiEnv) : Prop := forall n, stop_at env n = true -> stop_at env (S n) = true.
(** Every call reaches a working database; nobody cancels. *)
Definition quiet_env : ApiEnv := MkEnv (fun n => MkCall None (Z.of_nat n)) (fun _ => false).

Record ApiState (W : Type) := MkApi { calls : nat; reads : nat; world : W }.
Arguments MkApi {W} calls reads world.
Arguments calls {W} _.
Arguments reads {W} _.
Arguments world {W} _.

Definition api (W A : Type) : Type := ApiState W -> ApiState W * res A.

#[global] Instance api_ret W : MRet (api W) := fun A a st => (st, Ok a).
#[global] Instance api_bind W : MBind (api W) := fun A B f m st =>
  match m st with (st', Ok a) => f a st' | (st', Throw e) => (st', Throw e) end.

Section api.
Context {W : Type}.

Definition lift {A} (r : res A) : api W A := fun st => (st, r).
Definition throw {A} (e : exn) : api W A := lift (Throw e).
(** [try { m } catch (const std::exception& e) { h(e) }]. *)
Definition try_catch {A} (m : api W A) (h : exn -> api W A) : api W A := fun st =>
  match m st with
  | (st', Throw e) => if catchable e then h e st' else (st', Throw e)
  | r => r
  end.

Context (env : ApiEnv).
(** A call that changes the store and may throw. *)
Definition db_run {A} (f : Call -> W -> W * res A) : api W A := fun st =>
  let '(w, r) := f (db_env env (calls st)) (world st) in (MkApi (S (calls st)) (reads st) w, r).
(** One that swallows its exceptions, one that reports a boolean, and reads. *)
Definition db_do (f : Call -> W -> W) : api W unit := db_run (fun c w => (f c w, Ok tt)).
Definition db_flip (f : Call -> W -> W * bool) : api W bool :=
  db_run (fun c w => let '(w', b) := f c w in (w', Ok b)).
Definition db_read {A} (f : Call -> W -> res A) : api W A := db_run (fun c w => (w, f c w)).
Definition db_ask {A} (f : Call -> W -> A) : api W A := db_read (fun c w => Ok (f c w)).
(** [stop_flag->load()]. *)
Definition stopped : api W bool := fun st =>
  (MkApi (calls st) (S (reads st)) (world st), Ok (stop_at env (reads st))).

(** A relation between worlds that every call of a computation respects. *)
Definition respects (R : W -> W -> Prop) {A} (m : api W A) : Prop :=
  forall st, R (world st) (world (m st).1).

Lemma respects_bind R `{!Transitive R} {A B} (m : api W A) (f : A -> api W B) :
  respects R m -> (forall a, respects R (f a)) -> respects R (m ≫= f).
Proof.
  intros Hm Hf st. specialize (Hm st). cbv [mbind api_bind]. destruct (m st) as [st' [a|e]]; [|done].
  etrans; [exact Hm|apply Hf].
Qed.
Lemma respects_lift R `{!Reflexive R} {A} (r : res A) : respects R (lift r).
Proof. intros st. cbn. reflexivity. Qed.
Lemma respects_ret R `{!Reflexive R} {A} (a : A) : respects R (mret a).
Proof. intros st. cbn. reflexivity. Qed.
Lemma respects_ask R `{!Reflexive R} {A} (f : Call -> W -> A) : respects R (db_ask f).
Proof. intros st. cbn. reflexivity. Qed.
Lemma respects_read R `{!Reflexive R} {A} (f : Call -> W -> res A) : respects R (db_read f).
Proof. intros st. cbn. reflexivity. Qed.
Lemma respects_run (R : W -> W -> Prop) {A} (f : Call -> W -> W * res A) :
  (forall c w, R w (f c w).1) -> respects R (db_run f).
Proof. intros Hf st. unfold db_run. specialize (Hf (db_env env (calls st)) (world st)). by destruct (f _ _). Qed.
Lemma respects_do (R : W -> W -> Prop) (f : Call -> W -> W) : (forall c w, R w (f c w)) -> respects R (db_do f).
Proof. intros Hf. by apply respects_run. Qed.
Lemma respects_flip (R : W -> W -> Prop) (f : Call -> W -> W * bool) :
  (forall c w, R w (f c w).1) -> respects R (db_flip f).
Proof. intros Hf. apply respects_run. intros c w. specialize (Hf c w). by destruct (f c w). Qed.
Lemma respects_try R `{!Transitive R} {A} (m : api W A) (h : exn -> api W A) :
  respects R m -> (forall e, respects R (h e)) -> respects R (try_catch m h).
Proof.
  intros Hm Hh st. specialize (Hm st). unfold try_catch. destruct (m st) as [st' [a|e]]; [done|].
  destruct (catchable e); [|done]. etrans; [exact Hm|apply Hh].
Qed.

(** One step of a computation. *)
Definition next_call (st : ApiState W) : ApiState W := MkApi (S (calls st)) (reads st) (world st).
Lemma api_lift_ok {A B} (r : res A) (a : A) (f : A -> api W B) st : r = Ok a -> (lift r ≫= f) st = f a st.
Proof. by intros ->. Qed.
Lemma api_ask {A B} (f : Call -> W -> A) (g : A -> api W B) st :
  (db_ask f ≫= g) st = g (f (db_env env (calls st)) (world st)) (next_call st).
Proof. done. Qed.
Lemma api_try_ok {A B} (m : api W A) h (g : A -> api W B) st st' a :
  m st = (st', Ok a) -> (try_catch m h ≫= g) st = g a st'.
Proof. intros Hm. cbv [mbind api_bind try_catch]. by rewrite Hm. Qed.

(** The flag is only read: if a read returned false, so did the earlier ones. *)
Lemma stop_earlier : stop_stays env -> forall n m, n <= m -> stop_at env m = false -> stop_at env n = false.
Proof.
  intros Hstays n m Hle. induction Hle as [|m Hle IH]; [done|]. intros Hm. apply IH.
  destruct (stop_at env m) eqn:E; [|done]. apply Hstays in E. congruence.
Qed.
End api.

(** A computation respects a relation when each of its calls does; the calls
    that write are left to the hint database. *)
Create HintDb respects.
#[export] Hint Resolve respects_lift respects_ret respects_ask respects_read : respects.
Ltac respecting :=
  repeat first
    [ apply respects_bind; [apply _| |intros ?]
    | apply respects_lift; apply _ | apply respects_ret; apply _
    | apply respects_ask; apply _ | apply respects_read; apply _
    | apply respects_do; solve [auto with respects] | apply respects_flip; solve [auto with respects]
    | apply respects_run; solve [auto with respects]
    | match goal with
      | |- respects _ (let '(_, _) := ?x in _) => destruct x
      | |- respects _ (if ?b then _ else _) => destruct b
      | |- respects _ (match ?x with _ => _ end) => destruct x
      end ].
