(* ===== verification/ScoreJob.v ===== *)
(** The background job that scores a dataset with a model
    (ApiServer::HandleScoreDatasetJob, src/src/api_server.cpp).

    The job is written against the interface [ScoreDb], the calls of IDbClient
    it makes; its theorems use only the laws [ScoreDbLaws], which [DbClient]'s
    store satisfies. *)
From stdpp Require Import base gmap strings list fin_maps sorting.
From Stdlib Require Import ZArith Lia Floats Sorting.Sorted.
From S2P Require Import Prelude Num Detectors Linalg Json PcaModel Sql DbClient Workers.

Local Open Scope string_scope.
Local Open Scope list_scope.

(** ** What the job asks of the database client *)
Class ScoreDb (F W : Type) := {
  sd_get_score_job : Call -> string -> W -> json F;
  sd_record_count : Call -> string -> W -> res Z;
  sd_try_transition : Call -> string -> string -> string -> W -> W * bool;
  sd_update_score_job : Call -> string -> string -> Z -> Z -> Z -> string -> W -> W;
  sd_get_model_run : Call -> string -> W -> json F;
  sd_fetch : Call -> string -> Z -> Z -> W -> res (list (ScoringRow F));
  sd_insert : Call -> string -> string -> list (Z * (F * bool)) -> W -> W * res unit }.

(** The dataset as an ordered list of rows, the scores stored for a dataset and
    a model, the artifact path of a model, and how the calls act on them.  [sd_ok] is the well-formedness of
    the store that the calls rely on and keep. *)
Class ScoreDbLaws (F W : Type) `{ScoreDb F W} := {
  sd_ok : W -> Prop;
  records : string -> W -> list (ScoringRow F);
  scores : string -> string -> W -> list (Z * (F * bool));
  model_path : string -> W -> string;
  records_sorted ds w : sd_ok w ->
    StronglySorted (fun a b => (sr_record_id a < sr_record_id b)%Z) (records ds w);
  fetch_law c ds last n w : sd_ok w -> (0 <= n)%Z ->
    sd_fetch c ds last n w =
    match c_fault c with
    | Some e => Throw e
    | None => Ok (take (Z.to_nat n) (filter (fun r => (last < sr_record_id r)%Z) (records ds w)))
    end;
  insert_law c ds m sc w : sd_ok w ->
    let '(w', r) := sd_insert c ds m sc w in
    match r with
    | Ok _ => sd_ok w' /\ (forall d, records d w' = records d w) /\ scores ds m w' = scores ds m w ++ sc
    | Throw _ => w' = w
    end;
  update_law c job st total processed last err w ds m : sd_ok w ->
    let w' := sd_update_score_job c job st total processed last err w in
    sd_ok w' /\ (forall d, records d w' = records d w) /\ scores ds m w' = scores ds m w;
  transition_law c job e n w ds m : sd_ok w ->
    let w' := (sd_try_transition c job e n w).1 in
    sd_ok w' /\ (forall d, records d w' = records d w) /\ scores ds m w' = scores ds m w;
  update_path c job st total processed last err w m :
    model_path m (sd_update_score_job c job st total processed last err w) = model_path m w;
  transition_path c job e n w m : model_path m (sd_try_transition c job e n w).1 = model_path m w;
  model_path_law c m w path :
    jvalue get_string "artifact_path" "" (sd_get_model_run c m w) = Ok path -> path = "" \/ path = model_path m w }.

(** ** The job *)
Section job.
Context {F : Type} `{Num F} `{!FloatFmt F} {W : Type} `{!ScoreDb F W}.
Context (env : ApiEnv).
(** [model_cache_->GetOrCreate(model_run_id, artifact_path)]. *)
Context (get_or_create : string -> string -> res (PcaModel F)).

Definition kScoreBatch : Z := 5000.

Definition score_row (model : PcaModel F) (r : ScoringRow F) : res (Z * (F * bool)) :=
  score ← Score model [sr_cpu r; sr_mem r; sr_disk r; sr_rx r; sr_tx r];
  Ok (sr_record_id r, (reconstruction_error score, ps_is_anomaly score)).

(** [while (!stop_flag->load()) { ... }]: the rows processed and the last
    record when it ends; [None] when the fuel runs out. *)
Fixpoint score_loop (fuel : nat) (dataset_id model_run_id job_id : string) (model : PcaModel F)
    (total processed last_record : Z) : api W (option (Z * Z)) :=
  match fuel with
  | O => mret None
  | S fuel' =>
      stop ← stopped env;
      if (stop : bool) then mret (Some (processed, last_record)) else
      rows ← db_read env (fun c => sd_fetch c dataset_id last_record kScoreBatch);
      match rows with
      | [] => mret (Some (processed, last_record))
      | _ =>
          sc ← lift (mapR (score_row model) rows);
          db_run env (fun c => sd_insert c dataset_id model_run_id sc);;
          let processed := (processed + zlen rows)%Z in
          let last_record := default last_record (sr_record_id <$> last rows) in
          db_do env (fun c => sd_update_score_job c job_id "RUNNING" total processed last_record "");;
          score_loop fuel' dataset_id model_run_id job_id model total processed last_record
      end
  end.

(** How the job ends when it does not throw: it left the job to another worker,
    or it recorded this status.  [NoFuel] is no behaviour of the code. *)
Inductive score_end := NotMine | EndCancelled | EndCompleted | NoFuel.

Definition job_counters (job : json F) : res (Z * Z * Z) :=
  total ← jvalue get_long "total_rows" 0%Z job;
  processed ← jvalue get_long "processed_rows" 0%Z job;
  last_record ← jvalue get_long "last_record_id" 0%Z job;
  Ok (total, processed, last_record).

(** Up to the model: the counters to start from, unless another worker has the
    job. *)
Definition score_start (dataset_id model_run_id job_id : string) : api W (option (Z * Z * Z * PcaModel F)) :=
  job_info ← db_ask env (fun c => sd_get_score_job c job_id);
  counters ← lift (job_counters job_info);
  let '(_, processed, last_record) := counters in
  total ← db_read env (fun c => sd_record_count c dataset_id);
  won ← db_flip env (fun c => sd_try_transition c job_id "PENDING" "RUNNING");
  mine ← (if (won : bool) then mret true else
    current ← db_ask env (fun c => sd_get_score_job c job_id);
    status ← lift (jvalue get_string "status" "" current);
    mret (status =? "RUNNING")%string);
  if negb mine then mret None else
  db_do env (fun c => sd_update_score_job c job_id "RUNNING" total processed last_record "");;
  model_info ← db_ask env (fun c => sd_get_model_run c model_run_id);
  artifact_path ← lift (jvalue get_string "artifact_path" "" model_info);
  if (artifact_path =? "")%string then lift (runtime_error "Model artifact path missing") else
  model ← lift (get_or_create model_run_id artifact_path);
  mret (Some (total, processed, last_record, model)).

Definition score_body (fuel : nat) (dataset_id model_run_id job_id : string) : api W score_end :=
  start ← score_start dataset_id model_run_id job_id;
  match start with
  | None => mret NotMine
  | Some (total, processed, last_record, model) =>
      done ← score_loop fuel dataset_id model_run_id job_id model total processed last_record;
      match done with
      | None => mret NoFuel
      | Some (processed, last_record) =>
          stop ← stopped env;
          let status := if (stop : bool) then "CANCELLED" else "COMPLETED" in
          db_do env (fun c => sd_update_score_job c job_id status total processed last_record "");;
          mret (if stop then EndCancelled else EndCompleted)
      end
  end.

Definition score_failed (job_id : string) (e : exn) : api W score_end :=
  job_info ← db_ask env (fun c => sd_get_score_job c job_id);
  counters ← lift (job_counters job_info);
  let '(total, processed, last_record) := counters in
  db_do env (fun c => sd_update_score_job c job_id "FAILED" total processed last_record (exn_what e));;
  throw e.

Definition score_job (fuel : nat) (dataset_id model_run_id job_id : string) : api W score_end :=
  try_catch (score_body fuel dataset_id model_run_id job_id) (score_failed job_id).
End job.

Lemma take_take_drop_app {A} n k (l : list A) : take (n + k) l = take n l ++ take k (drop n l).
Proof.
  revert l. induction n as [|n IH]; intros [|x l]; cbn; [done..| |by rewrite IH]. by rewrite take_nil.
Qed.
Lemma StronglySorted_filter {A} (R : A -> A -> Prop) (P : A -> Prop) `{!forall x, Decision (P x)} l :
  StronglySorted R l -> StronglySorted R (filter P l).
Proof.
  induction 1 as [|x l Hs IH Hall]; [constructor|]. rewrite filter_cons. case_decide; [|done].
  constructor; [done|]. apply Forall_forall. intros y [_ Hy]%list_elem_of_filter.
  rewrite Forall_forall in Hall. by apply Hall.
Qed.

(** ** What a run of the job does to the scores *)
Section job_spec.
Context {F : Type} `{Num F} `{!FloatFmt F} {W : Type} `{!ScoreDb F W} `{!ScoreDbLaws F W}.
Context (env : ApiEnv) (get_or_create : string -> string -> res (PcaModel F)).
Implicit Types (rs : list (ScoringRow F)) (w : W).

Definition after (last : Z) rs : list (ScoringRow F) := filter (fun r => (last < sr_record_id r)%Z) rs.

Lemma after_batch last rs n x : StronglySorted (fun a b => (sr_record_id a < sr_record_id b)%Z) rs ->
  list.last (take n (after last rs)) = Some x -> after (sr_record_id x) rs = drop n (after last rs).
Proof.
  intros Hs Hx. set (todo := after last rs) in *.
  assert (Hst : StronglySorted (fun a b => (sr_record_id a < sr_record_id b)%Z) todo)
    by by apply StronglySorted_filter.
  rewrite last_lookup in Hx. set (l1 := take n todo) in *. set (l2 := drop n todo).
  assert (Heq : todo = l1 ++ l2) by (symmetry; apply take_drop).
  assert (Hn : (0 < length l1)%nat) by (destruct l1; [discriminate|cbn; lia]).
  assert (Hxt : todo !! Nat.pred (length l1) = Some x) by (rewrite Heq; by apply lookup_app_l_Some).
  assert (Hlast : (last < sr_record_id x)%Z)
    by (by apply list_elem_of_lookup_2, list_elem_of_filter in Hxt as [? _]).
  assert (after (sr_record_id x) rs = after (sr_record_id x) todo) as ->.
  { unfold todo, after. rewrite list_filter_filter. apply list_filter_iff. intros r. lia. }
  unfold after. rewrite Heq, filter_app, filter_none, filter_all; [done|..];
    apply Forall_lookup; intros i r Hr.
  - assert (todo !! (length l1 + i)%nat = Some r) by (rewrite Heq, lookup_app_r by lia; by rewrite Nat.add_comm, Nat.add_sub).
    apply (StronglySorted_lookup _ _ (Nat.pred (length l1)) (length l1 + i) x r Hst); [lia|done|done].
  - pose proof (lookup_lt_Some _ _ _ Hr).
    assert (todo !! i = Some r) by (rewrite Heq; by apply lookup_app_l_Some).
    destruct (decide (i = Nat.pred (length l1))) as [->|]; [rewrite Hxt in *; simplify_eq; lia|].
    enough (sr_record_id r < sr_record_id x)%Z by lia.
    apply (StronglySorted_lookup _ _ i (Nat.pred (length l1)) r x Hst); [lia|done|done].
Qed.

(** The n-th read of the flag returned true, before [m]. *)
Definition stop_seen (m : nat) : Prop := exists n, (n < m)%nat /\ stop_at env n = true.

Lemma score_loop_ok fuel ds m job model total processed last st : sd_ok (world st) ->
  let '(st', r) := score_loop env fuel ds m job model total processed last st in
  exists k done,
    sd_ok (world st') /\ (forall d, records d (world st') = records d (world st)) /\
    mapR (score_row model) (take k (after last (records ds (world st)))) = Ok done /\
    scores ds m (world st') = scores ds m (world st) ++ done /\
    (forall p l, r = Ok (Some (p, l)) ->
       (length (after last (records ds (world st))) <= k)%nat \/ stop_seen (reads st')) /\
    ((length (after last (records ds (world st))) < fuel)%nat -> r <> Ok None).
Proof.
  revert processed last st. induction fuel as [|fuel IH]; intros processed last st Hok.
  { exists 0%nat, []. rewrite app_nil_r. split_and!; try done. lia. }
  cbn [score_loop]. cbv [mbind api_bind stopped mret api_ret db_read db_run lift]. cbn [calls reads world].
  set (todo := after last (records ds (world st))).
  destruct (stop_at env (reads st)) eqn:Estop; cbn [calls reads world].
  { exists 0%nat, []. rewrite app_nil_r. split_and!; try done. intros _ _ _. right. exists (reads st). split; [cbn; lia|done]. }
  rewrite fetch_law by done. cbn [world].
  destruct (c_fault _) as [e|].
  { exists 0%nat, []. rewrite app_nil_r. by split_and!. }
  fold (after last (records ds (world st))). fold todo.
  set (n := Z.to_nat kScoreBatch). assert (Hn : (0 < n)%nat) by (unfold n, kScoreBatch; lia).
  destruct (take n todo) as [|r0 rs0] eqn:Erows.
  { exists 0%nat, []. rewrite app_nil_r. split_and!; try done.
    intros _ _ _. left. destruct todo; [cbn; lia|destruct n; [lia|discriminate]]. }
  rewrite <- Erows. destruct (mapR (score_row model) (take n todo)) as [sc|e] eqn:Esc.
  2:{ exists 0%nat, []. rewrite app_nil_r. by split_and!. }
  cbn [calls reads world].
  pose proof (insert_law (db_env env (S (calls st))) ds m sc (world st) Hok) as Hi.
  destruct (sd_insert _ ds m sc (world st)) as [w1 [[]|e]]; cbn [calls reads world].
  2:{ subst w1. exists 0%nat, []. rewrite app_nil_r. by split_and!. }
  destruct Hi as (Hok1 & Hrec1 & Hsc1). unfold db_do, db_run. cbn [calls reads world].
  set (l' := default last (sr_record_id <$> list.last (take n todo))).
  set (w2 := sd_update_score_job _ _ _ _ _ _ _ w1).
  destruct (update_law (db_env env (S (S (calls st)))) job "RUNNING" total
    (processed + zlen (take n todo))%Z l' "" w1 ds m Hok1) as (Hok2 & Hrec2 & Hsc2). fold w2 in Hok2, Hrec2, Hsc2.
  assert (Hrecw : forall d, records d w2 = records d (world st)) by (intros d; by rewrite Hrec2, Hrec1).
  assert (Htodo : after l' (records ds w2) = drop n todo).
  { rewrite Hrecw. unfold l'. destruct (list.last (take n todo)) as [x|] eqn:Ex.
    - cbn. by apply after_batch; [apply records_sorted|].
    - rewrite last_None in Ex. congruence. }
  specialize (IH (processed + zlen (take n todo))%Z l' (MkApi (S (S (S (calls st)))) (S (reads st)) w2) Hok2).
  cbn [calls reads world] in IH. rewrite Htodo in IH.
  destruct (score_loop env fuel ds m job model total _ l' _) as [st' r].
  destruct IH as (k & done' & Hok' & Hrec' & Hmap & Hsc' & Hdone & Hfuel).
  exists (n + k)%nat, (sc ++ done'). split; [done|]. split; [intros d; by rewrite Hrec', Hrecw|].
  split; [|split; [|split]].
  - rewrite take_take_drop_app. by apply mapR_app.
  - rewrite Hsc', Hsc2, Hsc1. by rewrite app_assoc.
  - intros p l Hr. destruct (Hdone p l Hr) as [Hk|Hs]; [left|by right]. rewrite length_drop in Hk. lia.
  - intros Hf. apply Hfuel. rewrite length_drop.
    assert (0 < length todo)%nat by (rewrite <- (take_drop n todo), Erows; cbn; lia). lia.
Qed.

(** Calls that leave the dataset and the scores alone. *)
Definition keeps (ds m : string) w w' : Prop :=
  sd_ok w -> sd_ok w' /\ (forall d, records d w' = records d w) /\ scores ds m w' = scores ds m w.
#[local] Instance keeps_refl ds m : Reflexive (keeps ds m).
Proof. by intros w Hw. Qed.
#[local] Instance keeps_trans ds m : Transitive (keeps ds m).
Proof.
  intros w1 w2 w3 H12 H23 Hw. destruct (H12 Hw) as (Hw2 & Hr & Hs). destruct (H23 Hw2) as (Hw3 & Hr' & Hs').
  split; [done|]. split; [intros d; by rewrite Hr', Hr|by rewrite Hs', Hs].
Qed.
Lemma keeps_update ds m c job status total processed last err w :
  keeps ds m w (sd_update_score_job c job status total processed last err w).
Proof. intros Hw. by apply (update_law c job status total processed last err w ds m). Qed.
Lemma keeps_transition ds m c job e n w : keeps ds m w (sd_try_transition c job e n w).1.
Proof. intros Hw. by apply (transition_law c job e n w ds m). Qed.
#[local] Hint Resolve keeps_update keeps_transition : respects.

Lemma score_start_keeps ds m job : respects (keeps ds m) (score_start env get_or_create ds m job).
Proof. unfold score_start. respecting. Qed.
Lemma score_failed_keeps ds m job e : respects (keeps ds m) (score_failed env job e).
Proof. unfold score_failed, throw. respecting. Qed.

(** The row the job starts from, as its first call reads it. *)
Definition starts_from job st (last : Z) : Prop :=
  exists total processed, job_counters (sd_get_score_job (db_env env (calls st)) job (world st)) = Ok (total, processed, last).

Lemma score_start_from ds m job st st' total processed last model :
  score_start env get_or_create ds m job st = (st', Ok (Some (total, processed, last, model))) ->
  starts_from job st last /\ get_or_create m (model_path m (world st)) = Ok model.
Proof.
  unfold score_start, starts_from.
  cbv [mbind api_bind db_ask db_do db_flip db_read db_run lift mret api_ret runtime_error]. cbn [calls world].
  assert (Hpath : forall c c1 c2 total processed path,
    jvalue get_string "artifact_path" "" (sd_get_model_run c m
      (sd_update_score_job c2 job "RUNNING" total processed last "" (sd_try_transition c1 job "PENDING" "RUNNING" (world st)).1)) = Ok path ->
    (path =? "")%string = false -> path = model_path m (world st)).
  { intros c c1 c2 n k path [-> | ->]%model_path_law; [done|]. by rewrite update_path, transition_path. }
  intros Hs. repeat (case_match; simplify_eq/=; try done);
    (split; [eauto|]);
    match goal with
    | Ht : sd_try_transition ?c job _ _ _ = (?w, _), Hj : jvalue get_string "artifact_path" _ _ = Ok _ |- _ =>
        apply (f_equal fst) in Ht; cbn [fst] in Ht; rewrite <- Ht in Hj; apply Hpath in Hj as <-; done
    end.
Qed.

(** [done] are the scores of the first records after [last], all of them when
    [k] is large enough. *)
Definition scored (ds m : string) (last : Z) w (k : nat) (done : list (Z * (F * bool))) : Prop :=
  exists model, get_or_create m (model_path m w) = Ok model /\
    mapR (score_row model) (take k (after last (records ds w))) = Ok done.

Lemma score_body_ok fuel ds m job st : stop_stays env -> sd_ok (world st) ->
  (length (records ds (world st)) < fuel)%nat ->
  let '(st', r) := score_body env get_or_create fuel ds m job st in
  exists done, sd_ok (world st') /\ (forall d, records d (world st') = records d (world st)) /\
    scores ds m (world st') = scores ds m (world st) ++ done /\
    (done = [] \/ exists last k, starts_from job st last /\ scored ds m last (world st) k done) /\
    (r = Ok EndCompleted -> exists last, starts_from job st last /\
       scored ds m last (world st) (length (records ds (world st))) done) /\
    r <> Ok NoFuel.
Proof.
  intros Hstop Hok Hfuel. unfold score_body. cbv [mbind api_bind].
  pose proof (score_start_keeps ds m job st Hok) as (Hok1 & Hrec1 & Hsc1).
  destruct (score_start env get_or_create ds m job st) as [st1 [[[[[total processed] last] model]|]|e]] eqn:Es; cycle 1.
  { cbn in *. exists []. rewrite app_nil_r. split_and!; try done. by left. }
  { cbn in *. exists []. rewrite app_nil_r. split_and!; try done. by left. }
  cbn [fst] in *. destruct (score_start_from _ _ _ _ _ _ _ _ _ Es) as (Hfrom & Hmodel).
  pose proof (score_loop_ok fuel ds m job model total processed last st1 Hok1) as Hl.
  destruct (score_loop env fuel ds m job model total processed last st1) as [st2 r2].
  destruct Hl as (k & done & Hok2 & Hrec2 & Hmap & Hsc2 & Hdone & Hnf).
  assert (Hlen : (length (after last (records ds (world st1))) <= length (records ds (world st)))%nat).
  { rewrite Hrec1. unfold after. apply length_filter. }
  rewrite Hrec1 in Hmap.
  assert (Hrec : forall d, records d (world st2) = records d (world st)) by (intros d; by rewrite Hrec2, Hrec1).
  destruct r2 as [[[p l]|]|e].
  - unfold stopped, db_do, db_run. cbn [calls reads world].
    set (b := stop_at env (reads st2)). set (w3 := sd_update_score_job _ _ _ _ _ _ _ (world st2)).
    destruct (keeps_update ds m (db_env env (calls st2)) job (if b then "CANCELLED" else "COMPLETED") total p l "" (world st2) Hok2)
      as (Hok3 & Hrec3 & Hsc3). fold w3 in Hok3, Hrec3, Hsc3.
    exists done. cbn [world]. split_and!; [done|intros d; by rewrite Hrec3|by rewrite Hsc3, Hsc2, Hsc1|..].
    + right. exists last, k. split; [done|]. by exists model.
    + cbn. intros Hc. assert (b = false) as Hb by (by destruct b). exists last. split; [done|].
      exists model. split; [done|]. rewrite <- Hmap. f_equal. rewrite Hrec1 in Hlen.
      rewrite !take_ge; [done| |lia].
      destruct (Hdone p l eq_refl) as [Hk|(n & Hn & Hs)]; [by rewrite <- Hrec1|].
      pose proof (stop_earlier env Hstop n (reads st2) ltac:(lia) Hb). congruence.
    + by destruct b.
  - exfalso. by apply Hnf; [lia|].
  - exists done. split_and!; [done|done|by rewrite Hsc2, Hsc1| |done|done].
    right. exists last, k. split; [done|]. by exists model.
Qed.

Lemma score_job_ok fuel ds m job st : stop_stays env -> sd_ok (world st) ->
  (length (records ds (world st)) < fuel)%nat ->
  let '(st', r) := score_job env get_or_create fuel ds m job st in
  exists done, sd_ok (world st') /\ (forall d, records d (world st') = records d (world st)) /\
    scores ds m (world st') = scores ds m (world st) ++ done /\
    (done = [] \/ exists last k, starts_from job st last /\ scored ds m last (world st) k done) /\
    (r = Ok EndCompleted -> exists last, starts_from job st last /\
       scored ds m last (world st) (length (records ds (world st))) done) /\
    r <> Ok NoFuel.
Proof.
  intros Hstop Hok Hfuel. pose proof (score_body_ok fuel ds m job st Hstop Hok Hfuel) as Hb.
  unfold score_job, try_catch. destruct (score_body env get_or_create fuel ds m job st) as [st1 [x|e]]; [done|].
  destruct Hb as (done & Hok1 & Hrec1 & Hsc1 & Hd & _ & _).
  destruct (catchable e); [|by exists done].
  pose proof (score_failed_keeps ds m job e st1 Hok1) as (Hok2 & Hrec2 & Hsc2).
  assert (Hthrow : exists e', (score_failed env job e st1).2 = Throw e').
  { unfold score_failed, throw. cbv [mbind api_bind db_ask db_do db_read db_run lift].
    repeat case_match; simplify_eq/=; eauto. }
  destruct Hthrow as [e' He']. destruct (score_failed env job e st1) as [st2 r2]. cbn in *. subst r2.
  exists done. split_and!; [done|intros d; by rewrite Hrec2|by rewrite Hsc2|done..].
Qed.
End job_spec.

(** C2: a score job scores every record at most once and, when it completes,
    exactly once.  Whatever calls the database fails and whenever the job is
    cancelled, what the job adds to the stored scores is one score for each of
    the first so many records after the point it started from, in record order,
    computed by the model at the artifact path of the run; the dataset itself is
    untouched.  If the job
    ends COMPLETED, that is every record after that point.  The loop always
    ends: one pass per record, plus one, is enough. *)
Theorem scoring_covers_each_record_once {F} `{Num F} `{!FloatFmt F} {W} `{!ScoreDb F W} `{!ScoreDbLaws F W}
  (env : ApiEnv) (get_or_create : string -> string -> res (PcaModel F))
  (fuel : nat) (ds m job : string) (st : ApiState W)
  (Hstop : stop_stays env) (Hok : sd_ok (world st)) (Hfuel : (length (records ds (world st)) < fuel)%nat) :
  let '(st', r) := score_job env get_or_create fuel ds m job st in
  exists done,
    (forall d, records d (world st') = records d (world st)) /\
    scores ds m (world st') = scores ds m (world st) ++ done /\
    (done = [] \/ exists last k, starts_from env job st last /\ scored get_or_create ds m last (world st) k done) /\
    (r = Ok EndCompleted -> exists last, starts_from env job st last /\
       scored get_or_create ds m last (world st) (length (records ds (world st))) done) /\
    r <> Ok NoFuel.
Proof.
  pose proof (score_job_ok env get_or_create fuel ds m job st Hstop Hok Hfuel) as Hj.
  destruct (score_job env get_or_create fuel ds m job st) as [st' r]. destruct Hj as (done & _ & Hj). by exists done.
Qed.

(** Scoring is not idempotent.  Nothing ties a score to its record: when,
    after a job completed, a second job for the same dataset and model starts
    again from the first record and completes, every record has its score
    stored twice.  (Between the two, calls such as the creation of the second
    job may change anything but the dataset and the scores.) *)
Theorem rescoring_duplicates_scores {F} `{Num F} `{!FloatFmt F} {W} `{!ScoreDb F W} `{!ScoreDbLaws F W}
  (env : ApiEnv) (get_or_create : string -> string -> res (PcaModel F))
  (fuel : nat) (ds m path job1 job2 : string) (model : PcaModel F) (st st1 st2 st3 : ApiState W)
  (Hstop : stop_stays env) (Hok : sd_ok (world st)) (Hfuel : (length (records ds (world st)) < fuel)%nat)
  (Hmodel : forall p, get_or_create m p = get_or_create m path)
  (Hload : get_or_create m path = Ok model)
  (H1 : score_job env get_or_create fuel ds m job1 st = (st1, Ok EndCompleted))
  (Hbetween : keeps ds m (world st1) (world st2))
  (H2 : score_job env get_or_create fuel ds m job2 st2 = (st3, Ok EndCompleted))
  (Hstart1 : starts_from env job1 st 0) (Hstart2 : starts_from env job2 st2 0) :
  exists done,
    mapR (score_row model) (after 0 (records ds (world st))) = Ok done /\
    scores ds m (world st3) = scores ds m (world st) ++ done ++ done.
Proof.
  pose proof (score_job_ok env get_or_create fuel ds m job1 st Hstop Hok Hfuel) as Hj1. rewrite H1 in Hj1.
  destruct Hj1 as (d1 & Hok1 & Hrec1 & Hsc1 & _ & Hc1 & _). destruct (Hbetween Hok1) as (Hok2 & Hrec2 & Hsc2).
  assert (Hrec : records ds (world st2) = records ds (world st)) by (by rewrite Hrec2, Hrec1).
  pose proof (score_job_ok env get_or_create fuel ds m job2 st2 Hstop Hok2) as Hj2. rewrite H2, Hrec in Hj2.
  destruct (Hj2 Hfuel) as (d2 & _ & _ & Hsc3 & _ & Hc2 & _). clear Hj2.
  assert (Hall : forall st0 job d, starts_from env job st0 0 -> records ds (world st0) = records ds (world st) ->
    (exists last, starts_from env job st0 last /\
      scored get_or_create ds m last (world st0) (length (records ds (world st))) d) ->
    mapR (score_row model) (after 0 (records ds (world st))) = Ok d).
  { intros st0 job d (t & p & Hs) Hr (last & (t' & p' & Hs') & model' & Hm & Hmap).
    rewrite Hs in Hs'. injection Hs' as <- <- <-. rewrite Hmodel, Hload in Hm. injection Hm as <-.
    rewrite Hr, take_ge in Hmap; [done|]. apply length_filter. }
  pose proof (Hall st job1 d1 Hstart1 eq_refl (Hc1 eq_refl)) as E1.
  pose proof (Hall st2 job2 d2 Hstart2 Hrec (Hc2 eq_refl)) as E2.
  rewrite E1 in E2. injection E2 as <-. exists d1. split; [done|]. by rewrite Hsc3, Hsc2, Hsc1, app_assoc.
Qed.
