(* ===== verification/ScoreStore.v ===== *)
(** The store of [DbClient] keeps the promises the score job relies on
    ([ScoreDbLaws]), and runs of the job on a concrete store. *)
From stdpp Require Import base gmap strings list fin_maps.
From Stdlib Require Import ZArith Lia Floats Sorting.Sorted.
From S2P Require Import Prelude Num Detectors Alerts Linalg Json PcaModel Generator Sql DbClient DbFacts Workers ScoreJob.

Local Open Scope string_scope.
Local Open Scope list_scope.


Lemma list_filter_fmap {A B} (f : A -> B) (P : B -> Prop) `{!forall x, Decision (P x)} (l : list A) :
  filter P (f <$> l) = f <$> filter (fun x => P (f x)) l.
Proof.
  induction l as [|x l IH]; [done|]. cbn [fmap list_fmap]. rewrite !filter_cons, IH.
  by repeat case_decide.
Qed.

Section sorting.
Context {A : Type} (key : A -> Z).
Definition by_key (a b : A) : bool := (key a <? key b)%Z.

Lemma by_key_sorted (l : list A) : StronglySorted (fun a b => (key a <= key b)%Z) (std_sort by_key l).
Proof.
  assert (StronglySorted (ordered by_key) (std_sort by_key l)) as Hs.
  { apply (std_sort_sorted by_key (fun _ => True)); [| |by apply Forall_true];
      intros; unfold by_key in *; lia. }
  eapply StronglySorted_weaken; [|exact Hs]. intros a b E. unfold ordered, by_key in E. lia.
Qed.
Lemma sort_insert_filter_out (P : A -> Prop) `{!forall x, Decision (P x)} x l :
  ~ P x -> filter P (sort_insert by_key x l) = filter P l.
Proof.
  intros Hx. induction l as [|y l IH]; cbn [sort_insert]; [by rewrite filter_cons, decide_False|].
  destruct (by_key y x); rewrite !filter_cons; [by rewrite IH|]. by rewrite (decide_False (P := P x)).
Qed.
Lemma sort_insert_filter_in (P : A -> Prop) `{!forall x, Decision (P x)} x l :
  StronglySorted (fun a b => (key a <= key b)%Z) l -> P x ->
  filter P (sort_insert by_key x l) = sort_insert by_key x (filter P l).
Proof.
  intros Hs Hx. induction Hs as [|y l Hs IH Hall]; cbn [sort_insert].
  { by rewrite filter_cons, decide_True. }
  destruct (by_key y x) eqn:E.
  - rewrite !filter_cons, IH. case_decide; [|done]. cbn. by rewrite E.
  - rewrite filter_cons, decide_True by done.
    assert (Hge : Forall (fun z => by_key z x = false) (filter P (y :: l))).
    { apply Forall_forall. intros z [_ Hz]%list_elem_of_filter. unfold by_key in *.
      apply elem_of_cons in Hz as [->|Hz]; [done|]. rewrite Forall_forall in Hall. specialize (Hall z Hz). lia. }
    destruct (filter P (y :: l)) as [|z l'] eqn:Ef; [done|]. cbn. inversion Hge as [|?? Hz]; subst. by rewrite Hz.
Qed.
Lemma std_sort_filter (P : A -> Prop) `{!forall x, Decision (P x)} l :
  std_sort by_key (filter P l) = filter P (std_sort by_key l).
Proof.
  induction l as [|x l IH]; [done|]. rewrite filter_cons.
  change (std_sort by_key (x :: l)) with (sort_insert by_key x (std_sort by_key l)).
  case_decide.
  - rewrite sort_insert_filter_in by (done || apply by_key_sorted). by rewrite <- IH.
  - by rewrite sort_insert_filter_out.
Qed.
End sorting.

Section instance_.
Context {F : Type} `{Num F} `{Postgres}.
Implicit Types (s : Store F).

#[global] Instance store_score_db : ScoreDb F (Store F) := {
  sd_get_score_job := GetScoreJob;
  sd_record_count := GetDatasetRecordCount;
  sd_try_transition := TryTransitionScoreJobStatus;
  sd_update_score_job := UpdateScoreJob;
  sd_get_model_run := GetModelRun;
  sd_fetch := FetchScoringRowsAfterRecord;
  sd_insert := InsertDatasetScores }.

Definition store_records (ds : string) s : list (ScoringRow F) :=
  scoring_row <$> std_sort by_record_id (dataset_rows ds s).
Definition score_of (r : Row F) : Z * (F * bool) :=
  (int_of "record_id" r, (double_of "reconstruction_error" r, bool_of "predicted_is_anomaly" r)).
Definition of_model (ds m : string) (r : Row F) : bool := text_is "dataset_id" ds r && text_is "model_run_id" m r.
Definition store_scores (ds m : string) s : list (Z * (F * bool)) :=
  score_of <$> filter (fun r => of_model ds m r = true) (rows s "dataset_scores").
(** Where the artifact of a run is, as [GetModelRun] reads it. *)
Definition store_path (m : string) s : string :=
  match where_is "model_runs" "model_run_id" m s with
  | [] => ""
  | r :: _ => match convert AsTextOrEmpty (column r "artifact_path") with Ok (JStr p) => p | _ => "" end
  end.
(** Record ids are unique within a dataset. *)
Definition record_ids_unique s : Prop := forall ds, NoDup (int_of "record_id" <$> dataset_rows ds s).

Lemma dataset_rows_ext s s' ds :
  rows s' "host_telemetry_archival" = rows s "host_telemetry_archival" -> dataset_rows ds s' = dataset_rows ds s.
Proof. unfold dataset_rows, where_is. by intros ->. Qed.

Lemma other_tables s s' ds m :
  rows s' "host_telemetry_archival" = rows s "host_telemetry_archival" ->
  rows s' "dataset_scores" = rows s "dataset_scores" -> record_ids_unique s ->
  record_ids_unique s' /\ (forall d, store_records d s' = store_records d s) /\ store_scores ds m s' = store_scores ds m s.
Proof.
  intros H1 H2 Hu. split; [|split].
  - intros d. rewrite (dataset_rows_ext s) by done. apply Hu.
  - intros d. unfold store_records. by rewrite (dataset_rows_ext s).
  - unfold store_scores. by rewrite H2.
Qed.

Lemma store_records_sorted ds s : record_ids_unique s ->
  StronglySorted (fun a b => (sr_record_id a < sr_record_id b)%Z) (store_records ds s).
Proof.
  intros Hu. unfold store_records.
  pose proof (by_key_sorted (int_of "record_id") (dataset_rows ds s)) as Hs.
  change (by_key (int_of "record_id")) with (@by_record_id F) in Hs.
  assert (Hnd : NoDup (int_of "record_id" <$> std_sort by_record_id (dataset_rows ds s)))
    by (rewrite (std_sort_perm by_record_id); apply Hu).
  induction Hs as [|r l Hs IH Hall]; [constructor|]. cbn in Hnd |- *.
  apply NoDup_cons in Hnd as [Hn Hnd]. constructor; [by apply IH|].
  apply Forall_fmap, Forall_forall. intros r' Hr'. cbn. rewrite Forall_forall in Hall. specialize (Hall r' Hr').
  assert (int_of "record_id" r <> int_of "record_id" r'); [|lia].
  intros E. apply Hn. rewrite E. by apply list_elem_of_fmap_2.
Qed.

Lemma store_fetch c ds last n s : (0 <= n)%Z ->
  FetchScoringRowsAfterRecord c ds last n s =
  match c_fault c with
  | Some e => Throw e
  | None => Ok (take (Z.to_nat n) (filter (fun r => (last < sr_record_id r)%Z) (store_records ds s)))
  end.
Proof.
  intros Hn. unfold FetchScoringRowsAfterRecord, query, limit_offset. destruct (c_fault c); [done|].
  assert ((n <? 0)%Z = false) as -> by lia. cbn [orb Z.ltb Z.compare mbind res_bind]. rewrite drop_0.
  change (@by_record_id F) with (by_key (@int_of F "record_id")). rewrite std_sort_filter.
  change (map scoring_row ?l) with (scoring_row <$> l). rewrite fmap_take. f_equal. f_equal.
  unfold store_records. change (@by_record_id F) with (by_key (@int_of F "record_id")).
  rewrite list_filter_fmap. f_equal. apply list_filter_iff. intros r. cbn. lia.
Qed.

Lemma new_score_row c ds m id e :
  of_model ds m (DbClient.score_row c ds m id e) = true /\ score_of (DbClient.score_row c ds m id e) = e.
Proof.
  unfold of_model, score_of, text_is, int_of, double_of, bool_of, DbClient.score_row, new_row, set_columns.
  cbn [foldr fst snd]. sql_simpl. rewrite !String.eqb_refl. by destruct e as [? []].
Qed.

Lemma insert_scores_ok c ds m sc s s' : fold_res (insert_score c ds m) s sc = Ok s' ->
  rows s' "host_telemetry_archival" = rows s "host_telemetry_archival" /\
  store_scores ds m s' = store_scores ds m s ++ sc.
Proof.
  revert s. induction sc as [|[id [err an]] sc IH]; intros s Hf; cbn [fold_res] in Hf.
  { injection Hf as ->. by rewrite app_nil_r. }
  apply bind_ok in Hf as (s1 & E1 & Hf).
  destruct (IH s1 Hf) as [Hh Hs]. unfold insert_score, insert_row in E1. cbn [draw_score_id] in E1.
  case_match; [|discriminate]. injection E1 as <-. rewrite Hh, Hs. split; [by rewrite rows_put_ne|].
  unfold store_scores at 1. rewrite rows_put_eq, filter_app, fmap_app.
  change (rows _ "dataset_scores") with (rows s "dataset_scores"). fold (store_scores ds m s).
  rewrite <- app_assoc. f_equal. destruct (new_score_row c ds m (next_score_id s) (id, (err, an))) as [Hm Ho].
  rewrite filter_cons, decide_True by done. by f_equal.
Qed.

Lemma store_insert c ds m sc s : record_ids_unique s ->
  let '(s', r) := InsertDatasetScores c ds m sc s in
  match r with
  | Ok _ => record_ids_unique s' /\ (forall d, store_records d s' = store_records d s) /\
            store_scores ds m s' = store_scores ds m s ++ sc
  | Throw _ => s' = s
  end.
Proof.
  intros Hu. destruct sc as [|x sc]; [by rewrite app_nil_r|].
  unfold InsertDatasetScores, work. destruct (c_fault c); [done|].
  destruct (fold_res _ s (x :: sc)) as [s'|] eqn:Ef; cbn; [|done].
  destruct (insert_scores_ok _ _ _ _ _ _ Ef) as [Hh Hs]. split; [|split; [|done]].
  - intros d. rewrite (dataset_rows_ext s) by done. apply Hu.
  - intros d. unfold store_records. by rewrite (dataset_rows_ext s).
Qed.

Lemma store_path_ext s s' m : rows s' "model_runs" = rows s "model_runs" -> store_path m s' = store_path m s.
Proof. unfold store_path, where_is. by intros ->. Qed.
Lemma GetModelRun_path c m s path :
  jvalue get_string "artifact_path" "" (GetModelRun c m s) = Ok path -> path = "" \/ path = store_path m s.
Proof.
  intros [->|(r & rs & col & k & Hrs & Hin & Hk)]%value_source; [by left|right]. unfold store_path. rewrite Hrs.
  apply list_elem_of_In in Hin. cbn in Hin.
  repeat (destruct Hin as [Hin|Hin]; [first [discriminate Hin|injection Hin as <- <-; by rewrite Hk]|]); done.
Qed.

#[global] Program Instance store_score_laws : ScoreDbLaws F (Store F) := {
  sd_ok := record_ids_unique; records := store_records; scores := store_scores; model_path := store_path;
  records_sorted := store_records_sorted; insert_law := store_insert }.
Next Obligation. intros c ds last n s _ Hn. by apply store_fetch. Qed.
Next Obligation.
  intros c job st total processed last err s ds m Hu. cbn [sd_update_score_job store_score_db].
  unfold UpdateScoreJob. rewrite swallowed_update. destruct (c_fault c); [done|].
  apply other_tables; [by rewrite update_rows_other..|done].
Qed.
Next Obligation.
  intros c job e n s ds m Hu. cbn [sd_try_transition store_score_db].
  unfold TryTransitionScoreJobStatus, work. destruct (c_fault c); [done|]. cbn.
  apply other_tables; [by rewrite rows_put_ne..|done].
Qed.

Next Obligation.
  intros c job st total processed last err s m. cbn [sd_update_score_job store_score_db].
  unfold UpdateScoreJob. rewrite swallowed_update. destruct (c_fault c); [done|]. by apply store_path_ext, update_rows_other.
Qed.
Next Obligation.
  intros c job e n s m. cbn [sd_try_transition store_score_db].
  unfold TryTransitionScoreJobStatus, work. destruct (c_fault c); [done|]. cbn. by apply store_path_ext, rows_put_ne.
Qed.
Next Obligation. intros c m s path. apply GetModelRun_path. Qed.

(** Creating a job touches neither the dataset nor the scores. *)
Lemma CreateScoreJob_keeps c d m request ds m' s :
  keeps ds m' s (CreateScoreJob c d m request s).1.
Proof.
  intros Hok. cbn [sd_ok records scores store_score_laws] in *.
  unfold CreateScoreJob, work. destruct (c_fault c); [done|].
  destruct (open_score_jobs d m s); [|done].
  unfold insert_score_job, insert_row. cbn [draw_uuid].
  destruct (forallb _ _); cbn [mbind res_bind fst]; [|done]. apply other_tables; [by rewrite rows_put_ne..|done].
Qed.
End instance_.

(** ** Witnesses *)
#[local] Existing Instance pg_example.
#[local] Instance pg_input_float : PgInput float := pg_input_example float.
#[local] Existing Instance fmt_example.

Definition record_example (cpu : float) : TelemetryRecord float :=
  MkRecord 0 0 "host-1" "proj" "us" cpu 0%float 0%float 0%float 0%float "{}" "ds" false "".
Definition scoring_model_example : PcaModel float :=
  MkModel true [0; 0; 0; 0; 0]%float [1; 1; 1; 1; 1]%float
    (MkMatrix 1 5 [0; 1; 0; 0; 0]%float) [0; 0; 0; 0; 0]%float 10%float.
Definition load_example (id path : string) : res (PcaModel float) := Ok scoring_model_example.
(** The example store with two records and a finished model. *)
Definition scoring_store : Store float :=
  let s := UpdateModelRunStatus (call_example 10) "id-0" "COMPLETED" "artifacts/pca/id-0/model.json" "" JNull store_example in
  (BatchInsertTelemetry (call_example 11) [record_example 3; record_example 20] s).1.
Definition scoring_start : ApiState (Store float) := MkApi 0 0 scoring_store.
Definition scoring_end1 : ApiState (Store float) := (score_job quiet_env load_example 3 "ds" "id-0" "id-1" scoring_start).1.
(** A second request creates a second job. *)
Definition scoring_restart : ApiState (Store float) :=
  MkApi (calls scoring_end1) (reads scoring_end1)
    (CreateScoreJob (call_example 50) "ds" "id-0" "req2" (world scoring_end1)).1.
Definition scoring_end2 : ApiState (Store float) := (score_job quiet_env load_example 3 "ds" "id-0" "id-2" scoring_restart).1.

Lemma record_ids_check (s : Store float) :
  NoDup (int_of "record_id" <$> rows s "host_telemetry_archival") -> record_ids_unique s.
Proof.
  intros Hnd d. unfold dataset_rows, where_is.
  induction (rows s "host_telemetry_archival") as [|r l IH]; [constructor|].
  cbn in Hnd. apply NoDup_cons in Hnd as [Hn Hnd]. rewrite filter_cons. case_decide; [|by apply IH].
  cbn. apply NoDup_cons. split; [|by apply IH]. intros (x & Hx & Hin)%list_elem_of_fmap.
  apply Hn, list_elem_of_fmap. exists x. split; [done|]. by apply list_elem_of_filter in Hin as [_ ?].
Qed.
Lemma scoring_store_ok : sd_ok (F := float) (world scoring_start).
Proof. apply record_ids_check. by_deciding. Qed.

Lemma scoring_covers_each_record_once_witness :
  (stop_stays quiet_env /\ sd_ok (world scoring_start) /\
   (length (records "ds" (world scoring_start)) < 3)%nat) /\
  exists done, scores "ds" "id-0" (world scoring_end1) = scores "ds" "id-0" (world scoring_start) ++ done /\
    exists last, starts_from quiet_env "id-1" scoring_start last /\
      scored load_example "ds" "id-0" last (world scoring_start) 2 done.
Proof.
  assert (H1 : stop_stays quiet_env) by (intros n; discriminate).
  assert (H3 : (length (records "ds" (world scoring_start)) < 3)%nat) by (vm_compute; lia).
  split; [split; [done|split; [exact scoring_store_ok|done]]|].
  pose proof (scoring_covers_each_record_once quiet_env load_example 3 "ds" "id-0" "id-1" scoring_start
    H1 scoring_store_ok H3) as Hs.
  assert (Hr : is_ok (score_job quiet_env load_example 3 "ds" "id-0" "id-1" scoring_start).2 = true
    /\ (score_job quiet_env load_example 3 "ds" "id-0" "id-1" scoring_start).2 = Ok EndCompleted)
    by (vm_compute; by split). destruct Hr as [_ Hr].
  unfold scoring_end1.
  destruct (score_job quiet_env load_example 3 "ds" "id-0" "id-1" scoring_start) as [st' r].
  destruct Hs as (done & _ & Hsc & _ & Hc & _). exists done. split; [exact Hsc|]. exact (Hc Hr).
Defined.

Lemma pair_snd {A B} (x : A * B) (b : B) : x.2 = b -> x = (x.1, b).
Proof. intros <-. by destruct x. Qed.

Lemma rescoring_duplicates_scores_witness :
  scores "ds" "id-0" (world scoring_start) = [] /\
  exists done, length done = 2%nat /\ scores "ds" "id-0" (world scoring_end2) = done ++ done.
Proof.
  assert (H1 : stop_stays quiet_env) by (intros n; discriminate).
  assert (H3 : (length (records "ds" (world scoring_start)) < 3)%nat) by (vm_compute; lia).
  split; [vm_compute; reflexivity|].
  destruct (rescoring_duplicates_scores quiet_env load_example 3 "ds" "id-0" "" "id-1" "id-2" scoring_model_example
    scoring_start scoring_end1 scoring_restart scoring_end2 H1 scoring_store_ok H3 (fun _ => eq_refl) eq_refl)
    as (done & Hd & Hs).
  - unfold scoring_end1. apply pair_snd. vm_compute. reflexivity.
  - apply CreateScoreJob_keeps.
  - unfold scoring_end2. apply pair_snd. vm_compute. reflexivity.
  - exists 0%Z, 0%Z. vm_compute. reflexivity.
  - exists 0%Z, 0%Z. vm_compute. reflexivity.
  - exists done. split; [|exact Hs]. apply mapR_length in Hd. rewrite Hd. vm_compute. reflexivity.
Defined.
