(* ===== verification/Queries.v ===== *)
(** The reading calls of class DbClient (src/src/db_client.cpp): lists, details,
    the search over records and the scores of a dataset, with
    src/src/pagination.h.

    A query answers with the rows that satisfy its WHERE clause, in the order
    of its ORDER BY, cut by LIMIT and OFFSET.  SQL leaves the order of equal
    rows to the server, call by call: [scan] is the order in which one call
    visits the rows. *)
From stdpp Require Import base gmap strings list fin_maps sorting.
From Stdlib Require Import ZArith Lia Floats Ascii Sorting.Sorted.
From S2P Require Import Prelude Strconv Num Detectors Json Sql DbClient.

Local Open Scope string_scope.
Local Open Scope list_scope.

(** What the server decides: the order of a scan, and the number it reads in
    the six decimals of [std::to_string(double)]. *)
Class Server (F : Type) := {
  scan : forall {A}, Call -> list A -> list A;
  scan_perm {A} (c : Call) (l : list A) : scan c l ≡ₚ l;
  fixed6 : F -> F }.
(** A server that scans in insertion order on the calls of even time and
    backwards on the others, and reads numbers exactly. *)
Definition server_example (F : Type) : Server F.
Proof.
  refine {| scan A c l := if Z.even (c_now c) then l else rev l; fixed6 x := x |}.
  abstract (intros A c l; destruct (Z.even (c_now c)); [done|symmetry; apply Permutation_rev]).
Defined.

(** pagination.h *)
Definition HasMore (limit offset returned : Z) (total : option Z) : bool :=
  match total with Some n => (offset + returned <? n)%Z | None => (limit <=? returned)%Z end.

Section queries.
Context {F : Type} `{Num F} `{Postgres} `{PgInput F} `{Server F}.
Implicit Types (r : Row F) (s : Store F) (c : Call).

(** ** WHERE, ORDER BY, LIMIT *)

(** A condition the source appends only when its argument is not empty. *)
Definition given (arg : string) (test : bool) : bool := (arg =? "")%string || test.
(** A time written in a query; the server refuses what it cannot read. *)
Definition time_arg (arg : string) : res (option Z) :=
  if (arg =? "")%string then Ok None else t ← or_sql_error (timestamptz_in arg); Ok (Some t).
Definition not_before (col : string) (o : option Z) r : bool :=
  match o with None => true | Some t => (t <=? time_of col r)%Z end.
Definition not_after (col : string) (o : option Z) r : bool :=
  match o with None => true | Some t => (time_of col r <=? t)%Z end.

Definition latest_first (col : string) (a b : Row F) : bool := (time_of col b <? time_of col a)%Z.
Definition earliest_first (col : string) (a b : Row F) : bool := (time_of col a <? time_of col b)%Z.

Definition select {A} c (p : A -> bool) (order : A -> A -> bool) (limit offset : Z) (l : list A) : res (list A) :=
  limit_offset limit offset (std_sort order (scan c (filter (fun x => p x = true) l))).

(** [a JOIN b ON ...], as pairs. *)
Definition join_on (on : Row F -> Row F -> bool) (l1 l2 : list (Row F)) : list (Row F * Row F) :=
  l1 ≫= (fun a => pair a <$> filter (fun b => on a b = true) l2).
Definition same_text (c1 c2 : string) (a b : Row F) : bool :=
  match column a c1 with SText v => text_is c2 v b | _ => false end.
Definition same_record (a b : Row F) : bool := (int_of "record_id" a =? int_of "record_id" b)%Z.

(** The rows read so far when an exception is swallowed, or the exception. *)
Definition answer (fs : list field) (found : res (list (Row F))) : json F :=
  match found with Ok rs => JArr (read_rows fs rs).1 | Throw _ => JArr [] end.
Definition answer_or_throw (fs : list field) (found : res (list (Row F))) : res (json F) :=
  rs ← found;
  match read_rows fs rs with (js, None) => Ok (JArr js) | (_, Some e) => Throw e end.

(** ** Lists *)
Definition generation_fields : list field :=
  [same AsText "run_id"; same AsText "status"; same AsInt "inserted_rows"; same AsText "created_at";
   same AsText "start_time"; same AsText "end_time"; same AsInt "interval_seconds"; same AsInt "host_count";
   same AsText "tier"].
Definition ListGenerationRuns c (limit offset : Z) (status created_from created_to : string) s : res (json F) :=
  answer_or_throw generation_fields (query c s (fun s =>
    lo ← time_arg created_from; hi ← time_arg created_to;
    select c (fun r => given status (text_is "status" status r)
                       && not_before "created_at" lo r && not_after "created_at" hi r)
      (latest_first "created_at") limit offset (rows s "generation_runs"))).

Definition list_model_fields : list field :=
  [same AsText "model_run_id"; same AsText "dataset_id"; same AsText "name"; same AsText "status";
   same AsTextOrEmpty "artifact_path"; same AsTextOrEmpty "error"; same AsText "created_at";
   same AsTextOrEmpty "completed_at"; same AsJsonOrObject "training_config"; same AsTextOrNull "parent_run_id";
   same AsIntOrNull "trial_index"; same AsTextOrNull "best_trial_run_id"; same AsDoubleOrNull "best_metric_value";
   same AsTextOrNull "best_metric_name"; same AsBool "is_eligible"; same AsTextOrNull "eligibility_reason";
   same AsDoubleOrNull "selection_metric_value"].
Definition ListModelRuns c (limit offset : Z) (status dataset_id created_from created_to : string) s : json F :=
  answer list_model_fields (query c s (fun s =>
    lo ← time_arg created_from; hi ← time_arg created_to;
    select c (fun r => given status (text_is "status" status r) && given dataset_id (text_is "dataset_id" dataset_id r)
                       && not_before "created_at" lo r && not_after "created_at" hi r)
      (latest_first "created_at") limit offset (rows s "model_runs"))).

Definition list_inference_fields : list field :=
  [same AsText "inference_id"; same AsText "model_run_id"; same AsText "dataset_id"; same AsText "status";
   same AsInt "anomaly_count"; same AsDoubleOrZero "latency_ms"; same AsText "created_at"].
Definition ListInferenceRuns c (dataset_id model_run_id : string) (limit offset : Z)
    (status created_from created_to : string) s : json F :=
  answer list_inference_fields (query c s (fun s =>
    lo ← time_arg created_from; hi ← time_arg created_to;
    found ← select c
      (fun im => given dataset_id (text_is "dataset_id" dataset_id im.2)
                 && given model_run_id (text_is "model_run_id" model_run_id im.1)
                 && given status (text_is "status" status im.1)
                 && not_before "created_at" lo im.1 && not_after "created_at" hi im.1)
      (fun a b => latest_first "created_at" a.1 b.1) limit offset
      (join_on (same_text "model_run_id" "model_run_id") (rows s "inference_runs") (rows s "model_runs"));
    Ok (map (fun im => set_columns [("dataset_id", column im.2 "dataset_id")] im.1) found))).

Definition list_score_job_fields : list field :=
  [same AsText "job_id"; same AsText "dataset_id"; same AsText "model_run_id"; same AsText "status";
   same AsInt "total_rows"; same AsInt "processed_rows"; same AsInt "last_record_id"; same AsTextOrEmpty "error";
   same AsText "created_at"; same AsText "updated_at"; same AsTextOrEmpty "completed_at"].
Definition ListScoreJobs c (limit offset : Z) (status dataset_id model_run_id created_from created_to : string) s
    : json F :=
  answer list_score_job_fields (query c s (fun s =>
    lo ← time_arg created_from; hi ← time_arg created_to;
    select c (fun r => given status (text_is "status" status r) && given dataset_id (text_is "dataset_id" dataset_id r)
                       && given model_run_id (text_is "model_run_id" model_run_id r)
                       && not_before "created_at" lo r && not_after "created_at" hi r)
      (latest_first "created_at") limit offset (rows s "dataset_score_jobs"))).

(** The trials of a tuning run, by index. *)
Definition trial_fields : list field :=
  [same AsText "model_run_id"; same AsText "status"; same AsInt "trial_index"; same AsJson "trial_params";
   same AsText "created_at"; same AsTextOrEmpty "completed_at"; same AsTextOrEmpty "error"; same AsBool "is_eligible";
   same AsTextOrNull "eligibility_reason"; same AsDoubleOrNull "selection_metric_value";
   same AsTextOrNull "selection_metric_source"; same AsJsonOrNull "error_summary"; same AsText "dataset_id";
   same AsText "name"; same AsJsonOrObject "training_config"].
Definition by_trial_index (a b : Row F) : bool := (int_of "trial_index" a <? int_of "trial_index" b)%Z.
Definition GetHpoTrialsPaginated c (parent_run_id : string) (limit offset : Z) s : json F :=
  answer trial_fields (query c s (fun s =>
    select c (text_is "parent_run_id" parent_run_id) by_trial_index limit offset (rows s "model_runs"))).
Definition GetHpoTrials c (parent_run_id : string) s : json F := GetHpoTrialsPaginated c parent_run_id 1000 0 s.

Definition model_of_dataset_fields : list field :=
  [same AsText "model_run_id"; same AsText "name"; same AsText "status"; same AsText "created_at"].
Definition GetModelsForDataset c (dataset_id : string) s : json F :=
  answer model_of_dataset_fields (query c s (fun s =>
    Ok (std_sort (latest_first "created_at") (scan c (where_is "model_runs" "dataset_id" dataset_id s))))).

(** [SELECT DISTINCT ds.dataset_id, gr.created_at, ds.scored_at]. *)
Definition scored_key (p : Row F * Row F) : string * Z * Z :=
  (text_of "dataset_id" p.1, time_of "created_at" p.2, time_of "scored_at" p.1).
Definition scored_row (k : string * Z * Z) : Row F :=
  new_row [("dataset_id", SText k.1.1); ("created_at", STime k.1.2); ("scored_at", STime k.2)].
Definition scored_fields : list field := [same AsText "dataset_id"; same AsText "created_at"; same AsText "scored_at"].
Definition GetScoredDatasetsForModel c (model_run_id : string) s : json F :=
  answer scored_fields (query c s (fun s =>
    let found := filter (fun p => text_is "model_run_id" model_run_id p.1 = true)
      (join_on (same_text "dataset_id" "run_id") (rows s "dataset_scores") (rows s "generation_runs")) in
    Ok (std_sort (latest_first "scored_at") (scan c (scored_row <$> remove_dups (scored_key <$> found)))))).

(** ** Details *)
Definition dataset_detail_fields : list field :=
  [same AsText "run_id"; same AsText "status"; same AsInt "inserted_rows"; same AsText "created_at";
   same AsText "start_time"; same AsText "end_time"; same AsInt "interval_seconds"; same AsInt "host_count";
   same AsText "tier"; same AsTextOrEmpty "error"; same AsTextOrEmpty "request_id"].
Definition GetDatasetDetail c (run_id : string) s : res (json F) :=
  get_one_or_throw c dataset_detail_fields (where_is "generation_runs" "run_id" run_id s).

Definition sample_fields : list field :=
  [same AsDouble "cpu_usage"; same AsDouble "memory_usage"; same AsDouble "disk_utilization";
   same AsDouble "network_rx_rate"; same AsDouble "network_tx_rate"; ("timestamp", "metric_timestamp", AsText);
   same AsText "host_id"].
Definition GetDatasetSamples c (run_id : string) (limit : Z) s : res (json F) :=
  answer_or_throw sample_fields (query c s (fun s =>
    select c (text_is "run_id" run_id) (latest_first "metric_timestamp") limit 0 (rows s "host_telemetry_archival"))).
Definition GetDatasetRecord c (run_id : string) (record_id : Z) s : json F :=
  get_one c (sample_fields ++ [same AsJson "labels"])
    (scan c (filter (fun r => (int_of "record_id" r =? record_id)%Z = true) (dataset_rows run_id s))).

(** ** The search over the records of a dataset *)
Definition obj (l : list (string * json F)) : json F :=
  JObj (foldl (fun acc kv => obj_insert kv.1 kv.2 acc) [] l).

Definition record_fields : list field :=
  [same AsInt "record_id"; same AsText "host_id"; ("timestamp", "metric_timestamp", AsText);
   same AsDouble "cpu_usage"; same AsDouble "memory_usage"; same AsDouble "disk_utilization";
   same AsDouble "network_rx_rate"; same AsDouble "network_tx_rate"; same AsBool "is_anomaly";
   same AsTextOrEmpty "anomaly_type"; same AsText "region"; same AsText "project_id"; same AsJsonOrObject "labels"].
(** [" AND is_anomaly = " + quote(is_anomaly == "true")]. *)
Definition anomaly_is (arg : string) r : bool := Bool.eqb (bool_of "is_anomaly" r) (arg =? "true")%string.

(** The sort direction: [true] for ascending. *)
Definition sort_ascending (sort_by sort_order : string) : res bool :=
  if given sort_by (sort_by =? "metric_timestamp")%string then
    if (sort_order =? "")%string then Ok false
    else if (lower sort_order =? "asc")%string then Ok true
    else if (lower sort_order =? "desc")%string then Ok false
    else invalid_argument ("Invalid sort_order: " +:+ sort_order)
  else invalid_argument ("Invalid sort_by: " +:+ sort_by).

Record search := MkSearch {
  q_start_time : string; q_end_time : string; q_is_anomaly : string; q_anomaly_type : string;
  q_host_id : string; q_region : string; q_sort_by : string; q_sort_order : string; q_anchor_time : string }.

Definition search_where (run_id : string) (q : search) (asc : bool) : res (Row F -> bool) :=
  lo ← time_arg (q_start_time q); hi ← time_arg (q_end_time q); anchor ← time_arg (q_anchor_time q);
  Ok (fun r => text_is "run_id" run_id r && not_before "metric_timestamp" lo r && not_after "metric_timestamp" hi r
        && (if asc : bool then not_before else not_after) "metric_timestamp" anchor r
        && given (q_is_anomaly q) (anomaly_is (q_is_anomaly q) r)
        && given (q_anomaly_type q) (text_is "anomaly_type" (q_anomaly_type q) r)
        && given (q_host_id q) (text_is "host_id" (q_host_id q) r)
        && given (q_region q) (text_is "region" (q_region q) r)).
Definition by_timestamp (asc : bool) : Row F -> Row F -> bool :=
  (if asc then earliest_first else latest_first) "metric_timestamp".

Definition SearchDatasetRecords c (run_id : string) (limit offset : Z) (q : search) s : res (json F) :=
  query c s (fun s =>
    asc ← sort_ascending (q_sort_by q) (q_sort_order q);
    where_ ← search_where run_id q asc;
    found ← select c where_ (by_timestamp asc) limit offset (rows s "host_telemetry_archival");
    match read_rows record_fields found with
    | (_, Some e) => Throw e
    | (items, None) =>
        let total := Z.of_nat (countb where_ (rows s "host_telemetry_archival")) in
        let returned := zlen items in
        Ok (obj ([("items", JArr items); ("total", JInt total); ("limit", JInt limit); ("offset", JInt offset);
                  ("returned", JInt returned); ("has_more", JBool (HasMore limit offset returned (Some total)));
                  ("sort_by", JStr "metric_timestamp"); ("sort_order", JStr (if (asc : bool) then "asc" else "desc"))]
                 ++ if (q_anchor_time q =? "")%string then [] else [("anchor_time", JStr (q_anchor_time q))]))
    end).

(** ** The scores of a dataset under a model *)

(** The order of DOUBLE PRECISION values in the database: NaN above all. *)
Definition is_nan (x : F) : bool := negb (x =? x)%num.
Definition pg_ltb (x y : F) : bool := (x <? y)%num || (is_nan y && negb (is_nan x)).

Definition scored_for (dataset_id model_run_id : string) r : bool :=
  text_is "dataset_id" dataset_id r && text_is "model_run_id" model_run_id r.
Definition score_where (dataset_id model_run_id : string) (only_anomalies : bool) (min_score max_score : F) r : bool :=
  scored_for dataset_id model_run_id r
  && (negb only_anomalies || bool_of "predicted_is_anomaly" r)
  && (negb (0 <? min_score)%num || negb (pg_ltb (double_of "reconstruction_error" r) (fixed6 min_score)))
  && (negb (0 <? max_score)%num || negb (pg_ltb (fixed6 max_score) (double_of "reconstruction_error" r))).
(** [ORDER BY s.reconstruction_error DESC, s.score_id DESC]. *)
Definition highest_first (a b : Row F * Row F) : bool :=
  let x := double_of "reconstruction_error" a.1 in let y := double_of "reconstruction_error" b.1 in
  pg_ltb y x || (negb (pg_ltb x y) && (int_of "score_id" b.1 <? int_of "score_id" a.1)%Z).

Definition score_item_fields : list field :=
  [same AsInt "score_id"; same AsInt "record_id"; ("score", "reconstruction_error", AsDouble);
   ("is_anomaly", "predicted_is_anomaly", AsBool); same AsText "scored_at";
   ("timestamp", "metric_timestamp", AsText); same AsText "host_id"; ("label", "is_anomaly", AsBool)].
Definition score_item (p : Row F * Row F) : Row F :=
  set_columns [("metric_timestamp", column p.2 "metric_timestamp"); ("host_id", column p.2 "host_id");
               ("is_anomaly", column p.2 "is_anomaly")] p.1.

(** The configuration of the model run, added to an answer. *)
Definition run_metadata (model_run : json F) : list (string * json F) :=
  match model_run with
  | JObj (_ :: _ as l) =>
      map (fun k => (k, default (if (k =? "training_config")%string then JObj [] else JNull) (obj_lookup k l)))
        ["training_config"; "hpo_config"; "parent_run_id"; "trial_index"; "trial_params"]
  | _ => []
  end.

(** [MIN] and [MAX] of a column. *)
Definition pg_min (l : list F) : option F :=
  match l with [] => None | x :: l => Some (foldl (fun m y => if pg_ltb y m then y else m) x l) end.
Definition pg_max (l : list F) : option F :=
  match l with [] => None | x :: l => Some (foldl (fun m y => if pg_ltb m y then y else m) x l) end.

(** [cm] is the call to [GetModelRun]; an exception leaves the fields added
    before it. *)
Definition GetScores c cm (dataset_id model_run_id : string) (limit offset : Z) (only_anomalies : bool)
    (min_score max_score : F) s : json F :=
  let where_ := score_where dataset_id model_run_id only_anomalies min_score max_score in
  match query c s (fun s =>
    select c (fun p : Row F * Row F => where_ p.1) highest_first limit offset
      (join_on same_record (rows s "dataset_scores") (rows s "host_telemetry_archival"))) with
  | Throw _ => obj [("items", JArr [])]
  | Ok found =>
      match read_rows score_item_fields (map score_item found) with
      | (items, Some _) => obj [("items", JArr items)]
      | (items, None) =>
          let errors := map (double_of "reconstruction_error")
            (filter (fun r => scored_for dataset_id model_run_id r = true) (rows s "dataset_scores")) in
          let total := Z.of_nat (countb where_ (rows s "dataset_scores")) in
          let returned := zlen items in
          obj ([("items", JArr items)] ++ run_metadata (GetModelRun cm model_run_id s) ++
            [("total", JInt total);
             ("min_score", JNum (default 0%num (pg_min errors)));
             ("max_score", JNum (default (nofZ 10) (pg_max errors)));
             ("limit", JInt limit); ("offset", JInt offset); ("returned", JInt returned);
             ("has_more", JBool (HasMore limit offset returned (Some total)))])
      end
  end.

(** ** Summaries of tuning runs *)

(** [GROUP BY parent_run_id, status], with the counts. *)
Definition trial_key r : string * string := (text_of "parent_run_id" r, text_of "status" r).
Definition trials_of (parents : list string) s : list (Row F) :=
  filter (fun r => text_in "parent_run_id" parents r = true) (rows s "model_runs").
Definition trial_groups (parents : list string) s : list (string * string * Z) :=
  let found := trials_of parents s in
  map (fun k => (k, Z.of_nat (countb (fun r => bool_decide (trial_key r = k)) found)))
    (remove_dups (trial_key <$> found)).

(** [j[k] = j[k].get<long>() + count]: reading a missing key creates it. *)
Definition bump (k : string) (count : Z) (j : json F) : json F * option exn :=
  match j with
  | JObj l =>
      let v := default JNull (obj_lookup k l) in
      match get_long v with
      | Ok n => (JObj (obj_insert k (JInt (n + count)) l), None)
      | Throw e => (JObj (obj_insert k v l), Some e)
      end
  | _ => (j, Some (Exn JsonTypeError "cannot use operator[] with a string argument"))
  end.
(** The same below a key. *)
Definition bump_in (outer k : string) (count : Z) (j : json F) : json F * option exn :=
  match j with
  | JObj l => let '(v, e) := bump k count (default JNull (obj_lookup outer l)) in (JObj (obj_insert outer v l), e)
  | _ => (j, Some (Exn JsonTypeError "cannot use operator[] with a string argument"))
  end.
Definition summary_new : json F :=
  obj [("trial_count", JInt 0); ("completed_count", JInt 0);
       ("status_counts", obj (map (fun st => (st, JInt 0)) ["PENDING"; "RUNNING"; "COMPLETED"; "FAILED"; "converted_FAIL"]))].

(** One row of the answer: the three increments in order, up to an exception. *)
Definition add_group (g : string * string * Z) (summary : json F) : json F * option exn :=
  let '(_, status, count) := g in
  let '(j, e) := bump "trial_count" count summary in
  match e with Some _ => (j, e) | None =>
    let '(j, e) := bump_in "status_counts" status count j in
    match e with Some _ => (j, e) | None =>
      if (status =? "COMPLETED")%string then bump "completed_count" count j else (j, None)
    end
  end.
(** An exception ends the loop; what was summed up so far is returned. *)
Fixpoint add_groups (gs : list (string * string * Z)) (summaries : gmap string (json F)) : gmap string (json F) :=
  match gs with
  | [] => summaries
  | g :: gs' =>
      let '(j, e) := add_group g (default summary_new (summaries !! g.1.1)) in
      let summaries := <[g.1.1 := j]> summaries in
      match e with Some _ => summaries | None => add_groups gs' summaries end
  end.
Definition GetBulkHpoTrialSummaries c (parent_run_ids : list string) s : gmap string (json F) :=
  match parent_run_ids, c_fault c with
  | [], _ => ∅
  | _, Some _ => ∅
  | _, None => add_groups (scan c (trial_groups parent_run_ids s)) ∅
  end.
End queries.
