(* ===== verification/QueryFacts.v ===== *)
(** Facts on the reading calls of DbClient: what the pages of a query contain,
    whatever order the server visits equal rows in. *)
From stdpp Require Import base gmap strings list fin_maps sorting.
From Stdlib Require Import ZArith Lia Floats Sorting.Sorted.
From S2P Require Import Prelude Num Detectors Json Sql DbClient Queries.

Local Open Scope string_scope.
Local Open Scope list_scope.

Lemma NoDup_fmap_inj_on {A B} (f : A -> B) (l : list A) x y :
  NoDup (f <$> l) -> x ∈ l -> y ∈ l -> f x = f y -> x = y.
Proof.
  induction l as [|z l IH]; [by intros _ ?%elem_of_nil|]. cbn. intros [Hn Hnd]%NoDup_cons Hx Hy E.
  apply elem_of_cons in Hx as [->|Hx]; apply elem_of_cons in Hy as [->|Hy]; [done| | |by apply IH].
  - destruct Hn. rewrite E. by apply list_elem_of_fmap_2.
  - destruct Hn. rewrite <- E. by apply list_elem_of_fmap_2.
Qed.

(** ** Sorted answers *)

(** A comparator that is a strict weak order on the elements of a class. *)
Record weak_order {A} (Q : A -> Prop) (lt : A -> A -> bool) : Prop := {
  wo_asym x y : Q x -> Q y -> lt x y = true -> lt y x = false;
  wo_ntrans x y z : Q x -> Q y -> Q z -> lt y x = false -> lt z y = false -> lt z x = false }.
(** Distinct elements of a list are told apart. *)
Definition separates {A} (lt : A -> A -> bool) (l : list A) : Prop :=
  forall x y, x ∈ l -> y ∈ l -> lt x y = false -> lt y x = false -> x = y.

Lemma sort_arranged {A} (Q : A -> Prop) (lt : A -> A -> bool) (l1 l2 : list A) :
  weak_order Q lt -> Forall Q l2 -> separates lt l2 -> l1 ≡ₚ l2 -> std_sort lt l1 = std_sort lt l2.
Proof.
  intros [Has Hnt] HQ Hsep Hp.
  apply (StronglySorted_unique_strong (ordered lt)).
  - intros x y Hx Hy Hxy Hyx. rewrite (std_sort_perm lt) in Hx, Hy. rewrite Hp in Hx. by apply Hsep.
  - apply (std_sort_sorted lt Q); [done|done|by rewrite Hp].
  - by apply (std_sort_sorted lt Q).
  - by rewrite !(std_sort_perm lt).
Qed.

(** Sorting by a key, in either direction. *)
Lemma weak_order_key {A} (k : A -> Z) : weak_order (fun _ => True) (fun a b => (k a <? k b)%Z).
Proof. split; intros; lia. Qed.
Lemma weak_order_flip {A} (Q : A -> Prop) (lt : A -> A -> bool) :
  weak_order Q lt -> weak_order Q (fun a b => lt b a).
Proof. intros [Has Hnt]. split; eauto. Qed.
(** Ties broken by a second comparator. *)
Lemma weak_order_lex {A} (Q : A -> Prop) (lt1 lt2 : A -> A -> bool) :
  weak_order Q lt1 -> weak_order Q lt2 ->
  weak_order Q (fun a b => lt1 a b || (negb (lt1 b a) && lt2 a b)).
Proof.
  intros [A1 N1] [A2 N2]. split.
  - intros x y Hx Hy. destruct (lt1 x y) eqn:E1; [by rewrite (A1 x y)|]. cbn.
    destruct (lt1 y x) eqn:E2; [done|]. cbn. by apply A2.
  - intros x y z Hx Hy Hz [Eyx Hyx]%orb_false_iff [Ezy Hzy]%orb_false_iff. rewrite (N1 x y z) by done. cbn.
    destruct (lt1 x z) eqn:Exz; [done|]. cbn.
    assert (lt1 x y = false) as Exy by (by apply (N1 y z x)).
    assert (lt1 y z = false) as Eyz by (by apply (N1 z x y)).
    rewrite Exy in Hyx. rewrite Eyz in Hzy. by apply (N2 x y z).
Qed.

Section pages.
Context {F : Type} `{NumOrder F} `{Postgres} `{PgInput F} `{!Server F}.
Implicit Types (r : Row F) (s : Store F) (c : Call).

(** The order of the scan does not show when the ORDER BY separates the rows. *)
Lemma select_page {A} c (p : A -> bool) (Q : A -> Prop) order limit offset (l : list A) :
  weak_order Q order -> Forall Q (filter (fun x => p x = true) l) ->
  separates order (filter (fun x => p x = true) l) -> (0 <= limit)%Z -> (0 <= offset)%Z ->
  select c p order limit offset l =
    Ok (take (Z.to_nat limit) (drop (Z.to_nat offset) (std_sort order (filter (fun x => p x = true) l)))).
Proof.
  intros Ho HQ Hsep Hl Hoff. unfold select, limit_offset.
  assert ((limit <? 0)%Z = false) as -> by lia. assert ((offset <? 0)%Z = false) as -> by lia. cbn [orb].
  do 3 f_equal. by apply (sort_arranged Q), scan_perm.
Qed.

Lemma read_rows_ok (fs : list field) (l : list (Row F)) :
  Forall (fun r => (read_row fs r).2 = None) l -> read_rows fs l = (map (fun r => (read_row fs r).1) l, None).
Proof.
  induction 1 as [|r l Hr _ IH]; [done|]. cbn. destruct (read_row fs r) as [j e] eqn:E. cbn in Hr. subst e.
  cbn. by rewrite IH.
Qed.

(** ** Reading the fields of an answer *)
Definition jfield (k : string) (j : json F) : json F :=
  match j with JObj l => default JNull (obj_lookup k l) | _ => JNull end.

Lemma obj_lookup_app k (l1 l2 : list (string * json F)) :
  obj_lookup k (l1 ++ l2) = match obj_lookup k l1 with Some v => Some v | None => obj_lookup k l2 end.
Proof. induction l1 as [|[k' v] l1 IH]; cbn; [done|]. by destruct (k =? k')%string. Qed.
Lemma obj_lookup_foldl k (l acc : list (string * json F)) :
  obj_lookup k (foldl (fun acc kv => obj_insert kv.1 kv.2 acc) acc l) =
  match obj_lookup k (rev l) with Some v => Some v | None => obj_lookup k acc end.
Proof.
  revert acc. induction l as [|[k' v] l IH]; intros acc; [done|]. cbn [foldl rev fst snd].
  rewrite IH, obj_lookup_app. destruct (obj_lookup k (rev l)); [done|]. cbn.
  destruct (String.eqb_spec k k') as [->|Hne]; [by rewrite obj_lookup_insert_eq|by rewrite obj_lookup_insert_ne].
Qed.
Lemma jfield_obj k (l : list (string * json F)) : jfield k (obj l) = default JNull (obj_lookup k (rev l)).
Proof. unfold jfield, obj. rewrite obj_lookup_foldl. by destruct (obj_lookup k (rev l)). Qed.
Lemma run_metadata_lookup k (j : json F) :
  k ∉ ["training_config"; "hpo_config"; "parent_run_id"; "trial_index"; "trial_params"] ->
  obj_lookup k (rev (run_metadata j)) = None.
Proof.
  rewrite !not_elem_of_cons. intros (N1&N2&N3&N4&N5&_).
  apply String.eqb_neq in N1, N2, N3, N4, N5.
  destruct j as [| | | | | |[|? ?]]; try done. cbn. by rewrite N1, N2, N3, N4, N5.
Qed.

(** ** Joining scores with records *)
Lemma filter_join (w : Row F -> bool) on (l1 l2 : list (Row F)) :
  filter (fun p => w p.1 = true) (join_on on l1 l2) = join_on on (filter (fun a => w a = true) l1) l2.
Proof.
  unfold join_on. induction l1 as [|a l1 IH]; [done|]. rewrite bind_cons, filter_app, IH, filter_cons.
  assert (forall l : list (Row F), filter (fun p : Row F * Row F => w p.1 = true) (pair a <$> l) =
    if w a then pair a <$> l else []) as Ha.
  { induction l as [|b l IHl]; [by destruct (w a)|]. cbn [fmap list_fmap]. rewrite filter_cons. cbn [fst].
    destruct (w a); [|done]. rewrite decide_True by done. by f_equal. }
  rewrite Ha. destruct (w a); [|done]. by rewrite decide_True.
Qed.

Lemma filter_same_record a (l : list (Row F)) : NoDup (int_of "record_id" <$> l) ->
  length (filter (fun b => same_record a b = true) l) = if existsb (same_record a) l then 1 else 0.
Proof.
  induction l as [|b l IH]; [done|]. cbn [fmap list_fmap existsb]. intros [Hn Hnd]%NoDup_cons. rewrite filter_cons.
  destruct (same_record a b) eqn:E; cbn [orb].
  - rewrite decide_True by done. cbn. rewrite filter_none; [done|].
    apply Forall_forall. intros b' Hb' E'. unfold same_record in *. destruct Hn.
    apply list_elem_of_fmap. exists b'. split; [lia|done].
  - rewrite decide_False by done. auto.
Qed.

(** Each score of a known record is joined once, an orphan never. *)
Lemma join_fst (l1 l2 : list (Row F)) : NoDup (int_of "record_id" <$> l2) ->
  (join_on same_record l1 l2).*1 = filter (fun a => existsb (same_record a) l2 = true) l1.
Proof.
  intros Hnd. unfold join_on. induction l1 as [|a l1 IH]; [done|].
  rewrite bind_cons, fmap_app, IH, filter_cons, <- list_fmap_compose.
  pose proof (filter_same_record a l2 Hnd) as Hl.
  destruct (existsb (same_record a) l2) eqn:E.
  - rewrite decide_True by done. by destruct (filter _ l2) as [|b [|]].
  - rewrite decide_False by done. by destruct (filter _ l2).
Qed.
Lemma elem_of_join on a b (l1 l2 : list (Row F)) :
  (a, b) ∈ join_on on l1 l2 <-> a ∈ l1 /\ b ∈ l2 /\ on a b = true.
Proof.
  unfold join_on. rewrite list_elem_of_bind. split.
  - intros (a' & (b' & E & Hb)%list_elem_of_fmap & Ha). simplify_eq. by apply list_elem_of_filter in Hb as [].
  - intros (Ha & Hb & E). exists a. split; [|done]. apply list_elem_of_fmap_2. by apply list_elem_of_filter.
Qed.

(** ** The order of scores *)
Lemma pg_weak_order : weak_order (fun _ => True) (@pg_ltb F _).
Proof.
  assert (forall x : F, is_nan x = false <-> nonnan x) as Hnan
    by (intros x; unfold is_nan, nonnan; destruct (x =? x)%num; naive_solver).
  split; unfold pg_ltb.
  - intros x y _ _ [E|[Ey Ex]%andb_true_iff]%orb_true_iff.
    + rewrite (nltb_asym _ _ E). apply nltb_nonnan in E as [Hx%Hnan Hy%Hnan]. by rewrite Hx, Hy.
    + rewrite Ey. rewrite andb_false_r, orb_false_r. destruct (y <? x)%num eqn:E; [|done].
      apply nltb_nonnan in E as [Hy%Hnan _]. congruence.
  - intros x y z _ _ _ [E1 H1']%orb_false_iff [E2 H2']%orb_false_iff. apply orb_false_iff.
    destruct (is_nan x) eqn:Ex; cbn in *; [|split; [|by rewrite ?andb_false_r]].
    + split.
      * destruct (z <? x)%num eqn:E; [|done]. apply nltb_nonnan in E as [_ Hx%Hnan]. congruence.
      * destruct (is_nan y) eqn:Ey, (is_nan z) eqn:Ez; cbn in *; congruence.
    + apply Hnan in Ex. destruct (z <? x)%num eqn:E; [|done]. apply nltb_nonnan in E as Hz. destruct Hz as [Hz _].
      destruct (is_nan y) eqn:Ey; cbn in *.
      * apply Hnan in Hz. rewrite Hz in H2'. done.
      * apply Hnan in Ey. apply (nltb_false_nleb _ _ Ey Ex) in E1. apply (nltb_false_nleb _ _ Hz Ey) in E2.
        pose proof (nleb_trans _ _ _ E1 E2) as E3. apply nleb_nltb_false in E3. congruence.
Qed.

Lemma highest_first_order : weak_order (fun _ => True) (@highest_first F _).
Proof.
  assert (forall A B (f : A -> B) (lt : B -> B -> bool),
    weak_order (fun _ => True) lt -> weak_order (fun _ => True) (fun a b => lt (f a) (f b))) as Hmap.
  { intros A B f lt [Ha Hn]. split; intros; eauto. }
  apply (weak_order_lex _ (fun a b : Row F * Row F =>
    pg_ltb (double_of "reconstruction_error" b.1) (double_of "reconstruction_error" a.1))
    (fun a b => (int_of "score_id" b.1 <? int_of "score_id" a.1)%Z)).
  - apply (weak_order_flip _ (fun a b : Row F * Row F => pg_ltb (double_of "reconstruction_error" a.1)
      (double_of "reconstruction_error" b.1))), (Hmap _ _ (fun p : Row F * Row F => double_of "reconstruction_error" p.1)).
    apply pg_weak_order.
  - apply (weak_order_flip _ (fun a b : Row F * Row F => (int_of "score_id" a.1 <? int_of "score_id" b.1)%Z)), weak_order_key.
Qed.

(** The scores with their records, best first: what all pages are cut from. *)
Definition ranking (where_ : Row F -> bool) s : list (Row F * Row F) :=
  std_sort highest_first (filter (fun p => where_ p.1 = true)
    (join_on same_record (rows s "dataset_scores") (rows s "host_telemetry_archival"))).
Definition known_record s r : bool := existsb (same_record r) (rows s "host_telemetry_archival").
(** What the schema says of the ids. *)
Definition unique_ids s : Prop :=
  NoDup (int_of "score_id" <$> rows s "dataset_scores") /\
  NoDup (int_of "record_id" <$> rows s "host_telemetry_archival").

Lemma highest_first_separates w s : unique_ids s ->
  separates highest_first (filter (fun p => w p.1 = true)
    (join_on same_record (rows s "dataset_scores") (rows s "host_telemetry_archival"))).
Proof.
  intros [Hs Hr] [a b] [a' b'] [_ Hx]%list_elem_of_filter [_ Hy]%list_elem_of_filter H1' H2'.
  apply elem_of_join in Hx as (Ha & Hb & E%Z.eqb_eq). apply elem_of_join in Hy as (Ha' & Hb' & E'%Z.eqb_eq).
  unfold highest_first in H1', H2'. cbn in H1', H2'.
  apply orb_false_iff in H1' as [P1 Q1]. apply orb_false_iff in H2' as [P2 Q2].
  rewrite P2 in Q1. rewrite P1 in Q2. cbn in Q1, Q2.
  assert (a = a') as -> by (apply (NoDup_fmap_inj_on (int_of "score_id") _ _ _ Hs Ha Ha'); lia).
  f_equal. apply (NoDup_fmap_inj_on (int_of "record_id") _ _ _ Hr Hb Hb'). congruence.
Qed.

Lemma ranking_scores w s : unique_ids s ->
  (ranking w s).*1 ≡ₚ filter (fun r => w r && known_record s r = true) (rows s "dataset_scores").
Proof.
  intros [_ Hr]. unfold ranking. rewrite (std_sort_perm highest_first), filter_join, join_fst, list_filter_filter by done.
  apply eq_subrelation; [apply _|]. apply list_filter_iff. intros r. unfold known_record. rewrite andb_true_iff. tauto.
Qed.

Lemma countb_split {A} (p q : A -> bool) (l : list A) :
  countb p l = (countb (fun x => p x && q x) l + countb (fun x => p x && negb (q x)) l)%nat.
Proof.
  induction l as [|x l IH]; [done|]. rewrite !countb_cons, IH. destruct (p x), (q x); cbn; lia.
Qed.
Lemma has_more_page limit offset (len orphans : nat) :
  (0 <= limit)%Z -> (0 <= offset <= Z.of_nat len)%Z ->
  HasMore limit offset (Z.of_nat (Nat.min (Z.to_nat limit) (len - Z.to_nat offset)))
    (Some (Z.of_nat (len + orphans))) =
  if decide (orphans = 0) then (offset + limit <? Z.of_nat len)%Z else true.
Proof.
  intros Hl Ho. unfold HasMore. case_decide; [|apply Z.ltb_lt; lia].
  destruct (Z.ltb_spec (offset + limit) (Z.of_nat len)); [apply Z.ltb_lt|apply Z.ltb_ge]; lia.
Qed.
End pages.

(** C37: walking the pages of the scores of a dataset never repeats or skips a
    score, whatever order the server visits rows in: page [offset, limit] is a
    slice of one fixed ranking of the matching scores, by decreasing error and
    then by decreasing id, each score once.  [total] counts the matching
    scores, but a score whose record is gone is counted and never listed: with
    such an orphan [has_more] is true on every page up to and including the
    last; without, exactly when rows remain. *)
Theorem score_pages_slice_one_ranking {F} `{NumOrder F} `{Postgres} `{!Server F}
    (c cm : Call) (ds m : string) (limit offset : Z) (only : bool) (lo hi : F) (s : Store F)
    (Hids : unique_ids s) (Hc : c_fault c = None) (Hlimit : (0 <= limit)%Z)
    (Hread : Forall (fun p => (read_row score_item_fields (score_item p)).2 = None)
       (ranking (score_where ds m only lo hi) s)) :
  let where_ := score_where ds m only lo hi in
  let ranked := ranking where_ s in
  let orphans := countb (fun r => where_ r && negb (known_record s r)) (rows s "dataset_scores") in
  let page := GetScores c cm ds m limit offset only lo hi s in
  StronglySorted (ordered highest_first) ranked /\
  ranked.*1 ≡ₚ filter (fun r => where_ r && known_record s r = true) (rows s "dataset_scores") /\
  ((0 <= offset <= zlen ranked)%Z ->
   jfield "items" page = JArr (map (fun p => (read_row score_item_fields (score_item p)).1)
      (take (Z.to_nat limit) (drop (Z.to_nat offset) ranked))) /\
   jfield "total" page = JInt (zlen ranked + Z.of_nat orphans) /\
   jfield "has_more" page =
     JBool (if decide (orphans = 0) then (offset + limit <? zlen ranked)%Z else true)).
Proof.
  cbn zeta. set (where_ := score_where ds m only lo hi) in *. split; [|split; [by apply ranking_scores|]].
  { apply (std_sort_sorted _ (fun _ => True)); [apply highest_first_order..|by apply Forall_true]. }
  intros Hoff. unfold GetScores, query. rewrite Hc. fold where_.
  rewrite (select_page c (fun p => where_ p.1) (fun _ => True));
    [|apply highest_first_order|by apply Forall_true|by apply highest_first_separates|lia|lia].
  fold (ranking where_ s). rewrite read_rows_ok.
  2:{ apply Forall_map. apply Forall_take, Forall_drop. exact Hread. }
  assert (length (ranking where_ s) =
    countb (fun r => where_ r && known_record s r) (rows s "dataset_scores")) as Hlen.
  { unfold countb. rewrite <- (ranking_scores where_ s Hids). by rewrite length_fmap. }
  rewrite !jfield_obj, !rev_app_distr, !obj_lookup_app. cbn -[HasMore run_metadata].
  rewrite run_metadata_lookup by (rewrite !not_elem_of_cons; split_and!; [done..|apply not_elem_of_nil]). cbn -[HasMore].
  rewrite map_map. split_and!; [done| |].
  - unfold zlen. by rewrite (countb_split where_ (known_record s)), Hlen, Nat2Z.inj_add.
  - do 2 f_equal. rewrite (countb_split where_ (known_record s)), <- Hlen. unfold zlen.
    rewrite length_map, length_take, length_drop. apply has_more_page; unfold zlen in *; lia.
Qed.

Lemma anchor_lookup {F} (q : search) k (j : json F) : k <> "anchor_time" ->
  obj_lookup k (rev (if (q_anchor_time q =? "")%string then [] else [("anchor_time", j)])) = None.
Proof. intros Hk%String.eqb_neq. destruct (_ =? "")%string; [done|]. cbn. by rewrite Hk. Qed.

(** The pages of a search over the records of a dataset are slices of one
    list, the matching records in time order, each once, whatever order the
    server visits rows in, and [has_more] tells exactly whether records remain
    -- provided no two matching records have the same timestamp, the only
    column the code sorts by.  Invalid sort arguments are rejected. *)
Theorem search_pages_slice_one_list {F} `{Num F} `{Postgres} `{PgInput F} `{!Server F}
    (c : Call) (run_id : string) (limit offset : Z) (q : search) (s : Store F)
    (Hc : c_fault c = None) (Hlimit : (0 <= limit)%Z) (Hoffset : (0 <= offset)%Z) :
  match asc ← sort_ascending (q_sort_by q) (q_sort_order q); (pair asc) <$> search_where run_id q asc with
  | Throw e => SearchDatasetRecords c run_id limit offset q s = Throw e
  | Ok (asc, where_) =>
      let matching := filter (fun r => where_ r = true) (rows s "host_telemetry_archival") in
      let sorted := std_sort (by_timestamp asc) matching in
      NoDup (time_of "metric_timestamp" <$> matching) ->
      Forall (fun r => (read_row record_fields r).2 = None) matching ->
      sorted ≡ₚ matching /\
      exists page, SearchDatasetRecords c run_id limit offset q s = Ok page /\
        jfield "items" page = JArr (map (fun r => (read_row record_fields r).1)
          (take (Z.to_nat limit) (drop (Z.to_nat offset) sorted))) /\
        jfield "total" page = JInt (zlen matching) /\
        ((offset <= zlen matching)%Z -> jfield "has_more" page = JBool (offset + limit <? zlen matching)%Z)
  end.
Proof.
  unfold SearchDatasetRecords, query. rewrite Hc.
  destruct (sort_ascending _ _) as [asc|e]; cbn [mbind res_bind]; [|done].
  destruct (search_where run_id q asc) as [where_|e]; cbn [fmap res_fmap mbind res_bind]; [|done].
  set (matching := filter _ _). set (sorted := std_sort (by_timestamp asc) matching).
  intros Hnd Hread. split; [apply std_sort_perm|].
  assert (weak_order (fun _ => True) (@by_timestamp F asc)) as Ho.
  { unfold by_timestamp. destruct asc; [apply weak_order_key|].
    apply (weak_order_flip _ (fun a b : Row F => (time_of "metric_timestamp" a <? time_of "metric_timestamp" b)%Z)),
      weak_order_key. }
  assert (separates (by_timestamp asc) matching) as Hsep.
  { intros x y Hx Hy H1' H2'. apply (NoDup_fmap_inj_on _ _ _ _ Hnd Hx Hy).
    unfold by_timestamp, earliest_first, latest_first in *. destruct asc; lia. }
  rewrite (select_page c where_ (fun _ => True)); [|done|by apply Forall_true|done|lia|lia].
  fold matching. fold sorted. cbn [mbind res_bind]. rewrite read_rows_ok.
  2:{ apply Forall_take, Forall_drop. unfold sorted. by rewrite (std_sort_perm (by_timestamp asc)). }
  eexists. split; [reflexivity|]. rewrite !jfield_obj, !rev_app_distr, !obj_lookup_app.
  assert (length sorted = length matching) as Hl by apply length_std_sort.
  rewrite !(anchor_lookup q) by done. cbn -[HasMore]. split_and!; [done|done|].
  intros Hoff. f_equal. unfold zlen. rewrite length_map, length_take, length_drop, Hl.
  change (countb where_ _) with (length matching). rewrite <- (Nat.add_0_r (length matching)) at 2.
  rewrite has_more_page by (unfold zlen in *; lia). by rewrite decide_True.
Qed.

(** ** Two records of one tick, two scores of them and a score whose record is gone *)
Definition record_example (id t : Z) : Row float :=
  new_row [("record_id", SInt id); ("run_id", SText "ds"); ("host_id", SText "h"); ("metric_timestamp", STime t);
           ("cpu_usage", SDouble 1%float); ("memory_usage", SDouble 1%float); ("disk_utilization", SDouble 1%float);
           ("network_rx_rate", SDouble 1%float); ("network_tx_rate", SDouble 1%float); ("is_anomaly", SBool false);
           ("region", SText "r"); ("project_id", SText "p"); ("labels", SJson (JObj []))].
Definition score_example (id record_id : Z) (err : float) : Row float :=
  new_row [("score_id", SInt id); ("dataset_id", SText "ds"); ("model_run_id", SText "m"); ("record_id", SInt record_id);
           ("reconstruction_error", SDouble err); ("predicted_is_anomaly", SBool true); ("scored_at", STime 9)].
Definition query_store (t1 t2 : Z) : Store float :=
  put "dataset_scores" [score_example 1 1 0.25%float; score_example 2 2 0.75%float; score_example 3 7 0.5%float]
    (put "host_telemetry_archival" [record_example 1 t1; record_example 2 t2] empty_store).
Definition search_example : search := MkSearch "" "" "" "" "" "" "" "ASC" "".
Definition even_call : Call := MkCall None 0.
Definition odd_call : Call := MkCall None 1.

Lemma score_pages_slice_one_ranking_witness :
  let page := @GetScores float _ pg_example (server_example float) even_call odd_call "ds" "m" 1 1 false 0%float 0%float
    (query_store 100 100) in
  unique_ids (query_store 100 100) /\ jfield "total" page = JInt 3 /\ jfield "has_more" page = JBool true.
Proof.
  intros page. assert (unique_ids (query_store 100 100)) as Hu by (split; by_deciding).
  split; [exact Hu|].
  destruct (@score_pages_slice_one_ranking float _ _ pg_example (server_example float) even_call odd_call "ds" "m" 1 1
    false 0%float 0%float (query_store 100 100) Hu eq_refl) as (_ & _ & Hp); [done| |].
  { by_deciding. }
  destruct Hp as (_ & Ht & Hm); [split; [done|vm_compute; discriminate]|]. split; [exact Ht|exact Hm].
Defined.

(** Two records of one tick: with another scan order for the second call, both
    pages of size one show the same record. *)
Lemma search_pages_slice_one_list_witness :
  let find c off s := @SearchDatasetRecords float _ pg_example (pg_input_example float) (server_example float) c "ds" 1 off
    search_example s in
  (exists page, find even_call 1%Z (query_store 100 200) = Ok page /\ jfield "has_more" page = JBool false) /\
  (jfield "items" <$> find even_call 0%Z (query_store 100 100)) =
  (jfield "items" <$> find odd_call 1%Z (query_store 100 100)).
Proof.
  intros find. split; [|vm_compute; reflexivity].
  pose proof (@search_pages_slice_one_list float _ pg_example (pg_input_example float) (server_example float)
    even_call "ds" 1 1 search_example (query_store 100 200) eq_refl ltac:(done) ltac:(done)) as Hs.
  change (q_sort_by search_example) with "" in Hs. change (q_sort_order search_example) with "ASC" in Hs.
  destruct Hs as (_ & page & Hp & _ & _ & Hm).
  - by_deciding.
  - by_deciding.
  - exists page. split; [exact Hp|]. rewrite Hm; [vm_compute; reflexivity|vm_compute; discriminate].
Defined.
