(* ===== verification/Analytics.v ===== *)
(** The aggregating calls of class DbClient (src/src/db_client.cpp): top values,
    histograms, time series, statistics, error distributions and the evaluation
    of a model against the labels.

    Grouping, counting and selection are the statements' own; the numeric
    aggregate functions of the server ([AVG], [STDDEV], [PERCENTILE_CONT],
    [width_bucket], [date_trunc]) are the parameters of class [Aggregates]. *)
From stdpp Require Import base gmap strings list fin_maps sorting.
From Stdlib Require Import ZArith Lia Floats Sorting.Sorted.
From S2P Require Import Prelude Num Detectors Json Sql DbClient Queries.

Local Open Scope string_scope.
Local Open Scope list_scope.

(** [None] is NULL, the value over no rows. *)
Class Aggregates (F : Type) := {
  pg_avg : list F -> option F;
  pg_stddev : list F -> option F;
  percentile_cont : F -> list F -> option F;
  width_bucket : F -> F -> F -> Z -> Z;
  epoch_bucket : Z -> Z -> Z;
  hour_bucket : Z -> Z;
  epoch_seconds : Z -> F }.

(** The documented behaviour of [width_bucket]: values below the range are in
    bucket 0, values at or above its end in bucket [n + 1]. *)
Class WidthBucketLaws (F : Type) `{Num F} `{Aggregates F} := {
  bucket_below x lo hi n : (lo <? hi)%num = true -> (x <? lo)%num = true -> width_bucket x lo hi n = 0%Z;
  bucket_above x lo hi n : (lo <? hi)%num = true -> (hi <=? x)%num = true -> width_bucket x lo hi n = (n + 1)%Z;
  bucket_inside x lo hi n : (lo <=? x)%num = true -> (x <? hi)%num = true -> (0 < n)%Z ->
    (1 <= width_bucket x lo hi n <= n)%Z }.
(** A server that interpolates. *)
Definition aggregates_example (F : Type) `{Num F} : Aggregates F :=
  {| pg_avg l := match l with [] => None | _ => Some (foldl nadd 0%num l / nofZ (zlen l))%num end;
     pg_stddev l := None; percentile_cont p l := head l;
     width_bucket x lo hi n :=
       if (x <? lo)%num then 0%Z else if (hi <=? x)%num then (n + 1)%Z
       else Z.max 1 (Z.min n (1 + ntrunc ((x - lo) / (hi - lo) * nofZ n)%num));
     epoch_bucket b t := (t / (b * 1000000) * (b * 1000000))%Z; hour_bucket t := (t / 3600000000 * 3600000000)%Z;
     epoch_seconds d := (nofZ d / nofZ 1000000)%num |}.
Lemma width_bucket_example (F : Type) `{NumOrder F} : @WidthBucketLaws F _ (aggregates_example F).
Proof.
  split; cbn.
  - by intros x lo hi n _ ->.
  - intros x lo hi n Hr Hx. rewrite Hx. by rewrite (nltb_asym lo x) by (by apply (nltb_nleb_trans _ hi)).
  - intros x lo hi n Hlo Hhi Hn. rewrite (nleb_nltb_false _ _ Hlo).
    destruct (hi <=? x)%num eqn:E; [apply nleb_nltb_false in E; congruence|lia].
Qed.

Section analytics.
Context {F : Type} `{Num F} `{Postgres} `{PgInput F} `{Server F} `{Aggregates F}.
Implicit Types (r : Row F) (s : Store F) (c : Call).

(** ** The filter the analytics share *)
Record telemetry_filter := MkFilter {
  f_region : string; f_is_anomaly : string; f_anomaly_type : string; f_start_time : string; f_end_time : string }.
Definition filter_where (run_id : string) (f : telemetry_filter) : res (Row F -> bool) :=
  lo ← time_arg (f_start_time f); hi ← time_arg (f_end_time f);
  Ok (fun r => text_is "run_id" run_id r
        && given (f_region f) (text_is "region" (f_region f) r)
        && given (f_is_anomaly f) (anomaly_is (f_is_anomaly f) r)
        && given (f_anomaly_type f) (text_is "anomaly_type" (f_anomaly_type f) r)
        && not_before "metric_timestamp" lo r && not_after "metric_timestamp" hi r).
Definition telemetry (where_ : Row F -> bool) s : list (Row F) :=
  filter (fun r => where_ r = true) (rows s "host_telemetry_archival").
Definition double_or_zero (o : option F) : json F := JNum (default 0%num o).

(** ** GROUP BY a dimension *)

(** The value of a text column; NULL is a value of its own. *)
Definition dimension_of (col : string) r : option string :=
  match column r col with SText v => Some v | _ => None end.
(** [SELECT col, COUNT] with [GROUP BY col]: each value with its rows. *)
Definition groups (col : string) (l : list (Row F)) : list (option string * list (Row F)) :=
  map (fun k => (k, filter (fun r => dimension_of col r = k) l)) (remove_dups (dimension_of col <$> l)).
Definition larger_group (a b : option string * list (Row F)) : bool := (length b.2 <? length a.2)%nat.
Definition group_label (g : option string * list (Row F)) : string := default "" g.1.
Definition group_item (g : option string * list (Row F)) : json F :=
  obj [("label", JStr (group_label g)); ("count", JInt (zlen g.2))].

(** A column of [host_telemetry_archival h]: [GetTopK] gives the table no alias,
    so the server knows no column qualified with [h]. *)
Definition unaliased (col : string) : res string :=
  if String.prefix "h." col then sql_error "missing FROM-clause entry for table" else Ok col.
Definition strip_alias (col : string) : string :=
  if String.prefix "h." col then String.substring 2 (String.length col - 2) col else col.

(** [LIMIT k + 1], then at most [k] of the rows; one more means truncated. *)
Definition GetTopK c (run_id col : string) (k : Z) (f : telemetry_filter) (include_total_distinct : bool) s
    : res (json F) :=
  if negb (IsValidDimension col) then invalid_argument ("Invalid column: " +:+ col) else
  query c s (fun s =>
    col ← unaliased col; where_ ← filter_where run_id f;
    let gs := groups col (telemetry where_ s) in
    found ← limit_offset (k + 1) 0 (std_sort larger_group (scan c gs));
    let items := take (Z.to_nat (to_size_t k)) found in
    Ok (obj ([("items", JArr (map group_item items));
              ("truncated", JBool (length items <? length found)%nat)]
             ++ if include_total_distinct
                then [("total_distinct", JInt (zlen (filter (fun g => is_Some g.1) gs)))] else []))).

(** The reconstruction errors of a dataset's scores by a dimension of the record. *)
Definition GetErrorDistribution c (dataset_id model_run_id group_by : string) s : res (json F) :=
  if negb (IsValidDimension group_by) then invalid_argument ("Invalid group_by: " +:+ group_by) else
  query c s (fun s =>
    let found := filter (fun p => scored_for dataset_id model_run_id p.1 = true)
      (join_on same_record (rows s "dataset_scores") (rows s "host_telemetry_archival")) in
    let merged := map (fun p => set_columns [("group", column p.2 (strip_alias group_by))] p.1) found in
    Ok (JArr (map (fun g =>
      let errors := map (double_of "reconstruction_error") g.2 in
      obj [("label", JStr (group_label g)); ("count", JInt (zlen g.2)); ("mean", double_or_zero (pg_avg errors));
           ("p50", double_or_zero (percentile_cont (nlit 1 2) errors));
           ("p95", double_or_zero (percentile_cont (nlit 95 100) errors))])
      (std_sort larger_group (scan c (groups "group" merged)))))).

(** ** Histograms *)
Definition MAX_BINS : Z := 500.
(** The range given, or the range of the data when it is empty. *)
Definition histogram_range (run_id metric : string) (min_val max_val : F) s : F * F :=
  if (max_val <=? min_val)%num then
    let values := map (double_of metric) (dataset_rows run_id s) in
    match pg_min values, pg_max values with Some lo, Some hi => (lo, hi) | _, _ => (min_val, max_val) end
  else (min_val, max_val).
(** The number of matching rows in bucket [b] of [n] over the range as printed. *)
Definition bucket_count (metric : string) (lo hi : F) (n b : Z) (l : list (Row F)) : Z :=
  Z.of_nat (countb (fun r => (width_bucket (double_of metric r) (fixed6 lo) (fixed6 hi) n =? b)%Z) l).
Definition GetHistogram c (run_id metric : string) (bins : Z) (min_val max_val : F) (f : telemetry_filter) s
    : res (json F) :=
  if negb (IsValidMetric metric) then invalid_argument ("Invalid metric: " +:+ metric) else
  let requested := bins in
  let bins := Z.min bins MAX_BINS in
  query c s (fun s =>
    let '(lo, hi) := histogram_range run_id metric min_val max_val s in
    if (hi <=? lo)%num then
      Ok (obj [("requested_bins", JInt requested); ("edges", JArr []); ("counts", JArr [])])
    else
      let step := ((hi - lo) / nofZ bins)%num in
      let edges := map (fun i => JNum (lo + step * nofZ (Z.of_nat i))%num) (seq 0 (Z.to_nat (bins + 1))) in
      where_ ← filter_where run_id f;
      if ((bins <=? 0)%Z || (fixed6 lo =? fixed6 hi)%num) && negb (bool_decide (telemetry where_ s = [])) then
        sql_error "count must be greater than zero, and the bounds must differ"
      else if (bins <? 0)%Z then Throw (Exn OtherException "cannot create std::vector larger than max_size()")
      else
      let counts := map (fun i => JInt (bucket_count metric lo hi bins (Z.of_nat i + 1) (telemetry where_ s)))
        (seq 0 (Z.to_nat bins)) in
      Ok (obj [("requested_bins", JInt requested); ("edges", JArr edges); ("counts", JArr counts)])).

(** ** Statistics *)
Definition GetMetricStats c (run_id metric : string) s : res (json F) :=
  if negb (IsValidMetric metric) then invalid_argument ("Invalid metric: " +:+ metric) else
  query c s (fun s =>
    let values := map (double_of metric) (dataset_rows run_id s) in
    Ok (obj [("count", JInt (zlen values)); ("min", double_or_zero (pg_min values));
             ("max", double_or_zero (pg_max values)); ("mean", double_or_zero (pg_avg values));
             ("p50", double_or_zero (percentile_cont (nlit 1 2) values));
             ("p95", double_or_zero (percentile_cont (nlit 95 100) values)); ("missing_count", JInt 0)])).

Definition kMetrics : list string :=
  ["cpu_usage"; "memory_usage"; "disk_utilization"; "network_rx_rate"; "network_tx_rate"].
Definition GetDatasetMetricsSummary c (run_id : string) s : res (json F) :=
  query c s (fun s =>
    let stddevs := map (fun m => (m, default 0%num (pg_stddev (map (double_of m) (dataset_rows run_id s))))) kMetrics in
    Ok (obj [("high_variance", JArr (map (fun p => obj [("key", JStr p.1); ("stddev", JNum p.2)])
               (std_sort (fun a b => (b.2 <? a.2)%num) stddevs)));
             ("high_missingness", JArr [])])).

(** ** Time series *)
Definition aggregate (agg : string) (values : list F) : option F :=
  if (agg =? "mean")%string then pg_avg values
  else if (agg =? "min")%string then pg_min values
  else if (agg =? "max")%string then pg_max values
  else if (agg =? "p50")%string then percentile_cont (nlit 1 2) values
  else percentile_cont (nlit 95 100) values.
Definition time_groups (bucket : Z -> Z) (l : list (Row F)) : list (Z * list (Row F)) :=
  map (fun t => (t, filter (fun r => bucket (time_of "metric_timestamp" r) = t) l))
    (std_sort Z.ltb (remove_dups ((fun r => bucket (time_of "metric_timestamp" r)) <$> l))).
Definition GetTimeSeries c (run_id : string) (metrics aggs : list string) (bucket_seconds : Z) (f : telemetry_filter) s
    : res (json F) :=
  match filter (fun m => IsValidMetric m = false) metrics, filter (fun a => IsValidAggregation a = false) aggs with
  | m :: _, _ => invalid_argument ("Invalid metric: " +:+ m)
  | [], a :: _ => invalid_argument ("Invalid aggregation: " +:+ a)
  | [], [] =>
      query c s (fun s =>
        where_ ← filter_where run_id f;
        if (bucket_seconds =? 0)%Z && negb (bool_decide (telemetry where_ s = [])) then sql_error "division by zero" else
        Ok (JArr (map (fun g =>
          obj ([("ts", JStr (time_text g.1))]
               ++ (m ← metrics; a ← aggs;
                   [(m +:+ "_" +:+ a, double_or_zero (aggregate a (map (double_of m) g.2)))])
               ++ [("count", JInt (zlen g.2))]))
          (time_groups (epoch_bucket bucket_seconds) (telemetry where_ s)))))
  end.

(** ** The summary of a dataset *)
Definition rate (anomalies total : Z) : F := if (0 <? total)%Z then (nofZ anomalies / nofZ total)%num else 0%num.
Definition anomalies_in (l : list (Row F)) : Z := Z.of_nat (countb (bool_of "is_anomaly") l).
Definition time_or_empty (o : option Z) : json F := JStr (match o with Some t => time_text t | None => "" end).
Definition earliest (l : list Z) : option Z := match l with [] => None | x :: l => Some (foldl Z.min x l) end.
Definition latest (l : list Z) : option Z := match l with [] => None | x :: l => Some (foldl Z.max x l) end.
Definition distinct_count (col : string) (l : list (Row F)) : Z := zlen (remove_dups (text_of col <$> l)).
(** The [topk] most frequent anomaly types, the others summed up. *)
Definition type_counts (topk : Z) (gs : list (option string * list (Row F))) : list (json F) :=
  let shown := take (Z.to_nat topk) gs in
  let other := foldr (fun g n => (zlen g.2 + n)%Z) 0%Z (drop (Z.to_nat topk) gs) in
  map group_item shown ++ if (0 <? other)%Z then [obj [("label", JStr "other"); ("count", JInt other)]] else [].
Definition day_us : Z := 86400000000.
Definition trend (l : list (Row F)) : list (json F) :=
  match latest (time_of "metric_timestamp" <$> l) with
  | None => []
  | Some max_ts =>
      map (fun g => obj [("ts", JStr (time_text g.1)); ("anomaly_rate", JNum (rate (anomalies_in g.2) (zlen g.2)));
                         ("total", JInt (zlen g.2))])
        (time_groups hour_bucket (filter (fun r => (max_ts - day_us <= time_of "metric_timestamp" r)%Z) l))
  end.
Definition latency r : F := epoch_seconds (time_of "ingestion_time" r - time_of "metric_timestamp" r).
Definition GetDatasetSummary c (run_id : string) (topk : Z) s : res (json F) :=
  query c s (fun s =>
    let l := dataset_rows run_id s in
    let times := time_of "metric_timestamp" <$> l in
    let typed := filter (fun r => bool_of "is_anomaly" r && bool_decide (is_Some (dimension_of "anomaly_type" r)) = true) l in
    Ok (obj [("row_count", JInt (zlen l));
             ("time_range", obj [("min_ts", time_or_empty (earliest times)); ("max_ts", time_or_empty (latest times))]);
             ("anomaly_rate", JNum (rate (anomalies_in l) (zlen l)));
             ("anomaly_type_counts", JArr (type_counts topk (std_sort larger_group (scan c (groups "anomaly_type" typed)))));
             ("distinct_counts", obj [("host_id", JInt (distinct_count "host_id" l));
                                      ("project_id", JInt (distinct_count "project_id" l));
                                      ("region", JInt (distinct_count "region" l))]);
             ("ingestion_latency_p50", double_or_zero (percentile_cont (nlit 1 2) (map latency l)));
             ("ingestion_latency_p95", double_or_zero (percentile_cont (nlit 95 100) (map latency l)));
             ("anomaly_rate_trend", JArr (trend l))])).

(** ** Evaluation against the labels *)
Record EvalRow := MkEval { ev_err : F; ev_pred : bool; ev_label : bool }.
Definition eval_row (p : Row F * Row F) : EvalRow :=
  MkEval (double_of "reconstruction_error" p.1) (bool_of "predicted_is_anomaly" p.1) (bool_of "is_anomaly" p.2).
(** At most [max_samples] rows, in whatever order the server returns them. *)
Definition eval_samples c (dataset_id model_run_id : string) (max_samples : Z) s : list EvalRow :=
  let found := map eval_row (scan c (filter (fun p => scored_for dataset_id model_run_id p.1 = true)
    (join_on same_record (rows s "dataset_scores") (rows s "host_telemetry_archival")))) in
  if (0 <? max_samples)%Z then take (Z.to_nat max_samples) found else found.
Definition eval_points (points : Z) : Z := Z.max (Z.min (if (0 <? points)%Z then points else 50) 200) 10.
Definition countz {A} (p : A -> bool) (l : list A) : Z := Z.of_nat (countb p l).

(** The point at threshold [t]: true and false positives at or above it. *)
Record EvalPoint := MkPoint { ep_threshold : F; ep_ttp : Z; ep_tfp : Z }.
Definition eval_point (samples : list EvalRow) (t : F) : EvalPoint :=
  MkPoint t (countz (fun e => (t <=? ev_err e)%num && ev_label e) samples)
            (countz (fun e => (t <=? ev_err e)%num && negb (ev_label e)) samples).
(** [samples[idx].err], the index computed in floating point. *)
Definition eval_index (n_points size i : Z) : Z :=
  ntrunc (nofZ i / nofZ (n_points - 1) * nofZ (size - 1) : F)%num.
Definition eval_curve (sorted : list EvalRow) (n_points : Z) : res (list EvalPoint) :=
  match sorted with
  | [] => Ok []
  | _ => mapR (fun i =>
           match sorted !! Z.to_nat (eval_index n_points (zlen sorted) (Z.of_nat i)) with
           | Some e => Ok (eval_point sorted (ev_err e))
           | None => undefined "vector index out of range"
           end) (seq 0 (Z.to_nat n_points))
  end.
Definition ratio (num den : Z) : F := if (0 <? den)%Z then (nofZ num / nofZ den)%num else 0%num.
Definition roc_json (positives negatives : Z) (p : EvalPoint) : json F :=
  obj [("fpr", JNum (ratio (ep_tfp p) negatives)); ("tpr", JNum (ratio (ep_ttp p) positives));
       ("threshold", JNum (ep_threshold p))].
Definition pr_json (positives : Z) (p : EvalPoint) : json F :=
  obj [("precision", JNum (ratio (ep_ttp p) (ep_ttp p + ep_tfp p))); ("recall", JNum (ratio (ep_ttp p) positives));
       ("threshold", JNum (ep_threshold p))].
Definition confusion (samples : list EvalRow) : json F :=
  obj [("tp", JInt (countz (fun e => ev_pred e && ev_label e) samples));
       ("fp", JInt (countz (fun e => ev_pred e && negb (ev_label e)) samples));
       ("tn", JInt (countz (fun e => negb (ev_pred e) && negb (ev_label e)) samples));
       ("fn", JInt (countz (fun e => negb (ev_pred e) && ev_label e) samples))].
Definition GetEvalMetrics c cm (dataset_id model_run_id : string) (points max_samples : Z) s : res (json F) :=
  match c_fault c with
  | Some _ => Ok JNull
  | None =>
      let samples := eval_samples c dataset_id model_run_id max_samples s in
      let sorted := std_sort (fun a b => (ev_err b <? ev_err a)%num) samples in
      let positives := countz ev_label samples in
      let negatives := countz (fun e => negb (ev_label e)) samples in
      curve ← eval_curve sorted (eval_points points);
      Ok (obj ([("confusion", confusion samples);
                ("roc", JArr (map (roc_json positives negatives) curve));
                ("pr", JArr (map (pr_json positives) curve))]
               ++ run_metadata (GetModelRun cm model_run_id s)))
  end.
End analytics.
Arguments EvalRow F : clear implicits.
Arguments EvalPoint F : clear implicits.
