(* ===== verification/AnalyticsFacts.v ===== *)
(** What the aggregating calls of DbClient answer. *)
From stdpp Require Import base gmap strings list fin_maps sorting.
From Stdlib Require Import ZArith Lia Floats Sorting.Sorted.
From S2P Require Import Prelude Num Detectors Json Sql DbClient Queries QueryFacts Analytics.

Local Open Scope string_scope.
Local Open Scope list_scope.

Lemma not_nil_elem_of {A} (l : list A) : l <> [] <-> exists x, x ∈ l.
Proof.
  destruct l as [|x l]; split; [done|by intros [x []%not_elem_of_nil]| |done]. exists x. by left.
Qed.

(** ** Groups and the most frequent values *)
Section topk.
Context {F : Type} `{Num F}.
Implicit Types (r : Row F) (l : list (Row F)).

Lemma groups_keys col l : (groups col l).*1 = remove_dups (dimension_of col <$> l).
Proof. unfold groups. rewrite <- list_fmap_compose. apply list_fmap_id. Qed.
Lemma elem_of_groups col l k rs :
  (k, rs) ∈ groups col l <-> rs = filter (fun r => dimension_of col r = k) l /\ rs <> [].
Proof.
  unfold groups. split.
  - intros (k' & E & Hk)%list_elem_of_fmap. simplify_eq. split; [done|].
    apply elem_of_remove_dups, list_elem_of_fmap in Hk as (r & -> & Hr).
    apply not_nil_elem_of. exists r. by apply list_elem_of_filter.
  - intros [-> Hne]. apply list_elem_of_fmap. exists k. split; [done|]. apply elem_of_remove_dups.
    apply not_nil_elem_of in Hne as [r Hr]. apply list_elem_of_filter in Hr as [<- Hr]. by apply list_elem_of_fmap_2.
Qed.
Lemma larger_group_order : weak_order (fun _ => True) (@larger_group F).
Proof.
  split; unfold larger_group; intros *; rewrite ?Nat.ltb_lt, ?Nat.ltb_ge; lia.
Qed.

(** The [n] largest groups, by their keys. *)
Lemma sorted_keys {K A} (count : K -> nat) (gs : list (K * list A)) :
  (forall g, g ∈ gs -> length g.2 = count g.1) ->
  StronglySorted (fun g h : K * list A => length h.2 <= length g.2)%nat gs ->
  StronglySorted (fun v w => count w <= count v)%nat gs.*1.
Proof.
  intros Hc. induction 1 as [|g gs _ IH Hall]; [constructor|]. cbn. constructor.
  - apply IH. intros h Hh. apply Hc. by right.
  - apply Forall_fmap, Forall_forall. intros h Hh. cbn. rewrite Forall_forall in Hall.
    rewrite <- !Hc by (done || by (constructor || right)). by apply Hall.
Qed.
Lemma largest_groups {K A} (count : K -> nat) (gs : list (K * list A)) n :
  (forall g, g ∈ gs -> length g.2 = count g.1) -> NoDup gs.*1 ->
  StronglySorted (fun g h : K * list A => length h.2 <= length g.2)%nat gs ->
  NoDup (take n gs).*1 /\ (take n gs).*1 ⊆ gs.*1 /\
  StronglySorted (fun v w => count w <= count v)%nat (take n gs).*1 /\
  (forall v w, v ∈ (take n gs).*1 -> w ∈ gs.*1 -> w ∉ (take n gs).*1 -> count w <= count v)%nat.
Proof.
  intros Hc Hnd Hs%(sorted_keys count); [|done]. rewrite !fmap_take.
  rewrite <- (take_drop n gs.*1) in Hnd, Hs. apply NoDup_app in Hnd as (Hnd & _ & _). split_and!.
  - done.
  - intros v Hv. rewrite <- (take_drop n gs.*1). apply elem_of_app. by left.
  - by apply StronglySorted_app_1_l in Hs.
  - intros v w Hv Hw Hn. rewrite <- (take_drop n gs.*1) in Hw. apply elem_of_app in Hw as [?|Hw]; [done|].
    by apply (StronglySorted_app_1_elem_of _ _ _ v w Hs).
Qed.
End topk.

(** C38: [GetTopK] answers with the [k] most frequent values of the column among
    the matching rows: that many different values, or all of them, each with
    its exact number of rows, most frequent first; no value left out has more
    rows than one listed; and [truncated] says exactly whether a value was
    left out. *)
Theorem topk_lists_most_frequent {F} `{Num F} `{PgInput F} `{!Server F}
    (c : Call) (run_id col : string) (k : Z) (f : telemetry_filter) (total : bool) (s : Store F) (where_ : Row F -> bool)
    (Hcol : IsValidDimension col = true) (Halias : String.prefix "h." col = false)
    (Hk : (0 <= k < 2 ^ 31 - 1)%Z) (Hc : c_fault c = None) (Hf : filter_where run_id f = Ok where_) :
  let l := telemetry where_ s in
  let values := remove_dups (dimension_of col <$> l) in
  let count v := length (filter (fun r => dimension_of col r = v) l) in
  exists out top, GetTopK c run_id col k f total s = Ok out /\
    jfield "items" out = JArr (map (fun v => obj [("label", JStr (default "" v)); ("count", JInt (Z.of_nat (count v)))]) top) /\
    NoDup top /\ top ⊆ values /\ zlen top = Z.min k (zlen values) /\
    StronglySorted (fun v w => count w <= count v)%nat top /\
    (forall v w, v ∈ top -> w ∈ values -> w ∉ top -> count w <= count v)%nat /\
    jfield "truncated" out = JBool (k <? zlen values)%Z.
Proof.
  cbn zeta. set (l := telemetry where_ s).
  unfold GetTopK. rewrite Hcol. cbn [negb]. unfold query, unaliased. rewrite Hc, Halias, Hf. cbn [mbind res_bind].
  fold l. unfold limit_offset. assert ((k + 1 <? 0)%Z = false) as -> by lia. cbn [orb Z.ltb Z.compare mbind res_bind].
  rewrite drop_0. set (gs := std_sort larger_group (scan c (groups col l))).
  assert (gs ≡ₚ groups col l) as Hgs by (unfold gs; by rewrite (std_sort_perm larger_group), scan_perm).
  assert (length gs = length (remove_dups (dimension_of col <$> l))) as Hlen
    by (by rewrite Hgs, <- groups_keys, length_fmap).
  assert (forall g, g ∈ gs -> g.2 = filter (fun r => dimension_of col r = g.1) l) as Hrows.
  { intros [v rs]. rewrite Hgs. by intros [-> _]%elem_of_groups. }
  assert (StronglySorted (fun g h : option string * list (Row F) => length h.2 <= length g.2) gs)%nat as Hsort.
  { eapply StronglySorted_weaken; [|apply (std_sort_sorted _ (fun _ => True)); [apply larger_group_order..|by apply Forall_true]].
    intros g h. unfold ordered, larger_group. by rewrite Nat.ltb_ge. }
  assert (NoDup gs.*1) as Hnd by (rewrite Hgs, groups_keys; apply NoDup_remove_dups).
  assert (forall v, v ∈ gs.*1 <-> v ∈ remove_dups (dimension_of col <$> l)) as Hin
    by (intros v; by rewrite Hgs, groups_keys).
  set (n := Z.to_nat k). set (top := take n gs).
  assert (take (Z.to_nat (to_size_t k)) (take (Z.to_nat (k + 1)) gs) = top) as Htop.
  { rewrite to_size_t_id by lia. rewrite take_take. unfold top. f_equal. lia. }
  eexists _, top.*1. split; [reflexivity|]. rewrite Htop, !jfield_obj, !rev_app_distr, !obj_lookup_app.
  replace (obj_lookup "items" (rev (if total then _ else _))) with (@None (json F)) by (by destruct total).
  replace (obj_lookup "truncated" (rev (if total then _ else _))) with (@None (json F)) by (by destruct total).
  cbn -[take]. fold top.
  destruct (largest_groups (fun v => length (filter (fun r => dimension_of col r = v) l)) gs n)
    as (T1 & T2 & T3 & T4); [by intros g ->%Hrows|done|done|]. split_and!.
  - f_equal. symmetry. etrans; [apply (map_map fst)|]. apply map_ext_in. intros g Hg%list_elem_of_In.
    unfold group_item, group_label, zlen. rewrite (Hrows g); [done|]. rewrite <- (take_drop n gs).
    apply elem_of_app. by left.
  - done.
  - intros v Hv%T2. by apply Hin.
  - unfold top. rewrite fmap_take. unfold zlen. rewrite length_take, length_fmap, Hlen. lia.
  - done.
  - intros v w Hv Hw. apply T4; [done|]. by apply Hin.
  - do 2 f_equal. unfold top. rewrite !length_take, Hlen. unfold zlen.
    destruct (Z.ltb_spec k (Z.of_nat (length (remove_dups (dimension_of col <$> l)))));
      [apply Nat.ltb_lt|apply Nat.ltb_ge]; lia.
Qed.

(** ** Histograms *)
Definition sumz (l : list Z) : Z := foldr Z.add 0%Z l.
Lemma sumz_app a b : sumz (a ++ b) = (sumz a + sumz b)%Z.
Proof. unfold sumz. induction a as [|z a IH]; cbn; [done|rewrite IH; lia]. Qed.
Lemma countb_or {A} (p q : A -> bool) (l : list A) : (forall x, p x = true -> q x = false) ->
  (countb p l + countb q l = countb (fun x => p x || q x) l)%nat.
Proof.
  intros Hpq. induction l as [|x l IH]; [done|]. rewrite !countb_cons, <- IH.
  pose proof (Hpq x). destruct (p x), (q x); cbn; [by discriminate H|lia..].
Qed.
(** Counting value by value is counting. *)
Lemma countb_by_value {A} (v : A -> Z) (n : nat) (l : list A) :
  sumz (map (fun i => Z.of_nat (countb (fun x => (v x =? Z.of_nat i + 1)%Z) l)) (seq 0 n)) =
  Z.of_nat (countb (fun x => (1 <=? v x)%Z && (v x <=? Z.of_nat n)%Z) l).
Proof.
  induction n as [|n IH].
  - cbn [seq map sumz foldr]. rewrite countb_none; [done|]. apply Forall_forall. intros x _.
    destruct (Z.leb_spec 1 (v x)), (Z.leb_spec (v x) (Z.of_nat 0)); done || lia.
  - rewrite seq_S, map_app, sumz_app, IH. cbn [map sumz foldr]. rewrite Z.add_0_r, <- Nat2Z.inj_add, countb_or.
    + f_equal. apply countb_ext, Forall_forall. intros x _.
      destruct (Z.leb_spec 1 (v x)), (Z.leb_spec (v x) (Z.of_nat n)), (Z.leb_spec (v x) (Z.of_nat (S n))),
        (Z.eqb_spec (v x) (Z.of_nat (0 + n) + 1)); done || lia.
    + intros x Hx. apply andb_true_iff in Hx as [_ Hx%Z.leb_le]. apply Z.eqb_neq. lia.
Qed.


(** ** Evaluation *)

(** The indices the code computes in floating point for [n] points on [size]
    samples: in range, never decreasing, the last one the last sample. *)
Definition indices_ok (F : Type) `{Num F} (n size : Z) : bool :=
  forallb (fun i => let k := Z.of_nat i in
    (0 <=? eval_index (F:=F) n size k)%Z && (eval_index (F:=F) n size k <=? eval_index (F:=F) n size (k + 1))%Z)
    (seq 0 (Z.to_nat (n - 1)))
  && (eval_index (F:=F) n size (n - 1) =? size - 1)%Z.

Lemma indices_spec (F : Type) `{Num F} n size i j : indices_ok F n size = true ->
  (1 < n)%Z -> (0 <= i <= j)%Z -> (j < n)%Z ->
  (0 <= eval_index (F:=F) n size i <= eval_index (F:=F) n size j)%Z /\ (eval_index (F:=F) n size j <= size - 1)%Z.
Proof.
  intros [Hf Hl%Z.eqb_eq]%andb_true_iff Hn Hij Hj. rewrite forallb_forall in Hf.
  assert (forall k, (0 <= k < n - 1)%Z -> (0 <= eval_index (F:=F) n size k <= eval_index (F:=F) n size (k + 1))%Z) as Hstep.
  { intros k Hk. specialize (Hf (Z.to_nat k)). cbn zeta in Hf. rewrite Z2Nat.id in Hf by lia.
    assert (In (Z.to_nat k) (seq 0 (Z.to_nat (n - 1)))) as Hin by (apply in_seq; lia).
    apply Hf, andb_true_iff in Hin as [?%Z.leb_le ?%Z.leb_le]. lia. }
  assert (forall d k, (0 <= k)%Z -> (k + Z.of_nat d < n)%Z ->
    (eval_index (F:=F) n size k <= eval_index (F:=F) n size (k + Z.of_nat d))%Z) as Hmono.
  { induction d as [|d IH]; intros k Hk Hd; [by rewrite Z.add_0_r|].
    etrans; [apply (IH k); lia|]. pose proof (Hstep (k + Z.of_nat d)%Z ltac:(lia)) as Hs.
    replace (k + Z.of_nat (S d))%Z with (k + Z.of_nat d + 1)%Z by lia. lia. }
  pose proof (Hmono (Z.to_nat (j - i)) i ltac:(lia) ltac:(lia)) as H1.
  pose proof (Hmono (Z.to_nat (n - 1 - j)) j ltac:(lia) ltac:(lia)) as H2.
  pose proof (Hmono (Z.to_nat i) 0%Z ltac:(lia) ltac:(lia)) as H3. pose proof (Hstep 0%Z ltac:(lia)) as H4.
  replace (i + Z.of_nat (Z.to_nat (j - i)))%Z with j in H1 by lia.
  replace (j + Z.of_nat (Z.to_nat (n - 1 - j)))%Z with (n - 1)%Z in H2 by lia.
  replace (0 + Z.of_nat (Z.to_nat i))%Z with i in H3 by lia. lia.
Qed.
Lemma StronglySorted_seq {A} (R : A -> A -> Prop) (g : nat -> A) lo n :
  (forall i j, lo <= i < j -> j < lo + n -> R (g i) (g j)) -> StronglySorted R (map g (seq lo n)).
Proof.
  revert lo. induction n as [|n IH]; intros lo HR; cbn; [constructor|]. constructor.
  - apply IH. intros i j Hi Hj. apply HR; lia.
  - apply Forall_map, Forall_forall. intros j Hj%elem_of_seq. apply HR; lia.
Qed.
Lemma countz_perm {A} (p : A -> bool) (l1 l2 : list A) : l1 ≡ₚ l2 -> countz p l1 = countz p l2.
Proof. unfold countz. by intros ->. Qed.
Lemma countz_ext {A} (p q : A -> bool) (l : list A) : (forall x, p x = q x) -> countz p l = countz q l.
Proof. intros Hpq. unfold countz. f_equal. by apply countb_ext, Forall_true. Qed.
Lemma countz_mono {A} (p q : A -> bool) (l : list A) : (forall x, x ∈ l -> p x = true -> q x = true) ->
  (countz p l <= countz q l)%Z.
Proof.
  unfold countz. induction l as [|x l IH]; intros Hpq; [done|]. rewrite !countb_cons.
  pose proof (Hpq x ltac:(by left)). assert (forall y, y ∈ l -> p y = true -> q y = true) by (intros y Hy; apply Hpq; by right).
  specialize (IH ltac:(done)). destruct (p x), (q x); [lia|by discriminate H|lia..].
Qed.
Lemma countz_split {A} (p q : A -> bool) (l : list A) :
  countz p l = (countz (fun x => p x && q x) l + countz (fun x => p x && negb (q x)) l)%Z.
Proof. unfold countz. rewrite (countb_split p q). lia. Qed.

Section curve.
Context {F : Type} `{NumOrder F}.
Implicit Types (samples : list (EvalRow F)).

(** How two points of a curve compare: the later one has the lower threshold
    and at least as many positives. *)
Definition below (p q : EvalPoint F) : Prop :=
  (ep_threshold q <=? ep_threshold p)%num = true /\ (ep_ttp p <= ep_ttp q)%Z /\ (ep_tfp p <= ep_tfp q)%Z.
Lemma eval_point_below samples t u : (u <=? t)%num = true -> below (eval_point samples t) (eval_point samples u).
Proof.
  intros Hut. split; [done|]. split; cbn; apply countz_mono; intros e _ [Ht Hl]%andb_true_iff;
    apply andb_true_iff; split; eauto using nleb_trans.
Qed.

Definition by_error_desc (a b : EvalRow F) : bool := (ev_err b <? ev_err a)%num.
Lemma sorted_errors samples i j a b : Forall (fun e => nonnan (ev_err e)) samples -> i <= j ->
  std_sort by_error_desc samples !! i = Some a -> std_sort by_error_desc samples !! j = Some b ->
  (ev_err b <=? ev_err a)%num = true.
Proof.
  intros Hnn Hij Ha Hb.
  assert (Forall (fun e => nonnan (ev_err e)) (std_sort by_error_desc samples)) as Hall by (by rewrite (std_sort_perm by_error_desc)).
  rewrite Forall_lookup in Hall. pose proof (Hall _ _ Ha) as Na. pose proof (Hall _ _ Hb) as Nb. cbn in Na, Nb.
  destruct (decide (i = j)) as [->|Hne]; [assert (a = b) as -> by congruence; by apply nleb_refl|].
  apply nltb_false_nleb; [done..|].
  assert (StronglySorted (ordered by_error_desc) (std_sort by_error_desc samples)) as Hs.
  { apply (std_sort_sorted _ (fun e => nonnan (ev_err e))); [..|done]; unfold by_error_desc.
    - intros x y _ _. apply nltb_asym.
    - intros x y z Hx Hy Hz E1 E2. apply (nltb_false_nleb _ _ Hx Hy) in E1. apply (nltb_false_nleb _ _ Hy Hz) in E2.
      apply nleb_nltb_false. by eapply nleb_trans. }
  apply (StronglySorted_lookup _ _ i j a b Hs); [lia|done|done].
Qed.

Lemma eval_point_lowest samples t : (forall x, x ∈ samples -> (t <=? ev_err x)%num = true) ->
  ep_ttp (eval_point samples t) = countz ev_label samples /\
  ep_tfp (eval_point samples t) = countz (fun e => negb (ev_label e)) samples.
Proof.
  intros Hmin. cbn. split; (apply Z.le_antisymm; apply countz_mono; intros x Hx; [by intros [_ ?]%andb_true_iff|]);
    intros Hl; by rewrite Hmin.
Qed.

Lemma eval_curve_ok samples n : Forall (fun e => nonnan (ev_err e)) samples -> (1 < n)%Z ->
  (samples <> [] -> indices_ok F n (zlen samples) = true) ->
  let sorted := std_sort by_error_desc samples in
  exists curve, eval_curve sorted n = Ok curve /\
    zlen curve = (if decide (samples = []) then 0 else n)%Z /\
    Forall (fun p => exists e, e ∈ samples /\ p = eval_point samples (ev_err e)) curve /\
    StronglySorted below curve /\
    (forall p, last curve = Some p -> ep_ttp p = countz ev_label samples /\
       ep_tfp p = countz (fun e => negb (ev_label e)) samples).
Proof.
  intros Hnn Hn Hidx sorted. assert (sorted ≡ₚ samples) as Hperm by apply std_sort_perm.
  destruct (decide (samples = [])) as [->|Hne].
  { exists []. split_and!; [done|done|constructor|constructor|done]. }
  specialize (Hidx Hne). set (m := zlen samples).
  assert (zlen sorted = m) as Hm by (unfold zlen, m; by rewrite Hperm).
  set (idx i := Z.to_nat (eval_index (F:=F) n m (Z.of_nat i))).
  assert (0 < m)%Z as Hpos by (unfold m, zlen; destruct samples; [done|cbn; lia]).
  assert (forall i j, i <= j -> j < Z.to_nat n -> idx i <= idx j < length sorted) as Hi.
  { intros i j Hij Hj. destruct (indices_spec F n m (Z.of_nat i) (Z.of_nat j) Hidx) as [? ?]; [lia..|].
    unfold idx, zlen in *. lia. }
  assert (exists err, forall i, i < Z.to_nat n -> exists e, sorted !! idx i = Some e /\ err i = ev_err e) as [err Herr].
  { exists (fun i => default 0%num (ev_err <$> sorted !! idx i)). intros i Hlt.
    destruct (lookup_lt_is_Some_2 sorted (idx i)) as [e He]; [apply (Hi i i); lia|]. exists e. by rewrite He. }
  exists (map (fun i => eval_point samples (err i)) (seq 0 (Z.to_nat n))).
  assert (forall t, eval_point sorted t = eval_point samples t) as Hep.
  { intros t. unfold eval_point. f_equal; by apply countz_perm. }
  assert (eval_curve sorted n = mapR (fun i => match sorted !! idx i with
      | Some e => Ok (eval_point sorted (ev_err e)) | None => undefined "vector index out of range" end) (seq 0 (Z.to_nat n))) as ->.
  { unfold eval_curve, idx. rewrite Hm. destruct sorted; [cbn in Hm; unfold zlen in Hm; cbn in Hm; lia|done]. }
  split_and!.
  - pose proof (mapR_fmap (fun i => match sorted !! idx i with
      | Some e => Ok (eval_point sorted (ev_err e)) | None => undefined "vector index out of range" end) id
      (fun i => eval_point samples (err i)) (seq 0 (Z.to_nat n))) as Hmap.
    rewrite list_fmap_id in Hmap. apply Hmap. intros i Hlt%elem_of_seq.
    destruct (Herr i) as (e & He & ->); [lia|]. cbn. by rewrite He, Hep.
  - unfold zlen. rewrite length_map, length_seq. lia.
  - apply Forall_map, Forall_forall. intros i Hlt%elem_of_seq. destruct (Herr i) as (e & He & ->); [lia|].
    exists e. split; [|done]. rewrite <- Hperm. by apply list_elem_of_lookup_2 in He.
  - apply StronglySorted_seq. intros i j Hij Hj. apply eval_point_below.
    destruct (Herr i) as (a & Ha & ->); [lia|]. destruct (Herr j) as (b & Hb & ->); [lia|].
    apply (sorted_errors samples (idx i) (idx j)); [done|apply Hi; lia|done|done].
  - intros p Hp. replace (Z.to_nat n) with (S (Z.to_nat (n - 1))) in Hp by lia.
    rewrite seq_S, map_app in Hp. cbn [map Nat.add] in Hp. rewrite last_snoc in Hp. injection Hp as <-.
    destruct (Herr (Z.to_nat (n - 1))) as (e & He & ->); [lia|].
    assert (forall x, x ∈ samples -> (ev_err e <=? ev_err x)%num = true) as Hmin.
    { intros x Hx. rewrite <- Hperm in Hx. apply list_elem_of_lookup_1 in Hx as [j Hj].
      apply (sorted_errors samples j (idx (Z.to_nat (n - 1)))); [done| |done|done].
      apply andb_true_iff in Hidx as [_ Hl%Z.eqb_eq]. unfold idx. rewrite Z2Nat.id by lia. fold m in Hl. rewrite Hl.
      apply lookup_lt_Some in Hj. unfold zlen in Hm. lia. }
    by apply eval_point_lowest.
Qed.
End curve.


(** ** Instances *)
Definition no_filter : telemetry_filter := MkFilter "" "" "" "" "".

Lemma topk_lists_most_frequent_witness :
  exists out, @GetTopK float (pg_input_example float) (server_example float) even_call "ds" "host_id" 1 no_filter true
    (query_store 100 200) = Ok out /\ jfield "truncated" out = JBool false.
Proof.
  destruct (@topk_lists_most_frequent float _ (pg_input_example float) (server_example float) even_call "ds" "host_id" 1
    no_filter true (query_store 100 200) _ eq_refl eq_refl ltac:(lia) eq_refl eq_refl)
    as (out & top & Ho & _ & _ & _ & _ & _ & _ & Ht).
  exists out. split; [exact Ho|]. rewrite Ht. vm_compute. reflexivity.
Defined.


