(* ===== verification/TimeRange.v ===== *)
(** Time windows of the time-series route: src/src/time_resolution.h.

    A time point is a number of seconds since the epoch; [gmtime] and
    [put_time] are the standard library's, in the proleptic Gregorian calendar,
    the inverse of [Generator.timegm]. *)
From stdpp Require Import base list strings pretty.
From Stdlib Require Import ZArith Lia Ascii.
From S2P Require Import Prelude Strconv Generator.

Local Open Scope Z_scope.

(** ** Reading *)

(** [std::get_time] with "%Y-%m-%dT%H:%M:%S"; [None] when it sets failbit. *)
Definition read_iso (s : string) : option tm :=
  '(y, s) ← field_in 4 0 9999 (skip_ws s);
  '(mo, s) ← (s ← expect "-"%char s; field_in 2 1 12 s);
  '(d, s) ← (s ← expect "-"%char s; field_in 2 1 31 s);
  '(h, s) ← (s ← expect "T"%char s; field_in 2 0 23 s);
  '(mi, s) ← (s ← expect ":"%char s; field_in 2 0 59 s);
  '(sec, s) ← (s ← expect ":"%char s; field_in 2 0 60 s);
  Some (MkTm (y - 1900) (mo - 1) d h mi sec).
(** [if (trimmed.back() == 'Z') { trimmed.pop_back(); }]. *)
Fixpoint drop_z (s : string) : string :=
  match s with
  | "" => ""
  | String c "" => if Ascii.eqb c "Z"%char then "" else s
  | String c s' => String c (drop_z s')
  end%string.
Definition ParseIsoTime (iso : string) : option Z :=
  if (iso =? "")%string then None else timegm <$> read_iso (drop_z iso).

(** ** Writing *)
Definition civil_from_days (z : Z) : Z * Z * Z :=
  let z := z + 719468 in
  let era := z / 146097 in
  let doe := z mod 146097 in
  let yoe := (doe - doe / 1460 + doe / 36524 - doe / 146096) / 365 in
  let doy := doe - (365 * yoe + yoe / 4 - yoe / 100) in
  let mp := (5 * doy + 2) / 153 in
  let m := if mp <? 10 then mp + 3 else mp - 9 in
  (yoe + era * 400 + (if m <=? 2 then 1 else 0), m, doy - (153 * mp + 2) / 5 + 1).
Definition gmtime (t : Z) : tm :=
  let '(y, m, d) := civil_from_days (t / 86400) in
  let s := t mod 86400 in
  MkTm (y - 1900) (m - 1) d (s / 3600) (s mod 3600 / 60) (s mod 60).
Definition two_digits (n : Z) : string := ((if (n <? 10)%Z then "0" else "") +:+ pretty n)%string.
Definition put_time (t : tm) : string :=
  ((pretty (tm_year t + 1900)%Z +:+ "-" +:+ two_digits (tm_mon t + 1)%Z +:+ "-" +:+ two_digits (tm_mday t) +:+ "T"
   +:+ two_digits (tm_hour t) +:+ ":" +:+ two_digits (tm_min t) +:+ ":" +:+ two_digits (tm_sec t)) +:+ "Z")%string.
Definition FormatIsoTime (tp : Z) : string := put_time (gmtime tp).

(** ** Windows and resolutions *)
Definition PreviousPeriodWindow (start_time end_time : string) : option (string * string) :=
  match ParseIsoTime start_time, ParseIsoTime end_time with
  | Some start, Some finish =>
      if finish <=? start then None
      else let duration := finish - start in Some (FormatIsoTime (start - duration), FormatIsoTime start)
  | _, _ => None
  end.
Definition SelectBucketSeconds (start_time end_time : string) : Z :=
  match ParseIsoTime start_time, ParseIsoTime end_time with
  | Some start, Some finish =>
      let seconds := finish - start in
      if seconds <=? 6 * 3600 then 300
      else if seconds <=? 2 * 86400 then 3600
      else if seconds <=? 30 * 86400 then 21600
      else if seconds <=? 180 * 86400 then 86400
      else 604800
  | _, _ => 3600
  end.
Definition BucketLabel (bucket_seconds : Z) : string :=
  (if (bucket_seconds =? 300)%Z then "5m" else if (bucket_seconds =? 3600)%Z then "1h"
   else if (bucket_seconds =? 21600)%Z then "6h" else if (bucket_seconds =? 86400)%Z then "1d"
   else if (bucket_seconds =? 604800)%Z then "7d" else pretty bucket_seconds +:+ "s")%string.

Example window_week : PreviousPeriodWindow "2024-03-08T00:00:00Z" "2024-03-15T00:00:00" =
  Some ("2024-03-01T00:00:00Z", "2024-03-08T00:00:00Z")%string.
Proof. reflexivity. Qed.

(** ** Writing and reading back *)

(** A finite range of integers, by computation. *)
Fixpoint all_from (p : Z -> bool) (n : nat) (z : Z) : bool :=
  match n with O => true | S n => p z && all_from p n (z + 1) end.
Lemma Z_range_check (p : Z -> bool) lo hi :
  all_from p (Z.to_nat (hi - lo)) lo = true -> forall z, lo <= z < hi -> p z = true.
Proof.
  remember (Z.to_nat (hi - lo)) as n eqn:Hn. revert lo Hn. induction n as [|n IH]; intros lo Hn; [lia|].
  cbn [all_from]. intros [Hp Hall]%andb_true_iff z Hz.
  destruct (decide (z = lo)) as [->|]; [done|]. apply (IH (lo + 1)); [lia|done|lia].
Qed.

Fixpoint all_digits (s : string) : bool :=
  match s with "" => true | String c s' => is_digit c && all_digits s' end%string.
Definition prints_as (n : nat) (f : Z -> string) (z : Z) : bool :=
  (String.length (f z) =? n)%nat && all_digits (f z) && bool_decide (read_field n None (f z) = Some (z, ""%string)).

Lemma read_field_app n acc s rest v : String.length s = n -> all_digits s = true ->
  read_field n acc s = Some (v, ""%string) -> read_field n acc (s +:+ rest)%string = Some (v, rest).
Proof.
  revert acc s. induction n as [|n IH]; intros acc [|c s] Hlen Hd; cbn in *; try done.
  - destruct acc; cbn; [|done]. by intros [= ->].
  - apply andb_true_iff in Hd as [Hc Hd]. rewrite Hc. intros Hr.
    change (String c s +:+ rest)%string with (String c (s +:+ rest)%string). cbv iota. rewrite Hc.
    apply IH; [congruence|done|done].
Qed.
Lemma prints_as_field n f z lo hi rest : prints_as n f z = true -> lo <= z <= hi ->
  field_in n lo hi (f z +:+ rest)%string = Some (z, rest).
Proof.
  unfold prints_as. rewrite !andb_true_iff. intros [[Hlen Hd] Hr%bool_decide_eq_true] Hz.
  apply Nat.eqb_eq in Hlen. unfold field_in. rewrite (read_field_app n None _ rest z Hlen Hd Hr). cbn.
  replace ((lo <=? z) && (z <=? hi)) with true by lia. done.
Qed.
Lemma year_prints z : 1000 <= z <= 9999 -> prints_as 4 pretty z = true.
Proof. intros. apply (Z_range_check (prints_as 4 pretty) 1000 10000); [vm_compute; reflexivity|lia]. Qed.
Lemma two_digits_prints z : 0 <= z <= 99 -> prints_as 2 two_digits z = true.
Proof. intros. apply (Z_range_check (prints_as 2 two_digits) 0 100); [vm_compute; reflexivity|lia]. Qed.

(** The year of the era and the day of that year. *)
Lemma year_of_era doe : 0 <= doe <= 146096 ->
  let yoe := (doe - doe / 1460 + doe / 36524 - doe / 146096) / 365 in
  0 <= yoe <= 399 /\ 0 <= doe - (365 * yoe + yoe / 4 - yoe / 100) <= 365.
Proof.
  intros Hd. cbv zeta.
  assert (Hc : doe / 36524 = 0 \/ doe / 36524 = 1 \/ doe / 36524 = 2 \/ doe / 36524 = 3 \/ doe / 36524 = 4)
    by (Z.div_mod_to_equations; lia).
  assert (doe / 146096 = 0 \/ doe = 146096) as [He| ->] by (Z.div_mod_to_equations; lia);
    [|vm_compute; intuition congruence].
  rewrite He. destruct Hc as [Hc|[Hc|[Hc|[Hc|Hc]]]]; rewrite Hc; Z.div_mod_to_equations; lia.
Qed.
(** The month and the day of the month, counted from March. *)
Definition month_ok (doy : Z) : bool :=
  let mp := (5 * doy + 2) / 153 in
  let m := if mp <? 10 then mp + 3 else mp - 9 in
  let d := doy - (153 * mp + 2) / 5 + 1 in
  ((153 * (m + (if 2 <? m then -3 else 9)) + 2) / 5 + d - 1 =? doy)
  && (1 <=? m) && (m <=? 12) && (1 <=? d) && (d <=? 31).
Lemma month_ok_all doy : 0 <= doy <= 365 -> month_ok doy = true.
Proof. intros. apply (Z_range_check month_ok 0 366); [vm_compute; reflexivity|lia]. Qed.

Lemma civil_ok z : let '(y, m, d) := civil_from_days z in
  days_from_civil y m d = z /\ 1 <= m <= 12 /\ 1 <= d <= 31.
Proof.
  unfold civil_from_days. set (era := (z + 719468) / 146097). set (doe := (z + 719468) mod 146097).
  pose proof (Z.mod_pos_bound (z + 719468) 146097 ltac:(lia)) as Hdoe. fold doe in Hdoe.
  assert (Hz : z + 719468 = 146097 * era + doe) by (apply Z.div_mod; lia).
  pose proof (year_of_era doe ltac:(lia)) as [Hyoe Hdoy]. cbv zeta in *.
  set (yoe := (doe - doe / 1460 + doe / 36524 - doe / 146096) / 365) in *.
  set (doy := doe - (365 * yoe + yoe / 4 - yoe / 100)) in *.
  pose proof (month_ok_all doy Hdoy) as Hm. unfold month_ok in Hm.
  set (mp := (5 * doy + 2) / 153) in *. set (m := if mp <? 10 then mp + 3 else mp - 9) in *.
  set (d := doy - (153 * mp + 2) / 5 + 1) in *.
  rewrite !andb_true_iff in Hm. destruct Hm as [[[[Hd Hm1] Hm2] Hd1] Hd2]. apply Z.eqb_eq in Hd.
  split; [|lia]. unfold days_from_civil.
  replace (if m <=? 2 then yoe + era * 400 + (if m <=? 2 then 1 else 0) - 1
           else yoe + era * 400 + (if m <=? 2 then 1 else 0)) with (yoe + era * 400) by (destruct (m <=? 2); lia).
  rewrite Z.div_add, (Z.div_small yoe) by lia. cbv zeta. rewrite Hd.
  replace (yoe + era * 400 - (0 + era) * 400) with yoe by lia. unfold doy. lia.
Qed.

(** The year a time falls in; the years that print as four digits. *)
Definition year_of (t : Z) : Z := (civil_from_days (t / 86400)).1.1.
Definition four_digit_year (t : Z) : Prop := 1000 <= year_of t <= 9999.

Lemma gmtime_ok t : let g := gmtime t in
  timegm g = t /\ tm_year g + 1900 = year_of t /\ 1 <= tm_mon g + 1 <= 12 /\ 1 <= tm_mday g <= 31 /\
  0 <= tm_hour g <= 23 /\ 0 <= tm_min g <= 59 /\ 0 <= tm_sec g <= 59.
Proof.
  cbv zeta. unfold gmtime, year_of, timegm. pose proof (civil_ok (t / 86400)) as Hc.
  destruct (civil_from_days (t / 86400)) as [[y m] d]. cbn [tm_year tm_mon tm_mday tm_hour tm_min tm_sec fst].
  destruct Hc as (Hd & Hm & Hmd).
  replace (y - 1900 + 1900) with y by lia. replace (m - 1 + 1) with m by lia.
  rewrite Hd.
  pose proof (Z.mod_pos_bound t 86400 ltac:(lia)). set (s := t mod 86400) in *.
  assert (t = 86400 * (t / 86400) + s) by (apply Z.div_mod; lia).
  assert (s = 3600 * (s / 3600) + s mod 3600) by (apply Z.div_mod; lia).
  pose proof (Z.mod_pos_bound s 3600 ltac:(lia)). set (r := s mod 3600) in *.
  assert (r = 60 * (r / 60) + r mod 60) by (apply Z.div_mod; lia).
  pose proof (Z.mod_pos_bound r 60 ltac:(lia)).
  assert (s mod 60 = r mod 60) as ->
    by (unfold r; rewrite Z.mod_mod_divide; [done|by exists 60]).
  split_and!; lia.
Qed.

Lemma drop_z_snoc s : drop_z (s +:+ "Z")%string = s.
Proof.
  induction s as [|c s IH]; [done|]. change ((String c s +:+ "Z")%string) with (String c (s +:+ "Z")%string).
  cbn [drop_z]. destruct (s +:+ "Z")%string eqn:E; [by destruct s|]. by rewrite IH.
Qed.
Lemma skip_ws_year z rest : 1000 <= z <= 9999 -> skip_ws (pretty z +:+ rest)%string = (pretty z +:+ rest)%string.
Proof.
  intros Hz. pose proof (year_prints z Hz) as Hp. unfold prints_as in Hp.
  rewrite !andb_true_iff in Hp. destruct Hp as [[Hlen Hd] _].
  destruct (pretty z) as [|c s]; [done|]. cbn in Hd. apply andb_true_iff in Hd as [Hd _].
  change (String c s +:+ rest)%string with (String c (s +:+ rest)%string). cbn [skip_ws].
  assert (is_ws c = false) as ->; [|done].
  unfold is_digit, is_ws in *. cbv zeta in *. apply andb_true_iff in Hd as [Hd _]. apply N.leb_le in Hd.
  repeat (apply orb_false_iff; split); rewrite ?N.eqb_neq; [lia|]. apply andb_false_iff. right. apply N.leb_gt. lia.
Qed.

Lemma expect_two_digits c lo hi z rest : 0 <= z <= 99 -> lo <= z <= hi ->
  (s ← expect c (String c "" +:+ two_digits z +:+ rest)%string; field_in 2 lo hi s) = Some (z, rest).
Proof.
  intros Hz Hr. change (String c "" +:+ ?s)%string with (String c s). cbn [expect]. rewrite Ascii.eqb_refl.
  cbn [mbind option_bind]. apply prints_as_field; [by apply two_digits_prints|done].
Qed.
Lemma read_put_time g : 1000 <= tm_year g + 1900 <= 9999 -> 1 <= tm_mon g + 1 <= 12 -> 1 <= tm_mday g <= 31 ->
  0 <= tm_hour g <= 23 -> 0 <= tm_min g <= 59 -> 0 <= tm_sec g <= 59 ->
  read_iso (drop_z (put_time g)) = Some g.
Proof.
  intros Hy Hm Hd Hh Hmi Hs. unfold put_time. rewrite drop_z_snoc. unfold read_iso. rewrite skip_ws_year by done.
  rewrite (prints_as_field 4 pretty) by (first [apply year_prints; lia | lia]).
  rewrite <- (string_app_nil (two_digits (tm_sec g))).
  repeat (cbn [mbind option_bind]; rewrite expect_two_digits by lia).
  cbn [mbind option_bind]. f_equal. destruct g as [y mo d h mi s].
  cbn [tm_year tm_mon tm_mday tm_hour tm_min tm_sec]. f_equal; lia.
Qed.

Lemma put_time_nonempty g : (put_time g =? "")%string = false.
Proof. apply String.eqb_neq. unfold put_time. by destruct (pretty (tm_year g + 1900) +:+ _)%string. Qed.
Lemma format_parse t : four_digit_year t -> ParseIsoTime (FormatIsoTime t) = Some t.
Proof.
  unfold four_digit_year. intros Hy. pose proof (gmtime_ok t) as (Ht&Hyear&Hr).
  unfold ParseIsoTime, FormatIsoTime. rewrite put_time_nonempty, read_put_time by lia.
  cbn [fmap option_fmap option_map]. by rewrite Ht.
Qed.

(** The baseline of a comparison is the period just before the window: it
    is offered exactly when both ends are given and in order, it has the same
    length, ends where the window starts, and reads back as those times.  The
    resolution chosen for a window has a label of its own and cuts a window of
    up to 1260 days into at most 180 buckets. *)
Theorem previous_period_precedes_window (start_time end_time : string) :
  (forall b, PreviousPeriodWindow start_time end_time = Some b ->
     exists s f, ParseIsoTime start_time = Some s /\ ParseIsoTime end_time = Some f /\ s < f /\
       (four_digit_year (s - (f - s)) -> four_digit_year s ->
        ParseIsoTime b.1 = Some (s - (f - s)) /\ ParseIsoTime b.2 = Some s)) /\
  (PreviousPeriodWindow start_time end_time = None <->
     forall s f, ParseIsoTime start_time = Some s -> ParseIsoTime end_time = Some f -> f <= s) /\
  BucketLabel (SelectBucketSeconds start_time end_time) ∈ ["5m"; "1h"; "6h"; "1d"; "7d"]%string /\
  (forall s f, ParseIsoTime start_time = Some s -> ParseIsoTime end_time = Some f -> f - s <= 1260 * 86400 ->
     f - s <= 180 * SelectBucketSeconds start_time end_time).
Proof.
  unfold PreviousPeriodWindow, SelectBucketSeconds.
  destruct (ParseIsoTime start_time) as [s|]; [destruct (ParseIsoTime end_time) as [f|]|].
  - split_and!.
    + intros b Hb. destruct (f <=? s) eqn:E; [done|]. injection Hb as <-. exists s, f.
      split_and!; [done|done|lia|]. intros. cbn [fst snd]. by rewrite !format_parse.
    + destruct (f <=? s) eqn:E; split; try done; [intros _ s' f' [= <-] [= <-]; lia|].
      intros Hle. specialize (Hle s f eq_refl eq_refl). lia.
    + repeat case_match; by_deciding.
    + intros s' f' [= <-] [= <-] Hle. repeat case_match; lia.
  - split_and!; [done|done|by_deciding|done].
  - split_and!; [done|done|by_deciding|done].
Qed.
