(* ===== verification/Http.v ===== *)
(** The HTTP side of the API server (src/src/api_server.cpp): requests and
    their parameters, responses, error codes (src/src/obs/error_codes.h) and
    the metadata blocks (src/src/api_response_meta.h, src/src/api_debug.h).

    The HTTP library parses requests and sends responses; a response is its
    status and the JSON value whose dump is its body. *)
From stdpp Require Import base strings list.
From Stdlib Require Import ZArith Lia.
From S2P Require Import Prelude Strconv Num Json Sql DbClient Workers Queries TimeRange.

Local Open Scope string_scope.

(** ** Error codes *)
Definition kErrHttpBadRequest : string := "E_HTTP_BAD_REQUEST".
Definition kErrHttpNotFound : string := "E_HTTP_NOT_FOUND".
Definition kErrHttpInvalidArgument : string := "E_HTTP_INVALID_ARGUMENT".
Definition kErrHttpResourceExhausted : string := "E_HTTP_RESOURCE_EXHAUSTED".
Definition kErrHttpGrpcError : string := "E_HTTP_GRPC_ERROR".
Definition kErrDbConnectFailed : string := "E_DB_CONNECT_FAILED".
Definition kErrDbQueryFailed : string := "E_DB_QUERY_FAILED".
Definition kErrDbInsertFailed : string := "E_DB_INSERT_FAILED".
Definition kErrTrainNoData : string := "E_TRAIN_NO_DATA".
Definition kErrTrainArtifactWriteFailed : string := "E_TRAIN_ARTIFACT_WRITE_FAILED".
Definition kErrModelLoadFailed : string := "E_MODEL_LOAD_FAILED".
Definition kErrInternal : string := "E_INTERNAL".
Definition kErrHttpMissingField : string := "E_HTTP_MISSING_FIELD".
Definition kErrHttpJsonParseError : string := "E_HTTP_JSON_PARSE_ERROR".

(** [s.find(sub) != std::string::npos]. *)
Definition has (sub s : string) : bool := bool_decide (is_Some (String.index 0 sub s)).

Definition ClassifyHttpError (e : exn) : string :=
  match exn_class e with
  | JsonParseError => kErrHttpJsonParseError
  | JsonOutOfRange => kErrHttpMissingField
  | InvalidArgument => kErrHttpInvalidArgument
  | StdOutOfRange => kErrHttpInvalidArgument
  | PqBrokenConnection => kErrDbConnectFailed
  | PqSqlError => kErrDbQueryFailed
  | _ => if has "count must be" (exn_what e) || has "Must be" (exn_what e) || has "Too many" (exn_what e)
         then kErrHttpInvalidArgument else kErrInternal
  end.
(** The codes a handler turns into 400. *)
Definition client_error (code : string) : bool :=
  existsb (String.eqb code)
    [kErrHttpJsonParseError; kErrHttpMissingField; kErrHttpInvalidArgument; kErrHttpBadRequest].
Definition ClassifyTrainError (msg : string) : string :=
  if has "Cancelled" msg then "E_CANCELLED"
  else if has "Not enough samples" msg || has "No samples" msg then kErrTrainNoData
  else if has "Failed to open output path" msg then kErrTrainArtifactWriteFailed
  else kErrInternal.

(** ** Requests *)

(** [q_matches] are the groups of the route's pattern, from 1. *)
Record Request := MkRequest {
  q_params : list (string * string); q_matches : list string; q_body : string; q_request_id : option string }.

(** What a request meets: the id the server would draw for it, the clock, the
    time the work takes, and how [std::stod] reads a number ([None] when it
    throws). *)
Record HttpEnv (F : Type) := MkHttp {
  fresh_uuid : string; clock_s : Z; elapsed_ms : F; stod : string -> option F }.
Arguments MkHttp {F} fresh_uuid clock_s elapsed_ms stod.
Arguments fresh_uuid {F} h.
Arguments clock_s {F} h.
Arguments elapsed_ms {F} h.
Arguments stod {F} h.

Definition param (req : Request) (key : string) : option string :=
  snd <$> head (filter (fun kv => kv.1 = key) (q_params req)).
Definition GetStrParam (req : Request) (key : string) : string := default "" (param req key).
Definition GetIntParam (req : Request) (key : string) (def : Z) : Z :=
  match param req key with
  | None => def
  | Some s => match stoi s with Ok v => v | Throw _ => def end
  end.
Definition match_ (i : nat) (req : Request) : string := nth (i - 1) (q_matches req) "".

Section http.
Context {F : Type} `{Num F}.
Context (http : HttpEnv F).

Definition GetDoubleParam (req : Request) (key : string) (def : F) : F :=
  match param req key with None => def | Some s => default def (stod http s) end.
Definition GetRequestId (req : Request) : string := default (fresh_uuid http) (q_request_id req).
Definition FormatServerTime : json F := JStr (FormatIsoTime (clock_s http)).

(** ** Responses *)
Record Response := MkResponse { r_status : Z; r_body : json F }.

Definition SendJson (j : json F) (status : Z) (request_id : string) : res Response :=
  j ← (if negb (request_id =? "") && negb (jcontains j "request_id")
       then jset "request_id" (JStr request_id) j else Ok j);
  Ok (MkResponse status j).
Definition error_json (message code request_id : string) : json F :=
  obj [("error", obj ([("message", JStr message); ("code", JStr code)]
                      ++ if (request_id =? "") then [] else [("request_id", JStr request_id)]))].
Definition SendError (message : string) (status : Z) (code request_id : string) : res Response :=
  SendJson (error_json message code request_id) status request_id.

(** ** JSON helpers *)

(** [j.size()]. *)
Definition jsize (j : json F) : Z :=
  match j with JNull => 0 | JArr l => zlen l | JObj l => zlen l | _ => 1 end.
Definition get_bool (j : json F) : res bool :=
  match j with JBool b => Ok b | _ => type_must_be "boolean" end.
Definition get_json (j : json F) : res (json F) := Ok j.
(** [j.at(key)]. *)
Definition jat (k : string) (j : json F) : res (json F) :=
  match j with
  | JObj l => match obj_lookup k l with
              | Some v => Ok v
              | None => Throw (Exn JsonOutOfRange ("key '" +:+ k +:+ "' not found"))
              end
  | _ => json_type_error "cannot use at()"
  end.
(** [nlohmann::json::parse(req.body)], the parser being the library's. *)
Definition parse_request (parse_body : string -> option (json F)) (req : Request) : res (json F) :=
  match parse_body (q_body req) with
  | Some j => Ok j
  | None => Throw (Exn JsonParseError "[json.exception.parse_error]")
  end.
(** The elements a range-based for loop visits. *)
Definition jelements (j : json F) : list (json F) :=
  match j with JNull => [] | JArr l => l | JObj l => l.*2 | _ => [j] end.
(** [j["meta"][k] = v] for each pair. *)
Definition set_meta (l : list (string * json F)) (j : json F) : res (json F) :=
  fold_res (fun j kv => jset2 "meta" kv.1 kv.2 j) j l.

(** ** Metadata blocks *)
Definition IsTruncated (returned limit : Z) (total_distinct : option Z) : bool :=
  if (returned <=? 0)%Z || (limit <=? 0)%Z then false
  else match total_distinct with Some n => (returned <? n)%Z | None => false end.
Record ResponseMetaArgs := MkMeta {
  m_limit : Z; m_returned : Z; m_truncated : bool; m_total_distinct : option Z; m_reason : string;
  m_bins_requested : option Z; m_bins_returned : option Z }.
Definition opt_field (k : string) (o : option Z) : list (string * json F) :=
  match o with Some z => [(k, JInt z)] | None => [] end.
Definition BuildResponseMeta (a : ResponseMetaArgs) : list (string * json F) :=
  [("limit", JInt (m_limit a)); ("returned", JInt (m_returned a)); ("truncated", JBool (m_truncated a));
   ("total_distinct", match m_total_distinct a with Some n => JInt n | None => JNull end);
   ("reason", JStr (m_reason a))]
  ++ opt_field "bins_requested" (m_bins_requested a) ++ opt_field "bins_returned" (m_bins_returned a).
Definition BuildDebugMeta (duration_ms : F) (row_count : Z) (resolved : json F) : json F :=
  obj ([("duration_ms", JNum duration_ms); ("row_count", JInt row_count)]
       ++ if json_empty resolved then [] else [("resolved", resolved)]).

(** The timing fields of a metadata block. *)
Definition timing (req : Request) (rows_returned : Z) : list (string * json F) :=
  [("server_time", FormatServerTime); ("duration_ms", JNum (elapsed_ms http)); ("rows_scanned", JNull);
   ("rows_returned", JInt rows_returned); ("cache_hit", JBool false); ("request_id", JStr (GetRequestId req))].

(** An error response is an object of its own: sending it never throws. *)
Lemma SendJson_obj l status rid : exists b, SendJson (JObj l) status rid = Ok (MkResponse status b).
Proof. unfold SendJson. destruct (negb _ && negb _); [cbn|]; eauto. Qed.
Lemma SendError_ok message status code rid : exists b, SendError message status code rid = Ok (MkResponse status b).
Proof. apply SendJson_obj. Qed.
End http.
Arguments Response F : clear implicits.

(** A handler runs its calls against the store and sends one response. *)
Definition handler (F : Type) : Type := Request -> api (Store F) (Response F).
