(* ===== verification/Handlers.v ===== *)
(** The request handlers of src/src/api_server.cpp that read: datasets, models,
    scores, jobs and their analytics, each as one run against the store whose
    calls may fail, with the catch clauses that turn an exception into an
    error response.  GetRun of src/src/server.cpp is what HandleGetDataset
    falls back to. *)
From stdpp Require Import base gmap strings list.
From Stdlib Require Import ZArith Lia Ascii.
From S2P Require Import Prelude Strconv Num Json Sql DbClient Workers Queries Analytics TimeRange Http.

Local Open Scope string_scope.
Local Open Scope list_scope.

Section handlers.
Context {F : Type} `{Num F} `{Postgres} `{PgInput F} `{Server F} `{Aggregates F}.
Context (env : ApiEnv) (http : HttpEnv F).
(** The message of the gRPC status when a call to the generation service does
    not go through. *)
Context (rpc_error : option string).
Abbreviation W := (Store F).
Implicit Types (req : Request).

(** Two calls of the client, the second made inside the first. *)
Definition db_read2 {A} (f : Call -> Call -> W -> res A) : api W A := fun st =>
  (MkApi (S (S (calls st))) (reads st) (world st),
   f (db_env env (calls st)) (db_env env (S (calls st))) (world st)).

(** ** The two ways of answering an exception *)
Definition db_error (rid : string) (e : exn) : api W (Response F) :=
  lift (SendError (exn_what e) 500 kErrDbQueryFailed rid).
Definition invalid_or_db_error (rid : string) (e : exn) : api W (Response F) :=
  if bool_decide (exn_class e = InvalidArgument)
  then lift (SendError (exn_what e) 400 kErrHttpInvalidArgument rid) else db_error rid e.

Definition is_true (req : Request) (key : string) : bool := (GetStrParam req key =? "true")%string.
Definition page (items : json F) (limit offset : Z) : json F :=
  obj [("items", items); ("limit", JInt limit); ("offset", JInt offset)].
Definition not_found (what rid : string) : api W (Response F) := lift (SendError what 404 kErrHttpNotFound rid).

(** ** Datasets *)
Definition HandleListDatasets req : api W (Response F) :=
  let rid := GetRequestId http req in
  let limit := GetIntParam req "limit" 50 in
  let offset := GetIntParam req "offset" 0 in
  try_catch
    (runs ← db_read env (fun c => ListGenerationRuns c limit offset (GetStrParam req "status")
                                    (GetStrParam req "created_from") (GetStrParam req "created_to"));
     lift (SendJson (page runs limit offset) 200 rid))
    (db_error rid).

(** TelemetryServiceImpl::GetRun. *)
Definition GetRun (run_id : string) : api W (RunStatus + string) :=
  match rpc_error with
  | Some msg => mret (inr msg)
  | None => st ← db_ask env (fun c => GetRunStatus c run_id); mret (inl st)
  end.
Definition HandleGetDataset req : api W (Response F) :=
  let rid := GetRequestId http req in
  let run_id := match_ 1 req in
  sent ← try_catch
    (detail ← db_read env (fun c => GetDatasetDetail c run_id);
     if json_empty detail then mret None
     else r ← lift (SendJson detail 200 rid); mret (Some r))
    (fun _ => mret None);
  match sent with
  | Some r => mret r
  | None =>
      g_res ← GetRun run_id;
      match g_res with
      | inl s => lift (SendJson (obj [("run_id", JStr (rs_run_id s)); ("status", JStr (rs_status s));
                                      ("rows_inserted", JInt (rs_inserted_rows s)); ("error", JStr (rs_error s))]) 200 rid)
      | inr msg => lift (SendError ("gRPC Error: " +:+ msg) 404 kErrHttpNotFound rid)
      end
  end.

Definition HandleDatasetSummary req : api W (Response F) :=
  let rid := GetRequestId http req in
  let topk := GetIntParam req "topk" 5 in
  try_catch
    (summary ← db_read env (fun c => GetDatasetSummary c (match_ 1 req) topk);
     if json_empty summary then not_found "Dataset not found" rid else
     summary ← lift (set_meta [("duration_ms", JNum (elapsed_ms http)); ("rows_scanned", JNull); ("rows_returned", JInt 1);
                               ("cache_hit", JBool false); ("request_id", JStr rid)] summary);
     summary ← lift (if is_true req "debug" then
                       row_count ← jvalue get_long "row_count" 0%Z summary;
                       jset "debug" (BuildDebugMeta (elapsed_ms http) row_count (JObj [])) summary
                     else Ok summary);
     summary ← lift (jset2 "meta" "server_time" (FormatServerTime http) summary);
     lift (SendJson summary 200 rid))
    (db_error rid).

Definition request_filter req : telemetry_filter :=
  MkFilter (GetStrParam req "region") (GetStrParam req "is_anomaly") (GetStrParam req "anomaly_type")
    (GetStrParam req "start_time") (GetStrParam req "end_time").
Definition window_meta req : list (string * json F) :=
  [("start_time", JStr (GetStrParam req "start_time")); ("end_time", JStr (GetStrParam req "end_time"))].
Definition opt_debug req (row_count : Z) (resolved : json F) : list (string * json F) :=
  if is_true req "debug" then [("debug", BuildDebugMeta (elapsed_ms http) row_count resolved)] else [].

Definition HandleDatasetTopK req : api W (Response F) :=
  let rid := GetRequestId http req in
  let column := GetStrParam req "column" in
  let k := GetIntParam req "k" 10 in
  if negb (existsb (String.eqb column) ["region"; "project_id"; "host_id"; "anomaly_type"])
  then lift (SendError "Invalid column" 400 kErrHttpInvalidArgument rid) else
  try_catch
    (data_obj ← db_read env (fun c => GetTopK c (match_ 1 req) column k (request_filter req)
                                        (is_true req "include_total_distinct"));
     items ← lift (jget data_obj "items");
     total_distinct ← lift (if jcontains data_obj "total_distinct"
                            then v ← jget data_obj "total_distinct"; n ← get_long v; Ok (Some n) else Ok None);
     truncated ← lift (jvalue get_bool "truncated" false data_obj);
     let truncated := if jcontains data_obj "truncated" then truncated
                      else IsTruncated (jsize items) k total_distinct in
     lift (SendJson (obj ([("items", items);
       ("meta", obj (BuildResponseMeta (MkMeta k (jsize items) truncated total_distinct "top_k_limit" None None)
                     ++ window_meta req ++ timing http req (jsize items)))]
       ++ opt_debug req (jsize items) (obj [("column", JStr column)]))) 200 rid))
    (invalid_or_db_error rid).

(** [while (std::getline(ss, token, ',')) { if (!token.empty()) ... }]. *)
Fixpoint tokens_from (token s : string) : list string :=
  match s with
  | "" => if (token =? "")%string then [] else [token]
  | String c s' =>
      if Ascii.eqb c ","%char then (if (token =? "")%string then [] else [token]) ++ tokens_from "" s'
      else tokens_from (token +:+ String c "") s'
  end.
Definition tokens (s : string) : list string := tokens_from "" s.
Definition bucket_of (bucket start_time end_time : string) : Z :=
  (if (bucket =? "1m")%string then 60 else if (bucket =? "5m")%string then 300 else if (bucket =? "15m")%string then 900
   else if (bucket =? "1h")%string then 3600 else if (bucket =? "6h")%string then 21600 else if (bucket =? "1d")%string then 86400
   else if (bucket =? "7d")%string then 604800
   else if (bucket =? "")%string || (bucket =? "auto")%string then SelectBucketSeconds start_time end_time
   else 3600)%Z.
Definition strings (l : list string) : json F := JArr (JStr <$> l).

Definition HandleDatasetTimeSeries req : api W (Response F) :=
  let rid := GetRequestId http req in
  let run_id := match_ 1 req in
  let compare_mode := GetStrParam req "compare_mode" in
  let start_time := GetStrParam req "start_time" in
  let end_time := GetStrParam req "end_time" in
  let invalid msg := lift (SendError msg 400 kErrHttpInvalidArgument rid) in
  let metrics := tokens (GetStrParam req "metrics") in
  if bool_decide (metrics = []) then invalid "metrics required" else
  if negb (compare_mode =? "")%string && negb (compare_mode =? "previous_period")%string
  then invalid "compare_mode must be previous_period" else
  let aggs := tokens (if (GetStrParam req "aggs" =? "")%string then "mean" else GetStrParam req "aggs") in
  let bucket_seconds := bucket_of (GetStrParam req "bucket") start_time end_time in
  let baseline_window := if (compare_mode =? "previous_period")%string
                         then PreviousPeriodWindow start_time end_time else None in
  if (compare_mode =? "previous_period")%string && bool_decide (baseline_window = None)
  then invalid "compare_mode requires start_time and end_time" else
  try_catch
    (data ← db_read env (fun c => GetTimeSeries c run_id metrics aggs bucket_seconds (request_filter req));
     baseline ← match baseline_window with
       | None => mret JNull
       | Some (b_start, b_end) => db_read env (fun c => GetTimeSeries c run_id metrics aggs bucket_seconds
           (MkFilter (GetStrParam req "region") (GetStrParam req "is_anomaly") (GetStrParam req "anomaly_type") b_start b_end))
       end;
     lift (SendJson (obj
       ([("items", data); ("bucket_seconds", JInt bucket_seconds);
         ("meta", obj (window_meta req
            ++ [("bucket_seconds", JInt bucket_seconds); ("resolution", JStr (BucketLabel bucket_seconds))]
            ++ match baseline_window with
               | None => []
               | Some (b_start, b_end) => [("compare_mode", JStr compare_mode); ("baseline_start_time", JStr b_start);
                                           ("baseline_end_time", JStr b_end)]
               end
            ++ timing http req (jsize data)))]
        ++ match baseline_window with None => [] | Some _ => [("baseline", baseline)] end
        ++ opt_debug req (jsize data) (obj [("metrics", strings metrics); ("aggs", strings aggs);
                                            ("bucket_seconds", JInt bucket_seconds)]))) 200 rid))
    (invalid_or_db_error rid).

Definition HandleDatasetHistogram req : api W (Response F) :=
  let rid := GetRequestId http req in
  let metric := GetStrParam req "metric" in
  if (metric =? "")%string then lift (SendError "metric required" 400 kErrHttpInvalidArgument rid) else
  let bins := GetIntParam req "bins" 40 in
  let minmax := (GetStrParam req "range" =? "minmax")%string in
  let min_val := if minmax then 0%num else GetDoubleParam http req "min" 0%num in
  let max_val := if minmax then 0%num else GetDoubleParam http req "max" 0%num in
  try_catch
    (data ← db_read env (fun c => GetHistogram c (match_ 1 req) metric bins min_val max_val (request_filter req));
     requested_bins ← lift (jvalue get_int "requested_bins" bins data);
     counts ← lift (jvalue get_json "counts" (JArr []) data);
     let returned_bins := jsize counts in
     let truncated := (returned_bins <? requested_bins)%Z in
     data ← lift (jset "meta" (obj (BuildResponseMeta (MkMeta requested_bins returned_bins truncated None
              (if truncated then "max_bins_cap" else "histogram_bins") (Some requested_bins) (Some returned_bins))
              ++ window_meta req ++ timing http req returned_bins)) data);
     data ← lift (if is_true req "debug" then
                    jset "debug" (BuildDebugMeta (elapsed_ms http) returned_bins
                      (obj [("metric", JStr metric); ("bins", JInt bins); ("min", JNum min_val); ("max", JNum max_val)])) data
                  else Ok data);
     lift (SendJson data 200 rid))
    (invalid_or_db_error rid).

Definition request_search req : search :=
  MkSearch (GetStrParam req "start_time") (GetStrParam req "end_time") (GetStrParam req "is_anomaly")
    (GetStrParam req "anomaly_type") (GetStrParam req "host_id") (GetStrParam req "region")
    (GetStrParam req "sort_by") (GetStrParam req "sort_order") (GetStrParam req "anchor_time").
Definition HandleGetDatasetSamples req : api W (Response F) :=
  let rid := GetRequestId http req in
  try_catch
    (data ← db_read env (fun c => SearchDatasetRecords c (match_ 1 req) (GetIntParam req "limit" 20)
                                    (GetIntParam req "offset" 0) (request_search req));
     lift (SendJson data 200 rid))
    (invalid_or_db_error rid).

(** The record id is read before the [try]. *)
Definition HandleGetDatasetRecord req : api W (Response F) :=
  let rid := GetRequestId http req in
  record_id ← lift (stol (match_ 2 req));
  try_catch
    (data ← db_ask env (fun c => GetDatasetRecord c (match_ 1 req) record_id);
     if json_empty data then not_found "Record not found" rid else lift (SendJson data 200 rid))
    (db_error rid).

Definition HandleGetDatasetMetricStats req : api W (Response F) :=
  let rid := GetRequestId http req in
  try_catch
    (data ← db_read env (fun c => GetMetricStats c (match_ 1 req) (match_ 2 req)); lift (SendJson data 200 rid))
    (invalid_or_db_error rid).
Definition HandleGetDatasetMetricsSummary req : api W (Response F) :=
  let rid := GetRequestId http req in
  try_catch
    (data ← db_read env (fun c => GetDatasetMetricsSummary c (match_ 1 req)); lift (SendJson data 200 rid))
    (db_error rid).
Definition HandleGetDatasetModels req : api W (Response F) :=
  let rid := GetRequestId http req in
  try_catch
    (data ← db_ask env (fun c => GetModelsForDataset c (match_ 1 req)); lift (SendJson data 200 rid))
    (db_error rid).

(** ** Models *)
Definition HandleGetTrainStatus req : api W (Response F) :=
  let rid := GetRequestId http req in
  j ← db_ask env (fun c => GetModelRun c (match_ 1 req));
  if json_empty j then not_found "Model run not found" rid else lift (SendJson j 200 rid).

Definition HandleGetModelScoredDatasets req : api W (Response F) :=
  let rid := GetRequestId http req in
  try_catch
    (data ← db_ask env (fun c => GetScoredDatasetsForModel c (match_ 1 req)); lift (SendJson data 200 rid))
    (db_error rid).

(** GET /models/:id/trials. *)
Definition HandleGetTrials req : api W (Response F) :=
  let rid := GetRequestId http req in
  let limit := GetIntParam req "limit" 50 in
  let offset := GetIntParam req "offset" 0 in
  try_catch
    (trials ← db_ask env (fun c => GetHpoTrialsPaginated c (match_ 1 req) limit offset);
     lift (SendJson (obj [("items", trials); ("limit", JInt limit); ("offset", JInt offset);
                          ("returned", JInt (jsize trials))]) 200 rid))
    (db_error rid).

(** The fields of [HandleListModels]: null when missing. *)
Definition or_null (k : string) (m : json F) : res (json F) := if jcontains m k then Ok m else jset k JNull m.
Definition is_root (m : json F) : res bool := p ← jget m "parent_run_id"; Ok (jis_null p).
Definition model_id (m : json F) : res string := v ← jget m "model_run_id"; get_string v.
Fixpoint root_ids (models : list (json F)) : res (list string) :=
  match models with
  | [] => Ok []
  | m :: models' =>
      root ← is_root m;
      ids ← (if (root : bool) then id ← model_id m; Ok [id] else Ok []);
      rest ← root_ids models'; Ok (ids ++ rest)
  end.
(** The status of a tuning run as its trials show it. *)
Definition aggregate_status (running pending completed failed : Z) : option string :=
  if ((0 <? running) || (0 <? pending))%Z%bool then Some "RUNNING"
  else if (0 <? completed)%Z then Some "COMPLETED"
  else if (0 <? failed)%Z then Some "FAILED" else None.
Definition set_status (st : option string) (m : json F) : res (json F) :=
  match st with Some st => jset "status" (JStr st) m | None => Ok m end.
Definition summarize (s m : json F) : res (json F) :=
  if negb (jcontains s "trial_count") then Ok m else
  count ← jget s "trial_count"; n ← get_long count;
  if (n <=? 0)%Z then Ok m else
  completed_count ← jget s "completed_count";
  best_value ← jget m "best_metric_value"; best_name ← jget m "best_metric_name";
  m ← jset "hpo_summary" (obj [("trial_count", count); ("completed_count", completed_count);
                               ("best_metric_value", best_value); ("best_metric_name", best_name)]) m;
  sc ← jget s "status_counts";
  pending ← jvalue get_int "PENDING" 0%Z sc; running ← jvalue get_int "RUNNING" 0%Z sc;
  completed ← jvalue get_int "COMPLETED" 0%Z sc; failed ← jvalue get_int "FAILED" 0%Z sc;
  set_status (aggregate_status running pending completed failed) m.
Definition with_summary (summaries : gmap string (json F)) (m : json F) : res (json F) :=
  root ← is_root m;
  if (root : bool) then
    mid ← model_id m;
    match summaries !! mid with Some s => summarize s m | None => Ok m end
  else Ok m.
Definition HandleListModels req : api W (Response F) :=
  let rid := GetRequestId http req in
  let limit := GetIntParam req "limit" 50 in
  let offset := GetIntParam req "offset" 0 in
  try_catch
    (found ← db_ask env (fun c => ListModelRuns c limit offset (GetStrParam req "status") (GetStrParam req "dataset_id")
                                    (GetStrParam req "created_from") (GetStrParam req "created_to"));
     models ← lift (get_list (fun m => m ← or_null "parent_run_id" m; or_null "trial_index" m) found);
     parent_run_ids ← lift (root_ids models);
     summaries ← db_ask env (fun c => GetBulkHpoTrialSummaries c parent_run_ids);
     models ← lift (mapR (with_summary summaries) models);
     lift (SendJson (page (JArr models) limit offset) 200 rid))
    (db_error rid).

(** ** Scores and evaluation *)
Definition HandleGetScores req : api W (Response F) :=
  let rid := GetRequestId http req in
  let dataset_id := GetStrParam req "dataset_id" in
  let model_run_id := GetStrParam req "model_run_id" in
  if (dataset_id =? "")%string || (model_run_id =? "")%string
  then lift (SendError "dataset_id and model_run_id required" 400 kErrHttpBadRequest rid) else
  try_catch
    (data ← db_read2 (fun c cm s => Ok (GetScores c cm dataset_id model_run_id (GetIntParam req "limit" 50)
                                          (GetIntParam req "offset" 0) (is_true req "only_anomalies")
                                          (GetDoubleParam http req "min_score" 0%num)
                                          (GetDoubleParam http req "max_score" 0%num) s));
     lift (SendJson data 200 rid))
    (db_error rid).

Definition HandleModelEval req : api W (Response F) :=
  let rid := GetRequestId http req in
  let dataset_id := GetStrParam req "dataset_id" in
  let points := GetIntParam req "points" 50 in
  let max_samples := GetIntParam req "max_samples" 20000 in
  if (dataset_id =? "")%string then lift (SendError "dataset_id required" 400 kErrHttpBadRequest rid) else
  try_catch
    (eval ← db_read2 (fun c cm => GetEvalMetrics c cm dataset_id (match_ 1 req) points max_samples);
     eval ← lift (if is_true req "debug" then
                    roc ← jvalue get_json "roc" (JArr []) eval;
                    jset "debug" (BuildDebugMeta (elapsed_ms http) (jsize roc)
                      (obj [("points", JInt points); ("max_samples", JInt max_samples)])) eval
                  else Ok eval);
     lift (SendJson eval 200 rid))
    (db_error rid).

Definition HandleModelErrorDistribution req : api W (Response F) :=
  let rid := GetRequestId http req in
  let dataset_id := GetStrParam req "dataset_id" in
  let group_by := GetStrParam req "group_by" in
  if (dataset_id =? "")%string || (group_by =? "")%string
  then lift (SendError "dataset_id and group_by required" 400 kErrHttpBadRequest rid) else
  if negb (existsb (String.eqb group_by) ["anomaly_type"; "region"; "project_id"])
  then lift (SendError "Invalid group_by" 400 kErrHttpInvalidArgument rid) else
  try_catch
    (dist ← db_read env (fun c => GetErrorDistribution c dataset_id (match_ 1 req) ("h." +:+ group_by));
     lift (SendJson (obj ([("items", dist)] ++ opt_debug req (jsize dist) (obj [("group_by", JStr ("h." +:+ group_by))])))
             200 rid))
    (invalid_or_db_error rid).

(** ** Inference runs and jobs *)
Definition HandleListInferenceRuns req : api W (Response F) :=
  let rid := GetRequestId http req in
  let limit := GetIntParam req "limit" 50 in
  let offset := GetIntParam req "offset" 0 in
  try_catch
    (runs ← db_ask env (fun c => ListInferenceRuns c (GetStrParam req "dataset_id") (GetStrParam req "model_run_id")
                                   limit offset (GetStrParam req "status") (GetStrParam req "created_from")
                                   (GetStrParam req "created_to"));
     lift (SendJson (page runs limit offset) 200 rid))
    (db_error rid).
Definition HandleGetInferenceRun req : api W (Response F) :=
  let rid := GetRequestId http req in
  try_catch
    (j ← db_ask env (fun c => GetInferenceRun c (match_ 1 req));
     if json_empty j then not_found "Inference run not found" rid else lift (SendJson j 200 rid))
    (db_error rid).
Definition HandleListJobs req : api W (Response F) :=
  let rid := GetRequestId http req in
  let limit := GetIntParam req "limit" 50 in
  let offset := GetIntParam req "offset" 0 in
  try_catch
    (jobs ← db_ask env (fun c => ListScoreJobs c limit offset (GetStrParam req "status") (GetStrParam req "dataset_id")
                                   (GetStrParam req "model_run_id") (GetStrParam req "created_from")
                                   (GetStrParam req "created_to"));
     lift (SendJson (page jobs limit offset) 200 rid))
    (db_error rid).
Definition HandleGetJobStatus req : api W (Response F) :=
  let rid := GetRequestId http req in
  try_catch
    (j ← db_ask env (fun c => GetScoreJob c (match_ 1 req));
     if json_empty j then not_found "Job not found" rid else lift (SendJson j 200 rid))
    (db_error rid).
(** Its body is the same. *)
Definition HandleGetJobProgress : Request -> api W (Response F) := HandleGetJobStatus.
End handlers.
