(* ===== verification/HandlerFacts.v ===== *)
(** The reading handlers always answer: every exception of a query is turned
    into an error response and the store is left as it was. *)
From stdpp Require Import base gmap strings list.
From Stdlib Require Import ZArith Lia Floats.
From S2P Require Import Prelude Strconv Num Json Sql DbClient Workers Queries Analytics TimeRange Http Handlers.

Local Open Scope string_scope.
Local Open Scope list_scope.

(** ** Computations whose exceptions a catch clause sees *)
Definition defined {A} (r : res A) : Prop := forall e, r = Throw e -> catchable e = true.
Definition call_ok (c : Call) : Prop := forall e, c_fault c = Some e -> catchable e = true.
(** The faults of the database are exceptions. *)
Definition faults_ok (env : ApiEnv) : Prop := forall n, call_ok (db_env env n).

Create HintDb defined.
Lemma defined_ok {A} (a : A) : defined (Ok a).
Proof. by intros e. Qed.
Lemma defined_throw {A} k msg : k <> Undefined -> defined (Throw (A:=A) (Exn k msg)).
Proof. intros Hk e [= <-]. unfold catchable. cbn. by rewrite bool_decide_eq_false_2. Qed.
Lemma defined_bind {A B} (m : res A) (f : A -> res B) :
  defined m -> (forall a, defined (f a)) -> defined (m ≫= f).
Proof. intros Hm Hf. destruct m as [a|e]; [apply Hf|]. intros e' [= <-]. by apply Hm. Qed.
#[export] Hint Resolve defined_ok : defined.
Ltac defining := repeat first
  [ apply defined_ok | apply defined_throw; discriminate | solve [auto with defined]
  | apply defined_bind; [|intros ?]
  | match goal with
    | |- defined (invalid_argument _) => apply defined_throw; discriminate
    | |- defined (sql_error _) => apply defined_throw; discriminate
    | |- defined (json_type_error _) => apply defined_throw; discriminate
    | |- defined (type_must_be _) => apply defined_throw; discriminate
    | |- defined (mret _) => apply defined_ok
    | |- defined (let '(_, _) := ?x in _) => destruct x
    | |- defined (if ?b then _ else _) => destruct b
    | |- defined (match ?x with _ => _ end) => destruct x eqn:?
    end ].

Lemma defined_mapR {A B} (f : A -> res B) l : (forall x, defined (f x)) -> defined (mapR f l).
Proof. intros Hf. induction l as [|x l IH]; cbn; defining; auto. Qed.
Lemma defined_fold {A S} (f : S -> A -> res S) l s : (forall s x, defined (f s x)) -> defined (fold_res f s l).
Proof. intros Hf. revert s. induction l as [|x l IH]; intros s; cbn; defining; auto. Qed.

(** JSON accessors. *)
Section json.
Context {F : Type} `{Num F}.
Lemma defined_jget (j : json F) k : defined (jget j k).
Proof. unfold jget. defining. Qed.
Lemma defined_jupdate k f (j : json F) : (forall v, defined (f v)) -> defined (jupdate k f j).
Proof. intros. unfold jupdate. defining; auto. Qed.
Lemma defined_jset k v (j : json F) : defined (jset k v j).
Proof. apply defined_jupdate. intros. defining. Qed.
Lemma defined_jset2 k1 k2 v (j : json F) : defined (jset2 k1 k2 v j).
Proof. apply defined_jupdate. intros. apply defined_jset. Qed.
Lemma defined_jvalue {A} (get : json F -> res A) k dflt j : (forall v, defined (get v)) -> defined (jvalue get k dflt j).
Proof. intros. unfold jvalue. defining; auto. Qed.
Lemma defined_get_long (j : json F) : defined (get_long j).
Proof. unfold get_long. defining. Qed.
Lemma defined_get_int (j : json F) : defined (get_int j).
Proof. unfold get_int. defining. Qed.
Lemma defined_get_string (j : json F) : defined (get_string j).
Proof. unfold get_string. defining. Qed.
Lemma defined_get_bool (j : json F) : defined (get_bool j).
Proof. unfold get_bool. defining. Qed.
Lemma defined_get_json (j : json F) : defined (get_json j).
Proof. apply defined_ok. Qed.
Lemma defined_get_list {A} (get : json F -> res A) j : (forall v, defined (get v)) -> defined (get_list get j).
Proof. intros. unfold get_list. defining. by apply defined_mapR. Qed.
Lemma defined_set_meta l (j : json F) : defined (set_meta l j).
Proof. apply defined_fold. intros. apply defined_jset2. Qed.
Lemma defined_SendJson (j : json F) status rid : defined (SendJson j status rid).
Proof. unfold SendJson. defining. apply defined_jset. Qed.
End json.
#[export] Hint Resolve defined_jget defined_jset defined_jset2 defined_get_long defined_get_int defined_get_string
  defined_get_bool defined_get_json defined_set_meta defined_SendJson : defined.
#[export] Hint Extern 1 (defined (jvalue _ _ _ _)) => (apply defined_jvalue; intros) : defined.

(** Queries. *)
Section queries.
Context {F : Type} `{Num F} `{Postgres} `{PgInput F} `{Server F} `{Aggregates F}.
Implicit Types (c : Call) (s : Store F).

Lemma defined_query {A} c s (body : Store F -> res A) :
  call_ok c -> (forall s, defined (body s)) -> defined (query c s body).
Proof. intros Hc Hb. unfold query. destruct (c_fault c) eqn:E; [intros e' [= <-]; by apply Hc|apply Hb]. Qed.
Lemma defined_or_sql_error {A} (o : option A) : defined (or_sql_error o).
Proof. unfold or_sql_error. defining. Qed.
Lemma defined_time_arg arg : defined (time_arg arg).
Proof. unfold time_arg. defining. apply defined_or_sql_error. Qed.
Lemma defined_limit_offset {A} limit offset (l : list A) : defined (limit_offset limit offset l).
Proof. unfold limit_offset. defining. Qed.
Lemma defined_select {A} c (p : A -> bool) order limit offset l : defined (select c p order limit offset l).
Proof. apply defined_limit_offset. Qed.
Lemma defined_filter_where run_id f : defined (filter_where (F:=F) run_id f).
Proof. unfold filter_where. defining; apply defined_time_arg. Qed.

Lemma convert_catchable k (v : sql F) e : convert k v = Throw e -> catchable e = true.
Proof. destruct k, v; intros E; try discriminate; injection E as <-; done. Qed.
Lemma read_fields_catchable fs (r : Row F) acc l e : read_fields fs r acc = (l, Some e) -> catchable e = true.
Proof.
  revert acc. induction fs as [|[[key c] k] fs IH]; intros acc; [discriminate|]. cbn [read_fields].
  destruct (convert k (column r c)) eqn:E; [by apply IH|]. intros [= _ <-]. by eapply convert_catchable.
Qed.
Lemma read_row_catchable fs (r : Row F) j e : read_row fs r = (j, Some e) -> catchable e = true.
Proof.
  unfold read_row. destruct (read_fields fs r []) as [l o] eqn:E. intros [= _ ->]. by eapply read_fields_catchable.
Qed.
Lemma read_rows_catchable fs (rs : list (Row F)) js e : read_rows fs rs = (js, Some e) -> catchable e = true.
Proof.
  revert js. induction rs as [|r rs IH]; intros js; [discriminate|]. cbn [read_rows].
  destruct (read_row fs r) as [j [e'|]] eqn:E.
  - intros [= _ <-]. by eapply read_row_catchable.
  - destruct (read_rows fs rs) as [js' o] eqn:Er. intros [= _ ->]. by eapply IH.
Qed.
Lemma defined_answer_or_throw fs (found : res (list (Row F))) : defined found -> defined (answer_or_throw fs found).
Proof.
  intros Hf. unfold answer_or_throw. apply defined_bind; [done|]. intros rs.
  destruct (read_rows fs rs) as [js [e|]] eqn:E; [|apply defined_ok].
  intros e' [= <-]. by eapply read_rows_catchable.
Qed.
#[local] Hint Resolve defined_or_sql_error defined_time_arg defined_limit_offset defined_select defined_filter_where : defined.
#[local] Hint Extern 1 (defined (query _ _ _)) => (apply defined_query; [assumption|intros; cbv zeta; defining]) : defined.

Lemma defined_ListGenerationRuns c limit offset status cf ct s : call_ok c ->
  defined (ListGenerationRuns c limit offset status cf ct s).
Proof. intros. apply defined_answer_or_throw, defined_query; [done|]. intros. defining. Qed.
Lemma defined_GetDatasetDetail c run_id s : call_ok c -> defined (GetDatasetDetail c run_id s).
Proof.
  intros Hc. unfold GetDatasetDetail, get_one_or_throw. destruct (c_fault c) eqn:E; [intros e' [= <-]; by apply Hc|].
  destruct (where_is _ _ _ s) as [|r ?]; [apply defined_ok|].
  destruct (read_row _ r) as [j [e|]] eqn:Er; [|apply defined_ok]. intros e' [= <-]. by eapply read_row_catchable.
Qed.
Lemma defined_GetDatasetSummary c run_id topk s : call_ok c -> defined (GetDatasetSummary c run_id topk s).
Proof. intros. apply defined_query; [done|]. intros. defining. Qed.
Lemma defined_GetTopK c run_id col k f b s : call_ok c -> defined (GetTopK c run_id col k f b s).
Proof. intros. unfold GetTopK, unaliased. defining. Qed.
Lemma defined_GetTimeSeries c run_id ms aggs b f s : call_ok c -> defined (GetTimeSeries c run_id ms aggs b f s).
Proof. intros. unfold GetTimeSeries. defining. Qed.
Lemma defined_GetHistogram c run_id m bins lo hi f s : call_ok c -> defined (GetHistogram c run_id m bins lo hi f s).
Proof. intros. unfold GetHistogram. defining. Qed.
Lemma defined_SearchDatasetRecords c run_id limit offset q s : call_ok c ->
  defined (SearchDatasetRecords c run_id limit offset q s).
Proof.
  intros. apply defined_query; [done|]. intros s'. unfold sort_ascending, search_where.
  do 3 (apply defined_bind; [defining|intros ?]).
  destruct (read_rows record_fields a1) as [js [e|]] eqn:Er; [|apply defined_ok].
  intros e' [= <-]. by eapply read_rows_catchable.
Qed.
Lemma defined_GetMetricStats c run_id m s : call_ok c -> defined (GetMetricStats c run_id m s).
Proof. intros. unfold GetMetricStats. defining. Qed.
Lemma defined_GetDatasetMetricsSummary c run_id s : call_ok c -> defined (GetDatasetMetricsSummary c run_id s).
Proof. intros. apply defined_query; [done|]. intros. defining. Qed.
Lemma defined_GetErrorDistribution c ds m g s : call_ok c -> defined (GetErrorDistribution c ds m g s).
Proof. intros. unfold GetErrorDistribution. defining. Qed.
End queries.
#[export] Hint Resolve defined_ListGenerationRuns defined_GetDatasetDetail defined_GetDatasetSummary defined_GetTopK
  defined_GetTimeSeries defined_GetHistogram defined_SearchDatasetRecords defined_GetMetricStats
  defined_GetDatasetMetricsSummary defined_GetErrorDistribution : defined.

(** ** Runs that change nothing and end in an answer *)
Section answers.
Context {W : Type}.

(** The world is left alone, an exception can be caught, a result satisfies [P]. *)
Definition safe {A} (P : A -> Prop) (m : api W A) : Prop := forall st,
  world (m st).1 = world st /\ match (m st).2 with Ok a => P a | Throw e => catchable e = true end.
Definition answers {A} (P : A -> Prop) (m : api W A) : Prop := forall st,
  exists a, (m st).2 = Ok a /\ P a /\ world (m st).1 = world st.

Lemma safe_bind {A B} (P : A -> Prop) (Q : B -> Prop) (m : api W A) (f : A -> api W B) :
  safe P m -> (forall a, P a -> safe Q (f a)) -> safe Q (m ≫= f).
Proof.
  intros Hm Hf st. specialize (Hm st). cbv [mbind api_bind].
  destruct (m st) as [st' [a|e]]; cbn in Hm |- *; [|done]. destruct Hm as [Hw Ha].
  destruct (Hf a Ha st') as [Hw' Hr]. split; [congruence|done].
Qed.
Lemma safe_ret {A} (P : A -> Prop) a : P a -> safe P (mret a).
Proof. by intros Ha st. Qed.
Lemma safe_lift {A} (P : A -> Prop) (r : res A) : defined r -> (forall a, r = Ok a -> P a) -> safe P (lift r).
Proof. intros Hd Hp st. split; [done|]. cbn. destruct r as [a|e]; [by apply Hp|by apply Hd]. Qed.
Lemma safe_read (env : ApiEnv) {A} (P : A -> Prop) (f : Call -> W -> res A) : faults_ok env ->
  (forall c w, call_ok c -> defined (f c w)) -> (forall a, P a) -> safe P (db_read env f).
Proof.
  intros He Hf HP st. split; [done|]. cbn. pose proof (Hf (db_env env (calls st)) (world st) (He _)) as Hd.
  destruct (f _ _) as [a|e]; [apply HP|by apply Hd].
Qed.
Lemma safe_ask (env : ApiEnv) {A} (P : A -> Prop) (f : Call -> W -> A) : (forall a, P a) -> safe P (db_ask env f).
Proof. intros HP st. split; [done|]. cbn. apply HP. Qed.
Lemma answers_ret {A} (P : A -> Prop) a : P a -> answers P (mret a).
Proof. intros Ha st. by exists a. Qed.
Lemma answers_ask (env : ApiEnv) {A B} (P : B -> Prop) (f : Call -> W -> A) (g : A -> api W B) :
  (forall a, answers P (g a)) -> answers P (a ← db_ask env f; g a).
Proof.
  intros Hg st. cbv [mbind api_bind db_ask db_read db_run].
  destruct (Hg (f (db_env env (calls st)) (world st)) (MkApi (S (calls st)) (reads st) (world st))) as (b & Hb & HP & Hw).
  exists b. split; [done|]. by split.
Qed.
Lemma answers_bind {A B} (P : A -> Prop) (Q : B -> Prop) (m : api W A) (f : A -> api W B) :
  answers P m -> (forall a, P a -> answers Q (f a)) -> answers Q (m ≫= f).
Proof.
  intros Hm Hf st. destruct (Hm st) as (a & Ha & HP & Hw). cbv [mbind api_bind].
  destruct (m st) as [st' r]. cbn in *. subst r. destruct (Hf a HP st') as (b & Hb & HQ & Hw').
  exists b. split_and!; [done..|congruence].
Qed.
Lemma answers_try {A} (P : A -> Prop) (m : api W A) (h : exn -> api W A) :
  safe P m -> (forall e, answers P (h e)) -> answers P (try_catch m h).
Proof.
  intros Hm Hh st. specialize (Hm st). unfold try_catch. destruct (m st) as [st' [a|e]]; cbn in Hm.
  - exists a. by destruct Hm.
  - destruct Hm as [Hw ->]. destruct (Hh e st') as (a & Ha & HP & Hw'). exists a. split_and!; [done..|congruence].
Qed.
End answers.

Section reading.
Context {F : Type} `{Num F} `{Postgres} `{PgInput F} `{Server F} `{Aggregates F}.
Context (env : ApiEnv) (http : HttpEnv F) (rpc_error : option string).

Definition proper (r : Response F) : Prop := r_status r ∈ [200; 400; 404; 500]%Z.

Lemma SendJson_status j status rid r : SendJson (F:=F) j status rid = Ok r -> r_status r = status.
Proof. unfold SendJson. intros (j' & _ & [= <-])%bind_ok. done. Qed.
Lemma answers_error msg status code rid : status ∈ [200; 400; 404; 500]%Z ->
  answers (W:=Store F) proper (lift (SendError msg status code rid)).
Proof.
  intros Hs st. unfold lift. destruct (SendError_ok (F:=F) msg status code rid) as [b Hb]. rewrite Hb.
  exists (MkResponse status b). by split_and!.
Qed.
Lemma answers_obj l rid : answers (W:=Store F) proper (lift (SendJson (obj l) 200 rid)).
Proof.
  intros st. unfold lift, obj. destruct (SendJson_obj (foldl (fun acc kv => obj_insert kv.1 kv.2 acc) [] l) 200 rid) as [b Hb].
  rewrite Hb. exists (MkResponse 200 b). split_and!; [done| |done]. unfold proper. by_deciding.
Qed.
Lemma safe_answers (m : api (Store F) (Response F)) : answers proper m -> safe proper m.
Proof. intros Hm st. destruct (Hm st) as (a & -> & HP & Hw). done. Qed.
Lemma safe_send j rid : safe (W:=Store F) proper (lift (SendJson j 200 rid)).
Proof.
  apply safe_lift; [apply defined_SendJson|]. intros r Hr%SendJson_status. unfold proper. rewrite Hr. by_deciding.
Qed.
Lemma answers_db_error rid e : answers proper (db_error (F:=F) rid e).
Proof. apply answers_error. by_deciding. Qed.
Lemma answers_invalid rid e : answers proper (invalid_or_db_error (F:=F) rid e).
Proof. unfold invalid_or_db_error. case_bool_decide; [apply answers_error; by_deciding|apply answers_db_error]. Qed.
Lemma answers_not_found what rid : answers proper (not_found (F:=F) what rid).
Proof. apply answers_error. by_deciding. Qed.
Lemma safe_read2 {A} (f : Call -> Call -> Store F -> A) (P : A -> Prop) : (forall a, P a) ->
  safe P (db_read2 env (fun c cm s => Ok (f c cm s))).
Proof. intros HP st. split; [done|]. cbn. apply HP. Qed.
Lemma get_one_shape c fs (rs : list (Row F)) : get_one c fs rs = JNull \/ exists l, get_one c fs rs = JObj l.
Proof.
  unfold get_one, read_row, built. destruct (c_fault c); [by left|]. destruct rs as [|r rs]; [by left|].
  destruct (read_fields fs r []) as [[|kv l] e]; [by left|right; eauto].
Qed.
Lemma answers_one fs (found : string -> Store F -> list (Row F)) id what rid :
  answers proper (j ← db_ask env (fun c s => get_one c fs (found id s));
    if json_empty j then not_found what rid else lift (SendJson j 200 rid)).
Proof.
  intros st. cbv [mbind api_bind db_ask db_read db_run].
  destruct (get_one_shape (db_env env (calls st)) fs (found id (world st))) as [->|[l ->]].
  - apply (answers_not_found what rid (MkApi (S (calls st)) (reads st) (world st))).
  - destruct (json_empty (JObj l)).
    + apply (answers_not_found what rid (MkApi (S (calls st)) (reads st) (world st))).
    + cbn. destruct (SendJson_obj l 200 rid) as [b ->]. exists (MkResponse 200 b).
      split_and!; [done| |done]. unfold proper. by_deciding.
Qed.
End reading.

(** The handlers of the routes that only read, but for the evaluation of a
    model and the single record. *)
Definition reading_handlers {F} `{Num F} `{Postgres} `{PgInput F} `{Server F} `{Aggregates F}
    (env : ApiEnv) (http : HttpEnv F) (rpc_error : option string) : list (handler F) :=
  [HandleListDatasets env http; HandleGetDataset env http rpc_error; HandleDatasetSummary env http;
   HandleDatasetTopK env http; HandleDatasetTimeSeries env http; HandleDatasetHistogram env http;
   HandleGetDatasetSamples env http; HandleGetDatasetMetricStats env http; HandleGetDatasetMetricsSummary env http;
   HandleGetDatasetModels env http; HandleGetTrainStatus env http; HandleGetModelScoredDatasets env http;
   HandleGetTrials env http; HandleListModels env http; HandleGetScores env http;
   HandleModelErrorDistribution env http; HandleListInferenceRuns env http; HandleGetInferenceRun env http;
   HandleListJobs env http; HandleGetJobStatus env http; HandleGetJobProgress env http].

Section reading_facts.
Context {F : Type} `{Num F} `{Postgres} `{PgInput F} `{Server F} `{Aggregates F}.
Context (env : ApiEnv) (http : HttpEnv F) (rpc_error : option string).
Context (Hfaults : faults_ok env).

Ltac reading := repeat first
  [ simple apply safe_send
  | simple apply answers_db_error
  | simple apply answers_invalid
  | simple apply answers_obj
  | apply answers_error; by_deciding
  | apply answers_try; [|intros ?]
  | apply safe_read; [done|intros; auto with defined|done]
  | apply safe_ask; done
  | apply safe_read2; done
  | apply safe_ret; done
  | apply safe_answers, answers_not_found
  | apply (safe_lift (fun _ => True)); [defining|done]
  | apply (safe_bind (fun _ => True)); [|intros ? _]
  | match goal with
    | |- answers _ (if ?b then _ else _) => destruct b
    | |- safe _ (if ?b then _ else _) => destruct b
    | |- safe _ (match ?x with _ => _ end) => destruct x
    | |- safe _ (let '(_, _) := ?x in _) => destruct x
    end ].

Lemma get_dataset_answers req : answers proper (HandleGetDataset env http rpc_error req).
Proof.
  unfold HandleGetDataset. apply (answers_bind (fun o => match o with Some r => proper r | None => True end)).
  - apply answers_try; [|intros e; by apply answers_ret].
    apply (safe_bind (fun _ => True)); [reading|]. intros d _. destruct (json_empty d); [by apply safe_ret|].
    apply (safe_bind proper); [apply safe_send|]. intros r Hr. by apply safe_ret.
  - intros [r|] Hr; [by apply answers_ret|]. apply (answers_bind (fun _ => True)).
    + unfold GetRun. destruct rpc_error; [by apply answers_ret|]. apply answers_ask. intros s. by apply answers_ret.
    + intros [s|msg] _; [apply answers_obj|apply answers_error; by_deciding].
Qed.
Lemma root_ids_defined (models : list (json F)) : defined (root_ids models).
Proof. induction models as [|m models IH]; cbn [root_ids]; unfold is_root, model_id; defining. Qed.
Lemma with_summary_defined summaries (m : json F) : defined (with_summary summaries m).
Proof. unfold with_summary, is_root, model_id, summarize, set_status. defining. Qed.
Lemma list_models_answers req : answers proper (HandleListModels env http req).
Proof.
  unfold HandleListModels. apply answers_try; [|intros e; apply answers_db_error].
  apply (safe_bind (fun _ => True)); [by apply safe_ask|intros found _].
  apply (safe_bind (fun _ => True)); [apply (safe_lift (fun _ => True)); [|done]|intros models _].
  { apply defined_get_list. intros m. unfold or_null. defining. }
  apply (safe_bind (fun _ => True)); [apply (safe_lift (fun _ => True)); [apply root_ids_defined|done]|intros ids _].
  apply (safe_bind (fun _ => True)); [by apply safe_ask|intros summaries _].
  apply (safe_bind (fun _ => True)); [apply (safe_lift (fun _ => True)); [|done]|intros models' _].
  { apply defined_mapR. apply with_summary_defined. }
  apply safe_send.
Qed.

Lemma reading_handlers_answer :
  Forall (fun h : handler F => forall req, answers proper (h req)) (reading_handlers env http rpc_error).
Proof.
  unfold reading_handlers. repeat apply Forall_cons_2; [intros req..|apply Forall_nil_2].
  14: apply list_models_answers.
  2: apply get_dataset_answers.
  all: unfold HandleListDatasets, HandleDatasetSummary, HandleDatasetTopK, HandleDatasetTimeSeries,
    HandleDatasetHistogram, HandleGetDatasetSamples, HandleGetDatasetMetricStats, HandleGetDatasetMetricsSummary,
    HandleGetDatasetModels, HandleGetModelScoredDatasets, HandleGetTrials, HandleGetScores,
    HandleModelErrorDistribution, HandleListInferenceRuns, HandleGetInferenceRun, HandleListJobs,
    HandleGetJobProgress, HandleGetJobStatus; cbv zeta; try solve [reading].
  apply (answers_one env model_run_fields (where_is "model_runs" "model_run_id") (match_ 1 req)).
Qed.

Lemma record_handler_answers req id : stol (match_ 2 req) = Ok id ->
  answers proper (HandleGetDatasetRecord env http req).
Proof.
  intros Hid. unfold HandleGetDatasetRecord. rewrite Hid. apply (answers_bind (fun _ => True)); [|intros id' _].
  { intros st. by exists id. }
  reading.
Qed.
End reading_facts.


(** The routes that list the models of a dataset and the datasets scored
    with a model never succeed.  Their answer is a JSON array, and [SendJson]
    stores the request id into it as if it were an object: the type error is
    caught and every request that has an id (each one gets a fresh id when it
    brings none) is answered with status 500, as a database error. *)
Theorem array_answers_always_fail {F} `{Num F} `{Postgres} `{PgInput F} `{Server F}
  (env : ApiEnv) (http : HttpEnv F) (req : Request) (st : ApiState (Store F))
  (Hrid : GetRequestId http req <> "") :
  let failed := MkResponse 500 (obj [("error", obj [("message", JStr "cannot use operator[] with a string argument");
    ("code", JStr kErrDbQueryFailed); ("request_id", JStr (GetRequestId http req))]);
    ("request_id", JStr (GetRequestId http req))]) in
  (HandleGetDatasetModels env http req st).2 = Ok failed /\
  (HandleGetModelScoredDatasets env http req st).2 = Ok failed.
Proof.
  apply String.eqb_neq in Hrid as Hf.
  assert (Hsend : forall l, SendJson (F:=F) (JArr l) 200 (GetRequestId http req) =
    Throw (Exn JsonTypeError "cannot use operator[] with a string argument")).
  { intros l. unfold SendJson. by rewrite Hf. }
  assert (Herr : forall st' : ApiState (Store F), (db_error (GetRequestId http req)
     (Exn JsonTypeError "cannot use operator[] with a string argument") st').2 =
     Ok (MkResponse 500 (obj [("error", obj [("message", JStr "cannot use operator[] with a string argument");
    ("code", JStr kErrDbQueryFailed); ("request_id", JStr (GetRequestId http req))]);
    ("request_id", JStr (GetRequestId http req))]))).
  { intros st'. unfold db_error, SendError, error_json, SendJson, lift. rewrite Hf. done. }
  split; unfold HandleGetDatasetModels, HandleGetModelScoredDatasets, GetModelsForDataset, GetScoredDatasetsForModel;
    cbv zeta; unfold try_catch; cbv [mbind api_bind db_ask db_read db_run]; unfold answer, lift;
    (destruct (query _ _ _)); rewrite Hsend; apply Herr.
Qed.

(** ** The theorems on a concrete server *)
#[local] Existing Instance pg_example.
#[local] Existing Instance pg_input_example.
#[local] Existing Instance server_example.
#[local] Existing Instance aggregates_example.

Definition http_example : HttpEnv float := MkHttp "req-1" 1709296200 0x1p-1%float (fun _ => None).
Definition handler_request : Request := MkRequest [("limit", "10"); ("offset", "zero")] ["d"; "99999999999999999999"] "" None.
Definition handler_store : Store float :=
  put "model_runs" [new_row [("model_run_id", SText "m"); ("dataset_id", SText "d"); ("name", SText "pca");
                             ("status", SText "COMPLETED"); ("created_at", STime 7)]] empty_store.
Definition handler_start : ApiState (Store float) := MkApi 0 0 handler_store.


Lemma array_answers_always_fail_witness :
  GetModelsForDataset (MkCall None 0) "d" handler_store =
    JArr [obj [("created_at", JStr "7"); ("model_run_id", JStr "m"); ("name", JStr "pca"); ("status", JStr "COMPLETED")]] /\
  option_map r_status (match (HandleGetDatasetModels quiet_env http_example handler_request handler_start).2 with
                       | Ok r => Some r | Throw _ => None end) = Some 500%Z.
Proof.
  split; [vm_compute; reflexivity|].
  assert (Hrid : GetRequestId http_example handler_request <> "") by discriminate.
  pose proof (array_answers_always_fail quiet_env http_example handler_request handler_start Hrid) as [-> _].
  reflexivity.
Defined.
