(* ===== verification/Inference.v ===== *)
(** Scoring samples on request: ApiServer::HandleInference
    (src/src/api_server.cpp), from the request body to the inference run it
    records. *)
From stdpp Require Import base gmap strings list.
From Stdlib Require Import ZArith Lia Floats.
From S2P Require Import Prelude Num Detectors Linalg Json PcaModel Sql DbClient Workers Queries QueryFacts Http DbFacts ScoreJob ScoreStore.

Local Open Scope string_scope.
Local Open Scope list_scope.

Section inference.
Context {F : Type} `{Num F} `{!FloatFmt F} `{Postgres} `{PgInput F}.
Context (env : ApiEnv) (http : HttpEnv F) (parse_body : string -> option (json F)).
(** [model_cache_->GetOrCreate(model_run_id, artifact_path)]. *)
Context (get_or_create : string -> string -> res (PcaModel F)).

Definition kMaxSamples : Z := 1000.
Definition sample_vector (s : json F) : res (list F) :=
  mapR (fun k => jvalue get_double k 0%num s)
    ["cpu_usage"; "memory_usage"; "disk_utilization"; "network_rx_rate"; "network_tx_rate"].
(** A result: its JSON and whether it counts as an anomaly. *)
Definition score_sample (model : PcaModel F) (s : json F) : res (json F * bool) :=
  v ← sample_vector s;
  score ← Score model v;
  Ok (obj [("is_anomaly", JBool (ps_is_anomaly score)); ("score", JNum (reconstruction_error score))],
      ps_is_anomaly score).
Definition anomaly_count (results : list (json F * bool)) : Z := Z.of_nat (countb snd results).

Definition infer_error (rid : string) (e : exn) : api (Store F) (Response F) :=
  let code := ClassifyHttpError e in
  let status := (if client_error code then 400 else if (code =? kErrHttpNotFound)%string then 404 else 500)%Z in
  lift (SendError ("Error: " +:+ exn_what e) status code rid).

(** From the loaded model on. *)
Definition infer_samples (rid model_run_id : string) (model : PcaModel F) (samples : json F)
    : api (Store F) (Response F) :=
  inference_id ← db_run env (fun c => CreateInferenceRun c model_run_id);
  results ← lift (mapR (score_sample model) (jelements samples));
  let js := JArr results.*1 in
  (if (inference_id =? "")%string then mret tt
   else db_do env (fun c => UpdateInferenceRunStatus c inference_id "COMPLETED" (anomaly_count results) js (elapsed_ms http)));;
  lift (SendJson (obj [("results", js); ("model_run_id", JStr model_run_id); ("inference_id", JStr inference_id);
                       ("inference_run_id", JStr inference_id); ("anomaly_count", JInt (anomaly_count results))]) 200 rid).

Definition HandleInference (req : Request) : api (Store F) (Response F) :=
  let rid := GetRequestId http req in
  try_catch
    (j ← lift (parse_request parse_body req);
     model_run_id ← lift (v ← jat "model_run_id" j; get_string v);
     samples ← lift (jat "samples" j);
     if (kMaxSamples <? jsize samples)%Z
     then lift (SendError "Too many samples (max 1000)" 400 kErrHttpInvalidArgument rid) else
     model_info ← db_ask env (fun c => GetModelRun c model_run_id);
     if json_empty model_info then lift (SendError "Model not found" 404 kErrHttpNotFound rid) else
     artifact_path ← lift (jvalue get_string "artifact_path" "" model_info);
     if (artifact_path =? "")%string
     then lift (SendError "Model is not yet complete or has no artifact" 400 kErrHttpBadRequest rid) else
     loaded ← try_catch (m ← lift (get_or_create model_run_id artifact_path); mret (inl m))
       (fun e => r ← lift (SendError ("Failed to load PCA model artifact: " +:+ exn_what e) 500 kErrModelLoadFailed rid);
                 mret (inr r));
     match loaded with
     | inl model => infer_samples rid model_run_id model samples
     | inr r => mret r
     end)
    (infer_error rid).

(** ** What an inference request records *)

(** The row of the run as it is created, and as it is closed. *)
Definition new_run (c : Call) (id model_run_id : string) : Row F :=
  new_row [("inference_id", SText id); ("model_run_id", SText model_run_id); ("status", SText "RUNNING");
           ("anomaly_count", SInt 0); ("created_at", STime (c_now c))].
Definition closed_run (results : list (json F * bool)) : Row F -> Row F :=
  set_columns [("status", SText "COMPLETED"); ("anomaly_count", SInt (anomaly_count results));
               ("details", jsonb (JArr results.*1)); ("latency_ms", SDouble (elapsed_ms http))].
Definition infer_response (rid id model_run_id : string) (results : list (json F * bool)) : res (Response F) :=
  SendJson (obj [("results", JArr results.*1); ("model_run_id", JStr model_run_id); ("inference_id", JStr id);
                 ("inference_run_id", JStr id); ("anomaly_count", JInt (anomaly_count results))]) 200 rid.

Lemma infer_response_ok rid id m results : exists b, infer_response rid id m results = Ok (MkResponse 200 b).
Proof. apply SendJson_obj. Qed.
Lemma GetModelRun_exists c id s l : GetModelRun c id s = JObj l -> existsb (text_is "model_run_id" id) (rows s "model_runs") = true.
Proof.
  unfold GetModelRun, get_one, where_is. destruct (c_fault c); [done|].
  destruct (filter _ _) as [|r rs] eqn:E; [done|]. intros _. apply existsb_exists. exists r.
  assert (r ∈ filter (fun r => text_is "model_run_id" id r = true) (rows s "model_runs")) as [Hr Hin]%list_elem_of_filter
    by (rewrite E; left).
  split; [by apply list_elem_of_In|done].
Qed.

(** With a model in the store and no fault, the run is appended to the table. *)
Lemma CreateInferenceRun_ok c id s : c_fault c = None ->
  existsb (text_is "model_run_id" id) (rows s "model_runs") = true ->
  exists s', CreateInferenceRun c id s = (s', Ok (uuid (next_uuid s))) /\
    rows s' "inference_runs" = rows s "inference_runs" ++ [new_run c (uuid (next_uuid s)) id] /\
    (forall t, t <> "inference_runs" -> rows s' t = rows s t).
Proof.
  intros Hc Hm. set (s1 := MkStore (tables s) (S (next_uuid s)) (next_record_id s) (next_score_id s)).
  exists (put "inference_runs" (rows s "inference_runs" ++ [new_run c (uuid (next_uuid s)) id]) s1).
  split_and!; [|by rewrite rows_put_eq|by intros t Ht; rewrite rows_put_ne].
  unfold CreateInferenceRun, work. rewrite Hc. unfold draw_uuid. cbn [fst snd]. fold s1. unfold insert_row.
  match goal with |- context [forallb ?f ?l] => assert (forallb f l = true) as ->; [|done] end.
  change (references_of "inference_runs") with [("inference_runs", "model_run_id", "model_runs", "model_run_id")].
  cbn [forallb]. rewrite andb_true_r. exact Hm.
Qed.

(** Closing a run touches its row alone. *)
Lemma close_run_ok c id m results c0 s old : c_fault c = None ->
  Forall (fun r => text_is "inference_id" id r = false) old ->
  rows s "inference_runs" = old ++ [new_run c0 id m] ->
  let s' := UpdateInferenceRunStatus c id "COMPLETED" (anomaly_count results) (JArr results.*1) (elapsed_ms http) s in
  rows s' "inference_runs" = old ++ [closed_run results (new_run c0 id m)] /\
  (forall t, t <> "inference_runs" -> rows s' t = rows s t).
Proof.
  intros Hc Hold Hs. cbv zeta. unfold UpdateInferenceRunStatus. rewrite swallowed_update, Hc. split.
  - rewrite update_rows_eq, Hs, fmap_app. f_equal.
    + apply fmap_id_on. intros r Hr. rewrite Forall_forall in Hold. by rewrite Hold.
    + cbn [fmap list_fmap]. assert (text_is "inference_id" id (new_run c0 id m) = true) as ->; [|done].
      by apply text_is_true.
  - intros t Ht. by apply update_rows_other.
Qed.

Lemma infer_samples_ok rid m model samples st : (forall n, c_fault (db_env env n) = None) ->
  existsb (text_is "model_run_id" m) (rows (world st) "model_runs") = true ->
  Forall (fun r => text_is "inference_id" (uuid (next_uuid (world st))) r = false) (rows (world st) "inference_runs") ->
  let id := uuid (next_uuid (world st)) in
  let run := new_run (db_env env (calls st)) id m in
  let '(st', r) := infer_samples rid m model samples st in
  (forall t, t <> "inference_runs" -> rows (world st') t = rows (world st) t) /\
  match mapR (score_sample model) (jelements samples) with
  | Ok results => r = infer_response rid id m results /\
      rows (world st') "inference_runs" = rows (world st) "inference_runs" ++ [closed_run results run]
  | Throw e => r = Throw e /\ rows (world st') "inference_runs" = rows (world st) "inference_runs" ++ [run]
  end.
Proof.
  intros Hq Hm Hfresh. cbv zeta. unfold infer_samples. cbv [mbind api_bind db_run db_do lift mret api_ret].
  destruct (CreateInferenceRun_ok (db_env env (calls st)) m (world st) (Hq _) Hm) as (s1 & -> & Hrows & Hother).
  set (id := uuid (next_uuid (world st))) in *. cbn [calls reads world].
  destruct (mapR (score_sample model) (jelements samples)) as [results|e]; [|by split_and!].
  assert ((id =? "")%string = false) as -> by (apply String.eqb_neq, uuid_nonempty).
  destruct (close_run_ok (db_env env (S (calls st))) id m results (db_env env (calls st)) s1 _ (Hq _) Hfresh Hrows) as [Hr Ho].
  cbn [world]. split_and!; [|done|done]. intros t Ht. by rewrite Ho, Hother.
Qed.
End inference.


(** ** On a concrete store *)
#[local] Existing Instance pg_example.
#[local] Existing Instance pg_input_example.
#[local] Existing Instance fmt_example.

Definition infer_http : HttpEnv float := MkHttp "req-1" 0 0x1p-1%float (fun _ => None).
Definition infer_body (samples : list (json float)) : string -> option (json float) :=
  fun _ => Some (obj [("model_run_id", JStr "id-0"); ("samples", JArr samples)]).
Definition two_samples : list (json float) :=
  [obj [("cpu_usage", JNum 3%float)]; obj [("cpu_usage", JInt 20)]].
Definition infer_request : Request := MkRequest [] [] "{}" None.
Definition infer_run (samples : list (json float)) :=
  HandleInference quiet_env infer_http (infer_body samples) load_example infer_request scoring_start.
(** The new run's row: its status and its count. *)
Definition last_run (s : Store float) : option (string * Z) :=
  (fun r => (text_of "status" r, int_of "anomaly_count" r)) <$> last (rows s "inference_runs").

