(* ===== verification/TrainJob.v ===== *)
(** The background job that trains a model: ApiServer::RunPcaTraining
    (src/src/api_server.cpp), over the store and the artifact directory. *)
From stdpp Require Import base gmap strings list fin_maps.
From Stdlib Require Import ZArith Lia Floats.
From S2P Require Import Prelude Num Linalg Detectors Json PcaModel Trainer BatchIterator Sql DbClient DbFacts Workers Queries Http.

Local Open Scope string_scope.
Local Open Scope list_scope.

(** The store, and the files by path. *)
Record TrainWorld (F text : Type) := MkTrain { db : Store F; files : gmap string text }.
Arguments MkTrain {F text} db files.
Arguments db {F text} t.
Arguments files {F text} t.

Section train.
Context {F : Type} `{Num F} `{!Libm F} `{Postgres} {text : Type} `{!JsonText F text}.
Abbreviation W := (TrainWorld F text).
Context (env : ApiEnv).
(** What the job meets besides the calls of the client: the faults of the calls
    that read the batches, PCA_TRAIN_BATCH_SIZE, how many of the batches were
    followed by a heartbeat, whether the directory can be made and the file
    opened. *)
Context (read_fault : nat -> option exn) (env_batch : option string) (beats : nat).
Context (mkdir_fault : option exn) (can_open : string -> bool).

(** A call of the client on the store of the world. *)
Definition on_db (f : Call -> Store F -> Store F) (c : Call) (w : W) : W := MkTrain (f c (db w)) (files w).
Definition update_run (f : Call -> Store F -> Store F) : api W unit := db_do env (on_db f).

(** The rows [get_telemetry_batch] pages through. *)
Definition telemetry_vector (r : Row F) : Z * list F :=
  (int_of "record_id" r, (fun c => double_of c r) <$>
    ["cpu_usage"; "memory_usage"; "disk_utilization"; "network_rx_rate"; "network_tx_rate"]).
Definition train_table (dataset_id : string) (s : Store F) : list (Z * list F) :=
  telemetry_vector <$> std_sort by_record_id (dataset_rows dataset_id s).

Definition output_path (model_run_id : string) : string := "artifacts/pca/" +:+ model_run_id +:+ "/model.json".

(** TrainPcaFromDb with the heartbeat of the job.  A pass over [n] rows makes at
    most [n + 1] calls: one more is enough fuel. *)
Definition train_artifact (dataset_id : string) (n_comp : Z) (percentile : F) (s : Store F) : res (PcaArtifact F) :=
  let table := train_table dataset_id s in
  TrainPcaFromDb table read_fault (S (S (length table))) env_batch n_comp percentile.
Fixpoint heartbeats (n : nat) (model_run_id : string) : api W unit :=
  match n with
  | O => mret tt
  | S n' => update_run (fun c => Heartbeat c ModelRun model_run_id);; heartbeats n' model_run_id
  end.
Definition train (model_run_id dataset_id : string) (n_comp : Z) (percentile : F) : api W (PcaArtifact F) := fun st =>
  let '(st', _) := heartbeats beats model_run_id st in
  (st', train_artifact dataset_id n_comp percentile (db (world st))).
(** WriteArtifactJson on the files of the world. *)
Definition write_artifact (a : PcaArtifact F) (path : string) : api W unit := fun st =>
  match WriteArtifactJson (text := text) a path (can_open path) with
  | Ok t => (MkApi (calls st) (reads st) (MkTrain (db (world st)) (<[path := t]> (files (world st)))), Ok tt)
  | Throw e => (st, Throw e)
  end.

(** How the job ends when it does not throw. *)
Inductive train_end := NotMine | Cancelled | Trained (a : PcaArtifact F).

Definition train_body (model_run_id dataset_id : string) (n_comp : Z) (percentile : F) : api W train_end :=
  lift (match mkdir_fault with Some e => Throw e | None => Ok tt end);;
  artifact ← train model_run_id dataset_id n_comp percentile;
  stop ← stopped env;
  if (stop : bool) then
    update_run (fun c => UpdateModelRunStatus c model_run_id "CANCELLED" "" "" JNull);; mret Cancelled
  else
    write_artifact artifact (output_path model_run_id);;
    update_run (fun c => UpdateModelRunStatus c model_run_id "COMPLETED" (output_path model_run_id) "" JNull);;
    update_run (fun c => UpdateTrialEligibility c model_run_id true "" (threshold artifact) "evaluation_artifact_v1");;
    mret (Trained artifact).

Definition train_error (e : exn) : json F :=
  obj [("code", JStr (ClassifyTrainError (exn_what e))); ("message", JStr (String.substring 0 200 (exn_what e)));
       ("stage", JStr "train")].
Definition train_failed (model_run_id : string) (e : exn) : api W train_end :=
  update_run (fun c => UpdateModelRunStatus c model_run_id "FAILED" "" (exn_what e) (train_error e));;
  update_run (fun c => UpdateTrialEligibility c model_run_id false "FAILED" 0%num "");;
  throw e.

(** The job may start: it won the transition, or the run is already running. *)
Definition train_start (model_run_id : string) : api W bool :=
  won ← db_flip env (fun c w => let '(s, b) := TryTransitionModelRunStatus c model_run_id "PENDING" "RUNNING" (db w) in
                                (MkTrain s (files w), b));
  if (won : bool) then mret true else
    model_info ← db_ask env (fun c w => GetModelRun c model_run_id (db w));
    status ← lift (jvalue get_string "status" "UNKNOWN" model_info);
    mret (status =? "RUNNING")%string.

Definition RunPcaTraining (model_run_id dataset_id : string) (n_comp : Z) (percentile : F) : api W train_end :=
  mine ← train_start model_run_id;
  if negb mine then mret NotMine else
  try_catch (train_body model_run_id dataset_id n_comp percentile) (train_failed model_run_id).
End train.
Arguments NotMine {F}.
Arguments Cancelled {F}.
Arguments Trained {F} a.

(** ** What the job does to its run *)
Section outcome.
Context {F : Type} `{Num F} `{!Libm F} `{Postgres} {text : Type} `{!JsonText F text}.
Abbreviation W := (TrainWorld F text).
Context (env : ApiEnv).
Context (read_fault : nat -> option exn) (env_batch : option string) (beats : nat).
Context (mkdir_fault : option exn) (can_open : string -> bool).
Implicit Types (st : ApiState W) (w : W) (id ds : string) (r : Row F).

(** The job's rows; one, since the id is the key of the table. *)
Definition own id w : list (Row F) := where_is "model_runs" "model_run_id" id (db w).

(** Only the job's row and its artifact change. *)
Definition same_run id r r' : Prop :=
  text_is "model_run_id" id r' = text_is "model_run_id" id r /\ (text_is "model_run_id" id r = false -> r' = r).
Definition only_run id w w' : Prop :=
  (forall t, t <> "model_runs" -> rows (db w') t = rows (db w) t) /\
  Forall2 (same_run id) (rows (db w) "model_runs") (rows (db w') "model_runs") /\
  (forall p, p <> output_path id -> files w' !! p = files w !! p).
#[global] Instance same_run_refl id : Reflexive (same_run id).
Proof. by intros r. Qed.
#[global] Instance same_run_trans id : Transitive (same_run id).
Proof. intros r1 r2 r3 [E1 H1] [E2 H2]. split; [congruence|]. intros Hf. rewrite H2 by congruence. by apply H1. Qed.
#[global] Instance only_run_refl id : Reflexive (only_run id).
Proof. by intros w. Qed.
#[global] Instance only_run_trans id : Transitive (only_run id).
Proof.
  intros w1 w2 w3 (T1 & R1 & P1) (T2 & R2 & P2). split_and!.
  - intros t Ht. by rewrite T2, T1.
  - by etrans.
  - intros p Hp. by rewrite P2, P1.
Qed.

(** One UPDATE of the job's row, by a call that may fail. *)
Definition updates_run id (f : Call -> Store F -> Store F) (cols : Call -> list (string * sql F)) : Prop :=
  (forall c s, f c s = match c_fault c with
                       | Some _ => s
                       | None => (update_rows "model_runs" (text_is "model_run_id" id) (set_columns (cols c)) s).1
                       end) /\
  (forall c, "model_run_id" ∉ (cols c).*1).

Lemma updates_run_only id f cols c w : updates_run id f cols -> only_run id w (on_db f c w).
Proof.
  intros [Hf Hkey]. unfold only_run, on_db. cbn [db files]. rewrite Hf.
  destruct (c_fault c); [done|]. split_and!; [|rewrite update_rows_eq|done].
  - intros t Ht. by rewrite update_rows_other.
  - apply Forall2_fmap_r, Forall_Forall2_diag, Forall_forall. intros r _. unfold same_run. cbn [compose].
    destruct (text_is "model_run_id" id r) eqn:E; [|by rewrite E].
    split; [|discriminate]. by rewrite text_is_set_columns_other.
Qed.
Lemma updates_run_own id f cols c w : updates_run id f cols -> c_fault c = None ->
  own id (on_db f c w) = set_columns (cols c) <$> own id w.
Proof.
  intros [Hf Hkey] Hc. unfold own, on_db. cbn [db]. rewrite Hf, Hc.
  rewrite where_is_update_where by (intros r; by apply text_is_set_columns_other).
  apply list_fmap_ext. intros i r Hi. apply list_elem_of_lookup_2 in Hi. unfold where_is in Hi.
  by apply list_elem_of_filter in Hi as [-> _].
Qed.

(** The columns each call of the job writes. *)
Definition heartbeat_columns (c : Call) : list (string * sql F) := [("updated_at", STime (c_now c))].
Definition completed_columns (path : string) (c : Call) : list (string * sql F) :=
  [("status", SText "COMPLETED"); ("artifact_path", SText path); ("completed_at", STime (c_now c));
   ("updated_at", STime (c_now c))].
Definition ended_columns (status error : string) (summary : json F) (c : Call) : list (string * sql F) :=
  [("status", SText status); ("error", SText error); ("error_summary", jsonb_or_null summary);
   ("completed_at", STime (c_now c)); ("updated_at", STime (c_now c))].
Definition eligibility_columns (b : bool) (reason : string) (v : F) (source : string) (c : Call) : list (string * sql F) :=
  [("is_eligible", SBool b); ("eligibility_reason", SText reason); ("selection_metric_value", SDouble v);
   ("selection_metric_source", text_or_null source); ("selection_metric_computed_at", STime (c_now c))].

Ltac updates := split; [intros; apply swallowed_update|intros; by_deciding].
Lemma heartbeat_updates id : updates_run id (fun c => Heartbeat c ModelRun id) heartbeat_columns.
Proof. updates. Qed.
Lemma completed_updates id path :
  updates_run id (fun c => UpdateModelRunStatus c id "COMPLETED" path "" JNull) (completed_columns path).
Proof. updates. Qed.
Lemma cancelled_updates id :
  updates_run id (fun c => UpdateModelRunStatus c id "CANCELLED" "" "" JNull) (ended_columns "CANCELLED" "" JNull).
Proof. updates. Qed.
Lemma failed_updates id e j :
  updates_run id (fun c => UpdateModelRunStatus c id "FAILED" "" e j) (ended_columns "FAILED" e j).
Proof. updates. Qed.
Lemma eligibility_updates id b reason v source :
  updates_run id (fun c => UpdateTrialEligibility c id b reason v source) (eligibility_columns b reason v source).
Proof. updates. Qed.

(** Nothing becomes COMPLETED, no file changes. *)
Definition not_completed r r' : Prop :=
  text_is "status" "COMPLETED" r' = true -> text_is "status" "COMPLETED" r = true.
#[global] Instance not_completed_refl : Reflexive not_completed.
Proof. intros r Hr. exact Hr. Qed.
#[global] Instance not_completed_trans : Transitive not_completed.
Proof. intros r1 r2 r3 H12 H23 Hc. by apply H12, H23. Qed.
Definition harmless w w' : Prop :=
  Forall2 not_completed (rows (db w) "model_runs") (rows (db w') "model_runs") /\ files w' = files w.
#[global] Instance harmless_refl : Reflexive harmless.
Proof. intros w. split; reflexivity. Qed.
#[global] Instance harmless_trans : Transitive harmless.
Proof. intros w1 w2 w3 [R1 F1] [R2 F2]. split; [by etrans|by rewrite F2]. Qed.
Lemma harmless_where (p : Row F -> bool) cols w :
  (forall r, not_completed r (set_columns cols r)) ->
  harmless w (MkTrain (update_rows "model_runs" p (set_columns cols) (db w)).1 (files w)).
Proof.
  intros Hcols. split; [|done]. cbn [db]. rewrite update_rows_eq.
  apply Forall2_fmap_r, Forall_Forall2_diag, Forall_true. intros r. cbn [compose].
  destruct (p r); [apply Hcols|reflexivity].
Qed.
Lemma updates_run_harmless id f cols c w : updates_run id f cols ->
  (forall c r, not_completed r (set_columns (cols c) r)) ->
  harmless w (on_db f c w).
Proof.
  intros [Hf _] Hcols. unfold on_db. rewrite Hf. destruct (c_fault c); [by destruct w|]. by apply harmless_where.
Qed.

(** ** The parts of the job *)
Abbreviation update := (update_run (text := text) env).
Lemma update_respects (R : W -> W -> Prop) f : (forall c w, R w (on_db f c w)) -> respects R (update f).
Proof. intros Hf. by apply respects_do. Qed.
Lemma heartbeats_respect (R : W -> W -> Prop) `{!Reflexive R} `{!Transitive R} id n :
  (forall c w, R w (on_db (fun c => Heartbeat c ModelRun id) c w)) -> respects R (heartbeats env n id).
Proof.
  intros Hb. induction n as [|n IH]; cbn [heartbeats]; [by apply respects_ret|].
  apply respects_bind; [done|by apply update_respects|done].
Qed.
Lemma heartbeats_ok n id st : (heartbeats env n id st).2 = Ok tt.
Proof. revert st. induction n as [|n IH]; intros st; [done|]. apply IH. Qed.
Lemma heartbeats_reads n id st : reads (heartbeats env n id st).1 = reads st.
Proof. revert st. induction n as [|n IH]; intros st; [done|]. exact (IH _). Qed.
Lemma train_respects (R : W -> W -> Prop) `{!Reflexive R} `{!Transitive R} id ds n p :
  (forall c w, R w (on_db (fun c => Heartbeat c ModelRun id) c w)) ->
  respects R (train env read_fault env_batch beats id ds n p).
Proof.
  intros Hb st. pose proof (heartbeats_respect R id beats Hb st) as Hr. unfold train.
  by destruct (heartbeats env beats id st).
Qed.
Definition pending id : Row F -> bool := fun r => text_is "model_run_id" id r && text_is "status" "PENDING" r.
Lemma transition_eq id c (s : Store F) :
  (TryTransitionModelRunStatus c id "PENDING" "RUNNING" s).1 =
  match c_fault c with
  | Some _ => s
  | None => (update_rows "model_runs" (pending id) (set_columns [("status", SText "RUNNING")]) s).1
  end.
Proof. unfold TryTransitionModelRunStatus, work. by destruct (c_fault c). Qed.
Lemma transition_only id c w :
  only_run id w (MkTrain (TryTransitionModelRunStatus c id "PENDING" "RUNNING" (db w)).1 (files w)).
Proof.
  rewrite transition_eq. destruct (c_fault c); [by destruct w|]. split_and!; [| |done]; cbn [db].
  - intros t Ht. by apply update_rows_other.
  - rewrite update_rows_eq. apply Forall2_fmap_r, Forall_Forall2_diag, Forall_true. intros r. cbn [compose].
    unfold same_run, pending. destruct (text_is "model_run_id" id r) eqn:E; cbn [andb]; [|by rewrite E].
    split; [|discriminate]. destruct (text_is "status" "PENDING" r); [|done].
    rewrite text_is_set_columns_other by by_deciding. done.
Qed.
Lemma running_not_completed r : not_completed r (set_columns [("status", SText "RUNNING")] r).
Proof. unfold not_completed, text_is. cbn. by sql_simpl. Qed.
Lemma transition_harmless id c w :
  harmless w (MkTrain (TryTransitionModelRunStatus c id "PENDING" "RUNNING" (db w)).1 (files w)).
Proof.
  rewrite transition_eq. destruct (c_fault c); [by destruct w|]. apply harmless_where, running_not_completed.
Qed.

Lemma ended_not_completed status e j c r : status <> "COMPLETED" ->
  not_completed r (set_columns (ended_columns status e j c) r).
Proof.
  intros Hs. unfold not_completed, text_is, ended_columns. cbn [set_columns foldr fst snd]. sql_simpl.
  by intros ?%String.eqb_eq.
Qed.
Lemma status_not_completed l r : "status" ∉ l.*1 -> not_completed r (set_columns l r).
Proof. intros Hl. unfold not_completed. by rewrite text_is_set_columns_other. Qed.

Lemma write_artifact_only id a : respects (only_run id) (write_artifact can_open a (output_path id)).
Proof.
  intros st. unfold write_artifact. destruct (WriteArtifactJson _ _ _); [|done]. split_and!; [done|done|].
  intros p Hp. cbn [fst world files]. by rewrite lookup_insert_ne.
Qed.
Lemma update_only id f cols : updates_run id f cols -> respects (only_run id) (update f).
Proof. intros Hf. apply update_respects. intros c w. by eapply updates_run_only. Qed.
Lemma start_only id : respects (only_run id) (train_start (text := text) env id).
Proof.
  unfold train_start. apply respects_bind; [apply _| |intros []; respecting].
  apply respects_flip. intros c w. pose proof (transition_only id c w) as Hw. by destruct (TryTransitionModelRunStatus _ _ _ _ _).
Qed.

Abbreviation run := (RunPcaTraining (text := text) env read_fault env_batch beats mkdir_fault can_open).
Lemma failed_only id e : respects (only_run id) (train_failed (text := text) env id e).
Proof.
  unfold train_failed, throw. apply respects_bind; [apply _|eapply update_only, failed_updates|intros _].
  apply respects_bind; [apply _|eapply update_only, eligibility_updates|intros _]. respecting.
Qed.
Lemma body_only id ds n p :
  respects (only_run id) (train_body (text := text) env read_fault env_batch beats mkdir_fault can_open id ds n p).
Proof.
  unfold train_body. apply respects_bind; [apply _|respecting|intros _].
  apply respects_bind; [apply _|apply train_respects; [apply _..|intros c w; eapply updates_run_only, heartbeat_updates]|intros a].
  apply respects_bind; [apply _|intros st; done|intros [|]].
  - apply respects_bind; [apply _|eapply update_only, cancelled_updates|intros _]. respecting.
  - apply respects_bind; [apply _|apply write_artifact_only|intros _].
    apply respects_bind; [apply _|eapply update_only, completed_updates|intros _].
    apply respects_bind; [apply _|eapply update_only, eligibility_updates|intros _]. respecting.
Qed.
Lemma run_only id ds n p : respects (only_run id) (run id ds n p).
Proof.
  unfold RunPcaTraining. apply respects_bind; [apply _|apply start_only|intros b]. destruct (negb b); [respecting|].
  apply respects_try; [apply _|apply body_only|apply failed_only].
Qed.

Lemma update_harmless id f cols : updates_run id f cols ->
  (forall c r, not_completed r (set_columns (cols c) r)) -> respects harmless (update f).
Proof. intros Hf Hc. apply update_respects. intros c w. by eapply updates_run_harmless. Qed.
Lemma start_harmless id : respects harmless (train_start (text := text) env id).
Proof.
  unfold train_start. apply respects_bind; [apply _| |intros []; respecting].
  apply respects_flip. intros c w. pose proof (transition_harmless id c w) as Hw. by destruct (TryTransitionModelRunStatus _ _ _ _ _).
Qed.
Lemma heartbeat_harmless id c w : harmless w (on_db (fun c => Heartbeat c ModelRun id) c w).
Proof. eapply updates_run_harmless; [apply heartbeat_updates|]. intros. by apply status_not_completed; by_deciding. Qed.
Lemma cancelled_harmless id : respects harmless (update (fun c => UpdateModelRunStatus c id "CANCELLED" "" "" JNull)).
Proof. eapply update_harmless; [apply cancelled_updates|]. intros. by apply ended_not_completed. Qed.
Lemma failed_harmless id e : respects harmless (train_failed (text := text) env id e).
Proof.
  unfold train_failed, throw. apply respects_bind; [apply _| |intros _]; [|apply respects_bind; [apply _| |intros _; respecting]].
  - eapply update_harmless; [apply failed_updates|]. intros. by apply ended_not_completed.
  - eapply update_harmless; [apply eligibility_updates|]. intros. apply status_not_completed. by_deciding.
Qed.

(** ** The artifact *)
Abbreviation artifact := (train_artifact read_fault env_batch).
Lemma artifact_same id ds n p w w' : only_run id w w' -> artifact ds n p (db w') = artifact ds n p (db w).
Proof.
  intros (Ht & _). unfold train_artifact, train_table, dataset_rows, where_is. by rewrite Ht.
Qed.
(** The artifact trained on the dataset is in its file. *)
Definition artifact_written id ds n p w w' : Prop :=
  exists a t, artifact ds n p (db w) = Ok a /\
    WriteArtifactJson (text := text) a (output_path id) (can_open (output_path id)) = Ok t /\
    files w' !! output_path id = Some t.

Lemma train_ok id ds n p st : let '(st', r) := train env read_fault env_batch beats id ds n p st in
  only_run id (world st) (world st') /\ harmless (world st) (world st') /\ r = artifact ds n p (db (world st)).
Proof.
  pose proof (heartbeats_respect (only_run id) id beats
    (fun c w => updates_run_only id _ _ c w (heartbeat_updates id)) st) as Ho.
  pose proof (heartbeats_respect harmless id beats (heartbeat_harmless id) st) as Hh.
  unfold train. destruct (heartbeats env beats id st) as [st' u]. cbn [fst] in *.
  split_and!; [done|done|by apply (artifact_same id)].
Qed.

Lemma body_artifact id ds n p st :
  let '(st', r) := train_body env read_fault env_batch beats mkdir_fault can_open id ds n p st in
  harmless (world st) (world st') \/ (is_ok r = true /\ artifact_written id ds n p (world st) (world st')).
Proof.
  unfold train_body. destruct mkdir_fault as [e|]; [left; done|]. cbv [mbind api_bind lift].
  pose proof (train_ok id ds n p st) as Ht. destruct (train _ _ _ _ _ _ _ _ st) as [st1 [a|e]]; [|left; by destruct Ht as (_&?&_)].
  destruct Ht as (_ & Hh & Ha). unfold stopped at 1. cbv beta iota. destruct (stop_at env (reads st1)).
  - left. exact (harmless_trans _ _ _ Hh (cancelled_harmless id (MkApi (calls st1) (S (reads st1)) (world st1)))).
  - unfold write_artifact. destruct (WriteArtifactJson _ _ _) as [t|e] eqn:Et; [|left; exact Hh].
    right. split; [done|]. exists a, t. split_and!; [done|done|]. cbn [world files update_run db_do db_run on_db].
    by rewrite lookup_insert_eq.
Qed.

(** ** The row, when no call of the client fails *)
Context (Hquiet : forall n, c_fault (db_env env n) = None).

Lemma update_own id f cols st r : updates_run id f cols -> own id (world st) = [r] ->
  own id (world (update f st).1) = [set_columns (cols (db_env env (calls st))) r].
Proof.
  intros Hf Hr. unfold update_run, db_do, db_run. cbn [fst world].
  by rewrite (updates_run_own id f cols) by done; rewrite Hr.
Qed.
Lemma heartbeats_own n id st r : own id (world st) = [r] ->
  exists r', own id (world (heartbeats env n id st).1) = [r'] /\ forall c, c <> "updated_at" -> column r' c = column r c.
Proof.
  revert st r. induction n as [|n IH]; intros st r Hr; [by exists r|]. cbn [heartbeats].
  pose proof (update_own id _ _ st r (heartbeat_updates id) Hr) as H1.
  destruct (IH _ _ H1) as (r' & Hr' & Hc). exists r'. split; [exact Hr'|].
  intros c Hne. rewrite Hc by done. apply column_set_columns_other. cbn. by intros ->%list_elem_of_singleton.
Qed.
Lemma start_own id st r : own id (world st) = [r] -> text_is "status" "PENDING" r = true ->
  exists st', train_start env id st = (st', Ok true) /\ reads st' = reads st /\ files (world st') = files (world st) /\
    own id (world st') = [set_columns [("status", SText "RUNNING")] r].
Proof.
  intros Hr Hp. unfold train_start, TryTransitionModelRunStatus, work. cbv [mbind api_bind db_flip db_run].
  rewrite Hquiet. fold (pending id).
  assert (countb (pending id) (rows (db (world st)) "model_runs") = 1) as Hn.
  { unfold pending. rewrite (countb_where "model_runs"). unfold own in Hr. rewrite Hr.
    unfold countb. cbn [filter]. by rewrite filter_cons, decide_True. }
  unfold update_rows. rewrite Hn. cbn [fst snd Z.of_nat Z.ltb Z.compare]. eexists. split_and!; [done..|].
  cbn [world]. unfold own. cbn [db].
  change (put "model_runs" _ _) with (update_rows "model_runs" (pending id) (set_columns [("status", SText "RUNNING")]) (db (world st))).1.
  rewrite where_is_update_where by (intros r1; apply text_is_set_columns_other; by_deciding).
  unfold own in Hr. rewrite Hr. cbn. unfold pending. rewrite Hp, andb_true_r.
  assert (r ∈ where_is "model_runs" "model_run_id" id (db (world st))) as Hin by (rewrite Hr; left).
  unfold where_is in Hin. by apply list_elem_of_filter in Hin as [-> _].
Qed.

(** What training comes to: the artifact and its text, or nothing when the job
    was stopped meanwhile. *)
Definition train_outcome id ds n p (s : Store F) (stop : bool) : res (option (PcaArtifact F * text)) :=
  match mkdir_fault with Some e => Throw e | None =>
    a ← artifact ds n p s;
    if stop then Ok None else
    t ← WriteArtifactJson (text := text) a (output_path id) (can_open (output_path id)); Ok (Some (a, t))
  end.

Definition completed_row id (a : PcaArtifact F) r' : Prop :=
  column r' "status" = SText "COMPLETED" /\ column r' "artifact_path" = SText (output_path id) /\
  column r' "is_eligible" = SBool true /\ column r' "selection_metric_value" = SDouble (threshold a).
Definition cancelled_row r r' : Prop :=
  column r' "status" = SText "CANCELLED" /\ column r' "artifact_path" = column r "artifact_path" /\
  column r' "is_eligible" = column r "is_eligible".
Definition failed_row e r' : Prop :=
  column r' "status" = SText "FAILED" /\ column r' "error" = SText (exn_what e) /\
  column r' "error_summary" = SJson (train_error e) /\ column r' "is_eligible" = SBool false.

Lemma update_eq f st : update f st = (MkApi (S (calls st)) (reads st) (on_db f (db_env env (calls st)) (world st)), Ok tt).
Proof. done. Qed.

Lemma body_outcome id ds n p st r : own id (world st) = [r] ->
  let '(st', res) := train_body env read_fault env_batch beats mkdir_fault can_open id ds n p st in
  exists r', own id (world st') = [r'] /\
  match train_outcome id ds n p (db (world st)) (stop_at env (reads st)) with
  | Ok (Some (a, t)) => res = Ok (Trained a) /\ files (world st') = <[output_path id := t]> (files (world st)) /\ completed_row id a r'
  | Ok None => res = Ok Cancelled /\ files (world st') = files (world st) /\ cancelled_row r r'
  | Throw e => res = Throw e /\ files (world st') = files (world st)
  end.
Proof.
  intros Hr. unfold train_body, train_outcome. destruct mkdir_fault as [e|].
  { exists r. done. }
  cbv [mbind api_bind lift res_bind].
  pose proof (train_ok id ds n p st) as Ht. pose proof (heartbeats_own beats id st r Hr) as (r1 & Hr1 & Hc1).
  assert (Hreads : reads (heartbeats env beats id st).1 = reads st) by apply heartbeats_reads.
  unfold train in *. destruct (heartbeats env beats id st) as [st1 u]. cbn [fst] in *.
  destruct Ht as (_ & (_ & Hfiles) & _). destruct (artifact ds n p (db (world st))) as [a|e].
  2:{ exists r1. by rewrite Hfiles. }
  unfold stopped at 1. cbv beta iota. rewrite Hreads. destruct (stop_at env (reads st)).
  - rewrite update_eq. eexists. split; [by apply (update_own id _ _ (MkApi (calls st1) (S (reads st1)) (world st1)) r1 (cancelled_updates id))|].
    split_and!; [done|by cbn|]. unfold cancelled_row, ended_columns. cbn [set_columns foldr fst snd]. sql_simpl.
    by rewrite !Hc1.
  - unfold write_artifact. cbn [calls reads world files]. destruct (WriteArtifactJson _ _ _) as [t|e].
    2:{ exists r1. by rewrite <- Hfiles. }
    rewrite !update_eq. cbn [calls reads world].
    set (st2 := MkApi (calls st1) (S (reads st1)) (MkTrain (db (world st1)) (<[output_path id := t]> (files (world st1))))).
    pose proof (update_own id _ _ st2 r1 (completed_updates id (output_path id)) Hr1) as Hr2.
    pose proof (update_own id _ _ _ _ (eligibility_updates id true "" (threshold a) "evaluation_artifact_v1") Hr2) as Hr3.
    eexists. split; [exact Hr3|]. split_and!; [done|by rewrite <- Hfiles|].
    unfold completed_row, eligibility_columns, completed_columns. cbn [set_columns foldr fst snd]. by sql_simpl.
Qed.

Lemma failed_outcome id e st r : own id (world st) = [r] ->
  let '(st', res) := train_failed (text := text) env id e st in
  res = Throw e /\ files (world st') = files (world st) /\ exists r', own id (world st') = [r'] /\ failed_row e r'.
Proof.
  intros Hr. unfold train_failed, throw, lift. cbv [mbind api_bind]. rewrite !update_eq. cbn [calls reads world].
  pose proof (update_own id _ _ st r (failed_updates id (exn_what e) (train_error e)) Hr) as Hr1.
  pose proof (update_own id _ _ _ _ (eligibility_updates id false "FAILED" 0%num "") Hr1) as Hr2.
  split_and!; [done|done|]. eexists. split; [exact Hr2|].
  unfold failed_row, eligibility_columns, ended_columns. cbn [set_columns foldr fst snd]. by sql_simpl.
Qed.

Lemma cancelled_started r r' : cancelled_row (set_columns [("status", SText "RUNNING")] r) r' -> cancelled_row r r'.
Proof. unfold cancelled_row. cbn [set_columns foldr fst snd]. by sql_simpl. Qed.
Lemma run_outcome id ds n p st r : own id (world st) = [r] -> text_is "status" "PENDING" r = true ->
  let '(st', res) := run id ds n p st in
  only_run id (world st) (world st') /\
  exists r', own id (world st') = [r'] /\
  match train_outcome id ds n p (db (world st)) (stop_at env (reads st)) with
  | Ok (Some (a, t)) => res = Ok (Trained a) /\ files (world st') = <[output_path id := t]> (files (world st)) /\ completed_row id a r'
  | Ok None => res = Ok Cancelled /\ files (world st') = files (world st) /\ cancelled_row r r'
  | Throw e => res = Throw e /\ (catchable e = true -> files (world st') = files (world st) /\ failed_row e r')
  end.
Proof.
  intros Hr Hp. pose proof (run_only id ds n p st) as Honly. pose proof (start_only id st) as Hs.
  destruct (start_own id st r Hr Hp) as (st1 & Hst & Hreads & Hfiles & Hr1).
  rewrite Hst in Hs. cbn [fst] in Hs.
  pose proof (body_outcome id ds n p st1 _ Hr1) as Hb. unfold train_outcome in *.
  rewrite (artifact_same id ds n p _ _ Hs), Hreads, Hfiles in Hb.
  unfold RunPcaTraining in *. cbv [mbind api_bind] in *. rewrite Hst in *. cbn [negb] in *. unfold try_catch in *.
  destruct (train_body _ _ _ _ _ _ _ _ _ _ st1) as [st2 res]. destruct Hb as (r2 & Hr2 & Hb).
  destruct res as [out|e].
  - split; [exact Honly|]. exists r2. split; [exact Hr2|]. destruct (match mkdir_fault with Some _ => _ | None => _ end) as [[[a t]|]|e];
      [done|destruct Hb as (?&?&?%cancelled_started); done|by destruct Hb].
  - destruct (catchable e) eqn:Ec; cycle 1.
    { split; [exact Honly|]. exists r2. split; [exact Hr2|]. destruct (match mkdir_fault with Some _ => _ | None => _ end) as [[[a t]|]|e'];
      [by destruct Hb|by destruct Hb|]. destruct Hb as [[= ->] Hb]. split; [done|congruence]. }
    pose proof (failed_outcome id e st2 r2 Hr2) as Hf. destruct (train_failed env id e st2) as [st3 res3].
    destruct Hf as (Hres & Hf3 & r3 & Hr3 & Hrow). split; [exact Honly|]. exists r3. split; [exact Hr3|].
    destruct (match mkdir_fault with Some _ => _ | None => _ end) as [[[a t]|]|e']; [by destruct Hb|by destruct Hb|].
    destruct Hb as [[= ->] Hb]. split; [done|]. intros _. split; [congruence|done].
Qed.
End outcome.

(** C15: the training job records what became of it.  Started on a pending run,
    with no failing call of the client, it leaves the run COMPLETED, eligible,
    with its threshold and the path of the artifact it wrote; or CANCELLED, when
    the stop flag is up after training; or FAILED with the message of the
    exception and its summary, ineligible, when the directory, the training or
    the file failed, and then it throws on so that the job manager sees the
    failure too.  Nothing but the run's row and the artifact's file changes. *)
Theorem training_outcome_is_recorded {F} `{Num F} `{!Libm F} `{Postgres} {text} `{!JsonText F text}
  (env : ApiEnv) (read_fault : nat -> option exn) (env_batch : option string) (beats : nat)
  (mkdir_fault : option exn) (can_open : string -> bool) (id ds : string) (n : Z) (p : F)
  (st : ApiState (TrainWorld F text)) (r : Row F)
  (Hquiet : forall n, c_fault (db_env env n) = None)
  (Hrow : own id (world st) = [r]) (Hpending : text_is "status" "PENDING" r = true) :
  let '(st', res) := RunPcaTraining env read_fault env_batch beats mkdir_fault can_open id ds n p st in
  only_run id (world st) (world st') /\
  exists r', own id (world st') = [r'] /\
  match train_outcome read_fault env_batch mkdir_fault can_open id ds n p (db (world st)) (stop_at env (reads st)) with
  | Ok (Some (a, t)) => res = Ok (Trained a) /\ files (world st') = <[output_path id := t]> (files (world st)) /\ completed_row id a r'
  | Ok None => res = Ok Cancelled /\ files (world st') = files (world st) /\ cancelled_row r r'
  | Throw e => res = Throw e /\ (catchable e = true -> files (world st') = files (world st) /\ failed_row e r')
  end.
Proof.
  apply (run_outcome env read_fault env_batch beats mkdir_fault can_open Hquiet id ds n p st r Hrow Hpending).
Qed.

(** C17: a run is COMPLETED only with its artifact on disk.  Whichever calls of
    the client fail and however the job ends, it changes only its own row and
    its own file; and unless the artifact trained on the dataset has been
    written to the path the row is given, no row becomes COMPLETED and no file
    changes. *)
Theorem completed_runs_have_artifacts {F} `{Num F} `{!Libm F} `{Postgres} {text} `{!JsonText F text}
  (env : ApiEnv) (read_fault : nat -> option exn) (env_batch : option string) (beats : nat)
  (mkdir_fault : option exn) (can_open : string -> bool) (id ds : string) (n : Z) (p : F)
  (st : ApiState (TrainWorld F text)) :
  let '(st', res) := RunPcaTraining env read_fault env_batch beats mkdir_fault can_open id ds n p st in
  only_run id (world st) (world st') /\
  (harmless (world st) (world st') \/
   (is_ok res = true /\ artifact_written read_fault env_batch can_open id ds n p (world st) (world st'))).
Proof.
  pose proof (run_only env read_fault env_batch beats mkdir_fault can_open id ds n p st) as Honly.
  pose proof (start_harmless (text := text) env id st) as Hh. pose proof (start_only (text := text) env id st) as Hs.
  unfold RunPcaTraining in *. cbv [mbind api_bind] in *.
  destruct (train_start env id st) as [st1 [[|]|e]]; cbn [negb fst] in *; [|split; [exact Honly|by left]..].
  pose proof (body_artifact env read_fault env_batch beats mkdir_fault can_open id ds n p st1) as Hb.
  unfold try_catch in *. destruct (train_body _ _ _ _ _ _ _ _ _ _ st1) as [st2 [out|e]].
  - split; [exact Honly|]. destruct Hb as [Hb|[_ (a & t & Ha & Ht)]]; [left; by etrans|right]. split; [done|].
    exists a, t. split; [|exact Ht]. by rewrite <- (artifact_same read_fault env_batch id ds n p _ _ Hs).
  - destruct Hb as [Hb|[[=] _]]. pose proof (failed_harmless (text := text) env id e st2) as Hf.
    destruct (catchable e); [|split; [exact Honly|left; by etrans]].
    destruct (train_failed env id e st2) as [st3 res3]. split; [exact Honly|left]. cbn [fst] in *. etrans; [exact Hh|]. by etrans.
Qed.

(** ** On a concrete store *)
#[local] Existing Instance pg_example.
#[local] Instance tree_text_float : JsonText float (option (json float)) := tree_text float.
#[local] Existing Instance libm_example.

(** The example store: a pending run over a dataset without records. *)
Definition train_start_example : ApiState (TrainWorld float (option (json float))) := MkApi 0 0 (MkTrain store_example ∅).
Definition run_row : Row float := default ∅ (head (own "id-0" (world train_start_example))).

Lemma training_outcome_is_recorded_witness :
  own "id-0" (world train_start_example) = [run_row] /\
  let '(st', res) := RunPcaTraining quiet_env (fun _ => None) None 0 None (fun _ => true) "id-0" "ds" 3 99%float train_start_example in
  res = runtime_error "Not enough samples to train PCA" /\
  exists r', own "id-0" (world st') = [r'] /\ column r' "status" = SText "FAILED".
Proof.
  assert (Hrow : own "id-0" (world train_start_example) = [run_row]) by reflexivity.
  split; [exact Hrow|].
  pose proof (training_outcome_is_recorded quiet_env (fun _ => None) None 0 None (fun _ => true) "id-0" "ds" 3 99%float
    train_start_example run_row (fun _ => eq_refl) Hrow eq_refl) as Ht.
  destruct (RunPcaTraining _ _ _ _ _ _ _ _ _ _ _) as [st' res]. destruct Ht as (_ & r' & Hr' & Ht).
  destruct (train_outcome _ _ _ _ _ _ _ _ _ _) as [o|e] eqn:E; vm_compute in E; [discriminate|]. injection E as <-.
  destruct Ht as (Hres & Ht). destruct (Ht eq_refl) as (_ & Hs & _). split; [exact Hres|]. exists r'. by split.
Defined.
