(* ===== verification/Tuning.v ===== *)
(** Hyperparameter tuning: ApiServer::OrchestrateTuning (src/src/api_server.cpp).
    One job creates a run per candidate, hands the trials to the job manager, a
    bounded number at a time, and polls the database for their ends.

    The job manager is the one of JobManager.v: the orchestrator holds one of
    its slots and every trial takes another. *)
From stdpp Require Import base gmap strings list fin_maps pretty.
From Stdlib Require Import ZArith Lia Floats.
From S2P Require Import Prelude Num Json Linalg Detectors PcaModel Trainer Hpo JobState JobManager Sql DbClient DbFacts Workers Queries Http TrainJob.

Local Open Scope string_scope.
Local Open Scope list_scope.

(** What RunPcaTraining captures in the closure it hands to the job manager. *)
Record Training (F : Type) := MkRun {
  tr_model_run_id : string; tr_dataset_id : string; tr_n_components : Z; tr_percentile : F; tr_rid : string }.
Arguments MkRun {F} _ _ _ _ _.
Arguments tr_model_run_id {F} _.
Arguments tr_rid {F} _.

(** The observable steps of the orchestrator: a training handed to the job
    manager, a trial found ended. *)
Inductive tune_event (F : Type) := Launched (t : Training F) | Ended (tid : string).
Arguments Launched {F} t.
Arguments Ended {F} tid.

(** The store, the job manager, and the steps so far. *)
Record TuneWorld (F : Type) := MkTune { store : Store F; manager : JobManager; log : list (tune_event F) }.
Arguments MkTune {F} store manager log.
Arguments store {F} t.
Arguments manager {F} t.
Arguments log {F} t.

Record TuningTask (F : Type) := MkTask {
  parent_run_id : string; tk_name : string; tk_dataset_id : string; tk_rid : string;
  tk_trials : list (@TrainingConfig F); tk_max_concurrency : Z }.
Arguments MkTask {F} _ _ _ _ _ _.
Arguments parent_run_id {F} _.
Arguments tk_name {F} _.
Arguments tk_dataset_id {F} _.
Arguments tk_rid {F} _.
Arguments tk_trials {F} _.
Arguments tk_max_concurrency {F} _.

Section tuning.
Context {F : Type} `{Num F} `{Postgres}.
Abbreviation W := (TuneWorld F).
Context (env : ApiEnv).
(** What the other threads do to the world during the n-th sleep of the
    orchestrator: trials run and end, other requests come in. *)
Context (others : nat -> Store F -> JobManager -> Store F * JobManager).
(** Whether the system can create the thread of the n-th call. *)
Context (spawns : nat -> bool).

Definition on_store (f : Store F -> Store F) (w : W) : W := MkTune (f (store w)) (manager w) (log w).

(** [job_manager_->StartJob("train-" + id, ...)]: it may throw.  A join that
    blocks for ever is no result of the call. *)
Definition run_training (t : Training F) : api W unit := fun st =>
  match StartJob (manager (world st)) ("train-" +:+ tr_model_run_id t) (tr_rid t) (spawns (calls st)) with
  | Some (m, r) =>
      (MkApi (S (calls st)) (reads st)
         (MkTune (store (world st)) m (log (world st) ++ match r with Ok _ => [Launched t] | Throw _ => [] end)), r)
  | None => (st, Throw (Exn Undefined "blocked"))
  end.
Definition sleep (n : nat) : api W unit := fun st =>
  let '(s, m) := others n (store (world st)) (manager (world st)) in
  (MkApi (calls st) (reads st) (MkTune s m (log (world st))), Ok tt).
(** The trial is found ended: it leaves [active_trials]. *)
Definition note_end (tid : string) : api W unit := fun st =>
  (MkApi (calls st) (reads st) (MkTune (store (world st)) (manager (world st)) (log (world st) ++ [Ended tid])), Ok tt).

Definition config_json (task : TuningTask F) (c : @TrainingConfig F) : json F :=
  obj [("dataset_id", JStr (tk_dataset_id task)); ("n_components", JInt (tc_n_components c));
       ("percentile", JNum (tc_percentile c)); ("feature_set", JStr "cpu,mem,disk,rx,tx")].
Definition params_json (c : @TrainingConfig F) : json F :=
  obj [("n_components", JInt (tc_n_components c)); ("percentile", JNum (tc_percentile c))].
Fixpoint create_trials (task : TuningTask F) (idx : nat) (trials : list (@TrainingConfig F)) : api W (list string) :=
  match trials with
  | [] => mret []
  | c :: trials' =>
      id ← db_run env (fun call w =>
        let '(s, r) := CreateHpoTrialRun call (tk_dataset_id task) (tk_name task +:+ "_trial_" +:+ pretty idx)
                         (config_json task c) (tk_rid task) (parent_run_id task) (Z.of_nat idx) (params_json c) (store w) in
        (MkTune s (manager w) (log w), r));
      ids ← create_trials task (S idx) trials';
      mret ((if (id =? "")%string then [] else [id]) ++ ids)
  end.

(** [active_trials] is a std::map: its keys in order. *)
Definition map_insert (k : string) (l : list string) : list string :=
  if existsb (String.eqb k) l then l else sort_insert String.ltb k l.

Definition training_of (task : TuningTask F) (tid : string) (c : @TrainingConfig F) : Training F :=
  MkRun tid (tk_dataset_id task) (tc_n_components c) (tc_percentile c) (tk_rid task).
(** Start new trials up to the concurrency limit; [todo] are the trials from
    [next_trial] on, each with its configuration. *)
Fixpoint start_trials (task : TuningTask F) (todo : list (string * @TrainingConfig F)) (active : list string)
    : api W (list (string * @TrainingConfig F) * list string) :=
  match todo with
  | [] => mret ([], active)
  | (tid, c) :: todo' =>
      if (zlen active <? tk_max_concurrency task)%Z then
        run_training (training_of task tid c);;
        start_trials task todo' (map_insert tid active)
      else mret (todo, active)
  end.
Definition terminal_status (s : string) : bool := existsb (String.eqb s) ["COMPLETED"; "FAILED"; "CANCELLED"].
(** [std::string status = run_info["status"]]. *)
Definition trial_status (run_info : json F) : res string := v ← jget run_info "status"; get_string v.
(** Erase the trials that have ended. *)
Fixpoint reap (active : list string) : api W (list string) :=
  match active with
  | [] => mret []
  | tid :: active' =>
      run_info ← db_ask env (fun c w => GetModelRun c tid (store w));
      status ← lift (trial_status run_info);
      if terminal_status status then note_end tid;; reap active'
      else rest ← reap active'; mret (tid :: rest)
  end.

(** How the job ends when it does not throw.  [NoFuel] is no behaviour of the
    code. *)
Inductive tune_end := TuneNotMine | TuneCancelled | TuneDone | NoFuel.

Fixpoint tune_loop (fuel : nat) (task : TuningTask F) (n : nat) (todo : list (string * @TrainingConfig F))
    (active : list string) : api W tune_end :=
  match fuel with
  | O => mret NoFuel
  | S fuel' =>
      if bool_decide (todo = []) && bool_decide (active = []) then mret TuneDone else
      stop ← stopped env;
      if (stop : bool) then
        db_do env (fun c => on_store (UpdateModelRunStatus c (parent_run_id task) "CANCELLED" "" "" JNull));;
        mret TuneCancelled
      else
        p ← start_trials task todo active;
        let '(todo, active) := p in
        db_do env (fun c => on_store (Heartbeat c ModelRun (parent_run_id task)));;
        sleep n;;
        active ← reap active;
        tune_loop fuel' task (S n) todo active
  end.

Definition tune_start (task : TuningTask F) : api W bool :=
  won ← db_flip env (fun c w => let '(s, b) := TryTransitionModelRunStatus c (parent_run_id task) "PENDING" "RUNNING" (store w) in
                                (MkTune s (manager w) (log w), b));
  if (won : bool) then mret true else
    model_info ← db_ask env (fun c w => GetModelRun c (parent_run_id task) (store w));
    status ← lift (jvalue get_string "status" "" model_info);
    mret (status =? "RUNNING")%string.

Definition tune_job (fuel : nat) (task : TuningTask F) : api W tune_end :=
  mine ← tune_start task;
  if negb mine then mret TuneNotMine else
  trial_ids ← create_trials task 0 (tk_trials task);
  tune_loop fuel task 0 (zip trial_ids (tk_trials task)) [].
End tuning.

(** ** The steps of the orchestrator *)
Section steps.
Context {F : Type}.
Implicit Types (evs pre : list (tune_event F)).

Definition launches evs : list (Training F) := omap (fun e => match e with Launched t => Some t | Ended _ => None end) evs.
(** Trials handed over and not yet found ended. *)
Definition in_flight evs : Z :=
  Z.of_nat (countb (fun e => match e with Launched _ => true | Ended _ => false end) evs)
  - Z.of_nat (countb (fun e => match e with Launched _ => false | Ended _ => true end) evs).
(** At no point more than [limit] trials are in flight. *)
Definition bounded (limit start : Z) evs : Prop :=
  forall pre, pre `prefix_of` evs -> (0 <= start + in_flight pre <= limit)%Z.

Lemma launches_app evs1 evs2 : launches (evs1 ++ evs2) = launches evs1 ++ launches evs2.
Proof. apply omap_app. Qed.
Lemma launches_launched ts : launches (Launched <$> ts) = ts.
Proof. induction ts as [|t ts IH]; [done|]. cbn. unfold launches in IH. by rewrite IH. Qed.
Lemma launches_ended tids : launches (Ended <$> tids) = [].
Proof. by induction tids. Qed.
Lemma in_flight_app evs1 evs2 : in_flight (evs1 ++ evs2) = (in_flight evs1 + in_flight evs2)%Z.
Proof. unfold in_flight. rewrite !countb_app. lia. Qed.
Lemma in_flight_launched ts : in_flight (Launched <$> ts) = zlen ts.
Proof. induction ts as [|t ts IH]; [done|]. unfold in_flight, zlen in *. cbn. rewrite !countb_cons. cbn in *. lia. Qed.
Lemma in_flight_ended tids : in_flight (Ended <$> tids) = (- zlen tids)%Z.
Proof. induction tids as [|t ts IH]; [done|]. unfold in_flight, zlen in *. cbn. rewrite !countb_cons. cbn in *. lia. Qed.
Lemma prefix_fmap {A B} (f : A -> B) (l : list A) (p : list B) : p `prefix_of` f <$> l -> exists k, p = f <$> take k l /\ (k <= length l)%nat.
Proof.
  intros [q Hq]. exists (length p). symmetry in Hq.
  assert (p = take (length p) (f <$> l)) as E by (by rewrite <- Hq, take_app_length).
  split; [by rewrite fmap_take|]. apply (f_equal length) in Hq. rewrite length_app, length_fmap in Hq. lia.
Qed.
Lemma bounded_launched limit start ts : (0 <= start)%Z -> (start + zlen ts <= limit)%Z -> bounded limit start (Launched <$> ts).
Proof.
  intros Hs0 Hl pre [k [-> Hk]]%prefix_fmap. rewrite in_flight_launched. unfold zlen in *. rewrite length_take. lia.
Qed.
Lemma bounded_ended limit start tids : (start <= limit)%Z -> (zlen tids <= start)%Z -> bounded limit start (Ended <$> tids).
Proof.
  intros Hl Hs pre [k [-> Hk]]%prefix_fmap. rewrite in_flight_ended. unfold zlen in *. rewrite length_take. lia.
Qed.
Lemma bounded_app limit start evs1 evs2 :
  bounded limit start evs1 -> bounded limit (start + in_flight evs1) evs2 -> bounded limit start (evs1 ++ evs2).
Proof.
  intros H1 H2 pre [q [(k & -> & _)|(k & -> & ->)]%app_eq_inv]; [by apply H1; exists k|].
  rewrite in_flight_app. assert (k `prefix_of` k ++ q) as Hp by by exists q. specialize (H2 k Hp). lia.
Qed.
End steps.

(** ** What the orchestrator does *)
Section orchestrate.
Context {F : Type} `{Num F} `{Postgres}.
Abbreviation W := (TuneWorld F).
Context (env : ApiEnv) (others : nat -> Store F -> JobManager -> Store F * JobManager) (spawns : nat -> bool).
Context (task : TuningTask F).
Implicit Types (st : ApiState W) (todo : list (string * @TrainingConfig F)) (active : list string).

Abbreviation limit := (tk_max_concurrency task).
Definition trainings todo : list (Training F) := (fun tc => training_of task tc.1 tc.2) <$> todo.

(** A fresh key makes the map larger. *)
Lemma map_insert_fresh k l : k ∉ l -> map_insert k l ≡ₚ k :: l.
Proof.
  intros Hk. unfold map_insert. destruct (existsb (String.eqb k) l) eqn:E.
  - apply existsb_exists in E as (x & Hx & ->%String.eqb_eq). by apply list_elem_of_In in Hx.
  - apply sort_insert_perm.
Qed.

Lemma run_training_log t st : let '(st', r) := run_training spawns t st in
  store (world st') = store (world st) /\
  log (world st') = log (world st) ++ match r with Ok _ => [Launched t] | Throw _ => [] end.
Proof. unfold run_training. destruct (StartJob _ _ _ _) as [[m r]|]; [done|]. by rewrite app_nil_r. Qed.

Lemma start_trials_ok todo active st : NoDup (active ++ todo.*1) -> (zlen active <= limit)%Z ->
  let '(st', r) := start_trials spawns task todo active st in
  exists k, (zlen active + Z.of_nat k <= limit)%Z /\ (k <= length todo)%nat /\
    log (world st') = log (world st) ++ (Launched <$> trainings (take k todo)) /\
    forall todo' active', r = Ok (todo', active') ->
      todo' = drop k todo /\ active' ≡ₚ active ++ (take k todo).*1 /\ (todo' = [] \/ (limit <= zlen active')%Z).
Proof.
  revert active st. induction todo as [|[tid c] todo IH]; intros active st Hnd Hle; cbn [start_trials].
  { exists 0%nat. cbn. rewrite !app_nil_r. split_and!; [lia|lia|done|]. intros ?? [= <- <-]. split_and!; [done|done|by left]. }
  destruct (Z.ltb_spec (zlen active) limit) as [Hlt|Hge].
  2:{ exists 0%nat. cbn. rewrite !app_nil_r. split_and!; [lia|lia|done|]. intros ?? [= <- <-]. split_and!; [done|done|by right]. }
  cbv [mbind api_bind]. pose proof (run_training_log (training_of task tid c) st) as Hrun.
  destruct (run_training spawns _ st) as [st1 [[]|e]]; destruct Hrun as [_ Hlog].
  2:{ exists 0%nat. rewrite Hlog. cbn. split_and!; [lia|lia|done|done]. }
  assert (Hfresh : tid ∉ active).
  { intros Hin. apply NoDup_app in Hnd as (_ & Hd & _). apply (Hd tid Hin). cbn. left. }
  pose proof (map_insert_fresh tid active Hfresh) as Hp.
  specialize (IH (map_insert tid active) st1). destruct (start_trials _ _ todo _ st1) as [st2 r].
  destruct IH as (k & Hk & Hkl & Hlog2 & Hr).
  - rewrite Hp. cbn in Hnd |- *. by rewrite Permutation_middle.
  - unfold zlen in *. rewrite Hp. cbn. lia.
  - exists (S k). unfold zlen in *. rewrite Hp in Hk. cbn in Hk |- *. split_and!; [lia|lia| |].
    + rewrite Hlog2, Hlog, <- app_assoc. done.
    + intros todo' active' E. destruct (Hr todo' active' E) as (-> & Ha & Hor). split_and!; [done| |done].
      rewrite Ha, Hp. cbn. by rewrite Permutation_middle.
Qed.

Lemma reap_ok active st : let '(st', r) := reap env active st in
  store (world st') = store (world st) /\
  exists ended, log (world st') = log (world st) ++ (Ended <$> ended) /\ (length ended <= length active)%nat /\
    forall rest, r = Ok rest -> rest ++ ended ≡ₚ active.
Proof.
  revert st. induction active as [|tid active IH]; intros st; cbn [reap].
  { split; [done|]. exists []. rewrite app_nil_r. split_and!; [done|done|]. by intros rest [= <-]. }
  cbv [mbind api_bind db_ask db_read db_run lift]. set (st1 := MkApi _ _ (world st)).
  destruct (trial_status _) as [status|e].
  2:{ split; [done|]. exists []. rewrite app_nil_r. split_and!; [done|cbn; lia|done]. }
  destruct (terminal_status status).
  - cbn [note_end calls reads world store manager log].
    match goal with |- context [reap env active ?st2] => specialize (IH st2); destruct (reap env active st2) as [st3 r] end.
    destruct IH as (Hs & ended & Hlog & Hlen & Hr). split; [done|]. exists (tid :: ended).
    split_and!; [|cbn; lia|intros rest E; rewrite <- (Hr rest E); by rewrite Permutation_middle].
    rewrite Hlog. cbn [world log fmap list_fmap st1]. by rewrite <- app_assoc.
  - specialize (IH st1). destruct (reap env active st1) as [st3 r]. destruct IH as (Hs & ended & Hlog & Hlen & Hr).
    destruct r as [rest|e]; (split; [done|]); exists ended; (split_and!; [done|cbn; lia|]); [|done].
    intros rest' [= <-]. cbn. by rewrite (Hr rest).
Qed.

Lemma create_trials_ok idx (trials : list (@TrainingConfig F)) st : let '(st', r) := create_trials env task idx trials st in
  log (world st') = log (world st) /\
  forall ids, r = Ok ids -> ids = uuid <$> seq (next_uuid (store (world st))) (length trials).
Proof.
  revert idx st. induction trials as [|c trials IH]; intros idx st; cbn [create_trials].
  { split; [done|]. by intros ids [= <-]. }
  cbv [mbind api_bind db_run]. unfold CreateHpoTrialRun, work.
  destruct (c_fault _); [by split|]. unfold draw_uuid, insert_row.
  match goal with |- context [if ?b then _ else _] => destruct b end; [|by split].
  cbn [mbind res_bind world store]. 
  match goal with |- context [create_trials env task (S idx) trials ?st1] =>
    specialize (IH (S idx) st1); destruct (create_trials env task (S idx) trials st1) as [st2 [ids'|e]] end;
    destruct IH as [Hlog Hids]; (split; [by rewrite Hlog|]); [|done].
  intros ids [= <-]. rewrite (Hids ids' eq_refl). cbn [world store next_uuid put].
  destruct (String.eqb_spec (uuid (next_uuid (store (world st)))) "") as [E|_]; [by apply uuid_nonempty in E|]. done.
Qed.

Abbreviation loop := (tune_loop env others spawns).
Lemma sleep_log n st : log (world (sleep others n st).1) = log (world st).
Proof. unfold sleep. by destruct (others _ _ _). Qed.

Definition tuned limit start todo evs (finished : Prop) : Prop :=
  launches evs `prefix_of` trainings todo /\ bounded limit start evs /\
  (finished -> launches evs = trainings todo /\ (start + in_flight evs = 0)%Z).

Lemma prefix_trainings k todo : trainings (take k todo) `prefix_of` trainings todo.
Proof. exists (trainings (drop k todo)). unfold trainings. by rewrite <- fmap_app, take_drop. Qed.

(** The steps of one turn, and those of the rest. *)
Lemma tuned_launch start k todo (finished : Prop) : (0 <= start)%Z -> (start + Z.of_nat k <= limit)%Z -> (k <= length todo)%nat ->
  ~ finished -> tuned limit start todo (Launched <$> trainings (take k todo)) finished.
Proof.
  intros Hs0 Hk Hl Hf. split_and!; [rewrite launches_launched; apply prefix_trainings| |done].
  apply bounded_launched; [done|]. unfold zlen, trainings. rewrite length_fmap, length_take. lia.
Qed.
Lemma tuned_turn start k todo (ended : list string) evs finished :
  (0 <= start)%Z -> (start + Z.of_nat k <= limit)%Z -> (k <= length todo)%nat -> (zlen ended <= start + Z.of_nat k)%Z ->
  tuned limit (start + Z.of_nat k - zlen ended) (drop k todo) evs finished ->
  tuned limit start todo ((Launched <$> trainings (take k todo)) ++ (Ended <$> ended) ++ evs) finished.
Proof.
  intros Hs0 Hk Hl He (Hp & Hb & Hf).
  assert (Hlen : zlen (trainings (take k todo)) = Z.of_nat k) by (unfold zlen, trainings; rewrite length_fmap, length_take; lia).
  assert (Hall : trainings todo = trainings (take k todo) ++ trainings (drop k todo))
    by (unfold trainings; by rewrite <- fmap_app, take_drop).
  split_and!.
  - rewrite !launches_app, launches_launched, launches_ended, Hall. by apply prefix_app.
  - apply bounded_app; [apply bounded_launched; lia|]. rewrite in_flight_launched, Hlen.
    apply bounded_app; [apply bounded_ended; lia|]. rewrite in_flight_ended.
    by replace (start + Z.of_nat k + - zlen ended)%Z with (start + Z.of_nat k - zlen ended)%Z by lia.
  - intros Hfin. destruct (Hf Hfin) as [Hl1 Hi]. rewrite !launches_app, launches_launched, launches_ended, Hall, Hl1.
    split; [done|]. rewrite !in_flight_app, in_flight_launched, in_flight_ended, Hlen. lia.
Qed.

Lemma tuned_nil start todo (finished : Prop) : (0 <= start <= limit)%Z -> ~ finished -> tuned limit start todo [] finished.
Proof. intros Hs0 Hf. split_and!; [apply prefix_nil| |done]. intros pre ->%prefix_nil_inv. change (in_flight _) with 0%Z. lia. Qed.

Lemma loop_disjoint active active' rest ended todo k :
  NoDup (active ++ todo.*1) -> active' ≡ₚ active ++ (take k todo).*1 -> rest ++ ended ≡ₚ active' ->
  NoDup (rest ++ (drop k todo).*1).
Proof.
  intros Hnd Ha Hr. assert (Hp : active ++ todo.*1 ≡ₚ rest ++ ended ++ (drop k todo).*1).
  { rewrite (app_assoc rest), Hr, Ha, <- (app_assoc active). by rewrite <- (fmap_app fst (take k todo)), take_drop. }
  rewrite Hp in Hnd. apply NoDup_app in Hnd as (H1 & H2 & H3). apply NoDup_app in H3 as (_ & _ & H3).
  apply NoDup_app. split_and!; [done| |done]. intros x Hx Hx'. apply (H2 x Hx). apply elem_of_app. by right.
Qed.

Lemma tune_loop_ok fuel n todo active st : NoDup (active ++ todo.*1) -> (zlen active <= limit)%Z ->
  let '(st', r) := loop fuel task n todo active st in
  exists evs, log (world st') = log (world st) ++ evs /\ tuned limit (zlen active) todo evs (r = Ok TuneDone).
Proof.
  revert n todo active st. induction fuel as [|fuel IH]; intros n todo active st Hnd Hle; cbn [tune_loop];
    assert (H0a : (0 <= zlen active)%Z) by (unfold zlen; lia).
  { exists []. rewrite app_nil_r. split; [done|]. by apply tuned_nil. }
  destruct (bool_decide (todo = []) && bool_decide (active = [])) eqn:Eend.
  { apply andb_true_iff in Eend as [->%bool_decide_eq_true ->%bool_decide_eq_true].
    exists []. rewrite app_nil_r. split; [done|]. split_and!; [done| |done]. intros pre ->%prefix_nil_inv. change (in_flight _) with 0%Z. lia. }
  clear Eend. cbv [mbind api_bind stopped]. destruct (stop_at env (reads st)).
  { exists []. rewrite app_nil_r. split; [done|]. by apply tuned_nil. }
  match goal with |- context [start_trials spawns task todo active ?s] =>
    pose proof (start_trials_ok todo active s Hnd Hle) as Hst; destruct (start_trials spawns task todo active s) as [st1 [[todo' active']|e]] end;
    destruct Hst as (k & Hk & Hkl & Hlog1 & Hr1); cbn [world] in Hlog1.
  2:{ exists (Launched <$> trainings (take k todo)). split; [done|]. by apply tuned_launch. }
  destruct (Hr1 todo' active' eq_refl) as (-> & Ha & _). clear Hr1.
  unfold db_do, db_run. 
  match goal with |- context [sleep others n ?s] => pose proof (sleep_log n s) as Hsl; destruct (sleep others n s) as [st3 [[]|e]] eqn:Es end;
    [|unfold sleep in Es; by destruct (others _ _ _)].
  cbn [fst world on_store log] in Hsl.
  pose proof (reap_ok active' st3) as Hre. destruct (reap env active' st3) as [st4 r4].
  destruct Hre as (_ & ended & Hlog4 & Hlen & Hr4). rewrite Hsl, Hlog1 in Hlog4.
  assert (Hza : zlen active' = (zlen active + Z.of_nat k)%Z).
  { unfold zlen. rewrite Ha, length_app, length_fmap, length_take. lia. }
  assert (Hze : (zlen ended <= zlen active + Z.of_nat k)%Z) by (unfold zlen in *; lia).
  assert (H0e : (0 <= zlen ended)%Z) by (unfold zlen; lia).
  destruct r4 as [rest|e].
  2:{ exists ((Launched <$> trainings (take k todo)) ++ (Ended <$> ended) ++ []). rewrite Hlog4, app_nil_r, app_assoc.
      split; [done|]. rewrite <- (app_nil_r (_ <$> ended)). apply tuned_turn; [lia..|]. apply tuned_nil; [lia|done]. }
  pose proof (Hr4 rest eq_refl) as Hrest.
  assert (Hzr : zlen rest = (zlen active + Z.of_nat k - zlen ended)%Z).
  { rewrite <- Hza. unfold zlen. rewrite <- Hrest, length_app. lia. }
  specialize (IH (S n) (drop k todo) rest st4 (loop_disjoint _ _ _ _ _ _ Hnd Ha Hrest) ltac:(lia)).
  destruct (loop fuel task (S n) (drop k todo) rest st4) as [st5 r5]. destruct IH as (evs & Hlog5 & Ht).
  exists ((Launched <$> trainings (take k todo)) ++ (Ended <$> ended) ++ evs). rewrite Hlog5, Hlog4, <- !app_assoc.
  split; [done|]. apply tuned_turn; [lia..|]. by rewrite <- Hzr.
Qed.

Lemma transition_uuid c id (s : Store F) :
  next_uuid (TryTransitionModelRunStatus c id "PENDING" "RUNNING" s).1 = next_uuid s.
Proof. unfold TryTransitionModelRunStatus, work. by destruct (c_fault c). Qed.
Lemma tune_start_ok st : let '(st', r) := tune_start env task st in
  log (world st') = log (world st) /\ manager (world st') = manager (world st) /\
  next_uuid (store (world st')) = next_uuid (store (world st)).
Proof.
  unfold tune_start. cbv [mbind api_bind db_flip db_run db_ask db_read lift].
  pose proof (transition_uuid (db_env env (calls st)) (parent_run_id task) (store (world st))) as Hu.
  destruct (TryTransitionModelRunStatus _ _ _ _ _) as [s [|]]; cbn [world]; [done|].
  by destruct (jvalue _ _ _ _).
Qed.
(** The trials with the ids the database will give them. *)
Definition planned (s : Store F) : list (string * @TrainingConfig F) :=
  zip (uuid <$> seq (next_uuid s) (length (tk_trials task))) (tk_trials task).
Lemma planned_fst s : (planned s).*1 = uuid <$> seq (next_uuid s) (length (tk_trials task)).
Proof. unfold planned. rewrite fst_zip; [done|]. rewrite length_fmap, length_seq. lia. Qed.
Lemma planned_length s : length (planned s) = length (tk_trials task).
Proof. by rewrite <- (length_fmap fst), planned_fst, length_fmap, length_seq. Qed.
Lemma planned_NoDup s : NoDup (planned s).*1.
Proof. rewrite planned_fst. apply NoDup_fmap_2; [apply _|apply NoDup_ListNoDup, seq_NoDup]. Qed.

Lemma tune_job_ok fuel st : (0 <= limit)%Z ->
  let '(st', r) := tune_job env others spawns fuel task st in
  exists evs, log (world st') = log (world st) ++ evs /\ tuned limit 0 (planned (store (world st))) evs (r = Ok TuneDone).
Proof.
  intros Hl. unfold tune_job. cbv [mbind api_bind]. pose proof (tune_start_ok st) as Hs.
  destruct (tune_start env task st) as [st1 [b|e]]; destruct Hs as (Hlog1 & _ & Hu).
  2:{ exists []. rewrite app_nil_r. split; [done|]. by apply tuned_nil. }
  destruct b; cbn [negb].
  2:{ exists []. rewrite app_nil_r. split; [done|]. by apply tuned_nil. }
  pose proof (create_trials_ok 0 (tk_trials task) st1) as Hc.
  destruct (create_trials env task 0 (tk_trials task) st1) as [st2 [ids|e]]; destruct Hc as [Hlog2 Hids].
  2:{ exists []. rewrite app_nil_r. split; [by rewrite Hlog2|]. by apply tuned_nil. }
  rewrite (Hids ids eq_refl), Hu. fold (planned (store (world st))).
  pose proof (tune_loop_ok fuel 0 (planned (store (world st))) [] st2 (planned_NoDup _) Hl) as Ht.
  destruct (tune_loop _ _ _ _ _ _ _ _ st2) as [st3 r]. destruct Ht as (evs & Hlog3 & Ht).
  exists evs. split; [by rewrite Hlog3, Hlog2, Hlog1|done].
Qed.

(** ** When the job manager has too few slots *)

(** The slots left; a new id is not in use. *)
Definition free_slots (m : JobManager) : Z := (max_jobs_ m - current_jobs_ m)%Z.
Definition accepts (m : JobManager) : Prop := exists n, inv n m /\ stopping_ m = NotStopped.
Definition unused (m : JobManager) (tid : string) : Prop := threads_ m !! ("train-" +:+ tid) = None.

Lemma StartJob_full m id req ok : accepts m -> (free_slots m <= 0)%Z ->
  exists m', StartJob m id req ok = Some (m', runtime_error queue_full).
Proof.
  intros (n & Hi & Hns) Hfree. unfold StartJob, free_slots in *. rewrite bool_decide_eq_true_2 by done. cbn [negb].
  destruct (cleanup_ok n m Hi) as (m1 & -> & Hi1 & Hp & _ & _ & _ & Hmax & _). cbn zeta.
  assert ((max_jobs_ m1 <=? current_jobs_ m1)%Z = true) as ->; [|eauto].
  rewrite (i_cur _ _ Hi1), Hp, <- (i_cur _ _ Hi), Hmax. lia.
Qed.
Lemma StartJob_slot m id req : accepts m -> (0 < free_slots m)%Z -> threads_ m !! id = None ->
  exists m', StartJob m id req true = Some (m', Ok tt) /\ accepts m' /\ free_slots m' = (free_slots m - 1)%Z /\
    forall id', id' <> id -> threads_ m !! id' = None -> threads_ m' !! id' = None.
Proof.
  intros (n & Hi & Hns) Hfree Hid. destruct (cleanup_ok n m Hi) as (m1 & Hc & Hi1 & Hp & Hj & Hst & Ht & Hmax & Hlive).
  assert (Hcur : current_jobs_ m1 = current_jobs_ m) by (by rewrite (i_cur _ _ Hi1), Hp, (i_cur _ _ Hi)).
  assert (Hthr : forall id', threads_ m !! id' = None -> threads_ m1 !! id' = None).
  { unfold CleanupFinishedThreads in Hc. case_decide; [|done]. injection Hc as <-. cbn. intros id' Hn.
    apply lookup_difference_None. by left. }
  unfold free_slots in *. assert (Hlt : (current_jobs_ m1 < max_jobs_ m1)%Z) by lia.
  assert (Hsz : (current_jobs_ m1 + 1 < 2 ^ 64)%Z).
  { rewrite (i_max _ _ Hi1) in Hlt. unfold to_size_t in Hlt. pose proof (Z.mod_pos_bound n (2 ^ 64)). lia. }
  pose proof (inv_started n m1 id req true false Hi1 (eq_trans Hst Hns) Hlt Hlive (or_introl (Hthr id Hid))) as Hi2.
  eexists. split; [|split; [exists n; split; [exact Hi2|exact (eq_trans Hst Hns)]|split]].
  - unfold StartJob. rewrite bool_decide_eq_true_2 by done. cbn [negb]. rewrite Hc. cbn zeta.
    assert ((max_jobs_ m1 <=? current_jobs_ m1)%Z = false) as -> by lia. by rewrite (Hthr id Hid).
  - cbn. rewrite to_size_t_id by (rewrite (i_cur _ _ Hi1) in *; lia). lia.
  - cbn. intros id' Hne Hn. rewrite lookup_insert_ne by done. by apply Hthr.
Qed.

Lemma start_trials_full todo active st : (forall k, spawns k = true) -> NoDup (active ++ todo.*1) ->
  accepts (manager (world st)) -> Forall (unused (manager (world st))) todo.*1 ->
  let free := free_slots (manager (world st)) in
  (0 <= free < Z.of_nat (length todo))%Z -> (zlen active + free < limit)%Z ->
  let '(st', r) := start_trials spawns task todo active st in
  r = runtime_error queue_full /\ store (world st') = store (world st) /\
  log (world st') = log (world st) ++ (Launched <$> trainings (take (Z.to_nat free) todo)).
Proof.
  intros Hsp. cbv zeta. revert active st. induction todo as [|[tid c] todo IH]; intros active st Hnd Hacc Hun Hfree Hlim; [cbn in *; lia|].
  cbn [start_trials]. replace (zlen active <? limit)%Z with true by lia.
  cbv [mbind api_bind run_training]. rewrite Hsp. cbn [tr_model_run_id tr_rid training_of].
  apply Forall_cons in Hun as [Hu Hun].
  destruct (decide (free_slots (manager (world st)) <= 0)%Z) as [Hz|Hpos].
  { destruct (StartJob_full _ ("train-" +:+ tid) (tk_rid task) true Hacc Hz) as [m' ->]. cbn [world store log].
    assert (Z.to_nat (free_slots (manager (world st))) = 0%nat) as -> by lia. by split_and!. }
  destruct (StartJob_slot _ ("train-" +:+ tid) (tk_rid task) Hacc ltac:(lia) Hu) as (m' & -> & Hacc' & Hfree' & Hold).
  assert (Hfresh : tid ∉ active).
  { intros Hin. apply NoDup_app in Hnd as (_ & Hd & _). apply (Hd tid Hin). cbn. left. }
  pose proof (map_insert_fresh tid active Hfresh) as Hp.
  match goal with |- context [start_trials spawns task todo ?a ?s] => specialize (IH a s); destruct (start_trials spawns task todo a s) as [st2 r] end.
  cbn [world manager store log] in IH. rewrite Hfree' in IH.
  destruct IH as (-> & Hs & Hlog).
  - rewrite Hp. cbn in Hnd |- *. by rewrite Permutation_middle.
  - done.
  - rewrite Forall_forall in Hun |- *. intros x Hx. apply Hold; [|by apply Hun].
    intros E%(inj (String.append "train-")). subst x. apply NoDup_app in Hnd as (_ & _ & Hnd).
    cbn in Hnd. by apply NoDup_cons in Hnd as [Hnd _].
  - cbn in Hfree. lia.
  - unfold zlen in *. rewrite Hp. cbn. lia.
  - split_and!; [done|done|]. rewrite Hlog, <- app_assoc.
    replace (Z.to_nat (free_slots (manager (world st)))) with (S (Z.to_nat (free_slots (manager (world st)) - 1))) by lia. done.
Qed.

Abbreviation parent := (parent_run_id task).
Abbreviation runs w := (rows (store w) "model_runs").
(** The dataset and the parent run exist. *)
Definition refers (w : W) : Prop :=
  existsb (text_is "run_id" (tk_dataset_id task)) (rows (store w) "generation_runs") = true /\
  existsb (text_is "model_run_id" parent) (runs w) = true.
Definition waiting_trial (r : Row F) : Prop :=
  column r "status" = SText "PENDING" /\ column r "parent_run_id" = SText parent.
Definition started (r : Row F) : Row F := if pending parent r then set_columns [("status", SText "RUNNING")] r else r.

Lemma create_quiet idx (trials : list (@TrainingConfig F)) st :
  (forall n, c_fault (db_env env n) = None) -> refers (world st) ->
  let '(st', r) := create_trials env task idx trials st in
  is_ok r = true /\ manager (world st') = manager (world st) /\ reads st' = reads st /\
  exists new, runs (world st') = runs (world st) ++ new /\ length new = length trials /\ Forall waiting_trial new.
Proof.
  intros Hq. revert idx st. induction trials as [|c trials IH]; intros idx st Href; cbn [create_trials].
  { split_and!; [done..|]. exists []. by rewrite app_nil_r. }
  cbv [mbind api_bind db_run]. unfold CreateHpoTrialRun, work. rewrite Hq. unfold draw_uuid, insert_row.
  change (references_of "model_runs") with
    [("model_runs", "dataset_id", "generation_runs", "run_id"); ("model_runs", "parent_run_id", "model_runs", "model_run_id");
     ("model_runs", "best_trial_run_id", "model_runs", "model_run_id")].
  destruct Href as [Hds Hp].
  match goal with |- context [forallb ?f ?l] => assert (forallb f l = true) as -> end.
  { cbn [forallb]. rewrite !andb_true_iff. split_and!; [exact Hds|exact Hp|done|done]. }
  cbn [mbind res_bind world store].
  match goal with |- context [create_trials env task (S idx) trials ?s] =>
    specialize (IH (S idx) s); destruct (create_trials env task (S idx) trials s) as [st2 [ids|e]] end.
  all: cbn [world store manager reads] in IH; destruct IH as (Hok & Hm & Hr & new & Hnew & Hlen & Hall).
  1,3: split; cbn [world store]; [by rewrite rows_put_ne|rewrite rows_put_eq, existsb_app; by apply orb_true_iff; left].
  2: done.
  split_and!; [done|done|done|]. eexists (_ :: new). rewrite Hnew, rows_put_eq, <- app_assoc.
  split_and!; [done|cbn; by rewrite Hlen|]. constructor; [|done]. by split.
Qed.

Lemma started_id r id : text_is "model_run_id" id (started r) = text_is "model_run_id" id r.
Proof. unfold started. destruct (pending _ r); [|done]. apply text_is_set_columns_other. by_deciding. Qed.
Lemma existsb_fmap_same {A} (p : A -> bool) (f : A -> A) (l : list A) :
  (forall x, p (f x) = p x) -> existsb p (f <$> l) = existsb p l.
Proof. intros Hf. induction l as [|x l IH]; [done|]. cbn. by rewrite Hf, <- IH. Qed.

Lemma start_quiet st : (forall n, c_fault (db_env env n) = None) -> refers (world st) ->
  existsb (pending parent) (runs (world st)) = true ->
  exists st', tune_start env task st = (st', Ok true) /\ reads st' = reads st /\ manager (world st') = manager (world st) /\
    log (world st') = log (world st) /\ next_uuid (store (world st')) = next_uuid (store (world st)) /\
    runs (world st') = started <$> runs (world st) /\ refers (world st').
Proof.
  intros Hq [Hds Hp] Hpend. unfold tune_start, TryTransitionModelRunStatus, work. cbv [mbind api_bind db_flip db_run].
  rewrite Hq. fold (pending (F := F) parent). unfold update_rows.
  assert ((0 <? Z.of_nat (countb (pending parent) (runs (world st))))%Z = true) as ->.
  { apply existsb_exists in Hpend as (r & [i Hr]%list_elem_of_In%list_elem_of_lookup & Hpr).
    pose proof (countb_pos (pending parent) _ i r Hr Hpr). lia. }
  eexists. split; [reflexivity|]. cbn [world store manager log reads].
  assert (Hruns : rows (put "model_runs" ((fun r => if pending parent r then set_columns [("status", SText "RUNNING")] r else r) <$> runs (world st))
    (store (world st))) "model_runs" = started <$> runs (world st)) by (by rewrite rows_put_eq).
  split_and!; [done..|exact Hruns|]. split; cbn [store]; [by rewrite rows_put_ne|].
  rewrite Hruns, existsb_fmap_same; [done|]. intros r. apply started_id.
Qed.

(** With fewer slots than the trials it wants to run at once, the job throws. *)
Lemma tune_job_full fuel st : (forall n, c_fault (db_env env n) = None) -> (forall k, spawns k = true) ->
  stop_at env (reads st) = false -> refers (world st) -> existsb (pending parent) (runs (world st)) = true ->
  accepts (manager (world st)) -> (forall k, unused (manager (world st)) (uuid k)) ->
  let free := free_slots (manager (world st)) in
  (0 <= free < zlen (tk_trials task))%Z -> (free < limit)%Z ->
  let '(st', r) := tune_job env others spawns (S fuel) task st in
  r = runtime_error queue_full /\
  log (world st') = log (world st) ++ (Launched <$> trainings (take (Z.to_nat free) (planned (store (world st))))) /\
  exists trials, runs (world st') = (started <$> runs (world st)) ++ trials /\
    length trials = length (tk_trials task) /\ Forall waiting_trial trials.
Proof.
  intros Hq Hsp Hstop Href Hpend Hacc Hun. cbv zeta. intros Hfree Hlim. unfold tune_job. cbv [mbind api_bind].
  destruct (start_quiet st Hq Href Hpend) as (st1 & -> & Hrd1 & Hm1 & Hlog1 & Hu1 & Hrun1 & Href1). cbn [negb].
  pose proof (create_quiet 0 (tk_trials task) st1 Hq Href1) as Hc. pose proof (create_trials_ok 0 (tk_trials task) st1) as Hi.
  destruct (create_trials env task 0 (tk_trials task) st1) as [st2 [ids|e]]; destruct Hc as (Hok & Hm2 & Hrd2 & new & Hrun2 & Hlen & Hall); [|done].
  destruct Hi as [Hlog2 Hids]. rewrite (Hids ids eq_refl), Hu1. fold (planned (store (world st))).
  pose proof (planned_length (store (world st))) as Hpl.
  cbn [tune_loop]. rewrite bool_decide_eq_false_2.
  2:{ intros E. rewrite E in Hpl. unfold zlen in Hfree. rewrite <- Hpl in Hfree. cbn in Hfree. lia. }
  cbn [andb]. cbv [mbind api_bind stopped]. rewrite Hrd2, Hrd1, Hstop.
  match goal with |- context [start_trials spawns task ?todo [] ?s] =>
    pose proof (start_trials_full todo [] s Hsp (planned_NoDup _)) as Hf; destruct (start_trials spawns task todo [] s) as [st3 r] end.
  cbn [world] in Hf. rewrite Hm2, Hm1, Hpl, Hlog2, Hlog1 in Hf. unfold zlen in *. cbn [length] in Hf.
  destruct Hf as (-> & Hs & Hlog); [done| |lia|lia|].
  { rewrite planned_fst. apply Forall_fmap, Forall_true. intros k. apply Hun. }
  cbv beta iota. split_and!; [done|exact Hlog|]. exists new. rewrite Hs, Hrun2, Hrun1. done.
Qed.

(** ** The loop ends when the trials do *)

(** The runs with this id, if any, have a final status. *)
Definition ended_in (s : Store F) (tid : string) : Prop :=
  Forall (fun r => exists v, column r "status" = SText v /\ terminal_status v = true) (where_is "model_runs" "model_run_id" tid s).

Lemma read_fields_status fs1 fs2 (r : Row F) acc v : column r "status" = SText v ->
  "status" ∉ (fun f : Sql.field => f.1.1) <$> (fs1 ++ fs2) -> obj_lookup "status" acc = None ->
  let l := (read_fields (fs1 ++ same AsText "status" :: fs2) r acc).1 in
  obj_lookup "status" l = None \/ obj_lookup "status" l = Some (JStr v).
Proof.
  intros Hv. revert acc. induction fs1 as [|[[k c] conv] fs1 IH]; intros acc Hk Hacc; cbn [app fmap list_fmap read_fields same fst] in *.
  - rewrite Hv. cbn [convert as_text]. right. rewrite read_fields_keep by done. apply obj_lookup_insert_eq.
  - apply not_elem_of_cons in Hk as [Hne Hk]. destruct (convert conv (column r c)) as [x|e]; [|by left].
    apply IH; [done|]. by rewrite obj_lookup_insert_ne.
Qed.
Lemma trial_status_ended c tid (s : Store F) v : ended_in s tid -> trial_status (GetModelRun c tid s) = Ok v -> terminal_status v = true.
Proof.
  unfold ended_in, GetModelRun, get_one. destruct (c_fault c); [done|].
  destruct (where_is _ _ _ _) as [|r rs]; [done|]. intros Hf. apply Forall_cons in Hf as [(x & Hx & Ht) _].
  unfold read_row. change model_run_fields with (take 3 model_run_fields ++ same AsText "status" :: drop 4 model_run_fields).
  pose proof (read_fields_status (take 3 model_run_fields) (drop 4 model_run_fields) r [] x Hx ltac:(by_deciding) eq_refl) as Hl.
  destruct (read_fields _ r []) as [l e]. cbn [fst] in *. unfold trial_status, built. destruct l as [|kv l]; [done|].
  unfold jget. destruct Hl as [-> | ->]; cbn; [done|]. by intros [= <-].
Qed.
Lemma reap_all active st st' rest : Forall (ended_in (store (world st))) active ->
  reap env active st = (st', Ok rest) -> rest = [].
Proof.
  revert st. induction active as [|tid active IH]; intros st Hall; cbn [reap]; [by intros [= <- <-]|].
  apply Forall_cons in Hall as [Ht Hall].
  cbv [mbind api_bind db_ask db_read db_run lift]. destruct (trial_status _) as [v|e] eqn:E; [|done].
  rewrite (trial_status_ended _ _ _ _ Ht E). cbv [note_end]. by apply IH.
Qed.

Lemma sleep_store n st : store (world (sleep others n st).1) = (others n (store (world st)) (manager (world st))).1.
Proof. unfold sleep. by destruct (others _ _ _). Qed.

(** Turns left, when every trial has ended by the [N]-th sleep. *)
Definition turns_left (N n : nat) todo active : nat :=
  if decide (n < N)%nat then (N - n) + length todo + 1 else length todo + (if decide (active = []) then 0 else 1).

Lemma turn_taken N n todo active k rest : (k <= length todo)%nat -> (todo <> [] \/ active <> []) ->
  (active = [] -> (0 < k)%nat) -> ((N <= n)%nat -> rest = []) ->
  (turns_left N (S n) (drop k todo) rest < turns_left N n todo active)%nat.
Proof.
  intros Hk Hor Ha Hr. unfold turns_left. rewrite length_drop.
  destruct (decide (n < N)%nat), (decide (S n < N)%nat); [lia| |lia|]; [destruct (decide (rest = [])); lia|].
  rewrite Hr by lia. destruct (decide ([] = [])) as [_|]; [|done]. destruct (decide (active = [])) as [E|]; [|lia].
  specialize (Ha E). lia.
Qed.

Lemma tune_loop_ends N fuel n todo active st : (1 <= limit)%Z -> NoDup (active ++ todo.*1) -> (zlen active <= limit)%Z ->
  (forall n s m, (N <= n)%nat -> Forall (ended_in (others n s m).1) (active ++ todo.*1)) ->
  (turns_left N n todo active < fuel)%nat ->
  (loop fuel task n todo active st).2 <> Ok NoFuel.
Proof.
  intros Hlim. revert n todo active st. induction fuel as [|fuel IH]; intros n todo active st Hnd Hle Hend Hfuel; [lia|].
  cbn [tune_loop]. destruct (bool_decide (todo = []) && bool_decide (active = [])) eqn:Eend; [done|].
  apply andb_false_iff in Eend. rewrite !bool_decide_eq_false in Eend.
  cbv [mbind api_bind stopped]. destruct (stop_at env (reads st)); [done|].
  match goal with |- context [start_trials spawns task todo active ?s] =>
    pose proof (start_trials_ok todo active s Hnd Hle) as Hst; destruct (start_trials spawns task todo active s) as [st1 [[todo' active']|e]] end;
    [|done].
  destruct Hst as (k & Hk & Hkl & _ & Hr1). destruct (Hr1 todo' active' eq_refl) as (-> & Ha & Hor). clear Hr1.
  unfold db_do, db_run.
  match goal with |- context [sleep others n ?s] => pose proof (sleep_store n s) as Hsl; destruct (sleep others n s) as [st3 [[]|e]] eqn:Es end;
    [|done]. cbn [fst world] in Hsl.
  pose proof (reap_ok active' st3) as Hre. pose proof (reap_all active' st3) as Hall.
  destruct (reap env active' st3) as [st4 [rest|e]]; [|done]. destruct Hre as (_ & ended & _ & _ & Hr4).
  pose proof (Hr4 rest eq_refl) as Hrest.
  assert (Hsub : forall x, x ∈ active' ++ (drop k todo).*1 -> x ∈ active ++ todo.*1).
  { intros x. rewrite Ha, <- (app_assoc active), <- (fmap_app fst), take_drop. done. }
  assert (Hrs : forall x, x ∈ rest -> x ∈ active') by (intros x Hx; rewrite <- Hrest; apply elem_of_app; by left).
  assert (Hza : zlen active' = (zlen active + Z.of_nat k)%Z).
  { unfold zlen. rewrite Ha, length_app, length_fmap, length_take. lia. }
  apply IH.
  - by apply (loop_disjoint active active' rest ended todo k).
  - unfold zlen in *. rewrite <- Hrest, length_app in Hza. lia.
  - intros n' s m Hn'. apply Forall_forall. intros x Hx. specialize (Hend n' s m Hn'). rewrite Forall_forall in Hend.
    apply Hend, Hsub. apply elem_of_app. apply elem_of_app in Hx as [Hx|Hx]; [left; by apply Hrs|by right].
  - enough (turns_left N (S n) (drop k todo) rest < turns_left N n todo active)%nat by lia. apply turn_taken; [done|done| |].
    + intros ->. destruct Hor as [Hd|Hge]; [|unfold zlen in *; cbn in *; lia].
      apply (f_equal length) in Hd. rewrite length_drop in Hd. cbn in Hd. destruct todo; [by destruct Eend|cbn in *; lia].
    + intros Hn. apply (Hall st4); [|done]. apply Forall_forall. intros x Hx. rewrite Hsl.
      match goal with |- ended_in (others n ?s ?m).1 x => specialize (Hend n s m Hn) end.
      rewrite Forall_forall in Hend. apply Hend, Hsub, elem_of_app. by left.
Qed.
End orchestrate.

(** C18: a tuning job runs each of its trials once, a bounded number at a time.
    Whichever calls of the client fail, whatever the other threads do and
    however the job ends, the trainings it hands to the job manager are the
    first of its trials, in order and each with the parameters of its own
    candidate, and at no point are more than max_concurrency of them handed over
    and not yet found ended.  A job that ends by itself has handed over all of
    them and found all of them ended. *)
Theorem tuning_runs_each_trial_once {F} `{Num F} `{Postgres} (env : ApiEnv)
  (others : nat -> Store F -> JobManager -> Store F * JobManager) (spawns : nat -> bool)
  (fuel : nat) (task : TuningTask F) (st : ApiState (TuneWorld F)) (Hlimit : (1 <= tk_max_concurrency task)%Z) :
  let '(st', r) := tune_job env others spawns fuel task st in
  exists evs, log (world st') = log (world st) ++ evs /\
    launches evs `prefix_of` trainings task (planned task (store (world st))) /\
    (forall pre, pre `prefix_of` evs -> (0 <= in_flight pre <= tk_max_concurrency task)%Z) /\
    (r = Ok TuneDone -> launches evs = trainings task (planned task (store (world st))) /\ in_flight evs = 0%Z).
Proof.
  pose proof (tune_job_ok env others spawns task fuel st ltac:(lia)) as Ht.
  destruct (tune_job _ _ _ _ _ st) as [st' r]. destruct Ht as (evs & Hlog & Hp & Hb & Hf).
  exists evs. split_and!; [done|done|exact Hb|]. intros Hr. destruct (Hf Hr) as [? ?]. split; [done|lia].
Qed.

(** C26: a tuning job ends once its trials have ended: if from the [N]-th pause
    on every run with the id of one of its trials has a final status, [N] turns
    plus one per trial and one more are enough for the polling loop to leave. *)
Theorem tuning_ends_with_its_trials {F} `{Num F} `{Postgres} (env : ApiEnv)
  (others : nat -> Store F -> JobManager -> Store F * JobManager) (spawns : nat -> bool)
  (N fuel : nat) (task : TuningTask F) (st : ApiState (TuneWorld F)) (Hlimit : (1 <= tk_max_concurrency task)%Z)
  (Hend : forall n s m tid, (N <= n)%nat -> tid ∈ (planned task (store (world st))).*1 -> ended_in (others n s m).1 tid)
  (Hfuel : (N + length (tk_trials task) + 1 < fuel)%nat) :
  (tune_job env others spawns fuel task st).2 <> Ok NoFuel.
Proof.
  unfold tune_job. cbv [mbind api_bind]. pose proof (tune_start_ok env task st) as Hs.
  destruct (tune_start env task st) as [st1 [[|]|e]]; [|done..]. destruct Hs as (_ & _ & Hu). cbn [negb].
  pose proof (create_trials_ok env task 0 (tk_trials task) st1) as Hc.
  destruct (create_trials env task 0 (tk_trials task) st1) as [st2 [ids|e]]; [|done].
  rewrite (proj2 Hc ids eq_refl), Hu. fold (planned task (store (world st))).
  apply (tune_loop_ends env others spawns task N); [done|apply planned_NoDup|change (zlen []) with 0%Z; lia| |].
  - intros n s m Hn. apply Forall_forall. intros tid Htid. by apply Hend.
  - unfold turns_left. rewrite planned_length. repeat case_decide; try done; lia.
Qed.

(** A tuning job that wants more slots than the job manager has breaks off
    in the middle.  The orchestrator starts trials up to max_concurrency (which
    a request may set to 10) without regard to the slots left (of 4, one of which
    it holds itself): when it finds fewer free slots than it has trials to run
    at once, "Job queue full" is thrown out of the job after the free slots are
    taken.  The parent run stays RUNNING and every trial keeps its PENDING row,
    though only the first ones will ever run. *)
Theorem wide_tuning_overflows_the_queue {F} `{Num F} `{Postgres} (env : ApiEnv)
  (others : nat -> Store F -> JobManager -> Store F * JobManager) (spawns : nat -> bool)
  (fuel : nat) (task : TuningTask F) (st : ApiState (TuneWorld F))
  (Hquiet : forall n, c_fault (db_env env n) = None) (Hspawns : forall k, spawns k = true)
  (Hstop : stop_at env (reads st) = false) (Hrefers : refers task (world st))
  (Hpending : existsb (pending (parent_run_id task)) (rows (store (world st)) "model_runs") = true)
  (Haccepts : accepts (manager (world st))) (Hunused : forall k, unused (manager (world st)) (uuid k))
  (Htrials : (0 <= free_slots (manager (world st)) < zlen (tk_trials task))%Z)
  (Hwide : (free_slots (manager (world st)) < tk_max_concurrency task)%Z) :
  let '(st', r) := tune_job env others spawns (S fuel) task st in
  r = runtime_error queue_full /\
  log (world st') = log (world st) ++
    (Launched <$> trainings task (take (Z.to_nat (free_slots (manager (world st)))) (planned task (store (world st))))) /\
  exists trials, rows (store (world st')) "model_runs" = (started task <$> rows (store (world st)) "model_runs") ++ trials /\
    length trials = length (tk_trials task) /\ Forall (waiting_trial task) trials.
Proof. by apply tune_job_full. Qed.

(** ** On a concrete store *)
#[local] Existing Instance pg_example.

(** The pending run of the example store as a tuning run with three candidates. *)
Definition candidate (n : Z) : @TrainingConfig float := trial "ds" n 99%float.
Definition tuning_example (limit : Z) : TuningTask float :=
  MkTask "id-0" "tune" "ds" "req" [candidate 1; candidate 2; candidate 3] limit.
Definition tuning_start (slots : Z) : ApiState (TuneWorld float) := MkApi 0 0 (MkTune store_example (configured slots) []).
(** By the next look every run has completed. *)
Definition all_complete (n : nat) (s : Store float) (m : JobManager) : Store float * JobManager :=
  ((update_rows "model_runs" (fun _ => true) (set_columns [("status", SText "COMPLETED")]) s).1, m).

Lemma all_complete_ended n s m tid : ended_in (all_complete n s m).1 tid.
Proof.
  unfold ended_in, all_complete. cbn [fst]. apply Forall_forall. intros r Hr. unfold where_is in Hr.
  apply list_elem_of_filter in Hr as [_ Hr]. rewrite update_rows_eq in Hr. apply list_elem_of_fmap in Hr as (r0 & -> & _).
  exists "COMPLETED". split; [|done]. cbn. by sql_simpl.
Qed.

Lemma tuning_runs_each_trial_once_witness :
  let '(st', r) := tune_job quiet_env all_complete (fun _ => true) 6 (tuning_example 2) (tuning_start 4) in
  r = Ok TuneDone /\ tr_model_run_id <$> launches (log (world st')) = ["id-2"; "id-3"; "id-4"].
Proof.
  pose proof (tuning_runs_each_trial_once quiet_env all_complete (fun _ => true) 6 (tuning_example 2) (tuning_start 4)
    ltac:(cbn; lia)) as Ht.
  destruct (tune_job _ _ _ _ _ _) as [st' r] eqn:E. destruct Ht as (evs & Hlog & _ & _ & Hdone).
  assert (Hr : r = Ok TuneDone) by (change r with (st', r).2; rewrite <- E; vm_compute; reflexivity).
  split; [exact Hr|]. rewrite Hlog. cbn [log world tuning_start app]. rewrite (proj1 (Hdone Hr)). vm_compute. reflexivity.
Defined.

Lemma tuning_ends_with_its_trials_witness :
  (tune_job quiet_env all_complete (fun _ => true) 6 (tuning_example 2) (tuning_start 4)).2 <> Ok NoFuel.
Proof.
  apply (tuning_ends_with_its_trials quiet_env all_complete (fun _ => true) 0 6 (tuning_example 2) (tuning_start 4)).
  - cbn. lia.
  - intros n s m tid _ _. apply all_complete_ended.
  - cbn. lia.
Defined.

Lemma wide_tuning_overflows_the_queue_witness :
  let '(st', r) := tune_job quiet_env all_complete (fun _ => true) 6 (tuning_example 5) (tuning_start 2) in
  r = runtime_error queue_full /\ tr_model_run_id <$> launches (log (world st')) = ["id-2"; "id-3"] /\
  length (rows (store (world st')) "model_runs") = 4%nat.
Proof.
  pose proof (wide_tuning_overflows_the_queue quiet_env all_complete (fun _ => true) 5 (tuning_example 5) (tuning_start 2)
    (fun _ => eq_refl) (fun _ => eq_refl) eq_refl) as Ht.
  destruct (tune_job _ _ _ _ _ _) as [st' r]. destruct Ht as (Hr & Hlog & trials & Hrows & Hlen & _).
  - split; vm_compute; reflexivity.
  - vm_compute. reflexivity.
  - exists 2%Z. split; [apply inv_configured|reflexivity].
  - intros k. reflexivity.
  - vm_compute. split; [discriminate|reflexivity].
  - vm_compute. reflexivity.
  - split; [exact Hr|]. rewrite Hlog, Hrows. split; [vm_compute; reflexivity|].
    rewrite length_app, Hlen, length_fmap. reflexivity.
Defined.
