(* ===== verification/Requests.v ===== *)
(** The requests that start, cancel or repeat background work: POST /train,
    POST /jobs/score_dataset, POST /datasets, DELETE /train/:id, DELETE
    /jobs/:id and POST /models/:id/rerun_failed of src/src/api_server.cpp, and
    GenerateTelemetry of src/src/server.cpp behind POST /datasets.

    The closures handed to the job managers are values ([job_start]); what they
    do when they run is TrainJob.v, Tuning.v, ScoreJob.v and Generator.v. *)
From stdpp Require Import base gmap strings list fin_maps.
From Stdlib Require Import ZArith Lia Floats.
From S2P Require Import Prelude Num Random Json Hpo JobManager Sql DbClient Workers Queries Http Tuning.

Local Open Scope string_scope.
Local Open Scope list_scope.

(** ** The closures, and the world they are started in *)
Inductive job_start (F : Type) :=
  | TrainingJob (t : Training F)
  | TuningJob (task : TuningTask F)
  | ScoringJob (dataset_id model_run_id job_id rid : string).
Arguments TrainingJob {F} t.
Arguments TuningJob {F} task.
Arguments ScoringJob {F} dataset_id model_run_id job_id rid.

Record ServerWorld (F : Type) := MkServer { sv_store : Store F; sv_jobs : JobManager; sv_started : list (job_start F) }.
Arguments MkServer {F} sv_store sv_jobs sv_started.
Arguments sv_store {F} s.
Arguments sv_jobs {F} s.
Arguments sv_started {F} s.

Section requests.
Context {F : Type} `{Num F} `{Postgres} `{Server F} {G : Type} `{!Rng G} {text : Type} `{!JsonText F text}.
Abbreviation W := (ServerWorld F).
Context (env : ApiEnv) (http : HttpEnv F) (parse_body : string -> option (json F)).
(** The hash of std::hash<std::string>, the ticks of the clock, whether the
    system can create the thread of the n-th call. *)
Context (hash : text -> N) (now : Z) (spawns : nat -> bool).

(** Calls of the client on the store of the world. *)
Definition sv_run {A} (f : Call -> Store F -> Store F * res A) : api W A :=
  db_run env (fun c w => let '(s, r) := f c (sv_store w) in (MkServer s (sv_jobs w) (sv_started w), r)).
Definition sv_do (f : Call -> Store F -> Store F) : api W unit :=
  db_do env (fun c w => MkServer (f c (sv_store w)) (sv_jobs w) (sv_started w)).
Definition sv_ask {A} (f : Call -> Store F -> A) : api W A := db_ask env (fun c w => f c (sv_store w)).

(** [job_manager_->StartJob(job_id, rid, ...)]. *)
Definition start_job (job_id rid : string) (j : job_start F) : api W unit := fun st =>
  match StartJob (sv_jobs (world st)) job_id rid (spawns (calls st)) with
  | Some (m, r) =>
      (MkApi (calls st) (reads st) (MkServer (sv_store (world st)) m
         (sv_started (world st) ++ match r with Ok _ => [j] | Throw _ => [] end)), r)
  | None => (st, Throw (Exn Undefined "blocked"))
  end.
Definition cancel_job (job_id : string) : api W unit := fun st =>
  (MkApi (calls st) (reads st) (MkServer (sv_store (world st)) (CancelJob job_id (sv_jobs (world st))) (sv_started (world st))), Ok tt).

(** ApiServer::RunPcaTraining and ApiServer::OrchestrateTuning as their callers see them. *)
Definition start_training (t : Training F) : api W unit :=
  start_job ("train-" +:+ tr_model_run_id t) (tr_rid t) (TrainingJob t).
Definition start_tuning (task : TuningTask F) : api W unit :=
  start_job ("tuning-" +:+ parent_run_id task) (tk_rid task) (TuningJob task).

(** ** POST /train *)
Record train_request := MkTrainRequest {
  tq_dataset_id : string; tq_name : string; tq_n_components : Z; tq_percentile : F;
  (** the search, when one is asked for: its JSON, its configuration and its fingerprint *)
  tq_hpo : option (json F * HpoConfig F * string) }.

Definition read_field_of {A} (get : json F -> res A) (k : string) (dflt : A) (j : json F) : res A :=
  if jcontains j k then v ← jget j k; get v else Ok dflt.
(** The HpoConfig of a request. *)
Definition read_hpo (hpo_config : json F) : res (HpoConfig F) :=
  algorithm ← jvalue get_string "algorithm" "grid" hpo_config;
  max_trials ← jvalue get_int "max_trials" 10%Z hpo_config;
  max_concurrency ← jvalue get_int "max_concurrency" 2%Z hpo_config;
  seed ← read_field_of (fun v => s ← get_int v; Ok (Some s)) "seed" None hpo_config;
  space ← read_field_of (fun ss =>
      ns ← read_field_of (get_list get_int) "n_components" [] ss;
      ps ← read_field_of (get_list get_double) "percentile" [] ss;
      Ok (MkSpace ns ps)) "search_space" (MkSpace [] []) hpo_config;
  Ok (MkHpo algorithm max_trials max_concurrency seed space).

Definition cap_name (c : HpoCapReason) : string :=
  match c with MAX_TRIALS => "MAX_TRIALS" | GRID_CAP => "GRID_CAP" | NONE => "NONE" end.
Definition preflight_json (h : HpoConfig F) : json F :=
  let p := PreflightHpoConfig h in
  obj [("estimated_candidates", JInt (estimated_candidates p)); ("effective_trials", JInt (effective_trials p));
       ("capped_by", JStr (cap_name (capped_by p)))].
Definition hpo_errors (errors : list HpoValidationError) : json F :=
  obj [("error", obj [("message", JStr "Invalid HPO configuration"); ("code", JStr kErrHttpInvalidArgument);
    ("field_errors", JArr ((fun e => obj [("field", JStr (Hpo.field e)); ("message", JStr (Hpo.message e))]) <$> errors))])].

(** Up to the database: what is asked for, or the response that refuses it. *)
Definition check_train (rid : string) (j : json F) : res (Response F + train_request) :=
  let refuse msg := r ← SendError msg 400 kErrHttpBadRequest rid; Ok (inl r) in
  v ← jat "dataset_id" j; dataset_id ← get_string v;
  name ← jvalue get_string "name" "pca_default" j;
  n_components ← jvalue get_int "n_components" 3%Z j;
  percentile ← jvalue get_double "percentile" (nlit 995 10) j;
  if ((n_components <=? 0) || (5 <? n_components))%Z then refuse "n_components must be between 1 and 5" else
  if (percentile <? nofZ 50)%num || (nofZ 100 <=? percentile)%num then refuse "percentile must be between 50.0 and 99.99" else
  if negb (jcontains j "hpo_config") then Ok (inr (MkTrainRequest dataset_id name n_components percentile None)) else
  hpo_config ← jget j "hpo_config";
  h ← read_hpo hpo_config;
  match ValidateHpoConfig h with
  | [] => fp ← ComputeCandidateFingerprint hash h;
          Ok (inr (MkTrainRequest dataset_id name n_components percentile (Some (hpo_config, h, fp))))
  | errors => r ← SendJson (hpo_errors errors) 400 rid; Ok (inl r)
  end.

Definition training_config (q : train_request) : json F :=
  obj [("dataset_id", JStr (tq_dataset_id q)); ("n_components", JInt (tq_n_components q));
       ("percentile", JNum (tq_percentile q)); ("feature_set", JStr "cpu,mem,disk,rx,tx")].
(** The closure that runs the request for the run [id]. *)
Definition train_job (rid id : string) (q : train_request) : job_start F :=
  match tq_hpo q with
  | Some (hpo_config, h, _) =>
      if json_empty hpo_config then TrainingJob (MkRun id (tq_dataset_id q) (tq_n_components q) (tq_percentile q) rid)
      else TuningJob (MkTask id (tq_name q) (tq_dataset_id q) rid (GenerateTrials now h (tq_dataset_id q))
                        (clamp (max_concurrency h) 1 10))
  | None => TrainingJob (MkRun id (tq_dataset_id q) (tq_n_components q) (tq_percentile q) rid)
  end.
Definition start_train_job (j : job_start F) : api W unit :=
  match j with TrainingJob t => start_training t | TuningJob task => start_tuning task | ScoringJob _ _ _ _ => mret tt end.

Definition submit_train (rid : string) (q : train_request) : api W (Response F) :=
  let hpo_config := match tq_hpo q with Some (hc, _, _) => hc | None => JObj [] end in
  let fingerprint := match tq_hpo q with Some (_, _, fp) => fp | None => "" end in
  let version := match tq_hpo q with Some _ => kHpoGeneratorVersion | None => "" end in
  let seed_used := match tq_hpo q with Some (_, h, _) => seed h | None => None end in
  model_run_id ← sv_run (fun c => CreateModelRun c (tq_dataset_id q) (tq_name q) (training_config q) rid hpo_config
                                    fingerprint version seed_used);
  if (model_run_id =? "")%string
  then lift (SendError "Failed to create model run in DB" 500 kErrDbInsertFailed rid) else
  start_train_job (train_job rid model_run_id q);;
  lift (SendJson (obj ([("model_run_id", JStr model_run_id); ("status", JStr "PENDING")]
                       ++ match tq_hpo q with Some (_, h, _) => [("hpo_preflight", preflight_json h)] | None => [] end)) 202 rid).

Definition train_submit_error (rid : string) (e : exn) : api W (Response F) :=
  let err := exn_what e in
  let code := ClassifyHttpError e in
  let '(code, status) := (if has "Job queue full" err then (kErrHttpResourceExhausted, 503)
                          else if client_error code then (code, 400) else (code, 500))%Z in
  lift (SendError ("Error: " +:+ err) status code rid).

Definition HandleTrainModel (req : Request) : api W (Response F) :=
  let rid := GetRequestId http req in
  try_catch
    (j ← lift (parse_request parse_body req);
     checked ← lift (check_train rid j);
     match checked with inl r => mret r | inr q => submit_train rid q end)
    (train_submit_error rid).

(** ** POST /jobs/score_dataset *)
Definition submit_score (rid dataset_id model_run_id : string) : api W (Response F) :=
  job_id ← sv_run (fun c => CreateScoreJob c dataset_id model_run_id rid);
  if (job_id =? "")%string then lift (SendError "Failed to create job" 500 kErrDbInsertFailed rid) else
  job ← sv_ask (fun c => GetScoreJob c job_id);
  if json_empty job then lift (SendError "Failed to load job status" 500 kErrDbQueryFailed rid) else
  status ← lift (jvalue get_string "status" "" job);
  total_rows ← lift (jvalue get_long "total_rows" 0%Z job);
  processed_rows ← lift (jvalue get_long "processed_rows" 0%Z job);
  last_record_id ← lift (jvalue get_long "last_record_id" 0%Z job);
  if (status =? "RUNNING")%string || (status =? "COMPLETED")%string then
    lift (SendJson (obj [("job_id", JStr job_id); ("score_job_id", JStr job_id); ("status", JStr status);
      ("total_rows", JInt total_rows); ("processed_rows", JInt processed_rows); ("last_record_id", JInt last_record_id)]) 200 rid)
  else
    start_job ("score-" +:+ job_id) rid (ScoringJob dataset_id model_run_id job_id rid);;
    lift (SendJson (obj [("job_id", JStr job_id); ("score_job_id", JStr job_id); ("status", JStr "RUNNING")]) 202 rid).
Definition score_submit_error (rid : string) (e : exn) : api W (Response F) :=
  let err := exn_what e in
  lift (if has "Job queue full" err then SendError err 503 kErrHttpResourceExhausted rid
        else SendError ("Error: " +:+ err) 400 kErrHttpBadRequest rid).
Definition HandleScoreDatasetJob (req : Request) : api W (Response F) :=
  let rid := GetRequestId http req in
  try_catch
    (j ← lift (parse_request parse_body req);
     dataset_id ← lift (v ← jat "dataset_id" j; get_string v);
     model_run_id ← lift (v ← jat "model_run_id" j; get_string v);
     submit_score rid dataset_id model_run_id)
    (score_submit_error rid).

(** ** Cancellation *)

(** DELETE /jobs/:id. *)
Definition delete_job (req : Request) : api W (Response F) :=
  let job_id := match_ 1 req in
  cancel_job job_id;;
  mret (MkResponse 200 (obj [("status", JStr "CANCEL_REQUESTED"); ("job_id", JStr job_id);
                             ("request_id", JStr (GetRequestId http req))])).

(** [t["key"]] as a string. *)
Definition text_at (k : string) (j : json F) : res string := v ← jget j k; get_string v.
Fixpoint cancel_trials (trials : list (json F)) : api W unit :=
  match trials with
  | [] => mret tt
  | t :: trials' =>
      tid ← lift (text_at "model_run_id" t);
      tst ← lift (text_at "status" t);
      (if (tst =? "PENDING")%string || (tst =? "RUNNING")%string then
         cancel_job ("train-" +:+ tid);;
         sv_do (fun c => UpdateModelRunStatus c tid "CANCELLED" "" "Cancelled by parent tuning run request" JNull);;
         sv_do (fun c => UpdateTrialEligibility c tid false "CANCELED" 0%num "")
       else mret tt);;
      cancel_trials trials'
  end.
(** DELETE /train/:id. *)
Definition delete_train (req : Request) : api W (Response F) :=
  let rid := GetRequestId http req in
  let model_run_id := match_ 1 req in
  j ← sv_ask (fun c => GetModelRun c model_run_id);
  if json_empty j then lift (SendError "Model run not found" 404 kErrHttpNotFound rid) else
  status ← lift (text_at "status" j);
  if terminal_status status then lift (SendError "Cannot cancel terminal run" 400 "E_TERMINAL" rid) else
  hpo_config ← lift (jget j "hpo_config");
  (if jis_null hpo_config then mret tt
   else trials ← sv_ask (fun c => GetHpoTrials c model_run_id); cancel_trials (jelements trials));;
  cancel_job ("train-" +:+ model_run_id);;
  sv_do (fun c => UpdateModelRunStatus c model_run_id "CANCELLED" "" "Cancelled by user request" JNull);;
  lift (SendJson (obj [("status", JStr "CANCEL_REQUESTED"); ("model_run_id", JStr model_run_id)]) 200 rid).

(** ** POST /models/:id/rerun_failed *)
Definition is_text (s : string) (j : json F) : bool := match j with JStr s' => (s' =? s)%string | _ => false end.
Definition failed_among (trials : list (json F)) : res (list (json F)) :=
  fold_res (fun acc t => status ← jget t "status";
    Ok (if is_text "FAILED" status || is_text "CANCELLED" status then acc ++ [t] else acc)) [] trials.
Definition rerun_limit : nat := 10.
(** Up to ten of the failed trials, each as a new trial with the same index;
    [suffix] is what [GenerateUuid] gives the n-th. *)
Fixpoint rerun_trials (suffix : nat -> string) (n : nat) (rid model_run_id : string) (failed : list (json F)) : api W (list string) :=
  match failed with
  | [] => mret []
  | t :: failed' =>
      name ← lift (text_at "name" t);
      let name := if has "_rerun_" name then name else name +:+ "_rerun_" +:+ String.substring 0 4 (suffix n) in
      dataset_id ← lift (text_at "dataset_id" t);
      t_cfg ← lift (jget t "training_config");
      trial_index ← lift (v ← jget t "trial_index"; get_int v);
      trial_params ← lift (jget t "trial_params");
      new_tid ← sv_run (fun c => CreateHpoTrialRun c dataset_id name t_cfg rid model_run_id trial_index trial_params);
      (if (new_tid =? "")%string then mret tt else
         n_components ← lift (v ← jget t_cfg "n_components"; get_int v);
         percentile ← lift (v ← jget t_cfg "percentile"; get_double v);
         start_training (MkRun new_tid dataset_id n_components percentile rid));;
      ids ← rerun_trials suffix (S n) rid model_run_id failed';
      mret ((if (new_tid =? "")%string then [] else [new_tid]) ++ ids)
  end.
Definition rerun_failed (suffix : nat -> string) (req : Request) : api W (Response F) :=
  let rid := GetRequestId http req in
  let model_run_id := match_ 1 req in
  j ← sv_ask (fun c => GetModelRun c model_run_id);
  if json_empty j then lift (SendError "Model run not found" 404 kErrHttpNotFound rid) else
  type ← lift (jget j "type");
  if negb (is_text "TUNING" type) then lift (SendError "Not a tuning run" 400 "E_NOT_TUNING" rid) else
  trials ← sv_ask (fun c => GetHpoTrials c model_run_id);
  failed_trials ← lift (failed_among (jelements trials));
  if bool_decide (failed_trials = []) then
    lift (SendError "No failed or cancelled trials to rerun" 400 "E_NO_FAILED_TRIALS" rid)
  else
    new_trial_ids ← rerun_trials suffix 0 rid model_run_id (take rerun_limit failed_trials);
    lift (SendJson (obj [("rerun_count", JInt (zlen (take rerun_limit failed_trials)));
                         ("new_trial_ids", JArr (JStr <$> new_trial_ids))]) 202 rid).

(** ** POST /datasets *)

(** The call of the generation service: the id of the new run, or the message
    of the status. *)
Definition HandleGenerateData (rpc : Z -> string -> string + string) (req : Request) : res (Response F) :=
  let rid := GetRequestId http req in
  let m := (j ← parse_request parse_body req;
            host_count ← jvalue get_int "host_count" 5%Z j;
            _ ← jvalue get_string "run_id" "" j;
            match rpc host_count rid with
            | inl run_id => SendJson (obj [("run_id", JStr run_id); ("status", JStr "PENDING")]) 202 rid
            | inr msg => SendError ("gRPC Error: " +:+ msg) 500 kErrHttpGrpcError rid
            end) in
  match m with
  | Throw e => if catchable e then
                 let code := ClassifyHttpError e in
                 SendError ("Generate failed: " +:+ exn_what e) (if client_error code then 400 else 500) code rid
               else Throw e
  | Ok r => Ok r
  end.
End requests.

(** TelemetryServiceImpl::GenerateTelemetry: the run's id, or the message of
    RESOURCE_EXHAUSTED; [None] when the start blocks. *)
Definition GenerateTelemetry (run_id request_id : string) (spawn_ok : bool) (m : JobManager)
    : option (JobManager * (string + string)) :=
  match StartJob m ("gen-" +:+ run_id) request_id spawn_ok with
  | Some (m', Ok _) => Some (m', inl run_id)
  | Some (m', Throw e) => Some (m', inr (exn_what e))
  | None => None
  end.
