(* ===== verification/RequestFacts.v ===== *)
(** What the requests of Requests.v do: a training request starts one job for
    one new run or nothing, and the rerun route refuses every request. *)
From stdpp Require Import base gmap strings list fin_maps.
From Stdlib Require Import ZArith Lia Floats.
From S2P Require Import Prelude Num Random Linalg Json Hpo JobState JobManager Sql DbClient DbFacts Workers Queries Http Handlers HandlerFacts Tuning Requests.

Local Open Scope string_scope.
Local Open Scope list_scope.

(** ** Reading a request *)
Section reading.
Context {F : Type} `{Num F} {text : Type} `{!JsonText F text} (hash : text -> N).

Lemma defined_get_double (j : json F) : defined (get_double j).
Proof. unfold get_double. defining. Qed.
Lemma defined_jat k (j : json F) : defined (jat k j).
Proof. unfold jat. defining. Qed.
Lemma defined_read_field_of {A} (get : json F -> res A) k dflt j : (forall v, defined (get v)) -> defined (read_field_of get k dflt j).
Proof. intros Hg. unfold read_field_of. destruct (jcontains j k); [apply defined_bind; [apply defined_jget|done]|apply defined_ok]. Qed.
Lemma defined_read_hpo (j : json F) : defined (read_hpo j).
Proof.
  unfold read_hpo.
  repeat (apply defined_bind; [solve [apply defined_jvalue; auto with defined
    | apply defined_read_field_of; intros v; defining
    | apply defined_read_field_of; intros v; repeat (apply defined_bind;
        [apply defined_read_field_of; intros w; apply defined_get_list; auto using defined_get_int, defined_get_double|intros ?]); apply defined_ok]
    |intros ?]).
  apply defined_ok.
Qed.
Lemma defined_fingerprint h : defined (ComputeCandidateFingerprint (F := F) hash h).
Proof. unfold ComputeCandidateFingerprint, normalized_json. repeat (apply defined_bind; [|intros ?]); defining. Qed.
Lemma defined_send_error msg status code rid : defined (SendError (F := F) msg status code rid).
Proof. destruct (SendError_ok (F := F) msg status code rid) as [b ->]. apply defined_ok. Qed.

Lemma defined_check_train rid (j : json F) : defined (check_train hash rid j).
Proof.
  unfold check_train. repeat (apply defined_bind; [first [apply defined_jat | apply defined_jvalue; auto using defined_get_double with defined
    | auto with defined] |intros ?]).
  repeat case_match; try apply defined_ok; try (apply defined_bind; [apply defined_send_error|intros ?; apply defined_ok]).
  apply defined_bind; [apply defined_jget|intros hc]. apply defined_bind; [apply defined_read_hpo|intros h].
  destruct (ValidateHpoConfig h); (apply defined_bind; [|intros ?; apply defined_ok]); [apply defined_fingerprint|apply defined_SendJson].
Qed.

(** What an accepted request satisfies. *)
Definition accepted (q : train_request (F := F)) : Prop :=
  (1 <= tq_n_components q <= 5)%Z /\ (tq_percentile q <? nofZ 50)%num = false /\ (nofZ 100 <=? tq_percentile q)%num = false /\
  match tq_hpo q with Some (_, h, _) => ValidateHpoConfig h = [] | None => True end.

Lemma check_train_ok rid (j : json F) o : check_train hash rid j = Ok o ->
  match o with inl resp => r_status resp = 400%Z | inr q => accepted q end.
Proof.
  unfold check_train. intros (v & _ & Hr)%bind_ok. apply bind_ok in Hr as (ds & _ & Hr). apply bind_ok in Hr as (name & _ & Hr).
  apply bind_ok in Hr as (n & _ & Hr). apply bind_ok in Hr as (p & _ & Hr).
  destruct ((n <=? 0)%Z || (5 <? n)%Z) eqn:En.
  { by apply bind_ok in Hr as (r & Hs%SendJson_status & [= <-]). }
  destruct ((p <? nofZ 50)%num || (nofZ 100 <=? p)%num) eqn:Ep.
  { by apply bind_ok in Hr as (r & Hs%SendJson_status & [= <-]). }
  apply orb_false_iff in En as [En1 En2]. apply orb_false_iff in Ep as [Ep1 Ep2].
  destruct (negb _).
  { injection Hr as <-. split_and!; cbn [tq_n_components tq_percentile tq_hpo]; [lia|lia|done|done|done]. }
  apply bind_ok in Hr as (hc & _ & Hr). apply bind_ok in Hr as (h & _ & Hr).
  destruct (ValidateHpoConfig h) eqn:Eh.
  - apply bind_ok in Hr as (fp & _ & [= <-]). split_and!; cbn [tq_n_components tq_percentile tq_hpo]; [lia|lia|done|done|done].
  - by apply bind_ok in Hr as (r & Hs%SendJson_status & [= <-]).
Qed.
End reading.

(** ** Submitting it *)
Section submitting.
Context {F : Type} `{Num F} `{Postgres} `{Server F} {G : Type} `{!Rng G} {text : Type} `{!JsonText F text}.
Context (env : ApiEnv) (http : HttpEnv F) (parse_body : string -> option (json F)).
Context (hash : text -> N) (now : Z) (spawns : nat -> bool).
Implicit Types (st : ApiState (ServerWorld F)) (w : ServerWorld F).

(** The run [id] is new in the store and waits for its job. *)
Definition new_run (id : string) (ds : string) w w' : Prop :=
  exists r, rows (sv_store w') "model_runs" = rows (sv_store w) "model_runs" ++ [r] /\
    (forall t, t <> "model_runs" -> rows (sv_store w') t = rows (sv_store w) t) /\
    column r "model_run_id" = SText id /\ column r "dataset_id" = SText ds /\ column r "status" = SText "PENDING".
Definition untouched w w' : Prop :=
  sv_store w' = sv_store w /\ sv_jobs w' = sv_jobs w /\ sv_started w' = sv_started w.
(** The job manager is in a state it can reach. *)
Definition managed w : Prop := exists n, inv n (sv_jobs w).

Lemma CreateModelRun_ok c ds name cfg rid hpo fp version seed_used (s : Store F) s' id :
  CreateModelRun c ds name cfg rid hpo fp version seed_used s = (s', Ok id) ->
  id <> "" /\ new_run id ds (MkServer s jm_init []) (MkServer s' jm_init []).
Proof.
  unfold CreateModelRun. intros [_ Hb]%work_ok. unfold draw_uuid in Hb. apply bind_ok in Hb as (s1 & Hi & [= <- <-]).
  unfold insert_row in Hi. case_match; [|discriminate]. injection Hi as <-. split; [apply uuid_nonempty|].
  eexists. cbn [sv_store]. split_and!; [by rewrite rows_put_eq|intros t Ht; by rewrite rows_put_ne|..];
    unfold new_row, model_run_defaults; cbn [app set_columns foldr fst snd]; by sql_simpl.
Qed.
Lemma CreateModelRun_throw c ds name cfg rid hpo fp version seed_used (s : Store F) s' e : call_ok c ->
  CreateModelRun c ds name cfg rid hpo fp version seed_used s = (s', Throw e) -> s' = s /\ catchable e = true.
Proof.
  intros Hc Hw. split; [by eapply work_throw|]. revert Hw. unfold CreateModelRun, work.
  destruct (c_fault c) as [e'|] eqn:E; [intros [= _ <-]; by apply Hc|]. unfold draw_uuid, insert_row, sql_error.
  destruct (forallb _ _); cbn [mbind res_bind]; [done|]. by intros [= _ <-].
Qed.

(** Starting a job: it is started, or nothing is and the exception can be caught. *)
Definition start_errors : list exn :=
  [Exn RuntimeError queue_full; Exn RuntimeError is_stopping; Exn OtherException "thread creation failed"].
Lemma StartJob_cases n m id req ok : inv n m -> exists m' r, StartJob m id req ok = Some (m', r) /\
  match r with Ok _ => True | Throw e => e ∈ start_errors end.
Proof.
  intros Hi. destruct (cleanup_ok n m Hi) as (m1 & Hc & _). unfold StartJob. rewrite Hc. cbv zeta.
  destruct (negb (bool_decide _)); [do 2 eexists; split; [done|right; left]|].
  destruct (_ <=? _)%Z; [do 2 eexists; split; [done|left]|].
  destruct (negb ok); [do 2 eexists; split; [done|right; right; left]|].
  destruct (threads_ m1 !! id); by do 2 eexists.
Qed.
Lemma start_job_ok id rid j st : managed (world st) ->
  let '(st', r) := start_job spawns id rid j st in
  sv_store (world st') = sv_store (world st) /\
  match r with
  | Ok _ => sv_started (world st') = sv_started (world st) ++ [j]
  | Throw e => sv_started (world st') = sv_started (world st) /\ e ∈ start_errors
  end.
Proof.
  intros [n Hi]. destruct (StartJob_cases n (sv_jobs (world st)) id rid (spawns (calls st)) Hi) as (m' & r & Hs & Hr).
  unfold start_job. rewrite Hs. cbn [world sv_store sv_started]. destruct r as [[]|e]; [done|]. by rewrite app_nil_r.
Qed.
Lemma start_error_status rid e : e ∈ start_errors ->
  catchable e = true /\ exists b, SendError (F := F) ("Error: " +:+ exn_what e)
    (if has "Job queue full" (exn_what e) then 503 else 500)%Z
    (if has "Job queue full" (exn_what e) then kErrHttpResourceExhausted else kErrInternal) rid =
    Ok (MkResponse (if bool_decide (e = Exn RuntimeError queue_full) then 503 else 500)%Z b).
Proof.
  unfold start_errors. rewrite !elem_of_cons, elem_of_nil.
  intros [->|[->|[->|[]]]]; (split; [reflexivity|]); apply (SendError_ok (F := F)).
Qed.

Abbreviation submit := (submit_train env now spawns).
Lemma start_train_job_eq rid id q : exists key, start_train_job spawns (train_job now rid id q) = start_job spawns key rid (train_job (F := F) now rid id q).
Proof.
  unfold train_job. destruct (tq_hpo q) as [[[hc h] fp]|]; [destruct (json_empty hc)|]; eexists; reflexivity.
Qed.
Lemma submit_train_ok rid (q : train_request (F := F)) st : faults_ok env -> managed (world st) ->
  let '(st', r) := submit rid q st in
  match r with
  | Ok resp => r_status resp = 202%Z /\ exists id, new_run id (tq_dataset_id q) (world st) (world st') /\
      sv_started (world st') = sv_started (world st) ++ [train_job now rid id q]
  | Throw e => (catchable e = true /\ untouched (world st) (world st')) \/
      (e ∈ start_errors /\ sv_started (world st') = sv_started (world st) /\
       exists id, new_run id (tq_dataset_id q) (world st) (world st'))
  end.
Proof.
  intros Hf Hm. unfold submit_train. cbv [mbind api_bind sv_run db_run]. cbv zeta.
  match goal with |- context [CreateModelRun ?c ?ds ?n ?cfg ?r ?hpo ?fp ?v ?sd ?s] =>
    pose proof (CreateModelRun_ok c ds n cfg r hpo fp v sd s) as Hok; pose proof (CreateModelRun_throw c ds n cfg r hpo fp v sd s) as Hthrow;
    destruct (CreateModelRun c ds n cfg r hpo fp v sd s) as [s' [id|e]] end.
  2:{ destruct (Hthrow s' e (Hf _) eq_refl) as [-> Hc]. left. split; [done|]. by split_and!. }
  destruct (Hok s' id eq_refl) as [Hne Hnew]. apply String.eqb_neq in Hne as ->.
  destruct (start_train_job_eq rid id q) as [key ->].
  match goal with |- context [start_job spawns key rid _ ?s1] =>
    pose proof (start_job_ok key rid (train_job now rid id q) s1 Hm) as Hs; destruct (start_job spawns key rid _ s1) as [st2 [[]|e]] end.
  all: cbn [world sv_store sv_started] in Hs; destruct Hs as [Hstore Hs].
  - destruct (SendJson_obj (F := F) (foldl (fun acc kv => obj_insert kv.1 kv.2 acc) []
      ([("model_run_id", JStr id); ("status", JStr "PENDING")] ++ match tq_hpo q with Some (_, h, _) => [("hpo_preflight", preflight_json h)] | None => [] end))
      202 rid) as [b Hb].
    unfold lift, obj. rewrite Hb. split; [done|]. exists id. split; [|done].
    unfold new_run in *. cbn [sv_store] in Hnew. by rewrite Hstore.
  - right. destruct Hs as [Hs He]. split_and!; [done|done|]. exists id. unfold new_run in *. cbn [sv_store] in Hnew. by rewrite Hstore.
Qed.

Lemma submit_error_ok rid e st : exists b status, train_submit_error (F := F) rid e st = (st, Ok (MkResponse status b)) /\
  status ∈ [400; 500; 503]%Z /\ (e ∈ start_errors -> status = if bool_decide (e = Exn RuntimeError queue_full) then 503%Z else 500%Z).
Proof.
  unfold train_submit_error, lift.
  destruct (has "Job queue full" (exn_what e)) eqn:Eh; [|destruct (client_error (ClassifyHttpError e)) eqn:Ec];
    match goal with |- context [SendError ?m ?s ?c rid] => destruct (SendError_ok (F := F) m s c rid) as [b ->]; exists b, s end;
    (split; [done|]; split; [by_deciding|]); unfold start_errors; rewrite !elem_of_cons, elem_of_nil;
    intros [->|[->|[->|[]]]]; first [reflexivity | discriminate].
Qed.
End submitting.


(** The rerun route never reruns anything.  It asks whether the field
    "type" of the run is "TUNING", but no run the database client returns has
    such a field: a request for a run that exists is answered 400, any other
    404, and nothing changes. *)
Theorem rerun_is_always_refused {F} `{Num F} `{Postgres} `{Server F} (env : ApiEnv) (http : HttpEnv F) (spawns : nat -> bool)
  (suffix : nat -> string) (req : Request) (st : ApiState (ServerWorld F)) :
  exists resp, (rerun_failed env http spawns suffix req st).2 = Ok resp /\ r_status resp ∈ [400; 404]%Z /\
    world (rerun_failed env http spawns suffix req st).1 = world st.
Proof.
  unfold rerun_failed. cbv [mbind api_bind sv_ask db_ask db_read db_run lift]. cbv zeta. cbn [world].
  assert (Hno : jget (GetModelRun (db_env env (calls st)) (match_ 1 req) (sv_store (world st))) "type" = Ok JNull).
  { unfold GetModelRun, get_one. destruct (c_fault _); [done|]. destruct (where_is _ _ _ _) as [|r rs]; [done|].
    unfold read_row. pose proof (read_fields_keep model_run_fields r [] "type" ltac:(by_deciding)) as Hk.
    destruct (read_fields model_run_fields r []) as [l e]. unfold built. destruct l as [|kv l]; [done|]. cbn [fst jget] in *. by rewrite Hk. }
  destruct (json_empty _).
  - destruct (SendError_ok (F := F) "Model run not found" 404 kErrHttpNotFound (GetRequestId http req)) as [b ->].
    exists (MkResponse 404 b). split_and!; [done|by_deciding|done].
  - rewrite Hno. cbn [is_text negb].
    destruct (SendError_ok (F := F) "Not a tuning run" 400 "E_NOT_TUNING" (GetRequestId http req)) as [b ->].
    exists (MkResponse 400 b). split_and!; [done|by_deciding|done].
Qed.

(** ** On a concrete store *)
#[local] Existing Instance pg_example.
#[local] Existing Instance server_example.
#[local] Instance request_text : JsonText float (option (json float)) := tree_text float.
#[local] Existing Instance lcg_rng.

Definition train_body_example : string -> option (json float) := fun _ => Some (obj [("dataset_id", JStr "ds")]).
Definition requests_start (slots : Z) : ApiState (ServerWorld float) := MkApi 0 0 (MkServer store_example (configured slots) []).
Definition train_run (slots : Z) :=
  HandleTrainModel quiet_env http_example train_body_example (fun _ => 0%N) 0 (fun _ => true) handler_request (requests_start slots).

