(* ===== verification/ModelDetail.v ===== *)
(** GET /models/:id, ApiServer::HandleGetModelDetail (src/src/api_server.cpp):
    a run with the state its trials give it, its best trial and what its
    artifact says.  Looking at a finished tuning run also writes: the handler
    stores the error counts and the best trial in the row of the run.

    The artifact files are a parameter: the text at a path, if it can be opened. *)
From stdpp Require Import base gmap strings list fin_maps.
From Stdlib Require Import ZArith Lia Floats.
From S2P Require Import Prelude Num Json Sql DbClient DbFacts Workers Queries QueryFacts Http Handlers HandlerFacts TrainJob Requests.

Local Open Scope string_scope.
Local Open Scope list_scope.

Section detail.
Context {F : Type} `{Num F} `{Postgres} `{Server F} {text : Type} `{!JsonText F text}.
Abbreviation W := (Store F).
Context (env : ApiEnv) (http : HttpEnv F) (files : string -> option text).

(** [if (!j.contains(k) || j[k].is_null()) { j[k] = nullptr; }]. *)
Definition null_field (j : json F) (k : string) : res (json F) :=
  missing ← (if jcontains j k then v ← jget j k; Ok (jis_null v) else Ok true);
  if (missing : bool) then jset k JNull j else Ok j.
(** [j[k]] read from an object that is not constant: a missing key appears. *)
Definition touch (k : string) (j : json F) : res (json F * json F) :=
  v ← jget j k; j' ← (if jcontains j k then Ok j else jset k JNull j); Ok (j', v).

(** ** Counting the trials *)
Record Tally := MkTally { n_pending : Z; n_running : Z; n_completed : Z; n_failed : Z; error_counts : list (string * Z) }.
Definition no_trials : Tally := MkTally 0 0 0 0 [].
(** [error_counts[code]++] of a std::map. *)
Fixpoint bump_count (code : string) (l : list (string * Z)) : list (string * Z) :=
  match l with
  | [] => [(code, 1%Z)]
  | (code', n) :: l' =>
      if (code =? code')%string then (code', (n + 1)%Z) :: l'
      else if String.ltb code code' then (code, 1%Z) :: l else (code', n) :: bump_count code l'
  end.
(** Why a failed trial failed. *)
Definition failure_code (t : json F) : res (option string) :=
  error_summary ← jget t "error_summary";
  if jcontains t "error_summary" && negb (jis_null error_summary) && jcontains error_summary "code" then
    code ← text_at "code" error_summary; Ok (Some code)
  else
    error ← jget t "error";
    if jis_null error then Ok None
    else msg ← get_string error; Ok (if (msg =? "")%string then None else Some "UNKNOWN").
Definition tally_trial (n : Tally) (t : json F) : res Tally :=
  let '(MkTally p r c f errors) := n in
  st ← text_at "status" t;
  if (st =? "PENDING")%string then Ok (MkTally (p + 1) r c f errors)
  else if (st =? "RUNNING")%string then Ok (MkTally p (r + 1) c f errors)
  else if (st =? "COMPLETED")%string then Ok (MkTally p r (c + 1) f errors)
  else if (st =? "FAILED")%string then
    code ← failure_code t;
    Ok (MkTally p r c (f + 1) (match code with Some code => bump_count code errors | None => errors end))
  else Ok n.
Definition counts_json (total : Z) (n : Tally) : json F :=
  obj [("total", JInt total); ("pending", JInt (n_pending n)); ("running", JInt (n_running n));
       ("completed", JInt (n_completed n)); ("failed", JInt (n_failed n))].
Definition errors_json (l : list (string * Z)) : json F := JObj ((fun p => (p.1, JInt p.2)) <$> l).
(** [j == error_counts]. *)
Fixpoint same_counts (l : list (string * json F)) (counts : list (string * Z)) : bool :=
  match l, counts with
  | [], [] => true
  | (k, v) :: l', (k', n) :: counts' =>
      (k =? k')%string && match v with JInt z => (z =? n)%Z | JNum x => (x =? nofZ n)%num | _ => false end
      && same_counts l' counts'
  | _, _ => false
  end.
Definition counts_are (counts : list (string * Z)) (j : json F) : bool :=
  match j with JObj l => same_counts l counts | _ => false end.

(** ** The best trial *)
Record Best := MkBest { b_id : string; b_threshold : F; b_completed_at : string; b_index : Z }.
(** [std::numeric_limits<double>::max()] and [std::numeric_limits<int>::max()]. *)
Definition dbl_max : F := nofZ ((2 ^ 53 - 1) * 2 ^ 971).
Definition no_best : Best := MkBest "" dbl_max "" int_max.
Definition is_better (best : Best) (threshold : F) (completed_at : string) (trial_index : Z) : bool :=
  if (b_id best =? "")%string || (threshold <? b_threshold best)%num then true
  else if (threshold =? b_threshold best)%num then
    if String.ltb completed_at (b_completed_at best) then true
    else if (completed_at =? b_completed_at best)%string then (trial_index <? b_index best)%Z else false
  else false.
Definition better_of (best : Best) (t : json F) : res Best :=
  status ← jget t "status";
  eligible ← (if is_text "COMPLETED" status then v ← jget t "is_eligible"; get_bool v else Ok false);
  if negb eligible then Ok best else
  threshold ← (v ← jget t "selection_metric_value"; get_double v);
  completed_at ← text_at "completed_at" t;
  trial_index ← (v ← jget t "trial_index"; get_int v);
  if is_better best threshold completed_at trial_index then
    id ← text_at "model_run_id" t; Ok (MkBest id threshold completed_at trial_index)
  else Ok best.

(** ** A tuning run *)
Definition persist_errors (id : string) (n : Tally) (j : json F) : api W (json F) :=
  if (n_running n =? 0)%Z && (n_pending n =? 0)%Z then
    p ← lift (touch "error_aggregates_db" j);
    let '(j, stored) := (p : json F * json F) in
    (if jis_null stored || negb (counts_are (error_counts n) stored) then
       db_do env (fun c => UpdateParentErrorAggregates c id (errors_json (error_counts n)))
     else mret tt);;
    mret j
  else mret j.
Definition show_best (best : Best) (j : json F) : res (json F) :=
  j ← jset "best_trial_run_id" (JStr (b_id best)) j;
  j ← jset "best_metric_value" (JNum (b_threshold best)) j;
  j ← jset "best_metric_name" (JStr "reconstruction_error_threshold") j;
  j ← jset "selection_metric_direction" (JStr "LOWER_IS_BETTER") j;
  jset "tie_break_basis" (JStr "completion_time, trial_index") j.
Definition persist_best (id : string) (best : Best) (j : json F) : api W (json F) :=
  p ← lift (touch "best_trial_run_id_db" j);
  let '(j, stored) := (p : json F * json F) in
  (if jis_null stored || negb (is_text (b_id best) stored) then
     db_do env (fun c => UpdateBestTrial c id (b_id best) (b_threshold best)
       "reconstruction_error_threshold" "LOWER_IS_BETTER" "completion_time, trial_index")
   else mret tt);;
  mret j.
Definition tuning_detail (id : string) (j : json F) : api W (json F) :=
  trials ← db_ask env (fun c => GetHpoTrials c id);
  j ← lift (jset "trials" trials j);
  n ← lift (fold_res tally_trial no_trials (jelements trials));
  j ← lift (jset "trial_counts" (counts_json (jsize trials) n) j);
  j ← lift (jset "error_aggregates" (errors_json (error_counts n)) j);
  j ← persist_errors id n j;
  j ← lift (set_status (aggregate_status (n_running n) (n_pending n) (n_completed n) (n_failed n)) j);
  best ← lift (fold_res better_of no_best (jelements trials));
  if (b_id best =? "")%string then mret j
  else j ← lift (show_best best j); persist_best id best j.

(** ** The artifact *)

(** Assignments to [j] in order, up to the first that throws. *)
Fixpoint run_steps (steps : list (json F -> res (json F))) (j : json F) : json F * option exn :=
  match steps with
  | [] => (j, None)
  | f :: steps' => match f j with Ok j' => run_steps steps' j' | Throw e => (j, Some e) end
  end.
Definition artifact_steps (artifact : json F) : list (json F -> res (json F)) :=
  [ (fun j => v ← jvalue get_json "thresholds" (JObj []) artifact; jset2 "artifact" "thresholds" v j);
    (fun j => m ← jget artifact "model"; n ← jvalue get_int "n_components" 0%Z m;
              jupdate "artifact" (jset2 "model" "n_components" (JInt n)) j);
    (fun j => m ← jget artifact "meta"; v ← jvalue get_json "features" (JArr []) m;
              jupdate "artifact" (jset2 "model" "features" v) j);
    (fun j => th ← jget artifact "thresholds";
              if jcontains artifact "thresholds" && jcontains th "reconstruction_error"
              then v ← jget th "reconstruction_error"; jset "threshold" v j else Ok j);
    (fun j => m ← jget artifact "model";
              if jcontains artifact "model" && jcontains m "n_components"
              then v ← jget m "n_components"; jset "n_components" v j else Ok j) ].
Definition with_artifact (artifact_path : string) (j : json F) : res (json F) :=
  if (artifact_path =? "")%string then Ok j else
  match files artifact_path with
  | None => Ok j
  | Some t =>
      let '(j, e) := match parse t with
                     | None => (j, Some (Exn JsonParseError "parse error"))
                     | Some artifact => run_steps (artifact_steps artifact) j
                     end in
      match e with
      | None => Ok j
      | Some e => if catchable e then jset "artifact_error" (JStr (exn_what e)) j else Throw e
      end
  end.

Definition detail_fields : list string := ["hpo_config"; "parent_run_id"; "trial_index"; "trial_params"].
Definition HandleGetModelDetail (req : Request) : api W (Response F) :=
  let rid := GetRequestId http req in
  let model_run_id := match_ 1 req in
  try_catch
    (j ← db_ask env (fun c => GetModelRun c model_run_id);
     if json_empty j then not_found "Model run not found" rid else
     j ← lift (fold_res null_field j detail_fields);
     hpo_config ← lift (jget j "hpo_config");
     j ← (if jis_null hpo_config then mret j else tuning_detail model_run_id j);
     artifact_path ← lift (jvalue get_string "artifact_path" "" j);
     j ← lift (with_artifact artifact_path j);
     lift (SendJson j 200 rid))
    (db_error rid).
End detail.
