(* ===== verification/DetailFacts.v ===== *)
(** What GET /models/:id answers for a tuning run: the counts and the state its
    trials have, and the best of them. *)
From stdpp Require Import base gmap strings list fin_maps.
From Stdlib Require Import ZArith Lia Floats Sorting.Sorted.
From S2P Require Import Prelude Num Json Sql DbClient DbFacts Workers Queries QueryFacts Http Handlers HandlerFacts TrainJob Requests ModelDetail.

Local Open Scope string_scope.
Local Open Scope list_scope.

(** ** The trials as rows *)
Section trials.
Context {F : Type} `{NumOrder F} `{Postgres}.
Implicit Types (r : Row F).

Definition completed_text r : string :=
  match column r "completed_at" with SText s => s | STime t => time_text t | _ => "" end.
(** A trial that takes part in the selection, and what it is measured by. *)
Definition candidate r : bool := text_is "status" "COMPLETED" r && bool_of "is_eligible" r.
Definition unmeasured r : bool := match column r "selection_metric_value" with SDouble _ => false | _ => true end.

(** The selection: lower threshold, then earlier completion, then lower index. *)
Definition lower_threshold r1 r2 : bool :=
  (double_of "selection_metric_value" r1 <? double_of "selection_metric_value" r2)%num.
Definition earlier r1 r2 : bool := String.ltb (completed_text r1) (completed_text r2).
Definition lower_index r1 r2 : bool := (int_of "trial_index" r1 <? int_of "trial_index" r2)%Z.
Definition better r1 r2 : bool :=
  lower_threshold r1 r2 || (negb (lower_threshold r2 r1) && (earlier r1 r2 || (negb (earlier r2 r1) && lower_index r1 r2))).

(** A trial as the schema and the writers of the table make it. *)
Record trial_typed r : Prop := {
  ty_read : (read_row trial_fields r).2 = None;
  ty_id : exists id, column r "model_run_id" = SText id /\ id <> "";
  ty_status : exists v, column r "status" = SText v;
  ty_index : (int_min <= int_of "trial_index" r <= int_max)%Z;
  ty_metric : nonnan (double_of "selection_metric_value" r);
  ty_summary : match column r "error_summary" with
               | SJson j => jcontains j "code" = true -> exists code, jget j "code" = Ok (JStr code)
               | _ => True
               end }.

Lemma string_ltb_leb s1 s2 : String.ltb s1 s2 = negb (String.leb s2 s1).
Proof. unfold String.ltb, String.leb. rewrite String.compare_antisym. by destruct (String.compare s2 s1). Qed.
Lemma string_leb_trans s1 s2 s3 : String.leb s1 s2 = true -> String.leb s2 s3 = true -> String.leb s1 s3 = true.
Proof.
  intros H12%Is_true_true H23%Is_true_true. apply Is_true_true.
  exact (transitivity (R := String.le) H12 H23).
Qed.
Lemma string_ltb_trans s1 s2 s3 : String.ltb s1 s2 = true -> String.ltb s2 s3 = true -> String.ltb s1 s3 = true.
Proof.
  rewrite !string_ltb_leb, !negb_true_iff. intros E12 E23. destruct (String.leb s3 s1) eqn:E31; [|done].
  destruct (String.leb_total s2 s3) as [E|E]; [|congruence]. by rewrite (string_leb_trans _ _ _ E E31) in E12.
Qed.
Lemma earlier_order : weak_order (fun _ => True) earlier.
Proof.
  unfold earlier. split.
  - intros x y _ _. rewrite !string_ltb_leb. destruct (String.leb_total (completed_text x) (completed_text y)) as [-> | E]; [done|].
    by rewrite E.
  - intros x y z _ _ _. rewrite !string_ltb_leb, !negb_false_iff. intros E1 E2. by eapply string_leb_trans.
Qed.
Lemma lower_threshold_order : weak_order (fun r => nonnan (double_of "selection_metric_value" r)) lower_threshold.
Proof.
  unfold lower_threshold. split.
  - intros x y _ _. apply nltb_asym.
  - intros x y z Hx Hy Hz E1 E2. apply nleb_nltb_false. apply (nleb_trans _ (double_of "selection_metric_value" y)); by apply nltb_false_nleb.
Qed.
Lemma weak_order_weaken {A} (P Q : A -> Prop) lt : (forall x, P x -> Q x) -> weak_order Q lt -> weak_order P lt.
Proof. intros HPQ [Has Hnt]. split; [intros x y Hx Hy; apply Has; by apply HPQ|intros x y z Hx Hy Hz; apply Hnt; by apply HPQ]. Qed.
Lemma better_order : weak_order trial_typed better.
Proof.
  apply weak_order_lex; [apply (weak_order_weaken _ _ _ ty_metric), lower_threshold_order|].
  apply (weak_order_weaken _ (fun _ => True)); [done|]. apply weak_order_lex; [apply earlier_order|apply weak_order_key].
Qed.

(** Keeping the first of the best. *)
Definition pick (o : option (Row F)) r : option (Row F) :=
  if candidate r then match o with Some t => if better r t then Some r else o | None => Some r end else o.
(** The best trial of a list: none of the candidates is better. *)
Definition best_of (l : list (Row F)) (o : option (Row F)) : Prop :=
  match o with
  | None => Forall (fun r => candidate r = false) l
  | Some t => t ∈ l /\ candidate t = true /\ forall t', t' ∈ l -> candidate t' = true -> better t' t = false
  end.
Lemma best_of_perm l1 l2 o : l1 ≡ₚ l2 -> best_of l1 o -> best_of l2 o.
Proof. intros Hp. unfold best_of. destruct o as [t|]; [|by rewrite Hp]. setoid_rewrite Hp. done. Qed.
Lemma better_irrefl r : trial_typed r -> better r r = false.
Proof. intros Hr. destruct (better r r) eqn:E; [|done]. rewrite <- E. by apply (wo_asym _ _ better_order). Qed.
Lemma elem_of_last {A} (l : list A) x : x ∈ l ++ [x].
Proof. apply elem_of_app. right. apply list_elem_of_here. Qed.
Lemma pick_best l : Forall trial_typed l -> best_of l (foldl pick None l).
Proof.
  induction l as [|r l IH] using rev_ind; intros Hty; [apply Forall_nil_2|].
  apply Forall_app in Hty as [Hl Hr]. apply Forall_cons in Hr as [Hr _]. specialize (IH Hl).
  rewrite foldl_app. cbn [foldl]. unfold pick at 1. destruct (foldl pick None l) as [t|]; cbn [best_of] in IH.
  - destruct IH as (Hin & Hc & Hmin). assert (Ht : trial_typed t) by (rewrite Forall_forall in Hl; by apply Hl).
    assert (Hkeep : (candidate r = true -> better r t = false) -> best_of (l ++ [r]) (Some t)).
    { intros Hrt. split_and!; [by apply elem_of_app; left|done|]. intros t' Ht'.
      apply elem_of_app in Ht' as [Ht'|Ht']; [by apply Hmin|]. apply list_elem_of_singleton in Ht' as ->. done. }
    destruct (candidate r) eqn:Er; [|by apply Hkeep]. destruct (better r t) eqn:Eb; [|by apply Hkeep].
    split_and!; [apply elem_of_last|done|]. intros t' Ht' Hc'.
    apply elem_of_app in Ht' as [Ht'|Ht']; [|apply list_elem_of_singleton in Ht' as ->; by apply better_irrefl].
    assert (trial_typed t') by (rewrite Forall_forall in Hl; by apply Hl).
    apply (wo_ntrans _ _ better_order r t t'); [done..| |by apply Hmin]. by apply (wo_asym _ _ better_order).
  - destruct (candidate r) eqn:Er.
    + split_and!; [apply elem_of_last|done|]. intros t' Ht' Hc'.
      apply elem_of_app in Ht' as [Ht'|Ht']; [|apply list_elem_of_singleton in Ht' as ->; by apply better_irrefl].
      rewrite Forall_forall in IH. rewrite IH in Hc'; [done|done].
    + apply Forall_app. split; [done|]. by apply Forall_singleton.
Qed.
End trials.

(** ** The error counts, a sorted map *)
Section counts.
Implicit Types (code : string) (l : list (string * Z)).

Fixpoint count_in code l : Z :=
  match l with [] => 0 | (k, n) :: l' => if (code =? k)%string then n else count_in code l' end.
Definition sorted_keys l : Prop := StronglySorted (fun a b => String.ltb a b = true) l.*1.

Lemma bump_count_keys code l x : x ∈ (bump_count code l).*1 -> x = code \/ x ∈ l.*1.
Proof.
  induction l as [|[k n] l IH]; cbn; [rewrite list_elem_of_singleton; by left|].
  destruct (String.eqb_spec code k) as [->|Hne]; cbn; [by right|].
  destruct (String.ltb code k); cbn; rewrite !elem_of_cons; [by intros [?|?]; [left|right]|].
  intros [?|Hin]; [by right; left|]. destruct (IH Hin); [by left|by right; right].
Qed.
Lemma string_ltb_total s1 s2 : s1 <> s2 -> String.ltb s1 s2 = false -> String.ltb s2 s1 = true.
Proof.
  intros Hne. rewrite !string_ltb_leb, negb_false_iff, negb_true_iff. intros E21.
  destruct (String.leb s1 s2) eqn:E12; [|done]. by destruct Hne; apply String.leb_antisym.
Qed.
Lemma bump_count_sorted code l : sorted_keys l -> sorted_keys (bump_count code l).
Proof.
  unfold sorted_keys. induction l as [|[k n] l IH]; cbn; intros Hs; [by repeat constructor|].
  apply StronglySorted_inv in Hs as [Hs Hk]. destruct (String.eqb_spec code k) as [->|Hne]; cbn; [by constructor|].
  destruct (String.ltb code k) eqn:E; cbn; constructor.
  - by constructor.
  - constructor; [done|]. eapply Forall_impl; [exact Hk|]. intros x. by apply string_ltb_trans.
  - by apply IH.
  - apply Forall_forall. intros x [->|Hx]%bump_count_keys; [by apply string_ltb_total|]. rewrite Forall_forall in Hk. by apply Hk.
Qed.
Lemma count_in_absent code l : Forall (fun k => String.ltb code k = true) l.*1 -> count_in code l = 0%Z.
Proof.
  induction l as [|[k n] l IH]; cbn; [done|]. intros [Hk Hl]%Forall_cons.
  destruct (String.eqb_spec code k) as [->|Hne]; [|by apply IH].
  rewrite string_ltb_leb, negb_true_iff in Hk. by destruct (String.leb_total k k); congruence.
Qed.
Lemma count_in_bump code c l : sorted_keys l ->
  count_in code (bump_count c l) = (count_in code l + if (code =? c)%string then 1 else 0)%Z.
Proof.
  unfold sorted_keys. induction l as [|[k n] l IH]; cbn [bump_count count_in fmap list_fmap]; intros Hs; [by destruct (code =? c)%string|].
  apply StronglySorted_inv in Hs as [Hs Hk].
  destruct (String.eqb_spec c k) as [->|Hne]; cbn [count_in]; [destruct (code =? k)%string; lia|].
  destruct (String.ltb c k) eqn:E; cbn [count_in].
  - destruct (String.eqb_spec code c) as [->|Hne2]; [|lia]. apply String.eqb_neq in Hne. rewrite Hne.
    rewrite count_in_absent; [lia|]. eapply Forall_impl; [exact Hk|]. intros x. by apply string_ltb_trans.
  - destruct (String.eqb_spec code k) as [->|Hne2]; [|by apply IH].
    destruct (String.eqb_spec k c) as [->|]; [done|lia].
Qed.
End counts.

(** ** The trials as the handler reads them *)
Section reading.
Context {F : Type} `{NumOrder F} `{Postgres}.
Implicit Types (r : Row F) (n : Tally).

Definition trial_json r : json F := (read_row trial_fields r).1.
Lemma trial_field r key c k : trial_typed r -> (key, c, k) ∈ trial_fields ->
  exists v, convert k (column r c) = Ok v /\ jget (trial_json r) key = Ok v /\ jcontains (trial_json r) key = true.
Proof.
  intros Hr Hin. destruct (row_field trial_fields r key c k) as (v & l & Hv & Hl & Hk); [by_deciding|apply Hr|done|].
  exists v. unfold trial_json. rewrite Hl. cbn. rewrite Hk. split_and!; [done..|]. by apply bool_decide_eq_true.
Qed.
Lemma as_text_str (v : sql F) j : as_text v = Ok j -> exists s, j = JStr s.
Proof. destruct v; cbn; intros [= <-]; eauto. Qed.

Lemma trial_id r : trial_typed r -> text_at "model_run_id" (trial_json r) = Ok (text_of "model_run_id" r).
Proof.
  intros Hr. destruct (trial_field r "model_run_id" "model_run_id" AsText Hr ltac:(among)) as (v & Hv & Hj & _).
  unfold text_at, text_of. rewrite Hj. destruct (ty_id r Hr) as (id & Hid & _). rewrite Hid in *. by injection Hv as <-.
Qed.
Lemma trial_state r : trial_typed r -> jget (trial_json r) "status" = Ok (JStr (text_of "status" r)).
Proof.
  intros Hr. destruct (trial_field r "status" "status" AsText Hr ltac:(among)) as (v & Hv & Hj & _).
  unfold text_of. rewrite Hj. destruct (ty_status r Hr) as (st & Hst). rewrite Hst in *. by injection Hv as <-.
Qed.
Lemma text_is_of r c s v : column r c = SText v -> text_is c s r = (text_of c r =? s)%string.
Proof. unfold text_is, text_of. by intros ->. Qed.
Lemma status_is r s : trial_typed r -> text_is "status" s r = (text_of "status" r =? s)%string.
Proof. intros Hr. destruct (ty_status r Hr) as (st & Hst). by apply (text_is_of _ _ _ st). Qed.
Lemma trial_eligible r : trial_typed r -> (v ← jget (trial_json r) "is_eligible"; get_bool v) = Ok (bool_of "is_eligible" r).
Proof.
  intros Hr. destruct (trial_field r "is_eligible" "is_eligible" AsBool Hr ltac:(among)) as (v & Hv & Hj & _).
  unfold bool_of. rewrite Hj. cbn in *. destruct (column r "is_eligible"); try discriminate Hv. by injection Hv as <-.
Qed.
Lemma trial_metric r : trial_typed r ->
  (v ← jget (trial_json r) "selection_metric_value"; get_double v) =
  if unmeasured r then type_must_be "number" else Ok (double_of "selection_metric_value" r).
Proof.
  intros Hr. destruct (trial_field r "selection_metric_value" "selection_metric_value" AsDoubleOrNull Hr ltac:(among)) as (v & Hv & Hj & _).
  unfold unmeasured, double_of. rewrite Hj. cbn in *. destruct (column r "selection_metric_value"); try discriminate Hv; by injection Hv as <-.
Qed.
Lemma trial_completed r : trial_typed r -> text_at "completed_at" (trial_json r) = Ok (completed_text r).
Proof.
  intros Hr. destruct (trial_field r "completed_at" "completed_at" AsTextOrEmpty Hr ltac:(among)) as (v & Hv & Hj & _).
  unfold text_at, completed_text. rewrite Hj. cbn in *. destruct (column r "completed_at"); try discriminate Hv; by injection Hv as <-.
Qed.
Lemma trial_number r : trial_typed r -> (v ← jget (trial_json r) "trial_index"; get_int v) = Ok (int_of "trial_index" r).
Proof.
  intros Hr. destruct (trial_field r "trial_index" "trial_index" AsInt Hr ltac:(among)) as (v & Hv & Hj & _).
  pose proof (ty_index r Hr) as Hi. unfold int_of in *. rewrite Hj. cbn in *.
  destruct (column r "trial_index"); try discriminate Hv. injection Hv as <-. cbn. f_equal. by apply to_int_id.
Qed.

(** Why a failed trial failed, when it says. *)
Definition failure_of r : option string :=
  match failure_code (trial_json r) with Ok code => code | Throw _ => None end.
Lemma trial_failure r : trial_typed r -> failure_code (trial_json r) = Ok (failure_of r).
Proof.
  intros Hr. enough (exists code, failure_code (trial_json r) = Ok code) as [code E] by (unfold failure_of; by rewrite E).
  destruct (trial_field r "error_summary" "error_summary" AsJsonOrNull Hr ltac:(among)) as (v & Hv & Hj & _).
  destruct (trial_field r "error" "error" AsTextOrEmpty Hr ltac:(among)) as (e & He & Hje & _).
  unfold failure_code. rewrite Hj. cbn [mbind res_bind]. destruct (_ && jcontains v "code") eqn:E.
  - apply andb_true_iff in E as [_ Hc]. pose proof (ty_summary r Hr) as Hs. cbn in Hv.
    destruct (column r "error_summary"); try discriminate Hv; injection Hv as <-; [discriminate Hc|].
    destruct (Hs Hc) as [code Hcode]. exists (Some code). unfold text_at. by rewrite Hcode.
  - rewrite Hje. cbn [mbind res_bind]. assert (Hes : exists s, e = JStr s).
    { cbn in He. destruct (column r "error"); try discriminate He; injection He as <-; eauto. }
    destruct Hes as [s ->]. eexists. reflexivity.
Qed.

(** ** One trial *)
Definition count_if (b : bool) : Z := if b then 1 else 0.
Definition failed_for code r : bool := text_is "status" "FAILED" r && bool_decide (failure_of r = Some code).
Lemma tally_row n r : trial_typed r ->
  exists errors, tally_trial n (trial_json r) =
    Ok (MkTally (n_pending n + count_if (text_is "status" "PENDING" r)) (n_running n + count_if (text_is "status" "RUNNING" r))
          (n_completed n + count_if (text_is "status" "COMPLETED" r)) (n_failed n + count_if (text_is "status" "FAILED" r)) errors) /\
    (sorted_keys (error_counts n) -> sorted_keys errors /\
      forall code, count_in code errors = (count_in code (error_counts n) + count_if (failed_for code r))%Z).
Proof.
  intros Hr. destruct n as [p q c f errors]. unfold tally_trial, failed_for, text_at. rewrite (trial_state r Hr).
  cbn [mbind res_bind get_string n_pending n_running n_completed n_failed error_counts]. rewrite !(status_is r _ Hr).
  destruct (String.eqb_spec (text_of "status" r) "PENDING") as [->|_]; [|destruct (String.eqb_spec (text_of "status" r) "RUNNING") as [->|_];
    [|destruct (String.eqb_spec (text_of "status" r) "COMPLETED") as [->|_]; [|destruct (text_of "status" r =? "FAILED")%string]]];
    try (eexists; split; [by rewrite ?Z.add_0_r|intros Hs; split; [exact Hs|intros code; cbn; by rewrite Z.add_0_r]]).
  rewrite (trial_failure r Hr). cbn [mbind res_bind count_if]. eexists. split; [by rewrite ?Z.add_0_r|]. intros Hs.
  destruct (failure_of r) as [why|]; [split; [by apply bump_count_sorted|]|split; [done|]]; intros code.
  - rewrite count_in_bump by done. f_equal. unfold count_if. destruct (String.eqb_spec code why) as [->|Hne].
    + by rewrite bool_decide_eq_true_2.
    + rewrite bool_decide_eq_false_2; [done|]. congruence.
  - by rewrite bool_decide_eq_false_2, Z.add_0_r.
Qed.
End reading.

(** ** All the trials of a run *)
Section folding.
Context {F : Type} `{NumOrder F} `{Postgres}.
Implicit Types (r t : Row F) (l : list (Row F)) (n : Tally) (o : option (Row F)).

Lemma fold_res_snoc {A S} (f : S -> A -> res S) s (l : list A) x :
  fold_res f s (l ++ [x]) = (s' ← fold_res f s l; f s' x).
Proof. revert s. induction l as [|y l IH]; intros s; cbn; [by destruct (f s x)|]. destruct (f s y); [apply IH|done]. Qed.

Definition how_many (p : Row F -> bool) l : Z := Z.of_nat (countb p l).
Lemma how_many_snoc p l r : how_many p (l ++ [r]) = (how_many p l + count_if (p r))%Z.
Proof. unfold how_many, count_if. rewrite countb_app, countb_cons. change (countb p []) with 0%nat. destruct (p r); lia. Qed.

(** The tally of a list of trials. *)
Record tallied l n : Prop := {
  tl_pending : n_pending n = how_many (text_is "status" "PENDING") l;
  tl_running : n_running n = how_many (text_is "status" "RUNNING") l;
  tl_completed : n_completed n = how_many (text_is "status" "COMPLETED") l;
  tl_failed : n_failed n = how_many (text_is "status" "FAILED") l;
  tl_sorted : sorted_keys (error_counts n);
  tl_errors code : count_in code (error_counts n) = how_many (failed_for code) l }.
Lemma tallied_perm l1 l2 n : l1 ≡ₚ l2 -> tallied l1 n -> tallied l2 n.
Proof. intros Hp [H1' H2' H3' H4' H5' H6']. split; [..|exact H5'|intros code]; unfold how_many in *; by rewrite <- Hp. Qed.
Lemma tally_fold l : Forall trial_typed l -> exists n, fold_res tally_trial no_trials (trial_json <$> l) = Ok n /\ tallied l n.
Proof.
  induction l as [|r l IH] using rev_ind; intros Hty; [exists no_trials; split; [done|by repeat constructor]|].
  apply Forall_app in Hty as [Hl Hr]. apply Forall_cons in Hr as [Hr _]. destruct (IH Hl) as (n & Hn & [Ep Er Ec Ef Hs He]).
  destruct (tally_row n r Hr) as (errors & Hrow & Herr). destruct (Herr Hs) as [Hs' He']. eexists. split.
  - rewrite fmap_app. cbn [fmap list_fmap]. rewrite fold_res_snoc, Hn. exact Hrow.
  - split; cbn [n_pending n_running n_completed n_failed error_counts]; rewrite ?how_many_snoc; [congruence..|exact Hs'|].
    intros code. rewrite how_many_snoc, He'. congruence.
Qed.

(** The selection. *)
Definition best_at o : Best (F := F) :=
  match o with
  | Some t => MkBest (text_of "model_run_id" t) (double_of "selection_metric_value" t) (completed_text t) (int_of "trial_index" t)
  | None => no_best
  end.
Definition no_metric r : bool := candidate r && unmeasured r.

Lemma is_better_row t r : trial_typed t -> trial_typed r ->
  is_better (best_at (Some t)) (double_of "selection_metric_value" r) (completed_text r) (int_of "trial_index" r) = better r t.
Proof.
  intros Ht Hr. unfold is_better, better, lower_threshold, earlier, lower_index. cbn [best_at b_id b_threshold b_completed_at b_index].
  destruct (ty_id t Ht) as (id & Hid & Hne). unfold text_of at 1. rewrite Hid. apply String.eqb_neq in Hne. rewrite Hne. cbn [orb].
  destruct (num_total _ _ (ty_metric r Hr) (ty_metric t Ht)) as [E|[E|E]].
  - by rewrite E.
  - rewrite (neqb_not_nltb _ _ E), (neqb_not_nltb _ _ (neqb_sym _ _ E)), E. cbn [orb negb andb].
    destruct (String.ltb (completed_text r) (completed_text t)) eqn:E1; [done|]. cbn [orb].
    destruct (String.eqb_spec (completed_text r) (completed_text t)) as [Heq|Hdiff].
    + rewrite Heq in E1. rewrite Heq, E1. done.
    + by rewrite (string_ltb_total _ _ Hdiff E1).
  - rewrite (nltb_asym _ _ E), E. cbn [orb negb andb]. destruct (_ =? _)%num eqn:E'; [|done].
    apply neqb_sym, neqb_not_nltb in E'. congruence.
Qed.
Lemma better_of_row o r : trial_typed r -> (forall t, o = Some t -> trial_typed t) ->
  better_of (best_at o) (trial_json r) = if no_metric r then type_must_be "number" else Ok (best_at (pick o r)).
Proof.
  intros Hr Ho. unfold better_of, no_metric, pick, candidate. rewrite (trial_state r Hr), (status_is r _ Hr). cbn [mbind res_bind is_text].
  destruct (text_of "status" r =? "COMPLETED")%string; [|done]. rewrite (trial_eligible r Hr). cbn [mbind res_bind andb].
  destruct (bool_of "is_eligible" r); [|done]. cbn [negb andb]. rewrite (trial_metric r Hr).
  destruct (unmeasured r); [done|]. cbn [mbind res_bind]. rewrite (trial_completed r Hr), (trial_number r Hr). cbn [mbind res_bind].
  rewrite (trial_id r Hr). cbn [mbind res_bind]. destruct o as [t|]; [|done].
  rewrite (is_better_row t r (Ho t eq_refl) Hr). by destruct (better r t).
Qed.
Lemma pick_typed o r : trial_typed r -> (forall t, o = Some t -> trial_typed t) -> forall t, pick o r = Some t -> trial_typed t.
Proof. unfold pick. intros Hr Ho t. destruct (candidate r), o as [t'|]; try destruct (better r t'); intros [= <-]; auto. Qed.
Lemma better_fold l o : Forall trial_typed l -> (forall t, o = Some t -> trial_typed t) ->
  fold_res better_of (best_at o) (trial_json <$> l) =
  if existsb no_metric l then type_must_be "number" else Ok (best_at (foldl pick o l)).
Proof.
  intros Hl. revert o. induction Hl as [|r l Hr Hl IH]; intros o Ho; [done|]. cbn [fmap list_fmap fold_res existsb foldl].
  rewrite (better_of_row o r Hr Ho). destruct (no_metric r); [done|]. apply IH. by apply pick_typed.
Qed.
End folding.

(** ** The steps of the handler *)
Section handler.
Context {F : Type} `{NumOrder F} `{Postgres} `{!Server F} {text : Type} `{!JsonText F text}.
Context (env : ApiEnv) (http : HttpEnv F) (files : string -> option text).
Implicit Types (s : Store F) (l : list (string * json F)) (id k : string) (st : ApiState (Store F)).

(** Only the rows of the run change. *)
Definition only_row id s s' : Prop :=
  (forall t, t <> "model_runs" -> rows s' t = rows s t) /\
  Forall2 (same_run id) (rows s "model_runs") (rows s' "model_runs").
#[global] Instance only_row_refl id : Reflexive (only_row id).
Proof. by intros s. Qed.
#[global] Instance only_row_trans id : Transitive (only_row id).
Proof. intros s1 s2 s3 [T1 R1] [T2 R2]. split; [intros t Ht; by rewrite T2, T1|by etrans]. Qed.

Lemma only_row_update id cols s : "model_run_id" ∉ cols.*1 ->
  only_row id s (update_rows "model_runs" (text_is "model_run_id" id) (set_columns cols) s).1.
Proof.
  intros Hc. split; [intros t Ht; by rewrite update_rows_other|]. rewrite update_rows_eq.
  apply Forall2_fmap_r, Forall_Forall2_diag, Forall_forall. intros r _. unfold same_run. cbn [compose].
  destruct (text_is "model_run_id" id r) eqn:E; [|by rewrite E]. split; [|discriminate]. by rewrite text_is_set_columns_other.
Qed.
Lemma only_row_errors id j c s : only_row id s (UpdateParentErrorAggregates c id j s).
Proof. unfold UpdateParentErrorAggregates. rewrite swallowed_update. destruct (c_fault c); [done|]. apply only_row_update. by_deciding. Qed.
Lemma only_row_best id b x n d t c s : only_row id s (UpdateBestTrial c id b x n d t s).
Proof.
  unfold UpdateBestTrial, swallowed, work. destruct (c_fault c); [done|].
  pose proof (only_row_update id [("best_trial_run_id", SText b); ("best_metric_value", SDouble x); ("best_metric_name", SText n);
    ("selection_metric_direction", SText d); ("tie_break_basis", SText t)] s ltac:(by_deciding)) as Hu.
  destruct (update_rows _ _ _ s) as [s' m]. by destruct (all_references_ok _ _).
Qed.

(** Objects that agree outside some keys. *)
Definition agree (ks : list string) l l' : Prop := forall k, k ∉ ks -> obj_lookup k l' = obj_lookup k l.
Lemma agree_refl ks l : agree ks l l.
Proof. by intros k. Qed.
Lemma agree_trans ks l1 l2 l3 : agree ks l1 l2 -> agree ks l2 l3 -> agree ks l1 l3.
Proof. intros H12 H23 k Hk. rewrite H23, H12; done. Qed.
Lemma agree_insert ks k v l : k ∈ ks -> agree ks l (obj_insert k v l).
Proof. intros Hin k' Hk'. apply obj_lookup_insert_ne. by intros ->. Qed.
Lemma agree_weaken ks ks' l l' : ks ⊆ ks' -> agree ks l l' -> agree ks' l l'.
Proof. intros Hsub Ha k Hk. apply Ha. by intros Hin%Hsub. Qed.

Lemma touch_ok k l : exists l', touch k (JObj l) = Ok (JObj l', default JNull (obj_lookup k l)) /\ agree [k] l l'.
Proof.
  unfold touch. cbn [jget mbind res_bind jcontains]. destruct (bool_decide _); eexists; (split; [reflexivity|]); [apply agree_refl|].
  apply agree_insert, list_elem_of_here.
Qed.
Lemma persist_errors_ok id n l st :
  exists l', (persist_errors env id n (JObj l) st).2 = Ok (JObj l') /\ agree ["error_aggregates_db"] l l' /\
    only_row id (world st) (world (persist_errors env id n (JObj l) st).1).
Proof.
  unfold persist_errors. destruct (_ && _); [|by exists l; split_and!].
  destruct (touch_ok "error_aggregates_db" l) as (l' & -> & Ha). exists l'. cbv [mbind api_bind lift]. cbv beta iota.
  destruct (_ || _); [|by split_and!]. unfold db_do, db_run. split_and!; [done..|]. cbn [fst world]. apply only_row_errors.
Qed.
Lemma persist_best_ok id b l st :
  exists l', (persist_best env id b (JObj l) st).2 = Ok (JObj l') /\ agree ["best_trial_run_id_db"] l l' /\
    only_row id (world st) (world (persist_best env id b (JObj l) st).1).
Proof.
  unfold persist_best.
  destruct (touch_ok "best_trial_run_id_db" l) as (l' & -> & Ha). exists l'. cbv [mbind api_bind lift]. cbv beta iota.
  destruct (_ || _); [|by split_and!]. unfold db_do, db_run. split_and!; [done..|]. cbn [fst world]. apply only_row_best.
Qed.

(** What the answer says of a list of trials. *)
Definition state_of (n : Tally) : option string := aggregate_status (n_running n) (n_pending n) (n_completed n) (n_failed n).
Definition shows (trials : list (Row F)) (status : json F) (l : list (string * json F)) : Prop :=
  exists n, tallied trials n /\
    obj_lookup "status" l = Some (match state_of n with Some v => JStr v | None => status end) /\
    obj_lookup "trial_counts" l = Some (counts_json (zlen trials) n) /\
    obj_lookup "error_aggregates" l = Some (errors_json (error_counts n)).
Definition best_keys : list string :=
  ["best_trial_run_id"; "best_metric_value"; "best_metric_name"; "selection_metric_direction"; "tie_break_basis"].
Definition shows_best (o : option (Row F)) l l' : Prop :=
  match o with
  | Some t => obj_lookup "best_trial_run_id" l' = Some (JStr (text_of "model_run_id" t)) /\
              obj_lookup "best_metric_value" l' = Some (JNum (double_of "selection_metric_value" t))
  | None => agree ["error_aggregates_db"; "trials"; "trial_counts"; "error_aggregates"; "status"] l l'
  end.

Lemma show_best_ok b l : exists l', show_best b (JObj l) = Ok (JObj l') /\ agree best_keys l l' /\
  obj_lookup "best_trial_run_id" l' = Some (JStr (b_id b)) /\ obj_lookup "best_metric_value" l' = Some (JNum (b_threshold b)).
Proof.
  unfold show_best, jset, jupdate. cbn [mbind res_bind]. eexists. split; [reflexivity|]. split_and!.
  - intros k Hk. unfold best_keys in Hk. repeat (apply not_elem_of_cons in Hk as [? Hk]). by rewrite !obj_lookup_insert_ne.
  - rewrite 4!obj_lookup_insert_ne by done. apply obj_lookup_insert_eq.
  - rewrite 3!obj_lookup_insert_ne by done. apply obj_lookup_insert_eq.
Qed.

Definition tuning_keys : list string :=
  ["trials"; "trial_counts"; "error_aggregates"; "error_aggregates_db"; "status"; "best_trial_run_id_db"] ++ best_keys.

Lemma best_id_nonempty t : trial_typed t -> (text_of "model_run_id" t =? "")%string = false.
Proof. intros Ht. destruct (ty_id t Ht) as (id & Hid & Hne). unfold text_of. rewrite Hid. by apply String.eqb_neq. Qed.

Lemma tuning_detail_ok id (l : list (string * json F)) (trials : list (Row F)) status st : Forall trial_typed trials ->
  GetHpoTrials (db_env env (calls st)) id (world st) = JArr (trial_json <$> trials) ->
  obj_lookup "status" l = Some status ->
  only_row id (world st) (world (tuning_detail env id (JObj l) st).1) /\
  if existsb no_metric trials then (tuning_detail env id (JObj l) st).2 = type_must_be "number"
  else exists l', (tuning_detail env id (JObj l) st).2 = Ok (JObj l') /\ agree tuning_keys l l' /\
         shows trials status l' /\ shows_best (foldl pick None trials) l l'.
Proof.
  intros Hty Hget Hst. unfold tuning_detail. rewrite api_ask, Hget. cbn [jelements jsize].
  destruct (tally_fold trials Hty) as (n & -> & Hn). change no_best with (best_at None).
  rewrite (better_fold trials None Hty) by done. 
  assert (zlen (trial_json <$> trials) = zlen trials) as -> by (unfold zlen; by rewrite length_fmap).
  cbv [mbind api_bind]. cbn [lift jset jupdate mbind res_bind].
  match goal with |- context [persist_errors env id n (JObj ?l1) ?s] =>
    destruct (persist_errors_ok id n l1 s) as (l2 & He & Ha2 & Ho2); destruct (persist_errors env id n (JObj l1) s) as [st2 r2];
    set (l1' := l1) in *
  end.
  cbn [fst snd world] in *. subst r2.
  assert (Hl3 : exists l3, set_status (state_of n) (JObj l2) = Ok (JObj l3) /\ agree ["status"] l2 l3 /\
    obj_lookup "status" l3 = Some (match state_of n with Some v => JStr v | None => status end)).
  { unfold set_status. destruct (state_of n) as [v|]; eexists; (split; [reflexivity|]).
    - split; [apply agree_insert, list_elem_of_here|apply obj_lookup_insert_eq].
    - split; [apply agree_refl|]. rewrite Ha2 by by_deciding. unfold l1'. by rewrite !obj_lookup_insert_ne. }
  destruct Hl3 as (l3 & E3 & Ha3 & Hs3). fold (state_of n). rewrite E3. cbn [lift].
  assert (Hcounts : obj_lookup "trial_counts" l3 = Some (counts_json (zlen trials) n)).
  { rewrite Ha3, Ha2 by by_deciding. unfold l1'. rewrite obj_lookup_insert_ne by done. apply obj_lookup_insert_eq. }
  assert (Herrs : obj_lookup "error_aggregates" l3 = Some (errors_json (error_counts n))).
  { rewrite Ha3, Ha2 by by_deciding. apply obj_lookup_insert_eq. }
  assert (Ha1 : agree ["trials"; "trial_counts"; "error_aggregates"] l l1').
  { intros k Hk. repeat (apply not_elem_of_cons in Hk as [? Hk]). unfold l1'. by rewrite !obj_lookup_insert_ne. }
  assert (Hall : agree ["error_aggregates_db"; "trials"; "trial_counts"; "error_aggregates"; "status"] l l3).
  { eapply agree_trans; [eapply agree_weaken, Ha1; by_deciding|]. eapply agree_trans; eapply agree_weaken; [|exact Ha2| |exact Ha3]; by_deciding. }
  destruct (existsb no_metric trials); [by split|]. cbn [lift].
  destruct (foldl pick None trials) as [t|] eqn:Epick.
  2:{ cbn [best_at no_best b_id]. rewrite String.eqb_refl. split; [done|]. exists l3. split_and!; [done| |by exists n|exact Hall].
      eapply agree_weaken, Hall. by_deciding. }
  pose proof (pick_best trials Hty) as Hb. rewrite Epick in Hb. destruct Hb as (Hin & _).
  assert (Ht : trial_typed t) by (rewrite Forall_forall in Hty; by apply Hty).
  cbn [best_at b_id]. rewrite (best_id_nonempty t Ht).
  match goal with |- context [show_best ?b (JObj l3)] => destruct (show_best_ok b l3) as (l4 & -> & Ha4 & Hid & Hval) end. cbn [lift].
  match goal with |- context [persist_best env id ?b (JObj l4) ?s] =>
    destruct (persist_best_ok id b l4 s) as (l5 & E5 & Ha5 & Ho5); destruct (persist_best env id b (JObj l4) s) as [st5 r5] end.
  cbn [fst snd world] in *. subst r5. split; [by etrans|]. exists l5.
  assert (Hkeep : forall k, k ∉ best_keys -> k <> "best_trial_run_id_db" -> obj_lookup k l5 = obj_lookup k l3).
  { intros k Hk Hk'. rewrite Ha5, Ha4; [done|done|]. rewrite list_elem_of_singleton. done. }
  split_and!; [done| | |].
  - intros k Hk. unfold tuning_keys in Hk. apply not_elem_of_app in Hk as [Hk1 Hk2]. rewrite Hkeep; [|done|].
    + refine (agree_weaken _ _ l l3 _ Hall k Hk1). by_deciding.
    + intros ->. apply Hk1. by_deciding.
  - exists n. rewrite !Hkeep by by_deciding. done.
  - cbn [shows_best]. rewrite !Ha5 by by_deciding. done.
Qed.

(** *** The artifact *)
Definition artifact_keys : list string := ["artifact"; "threshold"; "n_components"; "artifact_error"].
(** A step changes some keys of an object, or throws what the handler catches. *)
Definition step_ok (f : json F -> res (json F)) : Prop := forall l,
  match f (JObj l) with Ok j => exists l', j = JObj l' /\ agree artifact_keys l l' | Throw e => catchable e = true end.
Lemma step_bind {A} (m : res A) g : defined m -> (forall a, step_ok (g a)) -> step_ok (fun j => a ← m; g a j).
Proof. intros Hm Hg l. destruct m as [a|e]; [apply Hg|by apply Hm]. Qed.
Lemma step_update k f : k ∈ artifact_keys -> (forall v, defined (f v)) -> step_ok (jupdate k f).
Proof.
  intros Hk Hf l. cbn [jupdate]. specialize (Hf (default JNull (obj_lookup k l))). destruct (f _) as [v|e]; [|by apply Hf].
  exists (obj_insert k v l). split; [done|]. by apply agree_insert.
Qed.
Lemma step_id : step_ok Ok.
Proof. intros l. exists l. split; [done|apply agree_refl]. Qed.
Lemma artifact_steps_ok artifact : Forall step_ok (artifact_steps artifact).
Proof.
  unfold artifact_steps. repeat apply Forall_cons_2; [..|apply Forall_nil_2];
    repeat first [ apply step_update; [by_deciding|intros ?; defining] | apply step_bind; [by defining|intros ?] | apply step_id
                 | match goal with |- step_ok (fun j => if ?b then _ else _) => destruct b end ].
Qed.
Lemma run_steps_ok steps l : Forall step_ok steps ->
  exists l' e, run_steps steps (JObj l) = (JObj l', e) /\ agree artifact_keys l l' /\ forall e', e = Some e' -> catchable e' = true.
Proof.
  intros Hs. revert l. induction Hs as [|f steps Hf _ IH]; intros l; cbn [run_steps]; [exists l, None; split_and!; [done|apply agree_refl|done]|].
  specialize (Hf l). destruct (f (JObj l)) as [j|e].
  - destruct Hf as (l1 & -> & Ha1). destruct (IH l1) as (l2 & e & -> & Ha2 & He). exists l2, e. split_and!; [done| |done].
    by eapply agree_trans.
  - exists l, (Some e). split_and!; [done|apply agree_refl|]. by intros e' [= <-].
Qed.
Lemma with_artifact_ok path l : exists l', with_artifact files path (JObj l) = Ok (JObj l') /\ agree artifact_keys l l'.
Proof.
  unfold with_artifact. destruct (path =? "")%string; [exists l; split; [done|apply agree_refl]|].
  destruct (files path) as [t|]; [|exists l; split; [done|apply agree_refl]].
  assert (Hp : exists l' e, match parse t with None => (JObj l, Some (Exn JsonParseError "parse error"))
      | Some artifact => run_steps (artifact_steps artifact) (JObj l) end = (JObj l', e) /\ agree artifact_keys l l' /\
      forall e', e = Some e' -> catchable e' = true).
  { destruct (parse t) as [artifact|]; [apply run_steps_ok, artifact_steps_ok|]. exists l, (Some (Exn JsonParseError "parse error")).
    split_and!; [done|apply agree_refl|]. by intros e' [= <-]. }
  destruct Hp as (l' & e & -> & Ha & He). destruct e as [e|]; [|by exists l'].
  rewrite (He e eq_refl). cbn [jset jupdate mbind res_bind]. eexists. split; [reflexivity|].
  eapply agree_trans; [exact Ha|]. apply agree_insert. by_deciding.
Qed.

(** *** The run and its trials *)
Definition children_of id s : list (Row F) := filter (fun r => text_is "parent_run_id" id r = true) (rows s "model_runs").
Lemma get_trials_ok c id s : c_fault c = None -> Forall trial_typed (children_of id s) -> (length (children_of id s) <= 1000)%nat ->
  exists trials, trials ≡ₚ children_of id s /\ GetHpoTrials c id s = JArr (trial_json <$> trials).
Proof.
  intros Hc Hty Hlen. unfold GetHpoTrials, GetHpoTrialsPaginated, query, select, limit_offset. rewrite Hc.
  fold (children_of id s). exists (std_sort by_trial_index (scan c (children_of id s))).
  assert (Hp : std_sort by_trial_index (scan c (children_of id s)) ≡ₚ children_of id s) by (by rewrite std_sort_perm, scan_perm).
  split; [exact Hp|]. cbn [Z.ltb Z.compare orb answer]. rewrite drop_0, take_ge by (rewrite Hp; lia).
  rewrite read_rows_ok; [done|]. rewrite Hp. eapply Forall_impl; [exact Hty|]. intros r. apply ty_read.
Qed.

Lemma null_field_ok j k l : j = JObj l ->
  exists l', null_field j k = Ok (JObj l') /\ forall k', default JNull (obj_lookup k' l') = default JNull (obj_lookup k' l).
Proof.
  intros ->. unfold null_field. cbn [jget mbind res_bind].
  assert (Hm : exists b, (if jcontains (JObj l) k then Ok (jis_null (default JNull (obj_lookup k l))) else Ok true) = Ok b /\
    (b = true -> default JNull (obj_lookup k l) = JNull)).
  { cbn [jcontains]. destruct (obj_lookup k l) as [v|]; cbn.
    - eexists. split; [reflexivity|]. by destruct v.
    - eexists. split; [reflexivity|done]. }
  destruct Hm as (b & -> & Hb). cbn [mbind res_bind]. destruct b; [|by exists l].
  cbn [jset jupdate mbind res_bind]. eexists. split; [reflexivity|]. intros k'.
  destruct (decide (k' = k)) as [->|Hne]; [rewrite obj_lookup_insert_eq; symmetry; by apply Hb|by rewrite obj_lookup_insert_ne].
Qed.
Lemma null_fields_ok ks l : exists l', fold_res null_field (JObj l) ks = Ok (JObj l') /\
  forall k', default JNull (obj_lookup k' l') = default JNull (obj_lookup k' l).
Proof.
  revert l. induction ks as [|k ks IH]; intros l; [by exists l|]. cbn [fold_res].
  destruct (null_field_ok (JObj l) k l eq_refl) as (l1 & -> & Hl1). cbn [mbind res_bind].
  destruct (IH l1) as (l2 & -> & Hl2). exists l2. split; [done|]. intros k'. by rewrite Hl2, Hl1.
Qed.

Lemma run_object (run : Row F) : (read_row model_run_fields run).2 = None ->
  exists l status path, (read_row model_run_fields run).1 = JObj l /\ l <> [] /\
    default JNull (obj_lookup "status" l) = JStr status /\ default JNull (obj_lookup "artifact_path" l) = JStr path /\
    default JNull (obj_lookup "hpo_config" l) = match column run "hpo_config" with SJson j => j | _ => JNull end.
Proof.
  intros Hread. assert (Hfields : forall key c cv, (key, c, cv) ∈ model_run_fields -> exists v l, convert cv (column run c) = Ok v /\
    (read_row model_run_fields run).1 = JObj l /\ obj_lookup key l = Some v).
  { intros key c cv. by apply row_field; [by_deciding|]. }
  destruct (Hfields "hpo_config" "hpo_config" AsJsonOrNull ltac:(among)) as (hpo & l & Hhpo & Hl & Hlh).
  destruct (Hfields "status" "status" AsText ltac:(among)) as (v & l0 & Hst & Hl0 & Hls). rewrite Hl in Hl0. injection Hl0 as <-.
  destruct (Hfields "artifact_path" "artifact_path" AsTextOrEmpty ltac:(among)) as (w & l0 & Hpath & Hl0 & Hlp).
  rewrite Hl in Hl0. injection Hl0 as <-. destruct (as_text_str _ _ Hst) as [status ->].
  assert (Hw : exists path, w = JStr path).
  { cbn in Hpath. destruct (column run "artifact_path"); try discriminate Hpath; injection Hpath as <-; eauto. }
  destruct Hw as [path ->]. exists l, status, path. rewrite Hls, Hlp, Hlh. split_and!; [done| |done..|].
  - intros ->. discriminate Hls.
  - cbn in Hhpo. destruct (column run "hpo_config"); try discriminate Hhpo; by injection Hhpo as <-.
Qed.
Lemma lookup_text k l v : default JNull (obj_lookup k l) = JStr v -> obj_lookup k l = Some (JStr v).
Proof. by destruct (obj_lookup k l); cbn; [intros ->|]. Qed.
Lemma send_object l status rid : exists l', SendJson (JObj l) status rid = Ok (MkResponse status (JObj l')) /\ agree ["request_id"] l l'.
Proof.
  unfold SendJson. destruct (_ && _); cbn [mbind res_bind jset jupdate]; eexists; (split; [reflexivity|]); [|apply agree_refl].
  apply agree_insert. by_deciding.
Qed.
Lemma existsb_perm {A} (p : A -> bool) (l1 l2 : list A) : l1 ≡ₚ l2 -> existsb p l1 = existsb p l2.
Proof. intros Hp. apply eq_true_iff_eq. rewrite !existsb_exists. setoid_rewrite <- list_elem_of_In. by setoid_rewrite Hp. Qed.
End handler.


(** ** On a concrete tuning run *)
#[local] Existing Instance pg_example.
#[local] Existing Instance server_example.
#[local] Instance detail_text : JsonText float (option (json float)) := tree_text float.

Definition trial_example (id status : string) (index : Z) (metric : sql float) : Row float := new_row
  [("model_run_id", SText id); ("parent_run_id", SText "tune"); ("status", SText status); ("trial_index", SInt index);
   ("trial_params", SJson (JObj [])); ("created_at", STime 0); ("completed_at", STime (10 + index)); ("is_eligible", SBool true);
   ("selection_metric_value", metric); ("dataset_id", SText "d"); ("name", SText "trial")].
Definition tuning_run_example : Row float := new_row
  [("model_run_id", SText "tune"); ("dataset_id", SText "d"); ("name", SText "tune"); ("status", SText "RUNNING");
   ("created_at", STime 0); ("is_eligible", SBool true); ("hpo_config", SJson (obj [("algorithm", JStr "grid")]))].
(** A failed trial, a completed one, and one more, measured or not yet. *)
Definition detail_store (metric : sql float) : Store float := put "model_runs"
  [tuning_run_example; trial_example "t0" "FAILED" 0 SNull; trial_example "t1" "COMPLETED" 1 (SDouble 0.5%float);
   trial_example "t2" "COMPLETED" 2 metric] empty_store.
Definition detail_request : Request := MkRequest [] ["tune"] "" None.
Definition detail_run (metric : sql float) :=
  HandleGetModelDetail quiet_env http_example (fun _ : string => None) detail_request (MkApi 0 0 (detail_store metric)).

Lemma trial_example_typed id status index metric : id <> "" -> (0 <= index <= 2)%Z ->
  metric = SNull \/ (exists x, metric = SDouble x /\ nonnan x) -> trial_typed (trial_example id status index metric).
Proof.
  intros Hid Hi Hm. split.
  - destruct Hm as [->|(x & -> & _)]; reflexivity.
  - by exists id.
  - by exists status.
  - change (int_min <= index <= int_max)%Z. unfold int_min, int_max. lia.
  - destruct Hm as [->|(x & -> & Hx)]; [reflexivity|exact Hx].
  - exact I.
Qed.
Lemma detail_store_typed metric : metric = SNull \/ (exists x, metric = SDouble x /\ nonnan x) ->
  Forall trial_typed (children_of "tune" (detail_store metric)).
Proof.
  intros Hm. change (children_of "tune" (detail_store metric)) with
    [trial_example "t0" "FAILED" 0 SNull; trial_example "t1" "COMPLETED" 1 (SDouble 0.5%float); trial_example "t2" "COMPLETED" 2 metric].
  repeat (apply Forall_cons_2; [apply trial_example_typed; [done|lia|]|]); [by left|right; by eexists|exact Hm|apply Forall_nil_2].
Qed.

