(* ===== verification/Reconciler.v ===== *)
(** The background reconciler, src/src/job_reconciler.cpp: a thread that sweeps
    stale jobs on a timer, and the call that stops it.

    The two threads interleave at the accesses to [running_] and at the
    operations on the condition variable.  [wait_for(lock, interval, pred)] is
    the loop the standard prescribes: test the predicate, block, test again on a
    wake-up; when the time is out, return the predicate.  [Stop] does not take
    the mutex, so it can run between the test and the block. *)
From stdpp Require Import base gmap strings list.
From Stdlib Require Import ZArith Lia Floats.
From S2P Require Import Prelude Num Sql DbClient DbFacts.

Local Open Scope list_scope.

(** Where the sweeper thread is. *)
Inductive Sweeper :=
  | NotStarted  (** no thread: [sweeper_thread_] is null *)
  | AtLoop      (** before [while (running_)] *)
  | AtTest      (** in [wait_for], about to test the predicate *)
  | Parking     (** the predicate was false, not blocked yet *)
  | Waiting     (** blocked *)
  | AtLast      (** the time is out, about to return the predicate *)
  | Sweeping    (** in [RunSweep] *)
  | Exited.
(** Where the thread in [Stop] is: before the call, past [running_ = false], past
    [notify_all], past the join. *)
Inductive Stopper := NotStopping | Stored | Notified | Joined.
#[global] Instance sweeper_eq_dec : EqDecision Sweeper.
Proof. solve_decision. Defined.
#[global] Instance stopper_eq_dec : EqDecision Stopper.
Proof. solve_decision. Defined.

Section reconciler.
Context {F : Type} `{Num F}.

Record JobReconciler := MkReconciler {
  rc_db : Store F; stale_ttl_ : Z; running_ : bool; sweeper_thread_ : Sweeper; stopper : Stopper }.
Implicit Types r : JobReconciler.

Definition reconciler (db : Store F) (stale_ttl : Z) : JobReconciler := MkReconciler db stale_ttl false NotStarted NotStopping.
Definition with_thread (t : Sweeper) r : JobReconciler := MkReconciler (rc_db r) (stale_ttl_ r) (running_ r) t (stopper r).
Definition with_db (db : Store F) r : JobReconciler := MkReconciler db (stale_ttl_ r) (running_ r) (sweeper_thread_ r) (stopper r).

Definition ReconcileStartup (c : Call) r : JobReconciler := with_db (ReconcileStaleJobs c None (rc_db r)) r.
(** The exceptions it would catch are caught by the client already. *)
Definition RunSweep (c : Call) r : JobReconciler := with_db (ReconcileStaleJobs c (Some (stale_ttl_ r)) (rc_db r)) r.

Definition calm r : bool := match stopper r with NotStopping | Joined => true | _ => false end.
Definition Start r : JobReconciler :=
  if running_ r then r else MkReconciler (rc_db r) (stale_ttl_ r) true AtLoop (stopper r).

(** One step of the sweeper thread, each with what it needs. *)
Inductive sweeper_step := SLoop | SPred | SBlock | SWake | STimeout | SLast | SSweep (c : Call).
Definition sweeper_exec (e : sweeper_step) r : option JobReconciler :=
  match e, sweeper_thread_ r with
  | SLoop, AtLoop => Some (with_thread (if running_ r then AtTest else Exited) r)
  | SPred, AtTest => Some (with_thread (if running_ r then Parking else Exited) r)
  | SBlock, Parking => Some (with_thread Waiting r)
  | SWake, Waiting => Some (with_thread AtTest r)
  | STimeout, Waiting => Some (with_thread AtLast r)
  | SLast, AtLast => Some (with_thread (if running_ r then Sweeping else Exited) r)
  | SSweep c, Sweeping => Some (with_thread AtLoop (RunSweep c r))
  | _, _ => None
  end.

(** [notify_all()]: only a thread that is blocked hears it. *)
Definition woken (t : Sweeper) : Sweeper := match t with Waiting => AtTest | t => t end.
(** The steps of [Stop]. *)
Inductive stop_step := PStore | PNotify | PJoin.
Definition stop_exec (e : stop_step) r : option JobReconciler :=
  match e with
  | PStore => if calm r then Some (MkReconciler (rc_db r) (stale_ttl_ r) false (sweeper_thread_ r) Stored) else None
  | PNotify =>
      match stopper r with
      | Stored => Some (MkReconciler (rc_db r) (stale_ttl_ r) (running_ r) (woken (sweeper_thread_ r)) Notified)
      | _ => None
      end
  | PJoin =>
      match stopper r, sweeper_thread_ r with
      | Notified, (Exited | NotStarted) => Some (MkReconciler (rc_db r) (stale_ttl_ r) (running_ r) NotStarted Joined)
      | _, _ => None
      end
  end.

(** What happens to a reconciler.  Its owner does not start it while it stops it. *)
Inductive event := EStartup (c : Call) | EStart | ESweeper (e : sweeper_step) | EStop (e : stop_step).
Definition exec (e : event) r : option JobReconciler :=
  match e with
  | EStartup c => Some (ReconcileStartup c r)
  | EStart => if calm r then Some (Start r) else None
  | ESweeper e => sweeper_exec e r
  | EStop e => stop_exec e r
  end.
Fixpoint run (es : list event) r : option JobReconciler :=
  match es with [] => Some r | e :: es' => r' ← exec e r; run es' r' end.

(** ** The invariant *)
Definition live (t : Sweeper) : bool := match t with NotStarted | Exited => false | _ => true end.
(** A reconciler that is running has a thread and is not being stopped; one
    that is neither running nor being stopped has no thread. *)
Definition inv r : bool :=
  if running_ r then live (sweeper_thread_ r) && calm r
  else negb (calm r) || match sweeper_thread_ r with NotStarted => true | _ => false end.

Lemma exec_inv e r r' : inv r = true -> exec e r = Some r' -> inv r' = true.
Proof.
  destruct r as [db ttl b t p]. unfold inv. destruct e as [c| |e|e]; cbn [exec].
  - by intros Hi [= <-].
  - unfold Start, calm. cbn. destruct b, p; cbn; by (intros Hi [= <-]).
  - destruct e, t; cbn; try done; intros Hi [= <-]; destruct b, p; by cbn in *.
  - destruct e; cbn.
    + destruct p; cbn; try done; intros Hi [= <-]; destruct b, t; by cbn in *.
    + destruct p; cbn; try done; intros Hi [= <-]; destruct b, t; by cbn in *.
    + destruct p, t; cbn; try done; intros Hi [= <-]; destruct b; by cbn in *.
Qed.
Lemma run_inv es r r' : inv r = true -> run es r = Some r' -> inv r' = true.
Proof.
  revert r. induction es as [|e es IH]; cbn; intros r Hi; [by intros [= <-]|].
  destruct (exec e r) as [r1|] eqn:E; cbn; [|done]. apply IH. by eapply exec_inv.
Qed.

(** ** Stopping *)

(** Steps of the two threads while [Stop] runs. *)
Definition internal (e : event) : Prop := match e with ESweeper _ => True | EStop PStore => False | EStop _ => True | _ => False end.
Definition stopping r : Prop := stopper r = Stored \/ stopper r = Notified.
Definition is_sweep (e : event) : bool := match e with ESweeper (SSweep _) => true | _ => false end.
Definition is_timeout (e : event) : bool := match e with ESweeper STimeout => true | _ => false end.

(** What is left to do. *)
Definition sweeper_left (t : Sweeper) : nat :=
  match t with NotStarted | Exited => 0 | AtLoop | AtTest | AtLast => 1 | Waiting | Sweeping => 2 | Parking => 3 end.
Definition stopper_left (p : Stopper) : nat := match p with Stored => 2 | Notified => 1 | _ => 0 end.
Definition steps_left r : nat := sweeper_left (sweeper_thread_ r) + stopper_left (stopper r).
Definition sweeps_left r : nat := match sweeper_thread_ r with Sweeping => 1 | _ => 0 end.
Definition timeouts_left r : nat := match sweeper_thread_ r with Parking | Waiting => 1 | _ => 0 end.
Definition one (b : bool) : nat := if b then 1 else 0.

Lemma internal_step e r r' : internal e -> running_ r = false -> exec e r = Some r' ->
  running_ r' = false /\ S (steps_left r') <= steps_left r /\
  one (is_sweep e) + sweeps_left r' <= sweeps_left r /\ one (is_timeout e) + timeouts_left r' <= timeouts_left r.
Proof.
  destruct r as [db ttl b t p]. cbn [running_]. intros Hint -> He. unfold steps_left, sweeps_left, timeouts_left.
  destruct e as [c| |e|e]; [done|done| |]; destruct e; try done; cbn in He.
  1-7: destruct t; try discriminate He; injection He as <-; cbn; split_and!; done || lia.
  - destruct p; try discriminate He; cbn in He; injection He as <-. destruct t; cbn; split_and!; done || lia.
  - destruct p, t; try discriminate He; cbn in He; injection He as <-; cbn; split_and!; done || lia.
Qed.
Lemma internal_run es r r' : Forall internal es -> running_ r = false -> run es r = Some r' ->
  running_ r' = false /\ length es + steps_left r' <= steps_left r /\
  countb is_sweep es + sweeps_left r' <= sweeps_left r /\ countb is_timeout es + timeouts_left r' <= timeouts_left r.
Proof.
  intros Hint. revert r. induction Hint as [|e es He _ IH]; intros r Hr; cbn [run]; [intros [= <-]; unfold countb; cbn; split_and!; [done|lia..]|].
  destruct (exec e r) as [r1|] eqn:E; cbn; [|done]. intros Hrun.
  destruct (internal_step e r r1 He Hr E) as (Hr1 & H1 & H2 & H3). destruct (IH r1 Hr1 Hrun) as (Hr' & H4 & H5 & H6).
  rewrite !countb_cons. unfold one in *. destruct (is_sweep e), (is_timeout e); split_and!; try done; lia.
Qed.
(** Until [Stop] returns, something other than a spurious wake-up can happen. *)
Lemma stopping_progress r : stopping r -> running_ r = false ->
  exists e, internal e /\ e <> ESweeper SWake /\ is_Some (exec e r).
Proof.
  destruct r as [db ttl b t p]. unfold stopping. cbn. intros Hp ->.
  destruct Hp as [-> | ->]; [by exists (EStop PNotify)|].
  destruct t; [exists (EStop PJoin)|exists (ESweeper SLoop)|exists (ESweeper SPred)|exists (ESweeper SBlock)|exists (ESweeper STimeout)
              |exists (ESweeper SLast)|exists (ESweeper (SSweep (MkCall None 0)))|exists (EStop PJoin)]; by split_and!.
Qed.
(** [Stop] goes on until it returns. *)
Lemma never_calm_again es r r' : Forall internal es -> stopping r \/ stopper r = Joined -> run es r = Some r' -> stopper r' <> NotStopping.
Proof.
  intros Hint. revert r. induction Hint as [|e es He _ IH]; intros r Hp; cbn [run].
  - intros [= <-]. destruct Hp as [[-> | ->]| ->]; done.
  - destruct (exec e r) as [r1|] eqn:E; cbn; [|done]. apply IH. unfold stopping in *.
    destruct e as [c| |e|e]; [done|done| |]; destruct e; try done; cbn in E;
      destruct r as [d l b t p], t, p; try discriminate E; injection E as <-; cbn in *; by auto.
Qed.
End reconciler.

(** C36: [Stop] returns after at most one more sweep and one more interval.
    From any state the reconciler can be in when [Stop] has just cleared
    [running_], whatever the interleaving: at most five more steps of the two
    threads are possible, a sweep only if one had begun, a timed wait only if the
    sweeper was about to wait or waiting; until [Stop] has returned some step
    other than a spurious wake-up is possible; and when it has returned, the
    thread is gone. *)
Theorem stop_ends_the_sweeper {F} `{Num F} (db : Store F) (ttl : Z) (before during : list event) (r r' : JobReconciler)
  (Hbefore : run before (reconciler db ttl) = Some r) (Hstop : stopper r = Stored)
  (Hinternal : Forall internal during) (Hduring : run during r = Some r') :
  length during <= 5 /\ countb is_sweep during <= sweeps_left r /\ countb is_timeout during <= timeouts_left r /\
  ((stopper r' = Joined /\ sweeper_thread_ r' = NotStarted) \/
   exists e, internal e /\ e <> ESweeper SWake /\ is_Some (exec e r')).
Proof.
  pose proof (run_inv before (reconciler db ttl) r eq_refl Hbefore) as Hinv.
  assert (Hr : running_ r = false) by (unfold inv, calm in Hinv; rewrite Hstop in Hinv; destruct (running_ r); [by rewrite andb_false_r in Hinv|done]).
  destruct (internal_run during r r' Hinternal Hr Hduring) as (Hr' & Hlen & Hsw & Hto).
  assert (steps_left r <= 5) by (unfold steps_left; rewrite Hstop; destruct (sweeper_thread_ r); cbn; lia).
  split_and!; [lia..|]. pose proof (run_inv during r r' Hinv Hduring) as Hinv'. unfold inv, calm in Hinv'. rewrite Hr' in Hinv'.
  destruct (stopper r') eqn:Ep; [| | |left; split; [done|by destruct (sweeper_thread_ r')]].
  2,3: right; apply stopping_progress; [|done]; unfold stopping; rewrite Ep; by auto.
  destruct (never_calm_again during r r' Hinternal (or_introl (or_introl Hstop)) Hduring Ep).
Qed.

(** The window between the test and the block: a notification sent there wakes
    nobody, and [Stop] waits for the rest of the interval. *)
Definition lost_notification : list event :=
  [EStart; ESweeper SLoop; ESweeper SPred; EStop PStore; EStop PNotify; ESweeper SBlock].
Lemma stop_can_miss_its_notification {F} `{Num F} (db : Store F) (ttl : Z) :
  exists r, run lost_notification (reconciler db ttl) = Some r /\ stopper r = Notified /\ sweeper_thread_ r = Waiting /\
    forall e, internal e -> is_Some (exec e r) -> e = ESweeper STimeout \/ e = ESweeper SWake.
Proof.
  eexists. split; [reflexivity|]. split_and!; [done..|]. intros e He [r' Hr'].
  destruct e as [c| |e|e]; [done|done| |]; destruct e; try done; by auto.
Qed.

Lemma stop_ends_the_sweeper_witness :
  exists r r' : JobReconciler (F := float), run (lost_notification) (reconciler empty_store 600) = Some r' /\
    run [EStart; ESweeper SLoop; ESweeper SPred; EStop PStore] (reconciler empty_store 600) = Some r /\
    countb is_sweep [EStop PNotify; ESweeper SBlock] <= sweeps_left r /\
    exists e, internal e /\ e <> ESweeper SWake /\ is_Some (exec e r').
Proof.
  eexists _, _. split; [reflexivity|]. split; [reflexivity|].
  destruct (stop_ends_the_sweeper (F := float) empty_store 600 [EStart; ESweeper SLoop; ESweeper SPred; EStop PStore]
    [EStop PNotify; ESweeper SBlock] _ _ eq_refl eq_refl ltac:(repeat constructor) eq_refl) as (_ & Hs & _ & [[Hj _]|He]);
    [discriminate Hj|]. split; [exact Hs|exact He].
Defined.
