(* ===== verification/Obs.v ===== *)
(** Observability, src/src/obs/context.h, obs/logging.h, obs/http_log.h and
    metrics.h: the request context of a thread, the structured log, the scope
    that logs a request, and the registry of metrics.

    What matters to the server is that logging can throw: [dump] refuses a
    string that is not UTF-8, and the scope of a request logs in its
    destructor, where an exception ends the process. *)
From stdpp Require Import base gmap strings list.
From Stdlib Require Import ZArith Lia Ascii Floats.
From S2P Require Import Prelude Num Json Sql DbClient Workers Queries QueryFacts Http.

Local Open Scope string_scope.
Local Open Scope list_scope.

(** ** UTF-8, RFC 3629: what the JSON library accepts in a string *)

(** The ranges of the bytes that must follow a first byte; [None] for a byte
    that starts nothing. *)
Definition tail_ranges (b : N) : option (list (N * N)) :=
  let c := (128, 191)%N in
  (if b <=? 127 then Some []
   else if (194 <=? b) && (b <=? 223) then Some [c]
   else if b =? 224 then Some [(160, 191); c]
   else if b =? 237 then Some [(128, 159); c]
   else if (225 <=? b) && (b <=? 239) then Some [c; c]
   else if b =? 240 then Some [(144, 191); c; c]
   else if (241 <=? b) && (b <=? 243) then Some [c; c; c]
   else if b =? 244 then Some [(128, 143); c; c]
   else None)%N.
Fixpoint utf8_from (pending : list (N * N)) (s : string) : bool :=
  match s, pending with
  | "", [] => true
  | "", _ => false
  | String a s', [] => match tail_ranges (N_of_ascii a) with Some p => utf8_from p s' | None => false end
  | String a s', (lo, hi) :: p => ((lo <=? N_of_ascii a) && (N_of_ascii a <=? hi))%N && utf8_from p s'
  end.
Definition utf8 (s : string) : bool := utf8_from [] s.
Arguments utf8 : simpl never.

Lemma utf8_app s1 s2 : utf8 s1 = true -> utf8 s2 = true -> utf8 (s1 +:+ s2) = true.
Proof.
  unfold utf8. intros H1 H2. revert H1. generalize (@nil (N * N)) as p.
  induction s1 as [|a s1 IH]; intros p; [by destruct p|]. change (String a s1 +:+ s2) with (String a (s1 +:+ s2)). cbn [utf8_from].
  destruct p as [|[lo hi] p]; [destruct (tail_ranges _); [apply IH|done]|].
  rewrite !andb_true_iff. intros [Hb H1]. split; [done|]. by apply IH.
Qed.

(** ** JSON that can be written *)
Section obs.
Context {F : Type} `{Num F}.

Fixpoint dumpable (j : json F) : bool :=
  match j with
  | JStr s => utf8 s
  | JArr l => forallb dumpable l
  | JObj l => forallb (fun kv => utf8 kv.1 && dumpable kv.2) l
  | _ => true
  end.
(** [fields_[it.key()] = it.value()] for each pair. *)
Definition assign (fields : list (string * json F)) (l : list (string * json F)) : list (string * json F) :=
  foldl (fun acc kv => obj_insert kv.1 kv.2 acc) fields l.

(** ** The context of a thread *)
Record Context_ := MkContext {
  request_id : string; trace_id : string; user_id : string; dataset_id : string; model_run_id : string;
  inference_run_id : string; score_job_id : string }.
Definition empty_context : Context_ := MkContext "" "" "" "" "" "" "".
(** A thread: [g_context], [g_context_set], and the lines it has logged. *)
Record ObsState := MkObs { g_context : Context_; g_context_set : bool; lines : list (string * json F) }.

Definition SetContext (c : Context_) (s : ObsState) : ObsState := MkObs c true (lines s).
Definition ClearContext (s : ObsState) : ObsState := MkObs empty_context false (lines s).
(** ~ScopedContext, with what the constructor saved. *)
Definition RestoreContext (prev : Context_) (prev_set : bool) (s : ObsState) : ObsState :=
  if prev_set then MkObs prev true (lines s) else ClearContext s.

(** ** Logging *)
Inductive LogLevel := Info | Warn | Error.
Definition LevelToString (l : LogLevel) : string := match l with Info => "INFO" | Warn => "WARN" | Error => "ERROR" end.
Definition context_fields (c : Context_) : list (string * json F) :=
  omap (fun kv => if (kv.2 =? "")%string then None else Some (kv.1, JStr kv.2))
    [("request_id", request_id c); ("trace_id", trace_id c); ("user_id", user_id c); ("dataset_id", dataset_id c);
     ("model_run_id", model_run_id c); ("inference_run_id", inference_run_id c); ("score_job_id", score_job_id c)].
Definition log_json (ts : string) (level : LogLevel) (event component : string) (fields : list (string * json F)) (s : ObsState) : json F :=
  JObj (assign fields
    ([("ts", JStr ts); ("level", JStr (LevelToString level)); ("event", JStr event); ("component", JStr component)]
     ++ if g_context_set s then context_fields (g_context s) else [])).
Definition utf8_error : exn := Exn JsonTypeError "[json.exception.type_error.316] invalid UTF-8 byte".
(** [LogEvent]: nothing is logged when [dump] throws. *)
Definition LogEvent (ts : string) (level : LogLevel) (event component : string) (fields : list (string * json F)) (s : ObsState)
    : ObsState * res unit :=
  let j := log_json ts level event component fields s in
  if dumpable j then (MkObs (g_context s) (g_context_set s) (lines s ++ [(event, j)]), Ok tt) else (s, Throw utf8_error).

(** ** The log scope of a request *)
Record LogScope := MkScope {
  sc_fields : list (string * json F); sc_error_logged : bool; sc_prev : Context_; sc_prev_set : bool }.

(** Clock readings are parameters: the time stamp of a line and the
    milliseconds since the request began. *)
Context (ts : string) (elapsed : F).

(** The constructor: when its log line throws, the members are destroyed. *)
Definition open_scope (path method rid : string) (s : ObsState) : ObsState * res LogScope :=
  let fields := assign [] ([("route", JStr path); ("method", JStr method)]
                           ++ if (rid =? "")%string then [] else [("request_id", JStr rid)]) in
  let scope := MkScope fields false (g_context s) (g_context_set s) in
  match LogEvent ts Info "http_request_start" "api_server" fields (SetContext (MkContext rid "" "" "" "" "" "") s) with
  | (s', Ok _) => (s', Ok scope)
  | (s', Throw e) => (RestoreContext (g_context s) (g_context_set s) s', Throw e)
  end.
Definition AddFields (extra : list (string * json F)) (sc : LogScope) : LogScope :=
  MkScope (assign (sc_fields sc) extra) (sc_error_logged sc) (sc_prev sc) (sc_prev_set sc).
Definition RecordError (code message : string) (status : Z) (sc : LogScope) (s : ObsState) : ObsState * res LogScope :=
  if sc_error_logged sc then (s, Ok sc) else
  let payload := assign (sc_fields sc) [("status_code", JInt status); ("duration_ms", JNum elapsed); ("error_code", JStr code);
                                        ("error", JStr message)] in
  match LogEvent ts Error "http_request_error" "api_server" payload s with
  | (s', Ok _) => (s', Ok (MkScope (sc_fields sc) true (sc_prev sc) (sc_prev_set sc)))
  | (s', Throw e) => (s', Throw e)
  end.
(** The destructor: [None] when it throws, and the process is terminated. *)
Definition close_scope (status : Z) (sc : LogScope) (s : ObsState) : option ObsState :=
  if sc_error_logged sc then Some (RestoreContext (sc_prev sc) (sc_prev_set sc) s) else
  let payload := assign (sc_fields sc) [("status_code", JInt status); ("duration_ms", JNum elapsed)] in
  match LogEvent ts Info "http_request_end" "api_server" payload s with
  | (s', Ok _) => Some (RestoreContext (sc_prev sc) (sc_prev_set sc) s')
  | (_, Throw _) => None
  end.

(** What a handler does with its scope, in order. *)
Inductive log_op :=
  | LAddFields (extra : list (string * json F))
  | LRecordError (code message : string) (status : Z)
  | LContext (c : Context_) (** a ScopedContext, to the end of the handler *).
(** Up to the first exception. *)
Fixpoint run_log (ops : list log_op) (sc : LogScope) (s : ObsState) : ObsState * LogScope * option exn :=
  match ops with
  | [] => (s, sc, None)
  | LAddFields extra :: ops' => run_log ops' (AddFields extra sc) s
  | LRecordError code message status :: ops' =>
      match RecordError code message status sc s with
      | (s', Ok sc') => run_log ops' sc' s'
      | (s', Throw e) => (s', sc, Some e)
      end
  | LContext c :: ops' =>
      let '(s', sc', e) := run_log ops' sc (SetContext c s) in
      (RestoreContext (g_context s) (g_context_set s) s', sc', e)
  end.
(** The end of a request: the handler returned, an exception left it, or the
    process is gone. *)
Inductive outcome := Returned (s : ObsState) | Escaped (s : ObsState) (e : exn) | Terminated.
Definition log_request (path method rid : string) (ops : list log_op) (status : Z) (s : ObsState) : outcome :=
  match open_scope path method rid s with
  | (s', Throw e) => Escaped s' e
  | (s', Ok sc) =>
      let '(s', sc, e) := run_log ops sc s' in
      match close_scope status sc s', e with
      | None, _ => Terminated
      | Some s', None => Returned s'
      | Some s', Some e => Escaped s' e
      end
  end.

(** HandleGetScores: the ids of the query string become fields of the scope
    before anything is checked. *)
Definition scores_log (rid dataset_id model_run_id : string) (error : option (string * string * Z)) : list log_op :=
  [LAddFields [("dataset_id", JStr dataset_id); ("model_run_id", JStr model_run_id)];
   LContext (MkContext rid "" "" dataset_id model_run_id "" "")]
  ++ match error with Some (code, message, status) => [LRecordError code message status] | None => [] end.

(** ** Timers (no code of the program uses one) *)
Record ScopedTimer := MkTimer { tm_event : string; tm_component : string; tm_fields : list (string * json F); tm_stopped : bool }.
Definition new_timer (event component : string) (fields : list (string * json F)) : ScopedTimer :=
  MkTimer event component fields false.
(** [stopped_] is set before the line is written. *)
Definition Stop (level : LogLevel) (extra : list (string * json F)) (t : ScopedTimer) (s : ObsState)
    : ScopedTimer * (ObsState * res unit) :=
  if tm_stopped t then (t, (s, Ok tt)) else
  (MkTimer (tm_event t) (tm_component t) (tm_fields t) true,
   LogEvent ts level (tm_event t) (tm_component t) (assign (tm_fields t) (extra ++ [("duration_ms", JNum elapsed)])) s).
(** The destructor swallows what [Stop] throws. *)
Definition drop_timer (t : ScopedTimer) (s : ObsState) : ObsState :=
  if tm_stopped t then s else (Stop Info [] t s).2.1.
Definition timed_block (event component : string) (fields : list (string * json F))
    (stops : list (LogLevel * list (string * json F))) (s : ObsState) : ObsState :=
  let '(t, s) := foldl (fun '(t, s) '(level, extra) => let '(t, (s, _)) := Stop level extra t s in (t, s))
                   (new_timer event component fields, s) stops in
  drop_timer t s.
End obs.
Arguments ScopedTimer F : clear implicits.
Arguments ObsState F : clear implicits.
Arguments LogScope F : clear implicits.
Arguments log_op F : clear implicits.
Arguments outcome F : clear implicits.

(** ** What can be written *)
Section facts.
Context {F : Type} `{Num F}.
Implicit Types (s : ObsState F) (l fields : list (string * json F)) (k : string).

Definition pair_ok (kv : string * json F) : bool := utf8 kv.1 && dumpable kv.2.
Lemma dumpable_obj l : dumpable (JObj l) = forallb pair_ok l.
Proof. done. Qed.
Lemma insert_ok k v l : pair_ok (k, v) = true -> forallb pair_ok l = true -> forallb pair_ok (obj_insert k v l) = true.
Proof.
  intros Hkv. induction l as [|[k' v'] l IH]; cbn [obj_insert forallb]; [by rewrite Hkv|].
  intros [Hk' Hl]%andb_true_iff. destruct (k =? k')%string; [|destruct (String.ltb k k')]; cbn [forallb].
  - by rewrite Hkv, Hl.
  - by rewrite Hkv, Hk', Hl.
  - by rewrite Hk', IH.
Qed.
Lemma assign_ok fields l : forallb pair_ok fields = true -> forallb pair_ok l = true -> forallb pair_ok (assign fields l) = true.
Proof.
  unfold assign. revert fields. induction l as [|[k v] l IH]; intros fields Hf; [done|]. cbn [forallb foldl].
  intros [Hkv Hl]%andb_true_iff. apply IH; [by apply insert_ok|done].
Qed.
Lemma lookup_not_ok k v l : obj_lookup k l = Some v -> dumpable v = false -> forallb pair_ok l = false.
Proof.
  induction l as [|[k' v'] l IH]; cbn [obj_lookup forallb]; [done|]. unfold pair_ok at 1. cbn [fst snd].
  destruct (k =? k')%string; [intros [= ->] ->; by rewrite andb_false_r|]. intros Hl Hv. by rewrite (IH Hl Hv), andb_false_r.
Qed.

(** The keys a line adds to its fields. *)
Definition line_keys : list string :=
  ["ts"; "level"; "event"; "component"; "request_id"; "trace_id"; "user_id"; "dataset_id"; "model_run_id"; "inference_run_id"; "score_job_id"].
Lemma obj_lookup_absent k l : k ∉ l.*1 -> obj_lookup k l = None.
Proof.
  induction l as [|[k' v'] l IH]; cbn; [done|]. intros [Hne Hl]%not_elem_of_cons. apply String.eqb_neq in Hne. rewrite Hne. by apply IH.
Qed.
Lemma assign_other k fields l : k ∉ l.*1 -> obj_lookup k (assign fields l) = obj_lookup k fields.
Proof.
  intros Hk. unfold assign. rewrite obj_lookup_foldl. rewrite obj_lookup_absent; [done|]. change (k ∉ map fst (rev l)). by rewrite map_rev, list_elem_of_In, <- in_rev, <- list_elem_of_In.
Qed.
Lemma obj_lookup_in k v l : obj_lookup k l = Some v -> (k, v) ∈ l.
Proof.
  induction l as [|[k' v'] l IH]; cbn; [done|]. destruct (String.eqb_spec k k') as [->|]; [intros [= ->]; left|]. intros Hl. right. by apply IH.
Qed.
Lemma assign_same k v fields l : (forall v', (k, v') ∈ l -> v' = v) -> obj_lookup k fields = Some v -> obj_lookup k (assign fields l) = Some v.
Proof.
  intros Hl Hf. unfold assign. rewrite obj_lookup_foldl. destruct (obj_lookup k (rev l)) as [v'|] eqn:E; [|done].
  apply obj_lookup_in, list_elem_of_In, in_rev, list_elem_of_In, Hl in E. by subst.
Qed.

(** ** Contexts *)
Definition context_texts (c : Context_) : list string :=
  [request_id c; trace_id c; user_id c; dataset_id c; model_run_id c; inference_run_id c; score_job_id c].
Definition context_ok (c : Context_) : bool := forallb utf8 (context_texts c).
(** A thread without a context has the empty one. *)
Definition settled s : Prop := g_context_set s = false -> g_context s = empty_context.
Definition same_context s s' : Prop := g_context s' = g_context s /\ g_context_set s' = g_context_set s.
Lemma same_context_trans s1 s2 s3 : same_context s1 s2 -> same_context s2 s3 -> same_context s1 s3.
Proof. unfold same_context. intros [-> ->] [-> ->]. done. Qed.
Lemma restore_same s s' : settled s -> same_context s (RestoreContext (g_context s) (g_context_set s) s').
Proof. intros Hs. unfold RestoreContext, same_context. destruct (g_context_set s) eqn:E; [done|]. cbn. by rewrite Hs. Qed.
Lemma restore_lines c b s : lines (RestoreContext c b s) = lines s.
Proof. unfold RestoreContext. by destruct b. Qed.
Lemma settled_same s s' : settled s -> same_context s s' -> settled s'.
Proof. unfold settled. intros Hs [-> ->]. done. Qed.

Lemma context_fields_ok c : context_ok c = true -> forallb pair_ok (context_fields (F := F) c) = true.
Proof.
  unfold context_ok, context_texts, context_fields. cbn [forallb]. rewrite !andb_true_iff. intros Hc.
  apply forallb_forall. intros kv Hin%list_elem_of_In. apply list_elem_of_omap in Hin as ([k v] & Hin & Hkv).
  cbn in Hkv. destruct (v =? "")%string; [done|]. injection Hkv as <-. unfold pair_ok. cbn [fst snd dumpable].
  repeat (apply elem_of_cons in Hin as [[= -> ->]|Hin]; [apply andb_true_iff; split; [reflexivity|tauto]|]). by apply elem_of_nil in Hin.
Qed.
Lemma context_fields_keys c k : k ∈ (context_fields (F := F) c).*1 -> k ∈ line_keys.
Proof.
  intros (kv & -> & Hin)%list_elem_of_fmap. apply list_elem_of_omap in Hin as ([k v] & Hin & Hkv).
  cbn in Hkv. destruct (v =? "")%string; [done|]. injection Hkv as <-. cbn [fst].
  repeat (apply elem_of_cons in Hin as [[= -> ->]|Hin]; [by_deciding|]). by apply elem_of_nil in Hin.
Qed.
Lemma context_field_value c v : ("dataset_id", v) ∈ context_fields (F := F) c -> v = JStr (dataset_id c).
Proof.
  intros ([k u] & Hin & Hkv)%list_elem_of_omap. cbn in Hkv. destruct (u =? "")%string; [done|]. injection Hkv as -> <-.
  repeat (apply elem_of_cons in Hin as [Heq|Hin]; [first [discriminate Heq|by injection Heq as ->]|]). by apply elem_of_nil in Hin.
Qed.

(** ** One line *)
Lemma log_ok ts level event component fields s :
  utf8 ts = true -> utf8 event = true -> utf8 component = true -> forallb pair_ok fields = true ->
  context_ok (g_context s) = true ->
  exists l, LogEvent ts level event component fields s =
              (MkObs (g_context s) (g_context_set s) (lines s ++ [(event, JObj l)]), Ok tt) /\
    forall k, k ∉ line_keys -> obj_lookup k l = obj_lookup k fields.
Proof.
  intros Hts Hev Hco Hf Hc. unfold LogEvent, log_json. rewrite dumpable_obj, assign_ok; [|done|].
  - eexists. split; [reflexivity|]. intros k Hk. apply assign_other. rewrite fmap_app, elem_of_app. intros [Hin|Hin].
    + apply Hk. revert Hin. cbn [fmap list_fmap fst]. rewrite !elem_of_cons. unfold line_keys. rewrite !elem_of_cons. tauto.
    + destruct (g_context_set s); [by apply Hk, (context_fields_keys (g_context s))|by apply elem_of_nil in Hin].
  - rewrite forallb_app, andb_true_iff. split; [unfold pair_ok; cbn; by rewrite Hts, Hev, Hco; destruct level|].
    destruct (g_context_set s); [by apply context_fields_ok|done].
Qed.
(** A field that is not UTF-8 and that the context does not replace. *)
Lemma log_throws ts level event component fields s k v :
  obj_lookup k (assign fields ([("ts", JStr ts); ("level", JStr (LevelToString level)); ("event", JStr event); ("component", JStr component)]
     ++ if g_context_set s then context_fields (g_context s) else [])) = Some v -> dumpable v = false ->
  LogEvent ts level event component fields s = (s, Throw utf8_error).
Proof. intros Hl Hv. unfold LogEvent, log_json. rewrite dumpable_obj. by rewrite (lookup_not_ok k v). Qed.

(** ** A handler *)
Context (ts : string) (elapsed : F).
Definition op_ok (op : log_op F) : bool :=
  match op with
  | LAddFields extra => forallb pair_ok extra
  | LRecordError code message _ => utf8 code && utf8 message
  | LContext c => context_ok c
  end.
Definition first_error (ops : list (log_op F)) : option (string * Z) :=
  head (omap (fun op => match op with LRecordError code _ status => Some (code, status) | _ => None end) ops).

Lemma run_log_ok ops sc s : utf8 ts = true -> forallb op_ok ops = true -> forallb pair_ok (sc_fields sc) = true ->
  context_ok (g_context s) = true -> settled s ->
  exists s' sc', run_log ts elapsed ops sc s = (s', sc', None) /\ same_context s s' /\ forallb pair_ok (sc_fields sc') = true /\
    sc_prev sc' = sc_prev sc /\ sc_prev_set sc' = sc_prev_set sc /\
    if sc_error_logged sc then lines s' = lines s /\ sc_error_logged sc' = true
    else match first_error ops with
         | None => lines s' = lines s /\ sc_error_logged sc' = false
         | Some (code, status) => sc_error_logged sc' = true /\ exists l, lines s' = lines s ++ [("http_request_error", JObj l)] /\
             obj_lookup "error_code" l = Some (JStr code) /\ obj_lookup "status_code" l = Some (JInt status)
         end.
Proof.
  intros Hts. revert sc s. induction ops as [|op ops IH]; intros sc s Hops Hf Hc Hs; cbn [run_log].
  - exists s, sc. destruct (sc_error_logged sc); by split_and!.
  - cbn [forallb] in Hops. apply andb_true_iff in Hops as [Hop Hops]. destruct op as [extra|code message status|c]; cbn [op_ok] in Hop.
    + destruct (IH (AddFields extra sc) s Hops) as (s' & sc' & Hr); [by apply assign_ok|done|done|]. exists s', sc'. exact Hr.
    + unfold RecordError. destruct (sc_error_logged sc) eqn:El.
      { destruct (IH sc s Hops Hf Hc Hs) as (s' & sc' & Hr). exists s', sc'. by rewrite El in Hr. }
      apply andb_true_iff in Hop as [Hcode Hmsg].
      destruct (log_ok ts Error "http_request_error" "api_server" (assign (sc_fields sc) [("status_code", JInt status);
        ("duration_ms", JNum elapsed); ("error_code", JStr code); ("error", JStr message)]) s Hts eq_refl eq_refl) as (l & -> & Hl);
        [apply assign_ok; [done|]; unfold pair_ok; cbn; by rewrite Hcode, Hmsg|done|].
      match goal with |- context [run_log ts elapsed ops ?sc1 ?s1] =>
        destruct (IH sc1 s1 Hops Hf Hc Hs) as (s' & sc' & Hr & Hctx & Hf' & Hp & Hps & Hlines & Hlog) end.
      exists s', sc'. split_and!; [done|exact Hctx|done..|]. cbn. split; [exact Hlog|]. exists l. rewrite Hlines. split; [done|].
      rewrite !Hl by by_deciding. unfold assign. cbn [foldl fst snd]. split.
      * rewrite obj_lookup_insert_ne by done. apply obj_lookup_insert_eq.
      * rewrite 3!obj_lookup_insert_ne by done. apply obj_lookup_insert_eq.
    + destruct (IH sc (SetContext c s) Hops Hf Hop) as (s' & sc' & -> & Hctx & Hf' & Hp & Hps & Hlines); [done|].
      eexists _, sc'. split; [reflexivity|]. rewrite restore_lines. split_and!; [by apply restore_same|done..].
Qed.

(** However often it is stopped, a timer writes at most one line. *)
Lemma timer_writes_one_line event component fields stops s :
  length (lines (timed_block ts elapsed event component fields stops s)) <= S (length (lines s)).
Proof.
  unfold timed_block.
  assert (Hlog : forall level e c l s0, length (lines (LogEvent ts level e c l s0).1) <= S (length (lines s0))).
  { intros. unfold LogEvent. destruct (dumpable _); cbn; rewrite ?length_app; cbn; lia. }
  assert (Hrest : forall stops t s0, tm_stopped t = true ->
    foldl (fun '(t, s) '(level, extra) => let '(t, (s, _)) := Stop ts elapsed level extra t s in (t, s)) (t, s0) stops = (t, s0)).
  { intros l t s0 Ht. induction l as [|[level extra] l IH]; [done|]. cbn [foldl]. unfold Stop at 2. by rewrite Ht. }
  destruct stops as [|[level extra] stops]; cbn [foldl].
  - unfold drop_timer, new_timer, Stop. cbn [tm_stopped snd fst]. apply Hlog.
  - unfold Stop at 2, new_timer. cbn [tm_stopped]. destruct (LogEvent _ _ _ _ _ s) as [s1 r] eqn:E.
    rewrite Hrest by done. unfold drop_timer. cbn [tm_stopped].
    pose proof (Hlog level event component (assign fields (extra ++ [("duration_ms", JNum elapsed)])) s) as Hl.
    cbn [tm_event tm_component tm_fields] in E. by rewrite E in Hl.
Qed.
End facts.

(** C31: a request is logged by its start and by exactly one more line, and the
    context of the thread is left as it was.  When every string that is logged is
    UTF-8, the handler returns after the line http_request_start and either one
    http_request_error, which carries the code and status of the first error the
    handler recorded, or, if it recorded none, one http_request_end with the
    status of the answer. *)
Theorem requests_log_start_and_one_outcome {F} `{Num F} (ts : string) (elapsed : F) (path method rid : string)
  (ops : list (log_op F)) (status : Z) (s : ObsState F)
  (Htexts : forallb utf8 [ts; path; method; rid] = true) (Hops : forallb op_ok ops = true) (Hsettled : settled s) :
  exists s' start last, log_request ts elapsed path method rid ops status s = Returned s' /\ same_context s s' /\
    lines s' = lines s ++ [("http_request_start", start); last] /\
    match first_error ops with
    | Some (code, status_code) => last.1 = "http_request_error" /\
        jfield "error_code" last.2 = JStr code /\ jfield "status_code" last.2 = JInt status_code
    | None => last.1 = "http_request_end" /\ jfield "status_code" last.2 = JInt status
    end.
Proof.
  cbn [forallb] in Htexts. rewrite !andb_true_iff in Htexts. destruct Htexts as (Hts & Hpath & Hmethod & Hrid & _).
  unfold log_request, open_scope.
  match goal with |- context [LogEvent ts Info "http_request_start" "api_server" ?f ?s0] =>
    assert (Hf : forallb pair_ok f = true);
      [apply assign_ok; [done|]; destruct (rid =? "")%string; unfold pair_ok; cbn; by rewrite Hpath, Hmethod, ?Hrid|];
    destruct (log_ok ts Info "http_request_start" "api_server" f s0 Hts eq_refl eq_refl Hf) as (l1 & -> & _);
      [unfold context_ok; cbn; by rewrite Hrid|] end.
  match goal with |- context [run_log ts elapsed ops ?sc ?s1] =>
    destruct (run_log_ok ts elapsed ops sc s1 Hts Hops Hf) as (s2 & sc2 & -> & Hctx & Hf2 & Hp & Hps & Hlog);
      [unfold context_ok; cbn; by rewrite Hrid|done|] end.
  cbn [sc_error_logged sc_prev sc_prev_set lines] in *. unfold close_scope.
  destruct (first_error ops) as [[code st]|].
  - destruct Hlog as (-> & l2 & Hl2 & Hcode & Hst). rewrite Hp, Hps. eexists _, (JObj l1), ("http_request_error", JObj l2).
    split; [reflexivity|]. rewrite restore_lines, Hl2. split; [by apply restore_same|]. split; [by rewrite <- app_assoc|].
    cbn. by rewrite Hcode, Hst.
  - destruct Hlog as (Hl2 & ->). destruct Hctx as [Hc Hcs].
    destruct (log_ok ts Info "http_request_end" "api_server" (assign (sc_fields sc2) [("status_code", JInt status); ("duration_ms", JNum elapsed)])
      s2 Hts eq_refl eq_refl) as (l3 & -> & Hl3); [by apply assign_ok|rewrite Hc; unfold context_ok; cbn; by rewrite Hrid|].
    rewrite Hp, Hps. eexists _, (JObj l1), ("http_request_end", JObj l3). split; [reflexivity|]. rewrite restore_lines. cbn [lines]. rewrite Hl2.
    split; [by apply restore_same|]. split; [by rewrite <- app_assoc|]. cbn [fst snd jfield]. split; [done|].
    rewrite Hl3 by by_deciding. unfold assign. cbn [foldl fst snd]. rewrite obj_lookup_insert_ne by done. by rewrite obj_lookup_insert_eq.
Qed.

(** A query string ends the server.  /scores puts dataset_id and
    model_run_id into the fields of its scope before it looks at them, and
    percent-encoding lets a client send any bytes: when dataset_id is not UTF-8,
    the scope's destructor throws whatever the handler did in between, recorded
    an error or not, and the process is terminated. *)
Theorem bad_query_string_terminates_the_server {F} `{Num F} (ts : string) (elapsed : F) (path method rid dataset_id model_run_id : string)
  (error : option (string * string * Z)) (status : Z) (s : ObsState F)
  (Htexts : forallb utf8 [ts; path; method; rid] = true) (Hbad : utf8 dataset_id = false) :
  log_request ts elapsed path method rid (scores_log rid dataset_id model_run_id error) status s = Terminated.
Proof.
  cbn [forallb] in Htexts. rewrite !andb_true_iff in Htexts. destruct Htexts as (Hts & Hpath & Hmethod & Hrid & _).
  unfold log_request, open_scope.
  match goal with |- context [LogEvent ts Info "http_request_start" "api_server" ?f ?s0] =>
    assert (Hf : forallb pair_ok f = true);
      [apply assign_ok; [done|]; destruct (rid =? "")%string; unfold pair_ok; cbn; by rewrite Hpath, Hmethod, ?Hrid|];
    destruct (log_ok ts Info "http_request_start" "api_server" f s0 Hts eq_refl eq_refl Hf) as (l1 & -> & _);
      [unfold context_ok; cbn; by rewrite Hrid|]; generalize f; intros fields end.
  unfold scores_log. cbn [app run_log]. unfold AddFields. cbn [sc_fields sc_error_logged sc_prev sc_prev_set].
  set (fields1 := assign fields _).
  assert (Hd : obj_lookup "dataset_id" fields1 = Some (JStr dataset_id)).
  { unfold fields1, assign. cbn [foldl fst snd]. rewrite obj_lookup_insert_ne by done. apply obj_lookup_insert_eq. }
  assert (Hclose : forall s1 st, close_scope ts elapsed st (MkScope fields1 false (g_context s) (g_context_set s))
      (MkObs (MkContext rid "" "" "" "" "" "") true s1) = None).
  { intros s1 st. unfold close_scope. cbn [sc_error_logged sc_fields].
    rewrite (log_throws _ _ _ _ _ _ "dataset_id" (JStr dataset_id)); [done| |exact Hbad].
    rewrite !assign_other; [exact Hd|by_deciding|]. cbn. destruct (rid =? "")%string; by_deciding. }
  destruct error as [[[code message] st]|]; cbn [run_log]; unfold RestoreContext, SetContext; cbn [g_context g_context_set lines]; [|by rewrite Hclose].
  unfold RecordError. cbn [sc_error_logged sc_fields].
  rewrite (log_throws _ _ _ _ _ _ "dataset_id" (JStr dataset_id)); [unfold RestoreContext; cbn [g_context_set lines]; by rewrite Hclose| |exact Hbad].
  apply assign_same; [|rewrite assign_other; [exact Hd|by_deciding]]. cbn [g_context g_context_set]. intros v Hin.
  rewrite elem_of_app in Hin. destruct Hin as [Hin|Hin%context_field_value]; [|done].
  repeat (apply elem_of_cons in Hin as [Heq|Hin]; [discriminate Heq|]). by apply elem_of_nil in Hin.
Qed.

(** ** Concrete requests *)
Definition thread_start : ObsState float := MkObs empty_context false [].
(** %FF, and "é". *)
Definition byte_ff : string := String (ascii_of_N 255) "".
Definition e_acute : string := String (ascii_of_N 195) (String (ascii_of_N 169) "").

Lemma requests_log_start_and_one_outcome_witness :
  (exists s' start last, log_request "ts" 1%float "/scores" "GET" "req" (scores_log "req" e_acute "m" None) 200 thread_start = Returned s' /\
     lines s' = [("http_request_start", start); last] /\ last.1 = "http_request_end") /\
  (exists s' start last, log_request "ts" 1%float "/scores" "GET" "req"
     (scores_log "req" "" "m" (Some (kErrHttpBadRequest, "dataset_id and model_run_id required", 400%Z))) 400 thread_start = Returned s' /\
     lines s' = [("http_request_start", start); last] /\ last.1 = "http_request_error").
Proof.
  split.
  - destruct (requests_log_start_and_one_outcome "ts" 1%float "/scores" "GET" "req" (scores_log "req" e_acute "m" None) 200 thread_start
      ltac:(vm_compute; reflexivity) ltac:(vm_compute; reflexivity) (fun _ => eq_refl)) as (s' & start & last & E & _ & Hl & Hlast).
    exists s', start, last. split; [exact E|]. split; [exact Hl|exact (proj1 Hlast)].
  - destruct (requests_log_start_and_one_outcome "ts" 1%float "/scores" "GET" "req"
      (scores_log "req" "" "m" (Some (kErrHttpBadRequest, "dataset_id and model_run_id required", 400%Z))) 400 thread_start
      ltac:(vm_compute; reflexivity) ltac:(vm_compute; reflexivity) (fun _ => eq_refl)) as (s' & start & last & E & _ & Hl & Hlast).
    exists s', start, last. split; [exact E|]. split; [exact Hl|exact (proj1 Hlast)].
Defined.

Lemma bad_query_string_terminates_the_server_witness :
  log_request "ts" 1%float "/scores" "GET" "req" (scores_log "req" byte_ff "m" None) 200 thread_start = Terminated.
Proof.
  apply (bad_query_string_terminates_the_server "ts" 1%float "/scores" "GET" "req" byte_ff "m" None 200 thread_start);
    vm_compute; reflexivity.
Defined.
