(* ===== verification/Metrics.v ===== *)
(** The registry of metrics, src/src/metrics.h, and the calls that record a
    metric and log it, src/src/obs/metrics.h.

    Every operation of the registry holds its mutex: a run is a list of
    operations.  The series of a metric are kept in maps by the text of name and
    labels; the theorem is that the text tells them apart. *)
From stdpp Require Import base gmap strings list fin_maps.
From Stdlib Require Import ZArith Lia Ascii Floats.
From S2P Require Import Prelude Num Json Queries Http Obs.

Local Open Scope string_scope.
Local Open Scope list_scope.

(** A std::map of labels: its pairs in order of the keys. *)
Definition labels := list (string * string).

Section metrics.
Context {F : Type} `{Num F}.

(** ** The registry *)
Record HistogramStats := MkHistogram { h_count : Z; h_sum : F; h_min : F; h_max : F }.
Definition no_latency : HistogramStats := MkHistogram 0 0%num (nofZ 1000000000) 0%num.
Record MetricsRegistry := MkRegistry {
  counters_ : gmap string Z; gauges_ : gmap string F; histograms_ : gmap string HistogramStats }.
Definition empty_registry : MetricsRegistry := MkRegistry ∅ ∅ ∅.

(** A label: its key, the equals sign, its value between quotes. *)
Definition quote : string := String (ascii_of_nat 34) "".
Definition label_text (lp : string * string) : string := lp.1 +:+ "=" +:+ quote +:+ lp.2 +:+ quote.
Fixpoint labels_text (first : bool) (ls : labels) : string :=
  match ls with
  | [] => ""
  | lp :: ls' => (if first then "" else ",") +:+ label_text lp +:+ labels_text false ls'
  end.
Definition SerializeKey (name : string) (ls : labels) : string :=
  match ls with [] => name | _ => name +:+ "{" +:+ labels_text true ls +:+ "}" end.

(** [counters_[key] += value] on a [long], whose overflow is undefined. *)
Definition long_ok (z : Z) : bool := ((- 2 ^ 63 <=? z) && (z <? 2 ^ 63))%Z.
Definition Increment (name : string) (ls : labels) (value : Z) (m : MetricsRegistry) : res MetricsRegistry :=
  let key := SerializeKey name ls in
  let total := (default 0 (counters_ m !! key) + value)%Z in
  if long_ok total then Ok (MkRegistry (<[key := total]> (counters_ m)) (gauges_ m) (histograms_ m)) else undefined "signed integer overflow".
Definition SetGauge (name : string) (value : F) (m : MetricsRegistry) : MetricsRegistry :=
  MkRegistry (counters_ m) (<[name := value]> (gauges_ m)) (histograms_ m).
Definition record_latency (ms : F) (h : HistogramStats) : HistogramStats :=
  MkHistogram (h_count h + 1) (h_sum h + ms)%num (if (ms <? h_min h)%num then ms else h_min h)
    (if (h_max h <? ms)%num then ms else h_max h).
Definition RecordLatency (name : string) (ls : labels) (ms : F) (m : MetricsRegistry) : MetricsRegistry :=
  let key := SerializeKey name ls in
  MkRegistry (counters_ m) (gauges_ m) (<[key := record_latency ms (default no_latency (histograms_ m !! key))]> (histograms_ m)).

(** The text the /metrics route serves; [std::to_string] of a double is the
    library's. *)
Definition entries {A} (m : gmap string A) : list (string * A) := std_sort (fun a b => String.ltb a.1 b.1) (map_to_list m).
Definition newline : string := String (ascii_of_nat 10) "".
Definition line (key value : string) : string := key +:+ " " +:+ value +:+ newline.
Definition ToPrometheus (to_string_long : Z -> string) (to_string_double : F -> string) (m : MetricsRegistry) : string :=
  String.concat "" (map (fun kv => line kv.1 (to_string_long kv.2)) (entries (counters_ m))
    ++ map (fun kv => line kv.1 (to_string_double kv.2)) (entries (gauges_ m))
    ++ map (fun kv => line (kv.1 +:+ "_count") (to_string_long (h_count kv.2))
                      +:+ line (kv.1 +:+ "_sum") (to_string_double (h_sum kv.2))) (entries (histograms_ m))).

(** ** Recording and logging *)
Inductive metric := MCounter (value : Z) | MHistogram (value : F) | MGauge (value : F).
Definition metric_json (v : metric) : json F := match v with MCounter z => JInt z | MHistogram x | MGauge x => JNum x end.
Definition record_metric (name : string) (ls : labels) (v : metric) (m : MetricsRegistry) : res MetricsRegistry :=
  match v with
  | MCounter z => Increment name ls z m
  | MHistogram x => Ok (RecordLatency name ls x m)
  | MGauge x => Ok (SetGauge name x m)
  end.
(** [if (!ctx.k.empty() && !payload.contains(k)) { payload[k] = ctx.k; }]. *)
Definition add_missing (fields : list (string * json F)) (kv : string * string) : list (string * json F) :=
  if (kv.2 =? "")%string || bool_decide (is_Some (obj_lookup kv.1 fields)) then fields else obj_insert kv.1 (JStr kv.2) fields.
Definition metric_payload (name unit_ : string) (ls : labels) (v : metric) (fields : list (string * json F)) (s : ObsState F)
    : list (string * json F) :=
  let payload := assign fields [("metric_name", JStr name); ("value", metric_json v); ("unit", JStr unit_)] in
  let c := g_context s in
  let payload := if g_context_set s then
      foldl add_missing payload [("request_id", request_id c); ("dataset_id", dataset_id c); ("model_run_id", model_run_id c);
                                 ("inference_run_id", inference_run_id c); ("score_job_id", score_job_id c)]
    else payload in
  match ls with
  | [] => payload
  | _ => obj_insert "labels" (JObj (assign [] ((fun kv => (kv.1, JStr kv.2)) <$> ls))) payload
  end.
(** EmitCounter, EmitHistogram and EmitGauge: the metric is recorded before the
    line is logged, so it stays recorded when the line cannot be written. *)
Definition Emit (ts name unit_ component : string) (ls : labels) (fields : list (string * json F)) (v : metric)
    (m : MetricsRegistry) (s : ObsState F) : MetricsRegistry * ObsState F * res unit :=
  match record_metric name ls v m with
  | Throw e => (m, s, Throw e)
  | Ok m' => let '(s', r) := LogEvent ts Info "metric" component (metric_payload name unit_ ls v fields s) s in (m', s', r)
  end.
End metrics.
Arguments MetricsRegistry F : clear implicits.
Arguments HistogramStats F : clear implicits.
Arguments metric F : clear implicits.
Arguments empty_registry {F}.

(** ** Series are kept apart *)

Definition clean_label (lp : string * string) : bool := without "="%char lp.1 && without (ascii_of_nat 34) lp.2.
(** Names without a brace, keys without an equals sign, values without a quote. *)
Definition clean (name : string) (ls : labels) : bool := without "{"%char name && forallb clean_label ls.

(** The first occurrence of a character splits a text. *)
Lemma split_at c s1 s2 t1 t2 : without c s1 = true -> without c s2 = true ->
  s1 +:+ String c t1 = s2 +:+ String c t2 -> s1 = s2 /\ t1 = t2.
Proof.
  revert s2. induction s1 as [|a s1 IH]; intros [|b s2] H1 H2 Heq.
  - by injection Heq as ->.
  - injection Heq as -> _. cbn in H2. by rewrite Ascii.eqb_refl in H2.
  - injection Heq as <- _. cbn in H1. by rewrite Ascii.eqb_refl in H1.
  - cbn [without] in H1, H2. apply andb_true_iff in H1 as [_ H1], H2 as [_ H2].
    injection Heq as -> Heq. by destruct (IH s2 H1 H2 Heq) as [-> ->].
Qed.
Lemma label_text_eq k v t : label_text (k, v) +:+ t = k +:+ String "="%char (quote +:+ v +:+ String (ascii_of_nat 34) t).
Proof. unfold label_text, quote. cbn [fst snd]. by rewrite !string_app_assoc. Qed.

Lemma has_equals first k v ls t : without "="%char (labels_text first ((k, v) :: ls) +:+ t) = false.
Proof.
  cbn [labels_text]. rewrite !string_app_assoc, label_text_eq, !without_app. cbn [without].
  rewrite Ascii.eqb_refl. cbn [negb andb]. by rewrite !andb_false_r.
Qed.
Lemma labels_text_inj first ls1 ls2 : forallb clean_label ls1 = true -> forallb clean_label ls2 = true ->
  labels_text first ls1 +:+ "}" = labels_text first ls2 +:+ "}" -> ls1 = ls2.
Proof.
  revert first ls2. induction ls1 as [|[k1 v1] ls1 IH]; intros first [|[k2 v2] ls2] H1 H2 Heq; [done| | |].
  - pose proof (has_equals first k2 v2 ls2 "}") as Hf. by rewrite <- Heq in Hf.
  - pose proof (has_equals first k1 v1 ls1 "}") as Hf. by rewrite Heq in Hf.
  - cbn [forallb] in H1, H2. apply andb_true_iff in H1 as [[Hk1 Hv1]%andb_true_iff H1], H2 as [[Hk2 Hv2]%andb_true_iff H2].
    cbn [labels_text] in Heq. rewrite !string_app_assoc in Heq. apply (inj (String.app _)) in Heq.
    rewrite !label_text_eq in Heq. apply split_at in Heq as [-> Heq]; [|done..].
    apply (inj (String.app quote)) in Heq. apply split_at in Heq as [-> Heq]; [|done..]. f_equal. by apply (IH false).
Qed.
(** The text of a series determines its name and its labels. *)
Lemma SerializeKey_inj name1 ls1 name2 ls2 : clean name1 ls1 = true -> clean name2 ls2 = true ->
  SerializeKey name1 ls1 = SerializeKey name2 ls2 -> name1 = name2 /\ ls1 = ls2.
Proof.
  unfold clean, SerializeKey. intros [Hn1 Hl1]%andb_true_iff [Hn2 Hl2]%andb_true_iff Heq.
  assert (Hbrace : forall name ls, without "{"%char (name +:+ "{" +:+ labels_text true ls +:+ "}") = false).
  { intros name ls. rewrite !without_app. cbn. by rewrite andb_false_r. }
  destruct ls1 as [|lp1 ls1], ls2 as [|lp2 ls2]; [done| | |].
  - rewrite Heq in Hn1. by rewrite Hbrace in Hn1.
  - rewrite <- Heq in Hn2. by rewrite Hbrace in Hn2.
  - apply (split_at "{"%char) in Heq as [-> Heq]; [|done..]. split; [done|]. by apply (labels_text_inj true).
Qed.

Section recorded.
Context {F : Type} `{Num F}.
Implicit Types (m : MetricsRegistry F).

(** An operation of the registry. *)
Definition metric_op : Type := string * labels * metric F.
Definition run_metrics (ops : list metric_op) m : res (MetricsRegistry F) :=
  fold_res (fun m op => record_metric op.1.1 op.1.2 op.2 m) m ops.
(** What was recorded for one series, in order. *)
Definition counted (name : string) (ls : labels) (ops : list metric_op) : list Z :=
  omap (fun op => match op.2 with MCounter z => if bool_decide (op.1 = (name, ls)) then Some z else None | _ => None end) ops.
Definition timed (name : string) (ls : labels) (ops : list metric_op) : list F :=
  omap (fun op => match op.2 with MHistogram x => if bool_decide (op.1 = (name, ls)) then Some x else None | _ => None end) ops.
Definition gauged (name : string) (ops : list metric_op) : list F :=
  omap (fun op => match op.2 with MGauge x => if bool_decide (op.1.1 = name) then Some x else None | _ => None end) ops.
Definition sum_long (l : list Z) : Z := foldr Z.add 0%Z l.
Definition latencies (l : list F) : HistogramStats F := foldl (fun h x => record_latency x h) no_latency l.

Lemma omap_snoc {A B} (f : A -> option B) l x : omap f (l ++ [x]) = omap f l ++ match f x with Some y => [y] | None => [] end.
Proof. rewrite omap_app. cbn. by destruct (f x). Qed.
Lemma sum_long_snoc l z : sum_long (l ++ [z]) = (sum_long l + z)%Z.
Proof. induction l as [|y l IH]; cbn; [lia|]. unfold sum_long in IH. rewrite IH. lia. Qed.

(** The registry after a list of operations. *)
Record recorded (ops : list metric_op) m : Prop := {
  rd_counter name ls : clean name ls = true -> counters_ m !! SerializeKey name ls =
    match counted name ls ops with [] => None | l => Some (sum_long l) end;
  rd_histogram name ls : clean name ls = true -> histograms_ m !! SerializeKey name ls =
    match timed name ls ops with [] => None | l => Some (latencies l) end;
  rd_gauge name : gauges_ m !! name = last (gauged name ops) }.

Lemma nonempty_snoc {A B} (l : list A) x (f : list A -> B) :
  match l ++ [x] with [] => None | l' => Some (f l') end = Some (f (l ++ [x])).
Proof. by destruct l. Qed.

Lemma record_step ops op m m' : clean op.1.1 op.1.2 = true -> recorded ops m ->
  record_metric op.1.1 op.1.2 op.2 m = Ok m' -> recorded (ops ++ [op]) m'.
Proof.
  destruct op as [[name ls] v]. cbn [fst snd]. intros Hclean [Hc Hh Hg] Hr.
  assert (Hkey : forall name' ls', clean name' ls' = true -> SerializeKey name ls = SerializeKey name' ls' <-> (name, ls) = (name', ls')).
  { intros name' ls' Hcl. split; [intros Heq; by destruct (SerializeKey_inj _ _ _ _ Hclean Hcl Heq) as [-> ->]|by intros [= -> ->]]. }
  destruct v as [z|x|x]; cbn [record_metric] in Hr.
  - unfold Increment in Hr. cbv zeta in Hr. destruct (long_ok _); [|done]. injection Hr as <-.
    split; [intros name' ls' Hcl|intros name' ls' Hcl|intros name']; unfold counted, timed, gauged; rewrite omap_snoc; cbn [fst snd counters_ histograms_ gauges_];
      rewrite ?app_nil_r; [|by apply Hh|by apply Hg].
    fold (counted name' ls' ops). case_bool_decide as Heq.
    + injection Heq as -> ->. rewrite lookup_insert_eq, nonempty_snoc, sum_long_snoc, (Hc _ _ Hcl). by destruct (counted name' ls' ops).
    + rewrite lookup_insert_ne by (rewrite Hkey by done; done). rewrite app_nil_r. by apply Hc.
  - injection Hr as <-. unfold RecordLatency. cbv zeta.
    split; [intros name' ls' Hcl|intros name' ls' Hcl|intros name']; unfold counted, timed, gauged; rewrite omap_snoc; cbn [fst snd counters_ histograms_ gauges_];
      rewrite ?app_nil_r; [by apply Hc| |by apply Hg].
    fold (timed name' ls' ops). case_bool_decide as Heq.
    + injection Heq as -> ->. rewrite lookup_insert_eq, nonempty_snoc, (Hh _ _ Hcl). unfold latencies at 2. rewrite foldl_app.
      by destruct (timed name' ls' ops).
    + rewrite lookup_insert_ne by (rewrite Hkey by done; done). rewrite app_nil_r. by apply Hh.
  - injection Hr as <-. unfold SetGauge.
    split; [intros name' ls' Hcl|intros name' ls' Hcl|intros name']; unfold counted, timed, gauged; rewrite omap_snoc; cbn [fst snd counters_ histograms_ gauges_];
      rewrite ?app_nil_r; [by apply Hc|by apply Hh|].
    fold (gauged name' ops). case_bool_decide as Heq.
    + subst. by rewrite lookup_insert_eq, last_snoc.
    + rewrite lookup_insert_ne by done. rewrite app_nil_r. by apply Hg.
Qed.
Lemma run_recorded ops m : forallb (fun op => clean op.1.1 op.1.2) ops = true -> run_metrics ops empty_registry = Ok m ->
  recorded ops m.
Proof.
  intros Hclean Hrun. unfold run_metrics in Hrun.
  refine (fold_res_ind (fun l m => forallb (fun op => clean op.1.1 op.1.2) l = true -> recorded l m) _ _ _ _ _ _ Hrun Hclean).
  - intros _. by split.
  - intros l op m1 m2 IH Hstep Hcl. rewrite forallb_app in Hcl. cbn [forallb] in Hcl.
    apply andb_true_iff in Hcl as [Hl [Ho _]%andb_true_iff]. by apply (record_step l op m1); [|apply IH|].
Qed.
End recorded.


