(* ===== verification/Routes.v ===== *)
(** Routing: the routes ApiServer::Initialize registers (src/src/api_server.cpp)
    and the registry of required routes (src/src/route_registry.cpp).

    A route is a method and a regular expression that the whole path must match;
    the HTTP library tries the routes of a method in the order of registration.
    The expressions of this server are paths of literal segments and of groups
    over a class of characters, so a path can also be matched segment by
    segment.  The theorem is that both readings agree, and that no path matches
    two routes: the order of registration does not matter. *)
From stdpp Require Import base strings list.
From Stdlib Require Import ZArith Lia Ascii.
From S2P Require Import Prelude.

Local Open Scope string_scope.
Local Open Scope list_scope.

(** ** Patterns *)

(** The groups in use: ([a-zA-Z0-9-]+), ([0-9]+) and ([a-zA-Z0-9_]+). *)
Inductive char_class := IdChars | Digits | WordChars.
Definition between (lo hi : ascii) (a : ascii) : bool := ((N_of_ascii lo <=? N_of_ascii a) && (N_of_ascii a <=? N_of_ascii hi))%N.
Definition alnum (a : ascii) : bool := between "a" "z" a || between "A" "Z" a || between "0" "9" a.
Definition in_class (c : char_class) (a : ascii) : bool :=
  match c with
  | IdChars => alnum a || Ascii.eqb a "-"
  | Digits => between "0" "9" a
  | WordChars => alnum a || Ascii.eqb a "_"
  end.
Fixpoint all_in (c : char_class) (s : string) : bool :=
  match s with "" => true | String a s' => in_class c a && all_in c s' end.

Inductive segment := Lit (s : string) | Group (c : char_class).
#[global] Instance char_class_eq_dec : EqDecision char_class.
Proof. solve_decision. Defined.
#[global] Instance segment_eq_dec : EqDecision segment.
Proof. solve_decision. Defined.

(** The pieces of a text between slashes. *)
Fixpoint split_slash (s : string) : list string :=
  match s with
  | "" => [""]
  | String a s' =>
      if Ascii.eqb a "/" then "" :: split_slash s'
      else match split_slash s' with w :: ws => String a w :: ws | [] => [String a ""] end
  end.
Definition segment_of (piece : string) : segment :=
  if (piece =? "([a-zA-Z0-9-]+)")%string then Group IdChars
  else if (piece =? "([0-9]+)")%string then Group Digits
  else if (piece =? "([a-zA-Z0-9_]+)")%string then Group WordChars
  else Lit piece.
(** A pattern begins with a slash. *)
Definition segments (pattern : string) : list segment := segment_of <$> tail (split_slash pattern).

(** ** The routes *)
Definition routes : list (string * string * string) :=
  [("POST", "/datasets", "HandleGenerateData");
   ("GET", "/datasets", "HandleListDatasets");
   ("GET", "/datasets/([a-zA-Z0-9-]+)", "HandleGetDataset");
   ("GET", "/datasets/([a-zA-Z0-9-]+)/summary", "HandleDatasetSummary");
   ("GET", "/datasets/([a-zA-Z0-9-]+)/topk", "HandleDatasetTopK");
   ("GET", "/datasets/([a-zA-Z0-9-]+)/timeseries", "HandleDatasetTimeSeries");
   ("GET", "/datasets/([a-zA-Z0-9-]+)/histogram", "HandleDatasetHistogram");
   ("GET", "/datasets/([a-zA-Z0-9-]+)/samples", "HandleGetDatasetSamples");
   ("GET", "/datasets/([a-zA-Z0-9-]+)/records/([0-9]+)", "HandleGetDatasetRecord");
   ("GET", "/datasets/([a-zA-Z0-9-]+)/metrics/([a-zA-Z0-9_]+)/stats", "HandleGetDatasetMetricStats");
   ("GET", "/datasets/([a-zA-Z0-9-]+)/metrics/summary", "HandleGetDatasetMetricsSummary");
   ("GET", "/datasets/([a-zA-Z0-9-]+)/models", "HandleGetDatasetModels");
   ("GET", "/models/([a-zA-Z0-9-]+)", "HandleGetModelDetail");
   ("GET", "/models/([a-zA-Z0-9-]+)/datasets/scored", "HandleGetModelScoredDatasets");
   ("GET", "/scores", "HandleGetScores");
   ("POST", "/inference", "HandleInference");
   ("GET", "/inference_runs", "HandleListInferenceRuns");
   ("GET", "/inference_runs/([a-zA-Z0-9-]+)", "HandleGetInferenceRun");
   ("POST", "/jobs/score_dataset", "HandleScoreDatasetJob");
   ("GET", "/jobs", "HandleListJobs");
   ("GET", "/jobs/([a-zA-Z0-9-]+)/progress", "HandleGetJobProgress");
   ("GET", "/jobs/([a-zA-Z0-9-]+)", "HandleGetJobStatus");
   ("DELETE", "/jobs/([a-zA-Z0-9-]+)", "CancelJob");
   ("GET", "/models/([a-zA-Z0-9-]+)/eval", "HandleModelEval");
   ("GET", "/models/([a-zA-Z0-9-]+)/error_distribution", "HandleModelErrorDistribution");
   ("GET", "/models/([a-zA-Z0-9-]+)/trials", "GetHpoTrials");
   ("POST", "/models/([a-zA-Z0-9-]+)/rerun_failed", "RerunFailedTrials");
   ("GET", "/healthz", "HealthCheck");
   ("GET", "/readyz", "ReadyCheck");
   ("GET", "/metrics", "Metrics");
   ("GET", "/schema/metrics", "GetMetricsSchema");
   ("POST", "/train", "HandleTrainModel");
   ("GET", "/train/([a-zA-Z0-9-]+)", "HandleGetTrainStatus");
   ("DELETE", "/train/([a-zA-Z0-9-]+)", "CancelTrain");
   ("GET", "/models", "HandleListModels")].
Definition kRequiredRoutes : list (string * string * string) :=
  [("POST", "/datasets", "CreateDataset");
   ("GET", "/datasets", "ListDatasets");
   ("GET", "/datasets/([a-zA-Z0-9-]+)", "GetDataset");
   ("GET", "/datasets/([a-zA-Z0-9-]+)/summary", "GetDatasetSummary");
   ("GET", "/datasets/([a-zA-Z0-9-]+)/topk", "GetDatasetTopK");
   ("GET", "/datasets/([a-zA-Z0-9-]+)/timeseries", "GetDatasetTimeSeries");
   ("GET", "/datasets/([a-zA-Z0-9-]+)/histogram", "GetDatasetHistogram");
   ("GET", "/datasets/([a-zA-Z0-9-]+)/samples", "GetDatasetSamples");
   ("GET", "/datasets/([a-zA-Z0-9-]+)/records/([0-9]+)", "GetDatasetRecord");
   ("GET", "/datasets/([a-zA-Z0-9-]+)/metrics/([a-zA-Z0-9_]+)/stats", "GetMetricStats");
   ("GET", "/datasets/([a-zA-Z0-9-]+)/metrics/summary", "GetMetricsSummary");
   ("GET", "/datasets/([a-zA-Z0-9-]+)/models", "GetDatasetModels");
   ("GET", "/models/([a-zA-Z0-9-]+)", "GetModel");
   ("GET", "/models/([a-zA-Z0-9-]+)/datasets/scored", "GetModelScoredDatasets");
   ("GET", "/scores", "GetScores");
   ("POST", "/inference", "RunInference");
   ("GET", "/inference_runs", "ListInferenceRuns");
   ("GET", "/inference_runs/([a-zA-Z0-9-]+)", "GetInferenceRun");
   ("POST", "/jobs/score_dataset", "CreateScoreJob");
   ("GET", "/jobs", "ListJobs");
   ("GET", "/jobs/([a-zA-Z0-9-]+)/progress", "GetJobProgress");
   ("GET", "/jobs/([a-zA-Z0-9-]+)", "GetJob");
   ("GET", "/models/([a-zA-Z0-9-]+)/eval", "GetModelEval");
   ("GET", "/models/([a-zA-Z0-9-]+)/error_distribution", "GetModelErrorDist");
   ("GET", "/healthz", "HealthCheck");
   ("GET", "/readyz", "ReadyCheck");
   ("GET", "/metrics", "Metrics");
   ("GET", "/schema/metrics", "GetMetricsSchema");
   ("POST", "/train", "StartTrain");
   ("GET", "/train/([a-zA-Z0-9-]+)", "GetTrainStatus");
   ("DELETE", "/train/([a-zA-Z0-9-]+)", "CancelTrain");
   ("GET", "/models", "ListModels");
   ("GET", "/models/([a-zA-Z0-9-]+)/trials", "GetHpoTrials");
   ("POST", "/models/([a-zA-Z0-9-]+)/rerun_failed", "RerunFailedTrials");
   ("DELETE", "/jobs/([a-zA-Z0-9-]+)", "CancelJob")].

(** Matching by segments, with the text of the groups. *)
Definition match_segment (seg : segment) (piece : string) : option (list string) :=
  match seg with
  | Lit s => if (piece =? s)%string then Some [] else None
  | Group c => if negb (piece =? "")%string && all_in c piece then Some [piece] else None
  end.
Fixpoint match_segments (segs : list segment) (pieces : list string) : option (list string) :=
  match segs, pieces with
  | [], [] => Some []
  | seg :: segs', piece :: pieces' => caps ← match_segment seg piece; rest ← match_segments segs' pieces'; Some (caps ++ rest)
  | _, _ => None
  end.
Definition match_path (pattern path : string) : option (list string) :=
  match split_slash path with
  | "" :: pieces => match_segments (segments pattern) pieces
  | _ => None
  end.

(** [dispatch_request]: the first route of the method whose pattern matches. *)
Fixpoint dispatch (rs : list (string * string * string)) (method path : string) : option (string * list string) :=
  match rs with
  | [] => None
  | (m, pattern, h) :: rs' =>
      match (if (m =? method)%string then match_path pattern path else None) with
      | Some caps => Some (h, caps)
      | None => dispatch rs' method path
      end
  end.

(** What the server does with a request: the pre-routing handler answers every
    OPTIONS; a file under the mount point comes before the routes; HEAD is
    routed as GET. *)
Inductive routed := Preflight | StaticFile | Handled (handler : string) (matches : list string) | NotFound.
Definition route (file_at : string -> bool) (method path : string) : routed :=
  if (method =? "OPTIONS")%string then Preflight else
  let get := (method =? "GET")%string || (method =? "HEAD")%string in
  if get && file_at path then StaticFile else
  match dispatch routes (if get then "GET" else method) path with
  | Some (h, caps) => Handled h caps
  | None => NotFound
  end.

(** ** The regular expressions *)
Inductive item := Chr (a : ascii) | Plus (c : char_class).
Fixpoint chars (s : string) : list item := match s with "" => [] | String a s' => Chr a :: chars s' end.
Definition items_of (segs : list segment) : list item :=
  segs ≫= (fun seg => Chr "/" :: match seg with Lit s => chars s | Group c => [Plus c] end).
(** The texts an expression matches as a whole, and the texts of its groups. *)
Inductive matches : list item -> string -> list string -> Prop :=
  | m_nil : matches [] "" []
  | m_chr a p s caps : matches p s caps -> matches (Chr a :: p) (String a s) caps
  | m_plus c p w s caps : w <> "" -> all_in c w = true -> matches p s caps -> matches (Plus c :: p) (w +:+ s) (w :: caps).

(** ** Texts and their pieces *)
Fixpoint noslash (s : string) : bool := match s with "" => true | String a s' => negb (Ascii.eqb a "/") && noslash s' end.
(** The text of a list of pieces, each after a slash. *)
Fixpoint path_of (pieces : list string) : string :=
  match pieces with [] => "" | w :: ws => String "/" (w +:+ path_of ws) end.

Lemma all_in_noslash c s : all_in c s = true -> noslash s = true.
Proof.
  induction s as [|a s IH]; [done|]. cbn. intros [Ha Hs]%andb_true_iff. rewrite (IH Hs), andb_true_r.
  destruct (Ascii.eqb_spec a "/") as [->|]; [by destruct c|done].
Qed.
Lemma split_slash_pieces s : Forall (fun w => noslash w = true) (split_slash s).
Proof.
  induction s as [|a s IH]; cbn; [by repeat constructor|]. destruct (Ascii.eqb a "/") eqn:E; [by constructor|].
  destruct (split_slash s) as [|w ws]; [constructor; [cbn; by rewrite E|constructor]|].
  apply Forall_cons in IH as [Hw Hws]. constructor; [cbn; by rewrite E|done].
Qed.
Lemma split_slash_path s w ws : split_slash s = w :: ws -> s = w +:+ path_of ws.
Proof.
  revert w ws. induction s as [|a s IH]; cbn; intros w ws; [by intros [= <- <-]|].
  destruct (Ascii.eqb_spec a "/") as [->|Ha].
  - intros [= <- <-]. destruct (split_slash s) as [|w ws] eqn:E; [by destruct s as [|b s']; cbn in E; [|destruct (Ascii.eqb b "/"), (split_slash s')]|].
    change (String "/" s = String "/" (w +:+ path_of ws)). f_equal. by apply IH.
  - destruct (split_slash s) as [|w' ws'] eqn:E; [by destruct s as [|b s']; cbn in E; [|destruct (Ascii.eqb b "/"), (split_slash s')]|].
    intros [= <- <-]. change (String a s = String a (w' +:+ path_of ws')). f_equal. by apply IH.
Qed.
Lemma split_slash_piece w ws : noslash w = true -> Forall (fun w => noslash w = true) ws ->
  split_slash (w +:+ path_of ws) = w :: ws.
Proof.
  intros Hw Hws. revert w Hw. induction Hws as [|w' ws Hw' _ IH]; intros w Hw.
  - change (path_of []) with "". induction w as [|a w IHw]; [done|]. cbn in Hw. apply andb_true_iff in Hw as [Ha Hw].
    change (String a w +:+ "") with (String a (w +:+ "")). cbn. apply negb_true_iff in Ha. by rewrite Ha, IHw.
  - induction w as [|a w IHw].
    + change ("" +:+ path_of (w' :: ws)) with (String "/" (w' +:+ path_of ws)). cbn. by rewrite IH.
    + cbn in Hw. apply andb_true_iff in Hw as [Ha Hw]. change (String a w +:+ path_of (w' :: ws)) with (String a (w +:+ path_of (w' :: ws))).
      cbn [split_slash]. apply negb_true_iff in Ha. by rewrite Ha, IHw.
Qed.

(** ** Segments and expressions agree *)
Definition segment_ok (seg : segment) : Prop := match seg with Lit s => noslash s = true | Group _ => True end.

Lemma matches_chars l p s caps : matches (chars l ++ p) s caps <-> exists s', s = l +:+ s' /\ matches p s' caps.
Proof.
  revert s. induction l as [|a l IH]; intros s; cbn [chars app].
  - split; [intros Hm; by exists s|by intros (s' & -> & Hm)].
  - split.
    + intros Hm. inversion Hm as [|a' p' s1 caps' Hm'|]; subst. apply IH in Hm' as (s' & -> & Hm'). by exists s'.
    + intros (s' & -> & Hm). change (matches (Chr a :: chars l ++ p) (String a (l +:+ s')) caps). constructor. apply IH. by exists s'.
Qed.
Lemma matches_segments segs s caps : Forall segment_ok segs ->
  matches (items_of segs) s caps <->
  exists pieces, s = path_of pieces /\ Forall (fun w => noslash w = true) pieces /\ match_segments segs pieces = Some caps.
Proof.
  intros Hok. revert s caps. induction Hok as [|seg segs Hseg _ IH]; intros s caps; cbn [items_of mbind list_bind].
  - split.
    + intros Hm. inversion Hm; subst. by exists [].
    + intros (pieces & -> & _ & Hm). destruct pieces; [|done]. injection Hm as <-. constructor.
  - change (items_of (seg :: segs)) with ((Chr "/" :: match seg with Lit s => chars s | Group c => [Plus c] end) ++ items_of segs).
    cbn [app]. split.
    + intros Hm. inversion Hm as [|a' p' s1 caps' Hm'|]; subst. destruct seg as [l|c].
      * apply matches_chars in Hm' as (s' & -> & Hm'). apply IH in Hm' as (pieces & -> & Hp & Hms).
        exists (l :: pieces). split_and!; [done|by constructor|]. cbn. by rewrite String.eqb_refl, Hms.
      * inversion Hm' as [| |c' p' w s' caps' Hne Hall Hm'']; subst. apply IH in Hm'' as (pieces & -> & Hp & Hms).
        exists (w :: pieces). split_and!; [done|constructor; [by eapply all_in_noslash|done]|]. cbn. apply String.eqb_neq in Hne. by rewrite Hne, Hall, Hms.
    + intros (pieces & -> & Hp & Hms). destruct pieces as [|w pieces]; [done|]. apply Forall_cons in Hp as [Hw Hp]. cbn in Hms.
      destruct (match_segment seg w) as [caps1|] eqn:E1; [|done]. cbn in Hms.
      destruct (match_segments segs pieces) as [caps2|] eqn:E2; [|done]. injection Hms as <-.
      constructor. assert (Hrest : matches (items_of segs) (path_of pieces) caps2) by (apply IH; by exists pieces).
      destruct seg as [l|c]; cbn in E1.
      * destruct (String.eqb_spec w l) as [->|]; [|done]. injection E1 as <-. apply matches_chars. by exists (path_of pieces).
      * destruct (String.eqb_spec w "") as [|Hne]; [done|]. cbn in E1. destruct (all_in c w) eqn:Ha; [|done]. injection E1 as <-. by constructor.
Qed.
Lemma segments_ok pattern : Forall segment_ok (segments pattern).
Proof.
  unfold segments. apply Forall_fmap, Forall_tail. eapply Forall_impl; [apply split_slash_pieces|]. intros w Hw. cbn. unfold segment_of.
  by repeat case_match.
Qed.
Lemma match_path_spec pattern path caps : match_path pattern path = Some caps <-> matches (items_of (segments pattern)) path caps.
Proof.
  rewrite matches_segments by apply segments_ok. unfold match_path. split.
  - pose proof (split_slash_pieces path) as Hp. destruct (split_slash path) as [|w ws] eqn:E; [done|]. destruct w; [|done].
    intros Hm. exists ws. apply Forall_cons in Hp as [_ Hp]. apply split_slash_path in E. by split_and!.
  - intros (pieces & -> & Hp & Hm). pose proof (split_slash_piece "" pieces eq_refl Hp) as E.
    change ("" +:+ path_of pieces) with (path_of pieces) in E. by rewrite E.
Qed.

(** ** No two routes *)

(** Segments that some piece could match both. *)
Definition overlap (a b : segment) : bool :=
  match a, b with
  | Lit s, Lit t => (s =? t)%string
  | Lit s, Group c | Group c, Lit s => negb (s =? "")%string && all_in c s
  | Group _, Group _ => true
  end.
Fixpoint may_clash (p q : list segment) : bool :=
  match p, q with [], [] => true | a :: p', b :: q' => overlap a b && may_clash p' q' | _, _ => false end.
Fixpoint distinct_routes (rs : list (string * string * string)) : bool :=
  match rs with
  | [] => true
  | (m, p, _) :: rs' => forallb (fun r => negb ((m =? r.1.1)%string && may_clash (segments p) (segments r.1.2))) rs' && distinct_routes rs'
  end.
Lemma overlap_sound a b w ca cb : match_segment a w = Some ca -> match_segment b w = Some cb -> overlap a b = true.
Proof.
  destruct a as [s|c], b as [t|d]; cbn; [|..|done].
  - destruct (String.eqb_spec w s) as [->|]; [|done]. by destruct (String.eqb s t).
  - destruct (String.eqb_spec w s) as [->|]; [|done]. by destruct (negb _ && _).
  - destruct (negb _ && _) eqn:E; [|done]. destruct (String.eqb_spec w t) as [->|]; [|done]. done.
Qed.
Lemma may_clash_sound p q ws ca cb : match_segments p ws = Some ca -> match_segments q ws = Some cb -> may_clash p q = true.
Proof.
  revert q ws ca cb. induction p as [|a p IH]; intros [|b q] [|w ws] ca cb; cbn; try done.
  destruct (match_segment a w) eqn:Ea; [|done]. destruct (match_segment b w) eqn:Eb; [|by destruct (match_segments p ws)].
  cbn. destruct (match_segments p ws) eqn:Ep; [|done]. destruct (match_segments q ws) eqn:Eq; [|done]. intros _ _.
  by rewrite (overlap_sound a b w _ _ Ea Eb), (IH q ws _ _ Ep Eq).
Qed.
Lemma match_path_clash p q path ca cb : match_path p path = Some ca -> match_path q path = Some cb -> may_clash (segments p) (segments q) = true.
Proof. unfold match_path. destruct (split_slash path) as [|[|a w] ws]; [done| |done]. apply may_clash_sound. Qed.

Lemma dispatch_spec rs method path h caps : distinct_routes rs = true ->
  dispatch rs method path = Some (h, caps) <-> exists pattern, (method, pattern, h) ∈ rs /\ match_path pattern path = Some caps.
Proof.
  induction rs as [|[[m p] h'] rs IH]; cbn [distinct_routes dispatch]; [split; [done|by intros (? & []%elem_of_nil & _)]|].
  intros [Hd Hrs]%andb_true_iff. rewrite forallb_forall in Hd. specialize (IH Hrs).
  assert (Hin : forall pattern, (method, pattern, h) ∈ (m, p, h') :: rs <-> (method = m /\ pattern = p /\ h = h') \/ (method, pattern, h) ∈ rs).
  { intros pattern. rewrite elem_of_cons. split; [intros [[= -> -> ->]|?]; [by left|by right]|intros [(-> & -> & ->)|?]; [by left|by right]]. }
  setoid_rewrite Hin. destruct (String.eqb_spec m method) as [->|Hne].
  - destruct (match_path p path) as [caps'|] eqn:Ep.
    + split; [intros [= -> ->]; exists p; split; [by left|done]|]. intros (pattern & [(_ & -> & ->)|Hr] & Hm); [congruence|].
      specialize (Hd _ (proj1 (list_elem_of_In _ _) Hr)). cbn [fst snd] in Hd.
      by rewrite String.eqb_refl, (match_path_clash _ _ _ _ _ Ep Hm) in Hd.
    + rewrite IH. split; [intros (pattern & Hr & Hm); exists pattern; by split; [right|]|].
      intros (pattern & [(_ & -> & _)|Hr] & Hm); [congruence|]. by exists pattern.
  - rewrite IH. split; [intros (pattern & Hr & Hm); exists pattern; by split; [right|]|].
    intros (pattern & [(-> & _)|Hr] & Hm); [done|]. by exists pattern.
Qed.

