(* ===== verification/Retention.v ===== *)
(** Upkeep of the telemetry table: DbClient::RunRetentionCleanup with the
    procedure of src/db/migrations/20260129_retention_policy.sql it calls, and
    the monthly partitions of DbClient::EnsurePartition. *)
From stdpp Require Import base gmap strings list fin_maps pretty.
From Stdlib Require Import ZArith Lia Floats.
From S2P Require Import Prelude Num Detectors Generator Sql DbClient DbFacts ScoreStore TimeRange.

Local Open Scope string_scope.
Local Open Scope list_scope.

Section cleanup.
Context {F : Type} `{Num F}.
Implicit Types (s : Store F) (r : Row F) (c : Call).

Definition is_older (now days : Z) r : bool := (time_of "ingestion_time" r <? now - days * 86400000000)%Z.
Definition has_record s r : bool :=
  existsb (fun t => int_of "record_id" t =? int_of "record_id" r)%Z (rows s "host_telemetry_archival").
(** The procedure.  Its COMMIT is refused when the CALL is part of a
    transaction block, and what it deleted is rolled back with the block. *)
Definition cleanup_old_telemetry (in_block : bool) (now days : Z) s : res (Store F) :=
  s1 ← delete_rows "host_telemetry_archival" (is_older now days) s;
  s2 ← delete_rows "dataset_scores" (fun r => negb (has_record s1 r)) s1;
  if in_block then sql_error "invalid transaction termination" else Ok s2.
(** [pqxx::work W(C)] is such a block. *)
Definition RunRetentionCleanup c (retention_days : Z) s : Store F :=
  swallowed (work c (fun s => s' ← cleanup_old_telemetry true (c_now c) retention_days s; Ok (s', tt)) s).

Definition kept (now days : Z) s (t : string) r : bool :=
  if (t =? "host_telemetry_archival")%string then negb (is_older now days r)
  else if (t =? "dataset_scores")%string then
    existsb (fun t => negb (is_older now days t) && (int_of "record_id" t =? int_of "record_id" r)%Z)
      (rows s "host_telemetry_archival")
  else true.

Lemma existsb_filter {A} (p q : A -> bool) (l : list A) :
  existsb q (filter (fun x => p x = false) l) = existsb (fun x => negb (p x) && q x) l.
Proof.
  induction l as [|x l IH]; [done|]. rewrite filter_cons. cbn [existsb].
  destruct (p x); [by rewrite decide_False|rewrite decide_True by done; cbn; by rewrite IH].
Qed.
Lemma cleanup_top_level now days s : exists s',
  cleanup_old_telemetry false now days s = Ok s' /\
  forall t, rows s' t = filter (fun r => kept now days s t r = true) (rows s t).
Proof.
  unfold cleanup_old_telemetry. rewrite delete_unreferenced by done. cbn [mbind res_bind].
  rewrite delete_unreferenced by done. cbn [mbind res_bind]. eexists. split; [done|]. intros t.
  unfold kept. destruct (String.eqb_spec t "host_telemetry_archival") as [->|Ht];
    [|destruct (String.eqb_spec t "dataset_scores") as [->|Hs]].
  - rewrite rows_put_ne, rows_put_eq by done. apply list_filter_iff. intros r. by destruct (is_older now days r).
  - rewrite rows_put_eq, rows_put_ne by done. apply list_filter_iff. intros r.
    unfold has_record. rewrite rows_put_eq, existsb_filter, negb_false_iff. done.
  - by rewrite !rows_put_ne, filter_all by (done || by apply Forall_forall).
Qed.
End cleanup.

(** A retention cleanup never removes anything.  Called on its own, the
    procedure would delete the telemetry ingested before the cutoff and then
    the scores whose record is gone, and nothing else; but
    [RunRetentionCleanup] calls it inside a transaction, where its COMMIT is
    refused, so whatever the store, the age or the faults, the store is left
    as it was, and the error is swallowed. *)
Theorem retention_cleanup_removes_nothing {F} `{Num F} (c : Call) (retention_days : Z) (s : Store F) :
  RunRetentionCleanup c retention_days s = s /\
  exists s', cleanup_old_telemetry false (c_now c) retention_days s = Ok s' /\
    forall t, rows s' t = filter (fun r => kept (c_now c) retention_days s t r = true) (rows s t).
Proof.
  split; [|apply cleanup_top_level]. unfold RunRetentionCleanup, swallowed, work, cleanup_old_telemetry.
  destruct (c_fault c); [done|]. rewrite delete_unreferenced by done. cbn [mbind res_bind].
  by rewrite delete_unreferenced.
Qed.

(** ** Partitions *)
Local Open Scope Z_scope.

(** "{:04d}" and "{:02d}", for the years a time point can be in. *)
Definition four_digits (n : Z) : string :=
  ((if (n <? 10)%Z then "000" else if (n <? 100)%Z then "00" else if (n <? 1000)%Z then "0" else "") +:+ pretty n)%string.
Record partition := MkPartition { part_name : string; part_from : Z * Z; part_to : Z * Z }.
Definition first_of (ym : Z * Z) : string := (four_digits ym.1 +:+ "-" +:+ two_digits ym.2 +:+ "-01")%string.
(** The month of [tp] and the one after it; a time point is in nanoseconds, and
    [to_time_t] rounds toward zero. *)
Definition partition_of (tp : time_point) : partition :=
  let tm := gmtime (Z.quot tp 1000000000) in
  let '(year, mon) := (tm_year tm + 1900, tm_mon tm + 1) in
  let '(end_year, end_mon) := if 12 <? tm_mon tm + 2 then (year + 1, 1) else (year, tm_mon tm + 2) in
  MkPartition ("host_telemetry_archival_" +:+ four_digits year +:+ "_" +:+ two_digits mon)%string
    (year, mon) (end_year, end_mon).
Definition partition_query (p : partition) : string :=
  ("CREATE TABLE IF NOT EXISTS " +:+ part_name p +:+ " PARTITION OF host_telemetry_archival FOR VALUES FROM ('"
   +:+ first_of (part_from p) +:+ "') TO ('" +:+ first_of (part_to p) +:+ "')")%string.

Example partition_dec : partition_query (partition_of (1767225599 * 1000000000)) =
  ("CREATE TABLE IF NOT EXISTS host_telemetry_archival_2025_12 PARTITION OF host_telemetry_archival "
   +:+ "FOR VALUES FROM ('2025-12-01') TO ('2026-01-01')")%string.
Proof. vm_compute. reflexivity. Qed.

(** The second at which a month begins. *)
Definition month_start (ym : Z * Z) : Z := days_from_civil ym.1 ym.2 1 * 86400.
Definition next_month (ym : Z * Z) : Z * Z := if ym.2 =? 12 then (ym.1 + 1, 1) else (ym.1, ym.2 + 1).

(** Days before the year that begins in March, within its era of 400 years. *)
Definition year_days (yoe : Z) : Z := 365 * yoe + yoe / 4 - yoe / 100 + yoe / 400.
Definition within_year (doe : Z) : bool :=
  let yoe := (doe - doe / 1460 + doe / 36524 - doe / 146096) / 365 in doe <? year_days (yoe + 1).
Definition within_month (doy : Z) : bool :=
  let mp := (5 * doy + 2) / 153 in (mp =? 11) || (doy <? (153 * (mp + 1) + 2) / 5).

Lemma within_year_all doe : 0 <= doe < 146097 -> within_year doe = true.
Proof.
  intros Hd. unfold within_year, year_days. cbv zeta.
  assert (Hc : doe / 36524 = 0 \/ doe / 36524 = 1 \/ doe / 36524 = 2 \/ doe / 36524 = 3 \/ doe / 36524 = 4)
    by (Z.div_mod_to_equations; lia).
  assert (doe / 146096 = 0 \/ doe = 146096) as [He| ->] by (Z.div_mod_to_equations; lia); [|done].
  rewrite He. destruct Hc as [Hc|[Hc|[Hc|[Hc|Hc]]]]; rewrite Hc; Z.div_mod_to_equations; lia.
Qed.
Lemma within_month_all doy : 0 <= doy < 366 -> within_month doy = true.
Proof. apply Z_range_check. vm_compute. reflexivity. Qed.

(** Days before the year that begins in March [y], from the epoch's era. *)
Definition year_start (y : Z) : Z := (y / 400) * 146097 + (365 * (y mod 400) + y mod 400 / 4 - y mod 400 / 100).
Lemma year_start_next era yoe : 0 <= yoe <= 399 -> year_start (yoe + era * 400 + 1) = era * 146097 + year_days (yoe + 1).
Proof.
  intros Hy. unfold year_start, year_days. replace (yoe + era * 400 + 1) with ((yoe + 1) + era * 400) by lia.
  destruct (decide (yoe = 399)) as [->|].
  - replace (399 + 1 + era * 400) with (0 + (era + 1) * 400) by lia. rewrite Z.div_add, Z.mod_add by lia.
    change ((399 + 1) / 4) with 100. change ((399 + 1) / 100) with 4. change ((399 + 1) / 400) with 1.
    change (0 mod 400) with 0. change (0 / 400) with 0. change (0 / 4) with 0. change (0 / 100) with 0. lia.
  - rewrite Z.div_add, Z.mod_add, (Z.div_small (yoe + 1)), (Z.mod_small (yoe + 1)) by lia.
    lia.
Qed.
Lemma days_from_march y m : 1 <= m <= 12 -> days_from_civil y m 1 =
  year_start (if m <=? 2 then y - 1 else y) + (153 * (m + (if 2 <? m then -3 else 9)) + 2) / 5 - 719468.
Proof.
  intros Hm. unfold days_from_civil, year_start. cbv zeta.
  set (y' := if m <=? 2 then y - 1 else y). rewrite (Z.mod_eq y' 400) by lia.
  replace (y' - 400 * (y' / 400)) with (y' - y' / 400 * 400) by lia. lia.
Qed.
Lemma civil_month z : let '(y, m, d) := civil_from_days z in
  days_from_civil y m 1 <= z < days_from_civil (next_month (y, m)).1 (next_month (y, m)).2 1.
Proof.
  unfold civil_from_days. set (era := (z + 719468) / 146097). set (doe := (z + 719468) mod 146097).
  pose proof (Z.mod_pos_bound (z + 719468) 146097 ltac:(lia)) as Hdoe. fold doe in Hdoe.
  assert (Hz : z + 719468 = 146097 * era + doe) by (apply Z.div_mod; lia).
  pose proof (year_of_era doe ltac:(lia)) as [Hyoe Hdoy]. cbv zeta in *.
  pose proof (within_year_all doe Hdoe) as Hwy. unfold within_year in Hwy.
  set (yoe := (doe - doe / 1460 + doe / 36524 - doe / 146096) / 365) in *.
  set (doy := doe - (365 * yoe + yoe / 4 - yoe / 100)) in *.
  pose proof (month_ok_all doy Hdoy) as Hm. unfold month_ok in Hm.
  pose proof (within_month_all doy ltac:(lia)) as Hwm. unfold within_month in Hwm.
  assert (Hr : 0 <= (5 * doy + 2) / 153 <= 11) by (Z.div_mod_to_equations; lia).
  set (mp := (5 * doy + 2) / 153) in *. set (m := if mp <? 10 then mp + 3 else mp - 9) in *.
  rewrite !andb_true_iff in Hm. destruct Hm as [[[[_ Hm1] Hm2] Hd1] _].
  assert (Hmp : m + (if 2 <? m then -3 else 9) = mp) by (unfold m; destruct (mp <? 10) eqn:E; repeat case_match; lia).
  assert (Hys : year_start (yoe + era * 400) = era * 146097 + (doe - doy)).
  { unfold year_start. rewrite Z.div_add, Z.mod_add, (Z.div_small yoe), (Z.mod_small yoe) by lia. unfold doy. lia. }
  rewrite days_from_march by lia. rewrite Hmp.
  replace (if m <=? 2 then yoe + era * 400 + (if m <=? 2 then 1 else 0) - 1
           else yoe + era * 400 + (if m <=? 2 then 1 else 0)) with (yoe + era * 400) by (destruct (m <=? 2); lia).
  rewrite Hys. split; [lia|].
  unfold next_month. cbn [fst snd]. destruct (m =? 12) eqn:E12; cbn [fst snd].
  - assert (mp = 9) as Hmp9 by (unfold m in E12; destruct (mp <? 10) eqn:E; lia).
    rewrite days_from_march by lia. change (1 <=? 2) with true. change (2 <? 1) with false. cbv iota.
    assert (m = 12) as -> by lia. change (12 <=? 2) with false. cbv iota. replace (yoe + era * 400 + 0 + 1 - 1) with (yoe + era * 400) by lia.
    rewrite Hys. rewrite Hmp9 in Hwm. change ((153 * (1 + 9) + 2) / 5) with 306. change ((153 * (9 + 1) + 2) / 5) with 306 in Hwm. lia.
  - rewrite days_from_march by lia. destruct (decide (mp = 11)) as [Hmp11|Hn].
    + assert (m = 2) as -> by (unfold m; by rewrite Hmp11). change (2 + 1 <=? 2) with false. change (2 <? 2 + 1) with true.
      change (2 <=? 2) with true. cbv iota. rewrite year_start_next by lia.
      change ((153 * (2 + 1 + -3) + 2) / 5) with 0. lia.
    + assert (Hlt : doy < (153 * (mp + 1) + 2) / 5) by (apply orb_true_iff in Hwm as [?|?]; lia).
      replace (m + 1 + (if 2 <? m + 1 then -3 else 9)) with (mp + 1)
        by (clear -Hr Hmp Hn E12 Hm1 Hm2; unfold m in *; destruct (mp <? 10) eqn:E; repeat case_match; lia).
      replace (if m + 1 <=? 2 then yoe + era * 400 + (if m <=? 2 then 1 else 0) - 1
        else yoe + era * 400 + (if m <=? 2 then 1 else 0)) with (yoe + era * 400)
        by (clear -Hr Hn E12 Hmp; unfold m in *; destruct (mp <? 10) eqn:E; repeat case_match; lia).
      rewrite Hys. lia.
Qed.

