(* ===== verification/Schema.v ===== *)
(** The schema of src/db/init.sql as an invariant of the store: the type and
    the nullability of every column, the primary keys, the references, and the
    rule that a trial of a tuning run has its index and its parameters.

    [db_call] collects the calls of DbClient that change the store.  Each of
    them keeps the invariant, so every store the services can reach has it; a
    field read from such a store never fails to convert. *)
From stdpp Require Import base gmap strings list fin_maps.
From Stdlib Require Import ZArith Lia Floats.
From S2P Require Import Prelude Num Detectors Alerts Json Generator Sql DbClient DbFacts ScoreStore Queries Retention.

Local Open Scope string_scope.
Local Open Scope list_scope.

(** ** Tables *)
Inductive col_type := UUID | TEXT | INT | BIGINT | BIGSERIAL | DOUBLE | BOOLEAN | JSONB | TIMESTAMPTZ.
Definition NOT_NULL (t : col_type) : col_type * bool := (t, true).
Definition NULL (t : col_type) : col_type * bool := (t, false).

Definition schema : list (string * list (string * (col_type * bool))) :=
  [("generation_runs",
     [("run_id", NOT_NULL UUID); ("created_at", NOT_NULL TIMESTAMPTZ); ("tier", NOT_NULL TEXT);
      ("host_count", NOT_NULL INT); ("start_time", NOT_NULL TIMESTAMPTZ); ("end_time", NOT_NULL TIMESTAMPTZ);
      ("interval_seconds", NOT_NULL INT); ("seed", NOT_NULL BIGINT); ("status", NOT_NULL TEXT);
      ("inserted_rows", NOT_NULL BIGINT); ("config", NOT_NULL JSONB); ("error", NULL TEXT);
      ("request_id", NULL TEXT); ("updated_at", NOT_NULL TIMESTAMPTZ)]);
   ("host_telemetry_archival",
     [("record_id", NOT_NULL BIGSERIAL); ("ingestion_time", NOT_NULL TIMESTAMPTZ);
      ("metric_timestamp", NOT_NULL TIMESTAMPTZ); ("host_id", NOT_NULL TEXT); ("project_id", NOT_NULL TEXT);
      ("region", NOT_NULL TEXT); ("cpu_usage", NOT_NULL DOUBLE); ("memory_usage", NOT_NULL DOUBLE);
      ("disk_utilization", NOT_NULL DOUBLE); ("network_rx_rate", NOT_NULL DOUBLE);
      ("network_tx_rate", NOT_NULL DOUBLE); ("labels", NOT_NULL JSONB); ("run_id", NOT_NULL UUID);
      ("is_anomaly", NOT_NULL BOOLEAN); ("anomaly_type", NULL TEXT)]);
   ("alerts",
     [("alert_id", NOT_NULL UUID); ("host_id", NOT_NULL TEXT); ("run_id", NOT_NULL UUID);
      ("timestamp", NOT_NULL TIMESTAMPTZ); ("severity", NOT_NULL TEXT); ("detector_source", NOT_NULL TEXT);
      ("score", NOT_NULL DOUBLE); ("details", NOT_NULL JSONB); ("created_at", NOT_NULL TIMESTAMPTZ)]);
   ("model_runs",
     [("model_run_id", NOT_NULL UUID); ("dataset_id", NOT_NULL UUID); ("name", NOT_NULL TEXT);
      ("status", NOT_NULL TEXT); ("artifact_path", NULL TEXT); ("error", NULL TEXT); ("request_id", NULL TEXT);
      ("training_config", NOT_NULL JSONB); ("hpo_config", NULL JSONB); ("parent_run_id", NULL UUID);
      ("trial_index", NULL INT); ("trial_params", NULL JSONB); ("best_trial_run_id", NULL UUID);
      ("best_metric_value", NULL DOUBLE); ("best_metric_name", NULL TEXT);
      ("selection_metric_direction", NULL TEXT); ("tie_break_basis", NULL TEXT); ("is_eligible", NOT_NULL BOOLEAN);
      ("eligibility_reason", NULL TEXT); ("selection_metric_value", NULL DOUBLE);
      ("candidate_fingerprint", NULL TEXT); ("generator_version", NULL TEXT); ("seed_used", NULL BIGINT);
      ("error_summary", NULL JSONB); ("error_aggregates", NULL JSONB); ("selection_metric_source", NULL TEXT);
      ("selection_metric_computed_at", NULL TIMESTAMPTZ); ("created_at", NOT_NULL TIMESTAMPTZ);
      ("completed_at", NULL TIMESTAMPTZ); ("updated_at", NOT_NULL TIMESTAMPTZ)]);
   ("inference_runs",
     [("inference_id", NOT_NULL UUID); ("model_run_id", NOT_NULL UUID); ("status", NOT_NULL TEXT);
      ("anomaly_count", NOT_NULL INT); ("details", NULL JSONB); ("latency_ms", NULL DOUBLE);
      ("created_at", NOT_NULL TIMESTAMPTZ)]);
   ("dataset_score_jobs",
     [("job_id", NOT_NULL UUID); ("dataset_id", NOT_NULL UUID); ("model_run_id", NOT_NULL UUID);
      ("status", NOT_NULL TEXT); ("total_rows", NOT_NULL BIGINT); ("processed_rows", NOT_NULL BIGINT);
      ("last_record_id", NOT_NULL BIGINT); ("error", NULL TEXT); ("request_id", NULL TEXT);
      ("created_at", NOT_NULL TIMESTAMPTZ); ("updated_at", NOT_NULL TIMESTAMPTZ); ("completed_at", NULL TIMESTAMPTZ)]);
   ("dataset_scores",
     [("score_id", NOT_NULL BIGSERIAL); ("dataset_id", NOT_NULL UUID); ("model_run_id", NOT_NULL UUID);
      ("record_id", NOT_NULL BIGINT); ("reconstruction_error", NOT_NULL DOUBLE);
      ("predicted_is_anomaly", NOT_NULL BOOLEAN); ("scored_at", NOT_NULL TIMESTAMPTZ)])].

(** Where a key comes from: the caller, [uuid_generate_v4()], a sequence. *)
Inductive key_source := Given | Generated | RecordSequence | ScoreSequence.
Definition keys : list (string * (string * key_source)) :=
  [("generation_runs", ("run_id", Given)); ("host_telemetry_archival", ("record_id", RecordSequence));
   ("alerts", ("alert_id", Generated)); ("model_runs", ("model_run_id", Generated));
   ("inference_runs", ("inference_id", Generated)); ("dataset_score_jobs", ("job_id", Generated));
   ("dataset_scores", ("score_id", ScoreSequence))].

Fixpoint assoc {A} (k : string) (l : list (string * A)) : option A :=
  match l with [] => None | (k', a) :: l' => if (k =? k')%string then Some a else assoc k l' end.
Definition columns (t : string) : list (string * (col_type * bool)) := default [] (assoc t schema).
Definition column_type (t c : string) : option (col_type * bool) := assoc c (columns t).
Definition key_of (t : string) : option (string * key_source) := assoc t keys.

Definition int32 (z : Z) : bool := ((- 2 ^ 31 <=? z) && (z <? 2 ^ 31))%Z.
Definition int64 (z : Z) : bool := ((- 2 ^ 63 <=? z) && (z <? 2 ^ 63))%Z.

Section typing.
Context {F : Type} `{Num F}.

Definition has_type (t : col_type) (v : sql F) : bool :=
  match t, v with
  | (UUID | TEXT), SText _ | DOUBLE, SDouble _ | BOOLEAN, SBool _ | JSONB, SJson _ | TIMESTAMPTZ, STime _ => true
  | INT, SInt z => int32 z
  | BIGINT, SInt z => int64 z
  | BIGSERIAL, SInt z => (0 <? z)%Z
  | _, _ => false
  end.
Definition is_null (v : sql F) : bool := match v with SNull => true | _ => false end.
Definition cell_ok (col : option (col_type * bool)) (v : sql F) : bool :=
  match col with
  | None => is_null v
  | Some (t, not_null) => if is_null v then negb not_null else has_type t v
  end.
Definition row_typed (t : string) (r : Row F) : Prop := forall c, cell_ok (column_type t c) (column r c) = true.
Definition cells_ok (t : string) (l : list (string * sql F)) : bool :=
  forallb (fun kv => cell_ok (column_type t kv.1) kv.2) l.
(** A row of an INSERT: every NOT NULL column has a value. *)
Definition member (c : string) (cs : list string) : bool := existsb (String.eqb c) cs.
Definition covers (t : string) (cs : list string) : bool :=
  forallb (fun col => negb col.2.2 || member col.1 cs) (columns t).

Lemma member_iff c cs : member c cs = true <-> c ∈ cs.
Proof.
  unfold member. rewrite existsb_exists. setoid_rewrite <- list_elem_of_In.
  split; [by intros (x & Hx & ->%String.eqb_eq)|]. intros Hc. exists c. by rewrite String.eqb_refl.
Qed.

Lemma set_columns_typed t l r : row_typed t r -> cells_ok t l = true -> row_typed t (set_columns l r).
Proof.
  intros Hr. induction l as [|[k v] l IH]; cbn; [done|]. intros [Hv Hl]%andb_true_iff c.
  destruct (decide (k = c)) as [->|Hne]; [by rewrite column_insert_eq|]. rewrite column_insert_ne by done. by apply IH.
Qed.
Lemma assoc_in {A} k (a : A) l : assoc k l = Some a -> (k, a) ∈ l.
Proof.
  induction l as [|[k' a'] l IH]; cbn; [done|]. destruct (String.eqb_spec k k') as [->|]; intros E.
  - injection E as ->. by left.
  - right. auto.
Qed.
Lemma column_in c l : c ∈ l.*1 -> exists v, (c, v) ∈ l /\ column (@new_row F l) c = v.
Proof.
  induction l as [|[k v] l IH]; cbn [fmap list_fmap fst]; [by intros ?%not_elem_of_nil|].
  destruct (decide (c = k)) as [->|Hne].
  - intros _. exists v. split; [by left|]. apply column_insert_eq.
  - intros [->|Hc]%elem_of_cons; [done|]. destruct (IH Hc) as (w & Hw & Hcol). exists w. split; [by right|].
    unfold new_row. cbn. by rewrite column_insert_ne.
Qed.
Lemma new_row_typed t l : cells_ok t l = true -> covers t l.*1 = true -> row_typed t (new_row l).
Proof.
  unfold cells_ok, covers. rewrite !forallb_forall. setoid_rewrite <- list_elem_of_In.
  intros Hl Hcov c. destruct (decide (c ∈ l.*1)) as [Hin|Hn].
  - destruct (column_in c l Hin) as (v & Hv & ->). apply (Hl (c, v) Hv).
  - unfold new_row. rewrite column_set_columns_other by done. change (column ∅ c) with (@SNull F).
    destruct (column_type t c) as [[ty nn]|] eqn:E; [|done]. apply assoc_in in E.
    specialize (Hcov _ E). cbn in *. destruct nn; [|done]. cbn in Hcov. by apply member_iff in Hcov.
Qed.
End typing.

(** ** The calls that change the store *)
Section calls.
Context {F : Type} `{Num F} `{Postgres} `{PgInput F}.

Inductive db_call :=
  | DCreateRun (run_id : string) (config : GenerateRequest F) (config_json : json F) (status request_id : string)
  | DUpdateRunStatus (run_id status : string) (inserted_rows : Z) (error : string)
  | DBatchInsertTelemetry (records : list (TelemetryRecord F))
  | DHeartbeat (type : JobType) (job_id : string)
  | DReconcileStaleJobs (stale_ttl : option Z)
  | DRunRetentionCleanup (retention_days : Z)
  | DInsertAlert (alert : Alert F)
  | DCreateModelRun (dataset_id name : string) (training_config : json F) (request_id : string)
      (hpo_config : json F) (candidate_fingerprint generator_version : string) (seed_used : option Z)
  | DCreateHpoTrialRun (dataset_id name : string) (training_config : json F)
      (request_id parent_run_id : string) (trial_index : Z) (trial_params : json F)
  | DUpdateModelRunStatus (model_run_id status artifact_path error : string) (error_summary : json F)
  | DUpdateBestTrial (parent_run_id best_trial_run_id : string) (best_metric_value : F)
      (best_metric_name best_metric_direction tie_break_basis : string)
  | DUpdateTrialEligibility (model_run_id : string) (is_eligible : bool) (reason : string) (metric_value : F)
      (source : string)
  | DUpdateParentErrorAggregates (parent_run_id : string) (error_aggregates : json F)
  | DTryTransition (type : JobType) (id expected_current next_status : string)
  | DCreateInferenceRun (model_run_id : string)
  | DUpdateInferenceRunStatus (inference_id status : string) (anomaly_count : Z) (details : json F) (latency_ms : F)
  | DCreateScoreJob (dataset_id model_run_id request_id : string)
  | DUpdateScoreJob (job_id status : string) (total_rows processed_rows last_record_id : Z) (error : string)
  | DInsertDatasetScores (dataset_id model_run_id : string) (scores : list (Z * (F * bool)))
  | DDeleteDatasetWithScores (dataset_id : string).

Definition perform (c : Call) (d : db_call) (s : Store F) : Store F :=
  match d with
  | DCreateRun id config j st rq => CreateRun c id config j st rq s
  | DUpdateRunStatus id st n e => UpdateRunStatus c id st n e s
  | DBatchInsertTelemetry rs => (BatchInsertTelemetry c rs s).1
  | DHeartbeat ty id => Heartbeat c ty id s
  | DReconcileStaleJobs ttl => ReconcileStaleJobs c ttl s
  | DRunRetentionCleanup days => RunRetentionCleanup c days s
  | DInsertAlert a => InsertAlert c a s
  | DCreateModelRun ds n tc rq hpo fp gv seed => (CreateModelRun c ds n tc rq hpo fp gv seed s).1
  | DCreateHpoTrialRun ds n tc rq p i ps => (CreateHpoTrialRun c ds n tc rq p i ps s).1
  | DUpdateModelRunStatus id st path e sm => UpdateModelRunStatus c id st path e sm s
  | DUpdateBestTrial p b v n dir tie => UpdateBestTrial c p b v n dir tie s
  | DUpdateTrialEligibility id b why v src => UpdateTrialEligibility c id b why v src s
  | DUpdateParentErrorAggregates p e => UpdateParentErrorAggregates c p e s
  | DTryTransition ty id e n => (try_transition ty c id e n s).1
  | DCreateInferenceRun m => (CreateInferenceRun c m s).1
  | DUpdateInferenceRunStatus id st n d ms => UpdateInferenceRunStatus c id st n d ms s
  | DCreateScoreJob ds m rq => (CreateScoreJob c ds m rq s).1
  | DUpdateScoreJob id st t p l e => UpdateScoreJob c id st t p l e s
  | DInsertDatasetScores ds m sc => (InsertDatasetScores c ds m sc s).1
  | DDeleteDatasetWithScores ds => (DeleteDatasetWithScores c ds s).1
  end.

(** The ranges of the C++ types of the arguments: [int], [long], [int64]. *)
Definition arguments_ok (d : db_call) : bool :=
  match d with
  | DCreateRun _ config _ _ _ => int32 (host_count config) && int32 (interval_seconds config) && int64 (rq_seed config)
  | DUpdateRunStatus _ _ n _ => int64 n
  | DCreateModelRun _ _ _ _ _ _ _ seed => match seed with Some z => int64 z | None => true end
  | DCreateHpoTrialRun _ _ _ _ _ i _ => int32 i
  | DUpdateInferenceRunStatus _ _ n _ _ => int32 n
  | DUpdateScoreJob _ _ t p l _ => int64 t && int64 p && int64 l
  | DInsertDatasetScores _ _ sc => forallb (fun e => int64 e.1) sc
  | _ => true
  end.
Definition perform_all (ds : list (Call * db_call)) (s : Store F) : Store F :=
  foldl (fun s cd => perform cd.1 cd.2 s) s ds.
End calls.
Arguments db_call F : clear implicits.

(** ** The invariant *)
Section valid.
Context {F : Type} `{Num F} `{Postgres} `{PgInput F}.
Implicit Types (s : Store F) (r : Row F).

Definition key_values s (t c : string) : list (sql F) := (fun r => column r c) <$> rows s t.
Definition drawn (k : key_source) s (v : sql F) : Prop :=
  match k with
  | Given => True
  | Generated => exists n, n < next_uuid s /\ v = SText (uuid n)
  | RecordSequence => exists z, (z < next_record_id s)%Z /\ v = SInt z
  | ScoreSequence => exists z, (z < next_score_id s)%Z /\ v = SInt z
  end.
(** A trial has the columns the list of trials reads without a NULL check. *)
Definition trial_ok (t : string) r : bool :=
  negb (t =? "model_runs")%string || is_null (column r "parent_run_id")
  || negb (is_null (column r "trial_index")) && negb (is_null (column r "trial_params")).

Record valid s : Prop := {
  v_typed t r : r ∈ rows s t -> row_typed t r;
  v_keys t c k : key_of t = Some (c, k) -> NoDup (key_values s t c) /\ forall v, v ∈ key_values s t c -> drawn k s v;
  v_trials t r : r ∈ rows s t -> trial_ok t r = true;
  v_sequences : (0 < next_record_id s)%Z /\ (0 < next_score_id s)%Z;
  v_intact : intact s }.

(** The columns no UPDATE of the source may touch on its own. *)
Definition frozen (t : string) : list string :=
  match key_of t with Some (c, _) => [c] | None => [] end ++ ((fun fk => fk.1.1.2) <$> references_of t).
Definition trial_columns : list string := ["parent_run_id"; "trial_index"; "trial_params"].

Lemma reference_ok_iff s t c u k r : reference_ok s (t, c, u, k) r = true <->
  column r c = SNull \/ exists v, column r c = SText v /\ SText v ∈ key_values s u k.
Proof.
  cbn. destruct (column r c) as [|v| | | | |];
    [by split; [left|]| |split; [done|]; intros [?|(v & ? & ?)]; congruence..].
  rewrite existsb_exists. unfold key_values. split.
  - intros (g & Hg%list_elem_of_In & Hv%text_is_true). right. exists v. split; [done|].
    apply list_elem_of_fmap. by exists g.
  - intros [?|(w & [= <-] & (g & Hv & Hg)%list_elem_of_fmap)]; [done|].
    exists g. by rewrite text_is_true, <- list_elem_of_In.
Qed.
Lemma references_key fk : fk ∈ foreign_keys -> exists src, key_of fk.1.2 = Some (fk.2, src).
Proof.
  revert fk. apply Forall_forall.
  repeat (apply Forall_cons_2; [eexists; reflexivity|]). apply Forall_nil_2.
Qed.

(** Rows may be added and other columns changed: what was a key value still is. *)
Lemma references_kept s s' :
  (forall fk v, fk ∈ foreign_keys -> v ∈ key_values s fk.1.2 fk.2 -> v ∈ key_values s' fk.1.2 fk.2) ->
  (forall fk r, fk ∈ foreign_keys -> r ∈ rows s' fk.1.1.1 ->
     (exists r0, r0 ∈ rows s fk.1.1.1 /\ column r0 fk.1.1.2 = column r fk.1.1.2) \/ reference_ok s' fk r = true) ->
  intact s -> intact s'.
Proof.
  intros Hkeys Hrows Hs. apply all_references_iff. intros fk r Hfk Hr.
  destruct (Hrows fk r Hfk Hr) as [(r0 & Hr0 & Hc)|]; [|done].
  pose proof (proj1 (all_references_iff s _) Hs fk r0 Hfk Hr0) as Hok.
  specialize (Hkeys fk). destruct fk as [[[t c] u] k]. cbn [fst snd] in *.
  apply reference_ok_iff in Hok. apply reference_ok_iff. rewrite <- Hc.
  destruct Hok as [?|(v & ? & ?)]; [by left|]. right. exists v. split; [done|]. by apply Hkeys.
Qed.

(** ** Drawing ids *)
Definition later s s1 : Prop :=
  next_uuid s <= next_uuid s1 /\ (next_record_id s <= next_record_id s1)%Z /\ (next_score_id s <= next_score_id s1)%Z.
Lemma later_drawn k s s1 v : later s s1 -> drawn k s v -> drawn k s1 v.
Proof.
  intros (H1' & H2' & H3'). destruct k; [done| | |]; intros (n & Hn & ->); exists n; (split; [lia|done]).
Qed.

(** ** INSERT *)
Lemma insert_valid t r s s1 s' : valid s -> tables s1 = tables s -> later s s1 -> row_typed t r -> trial_ok t r = true ->
  (forall c k, key_of t = Some (c, k) -> drawn k s1 (column r c) /\ column r c ∉ key_values s t c) ->
  insert_row t r s1 = Ok s' -> valid s'.
Proof.
  intros Hv Htab Hl Hty Htr Hkey. unfold insert_row. case_match eqn:Hok; [|discriminate]. intros [= <-].
  assert (Hrows1 : forall t', rows s1 t' = rows s t') by (intros; unfold rows; by rewrite Htab).
  assert (Hrows : forall t', rows (put t (rows s1 t ++ [r]) s1) t' = rows s t' ++ if (t' =? t)%string then [r] else []).
  { intros t'. destruct (String.eqb_spec t' t) as [->|].
    - by rewrite rows_put_eq, Hrows1.
    - by rewrite rows_put_ne, Hrows1, app_nil_r. }
  assert (Hin : forall t' r', r' ∈ rows (put t (rows s1 t ++ [r]) s1) t' -> r' ∈ rows s t' \/ t' = t /\ r' = r).
  { intros t' r'. rewrite Hrows, elem_of_app. destruct (String.eqb_spec t' t); intros [?|Hr]; auto.
    - right. by apply list_elem_of_singleton in Hr.
    - by apply not_elem_of_nil in Hr. }
  assert (Hkv : forall t' c, key_values (put t (rows s1 t ++ [r]) s1) t' c
                = key_values s t' c ++ if (t' =? t)%string then [column r c] else []).
  { intros t' c. unfold key_values. rewrite Hrows, fmap_app. by destruct (t' =? t)%string. }
  split.
  - intros t' r' [?|[-> ->]]%Hin; [by apply (v_typed s)|done].
  - intros t' c k Hk. rewrite Hkv. destruct (v_keys s Hv t' c k Hk) as [Hnd Hdr].
    destruct (String.eqb_spec t' t) as [->|].
    + destruct (Hkey c k Hk) as [Hd Hn]. split.
      * apply NoDup_app. split_and!; [done| |apply NoDup_singleton].
        intros v Hv1 Hv2%list_elem_of_singleton. by subst.
      * intros v [Hv1|Hv2%list_elem_of_singleton]%elem_of_app; [|by subst].
        apply (later_drawn k s1); [done|]. eauto using later_drawn.
    + rewrite app_nil_r. split; [done|]. intros v Hv1. apply (later_drawn k s1); [done|].
      eauto using later_drawn.
  - intros t' r' [?|[-> ->]]%Hin; [by apply (v_trials s)|done].
  - destruct (v_sequences s Hv). destruct Hl as (_ & ? & ?). cbn. lia.
  - apply (references_kept s); [| |apply (v_intact s Hv)].
    + intros fk v _. rewrite Hkv. intros. apply elem_of_app. by left.
    + intros fk r' Hfk [?|[Ht ->]]%Hin; [left; eauto|right].
      rewrite forallb_forall in Hok. rewrite <- Ht in Hok.
      assert (reference_ok s1 fk r = true) as Hr.
      { apply Hok, list_elem_of_In. unfold references_of. by apply list_elem_of_filter. }
      rewrite (reference_ok_ext s1 s) in Hr by apply Hrows1. destruct fk as [[[ft fc] fu] fkey].
      apply reference_ok_iff in Hr. apply reference_ok_iff. rewrite Hkv.
      destruct Hr as [?|(v & ? & ?)]; [by left|]. right. exists v. split; [done|]. apply elem_of_app. by left.
Qed.

(** ** UPDATE *)
Definition untouched (cs : list string) (l : list (string * sql F)) : bool := forallb (fun c => negb (member c l.*1)) cs.
Definition updated t (p : Row F -> bool) (l : list (string * sql F)) s : Store F := (update_rows t p (set_columns l) s).1.
Lemma untouched_column cs l c r : untouched cs l = true -> c ∈ cs -> column (set_columns l r) c = column r c.
Proof.
  unfold untouched. rewrite forallb_forall. intros Hu Hc%list_elem_of_In%Hu. apply column_set_columns_other.
  rewrite <- member_iff. by destruct (member c l.*1).
Qed.
Lemma updated_in t p l s t' r' : r' ∈ rows (updated t p l s) t' ->
  exists r, r ∈ rows s t' /\ (r' = r \/ t' = t /\ r' = set_columns l r).
Proof.
  unfold updated. destruct (decide (t' = t)) as [->|Hne]; [|rewrite update_rows_other by done; eauto].
  rewrite update_rows_eq. intros (r & -> & Hr)%list_elem_of_fmap. exists r. split; [done|]. destruct (p r); auto.
Qed.
Lemma updated_values t p l s t' c : t' <> t \/ untouched [c] l = true ->
  key_values (updated t p l s) t' c = key_values s t' c.
Proof.
  unfold key_values, updated. destruct (decide (t' = t)) as [->|Hne]; [|by rewrite update_rows_other].
  intros [?|Hu]; [done|]. rewrite update_rows_eq, <- list_fmap_compose. apply list_fmap_ext.
  intros _ r _. cbn. destruct (p r); [|done]. apply (untouched_column [c]); [done|by left].
Qed.
Lemma untouched_incl cs cs' l : untouched cs l = true -> (forall c, c ∈ cs' -> c ∈ cs) -> untouched cs' l = true.
Proof.
  unfold untouched. rewrite !forallb_forall. intros Hu Hin c Hc. apply Hu.
  rewrite <- list_elem_of_In in *. auto.
Qed.
Lemma untouched_app cs cs' l : untouched (cs ++ cs') l = untouched cs l && untouched cs' l.
Proof. apply forallb_app. Qed.

Definition key_columns (t : string) : list string := match key_of t with Some (c, _) => [c] | None => [] end.
Lemma key_untouched t p l s t' c k : untouched (key_columns t) l = true -> key_of t' = Some (c, k) ->
  key_values (updated t p l s) t' c = key_values s t' c.
Proof.
  intros Hu Hk. apply updated_values. destruct (decide (t' = t)) as [->|]; [right|by left].
  unfold key_columns in Hu. by rewrite Hk in Hu.
Qed.

Lemma update_intact t p l s : untouched (frozen t) l = true -> intact s -> intact (updated t p l s).
Proof.
  unfold frozen. fold (key_columns t). rewrite untouched_app. intros [Hk Hf]%andb_true_iff. apply references_kept.
  - intros fk v Hfk Hv. destruct (references_key fk Hfk) as [src Hsrc]. by rewrite (key_untouched _ _ _ _ _ _ src).
  - intros fk r' Hfk (r & Hr & [->|[Ht ->]])%updated_in; left; exists r; (split; [done|]); [done|].
    symmetry. apply (untouched_column _ _ _ _ Hf). apply (list_elem_of_fmap_2 (fun fk => fk.1.1.2)).
    unfold references_of. by apply list_elem_of_filter.
Qed.
Lemma update_valid t p l s : valid s -> cells_ok t l = true -> untouched (key_columns t ++ trial_columns) l = true ->
  intact (updated t p l s) -> valid (updated t p l s).
Proof.
  intros Hv Hl. rewrite untouched_app. intros [Hk Ht]%andb_true_iff Hi. split.
  - intros t' r' (r & Hr & [->|[-> ->]])%updated_in; [by apply (v_typed s)|]. apply set_columns_typed; [|done].
    by apply (v_typed s).
  - intros t' c k Hkey. rewrite (key_untouched _ _ _ _ _ _ k) by done. by apply (v_keys s).
  - intros t' r' (r & Hr & [->|[-> ->]])%updated_in; [by apply (v_trials s)|].
    pose proof (v_trials s Hv t r Hr) as Hok. unfold trial_ok in *.
    rewrite !(untouched_column trial_columns) by (done || by_deciding). done.
  - apply (v_sequences s Hv).
  - done.
Qed.
Lemma plain_update_valid t p l s : valid s -> cells_ok t l = true -> untouched (frozen t ++ trial_columns) l = true ->
  valid (updated t p l s).
Proof.
  intros Hv Hl. rewrite untouched_app. intros [Hf Ht]%andb_true_iff. apply update_valid; [done|done| |].
  - unfold frozen in Hf. fold (key_columns t) in Hf. rewrite untouched_app in *.
    apply andb_true_iff in Hf as [-> _]. done.
  - apply update_intact; [done|apply (v_intact s Hv)].
Qed.

(** ** DELETE *)
Lemma sublist_fmap {A B} (f : A -> B) (l k : list A) : l `sublist_of` k -> f <$> l `sublist_of` f <$> k.
Proof. induction 1; cbn; by constructor. Qed.
Lemma filtered_valid s s' (gone : string -> Row F -> bool) :
  (forall t, rows s' t = filter (fun r => gone t r = false) (rows s t)) -> later s s' -> intact s' -> valid s -> valid s'.
Proof.
  intros Hrows Hl Hi Hv.
  assert (Hin : forall t r, r ∈ rows s' t -> r ∈ rows s t).
  { intros t r. rewrite Hrows. by intros [_ ?]%list_elem_of_filter. }
  split; [by eauto using v_typed| |by eauto using v_trials| |done].
  - intros t c k Hk. destruct (v_keys s Hv t c k Hk) as [Hnd Hdr].
    assert (Hsub : key_values s' t c `sublist_of` key_values s t c).
    { unfold key_values. rewrite Hrows. apply sublist_fmap, sublist_filter. }
    split; [by eapply sublist_NoDup|]. intros v Hin'. apply (later_drawn k s s'); [done|].
    apply Hdr. by eapply sublist_submseteq, elem_of_submseteq in Hsub.
  - destruct (v_sequences s Hv), Hl as (_ & ? & ?). lia.
Qed.

(** ** The calls, one by one *)
Lemma work_valid {A} c (body : Store F -> res (Store F * A)) s :
  valid s -> (forall s' a, body s = Ok (s', a) -> valid s') -> valid (work c body s).1.
Proof.
  intros Hv Hb. unfold work. destruct (c_fault c); [done|]. destruct (body s) as [[s' a]|e] eqn:E; [|done].
  by apply (Hb s' a).
Qed.
Lemma insert_new_valid t l s s1 s' c k : valid s -> tables s1 = tables s -> later s s1 -> key_of t = Some (c, k) ->
  cells_ok t l = true -> covers t l.*1 = true -> trial_ok t (new_row l) = true ->
  drawn k s1 (column (new_row l) c) -> column (new_row l) c ∉ key_values s t c ->
  insert_row t (new_row l) s1 = Ok s' -> valid s'.
Proof.
  intros Hv Ht Hl Hk Hc Hcov Htr Hd Hn. apply (insert_valid _ _ s); try done; [by apply new_row_typed|].
  intros c' k'. rewrite Hk. by intros [= <- <-].
Qed.
Lemma insert_uuid_valid t l s s' c : valid s -> key_of t = Some (c, Generated) ->
  cells_ok t l = true -> covers t l.*1 = true -> trial_ok t (new_row l) = true ->
  column (new_row l) c = SText (uuid (next_uuid s)) -> insert_row t (new_row l) (draw_uuid s).2 = Ok s' -> valid s'.
Proof.
  intros Hv Hk Hc Hcov Htr Hid. apply (insert_new_valid _ _ s _ _ c Generated); try done.
  - split_and!; cbn; lia.
  - rewrite Hid. exists (next_uuid s). split; [cbn; lia|done].
  - rewrite Hid. intros (n & Hn & [= E%(inj uuid)])%(proj2 (v_keys s Hv t c _ Hk)). lia.
Qed.

Lemma cells_cons t k v l : cell_ok (column_type t k) v = true -> cells_ok t l = true -> cells_ok (F := F) t ((k, v) :: l) = true.
Proof. intros Hv Hl. by apply andb_true_intro. Qed.
Lemma cells_app t l1 l2 : cells_ok t l1 = true -> cells_ok t l2 = true -> cells_ok (F := F) t (l1 ++ l2) = true.
Proof. intros. unfold cells_ok. rewrite forallb_app. by apply andb_true_intro. Qed.
Lemma cell_text_or_null t : cell_ok (F := F) (Some (TEXT, false)) (text_or_null t) = true.
Proof. unfold text_or_null. by destruct (t =? "")%string. Qed.
Lemma cell_jsonb_or_null (j : json F) : cell_ok (Some (JSONB, false)) (jsonb_or_null j) = true.
Proof. unfold jsonb_or_null. by destruct (json_empty j). Qed.
Lemma cell_seed o : (match o with Some z => int64 z | None => true end) = true ->
  cell_ok (F := F) (Some (BIGINT, false)) (opt_value SInt o) = true.
Proof. by destruct o. Qed.
End valid.

Ltac cell :=
  match goal with
  | |- cell_ok (column_type ?t ?c) _ = true =>
      let ty := eval vm_compute in (column_type t c) in change (column_type t c) with ty;
      first [reflexivity | assumption | apply cell_text_or_null | apply cell_jsonb_or_null | by apply cell_seed]
  end.
Ltac cells := repeat first [apply cells_app | apply cells_cons; [cell|] | reflexivity].

Section steps.
Context {F : Type} `{Num F} `{Postgres} `{PgInput F}.
Implicit Types (s : Store F) (c : Call).

Lemma CreateRun_valid c id config j st rq s :
  int32 (host_count config) = true -> int32 (interval_seconds config) = true -> int64 (rq_seed config) = true ->
  valid s -> valid (CreateRun c id config j st rq s).
Proof.
  intros Hh Hi Hsd Hv. apply work_valid; [done|]. intros s' [] Hb.
  apply bind_ok in Hb as (start & _ & Hb). apply bind_ok in Hb as (finish & _ & Hb).
  destruct (existsb _ _) eqn:Hid; [discriminate|]. apply bind_ok in Hb as (s1 & Hb & [= ->]).
  revert Hb. apply (insert_new_valid _ _ s _ _ "run_id" Given); try done.
  - cells.
  - unfold key_values. unfold new_row. cbn [set_columns foldr fst snd]. rewrite column_insert_eq.
    intros (r & Hr & Hin)%list_elem_of_fmap. rewrite <- not_true_iff_false in Hid. apply Hid, existsb_exists.
    exists r. split; [by apply list_elem_of_In|by apply text_is_true].
Qed.
Lemma swallowed_valid c t p l s : valid s -> valid (updated t p l s) ->
  valid (swallowed (work c (fun s => Ok (update_rows t p (set_columns l) s)) s)).
Proof. intros Hv Hu. rewrite swallowed_update. by destruct (c_fault c). Qed.
Lemma UpdateRunStatus_valid c id st n e s : int64 n = true -> valid s -> valid (UpdateRunStatus c id st n e s).
Proof.
  intros Hn Hv. apply swallowed_valid; [done|]. apply plain_update_valid; [done| |].
  - cells. by destruct (e =? "")%string.
  - by destruct (e =? "")%string.
Qed.
Lemma fold_valid {A} (f : Store F -> A -> res (Store F)) (P : A -> bool) xs s s' : valid s -> forallb P xs = true ->
  (forall s x s', valid s -> P x = true -> f s x = Ok s' -> valid s') -> fold_res f s xs = Ok s' -> valid s'.
Proof.
  intros Hv HP Hf. revert s Hv HP. induction xs as [|x xs IH]; intros s Hv; cbn; [by intros _ [= <-]|].
  intros [Hx HP]%andb_true_iff (s1 & E & Hr)%bind_ok. eauto.
Qed.
Lemma insert_record_valid s r s' : valid s -> insert_record s r = Ok s' -> valid s'.
Proof.
  intros Hv (ls & _ & Hb)%bind_ok. destruct (v_sequences s Hv) as [Hp _]. revert Hb. unfold draw_record_id.
  apply (insert_new_valid _ _ s _ _ "record_id" RecordSequence); try done.
  - split_and!; cbn; lia.
  - assert ((0 <? next_record_id s)%Z = true) by lia. cells.
  - unfold new_row. cbn [set_columns foldr fst snd]. rewrite column_insert_eq. exists (next_record_id s). split; [cbn; lia|done].
  - unfold new_row. cbn [set_columns foldr fst snd]. rewrite column_insert_eq.
    intros (z & Hz & [= E])%(proj2 (v_keys s Hv "host_telemetry_archival" "record_id" RecordSequence eq_refl)). lia.
Qed.
Lemma BatchInsertTelemetry_valid c rs s : valid s -> valid (BatchInsertTelemetry c rs s).1.
Proof.
  intros Hv. destruct rs as [|r0 rs]; [done|]. apply work_valid; [done|]. intros s' [] (s1 & Hb & [= ->])%bind_ok.
  apply (fold_valid insert_record (fun _ => true) (r0 :: rs) s); [done|by apply forallb_forall| |done].
  eauto using insert_record_valid.
Qed.
Lemma Heartbeat_valid c ty id s : valid s -> valid (Heartbeat c ty id s).
Proof. intros Hv. destruct ty; (apply swallowed_valid; [done|]); by apply plain_update_valid. Qed.
Lemma ReconcileStaleJobs_valid c ttl s : valid s -> valid (ReconcileStaleJobs c ttl s).
Proof.
  intros Hv. apply work_valid; [done|]. intros s' [] [= <-]. unfold sweep_table, fail_row.
  do 3 (apply plain_update_valid; [|done|done]). done.
Qed.
Lemma RunRetentionCleanup_valid c days s : valid s -> valid (RunRetentionCleanup c days s).
Proof.
  intros Hv. apply work_valid; [done|]. intros s' []. unfold cleanup_old_telemetry.
  rewrite delete_unreferenced by done. cbn [mbind res_bind]. by rewrite delete_unreferenced.
Qed.
Lemma InsertAlert_valid c a s : valid s -> valid (InsertAlert c a s).
Proof.
  intros Hv. apply work_valid; [done|]. intros s' [] (ds & _ & Hb)%bind_ok. apply bind_ok in Hb as (s1 & Hb & [= ->]).
  revert Hb. by apply (insert_uuid_valid _ _ s _ "alert_id").
Qed.
Lemma CreateModelRun_valid c ds n tc rq hpo fp gv seed s :
  (match seed with Some z => int64 z | None => true end) = true -> valid s ->
  valid (CreateModelRun c ds n tc rq hpo fp gv seed s).1.
Proof.
  intros Hs Hv. apply work_valid; [done|]. intros s' id (s1 & Hb & [= <- <-])%bind_ok.
  revert Hb. apply (insert_uuid_valid _ _ s _ "model_run_id"); try done.
  unfold model_run_defaults. cells.
Qed.
Lemma CreateHpoTrialRun_valid c ds n tc rq p i ps s : int32 i = true -> valid s ->
  valid (CreateHpoTrialRun c ds n tc rq p i ps s).1.
Proof.
  intros Hi Hv. apply work_valid; [done|]. intros s' id (s1 & Hb & [= <- <-])%bind_ok.
  revert Hb. apply (insert_uuid_valid _ _ s _ "model_run_id"); try done.
  unfold model_run_defaults. cells.
Qed.
Lemma UpdateModelRunStatus_valid c id st path e sm s : valid s -> valid (UpdateModelRunStatus c id st path e sm s).
Proof.
  intros Hv. apply swallowed_valid; [done|].
  apply plain_update_valid; [done|destruct (st =? "COMPLETED")%string; [|case_match]; cells|].
  by destruct (st =? "COMPLETED")%string; [|case_match].
Qed.
(** The one UPDATE that sets a reference checks it. *)
Lemma checked_update_valid t p l s : valid s -> cells_ok t l = true ->
  untouched (key_columns t ++ trial_columns) l = true ->
  all_references_ok (updated t p l s) (references_of t) = true -> valid (updated t p l s).
Proof.
  intros Hv Hl Hu Hok. apply update_valid; [done|done|done|].
  rewrite untouched_app in Hu. apply andb_true_iff in Hu as [Hk _]. apply (references_kept s); [| |apply (v_intact s Hv)].
  - intros fk v Hfk Hin. destruct (references_key fk Hfk) as [src Hsrc]. by rewrite (key_untouched _ _ _ _ _ _ src).
  - intros fk r' Hfk Hr'. destruct (decide (fk.1.1.1 = t)) as [Ht|Hne].
    + right. apply (proj1 (all_references_iff _ _) Hok); [|done]. unfold references_of. by apply list_elem_of_filter.
    + left. exists r'. split; [|done]. apply updated_in in Hr' as (r & Hr & [->|[? _]]); done.
Qed.
Lemma UpdateBestTrial_valid c p b v n dir tie s : valid s -> valid (UpdateBestTrial c p b v n dir tie s).
Proof.
  intros Hv. apply work_valid; [done|]. intros s' a.
  match goal with |- (let '(_, _) := update_rows ?t ?p (set_columns ?l) s in _) = _ -> _ =>
    pose proof (checked_update_valid t p l s Hv eq_refl eq_refl) as Hc; unfold updated in Hc;
    destruct (update_rows t p (set_columns l) s) as [s1 k] end.
  cbn [fst] in Hc. destruct (all_references_ok s1 _); [|discriminate]. intros [= <- _]. by apply Hc.
Qed.
Lemma UpdateTrialEligibility_valid c id b why v src s : valid s -> valid (UpdateTrialEligibility c id b why v src s).
Proof. intros Hv. apply swallowed_valid; [done|]. apply plain_update_valid; [done|cells|done]. Qed.
Lemma UpdateParentErrorAggregates_valid c p e s : valid s -> valid (UpdateParentErrorAggregates c p e s).
Proof. intros Hv. apply swallowed_valid; [done|]. by apply plain_update_valid. Qed.
Lemma try_transition_valid ty c id e n s : valid s -> valid (try_transition ty c id e n s).1.
Proof.
  intros Hv. destruct ty; cbn [try_transition];
    unfold TryTransitionModelRunStatus, TryTransitionScoreJobStatus;
    match goal with |- context [work c (fun s => Ok (update_rows ?t ?p (set_columns ?l) s)) s] =>
      pose proof (swallowed_valid c t p l s Hv (plain_update_valid t p l s Hv eq_refl eq_refl)) as Hw;
      unfold swallowed in Hw; by destruct (work c (fun s => Ok (update_rows t p (set_columns l) s)) s) end.
Qed.
Lemma CreateInferenceRun_valid c m s : valid s -> valid (CreateInferenceRun c m s).1.
Proof.
  intros Hv. apply work_valid; [done|]. intros s' id (s1 & Hb & [= <- <-])%bind_ok.
  revert Hb. by apply (insert_uuid_valid _ _ s _ "inference_id").
Qed.
Lemma UpdateInferenceRunStatus_valid c id st n d ms s : int32 n = true -> valid s ->
  valid (UpdateInferenceRunStatus c id st n d ms s).
Proof. intros Hn Hv. apply swallowed_valid; [done|]. apply plain_update_valid; [done|cells|done]. Qed.
Lemma CreateScoreJob_valid c ds m rq s : valid s -> valid (CreateScoreJob c ds m rq s).1.
Proof.
  intros Hv. apply work_valid; [done|]. intros s' id. destruct (open_score_jobs ds m s); [|by intros [= <- _]].
  intros (s1 & Hb & [= <- <-])%bind_ok. revert Hb. by apply (insert_uuid_valid _ _ s _ "job_id").
Qed.
Lemma UpdateScoreJob_valid c id st t p l e s : int64 t = true -> int64 p = true -> int64 l = true -> valid s ->
  valid (UpdateScoreJob c id st t p l e s).
Proof.
  intros Ht Hp Hl Hv. apply swallowed_valid; [done|]. apply plain_update_valid; [done| |].
  - cells. by destruct (st =? "COMPLETED")%string; [|destruct (e =? "")%string].
  - by destruct (st =? "COMPLETED")%string; [|destruct (e =? "")%string].
Qed.
Lemma insert_score_valid c ds m s e s' : valid s -> int64 e.1 = true -> insert_score c ds m s e = Ok s' -> valid s'.
Proof.
  intros Hv He. destruct (v_sequences s Hv) as [_ Hp]. unfold insert_score, draw_score_id.
  apply (insert_new_valid _ _ s _ _ "score_id" ScoreSequence); try done.
  - split_and!; cbn; lia.
  - assert ((0 <? next_score_id s)%Z = true) by lia. cells.
  - unfold new_row. cbn [set_columns foldr fst snd]. rewrite column_insert_eq. exists (next_score_id s). split; [cbn; lia|done].
  - unfold new_row. cbn [set_columns foldr fst snd]. rewrite column_insert_eq.
    intros (z & Hz & [= E])%(proj2 (v_keys s Hv "dataset_scores" "score_id" ScoreSequence eq_refl)). lia.
Qed.
Lemma InsertDatasetScores_valid c ds m sc s : forallb (fun e : Z * (F * bool) => int64 e.1) sc = true -> valid s ->
  valid (InsertDatasetScores c ds m sc s).1.
Proof.
  intros Hids Hv. destruct sc as [|e0 sc]; [done|]. apply work_valid; [done|].
  intros s' [] (s1 & Hb & [= ->])%bind_ok. revert Hb. apply (fold_valid _ _ _ s s' Hv Hids).
  intros. by eapply insert_score_valid.
Qed.
Lemma DeleteDatasetWithScores_valid c ds s : valid s -> valid (DeleteDatasetWithScores c ds s).1.
Proof.
  intros Hv. apply work_valid; [done|]. intros s' []. rewrite delete_statements.
  destruct (all_references_ok _ (references_to "model_runs")) eqn:Hok; [|discriminate].
  destruct (all_references_ok _ (references_to "generation_runs")); [|discriminate]. intros [= <-].
  apply (filtered_valid s _ (belongs ds)); [intros; apply rows_purge| | |done].
  - split_and!; cbn; lia.
  - apply purge_intact; [apply (v_intact s Hv)|done].
Qed.

Lemma perform_valid c d s : arguments_ok d = true -> valid s -> valid (perform c d s).
Proof.
  intros Ha Hv. destruct d; cbn [perform arguments_ok] in *;
    repeat match goal with Hx : _ && _ = true |- _ => apply andb_true_iff in Hx as [? ?] end;
    auto using CreateRun_valid, UpdateRunStatus_valid, BatchInsertTelemetry_valid, Heartbeat_valid,
      ReconcileStaleJobs_valid, RunRetentionCleanup_valid, InsertAlert_valid, CreateModelRun_valid, CreateHpoTrialRun_valid,
      UpdateModelRunStatus_valid, UpdateBestTrial_valid, UpdateTrialEligibility_valid,
      UpdateParentErrorAggregates_valid, try_transition_valid, CreateInferenceRun_valid,
      UpdateInferenceRunStatus_valid, CreateScoreJob_valid, UpdateScoreJob_valid, InsertDatasetScores_valid,
      DeleteDatasetWithScores_valid.
Qed.
Lemma empty_valid : valid (@empty_store F).
Proof.
  split; [intros t r Hr; by apply not_elem_of_nil in Hr| |intros t r Hr; by apply not_elem_of_nil in Hr|done|done].
  intros t c k _. split; [constructor|]. intros v Hv. by apply not_elem_of_nil in Hv.
Qed.
Lemma perform_all_valid ds s : forallb (fun cd => arguments_ok cd.2) ds = true -> valid s -> valid (perform_all ds s).
Proof.
  unfold perform_all. revert s. induction ds as [|[c d] ds IH]; intros s; cbn; [done|].
  intros [Hd Hds]%andb_true_iff Hv. apply IH; [done|]. by apply perform_valid.
Qed.
End steps.

(** ** Reads *)
Definition textual (t : col_type) : bool := match t with UUID | TEXT | TIMESTAMPTZ => true | _ => false end.
Definition integral (t : col_type) : bool := match t with INT | BIGINT | BIGSERIAL => true | _ => false end.
Definition is_double (t : col_type) : bool := match t with DOUBLE => true | _ => false end.
Definition is_boolean (t : col_type) : bool := match t with BOOLEAN => true | _ => false end.
Definition is_jsonb (t : col_type) : bool := match t with JSONB => true | _ => false end.
(** A conversion the source may apply to a column without a check of its own. *)
Definition convertible (col : option (col_type * bool)) (k : conv) : bool :=
  match col with
  | None => false
  | Some (t, not_null) =>
      match k with
      | AsText => not_null && textual t | AsTextOrEmpty | AsTextOrNull => textual t
      | AsInt => not_null && integral t | AsIntOrNull => integral t
      | AsDouble => not_null && is_double t | AsDoubleOrNull | AsDoubleOrZero => is_double t
      | AsBool => not_null && is_boolean t
      | AsJson => not_null && is_jsonb t | AsJsonOrNull | AsJsonOrObject | AsJsonOrArray => is_jsonb t
      end
  end.
(** The field lists of the source, with the table each is read from. *)
Definition views : list (string * list field) :=
  [("generation_runs", generation_fields); ("generation_runs", dataset_detail_fields);
   ("model_runs", model_run_fields); ("model_runs", list_model_fields); ("model_runs", model_of_dataset_fields);
   ("inference_runs", inference_fields); ("dataset_score_jobs", score_job_fields);
   ("dataset_score_jobs", list_score_job_fields);
   ("host_telemetry_archival", sample_fields ++ [same AsJson "labels"]); ("host_telemetry_archival", record_fields)].

Section reads.
Context {F : Type} `{Num F} `{Postgres}.
Implicit Types (s : Store F) (r : Row F).

Lemma convert_ok col k (v : sql F) : convertible col k = true -> cell_ok col v = true -> is_ok (convert k v) = true.
Proof. destruct col as [[[] []]|]; [..|done]; destruct k; try done; destruct v; done. Qed.
Lemma read_fields_ok fs r acc : forallb (fun f : field => is_ok (convert f.2 (column r f.1.2))) fs = true ->
  (read_fields fs r acc).2 = None.
Proof.
  revert acc. induction fs as [|[[key c] k] fs IH]; intros acc; cbn; [done|]. intros [Hc Hfs]%andb_true_iff.
  destruct (convert k (column r c)); [|done]. by apply IH.
Qed.
Lemma read_row_ok fs r : forallb (fun f : field => is_ok (convert f.2 (column r f.1.2))) fs = true ->
  (read_row fs r).2 = None.
Proof. unfold read_row. intros Hfs%(fun Hf => read_fields_ok fs r [] Hf). destruct (read_fields fs r []) as [l e]. done. Qed.
Lemma view_ok t fs r : row_typed t r ->
  forallb (fun f : field => convertible (column_type t f.1.2) f.2) fs = true -> (read_row fs r).2 = None.
Proof.
  intros Hr Hfs. apply read_row_ok. rewrite forallb_forall in *. intros f Hf. by eapply convert_ok; [apply Hfs|apply Hr].
Qed.
Lemma trial_view_ok r : row_typed "model_runs" r -> trial_ok "model_runs" r = true ->
  column r "parent_run_id" <> SNull -> (read_row trial_fields r).2 = None.
Proof.
  intros Hr Ht Hp. unfold trial_ok in Ht. cbn [negb String.eqb orb] in Ht.
  destruct (is_null (column r "parent_run_id")) eqn:Ep; [by destruct (column r "parent_run_id")|].
  cbn in Ht. apply andb_true_iff in Ht as [Hi Hps].
  apply read_row_ok, forallb_forall. intros f Hf%list_elem_of_In.
  destruct (decide (f.1.2 = "trial_index" \/ f.1.2 = "trial_params")) as [Hd|Hn].
  - assert (f = same AsInt "trial_index" \/ f = same AsJson "trial_params") as [-> | ->]; cbn [fst snd same].
    { clear - Hf Hd. unfold trial_fields in Hf.
      repeat (apply elem_of_cons in Hf as [->|Hf]; [destruct Hd as [E|E]; try discriminate E; auto|]).
      by apply not_elem_of_nil in Hf. }
    + specialize (Hr "trial_index"). by destruct (column r "trial_index").
    + specialize (Hr "trial_params"). by destruct (column r "trial_params").
  - eapply convert_ok; [|apply (Hr f.1.2)]. clear - Hf Hn. unfold trial_fields in Hf.
    repeat (apply elem_of_cons in Hf as [->|Hf]; [first [reflexivity | exfalso; apply Hn; cbn; auto]|]).
    by apply not_elem_of_nil in Hf.
Qed.
End reads.

(** ** What the invariant gives the other theorems *)
Section consequences.
Context {F : Type} `{Num F} `{Postgres}.
Implicit Types (s : Store F).

Lemma valid_unique_models s : valid s -> unique_models s.
Proof.
  intros Hv m1 m2 id Hm1 Hm2 E1 E2. destruct (v_keys s Hv "model_runs" "model_run_id" Generated eq_refl) as [Hnd _].
  apply list_elem_of_lookup in Hm1 as [i Hi]. apply list_elem_of_lookup in Hm2 as [j Hj].
  assert (i = j) as <-; [|congruence].
  apply (NoDup_lookup _ i j (SText id) Hnd); unfold key_values; rewrite list_lookup_fmap;
    [rewrite Hi|rewrite Hj]; cbn; by f_equal.
Qed.
Lemma valid_record_ids s : valid s -> record_ids_unique s.
Proof.
  intros Hv d. destruct (v_keys s Hv "host_telemetry_archival" "record_id" RecordSequence eq_refl) as [Hnd Hdr].
  eapply sublist_NoDup; [|unfold dataset_rows, where_is; apply sublist_fmap, sublist_filter].
  unfold key_values in *.
  replace (int_of "record_id" <$> rows s "host_telemetry_archival") with
    ((fun v : sql F => match v with SInt z => z | _ => 0%Z end) <$> ((fun r => column r "record_id") <$> rows s "host_telemetry_archival"))
    by (rewrite <- list_fmap_compose; reflexivity).
  apply NoDup_fmap_2_strong; [|done].
  intros x y (z & _ & ->)%Hdr (z' & _ & ->)%Hdr. congruence.
Qed.
End consequences.


(** ** Witness: a dataset, a tuning run with one trial, a score job; a trial of
    an unknown run is refused. *)
#[local] Existing Instance pg_example.
#[local] Instance pg_input_schema : PgInput float := pg_input_example float.
Definition calls_example : list (Call * db_call float) :=
  (fun d => (call_example 7, d)) <$>
  [DCreateRun "ds" run_request_example (JObj []) "PENDING" "";
   DBatchInsertTelemetry [record_example 1%float; record_example 2%float];
   DCreateModelRun "ds" "pca" (JObj []) "" (JObj [("seed", JInt 1)]) "f" "" (Some 1%Z);
   DCreateHpoTrialRun "ds" "pca" (JObj []) "" "id-0" 0 (JObj []);
   DCreateHpoTrialRun "ds" "pca" (JObj []) "" "id-9" 0 (JObj []);
   DUpdateBestTrial "id-0" "id-1" 1%float "m" "min" "t";
   DCreateScoreJob "ds" "id-0" "";
   DInsertDatasetScores "ds" "id-0" [(1, (1%float, false)); (2, (2%float, true))]%Z;
   DReconcileStaleJobs None].

