(* ===== verification/SqlExec.v ===== *)
(** Execution of the statements of SqlText on the store, with what the server
    checks: that columns exist, the types of values and NOT NULL, unique keys
    and references, and the number of parameters of a prepared statement.

    The defaults of columns are those of src/db/init.sql. *)
From stdpp Require Import base gmap strings list fin_maps pretty.
From Stdlib Require Import ZArith Lia.
From S2P Require Import Prelude Strconv Num Detectors Alerts Json Generator Sql DbClient DbFacts ScoreStore Retention Schema SqlText.

Local Open Scope string_scope.
Local Open Scope list_scope.

(** ** Values *)

(** ['n seconds'], in microseconds. *)
Definition interval_in (s : string) : option Z :=
  let '(neg, digits) := read_sign s in
  n ← read_digits None digits;
  let v := (if neg then - n else n)%Z in
  if (s =? pretty v +:+ " seconds")%string then Some (v * 1000000)%Z else None.

(** The input of BOOLEAN, in either case; no text of the source has spaces
    around it. *)
Definition boolean_in (s : string) : option bool :=
  if existsb (String.eqb (lower s)) ["true"; "tru"; "tr"; "t"; "yes"; "ye"; "y"; "on"; "1"] then Some true
  else if existsb (String.eqb (lower s)) ["false"; "fals"; "fal"; "fa"; "f"; "no"; "n"; "off"; "of"; "0"] then Some false
  else None.

Inductive default_value := DefaultNow | DefaultUuid | DefaultSerial | DefaultZero | DefaultTrue | DefaultFalse | DefaultObject.
(** The DEFAULT clauses; a BIGSERIAL column has its sequence. *)
Definition defaults : list (string * list (string * default_value)) :=
  [("generation_runs",
     [("run_id", DefaultUuid); ("created_at", DefaultNow); ("inserted_rows", DefaultZero); ("updated_at", DefaultNow)]);
   ("host_telemetry_archival", [("record_id", DefaultSerial); ("is_anomaly", DefaultFalse)]);
   ("alerts", [("alert_id", DefaultUuid); ("created_at", DefaultNow)]);
   ("model_runs",
     [("model_run_id", DefaultUuid); ("training_config", DefaultObject); ("is_eligible", DefaultTrue);
      ("created_at", DefaultNow); ("updated_at", DefaultNow)]);
   ("inference_runs", [("inference_id", DefaultUuid); ("anomaly_count", DefaultZero); ("created_at", DefaultNow)]);
   ("dataset_score_jobs",
     [("job_id", DefaultUuid); ("total_rows", DefaultZero); ("processed_rows", DefaultZero);
      ("last_record_id", DefaultZero); ("created_at", DefaultNow); ("updated_at", DefaultNow)]);
   ("dataset_scores", [("score_id", DefaultSerial); ("scored_at", DefaultNow)])].
(** PRIMARY KEY: the telemetry is partitioned by its ingestion time. *)
Definition unique_key (t : string) : list string :=
  if (t =? "host_telemetry_archival")%string then ["ingestion_time"; "record_id"]
  else match key_of t with Some (c, _) => [c] | None => [] end.

Section exec.
Context {F : Type} `{Num F} `{Postgres} `{PgInput F}.
Implicit Types (s : Store F) (r : Row F) (t c : string) (v : sql F) (args : list (sql F)).

(** Comparisons of SQL are never true of NULL; no statement orders texts. *)
Definition sql_eqb (v w : sql F) : bool :=
  match v, w with
  | SText a, SText b => (a =? b)%string
  | SInt a, SInt b | STime a, STime b => (a =? b)%Z
  | SBool a, SBool b => Bool.eqb a b
  | SDouble a, SDouble b => (a =? b)%num
  | _, _ => false
  end.
Definition sql_ltb (v w : sql F) : bool :=
  match v, w with
  | SInt a, SInt b | STime a, STime b => (a <? b)%Z
  | SDouble a, SDouble b => (a <? b)%num
  | _, _ => false
  end.

Definition sql_leb (v w : sql F) : bool :=
  match v, w with
  | SInt a, SInt b | STime a, STime b => (a <=? b)%Z
  | SDouble a, SDouble b => (a <=? b)%num
  | _, _ => false
  end.

Definition eval (now : Z) args (e : expr) : res (sql F) :=
  match e with
  | Param n => match args !! pred n with Some v => Ok v | None => sql_error "there is no such parameter" end
  | Now => Ok (STime now)
  | Ago i => match interval_in i with Some us => Ok (STime (now - us)) | None => sql_error "invalid input syntax" end
  | Text s => Ok (SText s)
  | Bool b => Ok (SBool b)
  end.
(** A text where the column has another type is read by the input function of
    that type. *)
Definition coerce (ty : col_type) v : res (sql F) :=
  match ty with
  | TIMESTAMPTZ => match v with SText x => z ← or_sql_error (timestamptz_in x); Ok (STime z) | _ => Ok v end
  | JSONB => match v with SText x => j ← or_sql_error (jsonb_in x); Ok (SJson j) | _ => Ok v end
  | BOOLEAN => match v with SText x => b ← or_sql_error (boolean_in x); Ok (SBool b) | _ => Ok v end
  | _ => Ok v
  end.
(** The value of an expression for a column. *)
Definition column_types : Type := string -> option (col_type * bool).
Definition value_for (now : Z) args (types : column_types) (ce : string * expr) : res (string * sql F) :=
  match types ce.1 with
  | None => sql_error "column does not exist"
  | Some (ty, _) => v ← eval now args ce.2; w ← coerce ty v; Ok (ce.1, w)
  end.

(** ** WHERE *)
Definition holds (now : Z) args (types : column_types) (k : cond) : res (Row F -> bool) :=
  match k with
  | Equals c e => cv ← value_for now args types (c, e); Ok (fun r => sql_eqb (column r c) cv.2)
  | OneOf c es =>
      cvs ← mapR (fun e => value_for now args types (c, e)) es;
      Ok (fun r => existsb (fun cv => sql_eqb (column r c) cv.2) cvs)
  | Less c e => cv ← value_for now args types (c, e); Ok (fun r => sql_ltb (column r c) cv.2)
  | Greater c e => cv ← value_for now args types (c, e); Ok (fun r => sql_ltb cv.2 (column r c))
  | AtMost c e => cv ← value_for now args types (c, e); Ok (fun r => sql_leb (column r c) cv.2)
  | AtLeast c e => cv ← value_for now args types (c, e); Ok (fun r => sql_leb cv.2 (column r c))
  end.
Definition where_holds (now : Z) args (types : column_types) (w : list cond) : res (Row F -> bool) :=
  ps ← mapR (holds now args types) w; Ok (fun r => forallb (fun p => p r) ps).

(** ** INSERT *)
Definition draw_default (now : Z) t (d : default_value) s : sql F * Store F :=
  match d with
  | DefaultNow => (STime now, s)
  | DefaultUuid => let '(id, s') := draw_uuid s in (SText id, s')
  | DefaultSerial =>
      let '(id, s') := if (t =? "dataset_scores")%string then draw_score_id s else draw_record_id s in (SInt id, s')
  | DefaultZero => (SInt 0, s)
  | DefaultTrue => (SBool true, s)
  | DefaultFalse => (SBool false, s)
  | DefaultObject => (SJson (JObj []), s)
  end.
Fixpoint fill (now : Z) t (given : list string) (ds : list (string * default_value)) s : list (string * sql F) * Store F :=
  match ds with
  | [] => ([], s)
  | (c, d) :: ds' =>
      if member c given then fill now t given ds' s
      else let '(v, s1) := draw_default now t d s in let '(l, s2) := fill now t given ds' s1 in ((c, v) :: l, s2)
  end.
Definition same_key (ks : list string) (l : list (string * sql F)) r : bool :=
  forallb (fun k => sql_eqb (column r k) (column (new_row l) k)) ks.

Record answer := MkAnswer { an_rows : list (list (sql F)); an_affected : Z }.
Definition insert_values (now : Z) t (given : list (string * sql F)) (returning : option string) s : res (Store F * answer) :=
  let '(rest, s1) := fill now t given.*1 (default [] (assoc t defaults)) s in
  let l := given ++ rest in
  if negb (cells_ok t l && covers t l.*1) then sql_error "value violates a constraint of its column" else
  if existsb (same_key (unique_key t) l) (rows s t) then sql_error "duplicate key value violates unique constraint" else
  s2 ← insert_row t (new_row l) s1;
  Ok (s2, MkAnswer (match returning with Some c => [[column (new_row l) c]] | None => [] end) 1).

(** ** UPDATE, DELETE, SELECT, CALL *)

(** No statement of the source sets a key. *)
Definition update_values (now : Z) t (l : list (string * sql F)) (p : Row F -> bool) s : res (Store F * answer) :=
  if existsb (fun c => member c l.*1) (unique_key t) then sql_error "keys are not updated" else
  if negb (cells_ok t l) then sql_error "value violates a constraint of its column" else
  let '(s', n) := update_rows t p (set_columns l) s in
  if existsb (fun fk : string * string * string * string => member fk.1.1.2 l.*1) (references_of t)
     && negb (all_references_ok s' (references_of t))
  then sql_error "update violates foreign key constraint" else Ok (s', MkAnswer [] n).

Definition sorted_by (o : option (string * direction)) (rs : list (Row F)) : list (Row F) :=
  match o with
  | None => rs
  | Some (c, Asc) => std_sort (fun a b => sql_ltb (column a c) (column b c)) rs
  | Some (c, Desc) => std_sort (fun a b => sql_ltb (column b c) (column a c)) rs
  end.
Definition count_arg (now : Z) args (dflt : Z) (e : option expr) : res Z :=
  match e with
  | None => Ok dflt
  | Some e => v ← eval now args e; match v with SInt z => Ok z | _ => sql_error "argument must be an integer" end
  end.
Definition has_column (types : column_types) c : bool := match types c with Some _ => true | None => false end.
(** The values of some columns. *)
Definition project (cols : list string) (rs : list (Row F)) : list (list (sql F)) := (fun r => column r <$> cols) <$> rs.
(** [scanned]: the order in which the server comes by the matching rows. *)
Definition select_rows (scanned : list (Row F) -> list (Row F)) (now : Z) args (cols : list string) (types : column_types)
    (rs : list (Row F)) (w : list cond) (o : option (string * direction)) (l f : option expr) : res answer :=
  if negb (forallb (has_column types) (cols ++ match o with Some (c, _) => [c] | None => [] end))
  then sql_error "column does not exist" else
  p ← where_holds now args types w;
  let rs := sorted_by o (scanned (filter (fun r => p r = true) rs)) in
  limit ← count_arg now args (zlen rs) l; offset ← count_arg now args 0 f;
  rs' ← limit_offset limit offset rs;
  Ok (MkAnswer (project cols rs') (zlen rs')).

(** Two tables joined: the columns carry the alias of their table. *)
Definition qualified (a c : string) : string := a +:+ "." +:+ c.
Definition join_types t (a : string) u (b : string) : column_types := fun c =>
  assoc c (map (fun k => (qualified a k.1, k.2)) (columns t) ++ map (fun k => (qualified b k.1, k.2)) (columns u)).
Definition join_row t (a : string) u (b : string) (r r' : Row F) : Row F :=
  new_row (map (fun k => (qualified a k.1, column r k.1)) (columns t) ++ map (fun k => (qualified b k.1, column r' k.1)) (columns u)).
Definition join_rows t (a : string) u (b : string) (on : string * string) s : list (Row F) :=
  filter (fun r => sql_eqb (column r on.1) (column r on.2) = true) (r ← rows s t; join_row t a u b r <$> rows s u).

Definition exec_scanning (scanned : list (Row F) -> list (Row F)) (now : Z) args (st : statement) s
    : res (Store F * answer) :=
  match st with
  | Insert t cols es returning =>
      if negb (length cols =? length es)%nat then sql_error "INSERT has a different number of expressions" else
      given ← mapR (value_for now args (column_type t)) (zip cols es); insert_values now t given returning s
  | Update t sets w =>
      l ← mapR (value_for now args (column_type t)) sets; p ← where_holds now args (column_type t) w; update_values now t l p s
  | Delete t w =>
      p ← where_holds now args (column_type t) w; s' ← delete_rows t p s; Ok (s', MkAnswer [] (zlen (rows s t) - zlen (rows s' t)))
  | Select cols t w o l f => a ← select_rows scanned now args cols (column_type t) (rows s t) w o l f; Ok (s, a)
  | SelectJoin cols t a u b on w o l f =>
      if negb (forallb (has_column (join_types t a u b)) [on.1; on.2]) then sql_error "column does not exist" else
      x ← select_rows scanned now args cols (join_types t a u b) (join_rows t a u b on s) w o l f; Ok (s, x)
  | SelectCount t w =>
      p ← where_holds now args (column_type t) w;
      Ok (s, MkAnswer [[SInt (zlen (filter (fun r => p r = true) (rows s t)))]] 1)
  | CallProcedure p es =>
      vs ← mapR (eval now args) es;
      match (p =? "cleanup_old_telemetry")%string, vs with
      | true, [SInt days] => s' ← cleanup_old_telemetry true now days s; Ok (s', MkAnswer [] 0)
      | _, _ => sql_error "procedure does not exist"
      end
  end.

(** A transaction that writes reads the rows of a table in their order. *)
Definition exec : Z -> list (sql F) -> statement -> Store F -> res (Store F * answer) := exec_scanning (fun rs => rs).

(** [exec_params] of a text without parameters, and [exec_prepared]. *)
Definition exec_text (now : Z) (text : string) s : res (Store F * answer) :=
  match parse text with Some st => exec now [] st s | None => sql_error "syntax error" end.
Definition prepared (stmt : string) : option statement := text ← assoc stmt PrepareStatements; parse text.
Definition exec_prepared_scanning (scanned : list (Row F) -> list (Row F)) (now : Z) (stmt : string) args s
    : res (Store F * answer) :=
  match prepared stmt with
  | None => sql_error "prepared statement does not exist"
  | Some st =>
      if (params_of st =? length args)%nat then exec_scanning scanned now args st s else sql_error "wrong number of parameters"
  end.
Definition exec_prepared : Z -> string -> list (sql F) -> Store F -> res (Store F * answer) :=
  exec_prepared_scanning (fun rs => rs).
(** [pqxx::stream_to]: COPY of rows of values for some columns. *)
Definition value_of t (cv : string * sql F) : res (string * sql F) :=
  match column_type t cv.1 with
  | None => sql_error "column does not exist"
  | Some (ty, _) => w ← coerce ty cv.2; Ok (cv.1, w)
  end.
Definition stream_line (now : Z) t (cols : list string) s (line : list (sql F)) : res (Store F) :=
  if negb (length cols =? length line)%nat then sql_error "wrong number of columns" else
  given ← mapR (value_of t) (zip cols line); fst <$> insert_values now t given None s.
Definition stream_to (now : Z) t (cols : list string) (lines : list (list (sql F))) s : res (Store F * answer) :=
  s' ← fold_res (stream_line now t cols) s lines; Ok (s', MkAnswer [] (zlen lines)).
End exec.
Arguments answer F : clear implicits.

(** ** Statements and the operations of Sql.v *)
Section exec_lemmas.
Context {F : Type} `{Num F} `{Postgres} `{PgInput F}.
Implicit Types (s : Store F) (r : Row F) (t c : string) (L : list (string * sql F)).

Lemma sql_eqb_text r c x : sql_eqb (column r c) (SText x) = text_is c x r.
Proof. unfold text_is. by destruct (column r c). Qed.

(** The columns [cs] with the values [L] gives them. *)
Definition reorder (cs : list string) L : list (string * sql F) := (fun c => (c, default SNull (assoc c L))) <$> cs.
Definition same_names (cs cs' : list string) : bool := forallb (fun c => member c cs') cs && forallb (fun c => member c cs) cs'.

Lemma lookup_set_columns L r c : set_columns L r !! c = match assoc c L with Some v => Some v | None => r !! c end.
Proof.
  induction L as [|[k v] L IH]; [done|]. cbn [set_columns foldr fst snd assoc].
  destruct (String.eqb_spec c k) as [->|Hne]; unfold Row; [by rewrite lookup_insert_eq|]. by rewrite lookup_insert_ne.
Qed.
Lemma assoc_member L c : is_Some (assoc c L) <-> member c L.*1 = true.
Proof.
  induction L as [|[k v] L IH]; [split; [by intros []|done]|]. cbn. destruct (c =? k)%string; [|apply IH].
  split; [done|by eexists].
Qed.
Lemma assoc_reorder cs L c : assoc c (reorder cs L) = if member c cs then Some (default SNull (assoc c L)) else None.
Proof.
  induction cs as [|k cs IH]; [done|]. cbn [reorder fmap list_fmap assoc member existsb].
  destruct (String.eqb_spec c k) as [->|]; [done|apply IH].
Qed.
Lemma reorder_names cs L : (reorder cs L).*1 = cs.
Proof. unfold reorder. rewrite <- list_fmap_compose. apply list_fmap_id. Qed.
Lemma reorder_app cs cs' L : reorder (cs ++ cs') L = reorder cs L ++ reorder cs' L.
Proof. apply fmap_app. Qed.
Lemma same_names_member cs cs' c : same_names cs cs' = true -> member c cs = member c cs'.
Proof.
  unfold same_names. rewrite andb_true_iff, !forallb_forall. setoid_rewrite <- list_elem_of_In. intros [Hl Hr].
  apply eq_true_iff_eq. rewrite !member_iff. split; [intros ?%Hl|intros ?%Hr]; by apply member_iff.
Qed.
Lemma set_columns_reorder cs L r : same_names cs L.*1 = true -> set_columns (reorder cs L) r = set_columns L r.
Proof.
  intros Hcs. apply (map_eq (M:=gmap string)). intros c. rewrite !lookup_set_columns, assoc_reorder, (same_names_member _ _ _ Hcs).
  destruct (member c L.*1) eqn:E.
  - by apply assoc_member in E as [v ->].
  - destruct (assoc c L) eqn:Ha; [|done]. rewrite <- not_true_iff_false, <- assoc_member, Ha in E. destruct E. by eexists.
Qed.
Lemma reorder_cells t cs L : same_names cs L.*1 = true -> cells_ok t L = true -> cells_ok t (reorder cs L) = true.
Proof.
  intros Hcs. unfold cells_ok, reorder. rewrite !forallb_forall. setoid_rewrite <- list_elem_of_In.
  intros HL kv (c & -> & Hc)%list_elem_of_fmap. apply member_iff in Hc. rewrite (same_names_member _ _ _ Hcs) in Hc.
  apply assoc_member in Hc as [v Hv]. cbn. rewrite Hv. apply (HL (c, v)). by apply assoc_in.
Qed.
Lemma covers_names t cs cs' : same_names cs cs' = true -> covers t cs = covers t cs'.
Proof.
  intros Hcs. unfold covers. induction (columns t) as [|col cols IH]; [done|]. cbn [forallb].
  by rewrite IH, (same_names_member _ _ _ Hcs).
Qed.
Lemma existsb_ext_on {A} (p q : A -> bool) l : (forall x, x ∈ l -> p x = q x) -> existsb p l = existsb q l.
Proof.
  induction l as [|x l IH]; intros Hpq; [done|]. cbn [existsb]. rewrite (Hpq x) by left.
  f_equal. apply IH. intros y Hy. apply Hpq. by right.
Qed.
Lemma update_rows_ext t (p q : Row F -> bool) f g s : (forall r, r ∈ rows s t -> p r = q r) -> (forall r, f r = g r) ->
  update_rows t p f s = update_rows t q g s.
Proof.
  intros Hpq Hfg. unfold update_rows. f_equal.
  - f_equal. apply list_fmap_ext. intros i r Hr%list_elem_of_lookup_2. by rewrite Hpq, Hfg.
  - f_equal. apply countb_ext, Forall_forall. intros r Hr. by apply Hpq.
Qed.

Lemma exec_update now args t sets w L p q s :
  mapR (value_for now args (column_type t)) sets = Ok (reorder sets.*1 L) -> where_holds now args (column_type t) w = Ok p ->
  (forall r, r ∈ rows s t -> p r = q r) ->
  same_names sets.*1 L.*1 = true -> cells_ok t L = true ->
  existsb (fun c => member c sets.*1) (unique_key t) = false ->
  existsb (fun fk : string * string * string * string => member fk.1.1.2 sets.*1) (references_of t) = false ->
  exec now args (Update t sets w) s =
  Ok ((update_rows t q (set_columns L) s).1, MkAnswer [] (update_rows t q (set_columns L) s).2).
Proof.
  intros Hl Hp Hpq Hn Hc Hk Hfk. cbn [exec exec_scanning]. rewrite Hl, Hp. cbn [mbind res_bind]. unfold update_values.
  rewrite !reorder_names, Hk, Hfk, reorder_cells by done. cbn [negb andb].
  by rewrite (update_rows_ext t p q _ (set_columns L)) by (done || intros; by apply set_columns_reorder).
Qed.

(** The one kind of UPDATE that sets a reference checks it. *)
Lemma exec_update_checked now args t sets w L p q s :
  mapR (value_for now args (column_type t)) sets = Ok (reorder sets.*1 L) -> where_holds now args (column_type t) w = Ok p ->
  (forall r, r ∈ rows s t -> p r = q r) ->
  same_names sets.*1 L.*1 = true -> cells_ok t L = true ->
  existsb (fun c => member c sets.*1) (unique_key t) = false ->
  existsb (fun fk : string * string * string * string => member fk.1.1.2 sets.*1) (references_of t) = true ->
  exec now args (Update t sets w) s =
  let '(s', n) := update_rows t q (set_columns L) s in
  if all_references_ok s' (references_of t) then Ok (s', MkAnswer [] n)
  else sql_error "update violates foreign key constraint".
Proof.
  intros Hl Hp Hpq Hn Hc Hk Hfk. cbn [exec exec_scanning]. rewrite Hl, Hp. cbn [mbind res_bind]. unfold update_values.
  rewrite !reorder_names, Hk, Hfk, reorder_cells by done. cbn [negb andb].
  rewrite (update_rows_ext t p q _ (set_columns L)) by (done || intros; by apply set_columns_reorder).
  destruct (update_rows t q (set_columns L) s) as [s' n]. by destruct (all_references_ok s' _).
Qed.

(** The columns a default fills. *)
Definition filled t (cols : list string) : list string :=
  filter (fun c => member c cols = false) (default [] (assoc t defaults)).*1.
(** A row whose values violate nothing is inserted, unless its key is taken. *)
Lemma insert_values_eq now t cols returning s1 L s :
  fill now t cols (default [] (assoc t defaults)) s = (reorder (filled t cols) L, s1) ->
  same_names (cols ++ filled t cols) L.*1 = true -> cells_ok t L = true -> covers t L.*1 = true ->
  insert_values now t (reorder cols L) returning s =
  if existsb (same_key (unique_key t) L) (rows s t) then sql_error "duplicate key value violates unique constraint" else
  s2 ← insert_row t (new_row L) s1;
  Ok (s2, MkAnswer (match returning with Some c => [[column (new_row L) c]] | None => [] end) 1).
Proof.
  intros Hf Hn Hc Hcov. unfold insert_values.
  rewrite reorder_names, Hf, <- reorder_app, reorder_names, (covers_names _ _ _ Hn), Hcov, reorder_cells by done. cbn [negb andb].
  assert (new_row (reorder (cols ++ filled t cols) L) = new_row L) as Hrow by by apply set_columns_reorder.
  rewrite Hrow. rewrite (existsb_ext_on _ (same_key (unique_key t) L)); [done|].
  intros r _. unfold same_key. by rewrite Hrow.
Qed.
Lemma exec_insert now args t cols es returning given s :
  (length cols =? length es)%nat = true -> mapR (value_for now args (column_type t)) (zip cols es) = given ->
  exec now args (Insert t cols es returning) s = (l ← given; insert_values now t l returning s).
Proof. intros Hlen Hl. cbn [exec exec_scanning]. by rewrite Hlen, Hl. Qed.

(** Keys that were drawn are new. *)
Definition is_key (v : sql F) : bool := match v with SText _ | SInt _ => true | _ => false end.
Lemma sql_eqb_key (v w : sql F) : is_key w = true -> sql_eqb v w = true -> v = w.
Proof. destruct v, w; cbn; try done; intros _; [by intros ->%String.eqb_eq|by intros ->%Z.eqb_eq]. Qed.
Lemma fresh_key s t c k L : valid s -> key_of t = Some (c, k) -> member c (unique_key t) = true ->
  is_key (column (new_row L) c) = true -> ~ drawn k s (column (new_row L) c) ->
  existsb (same_key (unique_key t) L) (rows s t) = false.
Proof.
  intros Hv Hk Hu Hid Hnew. apply not_true_iff_false. intros (r & Hr & Heq)%existsb_exists. apply Hnew.
  unfold same_key in Heq. rewrite forallb_forall in Heq. apply member_iff, list_elem_of_In, Heq, sql_eqb_key in Hu; [|done].
  rewrite <- Hu. apply (proj2 (v_keys s Hv t c _ Hk)). apply list_elem_of_fmap. exists r.
  split; [done|by apply list_elem_of_In].
Qed.
Lemma new_uuid s : ~ drawn Generated s (SText (uuid (next_uuid s))).
Proof. intros (n & Hn & [= E%(inj uuid)]). lia. Qed.
Lemma new_record s : ~ drawn RecordSequence s (SInt (next_record_id s)).
Proof. intros (z & Hz & [= E]). lia. Qed.
Lemma new_score s : ~ drawn ScoreSequence s (SInt (next_score_id s)).
Proof. intros (z & Hz & [= E]). lia. Qed.

(** No LIMIT. *)
Lemma limit_all {A} (l : list A) : limit_offset (zlen l) 0 l = Ok l.
Proof.
  unfold limit_offset, zlen. assert ((Z.of_nat (length l) <? 0)%Z = false) as -> by (apply Z.ltb_ge; lia).
  cbn [orb Z.ltb Z.compare Z.to_nat]. by rewrite drop_0, Nat2Z.id, firstn_all.
Qed.

(** DELETE, and SELECT of all matching rows in table order. *)
Lemma delete_rows_ext t (p q : Row F -> bool) s : (forall r, p r = q r) -> delete_rows t p s = delete_rows t q s.
Proof.
  intros Hpq. unfold delete_rows.
  assert (filter (fun r => p r = false) (rows s t) = filter (fun r => q r = false) (rows s t)) as ->; [|done].
  apply list_filter_iff. intros r. by rewrite Hpq.
Qed.
Lemma exec_delete now args t w p q s : where_holds now args (column_type t) w = Ok p -> (forall r, p r = q r) ->
  fst <$> exec now args (Delete t w) s = delete_rows t q s.
Proof.
  intros Hp Hpq. cbn [exec exec_scanning]. rewrite Hp. cbn [mbind res_bind]. rewrite (delete_rows_ext t p q) by done.
  by destruct (delete_rows t q s).
Qed.
Lemma exec_select now args cols t w p q s : forallb (has_column (column_type t)) cols = true ->
  where_holds now args (column_type t) w = Ok p -> (forall r, p r = q r) ->
  exec now args (Select cols t w None None None) s =
  let rs := filter (fun r => q r = true) (rows s t) in Ok (s, MkAnswer (project cols rs) (zlen rs)).
Proof.
  intros Hcols Hp Hpq. unfold exec. cbn [exec_scanning]. unfold select_rows. rewrite app_nil_r, Hcols, Hp.
  cbn [negb mbind res_bind sorted_by count_arg].
  rewrite (list_filter_iff _ (fun r => q r = true)) by (intros; by rewrite Hpq). by rewrite limit_all.
Qed.

Lemma exec_prepared_eq now stmt args st s : prepared stmt = Some st -> (params_of st =? length args)%nat = true ->
  exec_prepared now stmt args s = exec now args st s.
Proof. intros Hst Hn. unfold exec_prepared, exec_prepared_scanning. by rewrite Hst, Hn. Qed.
End exec_lemmas.

(** Replace the execution of a prepared statement by that of its syntax. *)
Ltac prepared_statement :=
  match goal with
  | |- context [exec_prepared ?now ?stmt ?args ?s] =>
      let st := eval vm_compute in (prepared stmt) in
      match st with
      | Some ?st => rewrite (exec_prepared_eq now stmt args st s ltac:(vm_compute; reflexivity) ltac:(reflexivity))
      end
  end.
