(* ===== verification/Prepared.v ===== *)
(** The calls of DbClient that change the store, a second time, the way the
    code makes them: which prepared statement each executes, with which
    arguments in which order, the texts it builds, the tables it streams rows
    into.  A run of these calls, executed from the texts of the statements, is a
    run of the calls of DbClient.

    JSON that the client serialises is bound as the value it denotes. *)
From stdpp Require Import base gmap strings list fin_maps pretty.
From Stdlib Require Import ZArith Lia Floats.
From S2P Require Import Prelude Strconv Num Detectors Alerts Json Generator Sql DbClient DbFacts ScoreStore Retention Schema SqlText SqlExec.

Local Open Scope string_scope.
Local Open Scope list_scope.

Section calls.
Context {F : Type} `{Num F} `{Postgres} `{PgInput F}.
Implicit Types (s : Store F) (c : Call).

(** [W.quote]: no text the source quotes has a quote. *)
Definition quote_sql (s : string) : string := "'" +:+ s +:+ "'".
Definition stale_condition (stale_ttl : option Z) : string :=
  "status IN ('RUNNING', 'PENDING')" +:+
  match stale_ttl with Some ttl => " AND updated_at < NOW() - INTERVAL '" +:+ pretty ttl +:+ " seconds'" | None => "" end.
Definition stale_suffix (stale_ttl : option Z) : string :=
  " SET status='FAILED', error=" +:+ quote_sql (stale_error stale_ttl) +:+ ", updated_at=NOW() WHERE "
  +:+ stale_condition stale_ttl.

Definition heartbeat_statement (type : JobType) : string :=
  match type with
  | Generation => "heartbeat_generation" | ModelRun => "heartbeat_model_run" | ScoreJob => "heartbeat_score_job"
  end.
Definition telemetry_columns : list string :=
  ["ingestion_time"; "metric_timestamp"; "host_id"; "project_id"; "region"; "cpu_usage"; "memory_usage";
   "disk_utilization"; "network_rx_rate"; "network_tx_rate"; "labels"; "run_id"; "is_anomaly"; "anomaly_type"].
Definition telemetry_line (r : TelemetryRecord F) : list (sql F) :=
  [STime (ingestion_time r / 1000)%Z; STime (metric_timestamp r / 1000)%Z; SText (r_host_id r); SText (r_project_id r);
   SText (r_region r); SDouble (r_cpu_usage r); SDouble (r_memory_usage r); SDouble (r_disk_utilization r);
   SDouble (r_network_rx_rate r); SDouble (r_network_tx_rate r); SText (r_labels_json r); SText (r_run_id r);
   SBool (r_is_anomaly r); text_or_null (r_anomaly_type r)].
Definition score_columns : list string :=
  ["dataset_id"; "model_run_id"; "record_id"; "reconstruction_error"; "predicted_is_anomaly"].
Definition score_line (dataset_id model_run_id : string) (e : Z * (F * bool)) : list (sql F) :=
  [SText dataset_id; SText model_run_id; SInt e.1; SDouble e.2.1; SBool e.2.2].
Definition delete_statement_names : list string :=
  ["delete_dataset_scores"; "delete_dataset_score_jobs"; "delete_host_telemetry"; "delete_alerts"; "delete_model_runs";
   "delete_generation_run"].

(** ** What happens between [pqxx::work W(C)] and [W.commit()] *)
Definition CreateRun_body (now : Z) (run_id : string) (config : GenerateRequest F) (config_json : json F)
    (status request_id : string) s : res (Store F * answer F) :=
  exec_prepared now "insert_generation_run"
    [SText run_id; SText (tier config); SInt (host_count config); SText (start_time_iso config);
     SText (end_time_iso config); SInt (interval_seconds config); SInt (rq_seed config); SText status;
     jsonb config_json; SText request_id] s.
Definition UpdateRunStatus_body (now : Z) (run_id status : string) (inserted_rows : Z) (error : string) s : res (Store F * answer F) :=
  if negb (error =? "")%string
  then exec_prepared now "update_generation_run_error" [SText status; SInt inserted_rows; SText error; SText run_id] s
  else exec_prepared now "update_generation_run" [SText status; SInt inserted_rows; SText run_id] s.
Definition BatchInsertTelemetry_body (now : Z) (records : list (TelemetryRecord F)) s : res (Store F * answer F) :=
  stream_to now "host_telemetry_archival" telemetry_columns (telemetry_line <$> records) s.
Definition Heartbeat_body (now : Z) (type : JobType) (job_id : string) s : res (Store F * answer F) :=
  exec_prepared now (heartbeat_statement type) [SText job_id] s.
Definition ReconcileStaleJobs_body (now : Z) (stale_ttl : option Z) s : res (Store F * answer F) :=
  '(s1, _) ← exec_text now ("UPDATE dataset_score_jobs" +:+ stale_suffix stale_ttl) s;
  '(s2, _) ← exec_text now ("UPDATE model_runs" +:+ stale_suffix stale_ttl) s1;
  exec_text now ("UPDATE generation_runs" +:+ stale_suffix stale_ttl) s2.
Definition RunRetentionCleanup_body (now retention_days : Z) s : res (Store F * answer F) :=
  exec_prepared now "call_cleanup" [SInt retention_days] s.
Definition InsertAlert_body (now : Z) (alert : Alert F) s : res (Store F * answer F) :=
  exec_prepared now "insert_alert"
    [SText (a_host_id alert); SText (a_run_id alert); STime (a_timestamp alert / 1000)%Z; SText (a_severity alert);
     SText (a_source alert); SDouble (a_score alert); SText (a_details_json alert)] s.
Definition CreateModelRun_body (now : Z) (dataset_id name : string) (training_config : json F) (request_id : string)
    (hpo_config : json F) (fingerprint generator_version : string) (seed_used : option Z) s : res (Store F * answer F) :=
  exec_prepared now "insert_model_run"
    [SText dataset_id; SText name; SText request_id; jsonb training_config; jsonb_or_null hpo_config;
     text_or_null fingerprint; text_or_null generator_version; opt_value SInt seed_used] s.
Definition CreateHpoTrialRun_body (now : Z) (dataset_id name : string) (training_config : json F)
    (request_id parent_run_id : string) (trial_index : Z) (trial_params : json F) s : res (Store F * answer F) :=
  exec_prepared now "insert_hpo_trial"
    [SText dataset_id; SText name; SText request_id; jsonb training_config; SText parent_run_id; SInt trial_index;
     jsonb trial_params] s.
Definition UpdateModelRunStatus_body (now : Z) (model_run_id status artifact_path error : string) (error_summary : json F) s
    : res (Store F * answer F) :=
  if (status =? "COMPLETED")%string
  then exec_prepared now "update_model_run_completed" [SText status; SText artifact_path; SText model_run_id] s
  else if existsb (String.eqb status) ["FAILED"; "CANCELLED"; "CANCELED"]
  then exec_prepared now "update_model_run_failed"
         [SText status; SText error; jsonb_or_null error_summary; SText model_run_id] s
  else exec_prepared now "update_model_run_status" [SText status; SText model_run_id] s.
Definition UpdateBestTrial_body (now : Z) (parent_run_id best_trial_run_id : string) (best_metric_value : F)
    (best_metric_name best_metric_direction tie_break_basis : string) s : res (Store F * answer F) :=
  exec_prepared now "update_best_trial"
    [SText best_trial_run_id; SDouble best_metric_value; SText best_metric_name; SText best_metric_direction;
     SText tie_break_basis; SText parent_run_id] s.
Definition UpdateTrialEligibility_body (now : Z) (model_run_id : string) (is_eligible : bool) (reason : string) (metric_value : F)
    (source : string) s : res (Store F * answer F) :=
  exec_prepared now "update_trial_eligibility"
    [SBool is_eligible; SText reason; SDouble metric_value; text_or_null source; SText model_run_id] s.
Definition UpdateParentErrorAggregates_body (now : Z) (parent_run_id : string) (error_aggregates : json F) s
    : res (Store F * answer F) :=
  exec_prepared now "update_error_aggregates" [jsonb error_aggregates; SText parent_run_id] s.
Definition TryTransitionScoreJobStatus_body (now : Z) (job_id expected_current next_status : string) s : res (Store F * answer F) :=
  exec_prepared now "transition_score_job_status" [SText next_status; SText job_id; SText expected_current] s.
Definition TryTransitionModelRunStatus_body (now : Z) (model_run_id expected_current next_status : string) s
    : res (Store F * answer F) :=
  exec_prepared now "transition_model_run_status" [SText next_status; SText model_run_id; SText expected_current] s.
Definition CreateInferenceRun_body (now : Z) (model_run_id : string) s : res (Store F * answer F) :=
  exec_prepared now "insert_inference_run" [SText model_run_id] s.
Definition UpdateInferenceRunStatus_body (now : Z) (inference_id status : string) (anomaly_count : Z) (details : json F)
    (latency_ms : F) s : res (Store F * answer F) :=
  exec_prepared now "update_inference_run"
    [SText status; SInt anomaly_count; jsonb details; SDouble latency_ms; SText inference_id] s.
(** An open job is returned without a commit: nothing was written. *)
Definition CreateScoreJob_body (now : Z) (dataset_id model_run_id request_id : string) s : res (Store F * answer F) :=
  '(s1, existing) ← exec_prepared now "check_score_job_exists" [SText dataset_id; SText model_run_id] s;
  match an_rows existing with
  | _ :: _ => Ok (s1, existing)
  | [] => exec_prepared now "insert_score_job" [SText dataset_id; SText model_run_id; SText request_id] s1
  end.
Definition UpdateScoreJob_body (now : Z) (job_id status : string) (total_rows processed_rows last_record_id : Z) (error : string) s
    : res (Store F * answer F) :=
  if (status =? "COMPLETED")%string
  then exec_prepared now "update_score_job_completed"
         [SText status; SInt total_rows; SInt processed_rows; SInt last_record_id; SText job_id] s
  else if negb (error =? "")%string
  then exec_prepared now "update_score_job_error"
         [SText status; SInt total_rows; SInt processed_rows; SInt last_record_id; SText error; SText job_id] s
  else exec_prepared now "update_score_job_status"
         [SText status; SInt total_rows; SInt processed_rows; SInt last_record_id; SText job_id] s.
Definition InsertDatasetScores_body (now : Z) (dataset_id model_run_id : string) (scores : list (Z * (F * bool))) s
    : res (Store F * answer F) :=
  stream_to now "dataset_scores" score_columns (score_line dataset_id model_run_id <$> scores) s.
Definition DeleteDatasetWithScores_body (now : Z) (dataset_id : string) s : res (Store F * answer F) :=
  s' ← fold_res (fun s stmt => fst <$> exec_prepared now stmt [SText dataset_id] s) s delete_statement_names;
  Ok (s', MkAnswer [] 0).

Definition call_body (now : Z) (d : db_call F) s : res (Store F * answer F) :=
  match d with
  | DCreateRun id config j st rq => CreateRun_body now id config j st rq s
  | DUpdateRunStatus id st n e => UpdateRunStatus_body now id st n e s
  | DBatchInsertTelemetry rs => BatchInsertTelemetry_body now rs s
  | DHeartbeat ty id => Heartbeat_body now ty id s
  | DReconcileStaleJobs ttl => ReconcileStaleJobs_body now ttl s
  | DRunRetentionCleanup days => RunRetentionCleanup_body now days s
  | DInsertAlert a => InsertAlert_body now a s
  | DCreateModelRun ds n tc rq hpo fp gv seed => CreateModelRun_body now ds n tc rq hpo fp gv seed s
  | DCreateHpoTrialRun ds n tc rq p i ps => CreateHpoTrialRun_body now ds n tc rq p i ps s
  | DUpdateModelRunStatus id st path e sm => UpdateModelRunStatus_body now id st path e sm s
  | DUpdateBestTrial p b v n dir tie => UpdateBestTrial_body now p b v n dir tie s
  | DUpdateTrialEligibility id b why v src => UpdateTrialEligibility_body now id b why v src s
  | DUpdateParentErrorAggregates p e => UpdateParentErrorAggregates_body now p e s
  | DTryTransition ScoreJob id e n => TryTransitionScoreJobStatus_body now id e n s
  | DTryTransition _ id e n => TryTransitionModelRunStatus_body now id e n s
  | DCreateInferenceRun m => CreateInferenceRun_body now m s
  | DUpdateInferenceRunStatus id st n d ms => UpdateInferenceRunStatus_body now id st n d ms s
  | DCreateScoreJob ds m rq => CreateScoreJob_body now ds m rq s
  | DUpdateScoreJob id st t p l e => UpdateScoreJob_body now id st t p l e s
  | DInsertDatasetScores ds m sc => InsertDatasetScores_body now ds m sc s
  | DDeleteDatasetWithScores ds => DeleteDatasetWithScores_body now ds s
  end.

(** [res[0][0]], or the empty string of an empty result. *)
Definition first_value (a : answer F) : sql F := match an_rows a with (v :: _) :: _ => v | _ => SText "" end.
(** What the caller gets: the id of a new row, whether a transition won, that
    an exception is rethrown, or nothing. *)
Definition result_of (d : db_call F) (r : res (answer F)) : res (sql F) :=
  match d with
  | DCreateModelRun _ _ _ _ _ _ _ _ | DCreateHpoTrialRun _ _ _ _ _ _ _ | DCreateInferenceRun _ | DCreateScoreJob _ _ _ =>
      a ← r; Ok (first_value a)
  | DTryTransition _ _ _ _ =>
      Ok (SBool match r with Ok a => (0 <? an_affected a)%Z | Throw _ => false end)
  | DBatchInsertTelemetry _ | DInsertDatasetScores _ _ _ | DDeleteDatasetWithScores _ => _ ← r; Ok SNull
  | _ => Ok SNull
  end.
Definition run_call c (d : db_call F) s : Store F * res (sql F) :=
  let '(s', r) :=
    match d with
    | DBatchInsertTelemetry [] | DInsertDatasetScores _ _ [] => (s, Ok (MkAnswer [] 0))
    | _ => work c (call_body (c_now c) d) s
    end in
  (s', result_of d r).

(** The same of the calls of DbClient.v. *)
Definition call_result c (d : db_call F) s : res (sql F) :=
  match d with
  | DCreateModelRun ds n tc rq hpo fp gv seed => SText <$> (CreateModelRun c ds n tc rq hpo fp gv seed s).2
  | DCreateHpoTrialRun ds n tc rq p i ps => SText <$> (CreateHpoTrialRun c ds n tc rq p i ps s).2
  | DCreateInferenceRun m => SText <$> (CreateInferenceRun c m s).2
  | DCreateScoreJob ds m rq => SText <$> (CreateScoreJob c ds m rq s).2
  | DTryTransition ty id e n => Ok (SBool (try_transition ty c id e n s).2)
  | DBatchInsertTelemetry rs => _ ← (BatchInsertTelemetry c rs s).2; Ok SNull
  | DInsertDatasetScores ds m sc => _ ← (InsertDatasetScores c ds m sc s).2; Ok SNull
  | DDeleteDatasetWithScores ds => _ ← (DeleteDatasetWithScores c ds s).2; Ok SNull
  | _ => Ok SNull
  end.

Fixpoint run_calls (step : Call -> db_call F -> Store F -> Store F * res (sql F)) (ds : list (Call * db_call F)) s
    : Store F * list (res (sql F)) :=
  match ds with
  | [] => (s, [])
  | (c, d) :: ds' =>
      let '(s1, r) := step c d s in let '(s2, rs) := run_calls step ds' s1 in (s2, r :: rs)
  end.
End calls.

(** ** Each call executes its statements

    Closed facts about the texts and the schema hold by computation; the tactics
    leave what depends on the arguments. *)
Ltac where_text := intros; cbn [forallb existsb fst snd]; rewrite ?sql_eqb_text, ?andb_true_r; reflexivity.
Ltac exec_update :=
  prepared_statement;
  match goal with
  | |- context [exec ?now ?args (Update ?t ?sets ?w) ?s] =>
      match goal with
      | |- context [update_rows t ?q (set_columns ?L) s] =>
          let E := fresh "E" in
          assert (exec now args (Update t sets w) s
                  = Ok ((update_rows t q (set_columns L) s).1, MkAnswer [] (update_rows t q (set_columns L) s).2)) as E;
          [eapply exec_update; [reflexivity|reflexivity|where_text|reflexivity|cells|reflexivity|reflexivity]
          |rewrite E; clear E]
      end
  end.

(** The row of an INSERT of the model is the row of the statement. *)
Ltac exec_insert :=
  match goal with
  | |- context [insert_row ?t (new_row ?L) ?s1] =>
      match goal with
      | |- context [mapR ?f (zip ?cols ?es)] =>
          let E := fresh "E" in
          assert (mapR f (zip cols es) = Ok (reorder cols L)) as E;
          [first [reflexivity | cbn; repeat match goal with Hr : _ = Some _ |- _ => rewrite Hr end; reflexivity]|];
          rewrite E; clear E; cbn [mbind res_bind]
      end;
      match goal with
      | |- context [insert_values ?now t (reorder ?cols L) ?ret ?s] =>
          rewrite (insert_values_eq now t cols ret s1 L s); [|reflexivity|reflexivity|cells|reflexivity]
      end
  end.

Section runs.
Context {F : Type} `{Num F} `{Postgres} `{PgInput F}.
Implicit Types (s : Store F) (c : Call).

Definition agrees c (d : db_call F) s : Prop := run_call c d s = (perform c d s, call_result c d s).

Lemma run_heartbeat c ty id s : agrees c (DHeartbeat ty id) s.
Proof.
  unfold agrees, run_call, call_body, Heartbeat_body, perform, Heartbeat, swallowed, work. destruct (c_fault c) as [|]; [by destruct ty|].
  destruct ty; cbn [heartbeat_statement heartbeat_target]; by exec_update.
Qed.
Lemma run_update_run_status c id st n e s : int64 n = true -> agrees c (DUpdateRunStatus id st n e) s.
Proof.
  intros Hn. unfold agrees, run_call, call_body, UpdateRunStatus_body, perform, UpdateRunStatus, swallowed, work. destruct (c_fault c); [done|].
  destruct (e =? "")%string; cbn [negb app]; by exec_update.
Qed.
Lemma run_update_model_run_status c id st path e sm s : agrees c (DUpdateModelRunStatus id st path e sm) s.
Proof.
  unfold agrees, run_call, call_body, UpdateModelRunStatus_body, perform, UpdateModelRunStatus, swallowed, work. destruct (c_fault c); [done|].
  destruct (st =? "COMPLETED")%string; [by exec_update|].
  destruct (existsb (String.eqb st) _); [|by exec_update].
  unfold jsonb_or_null. destruct (json_empty sm); by exec_update.
Qed.
Lemma run_update_trial_eligibility c id b why v src s : agrees c (DUpdateTrialEligibility id b why v src) s.
Proof.
  unfold agrees, run_call, call_body, UpdateTrialEligibility_body, perform, UpdateTrialEligibility, swallowed, work. destruct (c_fault c); [done|].
  by exec_update.
Qed.
Lemma run_update_aggregates c p e s : agrees c (DUpdateParentErrorAggregates p e) s.
Proof.
  unfold agrees, run_call, call_body, UpdateParentErrorAggregates_body, perform, UpdateParentErrorAggregates, swallowed, work. destruct (c_fault c); [done|].
  by exec_update.
Qed.
Lemma run_transition c ty id e n s : agrees c (DTryTransition ty id e n) s.
Proof.
  unfold agrees, run_call, perform, call_result. rewrite try_transition_eq. unfold call_body, TryTransitionScoreJobStatus_body, TryTransitionModelRunStatus_body, work.
  destruct (c_fault c); [by destruct ty|].
  destruct ty; cbn [job_target transition_columns fst snd]; by exec_update.
Qed.
Lemma run_update_inference c id st n d ms s : int32 n = true -> agrees c (DUpdateInferenceRunStatus id st n d ms) s.
Proof.
  intros Hn. unfold agrees, run_call, call_body, UpdateInferenceRunStatus_body, perform, UpdateInferenceRunStatus, swallowed, work.
  destruct (c_fault c); [done|]. by exec_update.
Qed.
Lemma run_update_score_job c id st t p l e s : int64 t = true -> int64 p = true -> int64 l = true ->
  agrees c (DUpdateScoreJob id st t p l e) s.
Proof.
  intros Ht Hp Hl. unfold agrees, run_call, call_body, UpdateScoreJob_body, perform, UpdateScoreJob, swallowed, work. destruct (c_fault c); [done|].
  destruct (st =? "COMPLETED")%string; [|destruct (e =? "")%string]; cbn [negb app]; by exec_update.
Qed.

(** INSERT: the values of the statement and the defaults make the row. *)
Lemma run_create_run c id config j st rq s :
  int32 (host_count config) = true -> int32 (interval_seconds config) = true -> int64 (rq_seed config) = true ->
  agrees c (DCreateRun id config j st rq) s.
Proof.
  intros Hh Hi Hs. unfold agrees, run_call, call_body, CreateRun_body, perform, CreateRun, swallowed, work. destruct (c_fault c); [done|].
  prepared_statement. erewrite exec_insert by reflexivity.
  destruct (timestamptz_in (start_time_iso config)) as [t1|] eqn:E1; [|cbn; by rewrite E1].
  destruct (timestamptz_in (end_time_iso config)) as [t2|] eqn:E2; [|cbn; by rewrite E1, E2].
  cbn [or_sql_error mbind res_bind]. exec_insert.
  rewrite (existsb_ext_on _ (text_is "run_id" id)).
  - destruct (existsb _ _); [done|]. by destruct (insert_row _ _ s).
  - intros r _. transitivity (sql_eqb (column r "run_id") (SText id) && true); [reflexivity|].
    by rewrite sql_eqb_text, andb_true_r.
Qed.

Ltac new_row_inserted s c k :=
  rewrite (fresh_key s _ c k);
  [|assumption|reflexivity|reflexivity|reflexivity|first [apply new_uuid | apply new_record | apply new_score]].

Lemma run_insert_alert c a s : valid s -> agrees c (DInsertAlert a) s.
Proof.
  intros Hv. unfold agrees, run_call, call_body, InsertAlert_body, perform, InsertAlert, swallowed, work. destruct (c_fault c); [done|].
  prepared_statement. erewrite exec_insert by reflexivity.
  destruct (jsonb_in (a_details_json a)) as [j|] eqn:E1; [|cbn; by rewrite E1].
  cbn [or_sql_error mbind res_bind]. unfold draw_uuid. exec_insert.
  new_row_inserted s "alert_id" Generated. by destruct (insert_row _ _ _).
Qed.
Lemma run_create_model_run c ds n tc rq hpo fp gv seed s : match seed with Some z => int64 z | None => true end = true ->
  valid s -> agrees c (DCreateModelRun ds n tc rq hpo fp gv seed) s.
Proof.
  intros Hs Hv. unfold agrees, run_call, call_body, CreateModelRun_body, perform, call_result, CreateModelRun, work. destruct (c_fault c); [done|].
  prepared_statement. erewrite exec_insert by reflexivity. unfold draw_uuid, model_run_defaults. cbn [app].
  unfold jsonb_or_null. destruct (json_empty hpo).
  all: exec_insert.
  all: new_row_inserted s "model_run_id" Generated; by destruct (insert_row _ _ _).
Qed.
Lemma run_create_trial c ds n tc rq p i ps s : int32 i = true -> valid s -> agrees c (DCreateHpoTrialRun ds n tc rq p i ps) s.
Proof.
  intros Hi Hv. unfold agrees, run_call, call_body, CreateHpoTrialRun_body, perform, call_result, CreateHpoTrialRun, work. destruct (c_fault c); [done|].
  prepared_statement. erewrite exec_insert by reflexivity. unfold draw_uuid, model_run_defaults. cbn [app]. exec_insert.
  new_row_inserted s "model_run_id" Generated. by destruct (insert_row _ _ _).
Qed.
Lemma run_create_inference c m s : valid s -> agrees c (DCreateInferenceRun m) s.
Proof.
  intros Hv. unfold agrees, run_call, call_body, CreateInferenceRun_body, perform, call_result, CreateInferenceRun, work. destruct (c_fault c); [done|].
  prepared_statement. erewrite exec_insert by reflexivity. unfold draw_uuid. exec_insert.
  new_row_inserted s "inference_id" Generated. by destruct (insert_row _ _ _).
Qed.
Lemma run_best_trial c p b v n dir tie s : agrees c (DUpdateBestTrial p b v n dir tie) s.
Proof.
  unfold agrees, run_call, call_body, UpdateBestTrial_body, perform, UpdateBestTrial, swallowed, work. destruct (c_fault c); [done|].
  prepared_statement.
  match goal with |- context [update_rows ?t ?q (set_columns ?L) ?s] => erewrite (exec_update_checked _ _ t _ _ L _ q s) end.
  - destruct (update_rows _ _ _ s) as [s' k]. by destruct (all_references_ok s' _).
  - reflexivity.
  - reflexivity.
  - where_text.
  - reflexivity.
  - cells.
  - reflexivity.
  - reflexivity.
Qed.
Lemma run_retention c days s : agrees c (DRunRetentionCleanup days) s.
Proof.
  unfold agrees, run_call, call_body, RunRetentionCleanup_body, perform, RunRetentionCleanup, swallowed, work. destruct (c_fault c); [done|].
  prepared_statement. cbn -[cleanup_old_telemetry]. by destruct (cleanup_old_telemetry _ _ _ s).
Qed.

(** ** Rows streamed into a table *)
Lemma stream_fold {A} now t cols (line : A -> list (sql F)) (step : Store F -> A -> res (Store F)) (P : A -> bool) xs s :
  (forall s x, valid s -> P x = true -> stream_line now t cols s (line x) = step s x) ->
  (forall s x s', valid s -> P x = true -> step s x = Ok s' -> valid s') -> valid s -> forallb P xs = true ->
  fold_res (stream_line now t cols) s (line <$> xs) = fold_res step s xs.
Proof.
  intros Hline Hstep. revert s. induction xs as [|x xs IH]; intros s Hv; cbn; [done|]. intros [Hx Hxs]%andb_true_iff.
  rewrite Hline by done. destruct (step s x) as [s'|e] eqn:E; cbn; [|done]. apply IH; [|done]. by apply (Hstep s x s').
Qed.
Lemma stream_record now s (r : TelemetryRecord F) : valid s ->
  stream_line now "host_telemetry_archival" telemetry_columns s (telemetry_line r) = insert_record s r.
Proof.
  intros Hv. unfold stream_line, insert_record, draw_record_id, telemetry_row.
  destruct (jsonb_in (r_labels_json r)) as [j|] eqn:E1; [|cbn; by rewrite E1].
  cbn [negb or_sql_error mbind res_bind Nat.eqb length telemetry_columns telemetry_line].
  destruct (v_sequences s Hv) as [Hp _]. assert ((0 <? next_record_id s)%Z = true) by lia.
  exec_insert. new_row_inserted s "record_id" RecordSequence. by destruct (insert_row _ _ _).
Qed.
Lemma run_batch_insert c rs s : valid s -> agrees c (DBatchInsertTelemetry rs) s.
Proof.
  intros Hv. destruct rs as [|r0 rs]; [done|]. unfold agrees, run_call, call_body, BatchInsertTelemetry_body, perform, call_result, BatchInsertTelemetry, work.
  destruct (c_fault c); [done|]. unfold stream_to. 
  rewrite (stream_fold _ _ _ _ insert_record (fun _ => true));
    [by destruct (fold_res insert_record s (r0 :: rs))|intros; by apply stream_record| |done|by apply forallb_forall].
  eauto using insert_record_valid.
Qed.
Lemma stream_score c ds m s (e : Z * (F * bool)) : valid s -> int64 e.1 = true ->
  stream_line (c_now c) "dataset_scores" score_columns s (score_line ds m e) = insert_score c ds m s e.
Proof.
  intros Hv He. unfold stream_line, insert_score, draw_score_id, score_row.
  cbn [negb mbind res_bind Nat.eqb length score_columns score_line].
  destruct (v_sequences s Hv) as [_ Hp]. assert ((0 <? next_score_id s)%Z = true) by lia.
  exec_insert. new_row_inserted s "score_id" ScoreSequence. by destruct (insert_row _ _ _).
Qed.
Lemma run_insert_scores c ds m sc s : forallb (fun e : Z * (F * bool) => int64 e.1) sc = true -> valid s ->
  agrees c (DInsertDatasetScores ds m sc) s.
Proof.
  intros Hids Hv. destruct sc as [|e0 sc]; [done|]. unfold agrees, run_call, call_body, InsertDatasetScores_body, perform, call_result, InsertDatasetScores, work.
  destruct (c_fault c); [done|]. unfold stream_to.
  rewrite (stream_fold _ _ _ _ (insert_score c ds m) (fun e => int64 e.1));
    [by destruct (fold_res (insert_score c ds m) s (e0 :: sc))|intros; by apply stream_score| |done|done].
  intros. by eapply insert_score_valid.
Qed.

Lemma run_open_score_jobs now ds m s : exec_prepared now "check_score_job_exists" [SText ds; SText m] s =
  Ok (s, MkAnswer (project ["job_id"] (open_score_jobs ds m s)) (zlen (open_score_jobs ds m s))).
Proof.
  prepared_statement.
  etrans; [eapply (exec_select now _ ["job_id"] "dataset_score_jobs" _ _
             (fun r => text_is "dataset_id" ds r && text_is "model_run_id" m r && text_in "status" ["PENDING"; "RUNNING"] r));
           [reflexivity|reflexivity|]|reflexivity].
  intros r. cbn [forallb existsb fst snd]. rewrite !sql_eqb_text, orb_false_r, andb_true_r, andb_assoc.
  unfold text_in. cbn [existsb]. by rewrite orb_false_r.
Qed.
Lemma run_create_score_job c ds m rq s : valid s -> agrees c (DCreateScoreJob ds m rq) s.
Proof.
  intros Hv. unfold agrees, run_call, call_body, CreateScoreJob_body, perform, call_result, CreateScoreJob, insert_score_job, work.
  destruct (c_fault c); [done|]. rewrite run_open_score_jobs. cbn [mbind res_bind an_rows].
  destruct (open_score_jobs ds m s) as [|r l] eqn:El; cbn [project fmap list_fmap].
  - prepared_statement. erewrite exec_insert by reflexivity. unfold draw_uuid. exec_insert.
    new_row_inserted s "job_id" Generated. by destruct (insert_row _ _ _).
  - assert (r ∈ open_score_jobs ds m s) as [_ Hr]%list_elem_of_filter by (rewrite El; left).
    pose proof (v_typed s Hv _ _ Hr "job_id") as Ht. cbn. unfold text_of.
    destruct (column r "job_id"); try discriminate Ht. done.
Qed.

(** ** Deletion *)
Lemma run_delete now stmt t w key ds s : prepared stmt = Some (Delete t w) -> (params_of (Delete t w) =? 1)%nat = true ->
  where_holds (F := F) now [SText ds] (column_type t) w = Ok (fun r => forallb (fun p => p r) [fun r => sql_eqb (column r key) (SText ds)]) ->
  fst <$> exec_prepared now stmt [SText ds] s = delete_rows t (text_is key ds) s.
Proof.
  intros Hst Hn Hw. rewrite (exec_prepared_eq now stmt [SText ds] _ s Hst Hn). eapply exec_delete; [exact Hw|]. where_text.
Qed.
Lemma run_delete_dataset c ds s : agrees c (DDeleteDatasetWithScores ds) s.
Proof.
  unfold agrees, run_call, call_body, DeleteDatasetWithScores_body, perform, call_result, DeleteDatasetWithScores, work. destruct (c_fault c); [done|].
  assert (fold_res (fun s stmt => fst <$> exec_prepared (c_now c) stmt [SText ds] s) s delete_statement_names
          = fold_res (fun s tc => delete_rows tc.1 (text_is tc.2 ds) s) s dataset_columns) as ->.
  { apply (fold_res_zip (fun stmt tc => forall s, fst <$> exec_prepared (c_now c) stmt [SText ds] s = delete_rows tc.1 (text_is tc.2 ds) s));
      [done|].
    repeat (apply Forall2_cons; split; [intros s'; cbn [fst snd]; eapply run_delete; [vm_compute; reflexivity|reflexivity..]|]).
    constructor. }
  by destruct (fold_res _ s dataset_columns).
Qed.

(** ** The sweep *)
Definition sweep_statement t (ttl : option Z) : statement :=
  Update t [("status", Text "FAILED"); ("error", Text (stale_error ttl)); ("updated_at", Now)]
    (OneOf "status" [Text "RUNNING"; Text "PENDING"]
     :: match ttl with Some n => [Less "updated_at" (Ago (pretty n +:+ " seconds"))] | None => [] end).

(** Lex a text that begins with a closed one. *)
Ltac lex_piece :=
  rewrite lex_app;
  match goal with |- context [lex_prefix ?st ?p] => let v := eval vm_compute in (lex_prefix st p) in change (lex_prefix st p) with v end;
  cbv beta iota.
Lemma lex_interval (z : Z) : lex (InText "") (pretty z +:+ " seconds'") = Some [TText (pretty z +:+ " seconds")].
Proof.
  rewrite lex_app, lex_quoted by (by apply without_pretty). change (" seconds'") with (" seconds" +:+ "'").
  by rewrite lex_app, lex_quoted.
Qed.
Lemma parse_sweep u t ttl : (u, t) ∈ [("UPDATE dataset_score_jobs", "dataset_score_jobs"); ("UPDATE model_runs", "model_runs");
    ("UPDATE generation_runs", "generation_runs")] ->
  parse (u +:+ stale_suffix ttl) = Some (sweep_statement t ttl).
Proof.
  intros Hu. rewrite !elem_of_cons, elem_of_nil in Hu.
  destruct Hu as [[= -> ->]|[[= -> ->]|[[= -> ->]|[]]]]; (destruct ttl as [z|]; [|vm_compute; reflexivity]);
    unfold parse, stale_suffix, stale_condition; do 6 lex_piece; rewrite lex_interval; reflexivity.
Qed.
Lemma interval_seconds (z : Z) : interval_in (pretty z +:+ " seconds") = Some (z * 1000000)%Z.
Proof.
  destruct (read_pretty_Z z " seconds") as (neg & digits & Hs & Hd & Hz); [done|].
  unfold interval_in. rewrite Hs, Hd. cbn [mbind option_bind]. cbv zeta. rewrite Hz. by rewrite String.eqb_refl.
Qed.
Definition sweep_where (now : Z) (ttl : option Z) : list (Row F -> bool) :=
  (fun r => existsb (fun cv => sql_eqb (column r "status") cv.2) [("status", SText "RUNNING"); ("status", SText "PENDING")])
  :: match ttl with Some z => [fun r => sql_ltb (column r "updated_at") (STime (now - z * 1000000))] | None => [] end.
Lemma sweep_where_stale now ttl r t : row_typed t r -> column_type t "updated_at" = Some (NOT_NULL TIMESTAMPTZ) ->
  forallb (fun p => p r) (sweep_where now ttl) = is_stale now ttl r.
Proof.
  intros Hr Ht. specialize (Hr "updated_at"). rewrite Ht in Hr. unfold sweep_where, is_stale, text_in, time_of.
  cbn [forallb existsb snd]. rewrite !sql_eqb_text. f_equal. destruct ttl as [z|]; [|done]. cbn [forallb]. rewrite andb_true_r.
  by destruct (column r "updated_at").
Qed.
Lemma run_sweep now u t ttl s : (u, t) ∈ [("UPDATE dataset_score_jobs", "dataset_score_jobs"); ("UPDATE model_runs", "model_runs");
    ("UPDATE generation_runs", "generation_runs")] -> valid s ->
  exists n, exec_text now (u +:+ stale_suffix ttl) s = Ok (sweep_table now ttl t s, MkAnswer [] n).
Proof.
  intros Hu Hv. unfold exec_text. rewrite (parse_sweep u t ttl Hu). unfold sweep_statement, sweep_table, fail_row.
  eexists. rewrite !elem_of_cons, elem_of_nil in Hu.
  eapply (exec_update _ _ _ _ _ [("status", SText "FAILED"); ("error", SText (stale_error ttl)); ("updated_at", STime now)]
            (fun r => forallb (fun p => p r) (sweep_where now ttl)));
    destruct Hu as [[= -> ->]|[[= -> ->]|[[= -> ->]|[]]]]; try reflexivity.
  all: try (intros r Hr; eapply sweep_where_stale; [by apply (v_typed s Hv)|reflexivity]).
  all: destruct ttl as [z|]; [|reflexivity].
  all: unfold where_holds; cbn -[interval_in pretty]; rewrite interval_seconds; reflexivity.
Qed.
Lemma run_reconcile c ttl s : valid s -> agrees c (DReconcileStaleJobs ttl) s.
Proof.
  intros Hv. unfold agrees, run_call, call_body, ReconcileStaleJobs_body, perform, ReconcileStaleJobs, swallowed, work. destruct (c_fault c); [done|].
  assert (forall t s, valid s -> t ∈ ["generation_runs"; "model_runs"; "dataset_score_jobs"] -> valid (sweep_table (c_now c) ttl t s)) as Hs.
  { intros t s' Hs' Ht. revert t Ht. apply Forall_forall. unfold sweep_table, fail_row.
    repeat (apply Forall_cons_2; [apply (plain_update_valid _ _ _ s'); done|]). apply Forall_nil_2. }
  destruct (run_sweep (c_now c) "UPDATE dataset_score_jobs" "dataset_score_jobs" ttl s) as [n1 ->]; [left|done|].
  cbn [mbind res_bind].
  destruct (run_sweep (c_now c) "UPDATE model_runs" "model_runs" ttl (sweep_table (c_now c) ttl "dataset_score_jobs" s)) as [n2 ->];
    [by do 1 right; left|apply Hs; [done|by do 2 right; left]|].
  cbn [mbind res_bind].
  edestruct (run_sweep (c_now c) "UPDATE generation_runs" "generation_runs" ttl) as [n3 ->]; [by do 2 right; left| |done].
  apply Hs; [apply Hs; [done|by do 2 right; left]|by do 1 right; left].
Qed.

Lemma run_call_agrees c d s : arguments_ok d = true -> valid s -> agrees c d s.
Proof.
  intros Ha Hv. destruct d; cbn [arguments_ok] in Ha;
    repeat match goal with Hx : _ && _ = true |- _ => apply andb_true_iff in Hx as [? ?] end;
    auto using run_heartbeat, run_update_run_status, run_update_model_run_status, run_update_trial_eligibility, run_update_aggregates,
      run_transition, run_update_inference, run_update_score_job, run_create_run, run_insert_alert, run_create_model_run,
      run_create_trial, run_create_inference, run_best_trial, run_retention, run_batch_insert, run_insert_scores,
      run_create_score_job, run_delete_dataset, run_reconcile.
Qed.
End runs.

(** C5: the statements do what the calls are specified to do.  Take any
    sequence of calls of the client that write, with any faults and any
    arguments in the range of their types, from the empty database on.  Run the
    texts the client prepares or builds, parsed and executed with the arguments
    in the order they are passed, and the rows it streams, against the types,
    the NOT NULL constraints, the defaults, the keys and the references of the
    schema: every statement exists, takes the number of parameters it is given
    and meets the column types, and store and answers are those of the calls of
    DbClient, call by call. *)
Theorem statements_implement_the_calls {F} `{Num F} `{Postgres} `{PgInput F} (ds : list (Call * db_call F))
  (Hargs : forallb (fun cd => arguments_ok cd.2) ds = true) :
  run_calls run_call ds empty_store = run_calls (fun c d s => (perform c d s, call_result c d s)) ds empty_store /\
  (run_calls run_call ds empty_store).1 = perform_all ds empty_store.
Proof.
  assert (forall s, valid s -> run_calls run_call ds s = run_calls (fun c d s => (perform c d s, call_result c d s)) ds s /\
            (run_calls run_call ds s).1 = perform_all ds s) as Hall; [|apply Hall, empty_valid].
  revert Hargs. induction ds as [|[c d] ds IH]; intros Hargs s Hv; [done|].
  cbn [forallb snd] in Hargs. apply andb_true_iff in Hargs as [Ha Hargs].
  destruct (IH Hargs (perform c d s)) as [E1 E2]; [by apply perform_valid|].
  cbn [run_calls]. rewrite (run_call_agrees c d s Ha Hv).
  cbv beta iota. rewrite E1 in E2.
  rewrite E1.
  destruct (run_calls (fun c d s => (perform c d s, call_result c d s)) ds (perform c d s)) as [s2 rs]. split; [done|exact E2].
Qed.

(** ** Instances *)
#[local] Existing Instance pg_example.
#[local] Existing Instance pg_input_example.
Definition more_calls_example : list (Call * db_call float) :=
  calls_example ++ ((fun d => (call_example 100000000, d)) <$>
    [DTryTransition ModelRun "id-0" "FAILED" "RUNNING"; DReconcileStaleJobs (Some 60%Z); DDeleteDatasetWithScores "ds"]).

Lemma statements_implement_the_calls_witness :
  (run_calls run_call more_calls_example empty_store).1 = perform_all more_calls_example empty_store /\
  (run_calls run_call more_calls_example empty_store).2 =
    [Ok SNull; Ok SNull; Ok (SText "id-0"); Ok (SText "id-1"); sql_error "insert violates foreign key constraint"; Ok SNull;
     Ok (SText "id-2"); Ok SNull; Ok SNull; Ok (SBool true); Ok SNull; Ok SNull].
Proof.
  destruct (statements_implement_the_calls more_calls_example) as [E1 E2]; [vm_compute; reflexivity|].
  split; [exact E2|]. rewrite E1. vm_compute. reflexivity.
Defined.
