(* ===== verification/PreparedReads.v ===== *)
(** The getters of DbClient that execute one prepared SELECT, the way the code
    reads its rows: by position, in the order of the columns the text of the
    statement lists. *)
From stdpp Require Import base gmap strings list fin_maps.
From Stdlib Require Import ZArith Lia Floats.
From S2P Require Import Prelude Num Detectors Json Generator Sql DbClient DbFacts ScoreStore Queries QueryFacts Schema SqlText SqlExec Prepared.

Local Open Scope string_scope.
Local Open Scope list_scope.

Section reads.
Context {F : Type} `{Num F} `{Postgres} `{PgInput F} `{!Server F}.
Implicit Types (s : Store F) (c : Call) (row : list (sql F)).

(** [N.exec(...)] on a [pqxx::nontransaction]; the server scans a table in an
    order of its own. *)
Definition select_prepared c (stmt : string) (args : list (sql F)) s : res (list (list (sql F))) :=
  query c s (fun s => a ← exec_prepared_scanning (scan c) (c_now c) stmt args s; Ok (an_rows a.2)).

(** The rows a statement returns. *)
Definition read_statement c (st : statement) (args : list (sql F)) s : res (list (list (sql F))) :=
  query c s (fun s => a ← exec_scanning (scan c) (c_now c) args st s; Ok (an_rows a.2)).

(** [j["key"] = row[i].as<T>()]: the key, the position, the conversion. *)
Definition position : Type := string * nat * conv.
Definition value_at (i : nat) row : res (sql F) :=
  match row !! i with Some v => Ok v | None => Throw (Exn OtherException "column index out of range") end.
Fixpoint read_positions (ps : list position) row (acc : list (string * json F)) : list (string * json F) * option exn :=
  match ps with
  | [] => (acc, None)
  | (key, i, k) :: ps' =>
      match v ← value_at i row; convert k v with
      | Ok j => read_positions ps' row (obj_insert key j acc)
      | Throw e => (acc, Some e)
      end
  end.
Definition read_values (ps : list position) row : json F * option exn := let '(l, e) := read_positions ps row [] in (built l, e).
Fixpoint read_all (ps : list position) (found : list (list (sql F))) : list (json F) * option exn :=
  match found with
  | [] => ([], None)
  | row :: found' =>
      match read_values ps row with
      | (j, None) => let '(js, e) := read_all ps found' in (j :: js, e)
      | (_, Some e) => ([], Some e)
      end
  end.

(** The four shapes of getters: one object or all, swallowing exceptions or not. *)
Definition one_object (ps : list position) (found : res (list (list (sql F)))) : json F :=
  match found with Ok (row :: _) => (read_values ps row).1 | _ => JNull end.
Definition one_object_or_throw (ps : list position) (found : res (list (list (sql F)))) : res (json F) :=
  rs ← found;
  match rs with
  | [] => Ok JNull
  | row :: _ => match read_values ps row with (j, None) => Ok j | (_, Some e) => Throw e end
  end.
Definition all_objects (ps : list position) (found : res (list (list (sql F)))) : json F :=
  match found with Ok rs => JArr (read_all ps rs).1 | Throw _ => JArr [] end.
Definition all_objects_or_throw (ps : list position) (found : res (list (list (sql F)))) : res (json F) :=
  rs ← found; match read_all ps rs with (js, None) => Ok (JArr js) | (_, Some e) => Throw e end.

(** ** The getters *)
Definition as_string (v : sql F) : res string := match v with SText x => Ok x | _ => conversion_error end.
Definition as_string_or_empty (v : sql F) : res string := match v with SNull => Ok "" | _ => as_string v end.
Definition as_long (v : sql F) : res Z := match v with SInt z => Ok z | _ => conversion_error end.
Definition as_bool (v : sql F) : res bool := match v with SBool b => Ok b | _ => conversion_error end.
Definition as_number (v : sql F) : res F := match v with SDouble x => Ok x | _ => conversion_error end.

Definition run_status c (run_id : string) s : RunStatus :=
  let failed (n : Z) (e : exn) := MkRunStatus run_id "ERROR" n (exn_what e) "" in
  match select_prepared c "get_run_status" [SText run_id] s with
  | Throw e => failed 0%Z e
  | Ok [] => MkRunStatus run_id "" 0%Z "" ""
  | Ok (row :: _) =>
      match v ← value_at 0 row; as_string v with
      | Throw e => failed 0%Z e
      | Ok status =>
          match v ← value_at 1 row; as_long v with
          | Throw e => failed 0%Z e
          | Ok inserted =>
              match v ← value_at 2 row; error ← as_string_or_empty v; w ← value_at 3 row; rq ← as_string_or_empty w; Ok (error, rq) with
              | Throw e => failed inserted e
              | Ok (error, request_id) => MkRunStatus run_id status inserted error request_id
              end
          end
      end
  end.

Definition model_run_positions : list position :=
  [("model_run_id", 0, AsText); ("dataset_id", 1, AsText); ("name", 2, AsText); ("status", 3, AsText);
   ("artifact_path", 4, AsTextOrEmpty); ("error", 5, AsTextOrEmpty); ("created_at", 6, AsText);
   ("completed_at", 7, AsTextOrEmpty); ("request_id", 8, AsTextOrEmpty); ("training_config", 9, AsJsonOrObject);
   ("hpo_config", 10, AsJsonOrNull); ("parent_run_id", 11, AsTextOrNull); ("trial_index", 12, AsIntOrNull);
   ("trial_params", 13, AsJsonOrNull); ("best_trial_run_id", 14, AsTextOrNull); ("best_metric_value", 15, AsDoubleOrNull);
   ("best_metric_name", 16, AsTextOrNull); ("selection_metric_direction", 17, AsTextOrNull);
   ("tie_break_basis", 18, AsTextOrNull); ("is_eligible", 19, AsBool); ("eligibility_reason", 20, AsTextOrNull);
   ("selection_metric_value", 21, AsDoubleOrNull); ("candidate_fingerprint", 22, AsTextOrNull);
   ("generator_version", 23, AsTextOrNull); ("seed_used", 24, AsIntOrNull); ("error_summary", 25, AsJsonOrNull);
   ("error_aggregates", 26, AsJsonOrNull); ("selection_metric_source", 27, AsTextOrNull);
   ("selection_metric_computed_at", 28, AsTextOrNull)].
Definition model_run c (model_run_id : string) s : json F :=
  one_object model_run_positions (select_prepared c "get_model_run" [SText model_run_id] s).

Definition trial_positions : list position :=
  [("model_run_id", 0, AsText); ("status", 1, AsText); ("trial_index", 2, AsInt); ("trial_params", 3, AsJson);
   ("created_at", 4, AsText); ("completed_at", 5, AsTextOrEmpty); ("error", 6, AsTextOrEmpty); ("is_eligible", 7, AsBool);
   ("eligibility_reason", 8, AsTextOrNull); ("selection_metric_value", 9, AsDoubleOrNull);
   ("selection_metric_source", 10, AsTextOrNull); ("error_summary", 11, AsJsonOrNull); ("dataset_id", 12, AsText);
   ("name", 13, AsText); ("training_config", 14, AsJsonOrObject)].
Definition hpo_trials c (parent_run_id : string) (limit offset : Z) s : json F :=
  all_objects trial_positions
    (select_prepared c "get_hpo_trials_paginated" [SText parent_run_id; SInt limit; SInt offset] s).

Definition inference_positions : list position :=
  [("inference_id", 0, AsText); ("model_run_id", 1, AsText); ("status", 2, AsText); ("anomaly_count", 3, AsInt);
   ("latency_ms", 4, AsDoubleOrZero); ("details", 5, AsJsonOrArray); ("created_at", 6, AsText)].
Definition inference_run c (inference_id : string) s : json F :=
  one_object inference_positions (select_prepared c "get_inference_run" [SText inference_id] s).

Definition score_job_positions : list position :=
  [("job_id", 0, AsText); ("dataset_id", 1, AsText); ("model_run_id", 2, AsText); ("status", 3, AsText);
   ("total_rows", 4, AsInt); ("processed_rows", 5, AsInt); ("last_record_id", 6, AsInt); ("error", 7, AsTextOrEmpty);
   ("created_at", 8, AsText); ("updated_at", 9, AsText); ("completed_at", 10, AsTextOrEmpty);
   ("request_id", 11, AsTextOrEmpty)].
Definition score_job_object c (job_id : string) s : json F :=
  one_object score_job_positions (select_prepared c "get_score_job" [SText job_id] s).

Definition dataset_positions : list position :=
  [("run_id", 0, AsText); ("status", 1, AsText); ("inserted_rows", 2, AsInt); ("created_at", 3, AsText);
   ("start_time", 4, AsText); ("end_time", 5, AsText); ("interval_seconds", 6, AsInt); ("host_count", 7, AsInt);
   ("tier", 8, AsText); ("error", 9, AsTextOrEmpty); ("request_id", 10, AsTextOrEmpty)].
Definition dataset_object c (run_id : string) s : res (json F) :=
  one_object_or_throw dataset_positions (select_prepared c "get_dataset_detail" [SText run_id] s).

Definition sample_positions : list position :=
  [("cpu_usage", 0, AsDouble); ("memory_usage", 1, AsDouble); ("disk_utilization", 2, AsDouble);
   ("network_rx_rate", 3, AsDouble); ("network_tx_rate", 4, AsDouble); ("timestamp", 5, AsText); ("host_id", 6, AsText)].
Definition dataset_samples c (run_id : string) (limit : Z) s : res (json F) :=
  all_objects_or_throw sample_positions (select_prepared c "get_dataset_samples" [SText run_id; SInt limit] s).
Definition dataset_record c (run_id : string) (record_id : Z) s : json F :=
  one_object (sample_positions ++ [("labels", 7, AsJson)])
    (select_prepared c "get_dataset_record" [SText run_id; SInt record_id] s).

Definition dataset_model_positions : list position :=
  [("model_run_id", 0, AsText); ("name", 1, AsText); ("status", 2, AsText); ("created_at", 3, AsText)].
Definition models_for_dataset c (dataset_id : string) s : json F :=
  all_objects dataset_model_positions (select_prepared c "get_models_for_dataset" [SText dataset_id] s).

Definition scoring_row_at row : res (ScoringRow F) :=
  id ← (v ← value_at 0 row; as_long v); an ← (v ← value_at 1 row; as_bool v); cpu ← (v ← value_at 2 row; as_number v);
  mem ← (v ← value_at 3 row; as_number v); disk ← (v ← value_at 4 row; as_number v); rx ← (v ← value_at 5 row; as_number v);
  tx ← (v ← value_at 6 row; as_number v); Ok (MkScoringRow id an cpu mem disk rx tx).
Definition scoring_rows c (dataset_id : string) (last_record_id limit : Z) s : res (list (ScoringRow F)) :=
  rs ← select_prepared c "fetch_scoring_rows" [SText dataset_id; SInt last_record_id; SInt limit] s;
  mapR scoring_row_at rs.
Definition record_count c (dataset_id : string) s : res Z :=
  rs ← select_prepared c "get_dataset_record_count" [SText dataset_id] s;
  match rs with [] => Ok 0%Z | row :: _ => v ← value_at 0 row; as_long v end.
End reads.

(** ** Reading by position is reading by name *)
Section read_lemmas.
Context {F : Type} `{Num F} `{Postgres} `{PgInput F} `{!Server F}.
Implicit Types (s : Store F) (c : Call) (r : Row F).

Definition fields_at (cols : list string) (ps : list position) : list field :=
  (fun p => (p.1.1, default "" (cols !! p.1.2), p.2)) <$> ps.
Definition in_range (cols : list string) (ps : list position) : bool := forallb (fun p : position => (p.1.2 <? length cols)%nat) ps.

Lemma read_positions_eq cols ps r acc : in_range cols ps = true ->
  read_positions ps (column r <$> cols) acc = read_fields (fields_at cols ps) r acc.
Proof.
  revert acc. induction ps as [|[[key i] k] ps IH]; intros acc; [done|]. unfold in_range. cbn [forallb fst snd].
  intros [[c Hc]%Nat.ltb_lt%lookup_lt_is_Some Hps]%andb_true_iff. cbn [read_positions fields_at fmap list_fmap fst snd read_fields].
  unfold value_at. rewrite list_lookup_fmap, Hc. cbn [fmap option_fmap option_map default mbind res_bind].
  unfold id. destruct (convert k (column r c)); [by apply IH|done].
Qed.
Lemma read_values_eq cols ps r : in_range cols ps = true ->
  read_values ps (column r <$> cols) = read_row (fields_at cols ps) r.
Proof. intros Hps. unfold read_values, read_row. by rewrite (read_positions_eq cols). Qed.
Lemma read_all_eq cols ps (rs : list (Row F)) : in_range cols ps = true ->
  read_all ps (project cols rs) = read_rows (fields_at cols ps) rs.
Proof.
  intros Hps. unfold project. induction rs as [|r rs IH]; [done|]. cbn [fmap list_fmap read_all read_rows].
  rewrite (read_values_eq cols) by done. destruct (read_row _ r) as [j [e|]]; [done|]. by rewrite IH.
Qed.

(** What a SELECT returns: the matching rows in the order it asks for, cut. *)
Lemma select_rows_eq c now args cols types (rs : list (Row F)) w o l f (p q : Row F -> bool) (order : list (Row F) -> list (Row F))
    (limit : option Z) (offset : Z) :
  forallb (has_column types) (cols ++ match o with Some (c, _) => [c] | None => [] end) = true ->
  where_holds now args types w = Ok p -> (forall r, r ∈ rs -> p r = q r) ->
  (forall rs' : list (Row F), (forall r, r ∈ rs' -> r ∈ rs /\ q r = true) -> sorted_by o rs' = order rs') ->
  (forall n, count_arg now args n l = Ok (default n limit)) -> count_arg now args 0 f = Ok offset ->
  select_rows (scan c) now args cols types rs w o l f =
    (let rs := order (scan c (filter (fun r => q r = true) rs)) in
     rs' ← limit_offset (default (zlen rs) limit) offset rs; Ok (MkAnswer (project cols rs') (zlen rs'))).
Proof.
  intros Hcols Hp Hpq Ho Hl Hf. unfold select_rows. rewrite Hcols, Hp. cbn [negb mbind res_bind].
  assert (filter (fun r => p r = true) rs = filter (fun r => q r = true) rs) as -> by (by apply filter_ext_on).
  rewrite Ho; [|intros r Hr; rewrite (scan_perm c) in Hr; by apply list_elem_of_filter in Hr as [? ?]].
  by rewrite Hl, Hf.
Qed.
Lemma read_statement_eq c args cols t w o l f (p q : Row F -> bool) (order : list (Row F) -> list (Row F))
    (limit : option Z) (offset : Z) s :
  forallb (has_column (column_type t)) (cols ++ match o with Some (c, _) => [c] | None => [] end) = true ->
  where_holds (c_now c) args (column_type t) w = Ok p -> (forall r, r ∈ rows s t -> p r = q r) ->
  (forall rs : list (Row F), (forall r, r ∈ rs -> r ∈ rows s t /\ q r = true) -> sorted_by o rs = order rs) ->
  (forall n, count_arg (c_now c) args n l = Ok (default n limit)) -> count_arg (c_now c) args 0 f = Ok offset ->
  read_statement c (Select cols t w o l f) args s =
  query c s (fun s =>
    let rs := order (scan c (filter (fun r => q r = true) (rows s t))) in
    rs' ← limit_offset (default (zlen rs) limit) offset rs; Ok (project cols rs')).
Proof.
  intros Hcols Hp Hpq Ho Hl Hf. unfold read_statement, query. destruct (c_fault c); [done|]. cbn [exec_scanning].
  rewrite (select_rows_eq c _ _ _ _ _ _ _ _ _ p q order limit offset Hcols Hp Hpq Ho Hl Hf). cbv zeta.
  by destruct (limit_offset _ _ _).
Qed.
Lemma select_prepared_eq c stmt args cols t w o l f (p q : Row F -> bool) (order : list (Row F) -> list (Row F))
    (limit : option Z) (offset : Z) s :
  prepared stmt = Some (Select cols t w o l f) -> (params_of (Select cols t w o l f) =? length args)%nat = true ->
  forallb (has_column (column_type t)) (cols ++ match o with Some (c, _) => [c] | None => [] end) = true ->
  where_holds (c_now c) args (column_type t) w = Ok p -> (forall r, r ∈ rows s t -> p r = q r) ->
  (forall rs : list (Row F), (forall r, r ∈ rs -> r ∈ rows s t /\ q r = true) -> sorted_by o rs = order rs) ->
  (forall n, count_arg (c_now c) args n l = Ok (default n limit)) -> count_arg (c_now c) args 0 f = Ok offset ->
  select_prepared c stmt args s =
  query c s (fun s =>
    let rs := order (scan c (filter (fun r => q r = true) (rows s t))) in
    rs' ← limit_offset (default (zlen rs) limit) offset rs; Ok (project cols rs')).
Proof.
  intros Hst Hn Hcols Hp Hpq Ho Hl Hf. rewrite <- (read_statement_eq c args cols t w o l f p q order limit offset s Hcols Hp Hpq Ho Hl Hf).
  unfold select_prepared, read_statement, exec_prepared_scanning. by rewrite Hst, Hn.
Qed.
End read_lemmas.

(** ** Each getter executes its statement *)
Lemma std_sort_ext {A} (lt lt' : A -> A -> bool) l : (forall a b, a ∈ l -> b ∈ l -> lt a b = lt' a b) -> std_sort lt l = std_sort lt' l.
Proof.
  assert (forall x l', (forall a, a ∈ l' -> lt a x = lt' a x) -> sort_insert lt x l' = sort_insert lt' x l') as Hins.
  { intros x l'. induction l' as [|y l' IH]; intros Hx; [done|]. cbn. rewrite (Hx y) by left.
    destruct (lt' y x); [|done]. f_equal. apply IH. intros a Ha. apply Hx. by right. }
  induction l as [|x l IH]; intros Hl; [done|]. cbn [std_sort foldr]. fold (std_sort lt l) (std_sort lt' l).
  rewrite IH by (intros; apply Hl; by right). apply Hins. intros a Ha. apply Hl; [right|left].
  by rewrite (std_sort_perm lt') in Ha.
Qed.
Lemma scan_short {F A} `{!Server F} c (l : list A) : length l <= 1 -> scan c l = l.
Proof.
  intros Hl. pose proof (scan_perm c l) as Hp. destruct l as [|x [|y l]]; [by apply Permutation_nil_r|by apply Permutation_singleton_r|].
  cbn in Hl. lia.
Qed.

Section getters.
Context {F : Type} `{Num F} `{Postgres} `{PgInput F} `{!Server F}.
Implicit Types (s : Store F) (c : Call) (r : Row F).

Lemma keyed_rows t key k v s : valid s -> key_of t = Some (key, k) -> length (where_is t key v s) <= 1.
Proof.
  intros Hv Hk. destruct (v_keys s Hv t key k Hk) as [Hnd _]. revert Hnd. unfold key_values, where_is.
  induction (rows s t) as [|r l IH]; [cbn; lia|]. cbn [fmap list_fmap]. intros [Hn Hnd]%NoDup_cons. rewrite filter_cons.
  destruct (decide (text_is key v r = true)) as [Hr|]; [|by apply IH]. cbn [length].
  destruct (filter _ l) as [|r' l'] eqn:E; [cbn; lia|]. exfalso. apply Hn.
  assert (r' ∈ filter (fun r => text_is key v r = true) l) as [Hr' Hin]%list_elem_of_filter by (rewrite E; left).
  apply text_is_true in Hr, Hr'. rewrite Hr, <- Hr'. by apply (list_elem_of_fmap_2 (fun r => column r key)).
Qed.

(** SELECT of the row with an id. *)
Lemma select_by_key c stmt cols t w key k id s :
  prepared stmt = Some (Select cols t w None None None) -> (params_of (Select cols t w None None None) =? 1)%nat = true ->
  forallb (has_column (column_type t)) (cols ++ []) = true ->
  where_holds (F := F) (c_now c) [SText id] (column_type t) w = Ok (fun r => forallb (fun p => p r) [fun r => sql_eqb (column r key) (SText id)]) ->
  key_of t = Some (key, k) -> valid s ->
  select_prepared c stmt [SText id] s = query c s (fun s => Ok (project cols (where_is t key id s))).
Proof.
  intros Hst Hn Hcols Hw Hk Hv.
  rewrite (select_prepared_eq c stmt [SText id] cols t w None None None _ (text_is key id) (fun rs => rs) None 0 s Hst Hn Hcols Hw);
    [|where_text|done|done|done].
  unfold query. destruct (c_fault c); [done|]. fold (where_is t key id s).
  rewrite scan_short by (by eapply keyed_rows). cbn [default]. by rewrite limit_all.
Qed.
Lemma one_object_eq c cols ps fs s (found : Store F -> list (Row F)) : in_range cols ps = true -> fields_at cols ps = fs ->
  one_object ps (query c s (fun s => Ok (project cols (found s)))) = get_one c fs (found s).
Proof.
  intros Hps <-. unfold query, get_one. destruct (c_fault c); [done|]. destruct (found s) as [|r l]; [done|].
  cbn [project fmap list_fmap one_object]. by rewrite (read_values_eq cols).
Qed.
Lemma one_object_or_throw_eq c cols ps fs s (found : Store F -> list (Row F)) : in_range cols ps = true -> fields_at cols ps = fs ->
  one_object_or_throw ps (query c s (fun s => Ok (project cols (found s)))) = get_one_or_throw c fs (found s).
Proof.
  intros Hps <-. unfold query, get_one_or_throw. destruct (c_fault c); [done|]. destruct (found s) as [|r l]; [done|].
  cbn [project fmap list_fmap one_object_or_throw mbind res_bind]. by rewrite (read_values_eq cols).
Qed.

Ltac by_key key k :=
  erewrite (select_by_key _ _ _ _ _ key k); [|vm_compute; reflexivity|reflexivity|reflexivity|reflexivity|reflexivity|assumption].

Lemma read_model_run c id s : valid s -> model_run c id s = GetModelRun c id s.
Proof. intros Hv. unfold model_run. by_key "model_run_id" Generated. by apply one_object_eq. Qed.
Lemma read_inference_run c id s : valid s -> inference_run c id s = GetInferenceRun c id s.
Proof. intros Hv. unfold inference_run. by_key "inference_id" Generated. by apply one_object_eq. Qed.
Lemma read_score_job c id s : valid s -> score_job_object c id s = GetScoreJob c id s.
Proof. intros Hv. unfold score_job_object. by_key "job_id" Generated. by apply one_object_eq. Qed.
Lemma read_dataset c id s : valid s -> dataset_object c id s = GetDatasetDetail c id s.
Proof. intros Hv. unfold dataset_object. by_key "run_id" Given. by apply one_object_or_throw_eq. Qed.
Lemma read_run_status c id s : valid s -> run_status c id s = GetRunStatus c id s.
Proof.
  intros Hv. unfold run_status, GetRunStatus. by_key "run_id" Given. unfold query. destruct (c_fault c); [done|].
  fold (where_is "generation_runs" "run_id" id s). destruct (where_is "generation_runs" "run_id" id s) as [|r l] eqn:E; [done|].
  assert (r ∈ where_is "generation_runs" "run_id" id s) as [_ Hr]%list_elem_of_filter by (rewrite E; left).
  pose proof (v_typed s Hv _ _ Hr) as Ht. pose proof (Ht "status") as H3'. pose proof (Ht "inserted_rows") as H4'.
  pose proof (Ht "error") as H5'. pose proof (Ht "request_id") as H6'.
  cbn [project fmap list_fmap value_at lookup list_lookup mbind res_bind]. unfold value_at. cbn [lookup list_lookup mbind res_bind].
  unfold text_of, int_of.
  destruct (column r "status"); try discriminate H3'. destruct (column r "inserted_rows"); try discriminate H4'.
  destruct (column r "error"); try discriminate H5'; destruct (column r "request_id"); try discriminate H6'; done.
Qed.

(** SELECT of many rows. *)
Lemma all_objects_eq c cols ps fs s (found : Store F -> res (list (Row F))) : in_range cols ps = true -> fields_at cols ps = fs ->
  all_objects ps (query c s (fun s => rs ← found s; Ok (project cols rs))) = Queries.answer fs (query c s found).
Proof.
  intros Hps <-. unfold query, Queries.answer, all_objects. destruct (c_fault c); [done|].
  destruct (found s) as [rs|]; [|done]. cbn [mbind res_bind]. by rewrite read_all_eq.
Qed.
Lemma all_objects_or_throw_eq c cols ps fs s (found : Store F -> res (list (Row F))) : in_range cols ps = true ->
  fields_at cols ps = fs ->
  all_objects_or_throw ps (query c s (fun s => rs ← found s; Ok (project cols rs))) = answer_or_throw fs (query c s found).
Proof.
  intros Hps <-. unfold query, answer_or_throw, all_objects_or_throw. destruct (c_fault c); [done|].
  destruct (found s) as [rs|]; [|done]. cbn [mbind res_bind]. by rewrite read_all_eq.
Qed.
(** On typed columns the comparisons of SQL are those of the model. *)
(** A column that holds a time in every row. *)
Definition timed (rs : list (Row F)) (col : string) : Prop := forall r, r ∈ rs -> exists z, column r col = STime z.
Lemma table_timed t col s : valid s -> column_type t col = Some (NOT_NULL TIMESTAMPTZ) -> timed (rows s t) col.
Proof.
  intros Hv Hc r Hr%(v_typed s Hv). specialize (Hr col). rewrite Hc in Hr. destruct (column r col); try discriminate Hr. by eexists.
Qed.
Lemma sorted_times col (desc : bool) (rs : list (Row F)) : timed rs col ->
  sorted_by (Some (col, if desc then Desc else Asc)) rs = std_sort (if desc then latest_first col else earliest_first col) rs.
Proof.
  intros Htime. destruct desc; cbn [sorted_by]; apply std_sort_ext; unfold latest_first, earliest_first, time_of;
    intros a b [x ->]%Htime [y ->]%Htime; done.
Qed.
Lemma sorted_ints col (rs : list (Row F)) : (forall r, r ∈ rs -> exists z, column r col = SInt z) ->
  sorted_by (Some (col, Asc)) rs = std_sort (fun a b => (int_of col a <? int_of col b)%Z) rs.
Proof.
  intros Hrs. cbn [sorted_by]. apply std_sort_ext. unfold int_of. intros a b [x ->]%Hrs [y ->]%Hrs. done.
Qed.
Lemma int_column t col ty nn r : row_typed t r -> column_type t col = Some (ty, nn) ->
  match ty with INT | BIGINT | BIGSERIAL => nn = true \/ column r col <> SNull | _ => False end -> exists z, column r col = SInt z.
Proof.
  intros Hr Hc. specialize (Hr col). rewrite Hc in Hr. destruct ty; try done; intros Hnn;
    destruct (column r col); try discriminate Hr; try (by eexists); destruct Hnn as [->|?]; done.
Qed.

Lemma read_hpo_trials c p limit offset s : valid s -> hpo_trials c p limit offset s = GetHpoTrialsPaginated c p limit offset s.
Proof.
  intros Hv. unfold hpo_trials.
  erewrite (select_prepared_eq _ _ _ _ "model_runs" _ _ _ _ _ (text_is "parent_run_id" p) (std_sort by_trial_index) (Some limit) offset);
    [|vm_compute; reflexivity|reflexivity|reflexivity|reflexivity|where_text| |done|done].
  - by apply (all_objects_eq c _ _ _ s (fun s => select c (text_is "parent_run_id" p) by_trial_index limit offset (rows s "model_runs"))).
  - intros rs Hrs. apply sorted_ints. intros r [Hr Hp]%Hrs. apply (int_column "model_runs" _ INT false); [by apply (v_typed s)|done|].
    right. apply text_is_true in Hp. pose proof (v_trials s Hv _ _ Hr) as Ht. unfold trial_ok in Ht. rewrite Hp in Ht.
    intros E. rewrite E in Ht. discriminate Ht.
Qed.
Lemma read_dataset_samples c id limit s : valid s -> dataset_samples c id limit s = GetDatasetSamples c id limit s.
Proof.
  intros Hv. unfold dataset_samples.
  erewrite (select_prepared_eq _ _ _ _ "host_telemetry_archival" _ _ _ _ _ (text_is "run_id" id)
              (std_sort (latest_first "metric_timestamp")) (Some limit) 0);
    [|vm_compute; reflexivity|reflexivity|reflexivity|reflexivity|where_text| |done|done].
  - by apply (all_objects_or_throw_eq c _ _ _ s (fun s => select c (text_is "run_id" id) (latest_first "metric_timestamp") limit 0
                (rows s "host_telemetry_archival"))).
  - intros rs Hrs. apply (sorted_times _ true). intros r [Hr _]%Hrs. by apply (table_timed "host_telemetry_archival" _ s).
Qed.
Lemma read_models_for_dataset c id s : valid s -> models_for_dataset c id s = GetModelsForDataset c id s.
Proof.
  intros Hv. unfold models_for_dataset.
  erewrite (select_prepared_eq _ _ _ _ "model_runs" _ _ _ _ _ (text_is "dataset_id" id) (std_sort (latest_first "created_at")) None 0);
    [|vm_compute; reflexivity|reflexivity|reflexivity|reflexivity|where_text| |done|done].
  - unfold GetModelsForDataset. rewrite <- (all_objects_eq c ["model_run_id"; "name"; "status"; "created_at"]
      dataset_model_positions _ s (fun s => Ok (std_sort (latest_first "created_at") (scan c (where_is "model_runs" "dataset_id" id s)))))
      by done.
    unfold query. destruct (c_fault c); [done|]. cbn [default]. by rewrite limit_all.
  - intros rs Hrs. apply (sorted_times _ true). intros r [Hr _]%Hrs. by apply (table_timed "model_runs" _ s).
Qed.
Lemma read_dataset_record c id rid s : valid s -> dataset_record c id rid s = GetDatasetRecord c id rid s.
Proof.
  intros Hv. unfold dataset_record.
  erewrite (select_prepared_eq _ _ _ _ "host_telemetry_archival" _ _ _ _ _
              (fun r => text_is "run_id" id r && (int_of "record_id" r =? rid)%Z) (fun rs => rs) None 0);
    [|vm_compute; reflexivity|reflexivity|reflexivity|reflexivity| |done|done|done].
  - unfold GetDatasetRecord.
    rewrite <- (one_object_eq c ["cpu_usage"; "memory_usage"; "disk_utilization"; "network_rx_rate"; "network_tx_rate";
        "metric_timestamp"; "host_id"; "labels"] (sample_positions ++ [("labels", 7, AsJson)]) _ s
        (fun s => scan c (filter (fun r => (int_of "record_id" r =? rid)%Z = true) (dataset_rows id s)))) by done.
    unfold query. destruct (c_fault c); [done|]. cbn [default]. rewrite limit_all. cbn [mbind res_bind]. do 4 f_equal.
    unfold dataset_rows, where_is. rewrite list_filter_filter. apply list_filter_iff. intros r. rewrite andb_true_iff. tauto.
  - intros r Hr. cbn [forallb fst snd]. rewrite sql_eqb_text, andb_true_r. f_equal.
    destruct (int_column "host_telemetry_archival" "record_id" BIGSERIAL true r) as [z Hz]; [by apply (v_typed s)|done|by left|].
    unfold int_of. by rewrite Hz.
Qed.
Lemma read_record_count c id s : record_count c id s = GetDatasetRecordCount c id s.
Proof.
  unfold record_count, GetDatasetRecordCount, select_prepared, query. destruct (c_fault c); [done|].
  unfold exec_prepared_scanning.
  let st := eval vm_compute in (prepared "get_dataset_record_count") in
  replace (prepared "get_dataset_record_count") with st by (vm_compute; reflexivity).
  cbn -[zlen sql_eqb]. unfold dataset_rows, where_is. do 2 f_equal. apply list_filter_iff. intros r.
  by rewrite sql_eqb_text, andb_true_r.
Qed.
Lemma limit_offset_in {A} (limit offset : Z) (l l' : list A) x : limit_offset limit offset l = Ok l' -> x ∈ l' -> x ∈ l.
Proof.
  unfold limit_offset. destruct ((_ || _)%bool); [discriminate|]. intros [= <-] [i Hi]%list_elem_of_lookup.
  apply lookup_take_Some in Hi as [Hi _]. rewrite lookup_drop in Hi. by apply list_elem_of_lookup_2 in Hi.
Qed.
(** A typed row of telemetry is read without an exception. *)
Lemma read_scoring_row r : row_typed "host_telemetry_archival" r ->
  scoring_row_at (column r <$> ["record_id"; "is_anomaly"; "cpu_usage"; "memory_usage"; "disk_utilization"; "network_rx_rate";
                                "network_tx_rate"]) = Ok (scoring_row r).
Proof.
  intros Hr. unfold scoring_row_at, scoring_row, value_at. cbn [fmap list_fmap lookup list_lookup mbind res_bind].
  unfold int_of, bool_of, double_of.
  repeat match goal with |- context [column r ?c] =>
    let Hc := fresh "Hc" in pose proof (Hr c) as Hc; destruct (column r c); try discriminate Hc; clear Hc end.
  done.
Qed.
Lemma read_scoring_rows c id from limit s : valid s ->
  scoring_rows c id from limit s = FetchScoringRowsAfterRecord c id from limit s.
Proof.
  intros Hv. unfold scoring_rows.
  set (q := fun r => text_is "run_id" id r && (from <? int_of "record_id" r)%Z).
  assert (forall r, r ∈ rows s "host_telemetry_archival" -> exists z, column r "record_id" = SInt z) as Hid.
  { intros r Hr. apply (int_column "host_telemetry_archival" _ BIGSERIAL true); [by apply (v_typed s)|done|by left]. }
  erewrite (select_prepared_eq _ _ _ _ "host_telemetry_archival" _ _ _ _ _ q (std_sort by_record_id) (Some limit) 0);
    [|vm_compute; reflexivity|reflexivity|reflexivity|reflexivity| | |done|done].
  - unfold FetchScoringRowsAfterRecord, query. destruct (c_fault c); [done|]. cbn [default]. unfold Datatypes.id at 1.
    set (found := filter (fun r => (from <? int_of "record_id" r)%Z = true) (dataset_rows id s)).
    assert (filter (fun r => q r = true) (rows s "host_telemetry_archival") = found) as ->.
    { unfold found, dataset_rows, where_is. rewrite list_filter_filter. apply list_filter_iff. intros r.
      unfold q. rewrite andb_true_iff. tauto. }
    rewrite (sort_arranged (fun _ => True) by_record_id (scan c found) found);
      [|apply (weak_order_key (int_of "record_id"))|by apply Forall_true| |apply scan_perm].
    + destruct (limit_offset limit 0 _) as [rs|e] eqn:El; [|done]. cbn [mbind res_bind]. unfold project.
      apply mapR_fmap. intros r Hr%(limit_offset_in _ _ _ _ _ El). apply read_scoring_row, (v_typed s Hv).
      rewrite (std_sort_perm by_record_id) in Hr. unfold found, dataset_rows, where_is in Hr.
      by apply list_elem_of_filter in Hr as [_ [_ Hr]%list_elem_of_filter].
    + intros a b [_ Ha]%list_elem_of_filter [_ Hb]%list_elem_of_filter Hab Hba. unfold by_record_id in Hab, Hba.
      apply (NoDup_fmap_inj_on (int_of "record_id") (dataset_rows id s)); [by apply valid_record_ids|done|done|lia].
  - intros r Hr. cbn [forallb fst snd]. rewrite sql_eqb_text, andb_true_r. unfold q. f_equal.
    destruct (Hid r Hr) as [z Hz]. unfold int_of. by rewrite Hz.
  - intros rs Hrs. apply sorted_ints. intros r [Hr _]%Hrs. by apply Hid.
Qed.
End getters.

(** C21: the getters read what the text of their statement selects.  In every
    store the services can reach, and whatever order the server scans a table
    in, executing the prepared SELECT of a getter with the arguments it passes
    and reading the rows by the positions it uses gives what the getters of
    DbClient.v and Queries.v give, which read columns by name: run status,
    model run, trials, inference run, score job, dataset, samples, record,
    models of a dataset, rows to score and the number of records. *)
Theorem getters_execute_their_statements {F} `{Num F} `{Postgres} `{PgInput F} `{!Server F} (ds : list (Call * db_call F))
  (Hargs : forallb (fun cd => arguments_ok cd.2) ds = true) (c : Call) (id : string) (n limit offset : Z) :
  let s := perform_all ds empty_store in
  run_status c id s = GetRunStatus c id s /\
  model_run c id s = GetModelRun c id s /\
  hpo_trials c id limit offset s = GetHpoTrialsPaginated c id limit offset s /\
  inference_run c id s = GetInferenceRun c id s /\
  score_job_object c id s = GetScoreJob c id s /\
  dataset_object c id s = GetDatasetDetail c id s /\
  dataset_samples c id limit s = GetDatasetSamples c id limit s /\
  dataset_record c id n s = GetDatasetRecord c id n s /\
  models_for_dataset c id s = GetModelsForDataset c id s /\
  scoring_rows c id n limit s = FetchScoringRowsAfterRecord c id n limit s /\
  record_count c id s = GetDatasetRecordCount c id s.
Proof.
  intros s. assert (valid s) as Hv by by apply perform_all_valid, empty_valid. clearbody s.
  split_and!; auto using read_run_status, read_model_run, read_hpo_trials, read_inference_run, read_score_job, read_dataset,
    read_dataset_samples, read_dataset_record, read_models_for_dataset, read_scoring_rows, read_record_count.
Qed.

(** ** Instances *)
#[local] Existing Instance pg_example.
#[local] Instance pg_input_reads : PgInput float := pg_input_example float.
#[local] Instance server_reads : Server float := server_example float.

(** The run and the trial of the example, and the records to score. *)
Lemma getters_execute_their_statements_witness :
  let s := perform_all calls_example empty_store in
  model_run (call_example 8) "id-0" s = GetModelRun (call_example 8) "id-0" s /\
  match model_run (call_example 8) "id-0" s with JObj l => obj_lookup "best_trial_run_id" l = Some (JStr "id-1") | _ => False end /\
  (map sr_record_id <$> scoring_rows (call_example 8) "ds" 1 10 s) = Ok [2]%Z.
Proof.
  destruct (getters_execute_their_statements calls_example eq_refl (call_example 8) "id-0" 0 0 0) as (_ & Hm & _).
  destruct (getters_execute_their_statements calls_example eq_refl (call_example 8) "ds" 1 10 0)
    as (_ & _ & _ & _ & _ & _ & _ & _ & _ & Hr & _).
  split; [exact Hm|]. split; [rewrite Hm; vm_compute; reflexivity|]. rewrite Hr. vm_compute. reflexivity.
Defined.
