(* ===== verification/QueryText.v ===== *)
(** The queries DbClient builds as text at run time (src/src/db_client.cpp): the
    optional conditions of a list or a search are appended with their argument
    quoted by [pqxx::nontransaction::quote].

    The first part is what the server reads in such a text, whatever the
    arguments are; the second executes the texts. *)
From stdpp Require Import base gmap strings list fin_maps.
From Stdlib Require Import ZArith Lia Ascii Floats.
From S2P Require Import Prelude Strconv Num Detectors Json Generator Sql DbClient DbFacts ScoreStore Queries QueryFacts Schema SqlText SqlExec Prepared PreparedReads.

Local Open Scope string_scope.
Local Open Scope list_scope.

(** ** Quoting

    [quote] belongs to libpqxx.  It fails on texts the encoding of the
    connection does not know; otherwise the server reads its answer as one text,
    the argument up to its first zero byte. *)
Fixpoint until_nul (s : string) : string :=
  match s with "" => "" | String a s' => if (a =? "000")%char then "" else String a (until_nul s') end.
Class Quoting := {
  pq_quote : string -> res string;
  pq_quote_reads s q : pq_quote s = Ok q -> lex_prefix Between q = ([], AfterQuote (until_nul s)) }.

(** Quotes are doubled. *)
Fixpoint doubled (s : string) : string :=
  match s with "" => "" | String a s' => if (a =? "'")%char then String a (String a (doubled s')) else String a (doubled s') end.
Lemma lex_doubled acc s : lex_prefix (InText acc) (doubled s) = ([], InText (acc +:+ s)).
Proof.
  revert acc. induction s as [|a s IH]; intros acc; cbn [doubled]; [by rewrite string_app_nil|].
  destruct (Ascii.eqb_spec a "'") as [->|Ha]; cbn [lex_prefix joined].
  - rewrite Ascii.eqb_refl. cbn [joined]. rewrite Ascii.eqb_refl, IH. by rewrite string_app_assoc.
  - apply Ascii.eqb_neq in Ha. rewrite Ha, IH. by rewrite string_app_assoc.
Qed.
#[local] Instance quoting_example : Quoting.
Proof.
  refine {| pq_quote s := Ok ("'" +:+ doubled (until_nul s) +:+ "'") |}.
  intros s q [= <-]. rewrite lex_prefix_app. change (lex_prefix Between "'") with ([] : list token, InText "").
  cbv beta iota. rewrite lex_prefix_app, lex_doubled. reflexivity.
Defined.

(** ** The texts *)
Section texts.
Context `{Quoting}.

(** [if (!arg.empty()) { where.push_back(pre + N.quote(arg)); }] *)
Definition pushed (pre arg : string) : res (list string) :=
  if (arg =? "")%string then Ok [] else q ← pq_quote arg; Ok [pre +:+ q].
Definition pushed_all (fs : list (string * string)) : res (list string) :=
  l ← mapR (fun f => pushed f.1 f.2) fs; Ok (concat l).
Fixpoint and_text (ws : list string) : string :=
  match ws with [] => "" | [w] => w | w :: ws' => w +:+ " AND " +:+ and_text ws' end.
Definition where_text (ws : list string) : string := match ws with [] => "" | _ => "WHERE " +:+ and_text ws +:+ " " end.

Definition generation_runs_text (status created_from created_to : string) : res string :=
  ws ← pushed_all [("status = ", status); ("created_at >= ", created_from); ("created_at <= ", created_to)];
  Ok ("SELECT run_id, status, inserted_rows, created_at, start_time, end_time, interval_seconds, host_count, tier " +:+
      "FROM generation_runs " +:+ where_text ws +:+ "ORDER BY created_at DESC LIMIT $1 OFFSET $2").
Definition model_runs_text (status dataset_id created_from created_to : string) : res string :=
  ws ← pushed_all [("status = ", status); ("dataset_id = ", dataset_id); ("created_at >= ", created_from);
                   ("created_at <= ", created_to)];
  Ok ("SELECT model_run_id, dataset_id, name, status, artifact_path, error, created_at, completed_at, training_config, " +:+
      "parent_run_id, trial_index, best_trial_run_id, best_metric_value, best_metric_name, " +:+
      "is_eligible, eligibility_reason, selection_metric_value " +:+
      "FROM model_runs " +:+ where_text ws +:+ "ORDER BY created_at DESC LIMIT $1 OFFSET $2").
Definition score_jobs_text (status dataset_id model_run_id created_from created_to : string) : res string :=
  ws ← pushed_all [("status = ", status); ("dataset_id = ", dataset_id); ("model_run_id = ", model_run_id);
                   ("created_at >= ", created_from); ("created_at <= ", created_to)];
  Ok ("SELECT job_id, dataset_id, model_run_id, status, total_rows, processed_rows, last_record_id, error, created_at, updated_at, completed_at " +:+
      "FROM dataset_score_jobs " +:+ where_text ws +:+ "ORDER BY created_at DESC LIMIT $1 OFFSET $2").

Definition inference_runs_text (dataset_id model_run_id status created_from created_to : string) : res string :=
  ws ← pushed_all [("m.dataset_id = ", dataset_id); ("i.model_run_id = ", model_run_id); ("i.status = ", status);
                   ("i.created_at >= ", created_from); ("i.created_at <= ", created_to)];
  Ok ("SELECT i.inference_id, i.model_run_id, m.dataset_id, i.status, i.anomaly_count, i.latency_ms, i.created_at " +:+
      "FROM inference_runs i JOIN model_runs m ON i.model_run_id = m.model_run_id " +:+ where_text ws +:+
      "ORDER BY i.created_at DESC LIMIT $1 OFFSET $2").

(** [if (!arg.empty()) { where += pre + N.quote(arg); }] *)
Definition appended (pre arg : string) (value : string) : res string :=
  if (arg =? "")%string then Ok "" else q ← pq_quote value; Ok (pre +:+ q).
(** The condition of a search, with its direction. *)
Definition search_where_text (run_id : string) (q : search) (sort_dir : string) : res string :=
  r ← pq_quote run_id;
  start ← appended " AND metric_timestamp >= " (q_start_time q) (q_start_time q);
  end_ ← appended " AND metric_timestamp <= " (q_end_time q) (q_end_time q);
  anchor ← appended (if (sort_dir =? "asc")%string then " AND metric_timestamp >= " else " AND metric_timestamp <= ")
             (q_anchor_time q) (q_anchor_time q);
  anomaly ← appended " AND is_anomaly = " (q_is_anomaly q) (if (q_is_anomaly q =? "true")%string then "true" else "false");
  type ← appended " AND anomaly_type = " (q_anomaly_type q) (q_anomaly_type q);
  host ← appended " AND host_id = " (q_host_id q) (q_host_id q);
  region ← appended " AND region = " (q_region q) (q_region q);
  Ok ("WHERE run_id = " +:+ r +:+ start +:+ end_ +:+ anchor +:+ anomaly +:+ type +:+ host +:+ region).
Definition search_text (where_ sort_dir : string) : string :=
  "SELECT record_id, host_id, metric_timestamp, cpu_usage, memory_usage, disk_utilization, " +:+
  "network_rx_rate, network_tx_rate, is_anomaly, anomaly_type, region, project_id, labels " +:+
  "FROM host_telemetry_archival " +:+ where_ +:+ " ORDER BY " +:+ "metric_timestamp" +:+ " " +:+ sort_dir +:+ " LIMIT $1 OFFSET $2".
Definition search_count_text (where_ : string) : string := "SELECT COUNT(*) FROM host_telemetry_archival " +:+ where_.
End texts.

(** ** Reading them

    [reads x ts]: the lexer reads [x] as [ts], the last of them possibly still
    open, to be closed by a space. *)
Definition reads (x : string) (ts : list token) : Prop :=
  exists own st, lex_prefix Between x = (own, st) /\ own ++ flush st = ts /\ joined st " " = None.

Lemma reads_lex x ts : reads x ts -> lex Between x = Some ts.
Proof. intros (own & st & E & <- & Hj). unfold lex. rewrite E. destruct st; done. Qed.
Lemma reads_space x y ts us : reads x ts -> reads y us -> reads (x +:+ " " +:+ y) (ts ++ us).
Proof.
  intros (own & st & E & <- & Hj) (own' & st' & E' & <- & Hj'). exists (own ++ flush st ++ own'), st'.
  rewrite lex_prefix_app, E. change (" " +:+ y) with (String " " y). cbn [lex_prefix]. rewrite Hj.
  change (opened " ") with ([] : list token, Between). cbv beta iota. rewrite E'. by rewrite <- !app_assoc.
Qed.
(** Behind a text that ends with a space. *)
Lemma reads_after p ts y us : lex_prefix Between p = (ts, Between) -> reads y us -> reads (p +:+ y) (ts ++ us).
Proof.
  intros E (own & st & E' & <- & Hj). exists (ts ++ own), st. rewrite lex_prefix_app, E, E'. by rewrite <- app_assoc.
Qed.
Lemma reads_quoted `{Quoting} p ts arg q : lex_prefix Between p = (ts, Between) -> pq_quote arg = Ok q ->
  reads (p +:+ q) (ts ++ [TText (until_nul arg)]).
Proof.
  intros Hp Hq. apply reads_after; [done|]. eexists [], _. split; [by apply pq_quote_reads|done].
Qed.

(** A column as the source writes it. *)
Inductive col := Col (c : string) | Of (alias c : string).
Definition col_tokens (k : col) : list token := match k with Col c => [TWord c] | Of a c => [TWord a; TSym "."; TWord c] end.
Definition col_name (k : col) : string := match k with Col c => c | Of a c => qualified a c end.
(** A condition of a WHERE clause: a column, an operator and a quoted text. *)
Inductive comparison := IsEqual | IsAtLeast | IsAtMost.
Definition condition : Type := col * comparison * string.
Definition sign (k : comparison) : list token :=
  match k with IsEqual => [TSym "="] | IsAtLeast => [TSym ">"; TSym "="] | IsAtMost => [TSym "<"; TSym "="] end.
Definition condition_tokens (k : condition) : list token := (col_tokens k.1.1 ++ sign k.1.2) ++ [TText (until_nul k.2)].
Definition condition_of (k : condition) : cond :=
  (match k.1.2 with IsEqual => Equals | IsAtLeast => AtLeast | IsAtMost => AtMost end) (col_name k.1.1) (Text (until_nul k.2)).
Definition and_tokens : list condition -> list token := joined_by (TWord "AND") condition_tokens.
Definition where_tokens (ks : list condition) : list token := match ks with [] => [] | _ => TWord "WHERE" :: and_tokens ks end.

(** What may follow the conditions. *)
Definition stops (ts : list token) : bool :=
  match ts with
  | [] => true
  | TWord w :: _ => negb (lower w =? "and")%string && negb (lower w =? "where")%string
  | _ => false
  end.
Lemma a_cond_reads k ts : match ts with TSym _ :: _ => false | _ => true end = true ->
  a_cond (condition_tokens k ++ ts) = Some (condition_of k, ts).
Proof. destruct k as [[[] []] x]; destruct ts as [|[] ts]; try done. Qed.
Lemma stops_keyword ts w : stops ts = true -> w = "AND" \/ w = "WHERE" -> keyword w ts = None.
Proof.
  destruct ts as [|[v| | |] ts]; try done. cbn [stops]. intros [Ha%negb_true_iff Hw%negb_true_iff]%andb_true_iff [->| ->];
    by apply keyword_fails.
Qed.
Lemma conditions_read ks ts : ks <> [] -> stops ts = true ->
  listed (keyword "AND") a_cond (and_tokens ks ++ ts) = Some (condition_of <$> ks, ts).
Proof.
  apply (listed_reads _ _ _ _ _ (fun us => stops us = true)); [|apply keyword_reads| |by intros [[[] ?] ?]].
  - intros k us Hus. apply a_cond_reads. destruct Hus as [Hus|[us' ->]]; [by destruct us as [|[] ?]|done].
  - intros us Hus. apply stops_keyword; [done|by left].
Qed.
Lemma where_reads ks ts : stops ts = true -> where_clause (where_tokens ks ++ ts) = Some (condition_of <$> ks, ts).
Proof.
  intros Hts. unfold where_clause, optional. destruct ks as [|k ks]; cbn [where_tokens app].
  - rewrite (bind_reads _ _ _ None ts); [done|]. rewrite orelse_second; [done|].
    by apply bind_fails, bind_fails, stops_keyword; [|right].
  - rewrite (bind_reads _ _ _ (Some (condition_of <$> k :: ks)) ts); [done|]. apply orelse_first.
    rewrite (bind_reads _ _ _ (condition_of <$> k :: ks) ts); [done|].
    erewrite bind_reads by apply keyword_reads. by apply conditions_read.
Qed.

Definition comma_tokens : list col -> list token := joined_by (TSym ",") col_tokens.
Lemma names_read cols ts : cols <> [] -> match ts with TSym _ :: _ => False | _ => True end ->
  commas column_name (comma_tokens cols ++ ts) = Some (col_name <$> cols, ts).
Proof.
  intros Hne Hts. apply (listed_reads _ _ _ _ _ (fun us => match us with TSym _ :: _ => False | _ => True end)); try done.
  - intros [c|a c] [|[] us] [Hus|[us' Hus]]; done || by injection Hus as -> ->.
  - by intros [|[] ?].
  - by intros [].
Qed.
(** SELECT ... FROM ... WHERE ... ORDER BY ... LIMIT $1 OFFSET $2. *)
Definition page_tokens (c : col) (d : string) : list token :=
  [TWord "ORDER"; TWord "BY"] ++ col_tokens c ++ [TWord d; TWord "LIMIT"; TParam 1; TWord "OFFSET"; TParam 2].
Definition select_tokens (cols : list col) (t : string) (ks : list condition) (c : col) (d : string) : list token :=
  TWord "SELECT" :: comma_tokens cols ++ TWord "FROM" :: TWord t :: where_tokens ks ++ page_tokens c d.
Definition page_of (cols : list string) (t : string) (ks : list condition) (o : string * direction) : statement :=
  Select cols t (condition_of <$> ks) (Some o) (Some (Param 1)) (Some (Param 2)).
Lemma page_reads c0 cols t ks c d dir : (lower c0 =? "count")%string = false ->
  (d, dir) ∈ [("DESC", Desc); ("desc", Desc); ("asc", Asc)] ->
  a_statement (select_tokens (Col c0 :: cols) t ks c d) = Some (page_of (col_name <$> Col c0 :: cols) t ks (col_name c, dir), []).
Proof.
  intros Hc Hd. unfold a_statement, select_tokens. do 3 (rewrite orelse_second by done). rewrite orelse_second.
  2:{ unfold a_count. erewrite bind_reads by apply keyword_reads. apply bind_fails. destruct cols; apply keyword_fails; exact Hc. }
  rewrite orelse_second.
  2:{ unfold a_join. erewrite bind_reads by apply keyword_reads. erewrite bind_reads by (by apply names_read).
      erewrite bind_reads by apply keyword_reads. by destruct ks. }
  apply orelse_first. unfold a_select. erewrite bind_reads by apply keyword_reads.
  erewrite bind_reads by (by apply names_read). erewrite bind_reads by apply keyword_reads.
  rewrite (bind_reads _ _ _ t (where_tokens ks ++ page_tokens c d)) by done.
  erewrite bind_reads by (by apply where_reads).
  rewrite !elem_of_cons, elem_of_nil in Hd. by destruct c, Hd as [[= -> ->]|[[= -> ->]|[[= -> ->]|[]]]].
Qed.
(** The same from two tables. *)
Record join := MkJoin { j_table : string; j_alias : string; j_table' : string; j_alias' : string; j_on : col; j_on' : col }.
Definition join_tokens (j : join) : list token :=
  [TWord (j_table j); TWord (j_alias j); TWord "JOIN"; TWord (j_table' j); TWord (j_alias' j); TWord "ON"] ++
  col_tokens (j_on j) ++ TSym "=" :: col_tokens (j_on' j).
Definition select_join_tokens (cols : list col) (j : join) (ks : list condition) (c : col) (d : string) : list token :=
  TWord "SELECT" :: comma_tokens cols ++ TWord "FROM" :: join_tokens j ++ where_tokens ks ++ page_tokens c d.
Definition join_page_of (cols : list string) (j : join) (ks : list condition) (o : string * direction) : statement :=
  SelectJoin cols (j_table j) (j_alias j) (j_table' j) (j_alias' j) (col_name (j_on j), col_name (j_on' j))
    (condition_of <$> ks) (Some o) (Some (Param 1)) (Some (Param 2)).
Lemma column_reads k ts : match ts with TSym _ :: _ => false | _ => true end = true \/ (exists ts', ts = TSym "=" :: ts') ->
  column_name (col_tokens k ++ ts) = Some (col_name k, ts).
Proof. destruct k, ts as [|[] ts]; intros [Hts|[ts' E]]; done || (simplify_eq; done). Qed.
Lemma join_page_reads a0 c0 cols j ks c :
  reserved (j_alias j) = false -> reserved (j_alias' j) = false ->
  a_statement (select_join_tokens (Of a0 c0 :: cols) j ks c "DESC") =
    Some (join_page_of (col_name <$> Of a0 c0 :: cols) j ks (col_name c, Desc), []).
Proof.
  intros Ha Hb. unfold a_statement, select_join_tokens. do 3 (rewrite orelse_second by done). rewrite orelse_second.
  2:{ unfold a_count. erewrite bind_reads by apply keyword_reads. unfold mbind, parser_bind, keyword.
      by destruct cols; cbn [comma_tokens joined_by col_tokens app]; destruct (lower a0 =? lower "COUNT")%string. }
  apply orelse_first. unfold a_join. erewrite bind_reads by apply keyword_reads.
  erewrite bind_reads by (by apply names_read). erewrite bind_reads by apply keyword_reads.
  destruct j as [t a u b on on']. unfold join_tokens. cbn [j_table j_alias j_table' j_alias' j_on j_on' app] in *.
  assert (forall w ts, reserved w = false -> alias (TWord w :: ts) = Some (w, ts)) as Halias
    by (intros w ts Hw; unfold alias; by rewrite Hw).
  erewrite bind_reads by apply name_reads. erewrite bind_reads by (by apply Halias). erewrite bind_reads by apply keyword_reads.
  erewrite bind_reads by apply name_reads. erewrite bind_reads by (by apply Halias). erewrite bind_reads by apply keyword_reads.
  rewrite <- app_assoc. cbn [app]. erewrite bind_reads by (apply column_reads; right; by eexists).
  erewrite bind_reads by apply sym_reads.
  erewrite bind_reads by (apply column_reads; left; by destruct ks).
  erewrite bind_reads by (by apply where_reads). by destruct c.
Qed.

(** ** From the text to the statement *)
Definition when_given (arg : string) (k : condition) : list condition := if (arg =? "")%string then [] else [k].
Definition given_conditions (ks : list condition) : list condition := ks ≫= (fun k => when_given k.2 k).
(** What the source writes before an argument. *)
Definition introduces (pre : string) (k : condition) : Prop :=
  lex_prefix Between pre = (col_tokens k.1.1 ++ sign k.1.2, Between).

Section shapes.
Context `{Quoting}.

Lemma pushed_reads fs ks ws : Forall2 (fun f k => introduces f.1 k /\ f.2 = k.2) fs ks -> pushed_all fs = Ok ws ->
  Forall2 (fun w k => reads w (condition_tokens k)) ws (given_conditions ks).
Proof.
  intros Hfs. revert ws. induction Hfs as [|[pre arg] k fs ks [Hpre Harg] _ IH]; intros ws E; [injection E as <-; constructor|].
  unfold pushed_all in E. cbn [mapR mbind res_bind fst snd] in E. cbn [fst snd] in *. subst arg.
  unfold given_conditions. rewrite bind_cons. destruct (pushed pre k.2) as [w|] eqn:Hw; [|done].
  unfold pushed_all in IH. cbn [mbind res_bind] in E. destruct (mapR _ fs) as [l|]; [|done]. injection E as <-.
  apply Forall2_app; [|by apply IH]. unfold pushed in Hw. unfold when_given. destruct (k.2 =? "")%string; [by injection Hw as <-|].
  destruct (pq_quote k.2) as [q|] eqn:Hq; [|done]. injection Hw as <-. constructor; [|done].
  by apply (reads_quoted pre (col_tokens k.1.1 ++ sign k.1.2)).
Qed.
Lemma and_text_reads ws ks : ws <> [] -> Forall2 (fun w k => reads w (condition_tokens k)) ws ks ->
  reads (and_text ws) (and_tokens ks).
Proof.
  intros Hne Hws. induction Hws as [|w k ws ks Hw Hws IH]; [done|]. destruct Hws as [|w' k' ws ks Hw' Hws]; [done|].
  change (reads (w +:+ " " +:+ ("AND " +:+ and_text (w' :: ws))) (condition_tokens k ++ TWord "AND" :: and_tokens (k' :: ks))).
  apply reads_space; [done|]. apply (reads_after "AND " [TWord "AND"]); [done|]. by apply IH.
Qed.
Lemma where_text_reads ws ks y us : Forall2 (fun w k => reads w (condition_tokens k)) ws ks -> reads y us ->
  reads (where_text ws +:+ y) (where_tokens ks ++ us).
Proof.
  intros Hws Hy. destruct Hws as [|w k ws ks Hw Hws]; [done|]. unfold where_text. rewrite !string_app_assoc.
  apply (reads_after "WHERE " [TWord "WHERE"]); [done|]. apply reads_space; [|done].
  apply and_text_reads; [done|by constructor].
Qed.

(** A list: the fixed part of its text, then the conditions, then the page. *)
Lemma list_shape base front tail c fs ks st text :
  lex_prefix Between base = (front, Between) -> reads tail (page_tokens c "DESC") ->
  a_statement (front ++ where_tokens (given_conditions ks) ++ page_tokens c "DESC") = Some (st, []) ->
  Forall2 (fun f k => introduces f.1 k /\ f.2 = k.2) fs ks ->
  (ws ← pushed_all fs; Ok (base +:+ where_text ws +:+ tail)) = Ok text -> parse text = Some st.
Proof.
  intros Hbase Htail Hst Hfs E. destruct (pushed_all fs) as [ws|] eqn:Hws; [|done]. injection E as <-.
  unfold parse. erewrite reads_lex.
  2:{ eapply reads_after; [exact Hbase|]. eapply where_text_reads; [by eapply pushed_reads|exact Htail]. }
  cbn [mbind option_bind]. by rewrite Hst.
Qed.
Lemma front_of_select cols t ks c d :
  (TWord "SELECT" :: comma_tokens cols ++ [TWord "FROM"; TWord t]) ++ where_tokens ks ++ page_tokens c d = select_tokens cols t ks c d.
Proof. unfold select_tokens. by rewrite <- app_comm_cons, <- app_assoc. Qed.
Lemma front_of_join cols j ks c d :
  (TWord "SELECT" :: comma_tokens cols ++ TWord "FROM" :: join_tokens j) ++ where_tokens ks ++ page_tokens c d = select_join_tokens cols j ks c d.
Proof. unfold select_join_tokens. by rewrite <- app_comm_cons, <- app_assoc. Qed.

(** The conditions of a search. *)
Definition search_conditions (run_id : string) (q : search) (asc : bool) : list condition :=
  (Col "run_id", IsEqual, run_id) ::
  when_given (q_start_time q) (Col "metric_timestamp", IsAtLeast, q_start_time q) ++
  when_given (q_end_time q) (Col "metric_timestamp", IsAtMost, q_end_time q) ++
  when_given (q_anchor_time q) (Col "metric_timestamp", if asc then IsAtLeast else IsAtMost, q_anchor_time q) ++
  when_given (q_is_anomaly q) (Col "is_anomaly", IsEqual, if (q_is_anomaly q =? "true")%string then "true" else "false") ++
  when_given (q_anomaly_type q) (Col "anomaly_type", IsEqual, q_anomaly_type q) ++
  when_given (q_host_id q) (Col "host_id", IsEqual, q_host_id q) ++
  when_given (q_region q) (Col "region", IsEqual, q_region q).
Definition record_columns : list string :=
  ["record_id"; "host_id"; "metric_timestamp"; "cpu_usage"; "memory_usage"; "disk_utilization"; "network_rx_rate";
   "network_tx_rate"; "is_anomaly"; "anomaly_type"; "region"; "project_id"; "labels"].
Definition and_more (ks : list condition) : list token := ks ≫= (fun k => TWord "AND" :: condition_tokens k).
Lemma and_more_tokens k ks : and_tokens (k :: ks) = condition_tokens k ++ and_more ks.
Proof.
  revert k. induction ks as [|k' ks IH]; intros k; [by rewrite app_nil_r|].
  change (and_tokens (k :: k' :: ks)) with (condition_tokens k ++ TWord "AND" :: and_tokens (k' :: ks)). by rewrite IH.
Qed.
Lemma appended_reads pre arg v a k x ts : appended (" " +:+ pre) arg v = Ok a -> reads x ts ->
  lex_prefix Between pre = (TWord "AND" :: col_tokens k.1.1 ++ sign k.1.2, Between) -> v = k.2 ->
  reads (x +:+ a) (ts ++ and_more (when_given arg k)).
Proof.
  unfold appended, when_given. destruct (arg =? "")%string; intros E Hx Hpre ->.
  - injection E as <-. by rewrite string_app_nil, app_nil_r.
  - destruct (pq_quote k.2) as [q|] eqn:Hq; [|done]. injection E as <-.
    change (" " +:+ pre) with (String " " pre). change (String " " pre +:+ q) with (" " +:+ (pre +:+ q)).
    apply reads_space; [done|]. unfold and_more. cbn [mbind list_bind]. rewrite app_nil_r.
    by apply (reads_quoted pre (TWord "AND" :: col_tokens k.1.1 ++ sign k.1.2)).
Qed.
Lemma search_where_reads run_id q (asc : bool) text :
  search_where_text run_id q (if asc then "asc" else "desc") = Ok text ->
  reads text (where_tokens (search_conditions run_id q asc)).
Proof.
  unfold search_where_text. destruct (pq_quote run_id) as [r|] eqn:Hr; [|done]. cbn [mbind res_bind].
  destruct (appended _ (q_start_time q) _) as [a1|] eqn:E1; [|done]. destruct (appended _ (q_end_time q) _) as [a2|] eqn:E2; [|done].
  destruct (appended _ (q_anchor_time q) _) as [a3|] eqn:E3; [|done]. destruct (appended _ (q_is_anomaly q) _) as [a4|] eqn:E4; [|done].
  destruct (appended _ (q_anomaly_type q) _) as [a5|] eqn:E5; [|done]. destruct (appended _ (q_host_id q) _) as [a6|] eqn:E6; [|done].
  destruct (appended _ (q_region q) _) as [a7|] eqn:E7; [|done]. cbn [mbind res_bind]. intros [= <-].
  assert (reads ("WHERE run_id = " +:+ r) (TWord "WHERE" :: condition_tokens (Col "run_id", IsEqual, run_id))) as R
    by (by apply (reads_quoted "WHERE run_id = " [TWord "WHERE"; TWord "run_id"; TSym "="])).
  unfold search_conditions. cbn [where_tokens]. rewrite and_more_tokens. unfold and_more. rewrite !bind_app.
  apply (appended_reads "AND metric_timestamp >= " _ _ _ (Col "metric_timestamp", IsAtLeast, q_start_time q) _ _ E1) in R; [|done..].
  apply (appended_reads "AND metric_timestamp <= " _ _ _ (Col "metric_timestamp", IsAtMost, q_end_time q) _ _ E2) in R; [|done..].
  apply (appended_reads (if asc then "AND metric_timestamp >= " else "AND metric_timestamp <= ") (q_anchor_time q) (q_anchor_time q) a3
    (Col "metric_timestamp", if asc then IsAtLeast else IsAtMost, q_anchor_time q)) in R; [|by destruct asc..].
  apply (appended_reads "AND is_anomaly = " _ _ _ (Col "is_anomaly", IsEqual, if (q_is_anomaly q =? "true")%string then "true" else "false")
    _ _ E4) in R; [|done..].
  apply (appended_reads "AND anomaly_type = " _ _ _ (Col "anomaly_type", IsEqual, q_anomaly_type q) _ _ E5) in R; [|done..].
  apply (appended_reads "AND host_id = " _ _ _ (Col "host_id", IsEqual, q_host_id q) _ _ E6) in R; [|done..].
  apply (appended_reads "AND region = " _ _ _ (Col "region", IsEqual, q_region q) _ _ E7) in R; [|done..].
  rewrite !string_app_assoc, <- !app_comm_cons, <- !app_assoc in R. exact R.
Qed.
Lemma search_shape run_id q (asc : bool) where_ :
  search_where_text run_id q (if asc then "asc" else "desc") = Ok where_ ->
  parse (search_text where_ (if asc then "asc" else "desc")) =
    Some (page_of record_columns "host_telemetry_archival" (search_conditions run_id q asc) ("metric_timestamp", if asc then Asc else Desc)) /\
  parse (search_count_text where_) = Some (SelectCount "host_telemetry_archival" (condition_of <$> search_conditions run_id q asc)).
Proof.
  intros Hw%search_where_reads. remember (search_conditions run_id q asc) as ks eqn:Hks.
  assert (ks <> []) as Hne by (by rewrite Hks). clear Hks. split; unfold parse.
  - assert (reads (where_ +:+ " " +:+ ("ORDER BY metric_timestamp " +:+ (if asc then "asc" else "desc") +:+ " LIMIT $1 OFFSET $2"))
      (where_tokens ks ++ page_tokens (Col "metric_timestamp") (if asc then "asc" else "desc"))) as R.
    { apply reads_space; [done|]. destruct asc;
        by eexists [TWord "ORDER"; TWord "BY"; TWord "metric_timestamp"; _; TWord "LIMIT"; TParam 1; TWord "OFFSET"], (InParam 2). }
    apply (reads_after ("SELECT record_id, host_id, metric_timestamp, cpu_usage, memory_usage, disk_utilization, " +:+
       "network_rx_rate, network_tx_rate, is_anomaly, anomaly_type, region, project_id, labels " +:+ "FROM host_telemetry_archival ")
       (TWord "SELECT" :: comma_tokens (Col <$> record_columns) ++ [TWord "FROM"; TWord "host_telemetry_archival"]))
       in R; [|done].
    rewrite front_of_select in R. apply reads_lex in R. unfold search_text.
    match type of R with lex _ ?x = _ => match goal with |- context [lex _ ?y] => change y with x end end.
    rewrite R. cbn [mbind option_bind].
    pose proof (page_reads "record_id" (Col <$> tail record_columns) "host_telemetry_archival" ks (Col "metric_timestamp")
      (if asc then "asc" else "desc") (if asc then Asc else Desc) eq_refl) as Hp.
    change (Col "record_id" :: (Col <$> tail record_columns)) with (Col <$> record_columns) in Hp.
    rewrite Hp; [done|]. destruct asc; [by do 2 right; left|by right; left].
  - erewrite reads_lex.
    2:{ eapply (reads_after "SELECT COUNT(*) FROM host_telemetry_archival "
          [TWord "SELECT"; TWord "COUNT"; TSym "("; TSym "*"; TSym ")"; TWord "FROM"; TWord "host_telemetry_archival"]); done. }
    cbn [mbind option_bind app]. unfold a_statement. do 3 (rewrite orelse_second by done).
    rewrite (orelse_first _ _ _ (SelectCount "host_telemetry_archival" (condition_of <$> ks), [])); [done|]. unfold a_count. do 2 (erewrite bind_reads by apply keyword_reads).
    rewrite (bind_reads _ _ _ tt (TWord "FROM" :: TWord "host_telemetry_archival" :: where_tokens ks)) by done.
    erewrite bind_reads by apply keyword_reads.
    rewrite (bind_reads _ _ _ "host_telemetry_archival" (where_tokens ks)) by done.
    rewrite <- (app_nil_r (where_tokens ks)). by erewrite bind_reads by (by apply where_reads).
Qed.
End shapes.

(** ** What the server reads, whatever the arguments *)
Definition generation_columns : list string :=
  ["run_id"; "status"; "inserted_rows"; "created_at"; "start_time"; "end_time"; "interval_seconds"; "host_count"; "tier"].
Definition model_columns : list string :=
  ["model_run_id"; "dataset_id"; "name"; "status"; "artifact_path"; "error"; "created_at"; "completed_at"; "training_config";
   "parent_run_id"; "trial_index"; "best_trial_run_id"; "best_metric_value"; "best_metric_name"; "is_eligible";
   "eligibility_reason"; "selection_metric_value"].
Definition job_columns : list string :=
  ["job_id"; "dataset_id"; "model_run_id"; "status"; "total_rows"; "processed_rows"; "last_record_id"; "error"; "created_at";
   "updated_at"; "completed_at"].
Definition generation_conditions (status created_from created_to : string) : list condition :=
  [(Col "status", IsEqual, status); (Col "created_at", IsAtLeast, created_from); (Col "created_at", IsAtMost, created_to)].
Definition model_conditions (status dataset_id created_from created_to : string) : list condition :=
  [(Col "status", IsEqual, status); (Col "dataset_id", IsEqual, dataset_id); (Col "created_at", IsAtLeast, created_from);
   (Col "created_at", IsAtMost, created_to)].
Definition job_conditions (status dataset_id model_run_id created_from created_to : string) : list condition :=
  [(Col "status", IsEqual, status); (Col "dataset_id", IsEqual, dataset_id); (Col "model_run_id", IsEqual, model_run_id);
   (Col "created_at", IsAtLeast, created_from); (Col "created_at", IsAtMost, created_to)].
Definition inference_columns : list col :=
  [Of "i" "inference_id"; Of "i" "model_run_id"; Of "m" "dataset_id"; Of "i" "status"; Of "i" "anomaly_count"; Of "i" "latency_ms";
   Of "i" "created_at"].
Definition inference_join : join :=
  MkJoin "inference_runs" "i" "model_runs" "m" (Of "i" "model_run_id") (Of "m" "model_run_id").
Definition inference_conditions (dataset_id model_run_id status created_from created_to : string) : list condition :=
  [(Of "m" "dataset_id", IsEqual, dataset_id); (Of "i" "model_run_id", IsEqual, model_run_id); (Of "i" "status", IsEqual, status);
   (Of "i" "created_at", IsAtLeast, created_from); (Of "i" "created_at", IsAtMost, created_to)].

Section shape_of_lists.
Context `{Quoting}.
Ltac list_query ks base tail c front :=
  apply (list_shape base front tail c _ ks);
  [vm_compute; reflexivity
  |eexists _, (InParam 2); split; [vm_compute; reflexivity|done]
  |
  |repeat (constructor; [split; [vm_compute; reflexivity|done]|]); constructor].
Ltac list_of ks cols t base :=
  list_query ks base "ORDER BY created_at DESC LIMIT $1 OFFSET $2" (Col "created_at")
    (TWord "SELECT" :: comma_tokens (Col <$> cols) ++ [TWord "FROM"; TWord t]);
  rewrite front_of_select; apply page_reads; [reflexivity|by left].

Lemma generation_runs_shape status from to text : generation_runs_text status from to = Ok text ->
  parse text = Some (page_of generation_columns "generation_runs" (given_conditions (generation_conditions status from to)) ("created_at", Desc)).
Proof.
  list_of (generation_conditions status from to) generation_columns "generation_runs"
    ("SELECT run_id, status, inserted_rows, created_at, start_time, end_time, interval_seconds, host_count, tier " +:+
      "FROM generation_runs ").
Qed.
Lemma model_runs_shape status dataset_id from to text : model_runs_text status dataset_id from to = Ok text ->
  parse text = Some (page_of model_columns "model_runs" (given_conditions (model_conditions status dataset_id from to)) ("created_at", Desc)).
Proof.
  list_of (model_conditions status dataset_id from to) model_columns "model_runs"
    ("SELECT model_run_id, dataset_id, name, status, artifact_path, error, created_at, completed_at, training_config, " +:+
      "parent_run_id, trial_index, best_trial_run_id, best_metric_value, best_metric_name, " +:+
      "is_eligible, eligibility_reason, selection_metric_value " +:+ "FROM model_runs ").
Qed.
Lemma score_jobs_shape status dataset_id model_run_id from to text : score_jobs_text status dataset_id model_run_id from to = Ok text ->
  parse text = Some (page_of job_columns "dataset_score_jobs"
    (given_conditions (job_conditions status dataset_id model_run_id from to)) ("created_at", Desc)).
Proof.
  list_of (job_conditions status dataset_id model_run_id from to) job_columns "dataset_score_jobs"
    ("SELECT job_id, dataset_id, model_run_id, status, total_rows, processed_rows, last_record_id, error, created_at, updated_at, completed_at " +:+
      "FROM dataset_score_jobs ").
Qed.
Lemma inference_runs_shape dataset_id model_run_id status from to text :
  inference_runs_text dataset_id model_run_id status from to = Ok text ->
  parse text = Some (join_page_of (col_name <$> inference_columns) inference_join
    (given_conditions (inference_conditions dataset_id model_run_id status from to)) ("i.created_at", Desc)).
Proof.
  list_query (inference_conditions dataset_id model_run_id status from to)
    ("SELECT i.inference_id, i.model_run_id, m.dataset_id, i.status, i.anomaly_count, i.latency_ms, i.created_at " +:+
      "FROM inference_runs i JOIN model_runs m ON i.model_run_id = m.model_run_id ")
    "ORDER BY i.created_at DESC LIMIT $1 OFFSET $2" (Of "i" "created_at")
    (TWord "SELECT" :: comma_tokens inference_columns ++ TWord "FROM" :: join_tokens inference_join).
  rewrite front_of_join. apply (join_page_reads "i" "inference_id" (tail inference_columns)); reflexivity.
Qed.
End shape_of_lists.

(** C22: an argument of a request cannot change a query.  Whatever texts the
    caller gives, with quotes, semicolons or comments in them, a query that is
    built is read by the server as the statement the code means: the columns,
    the tables, the order and the page are the fixed ones, and there is one
    condition per argument that is not empty, in the order of the code, that
    compares a fixed column with the argument (up to its first zero byte) as a
    text.  So for the four lists, and for both statements of a search. *)
Theorem arguments_stay_texts `{Quoting} (status dataset_id model_run_id from to run_id : string) (q : search) (asc : bool) :
  let dir := if asc then "asc" else "desc" in
  (forall x, generation_runs_text status from to = Ok x ->
     parse x = Some (page_of generation_columns "generation_runs"
       (given_conditions (generation_conditions status from to)) ("created_at", Desc))) /\
  (forall x, model_runs_text status dataset_id from to = Ok x ->
     parse x = Some (page_of model_columns "model_runs"
       (given_conditions (model_conditions status dataset_id from to)) ("created_at", Desc))) /\
  (forall x, score_jobs_text status dataset_id model_run_id from to = Ok x ->
     parse x = Some (page_of job_columns "dataset_score_jobs"
       (given_conditions (job_conditions status dataset_id model_run_id from to)) ("created_at", Desc))) /\
  (forall x, inference_runs_text dataset_id model_run_id status from to = Ok x ->
     parse x = Some (join_page_of (col_name <$> inference_columns) inference_join
       (given_conditions (inference_conditions dataset_id model_run_id status from to)) ("i.created_at", Desc))) /\
  (forall w, search_where_text run_id q dir = Ok w ->
     parse (search_text w dir) = Some (page_of record_columns "host_telemetry_archival" (search_conditions run_id q asc)
       ("metric_timestamp", if asc then Asc else Desc)) /\
     parse (search_count_text w) =
       Some (SelectCount "host_telemetry_archival" (condition_of <$> search_conditions run_id q asc))).
Proof.
  intros dir. split_and!; intros x Hx.
  - by apply generation_runs_shape.
  - by apply model_runs_shape.
  - by apply score_jobs_shape.
  - by apply inference_runs_shape.
  - by apply search_shape.
Qed.
(** A status that tries to end its text. *)
Lemma arguments_stay_texts_witness :
  let status := "x' OR '1'='1'; DROP TABLE alerts; --" in
  exists x, generation_runs_text status "" "" = Ok x /\
    parse x = Some (Select generation_columns "generation_runs" [Equals "status" (Text status)]
                      (Some ("created_at", Desc)) (Some (Param 1)) (Some (Param 2))).
Proof.
  intros status. eexists. split; [reflexivity|].
  destruct (arguments_stay_texts status "" "" "" "" "" (MkSearch "" "" "" "" "" "" "" "" "") true) as (Hg & _).
  apply Hg. reflexivity.
Defined.
