(* ===== verification/QueryExec.v ===== *)
(** The lists and the search of DbClient the way the code makes them: it builds
    the text of the query, the server executes what it reads in it, and the
    rows are read by position.  They answer what Queries.v says. *)
From stdpp Require Import base gmap strings list fin_maps.
From Stdlib Require Import ZArith Lia Ascii Floats.
From S2P Require Import Prelude Strconv Num Detectors Json Generator Sql DbClient DbFacts ScoreStore Queries QueryFacts Schema SqlText SqlExec Prepared PreparedReads QueryText.

Local Open Scope string_scope.
Local Open Scope list_scope.

Section calls.
Context {F : Type} `{Num F} `{Postgres} `{PgInput F} `{!Server F} `{Quoting}.
Implicit Types (s : Store F) (c : Call) (args : list (sql F)).

(** [N.exec_params(text, args...)]. *)
Definition exec_params c (text : string) args s : res (list (list (sql F))) :=
  match parse text with
  | None => sql_error "syntax error"
  | Some st =>
      if (params_of st =? length args)%nat then a ← exec_scanning (scan c) (c_now c) args st s; Ok (an_rows a.2)
      else sql_error "wrong number of parameters"
  end.
(** A list: its text is built inside the transaction. *)
Definition list_query c (text : res string) (limit offset : Z) s : res (list (list (sql F))) :=
  query c s (fun s => x ← text; exec_params c x [SInt limit; SInt offset] s).

Definition generation_positions : list position :=
  [("run_id", 0, AsText); ("status", 1, AsText); ("inserted_rows", 2, AsInt); ("created_at", 3, AsText);
   ("start_time", 4, AsText); ("end_time", 5, AsText); ("interval_seconds", 6, AsInt); ("host_count", 7, AsInt);
   ("tier", 8, AsText)].
Definition generation_runs c (limit offset : Z) (status created_from created_to : string) s : res (json F) :=
  all_objects_or_throw generation_positions (list_query c (generation_runs_text status created_from created_to) limit offset s).

Definition list_model_positions : list position :=
  [("model_run_id", 0, AsText); ("dataset_id", 1, AsText); ("name", 2, AsText); ("status", 3, AsText);
   ("artifact_path", 4, AsTextOrEmpty); ("error", 5, AsTextOrEmpty); ("created_at", 6, AsText);
   ("completed_at", 7, AsTextOrEmpty); ("training_config", 8, AsJsonOrObject); ("parent_run_id", 9, AsTextOrNull);
   ("trial_index", 10, AsIntOrNull); ("best_trial_run_id", 11, AsTextOrNull); ("best_metric_value", 12, AsDoubleOrNull);
   ("best_metric_name", 13, AsTextOrNull); ("is_eligible", 14, AsBool); ("eligibility_reason", 15, AsTextOrNull);
   ("selection_metric_value", 16, AsDoubleOrNull)].
Definition model_runs c (limit offset : Z) (status dataset_id created_from created_to : string) s : json F :=
  all_objects list_model_positions (list_query c (model_runs_text status dataset_id created_from created_to) limit offset s).

Definition list_job_positions : list position :=
  [("job_id", 0, AsText); ("dataset_id", 1, AsText); ("model_run_id", 2, AsText); ("status", 3, AsText);
   ("total_rows", 4, AsInt); ("processed_rows", 5, AsInt); ("last_record_id", 6, AsInt); ("error", 7, AsTextOrEmpty);
   ("created_at", 8, AsText); ("updated_at", 9, AsText); ("completed_at", 10, AsTextOrEmpty)].
Definition score_jobs c (limit offset : Z) (status dataset_id model_run_id created_from created_to : string) s : json F :=
  all_objects list_job_positions
    (list_query c (score_jobs_text status dataset_id model_run_id created_from created_to) limit offset s).

Definition record_positions : list position :=
  [("record_id", 0, AsInt); ("host_id", 1, AsText); ("timestamp", 2, AsText); ("cpu_usage", 3, AsDouble);
   ("memory_usage", 4, AsDouble); ("disk_utilization", 5, AsDouble); ("network_rx_rate", 6, AsDouble);
   ("network_tx_rate", 7, AsDouble); ("is_anomaly", 8, AsBool); ("anomaly_type", 9, AsTextOrEmpty); ("region", 10, AsText);
   ("project_id", 11, AsText); ("labels", 12, AsJsonOrObject)].
(** [count_res.empty() ? 0 : count_res[0][0].as<long>()]. *)
Definition counted (rs : list (list (sql F))) : res Z :=
  match rs with [] => Ok 0%Z | row :: _ => v ← value_at 0 row; as_long v end.
Definition search_records c (run_id : string) (limit offset : Z) (q : search) s : res (json F) :=
  query c s (fun s =>
    asc ← sort_ascending (q_sort_by q) (q_sort_order q);
    let sort_dir := if (asc : bool) then "asc" else "desc" in
    where_ ← search_where_text run_id q sort_dir;
    found ← exec_params c (search_text where_ sort_dir) [SInt limit; SInt offset] s;
    match read_all record_positions found with
    | (_, Some e) => Throw e
    | (items, None) =>
        count ← exec_params c (search_count_text where_) [] s;
        total ← counted count;
        let returned := zlen items in
        Ok (obj ([("items", JArr items); ("total", JInt total); ("limit", JInt limit); ("offset", JInt offset);
                  ("returned", JInt returned); ("has_more", JBool (HasMore limit offset returned (Some total)));
                  ("sort_by", JStr "metric_timestamp"); ("sort_order", JStr sort_dir)]
                 ++ if (q_anchor_time q =? "")%string then [] else [("anchor_time", JStr (q_anchor_time q))]))
    end).
End calls.

(** ** The conditions mean what Queries.v says *)
Section conditions.
Context {F : Type} `{Num F} `{Postgres} `{PgInput F} `{!Server F}.
Implicit Types (s : Store F) (c : Call) (r : Row F) (args : list (sql F)).

(** Two conditions fail alike, or hold of the same rows. *)
Definition same_test (rs : list (Row F)) (a b : res (Row F -> bool)) : Prop :=
  match a, b with
  | Ok p, Ok q => forall r, r ∈ rs -> p r = q r
  | Throw e, Throw e' => e = e'
  | _, _ => False
  end.
(** A text that reaches the server whole. *)
Definition whole (x : string) : Prop := until_nul x = x.
Lemma same_test_ok rs a q : same_test rs a (Ok q) -> exists p, a = Ok p /\ forall r, r ∈ rs -> p r = q r.
Proof. destruct a as [p|]; [intros Hp; by exists p|done]. Qed.
Lemma where_app now args types w w' rs (a b : res (Row F -> bool)) : same_test rs (where_holds now args types w) a ->
  same_test rs (where_holds now args types w') b ->
  same_test rs (where_holds now args types (w ++ w')) (p ← a; q ← b; Ok (fun r => p r && q r)).
Proof.
  unfold where_holds. rewrite mapR_cat. destruct (mapR _ w) as [ps|], a as [p|]; cbn [mbind res_bind same_test]; try done.
  intros Hp. destruct (mapR _ w') as [ps'|], b as [q|]; cbn [mbind res_bind same_test]; try done.
  intros Hq r Hr. by rewrite forallb_app, Hp, Hq.
Qed.
Definition compares (k : comparison) (v w : sql F) : bool :=
  match k with IsEqual => sql_eqb v w | IsAtLeast => sql_leb w v | IsAtMost => sql_leb v w end.
Lemma where_one now args types cl k x ty nn : types (col_name cl) = Some (ty, nn) -> whole x ->
  where_holds now args types [condition_of (cl, k, x)] =
  (w ← coerce ty (SText x); Ok (fun r => forallb (fun p : Row F -> bool => p r) [fun r => compares k (column r (col_name cl)) w])).
Proof.
  intros Hc Hx. unfold where_holds. cbn [mapR]. unfold condition_of. cbn [fst snd]. rewrite Hx.
  destruct k; cbn [holds]; unfold value_for; cbn [fst snd]; rewrite Hc; cbn [eval mbind res_bind];
    by destruct (coerce ty (SText x)).
Qed.
Definition time_test (k : comparison) (cl : string) : option Z -> Row F -> bool :=
  match k with IsAtMost => not_after cl | _ => not_before cl end.
Lemma where_text now args types rs arg cl x ty nn : types (col_name cl) = Some (ty, nn) -> (ty = TEXT \/ ty = UUID) -> whole x ->
  same_test rs (where_holds now args types (condition_of <$> when_given arg (cl, IsEqual, x)))
    (Ok (fun r => given arg (text_is (col_name cl) x r))).
Proof.
  intros Hc Hty Hx. unfold when_given, given. destruct (arg =? "")%string; [done|].
  cbn [fmap list_fmap]. rewrite (where_one _ _ _ _ _ _ ty nn Hc Hx).
  destruct Hty as [->| ->]; cbn; intros r _; by rewrite sql_eqb_text, andb_true_r.
Qed.
Lemma where_time now args types rs k cl x : timed rs (col_name cl) -> types (col_name cl) = Some (NOT_NULL TIMESTAMPTZ) ->
  k <> IsEqual -> whole x ->
  same_test rs (where_holds now args types (condition_of <$> when_given x (cl, k, x))) (o ← time_arg x; Ok (time_test k (col_name cl) o)).
Proof.
  intros Htime Hc Hk Hx. unfold when_given, time_arg. destruct (x =? "")%string; [by destruct k|].
  cbn [fmap list_fmap]. rewrite (where_one _ _ _ _ _ _ TIMESTAMPTZ true Hc Hx). cbn [coerce].
  destruct (timestamptz_in x) as [z|]; [|done]. cbn. intros r [y Hy]%Htime. rewrite Hy, andb_true_r.
  destruct k; [done|..]; cbn; unfold time_of; by rewrite Hy.
Qed.
Lemma where_anomaly now args s arg : valid s ->
  same_test (rows s "host_telemetry_archival")
    (where_holds now args (column_type "host_telemetry_archival")
       (condition_of <$> when_given arg (Col "is_anomaly", IsEqual, if (arg =? "true")%string then "true" else "false")))
    (Ok (fun r => given arg (anomaly_is arg r))).
Proof.
  intros Hv. unfold when_given, given, anomaly_is. destruct (arg =? "")%string; [done|].
  assert (forall r, r ∈ rows s "host_telemetry_archival" -> exists b, column r "is_anomaly" = SBool b) as Hbool.
  { intros r Hr%(v_typed s Hv). specialize (Hr "is_anomaly"). destruct (column r "is_anomaly"); try discriminate Hr. by eexists. }
  cbn [fmap list_fmap]. rewrite (where_one _ _ _ _ _ _ BOOLEAN true) by (by destruct (arg =? "true")%string).
  destruct (arg =? "true")%string; cbn; intros r [b Hb]%Hbool; unfold bool_of; rewrite Hb; cbn; by rewrite andb_true_r.
Qed.
End conditions.

(** ** Each list answers what Queries.v says *)
Section pages.
Context {F : Type} `{Num F} `{Postgres} `{PgInput F} `{!Server F} `{Quoting}.
Implicit Types (s : Store F) (c : Call) (r : Row F).

(** No condition has a parameter. *)
Lemma params_of_conditions (ks : list condition) (es : list expr) :
  foldr (fun e n => Nat.max (params_of_expr e) n) O (concat (params_of_cond <$> (condition_of <$> ks)) ++ es) =
  foldr (fun e n => Nat.max (params_of_expr e) n) O es.
Proof. induction ks as [|[[col []] x] ks IH]; [done|..]; apply IH. Qed.
Lemma params_of_page cols t ks o : params_of (page_of cols t ks o) = 2.
Proof. unfold params_of, page_of, exprs_of. by rewrite params_of_conditions. Qed.
Lemma params_of_join_page cols j ks o : params_of (join_page_of cols j ks o) = 2.
Proof. unfold params_of, join_page_of, exprs_of. by rewrite params_of_conditions. Qed.

(** The page of a list, from one table or two. *)
Lemma select_page_eq c cols types (rs : list (Row F)) ks by_ (desc : bool) (limit offset : Z) test :
  forallb (has_column types) (cols ++ [by_]) = true -> timed rs by_ ->
  same_test rs (where_holds (c_now c) [SInt limit; SInt offset] types (condition_of <$> ks)) test ->
  select_rows (scan c) (c_now c) [SInt limit; SInt offset] cols types rs (condition_of <$> ks)
    (Some (by_, if desc then Desc else Asc)) (Some (Param 1)) (Some (Param 2)) =
  (p ← test; rs' ← select c p (if desc then latest_first by_ else earliest_first by_) limit offset rs;
   Ok (MkAnswer (project cols rs') (zlen rs'))).
Proof.
  intros Hcols Htime Hw. destruct test as [q|e].
  - apply same_test_ok in Hw as (p & Hw & Hpq).
    rewrite (select_rows_eq c _ _ cols _ _ _ (Some (by_, if desc then Desc else Asc)) (Some (Param 1)) (Some (Param 2)) p q
      (std_sort (if desc then latest_first by_ else earliest_first by_)) (Some limit) offset Hcols Hw Hpq); [done| |done|done].
    intros rs' Hrs. apply sorted_times. intros r [Hr _]%Hrs. by apply Htime.
  - unfold select_rows. rewrite Hcols. cbn [negb]. destruct (where_holds _ _ _ _); [done|]. by rewrite Hw.
Qed.
Lemma read_page c cols t ks by_ (desc : bool) (limit offset : Z) test s :
  valid s -> forallb (has_column (column_type t)) (cols ++ [by_]) = true -> column_type t by_ = Some (NOT_NULL TIMESTAMPTZ) ->
  same_test (rows s t) (where_holds (c_now c) [SInt limit; SInt offset] (column_type t) (condition_of <$> ks)) test ->
  read_statement c (page_of cols t ks (by_, if desc then Desc else Asc)) [SInt limit; SInt offset] s =
  query c s (fun s => rs ← (p ← test; select c p (if desc then latest_first by_ else earliest_first by_) limit offset (rows s t));
                      Ok (project cols rs)).
Proof.
  intros Hv Hcols Hby Hw. unfold read_statement, query. destruct (c_fault c); [done|]. cbn [page_of exec_scanning].
  rewrite (select_page_eq c cols _ _ ks by_ desc limit offset test Hcols (table_timed t by_ s Hv Hby) Hw).
  destruct test; [|done]. cbn [mbind res_bind]. by destruct (select c _ _ limit offset _).
Qed.
Lemma read_join_page c cols j ks by_ (limit offset : Z) test s :
  let types := join_types (j_table j) (j_alias j) (j_table' j) (j_alias' j) in
  let on := (col_name (j_on j), col_name (j_on' j)) in
  let found := join_rows (j_table j) (j_alias j) (j_table' j) (j_alias' j) on s in
  forallb (has_column types) [on.1; on.2] = true -> forallb (has_column types) (cols ++ [by_]) = true -> timed found by_ ->
  same_test found (where_holds (c_now c) [SInt limit; SInt offset] types (condition_of <$> ks)) test ->
  read_statement c (join_page_of cols j ks (by_, Desc)) [SInt limit; SInt offset] s =
  query c s (fun s => rs ← (p ← test; select c p (latest_first by_) limit offset
                              (join_rows (j_table j) (j_alias j) (j_table' j) (j_alias' j) on s));
                      Ok (project cols rs)).
Proof.
  intros types on found Hon Hcols Htime Hw. unfold read_statement, query. destruct (c_fault c); [done|].
  cbn [join_page_of exec_scanning]. fold types on. rewrite Hon. cbn [negb]. fold found.
  rewrite (select_page_eq c cols types found ks by_ true limit offset test Hcols Htime Hw).
  destruct test; [|done]. cbn [mbind res_bind]. by destruct (select c _ _ limit offset _).
Qed.
Lemma list_query_page c text st (limit offset : Z) s : (forall x, text = Ok x -> parse x = Some st) -> params_of st = 2 ->
  is_ok text = true -> list_query c text limit offset s = read_statement c st [SInt limit; SInt offset] s.
Proof.
  intros Hp Hn Hok. destruct text as [x|]; [|done]. unfold list_query, read_statement, exec_params. cbn [mbind res_bind].
  by rewrite (Hp x eq_refl), Hn.
Qed.

(** A text that pqxx can quote and that reaches the server whole. *)
Definition sendable (x : string) : Prop := is_ok (pq_quote x) = true /\ whole x.
Lemma pushed_ok pre x : sendable x -> is_ok (pushed pre x) = true.
Proof. intros [Hq _]. unfold pushed. destruct (x =? "")%string; [done|]. by destruct (pq_quote x). Qed.
Lemma pushed_all_ok fs : Forall sendable fs.*2 -> is_ok (pushed_all fs) = true.
Proof.
  unfold pushed_all. induction fs as [|[pre x] fs IH]; [done|]. cbn [fmap list_fmap snd]. intros [Hx Hfs]%Forall_cons.
  apply (pushed_ok pre) in Hx. specialize (IH Hfs). cbn [mapR fst snd]. destruct (pushed pre x); [|done]. cbn [mbind res_bind].
  by destruct (mapR _ fs).
Qed.

(** The common part of the lists of one table. *)
Lemma list_answers c text cols t ks test ps fs (limit offset : Z) s :
  (forall x, text = Ok x -> parse x = Some (page_of cols t ks ("created_at", Desc))) -> is_ok text = true ->
  valid s -> forallb (has_column (column_type t)) (cols ++ ["created_at"]) = true ->
  column_type t "created_at" = Some (NOT_NULL TIMESTAMPTZ) -> in_range cols ps = true -> fields_at cols ps = fs ->
  same_test (rows s t) (where_holds (c_now c) [SInt limit; SInt offset] (column_type t) (condition_of <$> ks)) test ->
  let found := query c s (fun s => p ← test; select c p (latest_first "created_at") limit offset (rows s t)) in
  all_objects_or_throw ps (list_query c text limit offset s) = answer_or_throw fs found /\
  all_objects ps (list_query c text limit offset s) = Queries.answer fs found.
Proof.
  intros Hp Hok Hv Hcols Hcol Hps Hfs Hw found. rewrite (list_query_page c text _ limit offset s Hp (params_of_page _ _ _ _) Hok).
  rewrite (read_page c cols t ks "created_at" true limit offset test s Hv Hcols Hcol Hw).
  split; [by apply all_objects_or_throw_eq|by apply all_objects_eq].
Qed.
Lemma pushed_text_ok fs (f : list string -> string) : Forall sendable fs.*2 -> is_ok (ws ← pushed_all fs; Ok (f ws)) = true.
Proof. intros Hfs%pushed_all_ok. by destruct (pushed_all fs). Qed.
(** Conditions on the time, as the lists of Queries.v combine them. *)
Definition with_times {A} (from to : string) (k : option Z -> option Z -> res A) : res A :=
  lo ← time_arg from; hi ← time_arg to; k lo hi.
Lemma times_between now args types (rs : list (Row F)) cl from to : timed rs (col_name cl) ->
  types (col_name cl) = Some (NOT_NULL TIMESTAMPTZ) -> whole from -> whole to ->
  same_test rs
    (where_holds now args types (condition_of <$> given_conditions [(cl, IsAtLeast, from); (cl, IsAtMost, to)]))
    (with_times from to (fun lo hi => Ok (fun r => not_before (col_name cl) lo r && not_after (col_name cl) hi r))).
Proof.
  intros Htime Hc Hf Ht. unfold with_times, given_conditions. cbn [mbind list_bind]. rewrite app_nil_r, fmap_app.
  pose proof (where_app now args types _ _ rs _ _ (where_time now args types rs IsAtLeast cl from Htime Hc ltac:(done) Hf)
    (where_time now args types rs IsAtMost cl to Htime Hc ltac:(done) Ht)) as Hw.
  cbn [snd]. destruct (where_holds _ _ _ _), (time_arg from), (time_arg to); done.
Qed.
(** A condition on a text in front of others. *)
Lemma text_and now args types (rs : list (Row F)) cl x ty nn ks from to (P : option Z -> option Z -> Row F -> bool) :
  types (col_name cl) = Some (ty, nn) -> (ty = TEXT \/ ty = UUID) -> whole x ->
  same_test rs (where_holds now args types (condition_of <$> given_conditions ks)) (with_times from to (fun lo hi => Ok (P lo hi))) ->
  same_test rs (where_holds now args types (condition_of <$> given_conditions ((cl, IsEqual, x) :: ks)))
    (with_times from to (fun lo hi => Ok (fun r => given x (text_is (col_name cl) x r) && P lo hi r))).
Proof.
  intros Hc Hty Hx Hks. unfold given_conditions. rewrite bind_cons, fmap_app.
  pose proof (where_app now args types _ _ rs _ _ (where_text now args types rs x cl x ty nn Hc Hty Hx) Hks) as Hw.
  unfold with_times in *. cbn [snd] in *. by destruct (where_holds _ _ _ _), (time_arg from), (time_arg to).
Qed.
Lemma query_times {A B} c from to (P : option Z -> option Z -> A) (k : A -> Store F -> res B) s :
  query c s (fun s => p ← with_times from to (fun lo hi => Ok (P lo hi)); k p s) =
  query c s (fun s => lo ← time_arg from; hi ← time_arg to; k (P lo hi) s).
Proof. unfold query, with_times. destruct (c_fault c); [done|]. by destruct (time_arg from), (time_arg to). Qed.
Lemma times_test (rs : list (Row F)) a from to (P Q : option Z -> option Z -> Row F -> bool) :
  same_test rs a (with_times from to (fun lo hi => Ok (P lo hi))) -> (forall lo hi r, P lo hi r = Q lo hi r) ->
  same_test rs a (with_times from to (fun lo hi => Ok (Q lo hi))).
Proof.
  unfold with_times. intros Ha HPQ. destruct (time_arg from), (time_arg to); try done. destruct a; [|done].
  intros r Hr. by rewrite <- HPQ, Ha.
Qed.

Lemma read_generation_runs c (limit offset : Z) status from to s : valid s -> Forall sendable [status; from; to] ->
  generation_runs c limit offset status from to s = ListGenerationRuns c limit offset status from to s.
Proof.
  rewrite !Forall_cons. intros Hv ([Qs Ws] & [Qf Wf] & [Qt Wt] & _). unfold generation_runs, ListGenerationRuns.
  edestruct (list_answers c _ generation_columns "generation_runs" _
    (with_times from to (fun lo hi => Ok (fun r => given status (text_is "status" status r) && not_before "created_at" lo r && not_after "created_at" hi r)))
    generation_positions generation_fields limit offset s (generation_runs_shape status from to)) as [-> _]; try done.
  - by apply pushed_text_ok; repeat constructor.
  - eapply times_test; [eapply (text_and _ _ _ _ (Col "status")); [done|by left|done|by apply (times_between _ _ _ _ (Col "created_at")); [apply table_timed|..]]|].
    intros lo hi r. cbv beta. by rewrite !andb_assoc.
  - by rewrite query_times.
Qed.
Lemma read_model_runs c (limit offset : Z) status dataset_id from to s : valid s -> Forall sendable [status; dataset_id; from; to] ->
  model_runs c limit offset status dataset_id from to s = ListModelRuns c limit offset status dataset_id from to s.
Proof.
  rewrite !Forall_cons. intros Hv ([Qs Ws] & [Qd Wd] & [Qf Wf] & [Qt Wt] & _). unfold model_runs, ListModelRuns.
  edestruct (list_answers c _ model_columns "model_runs" _
    (with_times from to (fun lo hi => Ok (fun r => given status (text_is "status" status r) && given dataset_id (text_is "dataset_id" dataset_id r)
      && not_before "created_at" lo r && not_after "created_at" hi r)))
    list_model_positions list_model_fields limit offset s (model_runs_shape status dataset_id from to)) as [_ ->]; try done.
  - by apply pushed_text_ok; repeat constructor.
  - eapply times_test; [eapply (text_and _ _ _ _ (Col "status")); [done|by left|done|];
      eapply (text_and _ _ _ _ (Col "dataset_id")); [done|by right|done|by apply (times_between _ _ _ _ (Col "created_at")); [apply table_timed|..]]|].
    intros lo hi r. cbv beta. by rewrite !andb_assoc.
  - by rewrite query_times.
Qed.
Lemma read_score_jobs c (limit offset : Z) status dataset_id model_run_id from to s : valid s ->
  Forall sendable [status; dataset_id; model_run_id; from; to] ->
  score_jobs c limit offset status dataset_id model_run_id from to s = ListScoreJobs c limit offset status dataset_id model_run_id from to s.
Proof.
  rewrite !Forall_cons. intros Hv ([Qs Ws] & [Qd Wd] & [Qm Wm] & [Qf Wf] & [Qt Wt] & _). unfold score_jobs, ListScoreJobs.
  edestruct (list_answers c _ job_columns "dataset_score_jobs" _
    (with_times from to (fun lo hi => Ok (fun r => given status (text_is "status" status r) && given dataset_id (text_is "dataset_id" dataset_id r)
      && given model_run_id (text_is "model_run_id" model_run_id r) && not_before "created_at" lo r && not_after "created_at" hi r)))
    list_job_positions list_score_job_fields limit offset s (score_jobs_shape status dataset_id model_run_id from to)) as [_ ->]; try done.
  - by apply pushed_text_ok; repeat constructor.
  - eapply times_test; [eapply (text_and _ _ _ _ (Col "status")); [done|by left|done|];
      eapply (text_and _ _ _ _ (Col "dataset_id")); [done|by right|done|];
      eapply (text_and _ _ _ _ (Col "model_run_id")); [done|by right|done|by apply (times_between _ _ _ _ (Col "created_at")); [apply table_timed|..]]|].
    intros lo hi r. cbv beta. by rewrite !andb_assoc.
  - by rewrite query_times.
Qed.

(** ** The search *)
Lemma search_test now args s run_id q (asc : bool) : valid s ->
  Forall whole [run_id; q_start_time q; q_end_time q; q_anchor_time q; q_anomaly_type q; q_host_id q; q_region q] ->
  same_test (rows s "host_telemetry_archival")
    (where_holds now args (column_type "host_telemetry_archival") (condition_of <$> search_conditions run_id q asc)) (search_where run_id q asc).
Proof.
  rewrite !Forall_cons. intros Hv (Wr & Ws & We & Wa & Wt & Wh & Wg & _). unfold search_conditions, search_where.
  set (T := column_type "host_telemetry_archival"). set (rs := rows s "host_telemetry_archival").
  assert (timed rs "metric_timestamp") as Htime by (by apply table_timed).
  pose proof (where_text now args T rs "given" (Col "run_id") run_id UUID true eq_refl (or_intror eq_refl) Wr) as Hr.
  pose proof (where_time now args T rs IsAtLeast (Col "metric_timestamp") (q_start_time q) Htime eq_refl ltac:(done) Ws) as Hs.
  pose proof (where_time now args T rs IsAtMost (Col "metric_timestamp") (q_end_time q) Htime eq_refl ltac:(done) We) as He.
  pose proof (where_time now args T rs (if asc then IsAtLeast else IsAtMost) (Col "metric_timestamp") (q_anchor_time q) Htime eq_refl
    ltac:(by destruct asc) Wa) as Ha.
  pose proof (where_anomaly now args s (q_is_anomaly q) Hv) as Hi.
  pose proof (where_text now args T rs (q_anomaly_type q) (Col "anomaly_type") _ TEXT false eq_refl (or_introl eq_refl) Wt) as Ht.
  pose proof (where_text now args T rs (q_host_id q) (Col "host_id") _ TEXT true eq_refl (or_introl eq_refl) Wh) as Hh.
  pose proof (where_text now args T rs (q_region q) (Col "region") _ TEXT true eq_refl (or_introl eq_refl) Wg) as Hg.
  pose proof (where_app _ _ _ _ _ _ _ _ Hr (where_app _ _ _ _ _ _ _ _ Hs (where_app _ _ _ _ _ _ _ _ He (where_app _ _ _ _ _ _ _ _ Ha
    (where_app _ _ _ _ _ _ _ _ Hi (where_app _ _ _ _ _ _ _ _ Ht (where_app _ _ _ _ _ _ _ _ Hh Hg))))))) as Hw.
  rewrite <- !fmap_app in Hw. cbn [when_given String.eqb app] in Hw. clear Hr Hs He Ha Hi Ht Hh Hg.
  match type of Hw with same_test _ ?a _ => match goal with |- same_test _ ?b _ => change b with a; destruct a as [p|] end end;
    (destruct (time_arg (q_start_time q)); [|done]); (destruct (time_arg (q_end_time q)); [|done]);
    (destruct (time_arg (q_anchor_time q)); [|done]); try done.
  cbn [mbind res_bind same_test] in *. intros r Hr. rewrite (Hw r Hr). unfold given at 1. cbn [String.eqb orb].
  rewrite !andb_assoc. by destruct asc.
Qed.
Lemma search_where_ok run_id q (asc : bool) :
  Forall sendable [run_id; q_start_time q; q_end_time q; q_anchor_time q; q_anomaly_type q; q_host_id q; q_region q; "true"; "false"] ->
  is_ok (search_where_text run_id q (if asc then "asc" else "desc")) = true.
Proof.
  rewrite !Forall_cons. intros ([Qr _] & [Qs _] & [Qe _] & [Qa _] & [Qt _] & [Qh _] & [Qg _] & [Q1 _] & [Q0 _] & _).
  unfold search_where_text.
  assert (forall pre arg v, is_ok (pq_quote v) = true -> is_ok (appended pre arg v) = true) as Happ.
  { intros pre arg v Hv. unfold appended. destruct (arg =? "")%string; [done|]. by destruct (pq_quote v). }
  destruct (pq_quote run_id); [|done]. cbn [mbind res_bind].
  repeat match goal with |- is_ok (_ ← appended ?p ?a ?v; _) = true =>
    assert (is_ok (appended p a v) = true) by (apply Happ; first [done|by destruct (_ =? _)%string]);
    destruct (appended p a v); [|done]; cbn [mbind res_bind] end. done.
Qed.

(** The two statements of a search, one after the other. *)
Lemma read_search_page c run_id q (asc : bool) (limit offset : Z) where_ s : valid s -> c_fault c = None ->
  Forall whole [run_id; q_start_time q; q_end_time q; q_anchor_time q; q_anomaly_type q; q_host_id q; q_region q] ->
  search_where_text run_id q (if asc then "asc" else "desc") = Ok where_ ->
  exec_params c (search_text where_ (if asc then "asc" else "desc")) [SInt limit; SInt offset] s =
    (p ← search_where run_id q asc; rs ← select c p (by_timestamp asc) limit offset (rows s "host_telemetry_archival");
     Ok (project record_columns rs)).
Proof.
  intros Hv Hc Hq [Hp _]%search_shape. unfold exec_params. rewrite Hp, params_of_page.
  pose proof (read_page c record_columns "host_telemetry_archival" (search_conditions run_id q asc) "metric_timestamp" (negb asc)
    limit offset (search_where run_id q asc) s Hv eq_refl eq_refl (search_test _ _ s run_id q asc Hv Hq)) as Hr.
  unfold read_statement, query in Hr. rewrite Hc in Hr.
  assert ((search_where run_id q asc ≫= fun p => select c p (by_timestamp asc) limit offset (rows s "host_telemetry_archival")
            ≫= fun rs => Ok (project record_columns rs)) =
    ((p ← search_where run_id q asc; select c p (by_timestamp asc) limit offset (rows s "host_telemetry_archival"))
       ≫= fun rs => Ok (project record_columns rs))) as -> by (by destruct (search_where run_id q asc)).
  destruct asc; exact Hr.
Qed.
Lemma read_search_count c run_id q (asc : bool) where_ p s : valid s ->
  Forall whole [run_id; q_start_time q; q_end_time q; q_anchor_time q; q_anomaly_type q; q_host_id q; q_region q] ->
  search_where_text run_id q (if asc then "asc" else "desc") = Ok where_ -> search_where run_id q asc = Ok p ->
  exec_params c (search_count_text where_) [] s =
    Ok [[SInt (Z.of_nat (countb p (rows s "host_telemetry_archival")))]].
Proof.
  intros Hv Hq [_ Hp]%search_shape Ep. unfold exec_params. rewrite Hp.
  pose proof (params_of_conditions (search_conditions run_id q asc) []) as Hn. rewrite app_nil_r in Hn.
  unfold params_of, exprs_of. rewrite Hn. cbn [foldr length Nat.eqb exec_scanning].
  pose proof (search_test (c_now c) [] s run_id q asc Hv Hq) as Hw. rewrite Ep in Hw.
  apply same_test_ok in Hw as (p' & -> & Hpq). cbn [mbind res_bind an_rows snd]. do 4 f_equal. unfold countb, zlen. do 2 f_equal.
  by apply filter_ext_on.
Qed.
Lemma read_search c run_id (limit offset : Z) q s : valid s ->
  Forall sendable [run_id; q_start_time q; q_end_time q; q_anchor_time q; q_anomaly_type q; q_host_id q; q_region q; "true"; "false"] ->
  search_records c run_id limit offset q s = SearchDatasetRecords c run_id limit offset q s.
Proof.
  intros Hv Hq. unfold search_records, SearchDatasetRecords. unfold query. destruct (c_fault c) eqn:Hc; [done|].
  destruct (sort_ascending _ _) as [asc|]; [|done]. cbn [mbind res_bind].
  pose proof (search_where_ok run_id q asc Hq) as Hok. destruct (search_where_text _ _ _) as [where_|] eqn:Hw; [|done].
  assert (Forall whole [run_id; q_start_time q; q_end_time q; q_anchor_time q; q_anomaly_type q; q_host_id q; q_region q]) as Hwhole.
  { rewrite !Forall_cons in Hq |- *. destruct Hq as ([_ ?] & [_ ?] & [_ ?] & [_ ?] & [_ ?] & [_ ?] & [_ ?] & _). by repeat (split; [assumption|]). }
  cbn [mbind res_bind]. rewrite (read_search_page c run_id q asc limit offset where_ s Hv Hc Hwhole Hw).
  destruct (search_where run_id q asc) as [p|] eqn:Hp; [|done]. cbn [mbind res_bind].
  destruct (select c p _ limit offset _) as [found|]; [|done]. cbn [mbind res_bind].
  rewrite (read_all_eq record_columns record_positions) by done. change (fields_at record_columns record_positions) with record_fields.
  destruct (read_rows record_fields found) as [items [e|]]; [done|].
  rewrite (read_search_count c run_id q asc where_ p s Hv Hwhole Hw Hp). done.
Qed.
End pages.
