(* ===== verification/JoinReads.v ===== *)
(** The calls of DbClient that read two tables joined, from the text of their
    query: ListInferenceRuns, which builds it, and the samples of
    GetEvalMetrics, which are those of a prepared statement. *)
From stdpp Require Import base gmap strings list fin_maps.
From Stdlib Require Import ZArith Lia Ascii Floats.
From S2P Require Import Prelude Strconv Num Detectors Json Generator Sql DbClient DbFacts ScoreStore Queries QueryFacts Analytics Schema SqlText SqlExec Prepared PreparedReads QueryText QueryExec.

Local Open Scope string_scope.
Local Open Scope list_scope.

(** The order of a scan is one of positions: it does not depend on how the rows
    are represented. *)
Class PositionalScan (F : Type) `{!Server F} : Prop :=
  scan_fmap : forall A B (f : A -> B) (c : Call) (l : list A), scan c (f <$> l) = f <$> scan c l.
#[export] Instance server_example_positional (F : Type) : @PositionalScan F (server_example F).
Proof. intros A B f c l. cbn. destruct (Z.even (c_now c)); [done|]. symmetry. apply map_rev. Qed.

Section calls.
Context {F : Type} `{Num F} `{Postgres} `{PgInput F} `{!Server F} `{Quoting}.
Implicit Types (s : Store F) (c : Call).

Definition list_inference_positions : list position :=
  [("inference_id", 0, AsText); ("model_run_id", 1, AsText); ("dataset_id", 2, AsText); ("status", 3, AsText);
   ("anomaly_count", 4, AsInt); ("latency_ms", 5, AsDoubleOrZero); ("created_at", 6, AsText)].
Definition inference_runs c (dataset_id model_run_id : string) (limit offset : Z) (status created_from created_to : string) s : json F :=
  all_objects list_inference_positions
    (list_query c (inference_runs_text dataset_id model_run_id status created_from created_to) limit offset s).

(** [samples.push_back(...)], until there are [max_samples] of them. *)
Definition eval_row_at (row : list (sql F)) : res (EvalRow F) :=
  err ← (v ← value_at 0 row; as_number v); pred ← (v ← value_at 1 row; as_bool v); label ← (v ← value_at 2 row; as_bool v);
  Ok (MkEval err pred label).
Definition eval_rows c (dataset_id model_run_id : string) (max_samples : Z) s : res (list (EvalRow F)) :=
  rs ← select_prepared c "get_eval_metrics" [SText dataset_id; SText model_run_id] s;
  mapR eval_row_at (if (0 <? max_samples)%Z then take (Z.to_nat max_samples) rs else rs).
End calls.

(** ** Joined rows *)
Section joins.
Context {F : Type} `{Num F} `{Postgres} `{PgInput F} `{!Server F} `{!PositionalScan F}.
Implicit Types (s : Store F) (c : Call) (r : Row F).

Lemma column_new_row (L : list (string * sql F)) k : column (new_row L) k = default SNull (assoc k L).
Proof.
  unfold column, new_row. rewrite lookup_set_columns. destruct (assoc k L); [done|]. unfold Row. by rewrite lookup_empty.
Qed.
Lemma filter_bind {A B} (p : B -> bool) (f : A -> list B) (l : list A) :
  filter (fun x => p x = true) (l ≫= f) = l ≫= (fun a => filter (fun x => p x = true) (f a)).
Proof. induction l as [|a l IH]; [done|]. by rewrite !bind_cons, filter_app, IH. Qed.
Lemma bind_ext_on {A B} (f g : A -> list B) (l : list A) : (forall a, a ∈ l -> f a = g a) -> l ≫= f = l ≫= g.
Proof.
  induction l as [|a l IH]; intros Hfg; [done|]. rewrite !bind_cons, (Hfg a) by left. f_equal. apply IH.
  intros b Hb. apply Hfg. by right.
Qed.
Lemma fmap_bind {A B C} (g : B -> C) (f : A -> list B) (l : list A) : g <$> (l ≫= f) = l ≫= (fun a => g <$> f a).
Proof. induction l as [|a l IH]; [done|]. by rewrite !bind_cons, fmap_app, IH. Qed.
(** The rows of a join are the pairs that agree on its columns. *)
Lemma join_rows_eq t a u b on (on' : Row F -> Row F -> bool) s :
  (forall r r', r ∈ rows s t -> r' ∈ rows s u ->
    sql_eqb (column (join_row t a u b r r') on.1) (column (join_row t a u b r r') on.2) = on' r r') ->
  join_rows t a u b on s = (fun p => join_row t a u b p.1 p.2) <$> join_on on' (rows s t) (rows s u).
Proof.
  intros Hon. unfold join_rows, join_on. rewrite filter_bind, fmap_bind. apply bind_ext_on. intros r Hr.
  rewrite list_filter_fmap, <- list_fmap_compose. unfold compose. cbn [fst snd].
  apply (f_equal (fmap (join_row t a u b r))), filter_ext_on. intros r' Hr'. by apply Hon.
Qed.

Lemma std_sort_fmap {A B} (f : A -> B) (lt : B -> B -> bool) (l : list A) :
  std_sort lt (f <$> l) = f <$> std_sort (fun x y => lt (f x) (f y)) l.
Proof.
  assert (forall x l', sort_insert lt (f x) (f <$> l') = f <$> sort_insert (fun x y => lt (f x) (f y)) x l') as Hins.
  { intros x l'. induction l' as [|y l' IH]; [done|]. cbn. destruct (lt (f y) (f x)); [|done]. cbn. by rewrite <- IH. }
  induction l as [|x l IH]; [done|]. cbn [fmap list_fmap std_sort foldr]. fold (std_sort lt (f <$> l)).
  rewrite IH. apply Hins.
Qed.
Lemma select_fmap {A B} c (f : A -> B) (p : B -> bool) order (limit offset : Z) (l : list A) :
  select c p order limit offset (f <$> l : list B) =
  (select c (fun x => p (f x)) (fun x y => order (f x) (f y)) limit offset l ≫= fun l' => Ok (f <$> l' : list B)).
Proof.
  unfold select, limit_offset. destruct ((limit <? 0) || (offset <? 0))%Z; [done|]. cbn [mbind res_bind]. f_equal.
  by rewrite list_filter_fmap, scan_fmap, std_sort_fmap, <- fmap_drop, <- fmap_take.
Qed.
Lemma select_ext {A} c (p q : A -> bool) order order' (limit offset : Z) (l : list A) :
  (forall x, x ∈ l -> p x = q x) -> (forall x y, x ∈ l -> y ∈ l -> order x y = order' x y) ->
  select c p order limit offset l = select c q order' limit offset l.
Proof.
  intros Hpq Ho. unfold select. f_equal. rewrite (filter_ext_on p q) by done. apply std_sort_ext.
  intros x y Hx Hy. rewrite (scan_perm c) in Hx, Hy. apply list_elem_of_filter in Hx as [_ Hx], Hy as [_ Hy]. by apply Ho.
Qed.
End joins.

(** ** Inference runs with the dataset of their model *)
Section inferences.
Context {F : Type} `{Num F} `{Postgres} `{PgInput F} `{!Server F} `{!PositionalScan F} `{Quoting}.
Implicit Types (s : Store F) (c : Call) (r : Row F).

Definition inference_row (r m : Row F) : Row F := join_row "inference_runs" "i" "model_runs" "m" r m.
Definition inference_found s : list (Row F) :=
  join_rows "inference_runs" "i" "model_runs" "m" (qualified "i" "model_run_id", qualified "m" "model_run_id") s.
Definition inference_pairs s : list (Row F * Row F) :=
  join_on (same_text "model_run_id" "model_run_id") (rows s "inference_runs") (rows s "model_runs").
Lemma column_inference r m k :
  column (inference_row r m) k =
  default SNull (assoc k (map (fun k => (qualified "i" k.1, column r k.1)) (columns "inference_runs") ++
                          map (fun k => (qualified "m" k.1, column m k.1)) (columns "model_runs"))).
Proof. apply column_new_row. Qed.

Lemma inference_found_eq s : valid s -> inference_found s = (fun p => inference_row p.1 p.2) <$> inference_pairs s.
Proof.
  intros Hv. apply join_rows_eq. intros r m Hr _. fold (inference_row r m). rewrite !column_inference. cbn [fst snd].
  change (sql_eqb (column r "model_run_id") (column m "model_run_id") = same_text "model_run_id" "model_run_id" r m).
  pose proof (v_typed s Hv _ _ Hr "model_run_id") as Ht. unfold same_text.
  destruct (column r "model_run_id"); try discriminate Ht. unfold text_is, sql_eqb.
  destruct (column m "model_run_id"); try done. apply String.eqb_sym.
Qed.
Lemma inference_timed s : valid s -> timed (inference_found s) "i.created_at".
Proof.
  intros Hv j. rewrite inference_found_eq by done. intros ([r m] & -> & (Hr & _)%elem_of_join)%list_elem_of_fmap.
  cbn [fst snd]. rewrite column_inference. apply (table_timed "inference_runs" "created_at" s Hv eq_refl r Hr).
Qed.
Lemma inference_row_columns r m :
  column (inference_row r m) "m.dataset_id" = column m "dataset_id" /\
  column (inference_row r m) "i.model_run_id" = column r "model_run_id" /\
  column (inference_row r m) "i.status" = column r "status" /\
  column (inference_row r m) "i.created_at" = column r "created_at".
Proof. repeat split; by rewrite column_inference. Qed.
Lemma project_inference p :
  column (inference_row p.1 p.2) <$> (col_name <$> inference_columns) =
  column (set_columns [("dataset_id", column p.2 "dataset_id")] p.1) <$>
    ["inference_id"; "model_run_id"; "dataset_id"; "status"; "anomaly_count"; "latency_ms"; "created_at"].
Proof.
  cbn [fmap list_fmap inference_columns col_name]. rewrite !column_inference. unfold column. by rewrite !lookup_set_columns.
Qed.

Lemma project_inferences (l : list (Row F * Row F)) :
  project (col_name <$> inference_columns) ((fun p => inference_row p.1 p.2) <$> l) =
  project ["inference_id"; "model_run_id"; "dataset_id"; "status"; "anomaly_count"; "latency_ms"; "created_at"]
    (map (fun im => set_columns [("dataset_id", column im.2 "dataset_id")] im.1) l).
Proof. induction l as [|p l IH]; [done|]. exact (f_equal2 cons (project_inference p) IH). Qed.

Lemma read_inference_runs c dataset_id model_run_id (limit offset : Z) status from to s : valid s ->
  Forall sendable [dataset_id; model_run_id; status; from; to] ->
  inference_runs c dataset_id model_run_id limit offset status from to s =
  ListInferenceRuns c dataset_id model_run_id limit offset status from to s.
Proof.
  rewrite !Forall_cons. intros Hv ([Qd Wd] & [Qm Wm] & [Qs Ws] & [Qf Wf] & [Qt Wt] & _). unfold inference_runs, ListInferenceRuns.
  rewrite (list_query_page c _ _ limit offset s (inference_runs_shape dataset_id model_run_id status from to));
    [|apply params_of_join_page|by apply pushed_text_ok; repeat constructor].
  set (P := fun (lo hi : option Z) (r : Row F) => given dataset_id (text_is "m.dataset_id" dataset_id r)
    && (given model_run_id (text_is "i.model_run_id" model_run_id r) && (given status (text_is "i.status" status r)
    && (not_before "i.created_at" lo r && not_after "i.created_at" hi r)))).
  rewrite (read_join_page c _ inference_join _ "i.created_at" limit offset (with_times from to (fun lo hi => Ok (P lo hi))) s);
    [|reflexivity|reflexivity|by apply inference_timed|].
  2:{ eapply (text_and _ _ _ _ (Of "m" "dataset_id")); [reflexivity|by right|done|].
      eapply (text_and _ _ _ _ (Of "i" "model_run_id")); [reflexivity|by right|done|].
      eapply (text_and _ _ _ _ (Of "i" "status")); [reflexivity|by left|done|].
      apply (times_between _ _ _ _ (Of "i" "created_at")); [by apply inference_timed|done..]. }
  unfold query. destruct (c_fault c); [done|]. unfold with_times.
  destruct (time_arg from) as [lo|]; [|done]. destruct (time_arg to) as [hi|]; [|done]. cbn [mbind res_bind].
  change (join_rows _ _ _ _ _ s) with (inference_found s). rewrite inference_found_eq, select_fmap by done.
  rewrite (select_ext c _ (fun im : Row F * Row F => given dataset_id (text_is "dataset_id" dataset_id im.2)
      && given model_run_id (text_is "model_run_id" model_run_id im.1) && given status (text_is "status" status im.1)
      && not_before "created_at" lo im.1 && not_after "created_at" hi im.1) _
    (fun a b => latest_first "created_at" a.1 b.1)).
  2:{ intros [r m] _. destruct (inference_row_columns r m) as (E1 & E2 & E3 & E4). unfold P, text_is, not_before, not_after, time_of.
      cbn [fst snd]. rewrite E1, E2, E3, E4. by rewrite !andb_assoc. }
  2:{ intros [r m] [r' m'] _ _. unfold latest_first, time_of. cbn [fst snd].
      destruct (inference_row_columns r m) as (_ & _ & _ & ->). by destruct (inference_row_columns r' m') as (_ & _ & _ & ->). }
  destruct (select _ _ _ _ _ _) as [found|]; [|done]. cbn [mbind res_bind].
  unfold all_objects, Queries.answer.
  rewrite project_inferences. erewrite read_all_eq by reflexivity. reflexivity.
Qed.
End inferences.

(** ** The samples of an evaluation *)
Section samples.
Context {F : Type} `{Num F} `{Postgres} `{PgInput F} `{!Server F} `{!PositionalScan F}.
Implicit Types (s : Store F) (c : Call) (r : Row F).

Definition score_row (r h : Row F) : Row F := join_row "dataset_scores" "s" "host_telemetry_archival" "h" r h.
Definition score_pairs s : list (Row F * Row F) := join_on same_record (rows s "dataset_scores") (rows s "host_telemetry_archival").
Lemma score_row_columns r h :
  column (score_row r h) "s.dataset_id" = column r "dataset_id" /\
  column (score_row r h) "s.model_run_id" = column r "model_run_id" /\
  column (score_row r h) "s.record_id" = column r "record_id" /\
  column (score_row r h) "h.record_id" = column h "record_id".
Proof. repeat split; unfold score_row, join_row; by rewrite column_new_row. Qed.
Lemma project_score r h :
  column (score_row r h) <$> ["s.reconstruction_error"; "s.predicted_is_anomaly"; "h.is_anomaly"] =
  [column r "reconstruction_error"; column r "predicted_is_anomaly"; column h "is_anomaly"].
Proof. cbn [fmap list_fmap]. unfold score_row, join_row. by rewrite !column_new_row. Qed.

Lemma score_found_eq s : valid s ->
  join_rows "dataset_scores" "s" "host_telemetry_archival" "h" ("s.record_id", "h.record_id") s =
  (fun p => score_row p.1 p.2) <$> score_pairs s.
Proof.
  intros Hv. apply join_rows_eq. intros r h Hr Hh. cbn [fst snd]. fold (score_row r h).
  destruct (score_row_columns r h) as (_ & _ & -> & ->). unfold same_record, int_of.
  pose proof (v_typed s Hv _ _ Hr "record_id") as Tr. pose proof (v_typed s Hv _ _ Hh "record_id") as Th.
  destruct (column r "record_id"); try discriminate Tr. destruct (column h "record_id"); try discriminate Th. done.
Qed.
(** A joined pair of typed rows gives its sample. *)
Lemma eval_row_typed s p : valid s -> p ∈ score_pairs s ->
  eval_row_at [column p.1 "reconstruction_error"; column p.1 "predicted_is_anomaly"; column p.2 "is_anomaly"] = Ok (eval_row p).
Proof.
  intros Hv. destruct p as [r h]. intros (Hr & Hh & _)%elem_of_join. cbn [fst snd]. unfold eval_row, eval_row_at, double_of, bool_of.
  pose proof (v_typed s Hv _ _ Hr "reconstruction_error") as T1. pose proof (v_typed s Hv _ _ Hr "predicted_is_anomaly") as T2.
  pose proof (v_typed s Hv _ _ Hh "is_anomaly") as T3. cbn [fst snd].
  destruct (column r "reconstruction_error"); try discriminate T1. destruct (column r "predicted_is_anomaly"); try discriminate T2.
  destruct (column h "is_anomaly"); try discriminate T3. done.
Qed.

Lemma eval_rows_typed s (l : list (Row F * Row F)) : valid s -> (forall p, p ∈ l -> p ∈ score_pairs s) ->
  mapR eval_row_at (project ["s.reconstruction_error"; "s.predicted_is_anomaly"; "h.is_anomaly"]
    ((fun p => score_row p.1 p.2) <$> l)) = Ok (map eval_row l).
Proof.
  intros Hv Hl.
  assert (project ["s.reconstruction_error"; "s.predicted_is_anomaly"; "h.is_anomaly"] ((fun p => score_row p.1 p.2) <$> l) =
    map (fun p => [column p.1 "reconstruction_error"; column p.1 "predicted_is_anomaly"; column p.2 "is_anomaly"]) l) as ->.
  { clear Hl. induction l as [|p l IH]; [done|]. exact (f_equal2 cons (project_score p.1 p.2) IH). }
  induction l as [|p l IH]; [done|]. cbn [map mapR]. rewrite (eval_row_typed s p) by (done || apply Hl; by left).
  cbn [mbind res_bind]. rewrite IH by (intros; apply Hl; by right). done.
Qed.
Lemma read_eval_rows c dataset_id model_run_id (max_samples : Z) s : valid s ->
  eval_rows c dataset_id model_run_id max_samples s = query c s (fun s => Ok (eval_samples c dataset_id model_run_id max_samples s)).
Proof.
  intros Hv. unfold eval_rows, select_prepared, exec_prepared_scanning, query. destruct (c_fault c); [done|].
  set (w := fun r : Row F => forallb (fun p => p r)
    [fun r => sql_eqb (column r "s.dataset_id") (SText dataset_id); fun r => sql_eqb (column r "s.model_run_id") (SText model_run_id)]).
  assert (prepared "get_eval_metrics" = Some (SelectJoin ["s.reconstruction_error"; "s.predicted_is_anomaly"; "h.is_anomaly"]
    "dataset_scores" "s" "host_telemetry_archival" "h" ("s.record_id", "h.record_id")
    [Equals "s.dataset_id" (Param 1); Equals "s.model_run_id" (Param 2)] None None None)) as -> by (vm_compute; reflexivity).
  cbn [params_of exprs_of]. change (params_of _ =? length _)%nat with true. cbn [exec_scanning].
  change (negb (forallb _ _)) with false. cbv iota.
  rewrite (select_rows_eq c _ _ _ _ _ _ None None None w w (fun rs => rs) None 0); try done.
  cbv zeta. cbn [default]. rewrite limit_all. cbn [mbind res_bind an_rows snd].
  rewrite score_found_eq, list_filter_fmap, scan_fmap by done.
  rewrite (filter_ext_on (fun p => w (score_row p.1 p.2)) (fun p : Row F * Row F => scored_for dataset_id model_run_id p.1)).
  2:{ intros [r h] _. destruct (score_row_columns r h) as (E1 & E2 & _). unfold w, scored_for. cbn [forallb fst snd].
      by rewrite E1, E2, !sql_eqb_text, andb_true_r. }
  unfold eval_samples. fold (score_pairs s).
  set (l := scan c (filter _ (score_pairs s))).
  assert (forall p, p ∈ l -> p ∈ score_pairs s) as Hl
    by (intros p Hp; unfold l in Hp; rewrite (scan_perm c) in Hp; by apply list_elem_of_filter in Hp as [_ ?]).
  destruct (0 <? max_samples)%Z; [|by rewrite (eval_rows_typed s)].
  unfold project. rewrite <- !fmap_take. fold (project (F := F) ["s.reconstruction_error"; "s.predicted_is_anomaly"; "h.is_anomaly"]
    ((fun p => score_row p.1 p.2) <$> take (Z.to_nat max_samples) l)).
  rewrite (eval_rows_typed s); [|done|].
  - by f_equal.
  - intros p Hp. apply Hl. by apply elem_of_take in Hp as (i & Hi%list_elem_of_lookup_2 & _).
Qed.
End samples.

(** C23: the queries whose text the client builds, or that join two tables,
    answer what the calls are specified to answer.  In every store the services
    can reach, building the text of a list or of a search from arguments that
    pqxx can quote and that hold no zero byte, executing the statement the
    server reads in it, and reading the rows by position gives what the calls of
    Queries.v give: the four lists, the search with its total, and the samples
    an evaluation counts. *)
Theorem queries_answer_as_specified {F} `{Num F} `{Postgres} `{PgInput F} `{!Server F} `{!PositionalScan F} `{Quoting}
  (ds : list (Call * db_call F)) (Hargs : forallb (fun cd => arguments_ok cd.2) ds = true)
  (c : Call) (limit offset max_samples : Z) (status dataset_id model_run_id from to run_id : string) (q : search)
  (Hsend : Forall sendable [status; dataset_id; model_run_id; from; to; run_id; q_start_time q; q_end_time q; q_anchor_time q;
                            q_anomaly_type q; q_host_id q; q_region q; "true"; "false"]) :
  let s := perform_all ds empty_store in
  generation_runs c limit offset status from to s = ListGenerationRuns c limit offset status from to s /\
  model_runs c limit offset status dataset_id from to s = ListModelRuns c limit offset status dataset_id from to s /\
  score_jobs c limit offset status dataset_id model_run_id from to s =
    ListScoreJobs c limit offset status dataset_id model_run_id from to s /\
  inference_runs c dataset_id model_run_id limit offset status from to s =
    ListInferenceRuns c dataset_id model_run_id limit offset status from to s /\
  search_records c run_id limit offset q s = SearchDatasetRecords c run_id limit offset q s /\
  eval_rows c dataset_id model_run_id max_samples s =
    query c s (fun s => Ok (eval_samples c dataset_id model_run_id max_samples s)).
Proof.
  intros s. assert (valid s) as Hv by by apply perform_all_valid, empty_valid. clearbody s.
  rewrite !Forall_cons in Hsend.
  destruct Hsend as (? & ? & ? & ? & ? & ? & ? & ? & ? & ? & ? & ? & ? & ? & _).
  split_and!; [apply read_generation_runs|apply read_model_runs|apply read_score_jobs|apply read_inference_runs|apply read_search|
    apply read_eval_rows]; rewrite ?Forall_cons; auto 20.
Qed.

(** ** Instances *)
#[local] Existing Instance pg_example.
#[local] Instance pg_input_joins : PgInput float := pg_input_example float.
#[local] Instance server_joins : Server float := server_example float.
#[local] Existing Instance quoting_example.

(** The runs of the example, and a search for the records of a host. *)
Lemma queries_answer_as_specified_witness :
  let s := perform_all calls_example empty_store in
  let q := MkSearch "" "" "false" "" "host-1" "" "" "" "" in
  model_runs (call_example 8) 10 0 "" "ds" "" "" s = ListModelRuns (call_example 8) 10 0 "" "ds" "" "" s /\
  match model_runs (call_example 8) 10 0 "" "ds" "" "" s with JArr l => length l = 2 | _ => False end /\
  match search_records (call_example 8) "ds" 5 0 q s with
  | Ok (JObj l) => obj_lookup "total" l = Some (JInt 2)
  | _ => False
  end.
Proof.
  intros s q.
  assert (Forall sendable [""; "ds"; ""; ""; ""; "ds"; ""; ""; ""; ""; "host-1"; ""; "true"; "false"]) as Hs
    by (repeat (apply Forall_cons; split; [split; reflexivity|]); constructor).
  destruct (queries_answer_as_specified calls_example eq_refl (call_example 8) 10 0 0 "" "ds" "" "" "" "ds" q Hs)
    as (_ & Hm & _).
  destruct (queries_answer_as_specified calls_example eq_refl (call_example 8) 5 0 0 "" "ds" "" "" "" "ds" q Hs)
    as (_ & _ & _ & _ & Hq & _).
  unfold s. split; [exact Hm|]. split; [rewrite Hm; vm_compute; reflexivity|]. rewrite Hq. vm_compute. reflexivity.
Defined.
