(* ===== verification/ScoreRun.v ===== *)
(** The score job (ApiServer::HandleScoreDatasetJob, src/src/api_server.cpp) on
    the store of DbClient when nothing goes wrong: no call fails, nobody cancels
    it and the model scores every record.  Then it completes, and its row says
    so. *)
From stdpp Require Import base gmap strings list fin_maps.
From Stdlib Require Import ZArith Lia Sorting.Sorted.
From S2P Require Import Prelude Num Linalg Detectors Json PcaModel Sql DbClient DbFacts Workers ScoreJob ScoreStore Schema.

Local Open Scope string_scope.
Local Open Scope list_scope.

Section quiet.
Context {F : Type} `{Num F} `{!FloatFmt F} `{Postgres} `{!PgInput F}.
Implicit Types (s : Store F) (j : Row F) (c : Call) (st : ApiState (Store F)).

(** What the calls of the job leave alone: the tables it reads. *)
Definition same_inputs s s' : Prop :=
  forall t, t <> "dataset_score_jobs" -> t <> "dataset_scores" -> rows s' t = rows s t.
#[global] Instance same_inputs_refl : Reflexive same_inputs.
Proof. by intros s. Qed.
#[global] Instance same_inputs_trans : Transitive same_inputs.
Proof. intros s1 s2 s3 H12 H23 t H1' H2'. by rewrite H23, H12. Qed.

Definition job_rows_of job s : list (Row F) := where_is "dataset_score_jobs" "job_id" job s.
(** The store lets the job insert scores: the rows they refer to exist. *)
Record ready ds m s : Prop := {
  rd_dataset : existsb (text_is "run_id" ds) (rows s "generation_runs") = true;
  rd_model : existsb (text_is "model_run_id" m) (rows s "model_runs") = true }.

(** The row of a score job refers to them. *)
Lemma ready_of_job ds m s j : valid s -> j ∈ rows s "dataset_score_jobs" ->
  text_is "dataset_id" ds j = true -> text_is "model_run_id" m j = true -> ready ds m s.
Proof.
  intros Hv Hj Hd%text_is_true Hm%text_is_true. pose proof (proj1 (all_references_iff s _) (v_intact s Hv)) as Hi. split.
  - pose proof (Hi ("dataset_score_jobs", "dataset_id", "generation_runs", "run_id") j ltac:(among) Hj) as Hr.
    cbn in Hr. by rewrite Hd in Hr.
  - pose proof (Hi ("dataset_score_jobs", "model_run_id", "model_runs", "model_run_id") j ltac:(among) Hj) as Hr.
    cbn in Hr. by rewrite Hm in Hr.
Qed.
Lemma ready_same ds m s s' : same_inputs s s' -> ready ds m s -> ready ds m s'.
Proof. intros Hs [Hd Hm]. split; by rewrite Hs. Qed.
Lemma records_same ds s s' : same_inputs s s' -> store_records ds s' = store_records ds s.
Proof. intros Hs. unfold store_records, dataset_rows, where_is. by rewrite Hs. Qed.
Lemma ids_same s s' : same_inputs s s' -> record_ids_unique s -> record_ids_unique s'.
Proof. intros Hs Hu ds. rewrite (dataset_rows_ext s) by by apply Hs. apply Hu. Qed.

Lemma insert_score_quiet c ds m s e : ready ds m s ->
  exists s', insert_score c ds m s e = Ok s' /\ same_inputs s s' /\ rows s' "dataset_score_jobs" = rows s "dataset_score_jobs".
Proof.
  intros [Hd Hm]. unfold insert_score, insert_row. cbn [draw_score_id]. set (s1 := MkStore _ _ _ _). set (r := DbClient.score_row _ _ _ _ _).
  assert (references_of "dataset_scores" = [("dataset_scores", "dataset_id", "generation_runs", "run_id");
    ("dataset_scores", "model_run_id", "model_runs", "model_run_id")]) as -> by reflexivity.
  assert (column r "dataset_id" = SText ds) as E1 by (unfold r, DbClient.score_row, new_row; cbn [set_columns foldr fst snd]; by sql_simpl).
  assert (column r "model_run_id" = SText m) as E2 by (unfold r, DbClient.score_row, new_row; cbn [set_columns foldr fst snd]; by sql_simpl).
  cbn [forallb reference_ok]. rewrite E1, E2. change (rows s1) with (rows s). rewrite Hd, Hm. cbn [andb].
  eexists. split; [reflexivity|]. split; [intros t Ht1 Ht2|]; by rewrite rows_put_ne.
Qed.
Lemma insert_scores_quiet c ds m sc s : c_fault c = None -> ready ds m s ->
  exists s', InsertDatasetScores c ds m sc s = (s', Ok tt) /\ same_inputs s s' /\
    rows s' "dataset_score_jobs" = rows s "dataset_score_jobs".
Proof.
  intros Hc Hr. assert (exists s', fold_res (insert_score c ds m) s sc = Ok s' /\ same_inputs s s' /\
    rows s' "dataset_score_jobs" = rows s "dataset_score_jobs") as (s' & Hf & Hs & Hj).
  { revert s Hr. induction sc as [|e sc IH]; intros s Hr; [by exists s|]. cbn [fold_res].
    destruct (insert_score_quiet c ds m s e Hr) as (s1 & -> & Hs1 & Hj1). cbn [mbind res_bind].
    destruct (IH s1 (ready_same ds m s s1 Hs1 Hr)) as (s2 & -> & Hs2 & Hj2). exists s2. split; [done|].
    split; [by etrans|congruence]. }
  exists s'. split; [|done]. unfold InsertDatasetScores, work. destruct sc as [|e sc]; [cbn in Hf; by injection Hf as ->|].
  rewrite Hc, Hf. done.
Qed.

(** ** The row of the job *)
Definition progress c status (total processed last : Z) : list (string * sql F) :=
  [("status", SText status); ("total_rows", SInt total); ("processed_rows", SInt processed);
   ("last_record_id", SInt last); ("updated_at", STime (c_now c))]
  ++ if (status =? "COMPLETED")%string then [("completed_at", STime (c_now c))] else [].

Lemma update_quiet c job status total processed last s j : c_fault c = None -> job_rows_of job s = [j] ->
  let s' := UpdateScoreJob c job status total processed last "" s in
  same_inputs s s' /\ job_rows_of job s' = [set_columns (progress c status total processed last) j].
Proof.
  intros Hc Hj s'. assert (Hs : s' = (update_rows "dataset_score_jobs" (text_is "job_id" job)
    (set_columns (progress c status total processed last)) s).1).
  { unfold s', UpdateScoreJob. by rewrite swallowed_update, Hc. }
  rewrite Hs. split; [intros t Ht _; by apply update_rows_other|]. unfold job_rows_of in *.
  rewrite where_is_update_where.
  - assert (j ∈ where_is "dataset_score_jobs" "job_id" job s) as [Hin _]%list_elem_of_filter by (rewrite Hj; left).
    rewrite Hj. cbn. by rewrite Hin.
  - intros r. apply text_is_set_columns_other. unfold progress. destruct (status =? "COMPLETED"); by_deciding.
Qed.
Lemma transition_quiet c job s j : c_fault c = None -> job_rows_of job s = [j] -> text_is "status" "PENDING" j = true ->
  exists s' j', TryTransitionScoreJobStatus c job "PENDING" "RUNNING" s = (s', true) /\ same_inputs s s' /\
    job_rows_of job s' = [j'].
Proof.
  intros Hc Hj Hp. pose proof (job_rows_try ScoreJob c job "PENDING" "RUNNING" s Hc) as Hrows.
  pose proof (won_iff ScoreJob c job "PENDING" "RUNNING" s Hc) as Hwon. unfold in_status in Hwon.
  unfold job_rows in *. cbn [job_target fst snd] in *. change (where_is _ _ job s) with (job_rows_of job s) in *.
  rewrite Hj in *. cbn [try_transition] in *.
  assert (Hsame : same_inputs s (TryTransitionScoreJobStatus c job "PENDING" "RUNNING" s).1).
  { intros t Ht _. unfold TryTransitionScoreJobStatus, work. rewrite Hc. by apply update_rows_other. }
  destruct (TryTransitionScoreJobStatus _ _ _ _ _) as [s' won]. cbn [fst snd] in *.
  exists s'. eexists. split_and!; [|done|exact Hrows]. f_equal. rewrite Hwon, countb_cons, Hp. done.
Qed.

(** ** What the job reads before it starts *)
Lemma long_field fs t r (key : string) : NoDup ((fun f : field => f.1.1) <$> fs) -> row_typed t r ->
  (read_row fs r).2 = None -> (key, key, AsInt) ∈ fs -> column_type t key = Some (NOT_NULL BIGINT) ->
  jvalue get_long key 0%Z (read_row fs r).1 = Ok (int_of key r).
Proof.
  intros Hnd Hr Hok Hin Ht. destruct (row_field fs r key key AsInt Hnd Hok Hin) as (v & l & Hv & -> & Hl).
  cbn [jvalue]. rewrite Hl. pose proof (Hr key) as Hc. rewrite Ht in Hc. unfold int_of. cbn in Hv, Hc.
  destruct (column r key); try discriminate. by injection Hv as <-.
Qed.
Lemma counters_quiet c job s j : c_fault c = None -> valid s -> job_rows_of job s = [j] ->
  job_counters (GetScoreJob c job s) = Ok (int_of "total_rows" j, int_of "processed_rows" j, int_of "last_record_id" j).
Proof.
  intros Hc Hv Hj. unfold job_counters, GetScoreJob, get_one. fold (job_rows_of job s). rewrite Hc, Hj.
  assert (Hty : row_typed "dataset_score_jobs" j).
  { apply (v_typed s Hv). assert (j ∈ job_rows_of job s) as Hin by (rewrite Hj; left). by apply list_elem_of_filter in Hin as [_ ?]. }
  assert (Hok : (read_row score_job_fields j).2 = None) by (by apply (view_ok "dataset_score_jobs")).
  rewrite !(long_field score_job_fields "dataset_score_jobs" j) by first [done|by_deciding|among]. done.
Qed.
Lemma path_quiet c m s : c_fault c = None -> valid s -> store_path m s <> "" ->
  jvalue get_string "artifact_path" "" (GetModelRun c m s) = Ok (store_path m s).
Proof.
  intros Hc Hv. unfold store_path, GetModelRun, get_one. rewrite Hc.
  destruct (where_is "model_runs" "model_run_id" m s) as [|r rs] eqn:E; [done|].
  assert (r ∈ where_is "model_runs" "model_run_id" m s) as [_ Hin]%list_elem_of_filter by (rewrite E; left).
  assert (Hok : (read_row model_run_fields r).2 = None) by (apply (view_ok "model_runs"); [by apply (v_typed s Hv)|reflexivity]).
  destruct (row_field model_run_fields r "artifact_path" "artifact_path" AsTextOrEmpty) as (v & l & Hv' & -> & Hl); [by_deciding|done|among|].
  rewrite Hv'. cbn [jvalue]. rewrite Hl. by destruct v.
Qed.

(** ** The job *)
Section run.
Context (env : ApiEnv) (get_or_create : string -> string -> res (PcaModel F)).
Context (Hquiet : forall n, c_fault (db_env env n) = None) (Hgo : forall n, stop_at env n = false).
Variables (ds m job : string) (model : PcaModel F).

(** Where the job is: the inputs of [s0], its own row, nothing read of the flag
    but false. *)
Record at_work s0 s : Prop := {
  aw_same : same_inputs s0 s;
  aw_row : exists j, job_rows_of job s = [j] }.

Lemma at_work_update s0 s c status total processed last : c_fault c = None -> at_work s0 s ->
  at_work s0 (UpdateScoreJob c job status total processed last "" s).
Proof.
  intros Hc [Hs (j & Hj)]. destruct (update_quiet c job status total processed last s j Hc Hj) as [Hs' Hj'].
  split; [by etrans|eauto].
Qed.

Lemma loop_quiet s0 fuel total processed last st :
  record_ids_unique s0 -> ready ds m s0 -> at_work s0 (world st) ->
  (forall r, r ∈ store_records ds s0 -> is_ok (score_row model r) = true) ->
  (length (after last (store_records ds s0)) < fuel)%nat ->
  exists st' l, score_loop env fuel ds m job model total processed last st
    = (st', Ok (Some ((processed + zlen (after last (store_records ds s0)))%Z, l))) /\ at_work s0 (world st').
Proof.
  intros Hids Hready. set (recs := store_records ds s0). revert processed last st.
  induction fuel as [|fuel IH]; intros processed last st Hw Hall Hlen; [lia|].
  pose proof (aw_same _ _ Hw) as Hsame. cbn [score_loop]. cbv [mbind api_bind stopped mret api_ret db_read db_run lift].
  cbn [calls reads world]. rewrite Hgo. cbn [calls reads world].
  assert (Hu : record_ids_unique (world st)) by (by apply (ids_same s0)).
  change (sd_fetch (F := F) (W := Store F)) with (@FetchScoringRowsAfterRecord F _).
  rewrite store_fetch by (unfold kScoreBatch; lia). rewrite Hquiet, (records_same ds s0) by done. fold recs. fold (after last recs).
  set (todo := after last recs) in *. set (n := Z.to_nat kScoreBatch). assert (Hn : (0 < n)%nat) by (unfold n, kScoreBatch; lia).
  destruct (take n todo) as [|r0 rs0] eqn:Erows.
  { exists (MkApi (S (calls st)) (S (reads st)) (world st)), last. split; [|done]. destruct todo; [by rewrite Z.add_0_r|by destruct n; [lia|]]. }
  rewrite <- Erows. destruct (mapR_total (score_row model) (take n todo)) as [sc ->].
  { intros r (i & Hi & _)%elem_of_take. apply Hall. by apply list_elem_of_lookup_2, list_elem_of_filter in Hi as [_ ?]. }
  cbn [calls reads world]. change (sd_insert (F := F) (W := Store F)) with (@InsertDatasetScores F).
  destruct (insert_scores_quiet (db_env env (S (calls st))) ds m sc (world st)) as (s1 & -> & Hs1 & Hj1);
    [done|by apply (ready_same ds m s0)|]. cbn [calls reads world]. unfold db_do, db_run. cbn [calls reads world].
  set (l' := default last (sr_record_id <$> list.last (take n todo))).
  assert (Hw1 : at_work s0 s1) by (destruct Hw as [? (j & Hj)]; split; [by etrans|exists j; unfold job_rows_of, where_is in *; by rewrite Hj1]).
  change (sd_update_score_job (F := F) (W := Store F)) with (@UpdateScoreJob F).
  assert (Htodo : after l' recs = drop n todo).
  { unfold l'. destruct (list.last (take n todo)) as [x|] eqn:Ex; [|rewrite last_None in Ex; congruence].
    cbn. apply after_batch; [|done]. by apply store_records_sorted. }
  set (w2 := UpdateScoreJob _ _ _ _ _ _ _ s1).
  assert (Hw2 : at_work s0 w2) by (by apply at_work_update).
  destruct (IH (processed + zlen (take n todo))%Z l' (MkApi (S (S (S (calls st)))) (S (reads st)) w2) Hw2 Hall) as (st' & l & E & Hw').
  { rewrite Htodo, length_drop. assert (0 < length todo)%nat by (rewrite <- (take_drop n todo), Erows; cbn; lia). lia. }
  exists st', l. split; [|done]. etrans; [exact E|]. do 4 f_equal. rewrite Htodo. unfold zlen.
  rewrite <- (take_drop n todo) at 3. rewrite length_app. lia.
Qed.

Lemma score_start_quiet st j : valid (world st) -> job_rows_of job (world st) = [j] -> text_is "status" "PENDING" j = true ->
  store_path m (world st) <> "" -> get_or_create m (store_path m (world st)) = Ok model ->
  exists st', score_start env get_or_create ds m job st =
      (st', Ok (Some (zlen (dataset_rows ds (world st)), int_of "processed_rows" j, int_of "last_record_id" j, model))) /\
    at_work (world st) (world st').
Proof.
  intros Hv Hj Hp Hpath Hmodel. set (s := world st) in *. unfold score_start.
  cbv [mbind api_bind db_ask db_do db_flip db_read db_run lift mret api_ret]. cbn [calls reads world].
  change (sd_get_score_job (F := F) (W := Store F)) with (@GetScoreJob F _ _). fold s.
  rewrite (counters_quiet _ job s j (Hquiet _) Hv Hj).
  change (sd_record_count (F := F) (W := Store F)) with (@GetDatasetRecordCount F).
  unfold GetDatasetRecordCount at 1, query at 1. rewrite Hquiet. cbn [calls reads world].
  change (sd_try_transition (F := F) (W := Store F)) with (@TryTransitionScoreJobStatus F).
  destruct (transition_quiet (db_env env (S (S (calls st)))) job s j) as (s1 & j1 & -> & Hs1 & Hj1); [done..|].
  cbn [calls reads world negb]. change (sd_update_score_job (F := F) (W := Store F)) with (@UpdateScoreJob F).
  assert (Hw1 : at_work s s1) by (split; eauto).
  set (w2 := UpdateScoreJob _ _ _ _ _ _ _ s1). assert (Hw2 : at_work s w2) by (by apply at_work_update).
  change (sd_get_model_run (F := F) (W := Store F)) with (@GetModelRun F _ _).
  assert (Hinfo : forall c, GetModelRun c m w2 = GetModelRun c m s).
  { intros c. unfold GetModelRun, where_is. by rewrite (aw_same _ _ Hw2). }
  rewrite Hinfo, path_quiet by done. cbn [calls reads world].
  destruct (String.eqb_spec (store_path m s) ""); [done|]. rewrite Hmodel. by eexists.
Qed.

(** The last row of the job. *)
Lemma job_quiet fuel st j :
  valid (world st) -> ready ds m (world st) -> job_rows_of job (world st) = [j] -> text_is "status" "PENDING" j = true ->
  store_path m (world st) <> "" -> get_or_create m (store_path m (world st)) = Ok model ->
  (forall r, r ∈ store_records ds (world st) -> is_ok (score_row model r) = true) ->
  (length (store_records ds (world st)) < fuel)%nat ->
  exists st' j', score_job env get_or_create fuel ds m job st = (st', Ok EndCompleted) /\
    job_rows_of job (world st') = [j'] /\ same_inputs (world st) (world st') /\
    column j' "status" = SText "COMPLETED" /\
    column j' "total_rows" = SInt (zlen (dataset_rows ds (world st))) /\
    column j' "processed_rows" =
      SInt (int_of "processed_rows" j + zlen (after (int_of "last_record_id" j) (store_records ds (world st)))).
Proof.
  intros Hv Hready Hj Hp Hpath Hmodel Hall Hfuel.
  destruct (score_start_quiet st j Hv Hj Hp Hpath Hmodel) as (st1 & Hstart & Hw1). set (s := world st) in *.
  set (total := zlen (dataset_rows ds s)) in *. set (last := int_of "last_record_id" j) in *.
  destruct (loop_quiet s fuel total (int_of "processed_rows" j) last st1 (valid_record_ids s Hv) Hready Hw1 Hall)
    as (st2 & l & Hloop & Hsame & j2 & Hj2).
  { unfold after. pose proof (length_filter (fun r => (last < sr_record_id r)%Z) (store_records ds s)). lia. }
  unfold score_job, try_catch, score_body. cbv [mbind api_bind]. rewrite Hstart, Hloop.
  unfold stopped, db_do, db_run. cbn [calls reads world]. rewrite Hgo.
  change (sd_update_score_job (F := F) (W := Store F)) with (@UpdateScoreJob F).
  destruct (update_quiet (db_env env (calls st2)) job "COMPLETED" total
    (int_of "processed_rows" j + zlen (after last (store_records ds s))) l (world st2) j2) as [Hs3 Hj3]; [done..|].
  eexists _, _. split; [reflexivity|]. cbn [world]. split; [exact Hj3|]. split; [by etrans|].
  unfold progress. cbn [String.eqb app set_columns foldr fst snd]. by sql_simpl.
Qed.
End run.
End quiet.
