(* ===== verification/Pipeline.v ===== *)
(** From training to scores: the job that trains a model, the artifact it
    writes, the cache that loads it and the job that scores the dataset with it
    (src/src/api_server.cpp), one after the other. *)
From stdpp Require Import base gmap strings list fin_maps.
From Stdlib Require Import ZArith Lia Floats Sorting.Sorted.
From S2P Require Import Prelude Num Linalg Detectors Json PcaModel Trainer BatchIterator ModelCache Sql DbClient DbFacts Workers ScoreJob ScoreStore Http TrainJob Schema ScoreRun.

Local Open Scope string_scope.
Local Open Scope list_scope.

(** ** The rows training reads are those scoring reads *)
Section passes.
Context {F : Type} `{Num F} `{!Libm F}.

Definition record_vector (r : ScoringRow F) : Z * list F :=
  (sr_record_id r, [sr_cpu r; sr_mem r; sr_disk r; sr_rx r; sr_tx r]).

Lemma train_table_records ds (s : Store F) : train_table ds s = record_vector <$> store_records ds s.
Proof. unfold train_table, store_records. rewrite <- list_fmap_compose. done. Qed.

(** Without faults, a pass reads the whole table; with batches of no row it
    reads nothing. *)
Lemma pass_reads_all (table : list (Z * list F)) fuel call it b :
  StronglySorted (fun r1 r2 => (r1.1 < r2.1)%Z) table -> Forall (fun r => (0 < r.1)%Z) table ->
  (length table < fuel)%nat -> dataset_batch_size it = b ->
  let r := for_each table (fun _ => None) fuel call it in
  dataset_batch_size r.1.1.1.1 = b /\ vectors_of r = if (b <? 1)%Z then [] else table.*2.
Proof.
  intros Hs Hp Hf Hb. destruct (Z.ltb_spec b 1) as [Hlt|Hge].
  - destruct fuel as [|fuel]; [lia|]. unfold for_each. cbn [drain]. unfold NextBatch, batch_query. cbn [Reset dataset_batch_size].
    rewrite Hb. replace (Z.to_nat b) with 0%nat by lia. by rewrite take_0.
  - pose proof (drain_ok table (fun _ => None) Hs b (length table) fuel call (Reset it) 0 0 0 Hge
      (at_row_new table Hp b it Hb) (fun _ _ => eq_refl) ltac:(right; nia) Hf) as [(Hd & _) Hv].
    unfold for_each. split; [exact Hd|]. rewrite Hv, drop_0, take_ge; [done|]. nia.
Qed.

Definition same_pass (xs : list (list F)) : nat -> list (list F) := fun i => nth i [xs; xs; xs] [].

Lemma trained_from_table (table : list (Z * list F)) env n p a :
  StronglySorted (fun r1 r2 => (r1.1 < r2.1)%Z) table -> Forall (fun r => (0 < r.1)%Z) table ->
  TrainPcaFromDb table (fun _ => None) (S (S (length table))) env n p = Ok a ->
  TrainPcaFromStream (same_pass (table.*2)) kSize n p = Ok a.
Proof.
  intros Hs Hp Ha. set (b := env_batch_size env). unfold TrainPcaFromDb, TrainPcaFromDbBatched in Ha. fold b in Ha. cbv zeta in Ha.
  destruct (pass_reads_all table (S (S (length table))) 0 (new_iter b) b Hs Hp ltac:(lia) eq_refl) as [D0 V0].
  set (p0 := for_each table _ _ 0%nat _) in *.
  destruct (pass_reads_all table (S (S (length table))) p0.2 _ b Hs Hp ltac:(lia) D0) as [D1 V1].
  set (p1 := for_each table _ _ p0.2 _) in *.
  destruct (pass_reads_all table (S (S (length table))) p1.2 _ b Hs Hp ltac:(lia) D1) as [_ V2].
  rewrite V0, V1, V2 in Ha. destruct (Z.ltb_spec b 1) as [Hlt|]; [|exact Ha].
  exfalso. apply TrainPcaFromStream_ok in Ha as (_&_&_&_&_&_&Hlen&_). cbn in Hlen. lia.
Qed.
End passes.

(** ** What scoring the records of a dataset comes to *)
Section scored.
Context {F : Type} `{Num F} `{!FloatFmt F}.

Definition outcome_of (s : PcaScore F) : F * bool := (reconstruction_error s, ps_is_anomaly s).

Lemma score_rows_of (m : PcaModel F) rs scores :
  mapR (Score m) ((record_vector <$> rs).*2) = Ok scores ->
  mapR (score_row m) rs = Ok (zip (sr_record_id <$> rs) (outcome_of <$> scores)).
Proof.
  revert scores. induction rs as [|r rs IH]; intros scores; cbn [fmap list_fmap mapR]; [by intros [= <-]|].
  intros (s & Hs & (ss & Hss & [= <-])%bind_ok)%bind_ok. cbn [snd record_vector] in Hs.
  assert (score_row m r = Ok (sr_record_id r, outcome_of s)) as -> by (unfold score_row; by rewrite Hs).
  cbn [mbind res_bind]. by rewrite (IH ss Hss).
Qed.
End scored.

(** The model as the cache gives it to a job, after [requests] for artifacts. *)
Definition cached_model {F} `{Num F} {text} `{!JsonText F text} (files : gmap string text) (max_entries max_bytes ttl : Z)
    (requests : list request) (now : time_point) (id path : string) : res (PcaModel F) :=
  let lookup p := files !! p in
  (GetOrCreate lookup now id path (foldl (serve lookup) (new_cache max_entries max_bytes ttl) requests)).2.

(** ** The two jobs *)
Section jobs.
Context {F : Type} `{NumOrder F} `{!Libm F} `{!FloatFmt F} `{Postgres} `{!PgInput F} {text : Type} `{!JsonText F text}.
Implicit Types (s : Store F) (st : ApiState (TrainWorld F text)).

Lemma valid_positive s ds : valid s -> Forall (fun r => (0 < sr_record_id r)%Z) (store_records ds s).
Proof.
  intros Hv. unfold store_records. apply Forall_fmap, Forall_forall. intros r Hr. cbn.
  rewrite (std_sort_perm by_record_id) in Hr. apply list_elem_of_filter in Hr as [_ Hr].
  pose proof (v_typed s Hv _ _ Hr "record_id") as Ht. cbn in Ht. unfold int_of.
  destruct (column r "record_id"); try discriminate Ht. cbn in Ht. lia.
Qed.
Lemma table_sorted ds s : valid s -> StronglySorted (fun r1 r2 => (r1.1 < r2.1)%Z) (train_table ds s).
Proof.
  intros Hv. rewrite train_table_records. pose proof (store_records_sorted ds s (valid_record_ids s Hv)) as Hs.
  induction Hs as [|r l Hs IH Hall]; [constructor|]. cbn. constructor; [done|]. by apply Forall_fmap.
Qed.
Lemma table_positive ds s : valid s -> Forall (fun r => (0 < r.1)%Z) (train_table ds s).
Proof. intros Hv. rewrite train_table_records. apply Forall_fmap. exact (valid_positive s ds Hv). Qed.

(** A training run that ends with a model leaves the row that names its file,
    and the file loads as that model. *)
Lemma trained_run_loads (env : ApiEnv) env_batch beats mkdir_fault can_open id ds n p st st' a r :
  (forall i, c_fault (db_env env i) = None) -> own id (world st) = [r] -> text_is "status" "PENDING" r = true ->
  valid (db (world st)) -> finite_artifact a = true ->
  RunPcaTraining env (fun _ => None) env_batch beats mkdir_fault can_open id ds n p st = (st', Ok (Trained a)) ->
  TrainPcaFromStream (same_pass (train_table ds (db (world st))).*2) kSize n p = Ok a /\
  dataset_rows ds (db (world st')) = dataset_rows ds (db (world st)) /\
  store_path id (db (world st')) = output_path id /\
  direct_load (fun path => files (world st') !! path) (output_path id) = Ok (model_of a).
Proof.
  intros Hquiet Hrow Hp Hv Hfin Hrun.
  pose proof (run_outcome env (fun _ => None) env_batch beats mkdir_fault can_open Hquiet id ds n p st r Hrow Hp) as Ho.
  rewrite Hrun in Ho. destruct Ho as ((Ht & _) & r' & Hr' & Ho).
  destruct (train_outcome _ _ _ _ _ _ _ _ _ _) as [[[a' t]|]|e] eqn:E; [|by destruct Ho|by destruct Ho].
  destruct Ho as ([= <-] & Hfiles & _ & Hpath & _).
  unfold train_outcome in E. destruct mkdir_fault; [discriminate|].
  apply bind_ok in E as (a1 & Ha & E). destruct (stop_at env (reads st)); [discriminate|].
  apply bind_ok in E as (t1 & Hw & [= -> ->]).
  pose proof (trained_from_table _ _ _ _ _ (table_sorted ds _ Hv) (table_positive ds _ Hv) Ha) as Htrain.
  split_and!; [done| | |].
  - unfold dataset_rows, where_is. by rewrite Ht.
  - unfold store_path. unfold own in Hr'. by rewrite Hr', Hpath.
  - destruct (can_open (output_path id)); [|discriminate Hw].
    apply TrainPcaFromStream_ok in Htrain as (Hn & _ & Hm & Hsc & _ & Hc & _).
    pose proof (Load_written a (Z.to_nat n) (output_path id) t Hm Hsc Hc ltac:(lia) Hw) as Hl.
    unfold direct_load. rewrite Hfiles, lookup_insert_eq. rewrite Hfin in Hl.
    destruct (Load _ _ _) as [m res]. by destruct Hl as [-> ->].
Qed.

(** The scores of the records the model was trained on. *)
Lemma scored_as_trained ds n p s a done :
  TrainPcaFromStream (same_pass (train_table ds s).*2) kSize n p = Ok a ->
  (forall x sc, x ∈ (train_table ds s).*2 -> Score (model_of a) x = Ok sc -> nonnan (reconstruction_error sc)) ->
  mapR (score_row (model_of a)) (store_records ds s) = Ok done ->
  done.*1 = sr_record_id <$> store_records ds s /\
  mapR (sample_error (scaler_mean a) (scaler_scale a) (components a) (pca_mean a)) (train_table ds s).*2 = Ok (done.*2).*1 /\
  Forall (fun e => e.2.2 = (threshold a <? e.2.1)%num) done /\
  threshold a ∈ (done.*2).*1 /\
  (countb (fun e => e.2.2) done <= length done - S (Z.to_nat (percentile_idx (zlen done) p)))%nat.
Proof.
  intros Htrain Hnan Hmap. set (xs := (train_table ds s).*2) in *.
  pose proof (TrainPcaFromStream_ok _ _ _ _ _ Htrain) as (_&_&Hm&_&_&_&_&Hall&_&errors&Herr&_).
  destruct (Score_sample_errors a xs errors) as (ss & Hss & Herrs & _); [by rewrite Hm|done|].
  destruct (trained_tail _ _ _ _ Htrain Hall Hnan) as (ss' & Hss' & Hfl & Hidx & Hin & Hc & _).
  change (same_pass xs 2) with xs in *. rewrite Hss in Hss'. injection Hss' as <-.
  pose proof (mapR_length _ _ _ Hss) as Hlen. pose proof (mapR_length _ _ _ Hmap) as Hlen'.
  assert (Hrs : length (store_records ds s) = length ss) by (rewrite Hlen; unfold xs; rewrite train_table_records; by rewrite !length_fmap).
  unfold xs in Hss. rewrite train_table_records in Hss. rewrite (score_rows_of _ _ _ Hss) in Hmap. injection Hmap as <-.
  assert (Hfst : (zip (sr_record_id <$> store_records ds s) (outcome_of <$> ss)).*1 = sr_record_id <$> store_records ds s)
    by (apply fst_zip; rewrite !length_fmap; lia).
  assert (Hsnd : (zip (sr_record_id <$> store_records ds s) (outcome_of <$> ss)).*2 = outcome_of <$> ss)
    by (apply snd_zip; rewrite !length_fmap; lia).
  set (done := zip _ _) in *.
  assert (Hcount : countb (fun e : Z * (F * bool) => e.2.2) done = countb ps_is_anomaly ss).
  { transitivity (countb snd done.*2); [by rewrite countb_fmap|]. by rewrite Hsnd, countb_fmap. }
  assert (Herr' : (done.*2).*1 = reconstruction_error <$> ss) by (rewrite Hsnd, <- list_fmap_compose; done).
  split_and!; [done|by rewrite Herr', <- Herrs| |by rewrite Herr'|].
  - assert (Forall (fun e : F * bool => e.2 = (threshold a <? e.1)%num) done.*2) as Hf by (rewrite Hsnd; by apply Forall_fmap).
    by apply Forall_fmap in Hf.
  - rewrite Hcount. unfold zlen in *. rewrite Hlen', Hrs, Hlen. exact Hc.
Qed.

Lemma trained_rows_score ds n p s a : TrainPcaFromStream (same_pass (train_table ds s).*2) kSize n p = Ok a ->
  exists done, mapR (score_row (model_of a)) (store_records ds s) = Ok done.
Proof.
  intros Htrain. pose proof (TrainPcaFromStream_ok _ _ _ _ _ Htrain) as (_&_&Hm&_&_&_&_&Hall&_&errors&Herr&_).
  destruct (Score_sample_errors a (train_table ds s).*2 errors) as (ss & Hss & _); [by rewrite Hm|done|].
  rewrite train_table_records in Hss. eexists. by apply (score_rows_of _ _ _ Hss).
Qed.
Lemma after_all ds s : valid s -> after 0 (store_records ds s) = store_records ds s.
Proof. intros Hv. unfold after. by apply filter_all, valid_positive. Qed.
Lemma cached_model_eq (files : gmap string text) max_entries max_bytes ttl requests now id path : (0 <= max_bytes < 2 ^ 63)%Z ->
  cached_model files max_entries max_bytes ttl requests now id path = direct_load (fun q => files !! q) path.
Proof.
  intros Hb. unfold cached_model. destruct (served_good (fun q => files !! q) max_entries max_bytes ttl requests Hb) as [Hg _].
  pose proof (GetOrCreate_ok _ now id path _ Hg) as Hok. destruct (GetOrCreate _ _ _ _ _) as [c res]. by destruct Hok as (_ & _ & -> & _).
Qed.
Lemma never_stops (env : ApiEnv) : (forall i, stop_at env i = false) -> stop_stays env.
Proof. intros Hgo i. by rewrite Hgo. Qed.
End jobs.

(** What must not change between the two jobs: the dataset and the run's row. *)
Definition carried {F} `{Num F} (ds id : string) (s s' : Store F) : Prop :=
  dataset_rows ds s' = dataset_rows ds s /\
  where_is "model_runs" "model_run_id" id s' = where_is "model_runs" "model_run_id" id s.

(** A score job nobody has worked on. *)
Definition new_job {F} (ds id : string) (j : Row F) : bool :=
  text_is "status" "PENDING" j && text_is "dataset_id" ds j && text_is "model_run_id" id j
  && (int_of "processed_rows" j =? 0)%Z && (int_of "last_record_id" j =? 0)%Z.

(** C14: a dataset is scored with the model trained on it.  A training job on a
    pending run, with no failing call, ends with a model whose numbers are
    finite; later, when other calls have changed anything but the dataset and
    the run's row, a new score job for the dataset and the run is executed, again
    with no failing call and not cancelled, taking its model from the cache in
    whatever state requests have left it.  Then the score job completes and its
    row says COMPLETED with every record processed; it has added one score per
    record, in record order; each is the error the training measured for that
    record, it is flagged exactly when it exceeds the trained threshold, the
    threshold is one of them, and at most the records ranked above the
    percentile index are flagged. *)
Theorem trained_runs_score_their_dataset {F} `{NumOrder F} `{!Libm F} `{!FloatFmt F} `{Postgres} `{!PgInput F}
  {text} `{!JsonText F text}
  (env : ApiEnv) (env_batch : option string) (beats : nat) (mkdir_fault : option exn) (can_open : string -> bool)
  (id ds : string) (n : Z) (p : F) (st st1 : ApiState (TrainWorld F text)) (a : PcaArtifact F) (r : Row F)
  (env' : ApiEnv) (max_entries max_bytes ttl : Z) (requests : list request) (now : time_point)
  (fuel : nat) (job : string) (st2 : ApiState (Store F)) (j : Row F)
  (Hquiet : forall i, c_fault (db_env env i) = None) (Hvalid : valid (db (world st)))
  (Hrow : own id (world st) = [r]) (Hpending : text_is "status" "PENDING" r = true)
  (Htrain : RunPcaTraining env (fun _ => None) env_batch beats mkdir_fault can_open id ds n p st = (st1, Ok (Trained a)))
  (Hfinite : finite_artifact a = true)
  (Hnan : forall x s, x ∈ (train_table ds (db (world st))).*2 -> Score (model_of a) x = Ok s -> nonnan (reconstruction_error s))
  (Hcarried : carried ds id (db (world st1)) (world st2)) (Hvalid' : valid (world st2))
  (Hbytes : (0 <= max_bytes < 2 ^ 63)%Z)
  (Hquiet' : forall i, c_fault (db_env env' i) = None) (Hgo : forall i, stop_at env' i = false)
  (Hjob : job_rows_of job (world st2) = [j]) (Hnew : new_job ds id j = true)
  (Hfuel : (length (store_records ds (world st2)) < fuel)%nat) :
  exists st3 j' done,
    score_job env' (cached_model (files (world st1)) max_entries max_bytes ttl requests now) fuel ds id job st2
      = (st3, Ok EndCompleted) /\
    job_rows_of job (world st3) = [j'] /\ column j' "status" = SText "COMPLETED" /\
    column j' "total_rows" = SInt (zlen done) /\ column j' "processed_rows" = SInt (zlen done) /\
    scores ds id (world st3) = scores ds id (world st2) ++ done /\
    done.*1 = sr_record_id <$> store_records ds (db (world st)) /\
    mapR (sample_error (scaler_mean a) (scaler_scale a) (components a) (pca_mean a)) (train_table ds (db (world st))).*2
      = Ok (done.*2).*1 /\
    Forall (fun e => e.2.2 = (threshold a <? e.2.1)%num) done /\
    threshold a ∈ (done.*2).*1 /\
    (countb (fun e => e.2.2) done <= length done - S (Z.to_nat (percentile_idx (zlen done) p)))%nat.
Proof.
  destruct (trained_run_loads env env_batch beats mkdir_fault can_open id ds n p st st1 a r) as (Hs & Hrows & Hpath & Hload);
    [done..|].
  destruct Hcarried as [Hrows' Hrun].
  assert (Hrec : store_records ds (world st2) = store_records ds (db (world st)))
    by (unfold store_records; by rewrite Hrows', Hrows).
  assert (Hpath2 : store_path id (world st2) = output_path id) by (rewrite <- Hpath; unfold store_path; by rewrite Hrun).
  set (load := cached_model (files (world st1)) max_entries max_bytes ttl requests now).
  assert (Hm : load id (output_path id) = Ok (model_of a)) by (unfold load; by rewrite cached_model_eq).
  destruct (trained_rows_score ds n p (db (world st)) a Hs) as (done & Hdone).
  unfold new_job in Hnew. rewrite !andb_true_iff in Hnew. destruct Hnew as ((((Hj1 & Hj2) & Hj3) & Hp0%Z.eqb_eq) & Hl0%Z.eqb_eq).
  assert (Hready : ready ds id (world st2)).
  { assert (j ∈ job_rows_of job (world st2)) as [_ Hin]%list_elem_of_filter by (rewrite Hjob; left). by apply (ready_of_job _ _ _ j). }
  pose proof (after_all ds (world st2) Hvalid') as Hafter.
  destruct (job_quiet env' load Hquiet' Hgo ds id job (model_of a) fuel st2 j) as (st3 & j' & E & Hj' & _ & Hst & Htot & Hproc); try done.
  { rewrite Hpath2. unfold output_path. done. }
  { by rewrite Hpath2. }
  { rewrite Hrec. by eapply mapR_is_ok. }
  pose proof (score_job_ok env' load fuel ds id job st2 (never_stops env' Hgo) (valid_record_ids _ Hvalid') Hfuel) as Hj.
  rewrite E in Hj. destruct Hj as (d & _ & _ & Hadd & _ & Hc & _). destruct (Hc eq_refl) as (last & (t & k & Hl) & m & Hm' & Hmap).
  change (model_path id (world st2)) with (store_path id (world st2)) in Hm'. rewrite Hpath2, Hm in Hm'. injection Hm' as <-.
  change (sd_get_score_job (F := F) (W := Store F)) with (@GetScoreJob F _ _) in Hl. rewrite (counters_quiet _ _ _ j), Hl0 in Hl by done.
  injection Hl as <- <- <-. cbn [records store_score_laws] in Hmap. rewrite Hafter, Hrec, take_ge, Hdone in Hmap by done. injection Hmap as <-.
  pose proof (mapR_length _ _ _ Hdone) as Hlen. exists st3, j', done.
  pose proof (scored_as_trained ds n p (db (world st)) a done Hs Hnan Hdone) as Htrained.
  split; [done|]. split; [done|]. split; [done|]. split; [|split; [|split; [done|exact Htrained]]].
  - rewrite Htot. f_equal. unfold zlen. rewrite Hlen, <- Hrec. unfold store_records. by rewrite length_fmap, length_std_sort.
  - rewrite Hproc, Hp0, Hl0, Hafter, Hrec. unfold zlen. by rewrite Hlen.
Qed.

(** ** Witness: a dataset of five records, the run, its training and a score
    job that the same process runs after an earlier inference with the model. *)
#[local] Existing Instance pg_example.
#[local] Instance pg_input_pipeline : PgInput float := pg_input_example float.
#[local] Instance tree_text_pipeline : JsonText float (option (json float)) := tree_text float.
#[local] Existing Instance libm_example.
#[local] Existing Instance fmt_example.

Definition measured (xs : list float) : TelemetryRecord float :=
  MkRecord 0 0 "host-1" "proj" "us" (vget xs 0) (vget xs 1) (vget xs 2) (vget xs 3) (vget xs 4) "{}" "ds" false "".
Definition pipeline_calls : list (Call * db_call float) :=
  (fun d => (call_example 7, d)) <$>
  [DCreateRun "ds" run_request_example (JObj []) "PENDING" ""; DBatchInsertTelemetry (measured <$> samples_example);
   DCreateModelRun "ds" "pca" (JObj []) "" JNull "" "" None].
Definition pipeline_start : ApiState (TrainWorld float (option (json float))) :=
  MkApi 0 0 (MkTrain (perform_all pipeline_calls empty_store) ∅).
Definition pipeline_trained := RunPcaTraining quiet_env (fun _ => None) (Some "2") 1 None (fun _ => true) "id-0" "ds" 1 50%float pipeline_start.
Definition pipeline_score_start : ApiState (Store float) :=
  MkApi 0 0 (perform_all [(call_example 9, DCreateScoreJob "ds" "id-0" "req")] (db (world pipeline_trained.1))).
Definition pipeline_load := cached_model (files (world pipeline_trained.1)) 10 10000 60 [RGet 1 "id-0" (output_path "id-0")] 2.
Definition pipeline_job : Row float := default ∅ (head (job_rows_of "id-1" (world pipeline_score_start))).
Definition pipeline_row : Row float := default ∅ (head (own "id-0" (world pipeline_start))).
Definition pipeline_artifact : PcaArtifact float :=
  match pipeline_trained.2 with Ok (Trained a) => a | _ => artifact_of_example end.

Lemma trained_runs_score_their_dataset_witness :
  valid (db (world pipeline_start)) /\ finite_artifact pipeline_artifact = true /\
  exists st3 (j' : Row float) (done : list (Z * (float * bool))),
    score_job quiet_env pipeline_load 6 "ds" "id-0" "id-1" pipeline_score_start = (st3, Ok EndCompleted) /\
    column j' "processed_rows" = SInt (zlen done) /\ done.*1 = [1; 2; 3; 4; 5]%Z /\ countb (fun e => e.2.2) done <= 2.
Proof.
  assert (Hv : valid (db (world pipeline_start))) by (apply perform_all_valid; [vm_compute; reflexivity|exact (empty_valid (F := float))]).
  assert (Hv2 : valid (world pipeline_score_start)).
  { change (world pipeline_score_start) with
      (perform_all [(call_example 9, DCreateScoreJob "ds" "id-0" "req")] (db (world pipeline_trained.1))).
    apply perform_all_valid; [vm_compute; reflexivity|].
    assert (db (world pipeline_trained.1) = perform_all
      [(db_env quiet_env 0, DTryTransition ModelRun "id-0" "PENDING" "RUNNING"); (db_env quiet_env 1, DHeartbeat ModelRun "id-0");
       (db_env quiet_env 2, DUpdateModelRunStatus "id-0" "COMPLETED" (output_path "id-0") "" JNull);
       (db_env quiet_env 3, DUpdateTrialEligibility "id-0" true "" (threshold pipeline_artifact) "evaluation_artifact_v1")]
      (db (world pipeline_start))) as -> by (vm_compute; reflexivity).
    apply perform_all_valid; [vm_compute; reflexivity|exact Hv]. }
  assert (Hf : finite_artifact pipeline_artifact = true) by (vm_compute; reflexivity).
  split; [exact Hv|]. split; [exact Hf|].
  assert (Hn : forallb (fun x => match Score (model_of pipeline_artifact) x with
    | Ok s => (reconstruction_error s =? reconstruction_error s)%num | Throw _ => true end)
    (train_table "ds" (db (world pipeline_start))).*2 = true) by (vm_compute; reflexivity).
  destruct (trained_runs_score_their_dataset quiet_env (Some "2") 1 None (fun _ => true) "id-0" "ds" 1 50%float
    pipeline_start pipeline_trained.1 pipeline_artifact pipeline_row quiet_env 10 10000 60 [RGet 1 "id-0" (output_path "id-0")] 2
    6 "id-1" pipeline_score_start pipeline_job) as (st3 & j' & done & Hrun & _ & _ & _ & Hproc & _ & Hids & _ & _ & _ & Hc).
  - intros i. reflexivity.
  - exact Hv.
  - vm_compute. reflexivity.
  - vm_compute. reflexivity.
  - apply pair_snd. vm_compute. reflexivity.
  - exact Hf.
  - intros x s Hx Hsc. rewrite forallb_forall in Hn. specialize (Hn x (proj1 (list_elem_of_In _ _) Hx)).
    rewrite Hsc in Hn. exact Hn.
  - split; vm_compute; reflexivity.
  - exact Hv2.
  - lia.
  - intros i. reflexivity.
  - intros i. reflexivity.
  - vm_compute. reflexivity.
  - vm_compute. reflexivity.
  - vm_compute. lia.
  - exists st3, j', done. split; [exact Hrun|]. split; [exact Hproc|]. rewrite Hids. split; [vm_compute; reflexivity|].
    assert (length done = 5) as Hl by (rewrite <- (length_fmap fst done), Hids; vm_compute; reflexivity).
    unfold zlen in Hc. rewrite Hl in Hc. vm_compute in Hc |- *. exact Hc.
Defined.
