(* ===== verification/Server.v ===== *)
(** Construction of the API server: the constructor and Initialize of
    src/src/api_server.cpp, which read the configuration from the environment
    and put the components together, and the routes that answer for the server
    itself (/healthz, /readyz, /schema/metrics, /metrics).

    The gRPC channel and the HTTP library are not part of the repository; the
    table of routes is [Routes.routes]. *)
From stdpp Require Import base gmap strings list fin_maps relations.
From Stdlib Require Import ZArith Lia Floats.
From S2P Require Import Prelude Strconv Num Json JobManager ModelCache DbPool Sql DbClient DbFacts Workers Queries Http Reconciler Routes Metrics Retention ScoreStore Schema.

Local Open Scope string_scope.

(** ** Configuration *)
Definition Environment : Type := string -> option string.
(** [if (env) { try { x = std::stoul(env); } catch (...) {} }]. *)
Definition env_number (conv : string -> res Z) (default_ : Z) (env : Environment) (name : string) : Z :=
  match env name with
  | None => default_
  | Some s => match conv s with Ok n => n | Throw _ => default_ end
  end.
Record Config := MkConfig {
  pool_size : Z; timeout_ms : Z; cache_size : Z; cache_ttl : Z; cache_max_bytes : Z }.
Definition read_config (env : Environment) : Config :=
  MkConfig (env_number stoul 5 env "DB_POOL_SIZE") (env_number stoi 5000 env "DB_ACQUIRE_TIMEOUT_MS")
    (env_number stoul 100 env "MODEL_CACHE_SIZE") (env_number stoi 3600 env "MODEL_CACHE_TTL_SECONDS")
    (env_number stoul (512 * 1024 * 1024) env "MODEL_CACHE_MAX_BYTES").

(** ** The server *)
Section server.
Context {F : Type} `{Num F}.

Record ApiServer := MkServer {
  grpc_target_ : string; db_conn_str_ : string; acquire_timeout_ : Z;
  db_manager_ : Pool; job_manager_ : JobManager; job_reconciler_ : JobReconciler (F := F); model_cache_ : PcaModelCache F }.

(** The constructor, with the database it connects to and the call the start-up
    sweep makes; the stale TTL is the constructor default of the reconciler. *)
Definition Initialize (grpc_target db_conn_str : string) (config : Config) (c : Call) (db : Store F) : ApiServer :=
  MkServer grpc_target db_conn_str (timeout_ms config) (new_pool (pool_size config)) jm_init
    (Start (ReconcileStartup c (reconciler db 600)))
    (new_cache (cache_size config) (cache_max_bytes config) (cache_ttl config)).
Definition new_server (env : Environment) (grpc_target db_conn_str : string) (c : Call) (db : Store F) : ApiServer :=
  Initialize grpc_target db_conn_str (read_config env) c db.
Definition server_db (srv : ApiServer) : Store F := rc_db (job_reconciler_ srv).

(** ** Its own routes *)
Definition healthz : Response F := MkResponse 200 (obj [("status", JStr "OK")]).
Definition quoted (s : string) : string := quote +:+ s +:+ quote.
(** [connection] is what [GetConnection] gave. *)
Definition readyz (connection : res nat) (rid : string) : res (Response F) :=
  match connection with
  | Ok _ => Ok (MkResponse 200 (obj [("status", JStr "READY")]))
  | Throw _ =>
      SendError ("{" +:+ quoted "status" +:+ ":" +:+ quoted "UNREADY" +:+ ", " +:+ quoted "reason" +:+ ":"
                 +:+ quoted "DB_CONNECTION_FAILED" +:+ "}") 503 kErrDbConnectFailed rid
  end.
Definition metric_schema (key label unit_ description : string) : json F :=
  obj [("key", JStr key); ("label", JStr label); ("type", JStr "numeric"); ("unit", JStr unit_);
       ("description", JStr description)].
Definition metrics_schema : json F :=
  obj [("metrics", JArr
    [metric_schema "cpu_usage" "CPU Usage" "%" "Percentage of CPU time used across all cores.";
     metric_schema "memory_usage" "Memory Usage" "%" "Percentage of physical RAM currently occupied.";
     metric_schema "disk_utilization" "Disk Utilization" "%" "Percentage of disk throughput capacity used.";
     metric_schema "network_rx_rate" "Network RX Rate" "Mbps" "Inbound network traffic rate.";
     metric_schema "network_tx_rate" "Network TX Rate" "Mbps" "Outbound network traffic rate."])].
Definition schema_metrics (rid : string) : res (Response F) := SendJson metrics_schema 200 rid.
(** /metrics answers with the text of the registry. *)
Definition metrics_text (to_string_long : Z -> string) (to_string_double : F -> string) (m : MetricsRegistry F) : string :=
  ToPrometheus to_string_long to_string_double m.
End server.
Arguments ApiServer F : clear implicits.

(** ** What a start-up leaves *)
Section startup.
Context {F : Type} `{Num F} `{Postgres}.
Implicit Types (s : Store F) (c : Call).

Definition job_tables : list string := ["generation_runs"; "model_runs"; "dataset_score_jobs"].
Definition active (r : Row F) : bool := text_in "status" ["RUNNING"; "PENDING"] r.

Lemma active_stale now r : is_stale now None r = active r.
Proof. unfold is_stale, active. by rewrite andb_true_r. Qed.
Lemma failed_inactive now r : active (fail_row now None r) = false.
Proof.
  unfold active, text_in, text_is, fail_row. cbn [set_columns foldr fst snd existsb]. by rewrite column_insert_eq.
Qed.
Definition recovered now (r : Row F) : Row F := if active r then fail_row now None r else r.
Lemma sweep_rows now t t' s : rows (sweep_table now None t s) t' = if (t' =? t) then recovered now <$> rows s t' else rows s t'.
Proof.
  unfold sweep_table. destruct (String.eqb_spec t' t) as [->|Hne].
  - rewrite update_rows_eq. apply list_fmap_ext. intros _ r _. unfold recovered. by rewrite active_stale.
  - by rewrite update_rows_other.
Qed.
Lemma startup_rows c s t : c_fault c = None ->
  rows (ReconcileStaleJobs c None s) t = if member t job_tables then recovered (c_now c) <$> rows s t else rows s t.
Proof.
  intros Hc. unfold ReconcileStaleJobs, swallowed, work. rewrite Hc. cbn [fst]. rewrite !sweep_rows.
  unfold member, job_tables. cbn [existsb]. destruct (String.eqb_spec t "generation_runs") as [->|];
    [done|destruct (String.eqb_spec t "model_runs") as [->|]; [done|by destruct (t =? "dataset_score_jobs")]].
Qed.
Lemma recovered_inactive now r : active (recovered now r) = false.
Proof. unfold recovered. destruct (active r) eqn:E; [apply failed_inactive|done]. Qed.
End startup.

Lemma env_number_range conv lo hi dflt env name : (lo <= dflt <= hi)%Z -> (forall s v, conv s = Ok v -> (lo <= v <= hi)%Z) ->
  (lo <= env_number conv dflt env name <= hi)%Z.
Proof.
  intros Hd Hc. unfold env_number. destruct (env name) as [s|]; [|done]. destruct (conv s) eqn:E; [|done]. by apply (Hc s).
Qed.
Lemma config_range env : let k := read_config env in
  (0 <= pool_size k < 2 ^ 64 /\ int_min <= timeout_ms k <= int_max /\ 0 <= cache_size k < 2 ^ 64 /\
   int_min <= cache_ttl k <= int_max /\ 0 <= cache_max_bytes k < 2 ^ 64)%Z.
Proof.
  assert (Hu : forall d name, (0 <= d <= 2 ^ 64 - 1)%Z -> (0 <= env_number stoul d env name < 2 ^ 64)%Z).
  { intros d name Hd. pose proof (env_number_range stoul 0 (2 ^ 64 - 1) d env name Hd) as Hr.
    enough (0 <= env_number stoul d env name <= 2 ^ 64 - 1)%Z by lia. apply Hr. intros s v Hv%stoul_range. lia. }
  assert (Hi : forall d name, (int_min <= d <= int_max)%Z -> (int_min <= env_number stoi d env name <= int_max)%Z).
  { intros d name Hd. apply env_number_range; [done|]. apply stoi_range. }
  cbv zeta. unfold read_config. cbn [pool_size timeout_ms cache_size cache_ttl cache_max_bytes].
  split_and!; first [apply Hu | apply Hi]; unfold int_min, int_max; lia.
Qed.

(** C16: a start-up leaves no job of an earlier process open.  When the
    database answers the start-up sweep, then before the first request is
    served every row of the three job tables that was RUNNING or PENDING is
    FAILED with the recovery message, every other row of every table is as it
    was, and a store that respects the schema still does; so the next score
    job asked for is a new one, whatever was open before.  The components start
    in the states their invariants begin with: an empty pool of the configured
    size, a job manager with four slots and no job, an empty cache, and the
    sweeper running; and every setting, read or defaulted, is in the range of
    its type. *)
Theorem start_up_recovers_every_open_job {F} `{Num F} `{Postgres} `{PgInput F} (env : Environment) (target conn : string)
    (c : Call) (db : Store F) (Hanswers : c_fault c = None) :
  let config := read_config env in
  let srv := new_server env target conn c db in
  let s := server_db srv in
  (forall t, rows s t = if member t job_tables then recovered (c_now c) <$> rows db t else rows db t) /\
  (forall t r, t ∈ job_tables -> r ∈ rows s t -> active r = false) /\
  (valid db -> valid s) /\
  (forall c' ds m rid id, (CreateScoreJob c' ds m rid s).2 = Ok id -> id = uuid (next_uuid s)) /\
  pool_inv (pool_size config) (db_manager_ srv) /\ JobManager.reachable 4 (job_manager_ srv) /\
  accounted 0 (model_cache_ srv) /\ running_ (job_reconciler_ srv) = true /\ sweeper_thread_ (job_reconciler_ srv) = AtLoop /\
  (0 <= pool_size config < 2 ^ 64 /\ int_min <= timeout_ms config <= int_max /\ 0 <= cache_size config < 2 ^ 64 /\
   int_min <= cache_ttl config <= int_max /\ 0 <= cache_max_bytes config < 2 ^ 64)%Z.
Proof.
  intros config srv s.
  assert (Hrows : forall t, rows s t = if member t job_tables then recovered (c_now c) <$> rows db t else rows db t)
    by (intros t; by apply startup_rows).
  assert (Hoff : forall t r, t ∈ job_tables -> r ∈ rows s t -> active r = false).
  { intros t r Ht. rewrite Hrows. apply member_iff in Ht. rewrite Ht. intros (r0 & -> & _)%list_elem_of_fmap.
    apply recovered_inactive. }
  pose proof (config_range env) as Hcfg. fold config in Hcfg. cbv zeta in Hcfg.
  split; [done|]. split; [done|]. split; [|split; [|split; [|split; [|split; [|split; [|split]]]]]]; try done.
  - apply ReconcileStaleJobs_valid.
  - intros c' ds m rid id. unfold CreateScoreJob, work. destruct (c_fault c'); [done|].
    assert (open_score_jobs ds m s = []) as ->.
    { apply filter_none, Forall_forall. intros r Hr Hopen. apply andb_true_iff in Hopen as [_ Hact].
      specialize (Hoff "dataset_score_jobs" r ltac:(by_deciding) Hr). unfold active, text_in in *. cbn [existsb] in *.
      destruct (text_is "status" "PENDING" r), (text_is "status" "RUNNING" r); done. }
    unfold insert_score_job. cbn [draw_uuid]. destruct (insert_row _ _ _); [|done]. by intros [= <-].
  - apply new_pool_inv.
  - constructor.
  - apply new_cache_accounted.
Qed.

(** ** Witness: a score job and its model were left open; DB_POOL_SIZE is set,
    the other settings are not numbers or unset. *)
#[local] Existing Instance pg_example.
#[local] Instance pg_input_server : PgInput float := pg_input_example float.
Definition environment_example : Environment := fun name =>
  if (name =? "DB_POOL_SIZE")%string then Some "8"
  else if (name =? "MODEL_CACHE_SIZE")%string then Some "many" else None.
Definition left_open : Store float := (CreateScoreJob (call_example 5) "ds" "id-0" "" store_example).1.
Definition restarted : ApiServer float := new_server environment_example "" "" (call_example 9) left_open.

Lemma start_up_recovers_every_open_job_witness :
  read_config environment_example = MkConfig 8 5000 100 3600 536870912 /\
  existsb active (rows left_open "dataset_score_jobs") = true /\
  (forall r, r ∈ rows (server_db restarted) "dataset_score_jobs" -> active r = false) /\
  (forall c' ds m rid id, (CreateScoreJob c' ds m rid (server_db restarted)).2 = Ok id -> id = "id-2").
Proof.
  destruct (start_up_recovers_every_open_job environment_example "" "" (call_example 9) left_open eq_refl)
    as (_ & Hoff & _ & Hnew & _).
  split; [vm_compute; reflexivity|]. split; [vm_compute; reflexivity|]. split.
  - intros r. apply Hoff. by_deciding.
  - intros c' ds m rid id Hid. rewrite (Hnew c' ds m rid id Hid). vm_compute. reflexivity.
Defined.
